(* ===== verification/_CoqProject ===== *)
-Q . S2P
Prelude.v
GoStrings.v
Sha256.v
GoTime.v
GoRfc3339.v
GoFloat.v
GoFlag.v
GoDuration.v
GoHttp.v
GoMux.v
GoXml.v
GoJson.v
GoXmlDecode.v
S3err.v
Sigv4.v
Presign.v
Sign.v
Store.v
Forward.v
Config.v
Oidc.v
Sts.v
Metrics.v
Server.v
Lanes.v
Logs.v
Admin.v
System.v
Concurrent.v
Valkey.v
DeviceLogin.v
Login.v
StubIssuer.v
Lab.v
LoadTest.v
Histogram.v
Portal.v
PortalPage.v
PortalProxy.v
Main.v
Notice.v
