(* ===== verification/Prelude.v ===== *)
(** * ozone-oidc-proxy: verification development (root file)

    The program is an authenticating reverse proxy in front of the Apache Ozone
    S3 Gateway.  A client obtains temporary S3 credentials by exchanging an OIDC
    token at the STS endpoint, then signs S3 requests with them (SigV4 header or
    presigned URL), or sends the token itself as a Bearer header.  The proxy
    authenticates each request and forwards it with the user's name in place of
    the access key ID, where the gateway reads the identity from.

    ** Parts of the program, and the file that models each

    - internal/sigv4: [Sigv4] (header parsing, canonical request, [Verify]),
      [Presign] (presigned URLs), [Sign] (the signer of resign mode).
    - internal/store: [Store] (records, [Mint], the interface as a class with
      its laws, the memory store and its sweeper), [Valkey] (the shared store).
    - internal/forward: [Forward] (identity injection, query stripping, and the
      reverse proxy's treatment of the request).
    - internal/s3err: [S3err].   internal/config: [Config].
    - internal/oidc: [Oidc] (the token validator and its interface).
    - internal/sts: [Sts] (the exchange handler and its XML).
    - internal/server: [Metrics] (counters, histograms and their
      registration), [Server] (dispatch, the lanes, the admin handlers),
      [Lanes] (theorems on one request), [Logs] (the log records of a request),
      [Admin] (the admin listener with its mux), [System] (theorems on
      reachable servers and on a client's whole path), [Concurrent] (requests
      whose calls on the shared parts interleave).
    - internal/devicelogin: [DeviceLogin].   cmd/ozone-login: [Login].
    - cmd/credential-portal: [Portal] (the exchange behind the home page),
      [PortalPage] (template, response writer, mux, settings), [PortalProxy]
      (the portal and the proxy composed).
    - cmd/proxy: [Main] (start-up, store selection, end of the process).
    - hack/gennotice: [Notice].
    - examples/compose: [StubIssuer] (stub-issuer), [Lab] (the stub and the
      proxy composed), [LoadTest] (loadtest), [Histogram] (the load generator
      reading the metrics of the proxy).

    The language and its standard library are modelled where the program uses
    them: this file (bytes, [res], tactics), [GoStrings] (package strings,
    strconv, hex, base64), [Sha256] (SHA-256 and HMAC, executable), [GoTime]
    (instants and durations as 64-bit nanosecond integers, the date formats),
    [GoRfc3339] (instants in JSON), [GoFloat] (float64 on the Standard Library's
    [SpecFloat]), [GoFlag] (package flag), [GoDuration] (time.ParseDuration, Duration.String), [GoHttp]
    (url.Parse, escaping, queries, header canonicalisation, requests), [GoMux]
    (http.ServeMux), [GoXml] and [GoXmlDecode] (encoding/xml, encoder and
    decoder), [GoJson] (encoding/json, both ways).  Functions of the standard
    library that would need Unicode tables or a regular-expression engine are
    the fields of the classes [GoLib] of [GoStrings] and [XmlTables] of
    [GoXmlDecode], parameters of what uses them.

    ** How the code is represented

    A Go string or []byte is a Rocq [string] of bytes.  A 64-bit integer is a
    [Z] with its wrap-around written out ([wrap64], [seconds]) and saturation
    where the library saturates ([Sub]).  A map is a [gmap]; header and query
    values keep their order.  A function that can fail returns [res] or
    [option]; error values keep the sentinel that errors.Is distinguishes and,
    where a client sees it, the message.  State is passed explicitly: the
    server is a record, a handler returns the server it leaves, the response,
    and the request handed to the reverse proxy ([handed]).  What the gateway
    receives is what the reverse proxy makes of that ([proxy_request]), and the
    theorems on attribution say of both which user they carry ([identity_of],
    [gateway_reads], [delivered]).  Mutation of a request in place is
    the returned request, also on the error path ([Sign], [ApplyResign]).  The
    clock is a sequence of readings, random bytes an entropy argument that may
    fail.  A mutex is modelled by interleaving whole critical sections, as a
    step relation; in [Concurrent] a handler is a program over its single
    calls on store, validator and metrics, and the calls of different requests
    interleave (a call of [Validate] is one step there); the worker pool of the
    load generator is a step relation over its channel.  Iteration over a Go map takes the order as an argument
    wherever the order could matter.

    Third-party code is a class of operations, with what the program relies on
    in a separate class of laws and a concrete instance that satisfies them:
    [Jwx]/[JwxLaws] in [Oidc] (JWT, JWKS cache, network), [ValkeyLib]/
    [ValkeyLaws] in [Valkey] (AES-GCM, the valkey client and server, the local
    zone), [Web]/[WebLaws] in [DeviceLogin] (HTTP, clock, error texts),
    [Desk]/[DeskLaws] in [Login] (timer, interrupt, system calls), [PortalLib]
    in [Portal] (HTTP client), [RSA] in [StubIssuer], [JwtReads] in [Lab] (how
    the JOSE library reads tokens and key sets).

    Components meet at interfaces: [Store]/[StoreLaws]/[StoreRevokes] (memory and valkey
    are instances), [TokenValidator]/[ValidatorLaws] (the oidc validator is an
    instance); [Sts], [Server], [Lanes] and [System] are proved against them.

    ** What the theorems show

    - SigV4: [Verify] and [VerifyPresigned] accept exactly what their
      declarative conditions say; a canonical request determines what was
      signed; signing and verifying agree.
    - Forwarding: in strict mode a request is forwarded if and only if it
      authenticates, and in every state reachable over the memory store the
      gateway reads from what is sent exactly the authenticated user, or no
      user if the client's Connection header names Authorization, also when the
      calls of concurrent requests interleave; each identity rewrite does what
      it should and nothing else; re-signing cannot fail on a verified request.
    - Tokens and credentials: an accepted token is authentic, signed by a key
      found where its issuer publishes them; forced refreshes of an issuer's
      keys are rate-limited; a token of the stub issuer is accepted by a fresh
      proxy and attributed to its user; an exchange
      stores exactly one record with a bounded life or nothing; credentials
      from an exchange grant access until they expire; revoked and expired ones
      are refused, over the memory store a revocation through the admin mux
      for good, and under concurrency for every request that begins after it;
      the memory store refines a map, valkey records are bound to their key and survive a
      round trip.
    - Observation: each data-path request leaves a log record with its
      outcome, no log record depends on a secret, one verdict is counted per
      SigV4 request, an error document reads back as what was reported, and a
      load test that passes bounds the true share of fast
      verifications.
    - Configuration and start-up: validation accepts exactly the valid
      configurations, and a loaded configuration always starts a server.
    - Commands: polling terminates, the token file is replaced atomically and
      over a whole run holds nothing but a whole token; the portal's form is one
      the exchange accepts, what the browser is shown is the record the proxy
      minted and stored or the refusal it answered, and the page never lets data become markup; a stub
      token decodes to the claims it was issued for; the load generator makes each
      request once and its quantile bounds are exact; a regenerated NOTICE is current.
    - Deviations: a Connection header removes the injected identity; a huge
      DurationSeconds overflows; valkey's Count includes expired records; a
      limit of NaN passes the load test; early refusals of the STS endpoint
      are not logged.

    ** Bounds and fuel

    Loops that are not structural take fuel, and a theorem says how much is
    enough.  The poll of the device flow: the lifetime in seconds plus two
    (proved in [DeviceLogin]).  The SCAN loop of valkey's Count: the number of
    pages the server returns.  The JSON decoder and ParseDuration: the length of the
    input, since each round consumes a byte; the round trips show results are
    reached.  The XML decoder: twice the length, proved enough for every input.
    The loop of ozone-login has no end of its own: the model runs a
    given number of its turns, and the theorems hold for every number.  Every
    other definition is total.  Durations in theorems are bounded where Go's
    arithmetic would overflow, and the overflow itself is a theorem.

    ** Not modelled

    Listeners, TLS, streaming and flushing; the log lines of the portal and of
    start-up; the text promhttp writes for metrics other than
    the histogram the load generator reads; the YAML decoder (an argument of
    [Parse]); the usage text package flag prints; encoding/json's nesting
    limit; generation of RSA keys; the deployment files. *)

From Stdlib Require Import Ascii String ZArith NArith Bool Lia.
From stdpp Require Import base tactics list strings gmap sorting.

(** ** Scope and notation *)

Declare Scope go_scope.
Delimit Scope go_scope with go.

(** Go string equality, as a boolean. *)
Notation "s =s t" := (String.eqb s t) (at level 70, no associativity) : go_scope.
Notation "s <>s t" := (negb (String.eqb s t)) (at level 70, no associativity) : go_scope.
Open Scope go_scope.

(** [append] computes on a known head; stdpp blocks it by default. *)
#[global] Arguments String.append !_ _ / : simpl nomatch.

Create HintDb gostr.
Create Rewrite HintDb gostr.

(** ** Bytes

    A Go [byte] is an 8-bit unsigned integer; here it is an [ascii], with
    [code] its numeric value.  Statements that hold of every byte are decided
    by running a boolean test on all 256 of them. *)

Definition code (c : ascii) : N := N_of_ascii c.

Definition chr (n : N) : ascii := ascii_of_N n.

Definition all_bytes : list ascii := map (fun n => ascii_of_nat n) (seq 0 256).

Lemma all_bytes_complete c : In c all_bytes.
Proof.
  unfold all_bytes. apply in_map_iff. exists (nat_of_ascii c). split.
  - apply ascii_nat_embedding.
  - apply in_seq. pose proof (nat_ascii_bounded c). lia.
Qed.

Lemma byte_forall (p : ascii -> bool) : forallb p all_bytes = true -> forall c, p c = true.
Proof. rewrite forallb_forall. intros H c. apply H, all_bytes_complete. Qed.

(** Decide a boolean statement about one byte by exhaustion. *)
Ltac by_bytes c :=
  generalize c; apply byte_forall; vm_compute; reflexivity.

Lemma code_chr n : (n < 256)%N -> code (chr n) = n.
Proof. apply N_ascii_embedding. Qed.

Lemma chr_code c : chr (code c) = c.
Proof. apply ascii_N_embedding. Qed.

Lemma code_bound c : (code c < 256)%N.
Proof. apply N_ascii_bounded. Qed.

Lemma code_inj c d : code c = code d -> c = d.
Proof. intros H. rewrite <- (chr_code c), <- (chr_code d). congruence. Qed.

Definition in_range (lo hi : ascii) (c : ascii) : bool :=
  (code lo <=? code c)%N && (code c <=? code hi)%N.

Definition is_digit : ascii -> bool := in_range "0" "9".
Definition is_upper : ascii -> bool := in_range "A" "Z".
Definition is_lower : ascii -> bool := in_range "a" "z".
Definition is_alnum (c : ascii) : bool := is_upper c || is_lower c || is_digit c.

(** A byte below [utf8.RuneSelf]. *)
Definition is_ascii7 (c : ascii) : bool := (code c <? 128)%N.

(** ** Strings as byte sequences *)

Fixpoint sall (p : ascii -> bool) (s : string) : bool :=
  match s with
  | EmptyString => true
  | String c s' => p c && sall p s'
  end.

Definition sany (p : ascii -> bool) (s : string) : bool := negb (sall (fun c => negb (p c)) s).

(** [s] does not contain the byte [c]. *)
Definition sfree (c : ascii) (s : string) : bool := sall (fun d => negb (Ascii.eqb c d)) s.

Fixpoint smap (f : ascii -> ascii) (s : string) : string :=
  match s with
  | EmptyString => EmptyString
  | String c s' => String (f c) (smap f s')
  end.

(** Concatenation of the images of the bytes (a [strings.Builder] loop). *)
Fixpoint sflat_map (f : ascii -> string) (s : string) : string :=
  match s with
  | EmptyString => EmptyString
  | String c s' => f c +:+ sflat_map f s'
  end.

Fixpoint sfilter (p : ascii -> bool) (s : string) : string :=
  match s with
  | EmptyString => EmptyString
  | String c s' => if p c then String c (sfilter p s') else sfilter p s'
  end.

Fixpoint stake (n : nat) (s : string) : string :=
  match n, s with
  | S n', String c s' => String c (stake n' s')
  | _, _ => EmptyString
  end.

Fixpoint sdrop (n : nat) (s : string) : string :=
  match n, s with
  | S n', String _ s' => sdrop n' s'
  | _, _ => s
  end.

Definition slist : string -> list ascii := String.list_ascii_of_string.
Definition sof : list ascii -> string := String.string_of_list_ascii.

(** *** Laws of concatenation *)

Lemma sapp_nil_r s : s +:+ "" = s.
Proof. induction s as [|c s IH]; simpl; [done|by rewrite IH]. Qed.

Lemma sapp_assoc s t u : (s +:+ t) +:+ u = s +:+ (t +:+ u).
Proof. induction s as [|c s IH]; simpl; [done|by rewrite IH]. Qed.

Lemma sapp_cons c s t : String c s +:+ t = String c (s +:+ t).
Proof. done. Qed.

Lemma sapp_cancel a x y : a +:+ x = a +:+ y -> x = y.
Proof. induction a as [|c a IH]; [done|]. cbn [String.append]. intros [= E]. by apply IH. Qed.

Lemma slength_app s t : String.length (s +:+ t) = String.length s + String.length t.
Proof. induction s as [|c s IH]; simpl; [done|]. by rewrite IH. Qed.

Lemma sempty_app s t : s +:+ t = "" <-> s = "" /\ t = "".
Proof. destruct s; simpl; split; [auto|by intros [_ ->]|discriminate|by intros [? _]]. Qed.

Lemma slength_0 s : String.length s = 0 <-> s = "".
Proof. by destruct s. Qed.

Lemma seqb_refl s : (s =s s) = true.
Proof. apply String.eqb_refl. Qed.

Lemma seqb_spec s t : reflect (s = t) (s =s t).
Proof. apply String.eqb_spec. Qed.

Lemma sneqb_true s t : (s <>s t) = true <-> s <> t.
Proof. destruct (seqb_spec s t); naive_solver. Qed.

#[export] Hint Rewrite sapp_nil_r sapp_assoc sapp_cons slength_app seqb_refl : gostr.

(** *** Predicates on all bytes *)

Lemma sall_app p s t : sall p (s +:+ t) = sall p s && sall p t.
Proof. induction s as [|c s IH]; simpl; [done|]. by rewrite IH, andb_assoc. Qed.

Lemma sall_impl (p q : ascii -> bool) s :
  (forall c, p c = true -> q c = true) -> sall p s = true -> sall q s = true.
Proof.
  intros Hpq. induction s as [|c s IH]; simpl; [done|].
  rewrite !andb_true_iff. intros [? ?]; auto.
Qed.

Lemma sall_ext (p q : ascii -> bool) s : (forall c, p c = q c) -> sall p s = sall q s.
Proof. intros E. induction s as [|c s IH]; simpl; [done|]. by rewrite E, IH. Qed.

Lemma sall_and (p q : ascii -> bool) s :
  sall (fun c => p c && q c) s = sall p s && sall q s.
Proof.
  induction s as [|c s IH]; simpl; [done|]. rewrite IH.
  by destruct (p c), (q c), (sall p s), (sall q s).
Qed.

Lemma sall_smap p f s : sall p (smap f s) = sall (fun c => p (f c)) s.
Proof. induction s as [|c s IH]; simpl; [done|]. by rewrite IH. Qed.

Lemma sall_sflat_map p f s :
  (forall c, sall p (f c) = true) -> sall p (sflat_map f s) = true.
Proof.
  intros Hf. induction s as [|c s IH]; simpl; [done|]. by rewrite sall_app, Hf, IH.
Qed.

Lemma sall_sfilter p s : sall p (sfilter p s) = true.
Proof. induction s as [|c s IH]; simpl; [done|]. destruct (p c) eqn:E; simpl; [by rewrite E|done]. Qed.

Lemma sall_stake p n s : sall p s = true -> sall p (stake n s) = true.
Proof.
  revert n. induction s as [|c s IH]; intros [|n]; simpl; try done.
  rewrite !andb_true_iff. intros [? ?]. auto.
Qed.

Lemma sfree_app c s t : sfree c (s +:+ t) = sfree c s && sfree c t.
Proof. apply sall_app. Qed.

(** The usual way to learn that a string avoids a delimiter: every byte
    satisfies a class [p], and the delimiter does not. *)
Lemma sall_sfree p c s : p c = false -> sall p s = true -> sfree c s = true.
Proof.
  intros Hc. apply sall_impl. intros d Hd.
  destruct (Ascii.eqb_spec c d); [congruence|done].
Qed.

Lemma smap_id f s : sall (fun c => Ascii.eqb (f c) c) s = true -> smap f s = s.
Proof.
  induction s as [|c s IH]; simpl; [done|].
  rewrite andb_true_iff. intros [Hc Hs]. apply Ascii.eqb_eq in Hc. by rewrite Hc, IH.
Qed.

Lemma slength_smap f s : String.length (smap f s) = String.length s.
Proof. induction s as [|c s IH]; simpl; congruence. Qed.

Lemma stake_app_length s t : stake (String.length s) (s +:+ t) = s.
Proof. induction s as [|c s IH]; simpl; congruence. Qed.

Lemma sdrop_app_length s t : sdrop (String.length s) (s +:+ t) = t.
Proof. by induction s as [|c s IH]. Qed.

Lemma stake_sdrop n s : stake n s +:+ sdrop n s = s.
Proof. revert s. induction n as [|n IH]; intros [|c s]; simpl; rewrite ?IH; done. Qed.

Lemma slength_stake n s : String.length (stake n s) = n `min` String.length s.
Proof. revert s. induction n as [|n IH]; intros [|c s]; simpl; rewrite ?IH; done. Qed.

Lemma slength_sdrop n s : String.length (sdrop n s) = String.length s - n.
Proof. revert s. induction n as [|n IH]; intros [|c s]; simpl; rewrite ?IH; done. Qed.

Lemma sfilter_all p s : sall p s = true -> sfilter p s = s.
Proof.
  induction s as [|c s IH]; simpl; [done|]. rewrite andb_true_iff. intros [-> ?].
  by rewrite IH.
Qed.

Lemma sfilter_app p s t : sfilter p (s +:+ t) = sfilter p s +:+ sfilter p t.
Proof. induction s as [|c s IH]; simpl; [done|]. rewrite IH. by destruct (p c). Qed.

Lemma sfilter_none p s : sall (fun c => negb (p c)) s = true -> sfilter p s = "".
Proof.
  induction s as [|c s IH]; simpl; [done|]. intros [Hc Hs]%andb_true_iff. apply negb_true_iff in Hc.
  by rewrite Hc, IH.
Qed.

(** ** Lists of strings *)

Lemma concat_cons2 sep x y l :
  String.concat sep (x :: y :: l) = x +:+ sep +:+ String.concat sep (y :: l).
Proof. done. Qed.

Lemma sall_concat p sep l :
  sall p sep = true -> Forall (fun s => sall p s = true) l -> sall p (String.concat sep l) = true.
Proof.
  intros Hsep. induction 1 as [|x l Hx Hl IH]; [done|].
  destruct l as [|y l]; [done|]. by rewrite concat_cons2, !sall_app, Hx, Hsep, IH.
Qed.

(** ** Machine integers

    Go's [int] and [time.Duration] are 64-bit two's complement; [wrap64] is
    the reduction every overflowing operation performs. *)

Definition min_int64 : Z := - 2 ^ 63.
Definition max_int64 : Z := 2 ^ 63 - 1.

Definition in_int64 (z : Z) : bool := (min_int64 <=? z)%Z && (z <=? max_int64)%Z.

Definition wrap64 (z : Z) : Z := ((z + 2 ^ 63) mod 2 ^ 64 - 2 ^ 63)%Z.

Lemma wrap64_id z : (min_int64 <= z <= max_int64)%Z -> wrap64 z = z.
Proof. unfold wrap64, min_int64, max_int64. intros H. rewrite Z.mod_small; lia. Qed.

Lemma wrap64_range z : (min_int64 <= wrap64 z <= max_int64)%Z.
Proof.
  unfold wrap64, min_int64, max_int64.
  pose proof (Z.mod_pos_bound (z + 2 ^ 63) (2 ^ 64)). lia.
Qed.

(** Saturation, as [time.Time.Sub] performs it. *)
Definition clamp64 (z : Z) : Z := Z.max min_int64 (Z.min max_int64 z).

Lemma clamp64_id z : (min_int64 <= z <= max_int64)%Z -> clamp64 z = z.
Proof. unfold clamp64. lia. Qed.

(** ** Errors as values

    A Go function returning [(T, error)] is a function into [res E T], where
    [E] is the part of the error its callers can tell apart. *)

Inductive res (E T : Type) : Type :=
| Ok (x : T)
| Err (e : E).
Arguments Ok {E T} x.
Arguments Err {E T} e.

Definition res_bind {E T U} (m : res E T) (k : T -> res E U) : res E U :=
  match m with
  | Ok x => k x
  | Err e => Err e
  end.

Notation "'let?' x ':=' m 'in' k" := (res_bind m (fun x => k))
  (at level 10, x name, m at level 100, k at level 200) : go_scope.

(** An option is shown to hold a value by evaluating it to its constructor. *)
Lemma some_not_none {A} (o : option A) : (if o then true else false) = true -> o <> None.
Proof. by destruct o. Qed.

Lemma res_bind_ok {E T U} (m : res E T) (k : T -> res E U) y :
  res_bind m k = Ok y <-> exists x, m = Ok x /\ k x = Ok y.
Proof. destruct m; naive_solver. Qed.

(** ** Tactics *)

(** Split every boolean conjunction among the hypotheses, and turn string
    tests into equations. *)
Ltac split_bools :=
  repeat match goal with
  | H : (_ && _)%bool = true |- _ => apply andb_true_iff in H; destruct H
  | H : (_ || _)%bool = false |- _ => apply orb_false_iff in H; destruct H
  | H : negb _ = true |- _ => apply negb_true_iff in H
  | H : negb _ = false |- _ => apply negb_false_iff in H
  | H : (_ =s _) = true |- _ => apply String.eqb_eq in H
  | H : (_ =s _) = false |- _ => apply String.eqb_neq in H
  end.

(** Case analysis on the first test of an [if] or [match] in a hypothesis. *)
Ltac case_in H :=
  match type of H with
  | context [if ?b then _ else _] => destruct b eqn:?
  | context [match ?x with _ => _ end] => destruct x eqn:?
  end.

Ltac inv_ok H := repeat (case_in H; try discriminate H); try (injection H as H); subst.
