(* ===== verification/GoStrings.v ===== *)
(** * The Go standard library used by the proxy: strings, strconv, hex, base64

    The functions of packages [strings], [strconv], [encoding/hex] and
    [encoding/base64] that the sources call, as executable definitions, with
    the lemmas the components use.  Separators are single bytes because every
    call in the sources passes a one-byte separator. *)

From Stdlib Require Import Ascii String ZArith NArith Bool Lia.
From stdpp Require Import base tactics list strings gmap sorting.
From S2P Require Import Prelude.

(** ** Library tables kept abstract

    Five standard-library services are data tables or interpreters of
    operator-supplied text rather than logic of this program; they are
    parameters.

    - [unicode_lower s]: [strings.Map(unicode.ToLower, s)], consulted only for
      a string that has a byte outside ASCII;
    - [quote s]: [strconv.Quote], the [%q] verb of error messages;
    - [ip_literal_host h]: what [url.parseHost] makes of a bracketed IP
      literal [h] ([None] when it is refused);
    - [mime_params_ok p]: whether [mime.ParseMediaType] accepts the parameter
      part [p] (from the first [;] on) of a media type;
    - [regexp_compile p]: [regexp.Compile], giving the [MatchString] predicate
      of a pattern or [None] when the pattern is rejected. *)
Class GoLib := {
  unicode_lower : string -> string;
  quote : string -> string;
  ip_literal_host : string -> option string;
  mime_params_ok : string -> bool;
  regexp_compile : string -> option (string -> bool)
}.

(** ** package strings *)

Fixpoint HasPrefix (s prefix : string) {struct prefix} : bool :=
  match prefix, s with
  | EmptyString, _ => true
  | String p prefix', String c s' => Ascii.eqb p c && HasPrefix s' prefix'
  | String _ _, EmptyString => false
  end.

Definition HasSuffix (s suffix : string) : bool :=
  (String.length suffix <=? String.length s)%nat
  && (sdrop (String.length s - String.length suffix) s =s suffix).

Definition CutPrefix (s prefix : string) : option string :=
  if HasPrefix s prefix then Some (sdrop (String.length prefix) s) else None.

Definition TrimPrefix (s prefix : string) : string :=
  default s (CutPrefix s prefix).

(** [strings.Split(s, sep)]: always at least one element. *)
Fixpoint Split (sep : ascii) (s : string) : list string :=
  match s with
  | EmptyString => [EmptyString]
  | String c s' =>
      if Ascii.eqb c sep then EmptyString :: Split sep s'
      else match Split sep s' with
           | w :: ws => String c w :: ws
           | [] => [String c EmptyString]
           end
  end.

(** [strings.Cut(s, sep)]: before, after, found. *)
Fixpoint Cut (sep : ascii) (s : string) : string * string * bool :=
  match s with
  | EmptyString => (EmptyString, EmptyString, false)
  | String c s' =>
      if Ascii.eqb c sep then (EmptyString, s', true)
      else let '(a, b, found) := Cut sep s' in (String c a, b, found)
  end.

Definition Join (l : list string) (sep : string) : string := String.concat sep l.

Definition ascii_space (c : ascii) : bool :=
  match code c with
  | 9 | 10 | 11 | 12 | 13 | 32 => true
  | _ => false
  end%N.

(** Width in bytes of the white-space rune ([unicode.IsSpace]) at the head of
    [s], 0 if there is none: the six ASCII ones, U+0085, U+00A0, U+1680,
    U+2000..U+200A, U+2028, U+2029, U+202F, U+205F and U+3000 in UTF-8. *)
Definition space_width (s : string) : nat :=
  match s with
  | EmptyString => 0
  | String a r =>
      if ascii_space a then 1
      else match r with
      | EmptyString => 0
      | String b r' =>
          if ((code a =? 194) && ((code b =? 133) || (code b =? 160)))%N then 2
          else match r' with
          | EmptyString => 0
          | String c _ =>
              if (((code a =? 225) && (code b =? 154) && (code c =? 128))
                  || ((code a =? 226) && (code b =? 128)
                      && (((128 <=? code c) && (code c <=? 138))
                          || (code c =? 168) || (code c =? 169) || (code c =? 175)))
                  || ((code a =? 226) && (code b =? 129) && (code c =? 159))
                  || ((code a =? 227) && (code b =? 128) && (code c =? 128)))%N
              then 3 else 0
          end
      end
  end.

(** Drop leading white space; [skip] counts the remaining bytes of the rune
    being dropped. *)
Fixpoint trim_left (s : string) (skip : nat) : string :=
  match s with
  | EmptyString => EmptyString
  | String c s' =>
      match skip with
      | S k => trim_left s' k
      | 0 => match space_width s with
             | 0 => s
             | S w => trim_left s' w
             end
      end
  end.

(** Drop the longest suffix made of white-space runes. *)
Fixpoint trim_right (s : string) : string :=
  match s with
  | EmptyString => EmptyString
  | String c s' =>
      if trim_left s 0 =s "" then EmptyString else String c (trim_right s')
  end.

Definition TrimSpace (s : string) : string := trim_right (trim_left s 0).

(** [strings.Fields]: the maximal runs between white-space runes. *)
Fixpoint fields_go (s : string) (skip : nat) (cur : string) : list string :=
  let flush := if cur =s "" then [] else [cur] in
  match s with
  | EmptyString => flush
  | String c s' =>
      match skip with
      | S k => fields_go s' k cur
      | 0 => match space_width s with
             | 0 => fields_go s' 0 (cur +:+ String c EmptyString)
             | S w => flush ++ fields_go s' w EmptyString
             end
      end
  end.

Definition Fields (s : string) : list string := fields_go s 0 EmptyString.

Definition lower_byte (c : ascii) : ascii :=
  if is_upper c then chr (code c + 32) else c.

Definition upper_byte (c : ascii) : ascii :=
  if is_lower c then chr (code c - 32) else c.

Definition ToLower `{GoLib} (s : string) : string :=
  if sall is_ascii7 s then smap lower_byte s else unicode_lower s.

(** [strings.TrimRight(s, cutset)] for a one-byte cutset. *)
Fixpoint TrimRight (cut : ascii) (s : string) : string :=
  match s with
  | EmptyString => EmptyString
  | String c s' =>
      if sall (Ascii.eqb cut) s then EmptyString else String c (TrimRight cut s')
  end.

(** ** package strconv *)

Definition digit_val (c : ascii) : Z := Z.of_N (code c) - 48.

Fixpoint decimal (acc : Z) (s : string) : option Z :=
  match s with
  | EmptyString => Some acc
  | String c s' => if is_digit c then decimal (acc * 10 + digit_val c) s' else None
  end.

(** [strconv.Atoi]: optional sign, at least one digit, fits in an int64. *)
Definition Atoi (s : string) : option Z :=
  let parse (neg : bool) (t : string) :=
    if t =s "" then None
    else match decimal 0 t with
         | Some n =>
             let z := if neg then (- n)%Z else n in
             if in_int64 z then Some z else None
         | None => None
         end in
  match s with
  | String "-" t => parse true t
  | String "+" t => parse false t
  | _ => parse false s
  end.

Definition digit_chr (d : Z) : ascii := chr (Z.to_N (48 + d)).

(** The [n] least significant decimal digits of [z], most significant first. *)
Fixpoint digits (n : nat) (z : Z) : string :=
  match n with
  | 0 => EmptyString
  | S n' => digits n' (z / 10) +:+ String (digit_chr (z mod 10)) EmptyString
  end.

Fixpoint ndigits (fuel : nat) (z : Z) : nat :=
  match fuel with
  | 0 => 1
  | S f => if (z <? 10)%Z then 1 else S (ndigits f (z / 10))
  end.

(** [strconv.FormatInt(z, 10)] for an int64 (at most 19 digits). *)
Definition Itoa (z : Z) : string :=
  if (z <? 0)%Z then String "-" (digits (ndigits 19 (- z)) (- z)) else digits (ndigits 19 z) z.

(** ** package encoding/hex *)

Definition hex_digit (n : N) : ascii :=
  chr (if (n <? 10)%N then 48 + n else 87 + n).

Definition hex_byte (c : ascii) : string :=
  String (hex_digit (code c / 16)) (String (hex_digit (code c mod 16)) EmptyString).

Definition EncodeToString (s : string) : string := sflat_map hex_byte s.

Definition is_hex (c : ascii) : bool :=
  is_digit c || in_range "a" "f" c || in_range "A" "F" c.

(** Whether [hex.DecodeString] succeeds: even length, hex digits only. *)
Definition hex_decodable (s : string) : bool :=
  Nat.even (String.length s) && sall is_hex s.

Definition is_lower_hex (c : ascii) : bool := is_digit c || in_range "a" "f" c.

(** ** package encoding/base64, RawURLEncoding *)

Definition base64url : string :=
  "ABCDEFGHIJKLMNOPQRSTUVWXYZabcdefghijklmnopqrstuvwxyz0123456789-_".

Definition b64_chr (n : N) : ascii := default "A"%char (String.get (N.to_nat n) base64url).

Fixpoint RawURLEncode (s : string) : string :=
  match s with
  | EmptyString => EmptyString
  | String a EmptyString =>
      let v := (code a * 65536)%N in
      String (b64_chr (v / 262144 mod 64)) (String (b64_chr (v / 4096 mod 64)) EmptyString)
  | String a (String b EmptyString) =>
      let v := (code a * 65536 + code b * 256)%N in
      String (b64_chr (v / 262144 mod 64)) (String (b64_chr (v / 4096 mod 64))
        (String (b64_chr (v / 64 mod 64)) EmptyString))
  | String a (String b (String c r)) =>
      let v := (code a * 65536 + code b * 256 + code c)%N in
      String (b64_chr (v / 262144 mod 64)) (String (b64_chr (v / 4096 mod 64))
        (String (b64_chr (v / 64 mod 64)) (String (b64_chr (v mod 64)) (RawURLEncode r))))
  end.

(** ** Lemmas: prefixes *)

Lemma HasPrefix_app p s : HasPrefix (p +:+ s) p = true.
Proof. induction p as [|c p IH]; simpl; [by destruct s|]. by rewrite Ascii.eqb_refl. Qed.

Lemma HasPrefix_true s p : HasPrefix s p = true <-> exists t, s = p +:+ t.
Proof.
  split; [|intros [t ->]; apply HasPrefix_app].
  revert s. induction p as [|c p IH]; intros [|d s]; simpl; eauto; try done.
  rewrite andb_true_iff. intros [->%Ascii.eqb_eq Hp]. destruct (IH _ Hp) as [t ->]. eauto.
Qed.

Lemma HasSuffix_app s t : HasSuffix (s +:+ t) t = true.
Proof.
  unfold HasSuffix. rewrite slength_app, (proj2 (Nat.leb_le _ _)) by lia.
  replace (String.length s + String.length t - String.length t)%nat with (String.length s) by lia.
  by rewrite sdrop_app_length, seqb_refl.
Qed.

Lemma HasSuffix_true s t : HasSuffix s t = true -> exists p, s = p +:+ t.
Proof.
  unfold HasSuffix. intros [_ E]%andb_true_iff. apply String.eqb_eq in E.
  exists (stake (String.length s - String.length t) s). rewrite <- E at 2. by rewrite stake_sdrop.
Qed.

Lemma CutPrefix_app p s : CutPrefix (p +:+ s) p = Some s.
Proof. unfold CutPrefix. by rewrite HasPrefix_app, sdrop_app_length. Qed.

Lemma CutPrefix_Some s p t : CutPrefix s p = Some t <-> s = p +:+ t.
Proof.
  split; [|intros ->; apply CutPrefix_app].
  unfold CutPrefix. destruct (HasPrefix s p) eqn:E; [|done].
  apply HasPrefix_true in E as [u ->]. rewrite sdrop_app_length. congruence.
Qed.

Lemma HasPrefix_weaken s p q : HasPrefix s (p +:+ q) = true -> HasPrefix s p = true.
Proof.
  rewrite !HasPrefix_true. intros [t ->]. exists (q +:+ t). by rewrite sapp_assoc.
Qed.

(** *** Prefix codes *)

Lemma app_comparable a b x y : a +:+ x = b +:+ y -> HasPrefix a b = true \/ HasPrefix b a = true.
Proof.
  revert b. induction a as [|c a IH]; intros [|d b] E; [by left|by right|by left|].
  cbn [String.append] in E. injection E as <- E. simpl. rewrite Ascii.eqb_refl. by apply IH.
Qed.

(** A bytewise encoding none of whose code words is a prefix of another is
    injective. *)
Lemma sflat_map_inj (f : ascii -> string) (p : ascii -> bool) :
  (forall c d, p c = true -> p d = true -> HasPrefix (f c) (f d) = true -> c = d) ->
  (forall c, f c <> "") ->
  forall s t, sall p s = true -> sall p t = true -> sflat_map f s = sflat_map f t -> s = t.
Proof.
  intros Hp Hne s. induction s as [|c s IH]; intros [|d t] Hs Ht E; cbn [sflat_map] in E; [done|..].
  - symmetry in E. apply sempty_app in E as [E _]. by apply Hne in E.
  - apply sempty_app in E as [E _]. by apply Hne in E.
  - cbn [sall] in Hs, Ht. split_bools.
    assert (c = d) as <-.
    { destruct (app_comparable _ _ _ _ E) as [Hc|Hc]; [by apply Hp|symmetry; by apply Hp]. }
    f_equal. apply IH; [done|done|]. by apply sapp_cancel in E.
Qed.

#[global] Arguments HasPrefix : simpl never.

(** ** Lemmas: splitting and joining *)

Lemma Split_free sep s : sfree sep s = true -> Split sep s = [s].
Proof.
  induction s as [|c s IH]; simpl; [done|].
  unfold sfree in *. simpl. rewrite andb_true_iff. intros [Hc Hs].
  rewrite Ascii.eqb_sym. apply negb_true_iff in Hc. by rewrite Hc, (IH Hs).
Qed.

Lemma Split_app sep s t :
  sfree sep s = true -> Split sep (s +:+ String sep t) = s :: Split sep t.
Proof.
  induction s as [|c s IH]; simpl.
  - intros _. by rewrite Ascii.eqb_refl.
  - unfold sfree in *. simpl. rewrite andb_true_iff. intros [Hc Hs].
    rewrite Ascii.eqb_sym. apply negb_true_iff in Hc. by rewrite Hc, (IH Hs).
Qed.

Lemma Split_Join sep l :
  l <> [] -> Forall (fun s => sfree sep s = true) l ->
  Split sep (Join l (String sep "")) = l.
Proof.
  intros Hne Hl. induction Hl as [|x l Hx Hl IH]; [done|].
  destruct l as [|y l].
  - by apply Split_free.
  - unfold Join in *. rewrite concat_cons2. cbn [String.append]. rewrite Split_app by done.
    by rewrite IH.
Qed.

Lemma Join_Split sep s : Join (Split sep s) (String sep "") = s.
Proof.
  unfold Join. induction s as [|c s IH]; [done|]. simpl Split.
  assert (Split sep s <> []) as Hne.
  { clear. destruct s as [|d s]; simpl; [done|].
    destruct (Ascii.eqb d sep); [done|]. by destruct (Split sep s). }
  destruct (Ascii.eqb_spec c sep) as [->|Hc]; destruct (Split sep s) as [|w ws]; try done.
  - rewrite concat_cons2, IH. done.
  - rewrite <- IH. by destruct ws.
Qed.

Lemma Split_parts_free sep s : Forall (fun w => sfree sep w = true) (Split sep s).
Proof.
  induction s as [|c s IH]; simpl; [by repeat constructor|].
  destruct (Ascii.eqb_spec c sep) as [->|Hc]; [by constructor|].
  destruct (Split sep s) as [|w ws].
  - constructor; [|done]. unfold sfree. simpl.
    destruct (Ascii.eqb_spec sep c); [congruence|done].
  - inversion IH; subst. constructor; [|done]. unfold sfree in *. simpl.
    destruct (Ascii.eqb_spec sep c); [congruence|done].
Qed.

Lemma Cut_app sep s t :
  sfree sep s = true -> Cut sep (s +:+ String sep t) = (s, t, true).
Proof.
  induction s as [|c s IH]; simpl.
  - by rewrite Ascii.eqb_refl.
  - unfold sfree in *. simpl. rewrite andb_true_iff. intros [Hc Hs].
    rewrite Ascii.eqb_sym. apply negb_true_iff in Hc. by rewrite Hc, (IH Hs).
Qed.

(** ** Lemmas: white space *)

(** A visible ASCII byte: never part of a white-space rune. *)
Definition is_graph (c : ascii) : bool := is_ascii7 c && negb (ascii_space c).

Lemma space_width_graph c s : is_graph c = true -> space_width (String c s) = 0.
Proof.
  intros Hc. unfold is_graph in Hc. split_bools. simpl.
  match goal with H : ascii_space _ = false |- _ => rewrite H end.
  unfold is_ascii7 in *. apply N.ltb_lt in H.
  destruct s as [|b s]; [done|].
  assert ((code c =? 194) = false)%N as -> by (apply N.eqb_neq; lia). simpl.
  destruct s as [|d s]; [done|].
  assert ((code c =? 225) = false)%N as -> by (apply N.eqb_neq; lia).
  assert ((code c =? 226) = false)%N as -> by (apply N.eqb_neq; lia).
  by assert ((code c =? 227) = false)%N as -> by (apply N.eqb_neq; lia).
Qed.

Lemma trim_left_graph c s : is_graph c = true -> trim_left (String c s) 0 = String c s.
Proof. intros Hc. cbn [trim_left]. by rewrite (space_width_graph _ _ Hc). Qed.

(** The bytes of a rune after its first one are never ASCII, so a white-space
    rune cannot swallow a trailing visible ASCII byte. *)
Lemma space_width_before_graph a u c w :
  is_graph c = true -> space_width (String a (u +:+ String c "")) = S w -> w <= String.length u.
Proof.
  intros Hc. unfold is_graph, is_ascii7 in Hc. split_bools.
  match goal with H : (_ <? _)%N = true |- _ => apply N.ltb_lt in H end.
  cbn [space_width]. destruct (ascii_space a); [intros [= <-]; lia|].
  destruct u as [|b u]; simpl.
  - rewrite (proj2 (N.eqb_neq (code c) 133)), (proj2 (N.eqb_neq (code c) 160)) by lia.
    by rewrite andb_false_r.
  - destruct (_ && _)%bool; [intros [= <-]; lia|].
    destruct u as [|d u]; simpl.
    + assert ((128 <=? code c) = false)%N as -> by (apply N.leb_gt; lia).
      rewrite !(proj2 (N.eqb_neq (code c) _)) by lia.
      by rewrite !andb_false_r.
    + destruct (_ || _)%bool; intros [= <-]; lia.
Qed.

Lemma trim_left_nonempty u c k :
  is_graph c = true -> k <= String.length u -> trim_left (u +:+ String c "") k <> "".
Proof.
  intros Hc. revert k. induction u as [|a u IH]; intros k Hk.
  - replace k with 0 by (simpl in Hk; lia). simpl (_ +:+ _). by rewrite trim_left_graph.
  - rewrite sapp_cons. destruct k as [|k]; cbn [trim_left].
    + destruct (space_width _) as [|w] eqn:E; [done|].
      apply IH. by eapply space_width_before_graph.
    + apply IH. simpl in Hk. lia.
Qed.

Lemma trim_right_graph u c :
  is_graph c = true -> trim_right (u +:+ String c "") = u +:+ String c "".
Proof.
  intros Hc. induction u as [|a u IH].
  - cbn [trim_right String.append]. rewrite trim_left_graph by done. done.
  - rewrite sapp_cons. cbn [trim_right].
    pose proof (trim_left_nonempty (String a u) c 0 Hc ltac:(lia)) as Hne.
    rewrite sapp_cons in Hne. apply String.eqb_neq in Hne. by rewrite Hne, IH.
Qed.

(** A string that begins and ends with a visible ASCII byte is its own trim;
    what is in between does not matter. *)
Lemma TrimSpace_graph a c u :
  is_graph a = true -> is_graph c = true ->
  TrimSpace (String a (u +:+ String c "")) = String a (u +:+ String c "").
Proof.
  intros Ha Hc. unfold TrimSpace. rewrite trim_left_graph by done.
  rewrite <- sapp_cons. by apply trim_right_graph.
Qed.

Lemma TrimSpace_space s : TrimSpace (String " " s) = TrimSpace s.
Proof. done. Qed.

Lemma snoc_cases s : s = "" \/ exists t c, s = t +:+ String c "".
Proof.
  induction s as [|a s IH]; [by left|right].
  destruct IH as [->|(t & c & ->)]; [by exists "", a|by exists (String a t), c].
Qed.

Lemma TrimSpace_all_graph s : sall is_graph s = true -> TrimSpace s = s.
Proof.
  destruct (snoc_cases s) as [->|(t & c & ->)]; [done|].
  rewrite sall_app. simpl. rewrite andb_true_r, andb_true_iff. intros [Ht Hc].
  destruct t as [|a t].
  - unfold TrimSpace. simpl (_ +:+ _). rewrite trim_left_graph by done.
    apply (trim_right_graph "" c Hc).
  - simpl in Ht. split_bools. rewrite sapp_cons. by apply TrimSpace_graph.
Qed.

Lemma fields_go_graph s cur :
  sall is_graph s = true -> cur +:+ s <> "" -> fields_go s 0 cur = [cur +:+ s].
Proof.
  revert cur. induction s as [|c s IH]; intros cur Hs Hne.
  - rewrite sapp_nil_r in *. cbn [fields_go]. apply String.eqb_neq in Hne. by rewrite Hne.
  - simpl in Hs. split_bools. cbn [fields_go]. rewrite space_width_graph by done.
    rewrite IH, sapp_assoc; [done|done|].
    rewrite sapp_assoc. intros E. apply sempty_app in E as [_ E]. done.
Qed.

Lemma Fields_graph s : sall is_graph s = true -> s <> "" -> Fields s = [s].
Proof. intros. by apply (fields_go_graph s ""). Qed.

(** ** Lemmas: case folding *)

Lemma lower_byte_idem c : lower_byte (lower_byte c) = lower_byte c.
Proof. apply Ascii.eqb_eq. by_bytes c. Qed.

Lemma ToLower_ascii `{GoLib} s : sall is_ascii7 s = true -> ToLower s = smap lower_byte s.
Proof. intros E. unfold ToLower. by rewrite E. Qed.

Lemma ToLower_id `{GoLib} s :
  sall (fun c => is_ascii7 c && negb (is_upper c)) s = true -> ToLower s = s.
Proof.
  rewrite sall_and, andb_true_iff. intros [H7 Hu]. rewrite ToLower_ascii by done.
  apply smap_id. revert Hu. apply sall_impl. intros c Hc. unfold lower_byte.
  apply negb_true_iff in Hc. by rewrite Hc, Ascii.eqb_refl.
Qed.

(** ** Lemmas: hexadecimal *)

Lemma slength_EncodeToString s : String.length (EncodeToString s) = 2 * String.length s.
Proof. unfold EncodeToString. induction s as [|c s IH]; simpl; [done|]. rewrite IH. lia. Qed.

Lemma hex_byte_lower c : sall is_lower_hex (hex_byte c) = true.
Proof. by_bytes c. Qed.

Lemma EncodeToString_lower s : sall is_lower_hex (EncodeToString s) = true.
Proof. apply sall_sflat_map, hex_byte_lower. Qed.

Lemma lower_hex_is_hex c : is_lower_hex c = true -> is_hex c = true.
Proof. unfold is_hex, is_lower_hex. destruct (is_digit c), (in_range "a" "f" c); done. Qed.

Lemma lower_hex_graph c : implb (is_lower_hex c) (is_graph c && negb (is_upper c)) = true.
Proof. by_bytes c. Qed.

(** ** Lemmas: base64url *)

Definition is_base64url (c : ascii) : bool :=
  is_alnum c || Ascii.eqb c "-" || Ascii.eqb c "_".

Lemma b64_chr_class n : (n < 64)%N -> is_base64url (b64_chr n) = true.
Proof.
  intros Hn. assert (In n (map N.of_nat (seq 0 64))) as Hin.
  { apply in_map_iff. exists (N.to_nat n). split; [lia|]. apply in_seq. lia. }
  clear Hn. revert n Hin. apply (proj1 (forallb_forall (fun n => is_base64url (b64_chr n)) _)).
  vm_compute. reflexivity.
Qed.

(** ** A concrete library

    The ASCII reading of the tables, with the username patterns the project
    ships: what witnesses and examples evaluate with. *)

Definition quote_ascii (s : string) : string :=
  String (chr 34) (s +:+ String (chr 34) EmptyString).

(** The default [username_policy.pattern]. *)
Definition default_username_pattern : string := "^[A-Za-z0-9._@-]{1,64}$".

Definition username_byte (c : ascii) : bool := is_alnum c || negb (sfree c "._@-").

(** What that pattern matches: one to sixty-four bytes of the class. *)
Definition default_username_match (s : string) : bool :=
  (1 <=? String.length s)%nat && (String.length s <=? 64)%nat && sall username_byte s.

Definition ascii_lib : GoLib := {|
  unicode_lower := smap lower_byte;
  quote := quote_ascii;
  ip_literal_host := fun _ => None;
  mime_params_ok := fun _ => true;
  regexp_compile := fun p =>
    if p =s default_username_pattern then Some default_username_match else None
|}.
