(* ===== verification/Sha256.v ===== *)
(** * crypto/sha256 and crypto/hmac

    SHA-256 (FIPS 180-4) and HMAC (RFC 2104) as executable functions on byte
    strings, so that signatures are computed and not assumed: the test vectors
    of the repository evaluate inside the kernel. *)

From Stdlib Require Import Ascii String NArith Bool Lia.
From stdpp Require Import base tactics list strings.
From S2P Require Import Prelude GoStrings.
Local Open Scope N_scope.

Definition w32 (n : N) : N := n mod 4294967296.

Definition rotr (k : N) (x : N) : N :=
  N.lor (N.shiftr x k) (w32 (N.shiftl x (32 - k))).

Definition ch (x y z : N) : N := N.lxor (N.land x y) (N.land (N.lxor x 4294967295) z).
Definition maj (x y z : N) : N := N.lxor (N.land x y) (N.lxor (N.land x z) (N.land y z)).
Definition bsig0 (x : N) : N := N.lxor (rotr 2 x) (N.lxor (rotr 13 x) (rotr 22 x)).
Definition bsig1 (x : N) : N := N.lxor (rotr 6 x) (N.lxor (rotr 11 x) (rotr 25 x)).
Definition ssig0 (x : N) : N := N.lxor (rotr 7 x) (N.lxor (rotr 18 x) (N.shiftr x 3)).
Definition ssig1 (x : N) : N := N.lxor (rotr 17 x) (N.lxor (rotr 19 x) (N.shiftr x 10)).

Definition round_constants : list N :=
  [1116352408; 1899447441; 3049323471; 3921009573; 961987163; 1508970993; 2453635748;
   2870763221; 3624381080; 310598401; 607225278; 1426881987; 1925078388; 2162078206;
   2614888103; 3248222580; 3835390401; 4022224774; 264347078; 604807628; 770255983;
   1249150122; 1555081692; 1996064986; 2554220882; 2821834349; 2952996808; 3210313671;
   3336571891; 3584528711; 113926993; 338241895; 666307205; 773529912; 1294757372;
   1396182291; 1695183700; 1986661051; 2177026350; 2456956037; 2730485921; 2820302411;
   3259730800; 3345764771; 3516065817; 3600352804; 4094571909; 275423344; 430227734;
   506948616; 659060556; 883997877; 958139571; 1322822218; 1537002063; 1747873779;
   1955562222; 2024104815; 2227730452; 2361852424; 2428436474; 2756734187; 3204031479;
   3329325298].

Record state := St { ha : N; hb : N; hc : N; hd : N; he : N; hf : N; hg : N; hh : N }.

Definition initial_state : state :=
  St 1779033703 3144134277 1013904242 2773480762 1359893119 2600822924 528734635 1541459225.

Definition round (s : state) (kw : N * N) : state :=
  let t1 := hh s + bsig1 (he s) + ch (he s) (hf s) (hg s) + fst kw + snd kw in
  let t2 := bsig0 (ha s) + maj (ha s) (hb s) (hc s) in
  St (w32 (t1 + t2)) (ha s) (hb s) (hc s) (w32 (hd s + t1)) (he s) (hf s) (hg s).

(** Message schedule: the last 16 words, newest first, extended [n] times. *)
Fixpoint schedule (n : nat) (ws : list N) : list N :=
  match n with
  | O => ws
  | S n' =>
      let get i := nth i ws 0 in
      schedule n' (w32 (ssig1 (get 1%nat) + get 6%nat + ssig0 (get 14%nat) + get 15%nat) :: ws)
  end.

Definition add_state (s t : state) : state :=
  St (w32 (ha s + ha t)) (w32 (hb s + hb t)) (w32 (hc s + hc t)) (w32 (hd s + hd t))
     (w32 (he s + he t)) (w32 (hf s + hf t)) (w32 (hg s + hg t)) (w32 (hh s + hh t)).

(** One 64-byte block, given as its 16 big-endian words. *)
Definition compress (s : state) (block : list N) : state :=
  let ws := rev (schedule 48 (rev block)) in
  add_state s (fold_left round (combine round_constants ws) s).

Fixpoint words (bs : list N) : list N :=
  match bs with
  | a :: b :: c :: d :: r => (a * 16777216 + b * 65536 + c * 256 + d) :: words r
  | _ => []
  end.

Fixpoint blocks (n : nat) (ws : list N) : list (list N) :=
  match n with
  | O => []
  | S n' => firstn 16 ws :: blocks n' (skipn 16 ws)
  end.

(** Big-endian bytes of [x], [n] of them. *)
Fixpoint be_bytes (n : nat) (x : N) : list N :=
  match n with
  | O => []
  | S n' => be_bytes n' (x / 256) ++ [x mod 256]
  end.

Definition pad (msg : list N) : list N :=
  let len := length msg in
  let zeros := ((119 - len mod 64) mod 64)%nat in
  msg ++ 128 :: repeat 0 zeros ++ be_bytes 8 (8 * N.of_nat len).

Definition bytes_of (s : string) : list N := map code (slist s).

Definition string_of_bytes (l : list N) : string := sof (map chr l).

Definition digest_words (s : state) : list N :=
  [ha s; hb s; hc s; hd s; he s; hf s; hg s; hh s].

(** [sha256.Sum256] *)
Definition Sum256 (msg : string) : string :=
  let ws := words (pad (bytes_of msg)) in
  let final := fold_left compress (blocks (length ws / 16)%nat ws) initial_state in
  string_of_bytes (concat (map (be_bytes 4) (digest_words final))).

Definition xor_pad (v : N) (key : string) : string :=
  string_of_bytes (map (fun b => N.lxor b v)
    (bytes_of key ++ repeat 0 (64 - String.length key)%nat)).

(** [hmac.New(sha256.New, key)], [Write(data)], [Sum(nil)] *)
Definition hmac_sum (key data : string) : string :=
  let k := if (64 <? String.length key)%nat then Sum256 key else key in
  Sum256 (xor_pad 92 k +:+ Sum256 (xor_pad 54 k +:+ data)).

(** ** A digest is always 32 bytes *)

Lemma slength_sof l : String.length (sof l) = length l.
Proof. unfold sof. induction l as [|c l IH]; simpl; congruence. Qed.

Lemma length_be_bytes n x : length (be_bytes n x) = n.
Proof. revert x. induction n as [|n IH]; intros x; simpl; [done|]. rewrite length_app, IH. simpl. lia. Qed.

Lemma slength_Sum256 msg : String.length (Sum256 msg) = 32%nat.
Proof.
  unfold Sum256, string_of_bytes. rewrite slength_sof. unfold digest_words.
  cbn [map concat]. rewrite !length_map, !length_app, !length_be_bytes. done.
Qed.

Lemma slength_hmac_sum key data : String.length (hmac_sum key data) = 32%nat.
Proof. apply slength_Sum256. Qed.

(** FIPS 180-4 and RFC 4231 vectors. *)
Example sha256_empty :
  EncodeToString (Sum256 "") = "e3b0c44298fc1c149afbf4c8996fb92427ae41e4649b934ca495991b7852b855".
Proof. vm_compute. reflexivity. Qed.

Example sha256_abc :
  EncodeToString (Sum256 "abc") = "ba7816bf8f01cfea414140de5dae2223b00361a396177a9cb410ff61f20015ad".
Proof. vm_compute. reflexivity. Qed.

Example hmac_rfc4231_2 :
  EncodeToString (hmac_sum "Jefe" "what do ya want for nothing?") =
  "5bdcc146bf60754e6a042426089575c75a003f089d2739839dec58b964ec3843".
Proof. vm_compute. reflexivity. Qed.

(** Proofs reason about digests only through their length and equality. *)
#[global] Opaque Sum256 hmac_sum.
