(* ===== verification/GoTime.v ===== *)
(** * package time

    An instant is a number of nanoseconds since the Unix epoch (UTC); a
    [time.Duration] is a number of nanoseconds in an int64.  [Parse_amz] and
    [Format_amz] are [time.Parse] and [Time.Format] at the one layout the
    signing code uses, ["20060102T150405Z"]; [Format_rfc3339] is the layout of
    the STS response. *)

From Stdlib Require Import Ascii String ZArith NArith Bool Lia.
From stdpp Require Import base tactics list strings.
From S2P Require Import Prelude GoStrings.
Local Open Scope Z_scope.

Definition Time := Z.
Definition Duration := Z.

Definition Nanosecond : Duration := 1.
Definition Second : Duration := 1000000000.
Definition Minute : Duration := 60 * Second.
Definition Hour : Duration := 60 * Minute.

(** The zero [time.Time]: January 1, year 1. *)
Definition zero_time : Time := -62135596800 * Second.

(** [t.Sub(u)] saturates; [t.Add(d)] does not. *)
Definition Sub (t u : Time) : Duration := clamp64 (t - u).
Definition Add (t : Time) (d : Duration) : Time := t + d.
Definition Before (t u : Time) : bool := t <? u.
Definition After (t u : Time) : bool := u <? t.

(** Duration arithmetic wraps: [time.Duration(n) * time.Second]. *)
Definition seconds (n : Z) : Duration := wrap64 (n * Second).
Definition Milliseconds (d : Duration) : Z := Z.quot d 1000000.

(** ** The civil calendar *)

Definition is_leap (y : Z) : bool :=
  (y mod 4 =? 0) && (negb (y mod 100 =? 0) || (y mod 400 =? 0)).

Definition days_in (m y : Z) : Z :=
  if m =? 2 then (if is_leap y then 29 else 28)
  else if (m =? 4) || (m =? 6) || (m =? 9) || (m =? 11) then 30 else 31.

(** Days since 1970-01-01 of a proleptic Gregorian date, counting years from
    March so that the leap day comes last. *)
Definition days_of_civil (y m d : Z) : Z :=
  let y' := if m <=? 2 then y - 1 else y in
  let mp := if m <=? 2 then m + 9 else m - 3 in
  let yoe := y' mod 400 in
  let doe := yoe * 365 + yoe / 4 - yoe / 100 + ((153 * mp + 2) / 5 + d - 1) in
  y' / 400 * 146097 + doe - 719468.

Definition yoe_of_doe (doe : Z) : Z :=
  (doe - doe / 1460 + doe / 36524 - doe / 146096) / 365.

Definition civil_of_days (n : Z) : Z * Z * Z :=
  let z := n + 719468 in
  let doe := z mod 146097 in
  let yoe := yoe_of_doe doe in
  let doy := doe - (365 * yoe + yoe / 4 - yoe / 100) in
  let mp := (5 * doy + 2) / 153 in
  let d := doy - (153 * mp + 2) / 5 + 1 in
  let m := if mp <? 10 then mp + 3 else mp - 9 in
  (yoe + z / 146097 * 400 + (if m <=? 2 then 1 else 0), m, d).

(** [time.Date(y, m, d, hh, mm, ss, ns, time.UTC)] for in-range fields. *)
Definition Date (y m d hh mm ss ns : Z) : Time :=
  (days_of_civil y m d * 86400 + hh * 3600 + mm * 60 + ss) * Second + ns.

Record civil := Civil { c_year : Z; c_month : Z; c_day : Z; c_hour : Z; c_min : Z; c_sec : Z }.

Definition civil_of (t : Time) : civil :=
  let s := t / Second in
  let '(y, m, d) := civil_of_days (s / 86400) in
  let r := s mod 86400 in
  Civil y m d (r / 3600) (r / 60 mod 60) (r mod 60).

(** ** Formatting *)

(** [appendInt(b, x, width)]: at least [width] digits. *)
Definition append_int (x : Z) (width : nat) : string :=
  if x <? 0 then String "-" (digits (ndigits 19 (- x) `max` width) (- x))
  else digits (ndigits 19 x `max` width) x.

Definition Format_date (t : Time) : string :=
  let c := civil_of t in
  append_int (c_year c) 4 +:+ append_int (c_month c) 2 +:+ append_int (c_day c) 2.

(** [t.UTC().Format("20060102T150405Z")] *)
Definition Format_amz (t : Time) : string :=
  let c := civil_of t in
  Format_date t +:+ "T" +:+ append_int (c_hour c) 2 +:+ append_int (c_min c) 2
    +:+ append_int (c_sec c) 2 +:+ "Z".

(** [t.UTC().Format(time.RFC3339)] *)
Definition Format_rfc3339 (t : Time) : string :=
  let c := civil_of t in
  append_int (c_year c) 4 +:+ "-" +:+ append_int (c_month c) 2 +:+ "-" +:+ append_int (c_day c) 2
    +:+ "T" +:+ append_int (c_hour c) 2 +:+ ":" +:+ append_int (c_min c) 2
    +:+ ":" +:+ append_int (c_sec c) 2 +:+ "Z".

(** ** Parsing *)

(** [getnum(s, fixed)]: one or two digits, exactly two when [fixed]. *)
Definition getnum (s : string) (fixed : bool) : option (Z * string) :=
  match s with
  | String a (String b r) =>
      if is_digit a then
        if is_digit b then Some (digit_val a * 10 + digit_val b, r)
        else if fixed then None else Some (digit_val a, String b r)
      else None
  | String a EmptyString =>
      if is_digit a then if fixed then None else Some (digit_val a, EmptyString) else None
  | EmptyString => None
  end.

Definition get_in (s : string) (fixed : bool) (lo hi : Z) : option (Z * string) :=
  match getnum s fixed with
  | Some (n, r) => if (lo <=? n) && (n <=? hi) then Some (n, r) else None
  | None => None
  end.

(** A four-digit year. *)
Definition get_year (s : string) : option (Z * string) :=
  match s with
  | String a (String b (String c (String d r))) =>
      if is_digit a && is_digit b && is_digit c && is_digit d
      then Some (digit_val a * 1000 + digit_val b * 100 + digit_val c * 10 + digit_val d, r)
      else None
  | _ => None
  end.

Definition expect (c : ascii) (s : string) : option string :=
  match s with
  | String d r => if Ascii.eqb c d then Some r else None
  | EmptyString => None
  end.

Fixpoint span_digits (s : string) : string * string :=
  match s with
  | String c r => if is_digit c then let '(a, b) := span_digits r in (String c a, b) else (EmptyString, s)
  | EmptyString => (EmptyString, EmptyString)
  end.

(** After the seconds [time.Parse] accepts a fraction the layout does not
    mention: [.] or [,] and digits, of which the first nine count. *)
Definition get_fraction (s : string) : Z * string :=
  match s with
  | String p ((String d _) as r) =>
      if (Ascii.eqb p "." || Ascii.eqb p ",") && is_digit d then
        let '(ds, rest) := span_digits r in
        let nine := stake 9 ds in
        (default 0 (decimal 0 nine) * 10 ^ Z.of_nat (9 - String.length nine), rest)
      else (0, s)
  | _ => (0, s)
  end.

(** [time.Parse("20060102T150405Z", s)] *)
Definition Parse_amz (s : string) : option Time :=
  match get_year s with
  | None => None
  | Some (y, s) =>
  match get_in s true 1 12 with
  | None => None
  | Some (mo, s) =>
  match getnum s true with
  | None => None
  | Some (d, s) =>
  match expect "T" s with
  | None => None
  | Some s =>
  match get_in s false 0 23 with
  | None => None
  | Some (hh, s) =>
  match get_in s true 0 59 with
  | None => None
  | Some (mi, s) =>
  match get_in s true 0 59 with
  | None => None
  | Some (ss, s) =>
      let '(ns, s) := get_fraction s in
      match expect "Z" s with
      | Some EmptyString =>
          if (1 <=? d) && (d <=? days_in mo y) then Some (Date y mo d hh mi ss ns) else None
      | _ => None
      end
  end end end end end end end.

Example parse_amz_sample : Parse_amz "20150830T123600Z" = Some (1440938160 * Second).
Proof. vm_compute. reflexivity. Qed.

Example parse_amz_fraction : Parse_amz "20150830T123600.5Z" = Some (1440938160 * Second + 500000000).
Proof. vm_compute. reflexivity. Qed.

Example parse_amz_bad_day : Parse_amz "20150229T123600Z" = None.
Proof. vm_compute. reflexivity. Qed.

Example format_amz_sample : Format_amz (1440938160 * Second) = "20150830T123600Z".
Proof. vm_compute. reflexivity. Qed.

(** ** The calendar conversions are inverse *)

Lemma yoe_bounds doe : 0 <= doe < 146097 -> 0 <= yoe_of_doe doe < 400.
Proof. unfold yoe_of_doe. intros. Z.to_euclidean_division_equations; lia. Qed.

Lemma doy_bounds doe :
  0 <= doe < 146097 ->
  0 <= doe - (365 * yoe_of_doe doe + yoe_of_doe doe / 4 - yoe_of_doe doe / 100) <= 365.
Proof. unfold yoe_of_doe. intros. Z.to_euclidean_division_equations; lia. Qed.

(** The 366th day of a March-based year exists only before a leap year's March. *)
Lemma doy_365_leap doe era :
  0 <= doe < 146097 ->
  doe - (365 * yoe_of_doe doe + yoe_of_doe doe / 4 - yoe_of_doe doe / 100) = 365 ->
  is_leap (yoe_of_doe doe + era * 400 + 1) = true.
Proof.
  intros H. pose proof (yoe_bounds doe H) as Hy. revert Hy.
  set (yoe := yoe_of_doe doe). intros Hy E.
  assert (yoe mod 4 = 3 /\ (yoe mod 100 <> 99 \/ yoe = 399)) as [H4 H100].
  { revert E. subst yoe. unfold yoe_of_doe in *. intros.
    Z.to_euclidean_division_equations; lia. }
  unfold is_leap.
  assert ((yoe + era * 400 + 1) mod 4 = 0) as -> by (Z.to_euclidean_division_equations; lia).
  destruct H100 as [Hne|Heq].
  - assert ((yoe + era * 400 + 1) mod 100 <> 0) as Hc
      by (Z.to_euclidean_division_equations; lia).
    apply Z.eqb_neq in Hc. by rewrite Hc.
  - assert ((yoe + era * 400 + 1) mod 400 = 0) as -> by (Z.to_euclidean_division_equations; lia).
    by rewrite orb_true_r.
Qed.

Lemma days_civil_days n :
  let '(y, m, d) := civil_of_days n in days_of_civil y m d = n.
Proof.
  unfold civil_of_days. set (z := n + 719468).
  assert (0 <= z mod 146097 < 146097) as Hdoe by (apply Z.mod_pos_bound; lia).
  pose proof (yoe_bounds _ Hdoe) as Hy. pose proof (doy_bounds _ Hdoe) as Hd.
  assert (z = z / 146097 * 146097 + z mod 146097) as Hz
    by (rewrite Z.mul_comm; apply Z.div_mod; lia).
  revert Hy Hd Hz. generalize (yoe_of_doe (z mod 146097)) as yoe.
  generalize (z mod 146097) as doe. generalize (z / 146097) as era. intros era doe yoe Hy Hd Hz.
  set (doy := doe - _) in *. unfold days_of_civil.
  assert (0 <= (5 * doy + 2) / 153 <= 11) as Hmp by (Z.to_euclidean_division_equations; lia).
  destruct (Z.ltb_spec ((5 * doy + 2) / 153) 10).
  - rewrite (proj2 (Z.leb_gt ((5 * doy + 2) / 153 + 3) 2)) by lia.
    replace (yoe + era * 400 + 0) with (yoe + era * 400) by lia.
    rewrite Z.mod_add, Z.mod_small, Z.div_add, Z.div_small by lia.
    replace ((5 * doy + 2) / 153 + 3 - 3) with ((5 * doy + 2) / 153) by lia.
    subst doy z. lia.
  - rewrite (proj2 (Z.leb_le ((5 * doy + 2) / 153 - 9) 2)) by lia.
    replace (yoe + era * 400 + 1 - 1) with (yoe + era * 400) by lia.
    rewrite Z.mod_add, Z.mod_small, Z.div_add, Z.div_small by lia.
    replace ((5 * doy + 2) / 153 - 9 + 9) with ((5 * doy + 2) / 153) by lia.
    subst doy z. lia.
Qed.

Lemma days_in_year_irrelevant m y : m <> 2 -> days_in m y = days_in m 0.
Proof. intros Hm. unfold days_in. apply Z.eqb_neq in Hm. by rewrite Hm. Qed.

(** The month and day read off a day-of-year [doy] of a March-based year. *)
Lemma march_month_day doy y :
  0 <= doy <= 365 -> (doy = 365 -> is_leap (y + 1) = true) ->
  let mp := (5 * doy + 2) / 153 in
  let m := if mp <? 10 then mp + 3 else mp - 9 in
  1 <= m <= 12 /\
  1 <= doy - (153 * mp + 2) / 5 + 1 <= days_in m (y + if m <=? 2 then 1 else 0).
Proof.
  intros Hd Hl. cbv zeta.
  assert (0 <= (5 * doy + 2) / 153 <= 11) as Hmp by (Z.to_euclidean_division_equations; lia).
  assert (1 <= doy - (153 * ((5 * doy + 2) / 153) + 2) / 5 + 1) as Hlo
    by (Z.to_euclidean_division_equations; lia).
  assert (doy + 1 <= (153 * ((5 * doy + 2) / 153 + 1) + 2) / 5) as Hhi
    by (Z.to_euclidean_division_equations; lia).
  revert Hmp Hlo Hhi. generalize ((5 * doy + 2) / 153) as mp. intros mp Hmp Hlo Hhi.
  destruct (Z.eq_dec mp 11) as [->|Hne].
  - change (if 11 <? 10 then 11 + 3 else 11 - 9) with 2.
    change ((153 * 11 + 2) / 5) with 337 in *. change (2 <=? 2) with true. cbv iota.
    split; [lia|]. unfold days_in. change (2 =? 2) with true. cbv iota.
    destruct (is_leap (y + 1)) eqn:E; [lia|].
    assert (doy <> 365) by (intros Hx; specialize (Hl Hx); congruence). lia.
  - rewrite days_in_year_irrelevant by (destruct (mp <? 10) eqn:E; lia).
    assert (mp = 0 \/ mp = 1 \/ mp = 2 \/ mp = 3 \/ mp = 4 \/ mp = 5 \/ mp = 6 \/ mp = 7
            \/ mp = 8 \/ mp = 9 \/ mp = 10) as Hcase by lia.
    repeat destruct Hcase as [->|Hcase]; try subst mp;
    match goal with |- context [if ?b then ?x else ?y] =>
      let v := eval vm_compute in (if b then x else y) in
      change (if b then x else y) with v end;
    match goal with |- context [days_in ?a 0] =>
      let v := eval vm_compute in (days_in a 0) in change (days_in a 0) with v end;
    Z.to_euclidean_division_equations; lia.
Qed.

Lemma civil_of_days_valid n :
  let '(y, m, d) := civil_of_days n in 1 <= m <= 12 /\ 1 <= d <= days_in m y.
Proof.
  unfold civil_of_days. set (z := n + 719468).
  assert (0 <= z mod 146097 < 146097) as Hdoe by (apply Z.mod_pos_bound; lia).
  apply march_month_day; [by apply doy_bounds|].
  intros E. by apply doy_365_leap.
Qed.

Lemma days_in_le_31 m y : days_in m y <= 31.
Proof. unfold days_in. repeat case_match; lia. Qed.

(** ** Printing and reading fixed-width numbers *)

Lemma digit_chr_ok d : 0 <= d <= 9 -> is_digit (digit_chr d) = true /\ digit_val (digit_chr d) = d.
Proof.
  intros Hd. assert (d = 0 \/ d = 1 \/ d = 2 \/ d = 3 \/ d = 4 \/ d = 5 \/ d = 6 \/ d = 7 \/ d = 8
    \/ d = 9) as Hc by lia.
  repeat destruct Hc as [->|Hc]; try subst d; by vm_compute.
Qed.

Lemma mod10 z : 0 <= z mod 10 <= 9.
Proof. pose proof (Z.mod_pos_bound z 10). lia. Qed.

Lemma sall_digits n z : sall is_digit (digits n z) = true.
Proof.
  revert z. induction n as [|n IH]; intros z; simpl; [done|].
  rewrite sall_app, IH. simpl. by rewrite (proj1 (digit_chr_ok _ (mod10 z))).
Qed.

Lemma slength_digits n z : String.length (digits n z) = n.
Proof. revert z. induction n as [|n IH]; intros z; simpl; [done|]. rewrite slength_app, IH. simpl. lia. Qed.

Lemma append_int_2 x : 0 <= x <= 99 -> append_int x 2 = digits 2 x.
Proof.
  intros Hx. unfold append_int. rewrite (proj2 (Z.ltb_ge x 0)) by lia. f_equal.
  cbn [ndigits]. destruct (Z.ltb_spec x 10); [done|].
  by rewrite (proj2 (Z.ltb_lt (x / 10) 10)) by (Z.to_euclidean_division_equations; lia).
Qed.

Lemma append_int_4 x : 0 <= x <= 9999 -> append_int x 4 = digits 4 x.
Proof.
  intros Hx. unfold append_int. rewrite (proj2 (Z.ltb_ge x 0)) by lia. f_equal.
  cbn [ndigits]. destruct (x <? 10); [done|]. destruct (x / 10 <? 10); [done|].
  destruct (x / 10 / 10 <? 10); [done|].
  by rewrite (proj2 (Z.ltb_lt (x / 10 / 10 / 10) 10)) by (Z.to_euclidean_division_equations; lia).
Qed.

Lemma getnum_digits x r b : 0 <= x <= 99 -> getnum (digits 2 x +:+ r) b = Some (x, r).
Proof.
  intros Hx. cbn [digits String.append getnum].
  destruct (digit_chr_ok _ (mod10 (x / 10))) as [-> ->].
  destruct (digit_chr_ok _ (mod10 x)) as [-> ->].
  do 2 f_equal. Z.to_euclidean_division_equations; lia.
Qed.

Lemma get_in_digits x r b lo hi :
  0 <= x <= 99 -> lo <= x <= hi -> get_in (digits 2 x +:+ r) b lo hi = Some (x, r).
Proof.
  intros Hx Hr. unfold get_in. rewrite getnum_digits by done.
  by rewrite (proj2 (Z.leb_le lo x)), (proj2 (Z.leb_le x hi)) by lia.
Qed.

Lemma get_year_digits x r : 0 <= x <= 9999 -> get_year (digits 4 x +:+ r) = Some (x, r).
Proof.
  intros Hx. cbn [digits String.append get_year].
  destruct (digit_chr_ok _ (mod10 (x / 10 / 10 / 10))) as [-> ->].
  destruct (digit_chr_ok _ (mod10 (x / 10 / 10))) as [-> ->].
  destruct (digit_chr_ok _ (mod10 (x / 10))) as [-> ->].
  destruct (digit_chr_ok _ (mod10 x)) as [-> ->].
  cbn [andb]. do 2 f_equal. Z.to_euclidean_division_equations; lia.
Qed.

(** Instants whose year prints in four digits. *)
Definition four_digit_year (t : Time) : Prop := 0 <= c_year (civil_of t) <= 9999.

#[export] Instance four_digit_year_dec t : Decision (four_digit_year t).
Proof. unfold four_digit_year. apply _. Defined.

Record civil_ok (t : Time) (c : civil) : Prop := {
  ok_month : 1 <= c_month c <= 12;
  ok_day : 1 <= c_day c <= days_in (c_month c) (c_year c);
  ok_hour : 0 <= c_hour c <= 23;
  ok_min : 0 <= c_min c <= 59;
  ok_sec : 0 <= c_sec c <= 59;
  ok_date : Date (c_year c) (c_month c) (c_day c) (c_hour c) (c_min c) (c_sec c) 0
            = t / Second * Second
}.

Lemma civil_of_ok t : civil_ok t (civil_of t).
Proof.
  unfold civil_of. pose proof (days_civil_days (t / Second / 86400)) as Hdays.
  pose proof (civil_of_days_valid (t / Second / 86400)) as Hval.
  destruct (civil_of_days _) as [[y m] d]. destruct Hval as [Hm Hd].
  split; simpl; try done; unfold Date; try rewrite Hdays;
  generalize (t / Second) as s; intros s; unfold Second;
  Z.to_euclidean_division_equations; lia.
Qed.

Lemma Format_amz_digits t :
  four_digit_year t ->
  let c := civil_of t in
  Format_amz t = digits 4 (c_year c) +:+ digits 2 (c_month c) +:+ digits 2 (c_day c)
    +:+ "T" +:+ digits 2 (c_hour c) +:+ digits 2 (c_min c) +:+ digits 2 (c_sec c) +:+ "Z".
Proof.
  intros Hy c. destruct (civil_of_ok t) as [Hm Hd Hh Hmi Hs _].
  unfold four_digit_year in Hy. fold c in Hy, Hm, Hd, Hh, Hmi, Hs.
  pose proof (days_in_le_31 (c_month c) (c_year c)).
  unfold Format_amz, Format_date. fold c.
  rewrite append_int_4 by lia. rewrite !append_int_2 by lia.
  by rewrite !sapp_assoc.
Qed.

(** Formatting and parsing back truncates to whole seconds. *)
Lemma Parse_Format_amz t :
  four_digit_year t -> Parse_amz (Format_amz t) = Some (t / Second * Second).
Proof.
  intros Hy. rewrite Format_amz_digits by done. cbv zeta.
  destruct (civil_of_ok t) as [Hm Hd Hh Hmi Hs Hdate].
  pose proof (days_in_le_31 (c_month (civil_of t)) (c_year (civil_of t))).
  unfold Parse_amz, four_digit_year in *.
  rewrite get_year_digits by lia. rewrite get_in_digits by lia.
  rewrite getnum_digits by lia. cbn [expect String.append Ascii.eqb eqb].
  rewrite !get_in_digits by lia.
  change (get_fraction "Z") with (0, "Z"). cbn [expect Ascii.eqb eqb].
  rewrite (proj2 (Z.leb_le 1 _)), (proj2 (Z.leb_le _ (days_in _ _))) by lia.
  cbn [andb]. by rewrite Hdate.
Qed.

Lemma slength_Format_amz t : four_digit_year t -> String.length (Format_amz t) = 16%nat.
Proof.
  intros Hy. rewrite Format_amz_digits by done.
  by rewrite !slength_app, !slength_digits.
Qed.

Lemma Format_date_digits t :
  four_digit_year t ->
  let c := civil_of t in
  Format_date t = digits 4 (c_year c) +:+ digits 2 (c_month c) +:+ digits 2 (c_day c).
Proof.
  intros Hy c. destruct (civil_of_ok t) as [Hm Hd _ _ _ _].
  unfold four_digit_year in Hy. fold c in Hy, Hm, Hd.
  pose proof (days_in_le_31 (c_month c) (c_year c)).
  unfold Format_date. fold c. rewrite append_int_4, !append_int_2 by lia. done.
Qed.

Lemma slength_Format_date t : four_digit_year t -> String.length (Format_date t) = 8%nat.
Proof. intros Hy. rewrite Format_date_digits by done. by rewrite !slength_app, !slength_digits. Qed.

Lemma sall_Format_date t : four_digit_year t -> sall is_digit (Format_date t) = true.
Proof. intros Hy. rewrite Format_date_digits by done. by rewrite !sall_app, !sall_digits. Qed.

(** [amzDate[:8]] of a formatted instant is its credential-scope date. *)
Lemma stake_Format_amz t : four_digit_year t -> stake 8 (Format_amz t) = Format_date t.
Proof.
  intros Hy. rewrite <- (slength_Format_date t Hy).
  unfold Format_amz. apply stake_app_length.
Qed.

Lemma getnum_fixed_length s n r :
  getnum s true = Some (n, r) -> (String.length s = 2 + String.length r)%nat.
Proof.
  destruct s as [|a [|b s]]; simpl; repeat case_match; try done. by intros [= _ <-].
Qed.

(** The hour is read with [fixed = false], but a one-digit hour leaves a
    non-digit in front of the minutes, which are then refused. *)
Lemma getnum_hour_minute s n r m r' :
  getnum s false = Some (n, r) -> getnum r true = Some (m, r') ->
  (String.length s = 2 + String.length r)%nat.
Proof.
  destruct s as [|a [|b s]]; simpl; [done|by destruct (is_digit a); intros [= <- <-]|].
  destruct (is_digit a); [|done]. destruct (is_digit b) eqn:Eb; intros [= <- <-]; [done|].
  simpl. rewrite Eb. by destruct s.
Qed.

Lemma get_in_getnum s b lo hi x : get_in s b lo hi = Some x -> getnum s b = Some x.
Proof. unfold get_in. destruct (getnum s b) as [[n r]|]; [|done]. by case_match. Qed.

Lemma get_year_length s y r :
  get_year s = Some (y, r) -> (String.length s = 4 + String.length r)%nat.
Proof. destruct s as [|a [|b [|c [|d s]]]]; simpl; try done. case_match; [by intros [= _ <-]|done]. Qed.

Lemma expect_length c s r : expect c s = Some r -> (String.length s = 1 + String.length r)%nat.
Proof. destruct s; simpl; [done|]. case_match; [by intros [= <-]|done]. Qed.

Lemma span_digits_length s : (String.length (span_digits s).2 <= String.length s)%nat.
Proof.
  induction s as [|c s IH]; simpl; [lia|]. destruct (is_digit c); simpl; [|lia].
  destruct (span_digits s); simpl in *. lia.
Qed.

Lemma get_fraction_length s : (String.length (get_fraction s).2 <= String.length s)%nat.
Proof.
  destruct s as [|p [|d s]]; simpl; [lia|lia|]. destruct (_ && _)%bool eqn:E; simpl; [|lia].
  apply andb_true_iff in E as [_ E]. rewrite E.
  pose proof (span_digits_length s). destruct (span_digits s); simpl in *. lia.
Qed.

(** Whatever [time.Parse] accepts has at least the sixteen bytes of the
    layout, so slicing its first eight bytes cannot panic. *)
Lemma Parse_amz_length s t : Parse_amz s = Some t -> (16 <= String.length s)%nat.
Proof.
  unfold Parse_amz.
  destruct (get_year s) as [[y s1]|] eqn:E1; [|done]. apply get_year_length in E1.
  destruct (get_in s1 true 1 12) as [[mo s2]|] eqn:E2; [|done].
  apply get_in_getnum, getnum_fixed_length in E2.
  destruct (getnum s2 true) as [[d s3]|] eqn:E3; [|done]. apply getnum_fixed_length in E3.
  destruct (expect "T" s3) as [s4|] eqn:E4; [|done]. apply expect_length in E4.
  destruct (get_in s4 false 0 23) as [[hh s5]|] eqn:E5; [|done]. apply get_in_getnum in E5.
  destruct (get_in s5 true 0 59) as [[mi s6]|] eqn:E6; [|done]. apply get_in_getnum in E6.
  pose proof (getnum_hour_minute _ _ _ _ _ E5 E6). apply getnum_fixed_length in E6.
  destruct (get_in s6 true 0 59) as [[ss s7]|] eqn:E7; [|done].
  apply get_in_getnum, getnum_fixed_length in E7.
  pose proof (get_fraction_length s7). destruct (get_fraction s7) as [ns s8]. simpl in *.
  destruct (expect "Z" s8) as [s9|] eqn:E9; [|done]. apply expect_length in E9. lia.
Qed.

(** ... and those eight bytes are digits. *)
Lemma Parse_amz_date s t : Parse_amz s = Some t -> sall is_digit (stake 8 s) = true.
Proof.
  unfold Parse_amz. destruct (get_year s) as [[y s1]|] eqn:E1; [|done].
  destruct (get_in s1 true 1 12) as [[mo s2]|] eqn:E2; [|done]. apply get_in_getnum in E2.
  destruct (getnum s2 true) as [[d s3]|] eqn:E3; [|done]. intros _.
  destruct s as [|c1 [|c2 [|c3 [|c4 s]]]]; try done. cbn [get_year] in E1.
  destruct (is_digit c1 && is_digit c2 && is_digit c3 && is_digit c4) eqn:Ed; [|done].
  injection E1 as _ <-. split_bools.
  destruct s as [|c5 [|c6 s]]; try done; cbn [getnum] in E2; [by destruct (is_digit c5)|].
  destruct (is_digit c5) eqn:D5, (is_digit c6) eqn:D6; try done. injection E2 as _ <-.
  destruct s as [|c7 [|c8 s]]; try done; cbn [getnum] in E3; [by destruct (is_digit c7)|].
  destruct (is_digit c7) eqn:D7, (is_digit c8) eqn:D8; try done.
  cbn [stake sall].
  repeat match goal with E : is_digit _ = true |- _ => rewrite E; clear E end. done.
Qed.
