(* ===== verification/GoRfc3339.v ===== *)
(** * time.RFC3339Nano and the JSON of an instant

    [Time.MarshalJSON] and [Time.UnmarshalJSON] of package time: the format
    with trimmed nanoseconds and the zone's offset, and [time.Parse] with the
    layout RFC3339, to which strict parsing falls back. *)

From Stdlib Require Import Ascii String ZArith NArith Bool Lia.
From stdpp Require Import base tactics list strings.
From S2P Require Import Prelude GoStrings GoTime.
Local Open Scope Z_scope.

(** ** Formatting *)

Fixpoint trim_zeros (s : string) : string :=
  match s with
  | EmptyString => EmptyString
  | String c r => let t := trim_zeros r in if Ascii.eqb c "0" && (t =s "") then "" else String c t
  end.

(** [appendNano] for nine digits, trailing zeros cut. *)
Definition appendNano (ns : Z) : string := if ns =? 0 then "" else "." +:+ trim_zeros (digits 9 ns).

(** The offset of the zone, in seconds east of UTC; seconds are not printed. *)
Definition zone_text (offset : Z) : string :=
  if offset =? 0 then "Z"
  else
    let zone := Z.quot offset 60 in
    (if zone <? 0 then "-" else "+") +:+ append_int (Z.abs zone / 60) 2 +:+ ":" +:+ append_int (Z.abs zone mod 60) 2.

(** [appendFormatRFC3339(b, true)] in a zone with the given offset. *)
Definition Format_rfc3339nano (offset : Z) (t : Time) : string :=
  let c := civil_of (t + offset * Second) in
  append_int (c_year c) 4 +:+ "-" +:+ append_int (c_month c) 2 +:+ "-" +:+ append_int (c_day c) 2
    +:+ "T" +:+ append_int (c_hour c) 2 +:+ ":" +:+ append_int (c_min c) 2 +:+ ":" +:+ append_int (c_sec c) 2
    +:+ appendNano (t mod Second) +:+ zone_text offset.

(** The text of [Time.MarshalJSON], without its quotes: [appendStrictRFC3339]
    refuses years of other than four digits and offsets of a day or more. *)
Definition Time_MarshalText (offset : Z) (t : Time) : option string :=
  let year := c_year (civil_of (t + offset * Second)) in
  if (0 <=? year) && (year <=? 9999) && (Z.abs (Z.quot offset 60) / 60 <? 24)
  then Some (Format_rfc3339nano offset t) else None.

(** ** Parsing *)

(** [Z07:00] at the end of the layout: the offset in seconds.  Twenty-four
    hours and sixty minutes are let through. *)
Definition get_zone (s : string) : option Z :=
  match s with
  | String a r =>
      if Ascii.eqb a "Z" then if r =s "" then Some 0 else None
      else match getnum r true with
      | None => None
      | Some (hr, r) =>
          match expect ":" r with
          | None => None
          | Some r =>
              match getnum r true with
              | Some (mm, EmptyString) =>
                  if (hr <=? 24) && (mm <=? 60) then
                    if Ascii.eqb a "+" then Some ((hr * 60 + mm) * 60)
                    else if Ascii.eqb a "-" then Some (- ((hr * 60 + mm) * 60))
                    else None
                  else None
              | _ => None
              end
          end
      end
  | EmptyString => None
  end.

(** [time.Parse(time.RFC3339, s)] *)
Definition Parse_rfc3339 (s : string) : option Time :=
  '(y, s) ← get_year s; s ← expect "-" s; '(mo, s) ← get_in s true 1 12; s ← expect "-" s; '(d, s) ← getnum s true;
  s ← expect "T" s; '(hh, s) ← get_in s false 0 23; s ← expect ":" s; '(mi, s) ← get_in s true 0 59;
  s ← expect ":" s; '(ss, s) ← get_in s true 0 59;
  let '(ns, s) := get_fraction s in
  offset ← get_zone s;
  if (1 <=? d) && (d <=? days_in mo y) then Some (Date y mo d hh mi ss ns - offset * Second) else None.

Example rfc3339_samples :
  map Parse_rfc3339 ["2015-08-30T12:36:00Z"; "2015-08-30T14:06:00.25+01:30"; "2015-08-30T9:36:00-03:00"; "2015-02-29T12:36:00Z"; "2015-08-30T12:36:00"]
  = [Some (1440938160 * Second); Some (1440938160 * Second + 250000000); Some (1440938160 * Second); None; None].
Proof. vm_compute. reflexivity. Qed.

Example rfc3339nano_samples :
  map (fun '(o, t) => Time_MarshalText o t)
    [(0, 1440938160 * Second); (5400, 1440938160 * Second + 250000000); (-10800, 1440938160 * Second + 1); (0, 253402300800 * Second)]
  = [Some "2015-08-30T12:36:00Z"; Some "2015-08-30T14:06:00.25+01:30"; Some "2015-08-30T09:36:00.000000001-03:00"; None].
Proof. vm_compute. reflexivity. Qed.

(** ** Reading back *)

Fixpoint zeros (k : nat) : string := match k with O => "" | S k => String "0" (zeros k) end.

Lemma trim_zeros_app s : exists k, s = trim_zeros s +:+ zeros k.
Proof.
  induction s as [|c s (k & IH)]; [by exists O|]. cbn [trim_zeros].
  destruct (Ascii.eqb_spec c "0") as [->|]; cbn [andb]; [|exists k; cbn [String.append]; by rewrite <- IH].
  destruct (seqb_spec (trim_zeros s) "") as [E|].
  - exists (S k). rewrite IH, E. done.
  - exists k. cbn [String.append]. by rewrite <- IH.
Qed.

Lemma decimal_snoc s c a : decimal a (s +:+ String c "") = match decimal a s with
  | Some v => if is_digit c then Some (v * 10 + digit_val c) else None | None => None end.
Proof. revert a. induction s as [|d s IH]; intros a; cbn [String.append decimal]; [done|]. destruct (is_digit d); [apply IH|done]. Qed.

(** Reading the digits of a number. *)
Lemma decimal_digits_val k z acc : 0 <= z ->
  decimal acc (digits k z) = Some (acc * 10 ^ Z.of_nat k + z mod 10 ^ Z.of_nat k).
Proof.
  revert z. induction k as [|k IH]; intros z Hz.
  - cbn. f_equal. rewrite Z.mod_1_r. lia.
  - cbn [digits]. rewrite decimal_snoc, IH by (apply Z.div_pos; lia).
    destruct (digit_chr_ok _ (mod10 z)) as [-> ->]. f_equal.
    rewrite Nat2Z.inj_succ, Z.pow_succ_r by lia.
    assert (0 < 10 ^ Z.of_nat k) by (apply Z.pow_pos_nonneg; lia).
    rewrite (Z.rem_mul_r z 10) by lia. lia.
Qed.

Lemma decimal_zeros s k a v : decimal a (s +:+ zeros k) = Some v -> exists w, decimal a s = Some w /\ v = w * 10 ^ Z.of_nat k.
Proof.
  revert a. induction s as [|c s IH]; intros a; cbn [String.append decimal].
  - intros E. exists a. split; [done|]. revert a E. induction k as [|k IH]; intros a E; [cbn in *; injection E; lia|].
    cbn [zeros decimal] in E. change (is_digit "0") with true in E. cbn iota in E. change (digit_val "0") with 0 in E.
    rewrite (IH _ E), Nat2Z.inj_succ, Z.pow_succ_r by lia. lia.
  - destruct (is_digit c); [apply IH|done].
Qed.

Lemma span_digits_app ds rest :
  sall is_digit ds = true -> match rest with String c _ => is_digit c = false | EmptyString => True end ->
  span_digits (ds +:+ rest) = (ds, rest).
Proof.
  intros Hd Hr. induction ds as [|c ds IH]; cbn [String.append span_digits].
  - destruct rest as [|c rest]; [done|]. cbn [span_digits]. by rewrite Hr.
  - cbn [sall] in Hd. apply andb_true_iff in Hd as [-> Hd]. by rewrite IH.
Qed.

(** What follows the seconds begins with no digit and with no fraction. *)
Definition ends_seconds (rest : string) : bool :=
  match rest with String c _ => negb (is_digit c) && negb (Ascii.eqb c ".") && negb (Ascii.eqb c ",") | EmptyString => false end.

Lemma get_fraction_appendNano ns rest :
  0 <= ns < Second -> ends_seconds rest = true -> get_fraction (appendNano ns +:+ rest) = (ns, rest).
Proof.
  intros Hns Hr. destruct rest as [|c rest]; [done|]. cbn [ends_seconds] in Hr.
  apply andb_true_iff in Hr as [[Hd Hp]%andb_true_iff Hc]. apply negb_true_iff in Hd, Hp, Hc.
  unfold appendNano. destruct (Z.eqb_spec ns 0) as [->|Hnz].
  { cbn [String.append get_fraction]. destruct rest; [done|]. by rewrite Hp, Hc. }
  destruct (trim_zeros_app (digits 9 ns)) as [k Ek]. set (ds := trim_zeros (digits 9 ns)) in *.
  assert (sall is_digit ds = true) as Hds.
  { pose proof (sall_digits 9 ns) as Ha. rewrite Ek, sall_app in Ha. by apply andb_true_iff in Ha as [? _]. }
  assert (decimal 0 (digits 9 ns) = Some ns) as Hv.
  { rewrite decimal_digits_val by lia. f_equal. rewrite Z.mod_small; [lia|]. exact Hns. }
  rewrite Ek in Hv. apply decimal_zeros in Hv as (w & Hw & Ev).
  assert (String.length ds + k = 9)%nat as Hl.
  { pose proof (slength_digits 9 ns) as Hl. rewrite Ek, slength_app in Hl. replace (String.length (zeros k)) with k in Hl; [done|].
    clear. induction k; cbn; congruence. }
  destruct ds as [|d ds'] eqn:Eds; [cbn in Hw; injection Hw as <-; lia|]. rewrite <- Eds in *. clearbody ds.
  assert (get_fraction (("." +:+ ds) +:+ String c rest)
          = (default 0 (decimal 0 (stake 9 ds)) * 10 ^ Z.of_nat (9 - String.length (stake 9 ds)), String c rest)) as ->.
  { subst ds. cbn [String.append get_fraction]. rewrite Ascii.eqb_refl. cbn [orb andb].
    cbn [sall] in Hds. pose proof Hds as Hds'. apply andb_true_iff in Hds' as [-> _].
    rewrite <- sapp_cons, span_digits_app; done. }
  assert (stake 9 ds = ds) as ->.
  { replace 9%nat with (String.length ds + k)%nat by lia. clear. induction ds as [|c ds IH]; cbn; [by destruct k|]. by rewrite IH. }
  rewrite Hw. cbn [default from_option id]. replace (9 - String.length ds)%nat with k by lia. by rewrite <- Ev.
Qed.

(** Offsets of whole minutes, below a day. *)
Definition zone_ok (offset : Z) : Prop := offset mod 60 = 0 /\ Z.abs offset < 86400.

#[export] Instance zone_ok_dec offset : Decision (zone_ok offset).
Proof. unfold zone_ok. apply _. Defined.

Lemma zone_minutes offset : zone_ok offset ->
  offset = Z.quot offset 60 * 60 /\ 0 <= Z.abs (Z.quot offset 60) / 60 <= 23 /\ 0 <= Z.abs (Z.quot offset 60) mod 60 <= 59.
Proof. intros [Hm Ha]. Z.to_euclidean_division_equations. lia. Qed.

Lemma zone_text_digits offset : zone_ok offset ->
  zone_text offset = if offset =? 0 then "Z" else
    (if Z.quot offset 60 <? 0 then "-" else "+") +:+ digits 2 (Z.abs (Z.quot offset 60) / 60) +:+ ":" +:+ digits 2 (Z.abs (Z.quot offset 60) mod 60).
Proof. intros Hz. destruct (zone_minutes _ Hz) as (_ & ? & ?). unfold zone_text. by rewrite !append_int_2 by lia. Qed.

Lemma get_zone_text offset : zone_ok offset -> get_zone (zone_text offset) = Some offset /\ ends_seconds (zone_text offset) = true.
Proof.
  intros Hz. rewrite zone_text_digits by done. destruct (zone_minutes _ Hz) as (Eo & Hh & Hm).
  destruct (Z.eqb_spec offset 0) as [->|Hnz]; [done|].
  set (z := Z.quot offset 60) in *. clearbody z. set (h := Z.abs z / 60) in *. set (m := Z.abs z mod 60) in *.
  assert (Z.abs z = h * 60 + m) as Ez by (subst h m; pose proof (Z.div_mod (Z.abs z) 60); lia). clearbody h m.
  destruct (Z.ltb_spec z 0); (split; [|done]); cbn [String.append get_zone Ascii.eqb Bool.eqb];
    rewrite getnum_digits by lia; cbn [expect Ascii.eqb Bool.eqb];
    rewrite <- (sapp_nil_r (digits 2 m)), getnum_digits by lia;
    rewrite (proj2 (Z.leb_le h 24)), (proj2 (Z.leb_le m 60)) by lia; cbn [andb]; f_equal; lia.
Qed.

(** Parsing, field by field. *)
Lemma Parse_rfc3339_fields Y y M mo D d H h I mi S s F ns O offset :
  (forall r, get_year (Y +:+ r) = Some (y, r)) -> (forall r, get_in (M +:+ r) true 1 12 = Some (mo, r)) ->
  (forall r, getnum (D +:+ r) true = Some (d, r)) -> (forall r, get_in (H +:+ r) false 0 23 = Some (h, r)) ->
  (forall r, get_in (I +:+ r) true 0 59 = Some (mi, r)) -> (forall r, get_in (S +:+ r) true 0 59 = Some (s, r)) ->
  get_fraction (F +:+ O) = (ns, O) -> get_zone O = Some offset -> 1 <= d <= days_in mo y ->
  Parse_rfc3339 (Y +:+ "-" +:+ M +:+ "-" +:+ D +:+ "T" +:+ H +:+ ":" +:+ I +:+ ":" +:+ S +:+ F +:+ O)
  = Some (Date y mo d h mi s ns - offset * Second).
Proof.
  intros HY HM HD HH HI HS HF HO Hd. unfold Parse_rfc3339. rewrite HY. simpl.
  rewrite HM. simpl. rewrite HD. simpl. rewrite HH. simpl. rewrite HI. simpl. rewrite HS. simpl.
  rewrite HF, HO. simpl. by rewrite (proj2 (Z.leb_le 1 d)), (proj2 (Z.leb_le d _)) by lia.
Qed.

(** The seconds of the local clock, the nanoseconds and the offset make up the
    instant. *)
Lemma local_instant x t offset :
  x * Second = (t + offset * Second) / Second * Second -> x * Second + t mod Second - offset * Second = t.
Proof.
  intros E. assert (Second <> 0) as HS by done. rewrite Z.div_add in E by exact HS.
  pose proof (Z.div_mod t Second HS) as Ht. clear HS. generalize dependent Second. intros. lia.
Qed.

(** Parsing the fields of a clock reading. *)
Lemma Parse_civil offset t c :
  zone_ok offset -> civil_ok (t + offset * Second) c -> 0 <= c_year c <= 9999 ->
  Parse_rfc3339 (append_int (c_year c) 4 +:+ "-" +:+ append_int (c_month c) 2 +:+ "-" +:+ append_int (c_day c) 2
    +:+ "T" +:+ append_int (c_hour c) 2 +:+ ":" +:+ append_int (c_min c) 2 +:+ ":" +:+ append_int (c_sec c) 2
    +:+ appendNano (t mod Second) +:+ zone_text offset) = Some t.
Proof.
  intros Hz [Hm Hd Hh Hmi Hs Hdate] Hy. pose proof (days_in_le_31 (c_month c) (c_year c)).
  destruct (get_zone_text offset Hz) as [Hg He].
  assert (0 <= t mod Second < Second) as Hns by (apply Z.mod_pos_bound; done).
  rewrite append_int_4, !append_int_2 by lia.
  erewrite Parse_rfc3339_fields; cycle 1;
    [intros; apply get_year_digits; lia|intros; apply get_in_digits; lia|intros; apply getnum_digits; lia
    |intros; apply get_in_digits; lia..|by apply get_fraction_appendNano|exact Hg|exact Hd|].
  f_equal. unfold Date in *. rewrite Z.add_0_r in Hdate. by apply local_instant.
Qed.

(** Parsing what was marshalled gives the same instant. *)
Lemma Parse_MarshalText offset t text :
  zone_ok offset -> Time_MarshalText offset t = Some text -> Parse_rfc3339 text = Some t.
Proof.
  intros Hz. unfold Time_MarshalText. pose proof (civil_of_ok (t + offset * Second)) as Hc.
  destruct (Z.leb_spec 0 (c_year (civil_of (t + offset * Second)))); [|done].
  destruct (Z.leb_spec (c_year (civil_of (t + offset * Second))) 9999); [|done]. cbn [andb].
  destruct (_ <? 24); [|done]. intros [= <-]. apply Parse_civil; done.
Qed.

(** The text is digits and the marks between them: nothing JSON escapes. *)
Definition is_instant_byte (c : ascii) : bool :=
  is_digit c || existsb (Ascii.eqb c) ["-"; "+"; ":"; "."; "T"; "Z"]%char.

Lemma sall_trim_zeros p s : sall p s = true -> sall p (trim_zeros s) = true.
Proof. destruct (trim_zeros_app s) as [k E]. rewrite E at 1. rewrite sall_app. by intros [? _]%andb_true_iff. Qed.

Lemma MarshalText_bytes offset t text : Time_MarshalText offset t = Some text -> sall is_instant_byte text = true.
Proof.
  unfold Time_MarshalText. destruct (_ && _); [|done]. intros [= <-].
  assert (forall n z, sall is_instant_byte (digits n z) = true) as Hd.
  { intros. eapply sall_impl; [|apply sall_digits]. intros c Hc. unfold is_instant_byte. by rewrite Hc. }
  assert (forall x n, sall is_instant_byte (append_int x n) = true) as Ha.
  { intros. unfold append_int. destruct (x <? 0); [cbn [sall]|]; by rewrite Hd. }
  unfold Format_rfc3339nano. rewrite !sall_app, !Ha. cbn [sall andb].
  unfold appendNano, zone_text. destruct (_ =? 0), (_ =? 0); rewrite ?sall_app, ?Ha; try destruct (_ <? 0);
    cbn [sall andb]; rewrite ?sall_app, ?(sall_trim_zeros _ _ (Hd _ _)); done.
Qed.
