(* ===== verification/GoFloat.v ===== *)
(** * float64

    IEEE 754 double precision as Rocq's [SpecFloat] specifies it, with the
    conversions the program uses.  [ParseFloat] reads decimal and hexadecimal
    numbers with digit separators, infinities and NaN. *)

From Stdlib Require Import Ascii String ZArith NArith Bool Lia SpecFloat.
From stdpp Require Import base tactics list strings.
From S2P Require Import Prelude GoStrings.
Local Open Scope Z_scope.

Definition float64 := spec_float.

Definition fadd (x y : float64) : float64 := SFadd 53 1024 x y.
Definition fsub (x y : float64) : float64 := SFsub 53 1024 x y.
Definition fmul (x y : float64) : float64 := SFmul 53 1024 x y.
Definition fdiv (x y : float64) : float64 := SFdiv 53 1024 x y.

Definition fltb (x y : float64) : bool := SFltb x y.
Definition fleb (x y : float64) : bool := SFleb x y.

(** [float64(z)] *)
Definition of_Z (z : Z) : float64 := binary_normalize 53 1024 z 0 false.

(** [int(f)], rounding to zero; Go leaves other values to the machine. *)
Definition to_Z (f : float64) : Z :=
  match f with
  | S754_finite s m e =>
      let a := if 0 <=? e then Z.pos m * 2 ^ e else Z.pos m / 2 ^ (- e) in
      if s then - a else a
  | _ => 0
  end.

Definition inf : float64 := S754_infinity false.

(** ** strconv.ParseFloat *)

(** [m * 10 ^ e], correctly rounded: a quotient is taken with enough bits, the
    last one recording whether it was inexact. *)
Definition of_decimal (m e : Z) : float64 :=
  if m =? 0 then S754_zero false
  else if 0 <=? e then binary_normalize 53 1024 (m * 10 ^ e) 0 false
  else
    let d := 10 ^ (- e) in
    let k := Z.log2 d + 64 in
    let q := m * 2 ^ k / d in
    let sticky := if m * 2 ^ k mod d =? 0 then 0 else 1 in
    binary_normalize 53 1024 (2 * q + sticky) (- (k + 1)) false.

(** The longest prefix of digits, and the rest. *)
Fixpoint take_digits (s : string) : string * string :=
  match s with
  | String c r => if is_digit c then let '(d, t) := take_digits r in (String c d, t) else ("", s)
  | EmptyString => ("", "")
  end.

Definition digits_val (s : string) : Z := default 0 (decimal 0 s).

(** The exponent part: nothing, or [e] with a sign and at least one digit. *)
Definition parse_exponent (s : string) : option Z :=
  match s with
  | EmptyString => Some 0
  | String c r =>
      if Ascii.eqb (lower_byte c) "e" then
        let '(neg, t) := match r with String "-" t => (true, t) | String "+" t => (false, t) | _ => (false, r) end in
        if (t <>s "") && sall is_digit t then Some (if (neg : bool) then - digits_val t else digits_val t) else None
      else None
  end.

(** A hexadecimal number after its [0x]: the binary exponent is required. *)
Fixpoint take_hex (s : string) : string * string :=
  match s with
  | String c r => if is_hex c then let '(d, t) := take_hex r in (String c d, t) else ("", s)
  | EmptyString => ("", "")
  end.

Definition hex_digit_val (c : ascii) : Z :=
  if is_digit c then digit_val c else Z.of_N (code (lower_byte c)) - 87.

Fixpoint hex_number (acc : Z) (s : string) : Z :=
  match s with
  | EmptyString => acc
  | String c r => hex_number (acc * 16 + hex_digit_val c) r
  end.

Definition parse_hex (s : string) : option float64 :=
  let '(ip, r) := take_hex s in
  let '(fp, r) := match r with String "." r => take_hex r | _ => ("", r) end in
  if ip +:+ fp =s "" then None
  else match r with
  | String c r =>
      if Ascii.eqb (lower_byte c) "p" then
        let '(neg, t) := match r with String "-" t => (true, t) | String "+" t => (false, t) | _ => (false, r) end in
        if (t <>s "") && sall is_digit t then
          let e := if (neg : bool) then - digits_val t else digits_val t in
          match binary_normalize 53 1024 (hex_number 0 (ip +:+ fp)) (e - 4 * Z.of_nat (String.length fp)) false with
          | S754_infinity _ => None      (* out of range *)
          | f => Some f
          end
        else None
      else None
  | EmptyString => None
  end.

Definition parse_unsigned (s : string) : option float64 :=
  let l := smap lower_byte s in
  if (l =s "inf") || (l =s "infinity") then Some (S754_infinity false)
  else if HasPrefix l "0x" then parse_hex (sdrop 2 s)
  else
    let '(ip, r) := take_digits s in
    let '(fp, r) := match r with String "." r => take_digits r | _ => ("", r) end in
    if ip +:+ fp =s "" then None
    else match parse_exponent r with
    | None => None
    | Some e =>
        let f := of_decimal (digits_val (ip +:+ fp)) (e - Z.of_nat (String.length fp)) in
        match f with
        | S754_infinity _ => None      (* out of range *)
        | _ => Some f
        end
    end.

Definition read_float (s : string) : option float64 :=
  match s with
  | String "-" r => SFopp <$> parse_unsigned r
  | String "+" r => parse_unsigned r
  | _ => if smap lower_byte s =s "nan" then Some S754_nan else parse_unsigned s
  end.

(** [underscoreOK] of strconv: underscores only between digits, the base
    prefix counting as one. *)
Inductive seen := SawNothing | SawDigit | SawUnderscore | SawOther.

Fixpoint underscores_ok (hex : bool) (saw : seen) (s : string) : bool :=
  match s with
  | EmptyString => match saw with SawUnderscore => false | _ => true end
  | String c r =>
      if is_digit c || hex && in_range "a" "f" (lower_byte c) then underscores_ok hex SawDigit r
      else if Ascii.eqb c "_" then match saw with SawDigit => underscores_ok hex SawUnderscore r | _ => false end
      else match saw with SawUnderscore => false | _ => underscores_ok hex SawOther r end
  end.

Definition drop_sign (s : string) : string :=
  match s with String "-" t => t | String "+" t => t | _ => s end.

Definition underscoreOK (s : string) : bool :=
  let s := drop_sign s in
  match s with
  | String "0" (String p r) =>
      if existsb (Ascii.eqb (lower_byte p)) ["b"; "o"; "x"]%char
      then underscores_ok (Ascii.eqb (lower_byte p) "x") SawDigit r
      else underscores_ok false SawNothing s
  | _ => underscores_ok false SawNothing s
  end.

Fixpoint no_underscores (s : string) : string :=
  match s with
  | EmptyString => ""
  | String c r => if Ascii.eqb c "_" then no_underscores r else String c (no_underscores r)
  end.

Definition ParseFloat (s : string) : option float64 :=
  if sfree "_" s then read_float s
  else if underscoreOK s then read_float (no_underscores s) else None.

Example parse_floats :
  map ParseFloat ["5e-05"; "0.01"; "+Inf"; "1234"; "1.5e+06"; ""; "."; "x"; "1e400";
                  "1_5.0"; "1__5"; "0x1.8p1"; "0x_f"; "-0X.8p+2"; "0x1p5000"] =
  [Some (S754_finite false 7378697629483821 (-67)); Some (S754_finite false 5764607523034235 (-59));
   Some inf; Some (of_Z 1234); Some (of_Z 1500000); None; None; None; None;
   Some (of_Z 15); None; Some (of_Z 3); None; Some (SFopp (of_Z 2)); None].
Proof. vm_compute. reflexivity. Qed.

(** ** The order of floats *)

Definition is_nan (f : float64) : bool := match f with S754_nan => true | _ => false end.

(** Where a float other than NaN lies: its class, and within the finite ones
    its exponent and mantissa, mirrored for negative numbers. *)
Definition rank (f : float64) : Z * Z * Z :=
  match f with
  | S754_nan => (3, 0, 0)
  | S754_infinity true => (-2, 0, 0)
  | S754_finite true m e => (-1, - e, - Z.pos m)
  | S754_zero _ => (0, 0, 0)
  | S754_finite false m e => (1, e, Z.pos m)
  | S754_infinity false => (2, 0, 0)
  end.

Definition rank_lt (a b : Z * Z * Z) : Prop :=
  let '(a1, a2, a3) := a in
  let '(b1, b2, b3) := b in
  a1 < b1 \/ (a1 = b1 /\ (a2 < b2 \/ (a2 = b2 /\ a3 < b3))).

Lemma fltb_rank x y : is_nan x = false -> is_nan y = false -> fltb x y = true <-> rank_lt (rank x) (rank y).
Proof.
  unfold fltb, SFltb. intros Hx Hy.
  destruct x as [sx|[]| |[] mx ex], y as [sy|[]| |[] my ey]; try discriminate Hx; try discriminate Hy; cbn [SFcompare rank rank_lt];
    try (split; [discriminate|lia]); try (split; [lia|done]).
  - change (Pos.compare_cont Eq mx my) with (mx ?= my)%positive.
    destruct (Z.compare_spec ex ey); [|split; [discriminate|lia]|split; [lia|done]].
    destruct (Pos.compare_spec mx my); cbn [CompOpp]; split; try discriminate; try done; lia.
  - change (Pos.compare_cont Eq mx my) with (mx ?= my)%positive.
    destruct (Z.compare_spec ex ey); [|split; [lia|done]|split; [discriminate|lia]].
    destruct (Pos.compare_spec mx my); split; try discriminate; try done; lia.
Qed.

(** Not above: a total preorder away from NaN. *)
Definition fle (x y : float64) : Prop := fltb y x = false.

Lemma fle_rank x y : is_nan x = false -> is_nan y = false -> fle x y <-> ~ rank_lt (rank y) (rank x).
Proof.
  intros Hx Hy. unfold fle. rewrite <- (fltb_rank y x) by done. destruct (fltb y x); split; try done; naive_solver.
Qed.

Lemma fle_trans x y z :
  is_nan x = false -> is_nan y = false -> is_nan z = false -> fle x y -> fle y z -> fle x z.
Proof.
  intros Hx Hy Hz. rewrite !fle_rank by done. unfold rank_lt. destruct (rank x) as [[] ?], (rank y) as [[] ?], (rank z) as [[] ?]. lia.
Qed.

Lemma fle_total x y : is_nan x = false -> is_nan y = false -> fle x y \/ fle y x.
Proof.
  intros Hx Hy. rewrite !fle_rank by done. unfold rank_lt. destruct (rank x) as [[] ?], (rank y) as [[] ?]. lia.
Qed.

(** ** Printing *)

(** [n / 10 ^ prec] with [prec] decimals. *)
Definition decimal_point (prec : nat) (n : Z) : string :=
  let p := 10 ^ Z.of_nat prec in
  Itoa (n / p) +:+ (if (prec =? 0)%nat then "" else "." +:+ digits prec (n mod p)).

(** The nearest integer to [a / b], ties to even. *)
Definition round_half_even (a b : Z) : Z :=
  let q := a / b in
  let r := a mod b in
  if 2 * r <? b then q else if b <? 2 * r then q + 1 else if Z.even q then q else q + 1.

(** [%.{prec}f] *)
Definition fmt_fixed (prec : nat) (f : float64) : string :=
  match f with
  | S754_nan => "NaN"
  | S754_infinity s => if s then "-Inf" else "+Inf"
  | S754_zero s => (if s then "-" else "") +:+ decimal_point prec 0
  | S754_finite s m e =>
      let a := Z.pos m * 10 ^ Z.of_nat prec in
      let n := if 0 <=? e then a * 2 ^ e else round_half_even a (2 ^ (- e)) in
      (if s then "-" else "") +:+ decimal_point prec n
  end.

(** Padded with spaces on the left to [width]. *)
Fixpoint spaces (n : nat) : string := match n with O => "" | S n => String " " (spaces n) end.

Definition pad_left (width : nat) (s : string) : string := spaces (width - String.length s) +:+ s.

Example fmt_samples :
  map (fun s => default "" (fmt_fixed 3 <$> ParseFloat s)) ["0.25"; "0.0005"; "1.9995"; "123.4567"; "0"; "-2.5"]
  = ["0.250"; "0.001"; "2.000"; "123.457"; "0.000"; "-2.500"].
Proof. vm_compute. reflexivity. Qed.

(** ** Integers of at most 53 bits are exact *)

Section Exact.
Local Open Scope Z_scope.

Lemma digits2_log2 p : Z.pos (digits2_pos p) = Z.log2 (Z.pos p) + 1.
Proof.
  induction p as [p IH|p IH|]; [| |done]; cbn [digits2_pos]; rewrite Pos2Z.inj_succ, IH.
  - change (Z.pos p~1) with (2 * Z.pos p + 1). rewrite Z.log2_succ_double by lia. lia.
  - change (Z.pos p~0) with (2 * Z.pos p). rewrite Z.log2_double by lia. lia.
Qed.

Lemma Zdigits2_log2 m : 0 < m -> Zdigits2 m = Z.log2 m + 1.
Proof. destruct m as [|p|p]; [lia| |lia]. intros _. apply digits2_log2. Qed.

Lemma Zdigits2_shift m j : 0 < m -> 0 <= j -> Zdigits2 (m * 2 ^ j) = Zdigits2 m + j.
Proof.
  intros Hm Hj. rewrite !Zdigits2_log2 by (try apply Z.mul_pos_pos; lia). rewrite Z.log2_mul_pow2 by lia. lia.
Qed.

Lemma Zdigits2_bound m : 0 < m < 2 ^ 53 -> 1 <= Zdigits2 m <= 53.
Proof.
  intros Hm. rewrite Zdigits2_log2 by lia. pose proof (Z.log2_nonneg m).
  assert (Z.log2 m < 53) by (apply Z.log2_lt_pow2; lia). lia.
Qed.

(** Shifting zeros out loses nothing. *)
Lemma shr_1_even m : 0 < m -> shr_1 (Build_shr_record (2 * m) false false) = Build_shr_record m false false.
Proof. by destruct m. Qed.

Lemma shr_exact n : forall m, 0 < m ->
  SpecFloat.iter_pos shr_1 n (Build_shr_record (m * 2 ^ Z.pos n) false false) = Build_shr_record m false false.
Proof.
  induction n as [n IH|n IH|]; intros m Hm; cbn [SpecFloat.iter_pos].
  - assert (2 ^ Z.pos n~1 = 2 * (2 ^ Z.pos n * 2 ^ Z.pos n)) as ->
      by (rewrite <- Z.pow_add_r, <- Z.pow_succ_r by lia; f_equal; lia).
    replace (m * (2 * (2 ^ Z.pos n * 2 ^ Z.pos n))) with (2 * (m * 2 ^ Z.pos n * 2 ^ Z.pos n)) by ring.
    rewrite shr_1_even by lia. rewrite IH by lia. by apply IH.
  - assert (2 ^ Z.pos n~0 = 2 ^ Z.pos n * 2 ^ Z.pos n) as -> by (rewrite <- Z.pow_add_r by lia; f_equal; lia).
    rewrite Z.mul_assoc, IH by lia. by apply IH.
  - rewrite Z.pow_1_r, Z.mul_comm. by apply shr_1_even.
Qed.

Lemma shr_fexp_exact m n e :
  0 < m -> 0 <= n -> -1000 <= e -> Zdigits2 m = 53 ->
  shr_fexp 53 1024 (m * 2 ^ n) (e - n) loc_Exact = (Build_shr_record m false false, e).
Proof.
  intros Hm Hn He Hd. unfold shr_fexp. rewrite Zdigits2_shift, Hd by lia. cbn [shr_record_of_loc].
  replace (fexp 53 1024 (53 + n + (e - n)) - (e - n)) with n by (unfold fexp, emin; lia).
  unfold shr. destruct n as [|n|n]; [by rewrite Z.mul_1_r, Z.sub_0_r|by rewrite shr_exact, Z.sub_add by lia|lia].
Qed.

(** Aligning to a smaller exponent. *)
Lemma shl_align_spec p e e' :
  let '(p', x) := shl_align p e e' in x = Z.min e e' /\ Z.pos p' = Z.pos p * 2 ^ (e - x).
Proof.
  unfold shl_align. destruct (e' - e) as [|d|d] eqn:E.
  - split; [lia|]. rewrite Z.sub_diag. lia.
  - split; [lia|]. rewrite Z.sub_diag. lia.
  - split; [lia|]. replace (e - e') with (Z.pos d) by lia.
    change (PosDef.Pos.iter xO p d) with (Zpower.shift_pos d p). rewrite Zpower.shift_pos_correct.
    rewrite Zpower.Zpower_pos_nat, Zpower.Zpower_nat_Z, positive_nat_Z. lia.
Qed.

(** The double of an integer of at most 53 bits, written with [j] more. *)
Lemma normalize_exact m j :
  0 < m < 2 ^ 53 -> 0 <= j ->
  exists p, Z.pos p = m * 2 ^ (53 - Zdigits2 m) /\
    binary_normalize 53 1024 (m * 2 ^ j) (- j) false = S754_finite false p (Zdigits2 m - 53).
Proof.
  intros Hm Hj. pose proof (Zdigits2_bound m Hm) as Hd.
  assert (0 < m * 2 ^ (53 - Zdigits2 m)) as Hp by (apply Z.mul_pos_pos; lia).
  exists (Z.to_pos (m * 2 ^ (53 - Zdigits2 m))). split; [lia|].
  assert (0 < m * 2 ^ j) as Hmj by (apply Z.mul_pos_pos; lia).
  unfold binary_normalize. destruct (m * 2 ^ j) as [|q|q] eqn:Eq; try lia. unfold binary_round.
  pose proof (Zdigits2_shift m j ltac:(lia) Hj) as Hdq. rewrite Eq in Hdq. cbn [Zdigits2] in Hdq. rewrite Hdq.
  pose proof (shl_align_spec q (- j) (fexp 53 1024 (Zdigits2 m + j + - j))) as Hal.
  destruct (shl_align q _ _) as [mz ez]. destruct Hal as [Hez Hmz].
  assert (fexp 53 1024 (Zdigits2 m + j + - j) = Zdigits2 m - 53) as Hf by (unfold fexp, emin; lia). rewrite Hf in Hez.
  assert (exists n, 0 <= n /\ Z.pos mz = m * 2 ^ (53 - Zdigits2 m) * 2 ^ n /\ ez = Zdigits2 m - 53 - n) as (n & Hn & Hmn & ->).
  { exists (Zdigits2 m - 53 - ez). split; [lia|]. split; [|lia]. rewrite Hmz, <- Eq, <- !Z.mul_assoc, <- !Z.pow_add_r by lia.
    do 2 f_equal. lia. }
  unfold binary_round_aux. rewrite Hmn. set (M := m * 2 ^ (53 - Zdigits2 m)) in *.
  assert (Zdigits2 M = 53) as HM by (unfold M; rewrite Zdigits2_shift; lia).
  rewrite shr_fexp_exact by lia. cbn [shr_m loc_of_shr_record round_nearest_even].
  pose proof (shr_fexp_exact M 0 (Zdigits2 m - 53) Hp ltac:(lia) ltac:(lia) HM) as H2.
  rewrite Z.mul_1_r, Z.sub_0_r in H2. rewrite H2. cbn [shr_m].
  destruct (Z.leb_spec (Zdigits2 m - 53) (1024 - 53)); [|lia]. by destruct M.
Qed.

(** Small counts: conversion is exact both ways, and so is their difference. *)
Lemma of_Z_finite m : 0 < m < 2 ^ 53 ->
  exists p, Z.pos p = m * 2 ^ (53 - Zdigits2 m) /\ of_Z m = S754_finite false p (Zdigits2 m - 53).
Proof.
  intros Hm. destruct (normalize_exact m 0 Hm ltac:(lia)) as (p & Hp & E). rewrite Z.mul_1_r in E. by exists p.
Qed.

Lemma to_Z_of_Z m : 0 <= m < 2 ^ 53 -> to_Z (of_Z m) = m.
Proof.
  intros Hm. destruct (decide (m = 0)) as [->|Hne]; [done|].
  destruct (of_Z_finite m ltac:(lia)) as (p & Hp & ->). pose proof (Zdigits2_bound m ltac:(lia)).
  unfold to_Z. rewrite Hp. destruct (Z.leb_spec 0 (Zdigits2 m - 53)).
  - replace (53 - Zdigits2 m) with 0 by lia. replace (Zdigits2 m - 53) with 0 by lia. lia.
  - rewrite Z.opp_sub_distr. replace (- Zdigits2 m + 53) with (53 - Zdigits2 m) by lia. apply Z.div_mul. lia.
Qed.

Lemma fsub_of_Z a b : 0 <= b <= a -> a < 2 ^ 53 -> fsub (of_Z a) (of_Z b) = of_Z (a - b).
Proof.
  intros Hb Ha. destruct (decide (b = 0)) as [->|Hb0].
  { rewrite Z.sub_0_r. destruct (decide (a = 0)) as [->|Ha0]; [done|].
    by destruct (of_Z_finite a ltac:(lia)) as (p & _ & ->). }
  destruct (of_Z_finite a ltac:(lia)) as (p & Hp & ->), (of_Z_finite b ltac:(lia)) as (q & Hq & ->).
  assert (Zdigits2 b <= Zdigits2 a) as Hd.
  { rewrite !Zdigits2_log2 by lia. pose proof (Z.log2_le_mono b a ltac:(lia)). lia. }
  pose proof (Zdigits2_bound a ltac:(lia)). pose proof (Zdigits2_bound b ltac:(lia)).
  unfold fsub, SFsub. cbn [cond_Zopp]. set (e := Z.min (Zdigits2 a - 53) (Zdigits2 b - 53)).
  pose proof (shl_align_spec p (Zdigits2 a - 53) e) as H1. pose proof (shl_align_spec q (Zdigits2 b - 53) e) as H2.
  destruct (shl_align p _ _) as [p' x], (shl_align q _ _) as [q' y]. cbn [fst]. destruct H1 as [Hx ->], H2 as [Hy ->].
  rewrite Hp, Hq, <- !Z.mul_assoc, <- !Z.pow_add_r by lia.
  replace (53 - Zdigits2 a + (Zdigits2 a - 53 - x)) with (- e) by lia.
  replace (53 - Zdigits2 b + (Zdigits2 b - 53 - y)) with (- e) by lia. rewrite <- Z.mul_sub_distr_r.
  destruct (decide (a = b)) as [->|Hne]; [by rewrite Z.sub_diag|].
  destruct (normalize_exact (a - b) (- e) ltac:(lia) ltac:(lia)) as (r & Hr & E). rewrite Z.opp_involutive in E. rewrite E.
  destruct (of_Z_finite (a - b) ltac:(lia)) as (r' & Hr' & ->). by assert (r = r') as -> by lia.
Qed.

End Exact.
