(* ===== verification/GoFlag.v ===== *)
(** * Package flag

    Go's [flag.Parse] on the default command line (ExitOnError), for the flag
    types the commands of this repository declare: string, bool, int and
    float64.  A flag set is the list of its names with their current values;
    parsing consumes the arguments one flag at a time and ends at the first
    argument that is not a flag, after [--], or with an error. *)

From Stdlib Require Import Ascii String ZArith NArith Bool Lia.
From stdpp Require Import base tactics list strings.
From S2P Require Import Prelude GoStrings GoTime GoFloat.

(** ** Values *)

Inductive value :=
| VString (s : string)
| VBool (b : bool)
| VInt (z : Z)
| VFloat (f : float64).

(** [strconv.ParseBool] *)
Definition ParseBool (s : string) : option bool :=
  if existsb (String.eqb s) ["1"; "t"; "T"; "true"; "TRUE"; "True"] then Some true
  else if existsb (String.eqb s) ["0"; "f"; "F"; "false"; "FALSE"; "False"] then Some false
  else None.

(** The digits of a number in a base, underscores skipped. *)
Fixpoint based (base acc : Z) (s : string) : option Z :=
  match s with
  | EmptyString => Some acc
  | String c r =>
      if Ascii.eqb c "_" then based base acc r
      else
        let d := if is_digit c then Some (digit_val c)
                 else if is_lower (lower_byte c) then Some (Z.of_N (code (lower_byte c)) - 87)%Z
                 else None in
        match d with
        | Some d => if (d <? base)%Z then based base (acc * base + d) r else None
        | None => None
        end
  end.

(** [strconv.ParseInt(s, 0, 64)]: the base is in the prefix. *)
Definition parse_magnitude (s : string) : option Z :=
  match s with
  | EmptyString => None
  | String "0" r =>
      match r with
      | String p (String d r') =>
          let t := String d r' in
          if Ascii.eqb (lower_byte p) "b" then based 2 0 t
          else if Ascii.eqb (lower_byte p) "o" then based 8 0 t
          else if Ascii.eqb (lower_byte p) "x" then based 16 0 t
          else based 8 0 r
      | _ => based 8 0 r
      end
  | _ => based 10 0 s
  end.

Definition ParseInt0 (s : string) : option Z :=
  let n := match s with String "-" t => Z.opp <$> parse_magnitude t | String "+" t => parse_magnitude t | _ => parse_magnitude s end in
  z ← n;
  if negb (sfree "_" s) && negb (underscoreOK s) then None
  else if in_int64 z then Some z else None.

Example parse_ints :
  map ParseInt0 ["5000"; "0"; "-20"; "+7"; "0x10"; "0b101"; "017"; "0o17"; "1_000"; "1__0"; ""; "-"; "0x"; "08"; "9223372036854775808"] =
  [Some 5000%Z; Some 0%Z; Some (-20)%Z; Some 7%Z; Some 16%Z; Some 5%Z; Some 15%Z; Some 15%Z; Some 1000%Z; None; None; None; None; None; None].
Proof. vm_compute. reflexivity. Qed.

(** The [Set] method of a flag's value. *)
Definition SetValue (v : value) (s : string) : option value :=
  match v with
  | VString _ => Some (VString s)
  | VBool _ => VBool <$> ParseBool s
  | VInt _ => VInt <$> ParseInt0 s
  | VFloat _ => VFloat <$> ParseFloat s
  end.

Definition is_bool (v : value) : bool := match v with VBool _ => true | _ => false end.

(** ** Flag sets *)

Definition flagset := list (string * value).

Definition lookup_flag (fs : flagset) (name : string) : option value :=
  snd <$> List.find (fun f => f.1 =s name) fs.

Definition set_flag (fs : flagset) (name : string) (v : value) : flagset :=
  map (fun f => if f.1 =s name then (f.1, v) else f) fs.

Inductive flag_error :=
| ErrHelp
| BadSyntax (arg : string)
| Undefined (name : string)
| NeedsArgument (name : string)
| InvalidBool (v name : string)
| InvalidValue (v name : string).

(** [name] or [name=value]; the first byte of the name is not looked at. *)
Definition split_flag (name : string) : string * option string :=
  match name with
  | EmptyString => ("", None)
  | String c r => let '(n, v, found) := Cut "=" r in (String c n, if (found : bool) then Some v else None)
  end.

(** What an argument is to [parseOne]: the end of the flags (with what is
    left), a syntax error, or a flag's name. *)
Inductive arg_kind := NotAFlag | Terminator | Malformed | Named (name : string).

Definition classify (s : string) : arg_kind :=
  match s with
  | String "-" (String c r) =>
      let name := if Ascii.eqb c "-" then r else String c r in
      if s =s "--" then Terminator
      else match name with
      | EmptyString => Malformed
      | String d _ => if Ascii.eqb d "-" || Ascii.eqb d "=" then Malformed else Named name
      end
  | _ => NotAFlag
  end.

(** [flag.Parse]: the values and the remaining arguments, or the error.  A
    flag that is not boolean takes the next argument as its value when it has
    none of its own. *)
Fixpoint Parse (fs : flagset) (args : list string) : res flag_error (flagset * list string) :=
  match args with
  | [] => Ok (fs, [])
  | s :: rest =>
      match classify s with
      | NotAFlag => Ok (fs, s :: rest)
      | Terminator => Ok (fs, rest)
      | Malformed => Err (BadSyntax s)
      | Named n =>
          let '(name, given) := split_flag n in
          match lookup_flag fs name with
          | None => if (name =s "help") || (name =s "h") then Err ErrHelp else Err (Undefined name)
          | Some v =>
              if is_bool v then
                let text := default "true" given in
                match SetValue v text with
                | Some v' => Parse (set_flag fs name v') rest
                | None => Err (InvalidBool text name)
                end
              else
                match given with
                | Some text =>
                    match SetValue v text with
                    | Some v' => Parse (set_flag fs name v') rest
                    | None => Err (InvalidValue text name)
                    end
                | None =>
                    match rest with
                    | [] => Err (NeedsArgument name)
                    | text :: rest' =>
                        match SetValue v text with
                        | Some v' => Parse (set_flag fs name v') rest'
                        | None => Err (InvalidValue text name)
                        end
                    end
                end
          end
      end
  end.

(** [CommandLine] is made with ExitOnError. *)
Definition exit_status (e : flag_error) : Z := match e with ErrHelp => 0 | _ => 2 end.

(** The flags as [main] reads them through its pointers. *)
Definition string_flag (fs : flagset) (name : string) : string :=
  match lookup_flag fs name with Some (VString s) => s | _ => "" end.
Definition bool_flag (fs : flagset) (name : string) : bool :=
  match lookup_flag fs name with Some (VBool b) => b | _ => false end.
Definition int_flag (fs : flagset) (name : string) : Z :=
  match lookup_flag fs name with Some (VInt z) => z | _ => 0%Z end.
Definition float_flag (fs : flagset) (name : string) : float64 :=
  match lookup_flag fs name with Some (VFloat f) => f | _ => SpecFloat.S754_nan end.

(** ** Which command lines are accepted, and what they mean *)

(** A flag as it can be written: [-name=text], [-name text] or [-name], with
    one dash or two. *)
Inductive spelling := Equals | Separate | Bare.

Record setting := mkSetting { st_name : string; st_text : string; st_spelling : spelling; st_double : bool }.

Definition dashes (st : setting) : string := if st_double st then "--" else "-".

Definition render_setting (st : setting) : list string :=
  match st_spelling st with
  | Equals => [dashes st +:+ st_name st +:+ "=" +:+ st_text st]
  | Separate => [dashes st +:+ st_name st; st_text st]
  | Bare => [dashes st +:+ st_name st]
  end.

(** A boolean flag is written bare, for true, or with [=]; any other with its
    value. *)
Definition spelled_for (v : value) (st : setting) : bool :=
  match st_spelling st with
  | Equals => true
  | Separate => negb (is_bool v)
  | Bare => is_bool v && (st_text st =s "true")
  end.

(** Settings take effect in order, so the last one of a name wins. *)
Fixpoint apply_settings (fs : flagset) (sts : list setting) : option flagset :=
  match sts with
  | [] => Some fs
  | st :: sts =>
      v ← lookup_flag fs (st_name st);
      if spelled_for v st then
        v' ← SetValue v (st_text st);
        apply_settings (set_flag fs (st_name st) v') sts
      else None
  end.

(** The names [flag.String] and the like are called with here. *)
Definition flag_name (n : string) : bool :=
  match n with
  | String c r => negb (Ascii.eqb c "-") && negb (Ascii.eqb c "=") && sfree "=" r
  | EmptyString => false
  end.

Definition named_well (fs : flagset) : bool := forallb flag_name (map fst fs).

(** Where the flags end, and what is left. *)
Inductive ends : list string -> list string -> Prop :=
| ends_empty : ends [] []
| ends_operand s l : classify s = NotAFlag -> ends (s :: l) (s :: l)
| ends_terminator l : ends ("--" :: l) l.

Lemma classify_name n : flag_name (split_flag n).1 = true ->
  exists c r, n = String c r /\ Ascii.eqb c "-" = false /\ Ascii.eqb c "=" = false.
Proof.
  destruct n as [|c r]; [done|]. unfold split_flag. destruct (Cut "=" r) as [[x y] f]. cbn [fst flag_name].
  intros Hn. split_bools. eauto.
Qed.

Lemma classify_Named (d : bool) n :
  flag_name (split_flag n).1 = true -> classify ((if d then "--" else "-") +:+ n) = Named n.
Proof.
  intros (c & r & -> & Hd & He)%classify_name. unfold classify. destruct d.
  - change ("--" +:+ String c r) with (String "-" (String "-" (String c r))). cbv iota. rewrite Ascii.eqb_refl.
    rewrite (proj2 (String.eqb_neq (String "-" (String "-" (String c r))) "--")) by done. by rewrite Hd, He.
  - change ("-" +:+ String c r) with (String "-" (String c r)). cbv iota. rewrite Hd.
    rewrite (proj2 (String.eqb_neq (String "-" (String c r)) "--")); [by rewrite Hd, He|]. by intros [= -> _].
Qed.

Lemma Cut_free sep s : sfree sep s = true -> Cut sep s = (s, "", false).
Proof.
  induction s as [|c s IH]; [done|]. unfold sfree. cbn [sall Cut]. intros [Hc Hs]%andb_true_iff.
  rewrite Ascii.eqb_sym. apply negb_true_iff in Hc. by rewrite Hc, (IH Hs).
Qed.

Lemma Cut_inv sep s x y f : Cut sep s = (x, y, f) -> s = if f then x +:+ String sep y else x.
Proof.
  revert x y f. induction s as [|c s IH]; intros x y f; cbn [Cut]; [by intros [= <- <- <-]|].
  destruct (Ascii.eqb_spec c sep) as [->|]; [by intros [= <- <- <-]|].
  destruct (Cut sep s) as [[x' y'] f'] eqn:E. intros [= <- <- <-]. rewrite (IH _ _ _ eq_refl). by destruct f'.
Qed.

(** A name reads back from both forms. *)
Lemma split_flag_bare n : flag_name n = true -> split_flag n = (n, None).
Proof.
  destruct n as [|c r]; [done|]. cbn [flag_name split_flag]. intros Hn. split_bools.
  by rewrite Cut_free.
Qed.

Lemma split_flag_equals n v : flag_name n = true -> split_flag (n +:+ "=" +:+ v) = (n, Some v).
Proof.
  destruct n as [|c r]; [done|]. cbn [flag_name]. intros Hn. split_bools.
  change (String c r +:+ "=" +:+ v) with (String c (r +:+ String "=" v)). cbn [split_flag]. by rewrite Cut_app.
Qed.

(** And the other way: an argument that names a flag was written so. *)
Lemma classify_Named_inv s n : classify s = Named n -> exists d : bool, s = (if d then "--" else "-") +:+ n.
Proof.
  unfold classify. destruct s as [|a [|c r]]; [done|by destruct a as [[] [] [] [] [] [] [] []]|].
  destruct (Ascii.eqb_spec a "-") as [->|Ha].
  - destruct (String "-" (String c r) =s "--"); [done|]. destruct (Ascii.eqb_spec c "-") as [->|Hc].
    + intros Hn. exists true. destruct r as [|d r']; [done|]. destruct (_ || _); [done|]. by injection Hn as <-.
    + intros Hn. exists false. destruct (_ || _); [done|]. by injection Hn as <-.
  - intros Hn. exfalso. destruct a as [[] [] [] [] [] [] [] []]; first [discriminate Hn|by destruct Ha].
Qed.

Lemma split_flag_inv n name given :
  split_flag n = (name, given) -> n = match given with Some v => name +:+ "=" +:+ v | None => name end.
Proof.
  destruct n as [|c r]; [by intros [= <- <-]|]. cbn [split_flag]. destruct (Cut "=" r) as [[x y] f] eqn:E.
  apply Cut_inv in E. destruct f; intros [= <- <-]; by rewrite E.
Qed.

(** Setting keeps the names. *)
Lemma set_flag_names fs name v : map fst (set_flag fs name v) = map fst fs.
Proof. unfold set_flag. rewrite map_map. apply map_ext. intros [n x]. cbn. by destruct (n =s name). Qed.

Lemma lookup_flag_name fs name v : named_well fs = true -> lookup_flag fs name = Some v -> flag_name name = true.
Proof.
  unfold named_well, lookup_flag. rewrite forallb_forall. intros Hf. destruct (List.find _ fs) as [[n x]|] eqn:E; [|done].
  intros _. apply List.find_some in E as [Hin Hn]. apply String.eqb_eq in Hn. cbn in Hn. subst n.
  apply Hf. by apply (in_map fst) in Hin.
Qed.

Lemma set_flag_named fs name v : named_well fs = true -> named_well (set_flag fs name v) = true.
Proof. unfold named_well. by rewrite set_flag_names. Qed.

(** One setting at the front of the arguments. *)
Lemma Parse_setting fs st v v' rest :
  named_well fs = true -> lookup_flag fs (st_name st) = Some v -> spelled_for v st = true -> SetValue v (st_text st) = Some v' ->
  Parse fs (render_setting st ++ rest) = Parse (set_flag fs (st_name st) v') rest.
Proof.
  intros Hf Hl Hs Hv. pose proof (lookup_flag_name fs (st_name st) v Hf Hl) as Hn.
  unfold render_setting, spelled_for, dashes in *. destruct (st_spelling st); cbn [app Parse].
  - rewrite classify_Named; [|by rewrite split_flag_equals]. rewrite split_flag_equals, Hl by done. cbn [default from_option].
    unfold id. rewrite Hv. by destruct (is_bool v).
  - rewrite classify_Named; [|by rewrite split_flag_bare]. rewrite split_flag_bare, Hl by done.
    apply negb_true_iff in Hs. by rewrite Hs, Hv.
  - rewrite classify_Named; [|by rewrite split_flag_bare]. rewrite split_flag_bare, Hl by done.
    apply andb_true_iff in Hs as [-> Ht]. apply String.eqb_eq in Ht. rewrite Ht in Hv. cbn [default from_option]. by rewrite Hv.
Qed.

Lemma Parse_ends fs tail rest : ends tail rest -> Parse fs tail = Ok (fs, rest).
Proof. intros [|s l Hs|l]; [done|by cbn [Parse]; rewrite Hs|done]. Qed.

Lemma Parse_settings sts : forall fs fs' tail rest,
  named_well fs = true -> apply_settings fs sts = Some fs' -> ends tail rest ->
  Parse fs (concat (map render_setting sts) ++ tail) = Ok (fs', rest).
Proof.
  induction sts as [|st sts IH]; intros fs fs' tail rest Hf Ha He; cbn [map concat apply_settings] in *.
  { injection Ha as <-. by apply Parse_ends. }
  destruct (lookup_flag fs (st_name st)) as [v|] eqn:El; [|done]. cbn [mbind option_bind] in Ha.
  destruct (spelled_for v st) eqn:Es; [|done]. destruct (SetValue v (st_text st)) as [v'|] eqn:Ev; [|done].
  rewrite <- app_assoc, (Parse_setting fs st v v') by done. apply IH; [by apply set_flag_named|done|done].
Qed.

(** What a successful parse consumed. *)
Lemma Parse_inv k : forall fs args fs' rest, length args <= k ->
  Parse fs args = Ok (fs', rest) ->
  exists sts tail, args = concat (map render_setting sts) ++ tail /\ apply_settings fs sts = Some fs' /\ ends tail rest.
Proof.
  induction k as [|k IH]; intros fs args fs' rest Hk Hp.
  { destruct args; [|cbn in Hk; lia]. injection Hp as <- <-. exists [], []. by repeat constructor. }
  destruct args as [|s args]; [injection Hp as <- <-; exists [], []; by repeat constructor|].
  cbn [Parse] in Hp. cbn [length] in Hk. destruct (classify s) as [| | |n] eqn:Ec.
  - injection Hp as <- <-. exists [], (s :: args). split; [done|]. split; [done|]. by constructor.
  - injection Hp as <- <-. exists [], (s :: args). split; [done|]. split; [done|].
    assert (s = "--") as ->; [|constructor]. unfold classify in Ec.
    destruct s as [|a [|c r]]; try done; [by destruct a as [[] [] [] [] [] [] [] []]|].
    destruct (seqb_spec (String a (String c r)) "--") as [E|]; [exact E|].
    destruct a as [[] [] [] [] [] [] [] []]; try discriminate Ec. destruct (Ascii.eqb c "-"); repeat (case_match; try done).
  - discriminate Hp.
  - apply classify_Named_inv in Ec as [d ->]. destruct (split_flag n) as [name given] eqn:Es.
    apply split_flag_inv in Es as ->. destruct (lookup_flag fs name) as [v|] eqn:El; [|by destruct (_ || _)].
    assert (forall sp text rest0 v', spelled_for v (mkSetting name text sp d) = true -> SetValue v text = Some v' ->
      length rest0 <= k -> Parse (set_flag fs name v') rest0 = Ok (fs', rest) ->
      exists sts tail, render_setting (mkSetting name text sp d) ++ rest0 = concat (map render_setting sts) ++ tail /\
        apply_settings fs sts = Some fs' /\ ends tail rest) as Hstep.
    { intros sp text rest0 v' Hsp Hv Hr Hp'. apply IH in Hp' as (sts & tail & -> & Ha & He); [|done].
      exists (mkSetting name text sp d :: sts), tail. split; [cbn [map concat]; by rewrite app_assoc|]. split; [|done].
      cbn [apply_settings st_name st_text]. rewrite El. cbn [mbind option_bind]. by rewrite Hsp, Hv. }
    destruct given as [text|]; [destruct (is_bool v) eqn:Eb|destruct (is_bool v) eqn:Eb].
    + cbn [default from_option] in Hp. unfold id in Hp. destruct (SetValue v text) as [v'|] eqn:Ev; [|done].
      by apply (Hstep Equals text args v'); [|done|lia|].
    + destruct (SetValue v text) as [v'|] eqn:Ev; [|done]. by apply (Hstep Equals text args v'); [|done|lia|].
    + cbn [default from_option] in Hp. destruct (SetValue v "true") as [v'|] eqn:Ev; [|done].
      apply (Hstep Bare "true" args v'); [cbn; by rewrite Eb|done|lia|done].
    + destruct args as [|text args]; [done|]. destruct (SetValue v text) as [v'|] eqn:Ev; [|done]. cbn [length] in Hk.
      apply (Hstep Separate text args v'); [cbn; by rewrite Eb|done|lia|done].
Qed.

(** ** Types and values *)

Definition same_kind (v w : value) : Prop :=
  match v, w with
  | VString _, VString _ | VBool _, VBool _ | VInt _, VInt _ | VFloat _, VFloat _ => True
  | _, _ => False
  end.

#[export] Instance same_kind_equivalence : Equivalence same_kind.
Proof. split; [by intros []|by intros [] []|by intros [] [] []]. Qed.

Lemma SetValue_kind v s v' : SetValue v s = Some v' -> same_kind v v'.
Proof.
  destruct v; cbn [SetValue]; [by intros [= <-]|..]; intros (x & <- & _)%fmap_Some_1 || (intros E; by apply fmap_Some in E as (x & _ & ->)).
Qed.

Lemma SetValue_same v w s : same_kind v w -> SetValue v s = SetValue w s.
Proof. by destruct v, w. Qed.

Lemma lookup_set_flag fs name v n :
  lookup_flag (set_flag fs name v) n =
  if decide (n = name) then (fun _ => v) <$> lookup_flag fs n else lookup_flag fs n.
Proof.
  unfold lookup_flag, set_flag. induction fs as [|[m x] fs IH]; cbn [map List.find fst]; [by case_decide|].
  destruct (seqb_spec m name) as [->|Hm]; cbn [fst].
  - destruct (seqb_spec name n) as [->|Hn]; [by rewrite decide_True|exact IH].
  - destruct (seqb_spec m n) as [->|Hn]; [by rewrite decide_False|exact IH].
Qed.

(** The text of the last setting of a name. *)
Definition last_text (sts : list setting) (name : string) : option string :=
  st_text <$> List.find (fun st => st_name st =s name) (rev sts).

Lemma last_text_cons st sts name :
  last_text (st :: sts) name =
  match last_text sts name with Some t => Some t | None => if st_name st =s name then Some (st_text st) else None end.
Proof.
  unfold last_text. cbn [rev]. generalize (rev sts) as l. induction l as [|x l IH]; cbn [app List.find fmap option_fmap option_map].
  - by destruct (_ =s _).
  - destruct (st_name x =s name); [done|exact IH].
Qed.

(** After the settings a flag has the value its last setting gave it, or its
    default, and always its own type. *)
Lemma apply_settings_lookup sts : forall fs fs' name v,
  apply_settings fs sts = Some fs' -> lookup_flag fs name = Some v ->
  exists v', lookup_flag fs' name = Some v' /\ same_kind v v' /\
    match last_text sts name with Some t => SetValue v t = Some v' | None => v' = v end.
Proof.
  induction sts as [|st sts IH]; intros fs fs' name v Ha Hl; cbn [apply_settings] in Ha.
  { injection Ha as <-. exists v. split; [done|]. split; [by destruct v|done]. }
  destruct (lookup_flag fs (st_name st)) as [w|] eqn:Ew; [|done]. cbn [mbind option_bind] in Ha.
  destruct (spelled_for w st); [|done]. destruct (SetValue w (st_text st)) as [w'|] eqn:Es; [|done].
  apply (IH _ _ name (if decide (name = st_name st) then w' else v)) in Ha.
  - destruct Ha as (v' & Hv' & Hk & Ht). exists v'. split; [done|]. rewrite last_text_cons. case_decide as Hd.
    + subst name. assert (w = v) as -> by congruence. pose proof (SetValue_kind _ _ _ Es) as Hvk.
      split; [by transitivity w'|]. rewrite seqb_refl.
      destruct (last_text sts (st_name st)); [by rewrite (SetValue_same v w' _ Hvk)|by rewrite Ht].
    + split; [done|]. destruct (last_text sts name); [done|].
      by rewrite (proj2 (String.eqb_neq _ _) (not_eq_sym Hd)).
  - rewrite lookup_set_flag. case_decide as Hd; [|done]. by rewrite Hl.
Qed.

(** Whether a setting is accepted depends on the types of the flags alone. *)
Definition accepts (fs : flagset) (st : setting) : bool :=
  match lookup_flag fs (st_name st) with
  | Some v => spelled_for v st && (if SetValue v (st_text st) then true else false)
  | None => false
  end.

Lemma spelled_for_same v w st : same_kind v w -> spelled_for v st = spelled_for w st.
Proof. by destruct v, w. Qed.

Lemma accepts_set_flag fs name v v' st :
  lookup_flag fs name = Some v -> same_kind v v' -> accepts (set_flag fs name v') st = accepts fs st.
Proof.
  intros Hl Hk. unfold accepts. rewrite lookup_set_flag. case_decide as Hd; [|done]. rewrite Hd, Hl. cbn [fmap option_fmap option_map].
  by rewrite (spelled_for_same v v' st Hk), (SetValue_same v v' (st_text st) Hk).
Qed.

Lemma apply_settings_accepts sts : forall fs, forallb (accepts fs) sts = true <-> is_Some (apply_settings fs sts).
Proof.
  induction sts as [|st sts IH]; intros fs; cbn [forallb apply_settings]; [split; [by eexists|done]|].
  unfold accepts at 1. destruct (lookup_flag fs (st_name st)) as [v|] eqn:El; cbn [mbind option_bind]; [|split; [done|by intros []]].
  destruct (spelled_for v st); cbn [andb]; [|split; [done|by intros []]].
  destruct (SetValue v (st_text st)) as [v'|] eqn:Es; cbn [andb mbind option_bind]; [|split; [done|by intros []]].
  rewrite <- IH. assert (forallb (accepts (set_flag fs (st_name st) v')) sts = forallb (accepts fs) sts) as ->; [|done].
  clear IH. induction sts as [|st' sts IH]; [done|]. cbn [forallb].
  by rewrite IH, (accepts_set_flag fs _ v v' st' El (SetValue_kind _ _ _ Es)).
Qed.

(** Which command lines are accepted: those made of settings of defined flags
    with readable values, followed by nothing, an operand or [--]; then every
    flag has the value of its last setting, or its default, at its own type. *)
Lemma Parse_exact fs args fs' rest :
  named_well fs = true ->
  Parse fs args = Ok (fs', rest) <->
  exists sts tail, args = concat (map render_setting sts) ++ tail /\ apply_settings fs sts = Some fs' /\ ends tail rest.
Proof.
  intros Hf. split; [by apply (Parse_inv (length args))|]. intros (sts & tail & -> & Ha & He). by apply Parse_settings.
Qed.

Lemma Parse_typed fs args fs' rest name v :
  Parse fs args = Ok (fs', rest) -> lookup_flag fs name = Some v ->
  exists v', lookup_flag fs' name = Some v' /\ same_kind v v'.
Proof.
  intros (sts & tail & _ & Ha & _)%(Parse_inv (length args)) Hl; [|done].
  destruct (apply_settings_lookup sts fs fs' name v Ha Hl) as (v' & Hv & Hk & _). eauto.
Qed.

(** ** Flags as settings give them *)

Lemma string_flag_given fs fs' sts name d :
  apply_settings fs sts = Some fs' -> lookup_flag fs name = Some (VString d) ->
  string_flag fs' name = default d (last_text sts name).
Proof.
  intros Ha Hl. destruct (apply_settings_lookup sts fs fs' name _ Ha Hl) as (v' & Hv & _ & Ht). unfold string_flag. rewrite Hv.
  destruct (last_text sts name); [by injection Ht as <-|by subst].
Qed.

Lemma bool_flag_given fs fs' sts name d :
  apply_settings fs sts = Some fs' -> lookup_flag fs name = Some (VBool d) ->
  bool_flag fs' name = match last_text sts name with Some t => default false (ParseBool t) | None => d end.
Proof.
  intros Ha Hl. destruct (apply_settings_lookup sts fs fs' name _ Ha Hl) as (v' & Hv & _ & Ht). unfold bool_flag. rewrite Hv.
  destruct (last_text sts name) as [t|]; [|by subst]. cbn [SetValue] in Ht. destruct (ParseBool t); [|done]. by injection Ht as <-.
Qed.

Lemma int_flag_given fs fs' sts name d :
  apply_settings fs sts = Some fs' -> lookup_flag fs name = Some (VInt d) ->
  int_flag fs' name = match last_text sts name with Some t => default 0%Z (ParseInt0 t) | None => d end.
Proof.
  intros Ha Hl. destruct (apply_settings_lookup sts fs fs' name _ Ha Hl) as (v' & Hv & _ & Ht). unfold int_flag. rewrite Hv.
  destruct (last_text sts name) as [t|]; [|by subst]. cbn [SetValue] in Ht. destruct (ParseInt0 t); [|done]. by injection Ht as <-.
Qed.

Lemma float_flag_given fs fs' sts name d :
  apply_settings fs sts = Some fs' -> lookup_flag fs name = Some (VFloat d) ->
  float_flag fs' name = match last_text sts name with Some t => default SpecFloat.S754_nan (ParseFloat t) | None => d end.
Proof.
  intros Ha Hl. destruct (apply_settings_lookup sts fs fs' name _ Ha Hl) as (v' & Hv & _ & Ht). unfold float_flag. rewrite Hv.
  destruct (last_text sts name) as [t|]; [|by subst]. cbn [SetValue] in Ht. destruct (ParseFloat t); [|done]. by injection Ht as <-.
Qed.

(** The command lines a flag set accepts, and the flags they leave. *)
Inductive command_line (fs : flagset) : list string -> flagset -> list setting -> Prop :=
| command_settings sts tail rest fs' :
    ends tail rest -> apply_settings fs sts = Some fs' -> command_line fs (concat (map render_setting sts) ++ tail) fs' sts.

Lemma Parse_command_line fs args :
  named_well fs = true ->
  match Parse fs args with
  | Ok (fs', _) => exists sts, command_line fs args fs' sts
  | Err _ => forall fs' sts, ~ command_line fs args fs' sts
  end.
Proof.
  intros Hf. destruct (Parse fs args) as [[fs' rest]|e] eqn:Ep.
  - apply Parse_exact in Ep as (sts & tail & -> & Ha & He); [|done]. exists sts. by econstructor.
  - intros fs' sts Hc. destruct Hc as [sts tail rest fs' He Ha]. rewrite (Parse_settings sts fs fs' tail rest Hf Ha He) in Ep. done.
Qed.

Lemma command_line_Parse fs args fs' sts :
  named_well fs = true -> command_line fs args fs' sts -> exists rest, Parse fs args = Ok (fs', rest).
Proof. intros Hf Hc. destruct Hc as [sts tail rest fs' He Ha]. exists rest. by apply Parse_settings. Qed.

(** ** The types of a whole flag set *)

(** The same flags in the same order, each at its type. *)
Definition flag_alike (f g : string * value) : Prop := f.1 = g.1 /\ same_kind f.2 g.2.
Definition same_types : flagset -> flagset -> Prop := Forall2 flag_alike.

#[export] Instance flag_alike_equivalence : Equivalence flag_alike.
Proof.
  split; red; unfold flag_alike; [done|by intros x y [-> ->]|].
  intros x y z [-> Hk] [-> Hk']. split; [done|by transitivity y.2].
Qed.

#[export] Instance same_types_equivalence : Equivalence same_types.
Proof. unfold same_types. split; apply _. Qed.

Lemma set_flag_types fs name v v' :
  NoDup (map fst fs) -> lookup_flag fs name = Some v -> same_kind v v' -> same_types fs (set_flag fs name v').
Proof.
  unfold lookup_flag, set_flag. induction fs as [|[n x] fs IH]; intros Hd Hl Hk; [done|].
  cbn [map fst List.find] in *. apply NoDup_cons in Hd as [Hn Hd]. destruct (seqb_spec n name) as [->|Hne].
  - injection Hl as ->. constructor; [by split|]. assert (map (fun f => if f.1 =s name then (f.1, v') else f) fs = fs) as ->; [|reflexivity].
    clear -Hn. induction fs as [|[m y] fs IH]; [done|]. cbn [map fst] in *. apply not_elem_of_cons in Hn as [Hm Hn].
    rewrite (proj2 (String.eqb_neq _ _) (not_eq_sym Hm)). f_equal. by apply IH.
  - constructor; [by split|by apply IH].
Qed.

Lemma same_types_names fs fs' : same_types fs fs' -> map fst fs = map fst fs'.
Proof. induction 1 as [|f g fs fs' [E _] _ IH]; [done|]. cbn. by rewrite E, IH. Qed.

Lemma Parse_types fs args fs' rest : NoDup (map fst fs) -> Parse fs args = Ok (fs', rest) -> same_types fs fs'.
Proof.
  intros Hd (sts & tail & _ & Ha & _)%(Parse_inv (length args)); [|done]. revert fs Hd Ha.
  induction sts as [|st sts IH]; intros fs Hd Ha; cbn [apply_settings] in Ha; [by injection Ha as <-|].
  destruct (lookup_flag fs (st_name st)) as [v|] eqn:El; [|done]. cbn [mbind option_bind] in Ha.
  destruct (spelled_for v st); [|done]. destruct (SetValue v (st_text st)) as [v'|] eqn:Es; [|done].
  assert (same_types fs (set_flag fs (st_name st) v')) as Hs by (eapply set_flag_types; [done|done|by eapply SetValue_kind]).
  transitivity (set_flag fs (st_name st) v'); [exact Hs|]. apply IH; [by rewrite <- (same_types_names _ _ Hs)|exact Ha].
Qed.
