(* ===== verification/GoDuration.v ===== *)
(** * time.Duration: parsing and printing

    [time.ParseDuration], [Duration.Round] and [Duration.String], with Go's
    64-bit arithmetic and its floating-point fractions. *)

From Stdlib Require Import Ascii String ZArith NArith Bool Lia.
From stdpp Require Import base tactics list strings.
From S2P Require Import Prelude GoStrings GoTime GoFloat.
Local Open Scope Z_scope.

(** ** ParseDuration *)

(** [unitMap]; the two spellings of the micro sign are U+00B5 and U+03BC. *)
Definition unitMap (u : string) : option Z :=
  if u =s "ns" then Some 1
  else if (u =s "us") || (u =s String (chr 194) (String (chr 181) "s")) || (u =s String (chr 206) (String (chr 188) "s"))
  then Some 1000
  else if u =s "ms" then Some 1000000
  else if u =s "s" then Some Second
  else if u =s "m" then Some Minute
  else if u =s "h" then Some Hour
  else None.

(** [leadingInt]: [None] on overflow. *)
Fixpoint leadingInt (x : Z) (s : string) : option (Z * string) :=
  match s with
  | String c r =>
      if is_digit c then
        if 2 ^ 63 / 10 <? x then None
        else
          let x := x * 10 + digit_val c in
          if 2 ^ 63 <? x then None else leadingInt x r
      else Some (x, s)
  | EmptyString => Some (x, "")
  end.

(** [leadingFraction]: digits beyond the precision are skipped. *)
Fixpoint leadingFraction (overflow : bool) (x : Z) (scale : float64) (s : string) : Z * float64 * string :=
  match s with
  | String c r =>
      if is_digit c then
        let y := x * 10 + digit_val c in
        if overflow || (max_int64 / 10 <? x) || (2 ^ 63 <? y) then leadingFraction true x scale r
        else leadingFraction false y (fmul scale (of_Z 10)) r
      else (x, scale, s)
  | EmptyString => (x, scale, "")
  end.

Definition is_unit_byte (c : ascii) : bool := negb (Ascii.eqb c "." || is_digit c).

(** The longest prefix of bytes of a class, and the rest. *)
Fixpoint span (p : ascii -> bool) (s : string) : string * string :=
  match s with
  | String c r => if p c then let '(u, t) := span p r in (String c u, t) else ("", s)
  | EmptyString => ("", "")
  end.

Definition uint64 (z : Z) : Z := z mod 2 ^ 64.

(** The number and unit at the start of [s]: its nanoseconds and the rest. *)
Definition parse_term (s : string) : option (Z * string) :=
  match s with
  | EmptyString => None
  | String c _ =>
      if negb (Ascii.eqb c "." || is_digit c) then None
      else match leadingInt 0 s with
      | None => None
      | Some (v, s1) =>
          let pre := negb (String.length s =? String.length s1)%nat in
          let '(f, scale, s2, post) :=
            match CutPrefix s1 "." with
            | Some r =>
                let '(f, scale, t) := leadingFraction false 0 (of_Z 1) r in
                (f, scale, t, negb (String.length r =? String.length t)%nat)
            | None => (0, of_Z 1, s1, false)
            end in
          if negb pre && negb post then None
          else
            let '(u, rest) := span is_unit_byte s2 in
            if u =s "" then None
            else match unitMap u with
            | None => None
            | Some unit =>
                if 2 ^ 63 / unit <? v then None
                else
                  let v := v * unit in
                  if 0 <? f then
                    let v := uint64 (v + to_Z (fmul (of_Z f) (fdiv (of_Z unit) scale))) in
                    if 2 ^ 63 <? v then None else Some (v, rest)
                  else Some (v, rest)
            end
      end
  end.

(** The loop of [ParseDuration]; a term is at least one byte long, so the
    length of the text is enough fuel. *)
Fixpoint parse_terms (fuel : nat) (d : Z) (s : string) : option Z :=
  match fuel with
  | O => None
  | S fuel =>
      if s =s "" then Some d
      else match parse_term s with
      | None => None
      | Some (v, rest) =>
          let d := uint64 (d + v) in
          if 2 ^ 63 <? d then None else parse_terms fuel d rest
      end
  end.

Definition ParseDuration (s : string) : option Duration :=
  let '(neg, t) := match s with
                   | String c r =>
                       if Ascii.eqb c "-" then (true, r) else if Ascii.eqb c "+" then (false, r) else (false, s)
                   | EmptyString => (false, s)
                   end in
  if t =s "0" then Some 0
  else if t =s "" then None
  else match parse_terms (S (String.length t)) 0 t with
  | None => None
  | Some d =>
      if (neg : bool) then Some (wrap64 (- wrap64 d))
      else if max_int64 <? d then None else Some d
  end.

(** ** Round and String *)

Definition lessThanHalf (x y : Z) : bool := uint64 (uint64 x + uint64 x) <? uint64 y.

Definition Round (d m : Duration) : Duration :=
  if m <=? 0 then d
  else
    let r := Z.rem d m in
    if d <? 0 then
      let r := wrap64 (- r) in
      if lessThanHalf r m then wrap64 (d + r)
      else let d1 := wrap64 (d - m + r) in if d1 <? d then d1 else min_int64
    else if lessThanHalf r m then wrap64 (d - r)
    else let d1 := wrap64 (d + m - r) in if d <? d1 then d1 else max_int64.

(** [fmtFrac]: the fraction [v / 10 ^ prec] without trailing zeros, and the
    rest of [v]. *)
Fixpoint fmtFrac (prec : nat) (v : Z) (buf : string) (print : bool) : string * Z :=
  match prec with
  | O => (if print then String "." buf else buf, v)
  | S prec =>
      let digit := v mod 10 in
      let print := print || negb (digit =? 0) in
      fmtFrac prec (v / 10) (if print then String (digit_chr digit) buf else buf) print
  end.

Definition Duration_String (d : Duration) : string :=
  let neg := d <? 0 in
  let u := Z.abs d in
  let sign s := if neg then String "-" s else s in
  if u <? Second then
    if u =? 0 then "0s"
    else
      let '(prec, suffix) :=
        if u <? 1000 then (O, "ns")
        else if u <? 1000000 then (3%nat, String (chr 194) (String (chr 181) "s"))
        else (6%nat, "ms") in
      let '(frac, v) := fmtFrac prec u suffix false in
      sign (Itoa v +:+ frac)
  else
    let '(buf, u) := fmtFrac 9 u "s" false in
    let buf := Itoa (u mod 60) +:+ buf in
    let u := u / 60 in
    if 0 <? u then
      let buf := Itoa (u mod 60) +:+ String "m" buf in
      let u := u / 60 in
      sign (if 0 <? u then Itoa u +:+ String "h" buf else buf)
    else sign buf.

Example duration_strings :
  map Duration_String [0; 1; 1500; 2500000; 90 * Second; 3600 * Second; 1500000000; min_int64] =
  ["0s"; "1ns"; String "1" (String "." (String "5" (String (chr 194) (String (chr 181) "s")))); "2.5ms"; "1m30s"; "1h0m0s"; "1.5s";
   "-2562047h47m16.854775808s"].
Proof. vm_compute. reflexivity. Qed.

Example duration_parsed :
  map ParseDuration ["15m"; "1h30m"; "1.5h"; "-2.5s"; "0"; "300ms"; ""; "15"; "1d"; "9223372036854775807ns"; "9223372036854775808ns"; ".s"; "2562048h"] =
  [Some (15 * Minute); Some (90 * Minute); Some (90 * Minute); Some (-2500000000); Some 0; Some 300000000;
   None; None; None; Some max_int64; None; None; None].
Proof. vm_compute. reflexivity. Qed.

(** ** Numbers with units *)

Lemma digit_val_range c : is_digit c = true -> 0 <= digit_val c <= 9.
Proof.
  unfold is_digit, in_range, digit_val. rewrite andb_true_iff, !N.leb_le.
  change (code "0") with 48%N. change (code "9") with 57%N. lia.
Qed.

Lemma decimal_digits x ds :
  sall is_digit ds = true -> 0 <= x -> exists v, decimal x ds = Some v /\ x <= v.
Proof.
  revert x. induction ds as [|c ds IH]; intros x Hd Hx; [exists x; split; [done|lia]|].
  cbn [sall decimal] in *. apply andb_true_iff in Hd as [Hc Hd]. rewrite Hc.
  pose proof (digit_val_range c Hc). destruct (IH (x * 10 + digit_val c) Hd ltac:(lia)) as (v & Hv & Hle).
  exists v. split; [done|lia].
Qed.

(** Reading digits gives their value, or fails when it exceeds 2 ^ 63. *)
Lemma leadingInt_digits x ds v t :
  sall is_digit ds = true -> 0 <= x <= 2 ^ 63 -> decimal x ds = Some v ->
  leadingInt x (ds +:+ t) = if 2 ^ 63 <? v then None else leadingInt v t.
Proof.
  revert x. induction ds as [|c ds IH]; intros x Hd Hx Hv.
  { injection Hv as ->. cbn [String.append]. destruct (Z.ltb_spec (2 ^ 63) v); [lia|done]. }
  cbn [sall decimal String.append leadingInt] in *. apply andb_true_iff in Hd as [Hc Hd]. rewrite Hc in *.
  pose proof (digit_val_range c Hc) as Hr.
  destruct (decimal_digits (x * 10 + digit_val c) ds Hd ltac:(lia)) as (v' & Hv' & Hle).
  rewrite Hv in Hv'. injection Hv' as <-.
  change (2 ^ 63 / 10) with 922337203685477580. change (2 ^ 63) with 9223372036854775808 in *.
  destruct (Z.ltb_spec 922337203685477580 x); [destruct (Z.ltb_spec 9223372036854775808 v); [done|lia]|].
  cbv zeta. destruct (Z.ltb_spec 9223372036854775808 (x * 10 + digit_val c)).
  { destruct (Z.ltb_spec 9223372036854775808 v); [done|lia]. }
  apply IH; [done|lia|done].
Qed.

Definition starts_number (s : string) : bool :=
  match s with
  | String c _ => Ascii.eqb c "." || is_digit c
  | EmptyString => false
  end.

Lemma span_app p u rest :
  sall p u = true -> match rest with String c _ => p c = false | EmptyString => True end -> span p (u +:+ rest) = (u, rest).
Proof.
  intros Hu Hr. induction u as [|c u IH]; cbn [String.append span].
  - destruct rest as [|c r]; [done|]. cbn [span]. by rewrite Hr.
  - cbn [sall] in Hu. apply andb_true_iff in Hu as [-> Hu]. by rewrite IH.
Qed.

(** The units, and what makes them units. *)
Lemma unitMap_cases u U :
  unitMap u = Some U ->
  0 < U /\ sall is_unit_byte u = true /\ exists c r, u = String c r /\ is_digit c = false /\ Ascii.eqb c "." = false.
Proof.
  unfold unitMap. intros E.
  repeat match type of E with
  | (if ?b then _ else _) = _ => destruct b eqn:?; [injection E as <-|]
  end; [..|discriminate];
  repeat match goal with
  | H : (_ || _)%bool = true |- _ => apply orb_true_iff in H as [H|H]
  | H : (u =s _) = true |- _ => apply String.eqb_eq in H; subst u
  end; split_and!; try (vm_compute; reflexivity); do 2 eexists; split; try reflexivity; split; reflexivity.
Qed.

(** A number without a point and its unit. *)
Lemma parse_term_number ds v u U rest :
  sall is_digit ds = true -> ds <> "" -> decimal 0 ds = Some v -> unitMap u = Some U ->
  (rest = "" \/ starts_number rest = true) ->
  parse_term (ds +:+ u +:+ rest) = if 2 ^ 63 / U <? v then None else Some (v * U, rest).
Proof.
  intros Hd Hne Hv Hu Hr. destruct (unitMap_cases u U Hu) as (HU & Hb & c & r & -> & Hc & Hdot).
  pose proof (leadingInt_digits 0 ds v (String c r +:+ rest) Hd ltac:(lia) Hv) as Hl.
  cbn [String.append leadingInt] in Hl. rewrite Hc in Hl.
  destruct ds as [|d ds]; [done|]. unfold parse_term. cbn [String.append]. cbn [String.append] in Hl.
  assert (is_digit d = true) as Hd0 by (cbn [sall] in Hd; by apply andb_true_iff in Hd as [? _]).
  rewrite Hd0, orb_true_r. cbn [negb]. rewrite Hl. clear Hl.
  destruct (decimal_digits 0 (String d ds) Hd ltac:(lia)) as (v' & Hv' & Hle).
  rewrite Hv in Hv'. injection Hv' as <-.
  assert (2 ^ 63 / U <= 2 ^ 63) as HUle by (apply Z.div_le_upper_bound; lia).
  destruct (Z.ltb_spec (2 ^ 63) v) as [Hov|Hin]; [destruct (Z.ltb_spec (2 ^ 63 / U) v); [done|lia]|].
  destruct (Nat.eqb_spec (String.length (String d (ds +:+ String c (r +:+ rest)))) (String.length (String c (r +:+ rest)))) as [E|_].
  { cbn [String.length] in E. rewrite slength_app in E. cbn [String.length] in E. lia. }
  cbn [negb andb]. rewrite <- sapp_cons.
  assert (span is_unit_byte (String c r +:+ rest) = (String c r, rest)) as Hspan.
  { apply span_app; [done|]. destruct Hr as [->|Hr]; [done|]. destruct rest as [|e rest]; [done|].
    unfold is_unit_byte. cbn [starts_number] in Hr. by rewrite Hr. }
  assert (CutPrefix (String c r +:+ rest) "." = None) as Hnodot.
  { unfold CutPrefix, HasPrefix. cbn [String.append]. by rewrite Ascii.eqb_sym, Hdot. }
  rewrite Hnodot, Hspan, Hu. cbn [negb andb String.eqb]. by destruct (2 ^ 63 / U <? v).
Qed.

(** A duration as it is usually written: numbers with units. *)
Definition term_ok (t : string * string) : Prop :=
  sall is_digit t.1 = true /\ t.1 <> "" /\ unitMap t.2 <> None.

Definition term_value (t : string * string) : Z := digits_val t.1 * default 0 (unitMap t.2).

Definition duration_text (l : list (string * string)) : string := String.concat "" (map (fun t => t.1 +:+ t.2) l).

Definition duration_value (l : list (string * string)) : Z := foldr (fun t acc => term_value t + acc) 0 l.

Lemma duration_text_cons t l : duration_text (t :: l) = t.1 +:+ t.2 +:+ duration_text l.
Proof.
  unfold duration_text. cbn [map]. destruct l; [by rewrite sapp_nil_r|]. cbn [map]. by rewrite concat_cons2, sapp_assoc.
Qed.

Lemma term_value_nonneg t : term_ok t -> 0 <= term_value t.
Proof.
  intros (Hd & _ & Hu). unfold term_value, digits_val. destruct (decimal_digits 0 t.1 Hd ltac:(lia)) as (v & -> & Hv).
  destruct (unitMap t.2) as [U|] eqn:E; [|done]. apply unitMap_cases in E as (HU & _). cbn. nia.
Qed.

Lemma duration_value_nonneg l : Forall term_ok l -> 0 <= duration_value l.
Proof.
  induction 1 as [|t l Ht Hl IH]; [done|]. cbn [duration_value foldr] in *. pose proof (term_value_nonneg t Ht). 
  unfold duration_value in IH. lia.
Qed.

Lemma duration_text_start l : Forall term_ok l -> duration_text l = "" \/ starts_number (duration_text l) = true.
Proof.
  destruct 1 as [|[ds u] l (Hd & Hne & _) _]; [by left|right]. rewrite duration_text_cons. cbn [fst snd] in *.
  destruct ds as [|c ds]; [done|]. cbn [sall] in Hd. apply andb_true_iff in Hd as [Hc _].
  cbn [String.append starts_number]. by rewrite Hc, orb_true_r.
Qed.

(** A term within range, or one beyond it. *)
Lemma parse_term_ok t rest :
  term_ok t -> (rest = "" \/ starts_number rest = true) ->
  (term_value t <= 2 ^ 63 -> parse_term (t.1 +:+ t.2 +:+ rest) = Some (term_value t, rest)) /\
  (2 ^ 63 < term_value t -> parse_term (t.1 +:+ t.2 +:+ rest) = None).
Proof.
  intros (Hd & Hne & Hu) Hr. destruct (unitMap t.2) as [U|] eqn:EU; [|done].
  destruct (decimal_digits 0 t.1 Hd ltac:(lia)) as (v & Hv & Hpos).
  rewrite (parse_term_number t.1 v t.2 U rest Hd Hne Hv EU Hr).
  pose proof (unitMap_cases _ _ EU) as (HU & _). unfold term_value, digits_val. rewrite Hv, EU. cbn [default from_option id].
  pose proof (Z.mul_div_le (2 ^ 63) U HU). pose proof (Z.mul_succ_div_gt (2 ^ 63) U HU).
  destruct (Z.ltb_spec (2 ^ 63 / U) v); split; intros; try done; nia.
Qed.

Lemma parse_terms_sum l : Forall term_ok l -> forall d fuel,
  0 <= d -> d + duration_value l <= max_int64 -> (length l < fuel)%nat ->
  parse_terms fuel d (duration_text l) = Some (d + duration_value l).
Proof.
  induction 1 as [|t l Ht Hl IH]; intros d fuel Hd Hsum Hf; (destruct fuel as [|fuel]; [lia|]).
  { cbn. f_equal. lia. }
  cbn [duration_value foldr] in Hsum |- *. fold (duration_value l) in *.
  pose proof (term_value_nonneg t Ht). pose proof (duration_value_nonneg l Hl). cbn [parse_terms].
  pose proof (duration_text_start (t :: l) (Forall_cons_2 _ _ _ Ht Hl)) as Hs.
  destruct (seqb_spec (duration_text (t :: l)) "") as [E|_].
  { rewrite duration_text_cons in E. apply sempty_app in E as [E _]. by destruct Ht as (_ & ? & _). }
  rewrite duration_text_cons.
  rewrite (proj1 (parse_term_ok t _ Ht (duration_text_start l Hl))) by (unfold max_int64 in *; lia).
  assert (uint64 (d + term_value t) = d + term_value t) as -> by (apply Z.mod_small; unfold max_int64 in *; lia).
  cbv zeta. destruct (Z.ltb_spec (2 ^ 63) (d + term_value t)); [unfold max_int64 in *; lia|].
  rewrite IH; [f_equal; lia|lia|lia|cbn [length] in Hf; lia].
Qed.

Lemma terms_length l : Forall term_ok l -> (length l <= String.length (duration_text l))%nat.
Proof.
  induction 1 as [|t l (_ & Hne & _) Hl IH]; [done|]. rewrite duration_text_cons, !slength_app. cbn [length].
  destruct t.1; [done|]. cbn [String.length]. lia.
Qed.

(** [ParseDuration] on text that starts with a digit and is not just "0". *)
Lemma ParseDuration_unsigned c r :
  is_digit c = true -> String c r <> "0" ->
  ParseDuration (String c r) =
  match parse_terms (S (S (String.length r))) 0 (String c r) with
  | None => None
  | Some d => if max_int64 <? d then None else Some d
  end.
Proof.
  intros Hc Hz. unfold ParseDuration.
  assert (negb (is_digit c && (Ascii.eqb c "-" || Ascii.eqb c "+")) = true) as Hs by by_bytes c.
  rewrite Hc in Hs. cbn [andb] in Hs. apply negb_true_iff, orb_false_iff in Hs as [Hm Hp].
  rewrite Hm, Hp.
  by rewrite (proj2 (String.eqb_neq _ _) Hz).
Qed.

(** The text of a term starts with a digit and is not the lone zero. *)
Lemma term_text_head t rest :
  term_ok t -> exists c r, t.1 +:+ t.2 +:+ rest = String c r /\ is_digit c = true /\ String c r <> "0".
Proof.
  destruct t as [ds u]. cbn [fst snd]. intros (Hd & Hds & Hu). cbn [fst snd] in *. destruct ds as [|c ds]; [done|].
  cbn [sall] in Hd. apply andb_true_iff in Hd as [Hc _]. exists c, (ds +:+ u +:+ rest). split_and!; [done..|].
  intros E. injection E as _ E. apply sempty_app in E as [_ E]. apply sempty_app in E as [-> _]. by apply Hu.
Qed.

Lemma ParseDuration_terms l :
  l <> [] -> Forall term_ok l -> duration_value l <= max_int64 ->
  ParseDuration (duration_text l) = Some (duration_value l).
Proof.
  intros Hne Hl Hmax.
  assert (exists c r, duration_text l = String c r /\ is_digit c = true /\ String c r <> "0") as (c & r & E & Hc & Hz).
  { destruct Hl as [|t l Ht _]; [done|]. rewrite duration_text_cons. by apply term_text_head. }
  rewrite E, ParseDuration_unsigned by done. rewrite <- E.
  pose proof (terms_length l Hl) as Hlen. rewrite E in Hlen. cbn [String.length] in Hlen.
  rewrite parse_terms_sum; [|done|lia|lia|lia].
  pose proof (duration_value_nonneg l Hl). rewrite Z.add_0_l. destruct (Z.ltb_spec max_int64 (duration_value l)); [lia|done].
Qed.

Lemma ParseDuration_overflow t :
  term_ok t -> max_int64 < term_value t -> ParseDuration (t.1 +:+ t.2) = None.
Proof.
  intros Ht Hov. destruct (term_text_head t "" Ht) as (c & r & E & Hc & Hz).
  pose proof (parse_term_ok t "" Ht (or_introl eq_refl)) as [Hin Hout]. rewrite sapp_nil_r in *.
  rewrite E in *. rewrite ParseDuration_unsigned by done. cbn [parse_terms String.eqb].
  destruct (Z.le_gt_cases (term_value t) (2 ^ 63)) as [Hle|Hgt]; [|by rewrite Hout].
  rewrite Hin by done. assert (term_value t = 2 ^ 63) as -> by (unfold max_int64 in *; lia). reflexivity.
Qed.

(** Whatever is read fits an int64. *)
Lemma parse_terms_nonneg fuel d s v : 0 <= d -> parse_terms fuel d s = Some v -> 0 <= v.
Proof.
  revert d s. induction fuel as [|fuel IH]; intros d s Hd; [done|]. cbn [parse_terms].
  destruct (s =s ""); [by intros [= <-]|]. destruct (parse_term s) as [[t rest]|]; [|done].
  cbv zeta. destruct (2 ^ 63 <? _); [done|]. apply IH. unfold uint64. apply Z.mod_pos_bound. lia.
Qed.

Lemma ParseDuration_range s d : ParseDuration s = Some d -> min_int64 <= d <= max_int64.
Proof.
  unfold ParseDuration. destruct (match s with EmptyString => _ | String _ _ => _ end) as [neg t].
  destruct (t =s "0"); [intros [= <-]; unfold min_int64, max_int64; lia|]. destruct (t =s ""); [done|].
  destruct (parse_terms _ _ _) as [v|] eqn:E; [|done]. apply parse_terms_nonneg in E; [|lia].
  destruct neg; [intros [= <-]; apply wrap64_range|].
  destruct (Z.ltb_spec max_int64 v); [done|]. intros [= <-]. unfold min_int64. lia.
Qed.
