(* ===== verification/GoHttp.v ===== *)
(** * net/url, net/http and mime, as far as the proxy uses them

    Percent-escaping, URL parsing, query parsing, canonical header keys, the
    [http.Header] map and the request record the handlers pass around. *)

From Stdlib Require Import Ascii String ZArith NArith Bool Lia.
From stdpp Require Import base tactics list strings gmap.
From S2P Require Import Prelude GoStrings.

(** ** Percent escapes *)

Definition unhex (c : ascii) : N :=
  if is_digit c then code c - 48
  else if in_range "a" "f" c then code c - 87
  else code c - 55.

Definition hex_pair (a b : ascii) : ascii := chr (unhex a * 16 + unhex b).

(** [url.unescape]: [plus] is set for query components, where [+] means a
    space.  A [%] not followed by two hex digits is an error. *)
Fixpoint unescape (plus : bool) (s : string) : option string :=
  match s with
  | EmptyString => Some EmptyString
  | String c r =>
      if Ascii.eqb c "%" then
        match r with
        | String a (String b r') =>
            if is_hex a && is_hex b then String (hex_pair a b) <$> unescape plus r' else None
        | _ => None
        end
      else String (if plus && Ascii.eqb c "+" then " "%char else c) <$> unescape plus r
  end.

Definition PathUnescape : string -> option string := unescape false.
Definition QueryUnescape : string -> option string := unescape true.

Definition upper_hex_digit (n : N) : ascii := chr (if (n <? 10)%N then 48 + n else 55 + n).

(** [fmt.Fprintf(&b, "%%%02X", c)] *)
Definition percent_byte (c : ascii) : string :=
  String "%" (String (upper_hex_digit (code c / 16)) (String (upper_hex_digit (code c mod 16)) "")).

(** [shouldEscape(c, encodePath)] *)
Definition path_should_escape (c : ascii) : bool :=
  negb (is_alnum c
        || negb (sfree c "-_.~")
        || negb (sfree c "$&+,/:;=@")).

Definition escape_path (s : string) : string :=
  sflat_map (fun c => if path_should_escape c then percent_byte c else String c "") s.

(** [validEncoded(s, encodePath)] *)
Definition valid_encoded_path (s : string) : bool :=
  sall (fun c => negb (sfree c "!$&'()*+,;=:@[]%") || negb (path_should_escape c)) s.

(** ** URLs *)

Record URL := mkURL {
  Scheme : string;
  UHost : string;
  Path : string;
  RawPath : string;
  RawQuery : string
}.

Definition empty_url : URL := mkURL "" "" "" "" "".

Definition EscapedPath (u : URL) : string :=
  if (RawPath u <>s "") && valid_encoded_path (RawPath u)
     && bool_decide (unescape false (RawPath u) = Some (Path u))
  then RawPath u
  else if Path u =s "*" then "*" else escape_path (Path u).

Definition is_scheme_tail (c : ascii) : bool := is_digit c || negb (sfree c "+-.").

(** [getScheme]: [None] is the "missing protocol scheme" error. *)
Fixpoint scheme_go (first : bool) (acc s raw : string) : option (string * string) :=
  match s with
  | EmptyString => Some (EmptyString, raw)
  | String c r =>
      if is_upper c || is_lower c then scheme_go false (acc +:+ String c "") r raw
      else if is_scheme_tail c then
        if first then Some (EmptyString, raw) else scheme_go false (acc +:+ String c "") r raw
      else if Ascii.eqb c ":" then if first then None else Some (acc, r)
      else Some (EmptyString, raw)
  end.

Definition get_scheme (raw : string) : option (string * string) := scheme_go true "" raw raw.

Definition has_ctl_byte (s : string) : bool :=
  sany (fun c => (code c <? 32) || (code c =? 127))%N s.

Definition valid_optional_port (s : string) : bool :=
  match s with
  | EmptyString => true
  | String c r => Ascii.eqb c ":" && sall is_digit r
  end.

(** The part of [s] from the last [sep] on, if [sep] occurs. *)
Fixpoint from_last (sep : ascii) (s : string) : option string :=
  match s with
  | EmptyString => None
  | String c r =>
      match from_last sep r with
      | Some t => Some t
      | None => if Ascii.eqb c sep then Some s else None
      end
  end.

(** Bytes allowed bare in a host ([shouldEscape(c, encodeHost)] is false). *)
Definition host_byte_ok (c : ascii) : bool :=
  negb (is_ascii7 c) || is_alnum c
  || negb (sfree c "!$&'()*+,;=:[]<>-_.~") || (code c =? 34)%N.

(** [unescape(host, encodeHost)] *)
Fixpoint unescape_host (s : string) : option string :=
  match s with
  | EmptyString => Some EmptyString
  | String c r =>
      if Ascii.eqb c "%" then
        match r with
        | String a (String b r') =>
            if is_hex a && is_hex b && ((8 <=? unhex a)%N || (String a (String b "") =s "25"))
            then String (hex_pair a b) <$> unescape_host r' else None
        | _ => None
        end
      else if host_byte_ok c then String c <$> unescape_host r else None
  end.

Definition parse_host `{GoLib} (host : string) : option string :=
  if negb (sfree "[" host) then ip_literal_host host
  else match from_last ":" host with
       | Some port => if valid_optional_port port then unescape_host host else None
       | None => unescape_host host
       end.

Definition valid_userinfo (s : string) : bool :=
  sall (fun c => is_alnum c || negb (sfree c "-._:~!$&'()*+,;=%@")) s.

(** [parseAuthority], reduced to the host: userinfo must be valid and
    unescapable, and is then dropped because no caller reads it. *)
Definition parse_authority `{GoLib} (authority : string) : option string :=
  match from_last "@" authority with
  | None => parse_host authority
  | Some at_host =>
      let userinfo := stake (String.length authority - String.length at_host) authority in
      match parse_host (sdrop 1 at_host) with
      | None => None
      | Some h =>
          let '(user, password, _) := Cut ":" userinfo in
          match unescape false user, unescape false password with
          | Some _, Some _ => if valid_userinfo userinfo then Some h else None
          | _, _ => None
          end
      end
  end.

(** [u.setPath(p)] *)
Definition set_path (u : URL) (p : string) : option URL :=
  match unescape false p with
  | None => None
  | Some path =>
      let raw := if escape_path path =s p then "" else p in
      Some (mkURL (Scheme u) (UHost u) path raw (RawQuery u))
  end.

(** [url.parse(rawURL, viaRequest)]; an opaque URL keeps an empty host and
    path. *)
Definition url_parse_raw `{GoLib} (raw : string) (viaRequest : bool) : option URL :=
  if has_ctl_byte raw then None
  else if (raw =s "") && viaRequest then None
  else if raw =s "*" then Some (mkURL "" "" "*" "" "")
  else match get_scheme raw with
  | None => None
  | Some (scheme0, rest0) =>
    let scheme := ToLower scheme0 in
    let '(rest, query, _) := Cut "?" rest0 in
    let u := mkURL scheme "" "" "" query in
    if negb (HasPrefix rest "/") && (scheme <>s "") then Some u
    else if negb (HasPrefix rest "/") && viaRequest then None
    else if negb (HasPrefix rest "/")
            && negb (sfree ":" (fst (fst (Cut "/" rest)))) then None
    else if ((scheme <>s "") || (negb viaRequest && negb (HasPrefix rest "///")))
            && HasPrefix rest "//" then
      let '(authority, tail, found) := Cut "/" (sdrop 2 rest) in
      match parse_authority authority with
      | None => None
      | Some h => set_path (mkURL scheme h "" "" query) (if found then String "/" tail else "")
      end
    else set_path u rest
  end.

Definition ParseRequestURI `{GoLib} (raw : string) : option URL := url_parse_raw raw true.

(** [url.Parse]: the fragment is split off and must be unescapable. *)
Definition url_Parse `{GoLib} (raw : string) : option URL :=
  let '(u, frag, _) := Cut "#" raw in
  match url_parse_raw u false, unescape false frag with
  | Some x, Some _ => Some x
  | _, _ => None
  end.

(** ** Query strings *)

(** [url.parseQuery]: the accepted pairs in order; a part that holds a [;] or
    a bad escape is dropped and makes the result an error. *)
Definition query_part (part : string) : option (option (string * string)) :=
  if negb (sfree ";" part) then None
  else if part =s "" then Some None
  else
    let '(k, v, _) := Cut "=" part in
    match QueryUnescape k, QueryUnescape v with
    | Some k', Some v' => Some (Some (k', v'))
    | _, _ => None
    end.

Definition ParseQuery (q : string) : list (string * string) * bool :=
  let parts := map query_part (Split "&" q) in
  (omap (fun p => default None p) parts, forallb (fun p => match p with Some _ => true | None => false end) parts).

Definition Values := list (string * string).

(** [u.Query()] ignores the error. *)
Definition Query (u : URL) : Values := fst (ParseQuery (RawQuery u)).

Fixpoint VGet (q : Values) (key : string) : string :=
  match q with
  | [] => ""
  | (k, v) :: q' => if k =s key then v else VGet q' key
  end.

Definition VHas (q : Values) (key : string) : bool := existsb (fun kv => fst kv =s key) q.

(** ** Header keys *)

Definition is_token (c : ascii) : bool :=
  is_alnum c || negb (sfree c "!#$%&'*+-.^_`|~").

Fixpoint canonical_go (upper : bool) (s : string) : string :=
  match s with
  | EmptyString => EmptyString
  | String c r => String (if upper then upper_byte c else lower_byte c) (canonical_go (Ascii.eqb c "-") r)
  end.

(** [textproto.CanonicalMIMEHeaderKey]: keys that are not tokens are left
    alone. *)
Definition CanonicalKey (s : string) : string :=
  if sall is_token s then canonical_go true s else s.

Abbreviation Header := (gmap string (list string)).

Definition HGet (h : Header) (key : string) : string :=
  match h !! CanonicalKey key with
  | Some (v :: _) => v
  | _ => ""
  end.

Definition HValues (h : Header) (key : string) : list string := default [] (h !! CanonicalKey key).
Definition HSet (h : Header) (key value : string) : Header := <[CanonicalKey key := [value]]> h.
Definition HDel (h : Header) (key : string) : Header := delete (CanonicalKey key) h.

(** ** Requests *)

Record Request := mkRequest {
  Method : string;
  RURL : URL;
  RequestURI : string;
  Host : string;
  RHeader : Header;
  ContentLength : Z;
  Body : option string;     (* what reading the body to its end yields *)
  RemoteIP : option string; (* host part of RemoteAddr, if it splits *)
  IsTLS : bool
}.

Definition with_header (r : Request) (h : Header) : Request :=
  mkRequest (Method r) (RURL r) (RequestURI r) (Host r) h (ContentLength r) (Body r) (RemoteIP r) (IsTLS r).

Definition with_host (r : Request) (host : string) : Request :=
  mkRequest (Method r) (RURL r) (RequestURI r) host (RHeader r) (ContentLength r) (Body r) (RemoteIP r) (IsTLS r).

Definition with_url (r : Request) (u : URL) : Request :=
  mkRequest (Method r) u (RequestURI r) (Host r) (RHeader r) (ContentLength r) (Body r) (RemoteIP r) (IsTLS r).

Definition with_body (r : Request) (b : option string) : Request :=
  mkRequest (Method r) (RURL r) (RequestURI r) (Host r) (RHeader r) (ContentLength r) b (RemoteIP r) (IsTLS r).

Definition with_raw_query (u : URL) (q : string) : URL :=
  mkURL (Scheme u) (UHost u) (Path u) (RawPath u) q.

Definition req_set (r : Request) (key value : string) : Request :=
  with_header r (HSet (RHeader r) key value).

Definition req_del (r : Request) (key : string) : Request :=
  with_header r (HDel (RHeader r) key).

(** ** package mime *)

(** [mime.ParseMediaType], reduced to the media type: [type] or
    [type/subtype], each a non-empty token. *)
Definition check_media_type (s : string) : bool :=
  match Split "/" s with
  | [t] => (t <>s "") && sall is_token t
  | [t; u] => (t <>s "") && sall is_token t && (u <>s "") && sall is_token u
  | _ => false
  end.

Definition ParseMediaType `{GoLib} (v : string) : option string :=
  let '(base, _, _) := Cut ";" v in
  let mediatype := TrimSpace (ToLower base) in
  if check_media_type mediatype
     && ((String.length base =? String.length v)%nat || mime_params_ok (sdrop (String.length base) v))
  then Some mediatype else None.

(** ** Responses *)

Record Response := mkResponse { status : Z; content_type : string; body : string }.

(** ** Lemmas: headers *)

Lemma HGet_HSet h k k' v :
  HGet (HSet h k v) k' = if decide (CanonicalKey k = CanonicalKey k') then v else HGet h k'.
Proof.
  unfold HGet, HSet. rewrite lookup_insert. by case_decide.
Qed.

Lemma HGet_HDel h k k' :
  HGet (HDel h k) k' = if decide (CanonicalKey k = CanonicalKey k') then "" else HGet h k'.
Proof. unfold HGet, HDel. rewrite lookup_delete. by case_decide. Qed.

Lemma HValues_HSet_ne h k k' v :
  CanonicalKey k <> CanonicalKey k' -> HValues (HSet h k v) k' = HValues h k'.
Proof. intros. unfold HValues, HSet. by rewrite lookup_insert_ne. Qed.

Lemma HValues_HDel_ne h k k' :
  CanonicalKey k <> CanonicalKey k' -> HValues (HDel h k) k' = HValues h k'.
Proof. intros. unfold HValues, HDel. by rewrite lookup_delete_ne. Qed.

Lemma HGet_req_set_ne r n v k :
  CanonicalKey n = n -> CanonicalKey k <> n -> HGet (RHeader (req_set r n v)) k = HGet (RHeader r) k.
Proof. intros Hn Hk. unfold req_set. simpl RHeader. by rewrite HGet_HSet, Hn, decide_False. Qed.

(** Reads and writes at literal header names. *)
Ltac header_simpl :=
  unfold req_set, req_del in *; simpl RHeader in *;
  repeat match goal with
  | |- context [HGet (HSet _ _ _) _] => rewrite HGet_HSet
  | |- context [HGet (HDel _ _) _] => rewrite HGet_HDel
  end;
  repeat first [ rewrite decide_True by (vm_compute; reflexivity)
               | rewrite decide_False by (vm_compute; discriminate) ].

(** ** Lemmas: percent escapes *)

Lemma percent_byte_unescape p c s :
  unescape p (percent_byte c +:+ s) = String c <$> unescape p s.
Proof.
  unfold percent_byte. cbn [String.append unescape]. simpl (Ascii.eqb "%" "%").
  assert (is_hex (upper_hex_digit (code c / 16)) && is_hex (upper_hex_digit (code c mod 16))
          && Ascii.eqb (hex_pair (upper_hex_digit (code c / 16)) (upper_hex_digit (code c mod 16))) c
          = true) as H by by_bytes c.
  split_bools. apply Ascii.eqb_eq in H0.
  match goal with E1 : is_hex (upper_hex_digit (_ / _)) = true, E2 : is_hex (upper_hex_digit (_ mod _)) = true |- _ =>
    rewrite E1, E2 end.
  cbn [andb]. by rewrite H0.
Qed.
