(* ===== verification/GoMux.v ===== *)
(** * http.ServeMux

    The routing of net/http as the servers of this repository use it: patterns
    of an optional method, literal segments, single-segment wildcards and a
    trailing slash.  Matching follows the routing tree: literals first, then
    the wildcard, then the trailing slash; an exact method first, GET for HEAD,
    then patterns without a method.  Hosts are not modelled: no pattern names
    one. *)

From Stdlib Require Import Ascii String ZArith NArith Bool Lia.
From stdpp Require Import base tactics list strings gmap sorting.
From S2P Require Import Prelude GoStrings GoHttp.

(** ** Patterns *)

Inductive segment :=
| Lit (s : string)
| Wild                (* {name} *)
| Subtree.            (* the trailing slash *)

#[export] Instance segment_eq_dec : EqDecision segment.
Proof. solve_decision. Defined.

Record pattern := mkPattern { pat_method : string; pat_segments : list segment }.

(** ** Paths *)

(** [path.Clean] of a rooted path, as the list of its elements. *)
Definition clean_elem (stack : list string) (e : string) : list string :=
  if (e =s "") || (e =s ".") then stack
  else if e =s ".." then tl stack
  else e :: stack.

Definition Clean_rooted (p : string) : string :=
  "/" +:+ Join (rev (fold_left clean_elem (Split "/" p) [])) "/".

(** [cleanPath] *)
Definition cleanPath (p : string) : string :=
  if p =s "" then "/"
  else
    let p := if HasPrefix p "/" then p else "/" +:+ p in
    let np := Clean_rooted p in
    if HasSuffix p "/" && (np <>s "/") then np +:+ "/" else np.

(** [pathUnescape]: a segment that does not decode stands for itself. *)
Definition pathUnescape (s : string) : string := default s (PathUnescape s).

(** The segments [firstSegment] takes off a path, the last one [/] for a
    trailing slash. *)
Fixpoint name_segments (raw : list string) : list string :=
  match raw with
  | [] => []
  | [s] => [if s =s "" then "/" else pathUnescape s]
  | s :: rest => pathUnescape s :: name_segments rest
  end.

Definition path_segments (p : string) : list string :=
  match p with
  | EmptyString => []
  | String _ r => name_segments (Split "/" r)
  end.

(** ** Matching *)

Section Mux.
Context {A : Type}.

(** A node of the routing tree is the list of the patterns that reach it, each
    with what is left of its segments. *)

Definition child (s : segment) (n : list (list segment * A)) : list (list segment * A) :=
  omap (fun e => match fst e with
                 | s' :: rest => if decide (s' = s) then Some (rest, snd e) else None
                 | [] => None
                 end) n.

Definition leaf (n : list (list segment * A)) : option A :=
  match omap (fun e => match fst e with [] => Some (snd e) | _ => None end) n with
  | a :: _ => Some a
  | [] => None
  end.

(** [matchPath], with the values of the wildcards. *)
Fixpoint matchPath (n : list (list segment * A)) (segs : list string) (matches : list string) : option (A * list string) :=
  match segs with
  | [] => (fun a => (a, matches)) <$> leaf n
  | seg :: rest =>
      match matchPath (child (Lit seg) n) rest matches with
      | Some r => Some r
      | None =>
          match (if seg <>s "/" then matchPath (child Wild n) rest (matches ++ [seg]) else None) with
          | Some r => Some r
          | None => (fun a => (a, matches)) <$> leaf (child Subtree n)
          end
      end
  end.

Definition table := list (pattern * A).

(** The tree below a method. *)
Definition method_node (t : table) (m : string) : list (list segment * (pattern * A)) :=
  omap (fun e => if pat_method (fst e) =s m then Some (pat_segments (fst e), e) else None) t.

End Mux.

Section Find.
Context {A : Type}.
Implicit Type t : table (A := A).

(** [matchMethodAndPath] *)
Definition match_route t (m path : string) : option ((pattern * A) * list string) :=
  let try m := matchPath (method_node t m) (path_segments path) [] in
  match try m with
  | Some r => Some r
  | None =>
      match (if m =s "HEAD" then try "GET" else None) with
      | Some r => Some r
      | None => try ""
      end
  end.

Definition ends_in_subtree (p : pattern) : bool := bool_decide (last (pat_segments p) = Some Subtree).

Definition count_slashes (p : string) : nat := String.length (sfilter (Ascii.eqb "/") p).

Definition exactMatch (r : option ((pattern * A) * list string)) (path : string) : bool :=
  match r with
  | None => false
  | Some ((p, _), _) =>
      negb (ends_in_subtree p)
      || (HasSuffix path "/" && (length (pat_segments p) =? count_slashes path)%nat)
  end.

(** Whether [matchOrRedirect] redirects to the path with a trailing slash. *)
Definition slash_redirect t (m path : string) : bool :=
  negb (exactMatch (match_route t m path) path) && negb (HasSuffix path "/") && (path <>s "")
  && exactMatch (match_route t m (path +:+ "/")) (path +:+ "/").

(** [matchingMethods], sorted. *)
Definition matchingMethods t (path : string) : list string :=
  let ok m p := match matchPath (method_node t m) (path_segments p) [] with Some _ => true | None => false end in
  let tried m := ok m path || (negb (HasSuffix path "/") && ok m (path +:+ "/")) in
  let ms := List.filter tried (List.filter (fun m => m <>s "") (map (fun e => pat_method (fst e)) t)) in
  merge_sort String.le (remove_dups (if existsb (fun m => m =s "GET") ms then "HEAD" :: ms else ms)).

(** What a request is answered with. *)
Inductive route :=
| Handle (h : A) (matches : list string)
| Redirect (to : URL)
| MethodNotAllowed (allow : list string)
| NoRoute
| BadRequest.

(** [ServeMux.ServeHTTP] up to the handler's call. *)
Definition mux_route t (r : Request) : route :=
  if RequestURI r =s "*" then BadRequest
  else
    let escapedPath := EscapedPath (RURL r) in
    let connect := Method r =s "CONNECT" in
    let path := if connect then escapedPath else cleanPath escapedPath in
    if slash_redirect t (Method r) path then
      Redirect (mkURL "" "" (cleanPath (Path (RURL r)) +:+ "/") "" (RawQuery (RURL r)))
    else if negb connect && (path <>s escapedPath) then
      Redirect (mkURL "" "" path "" (RawQuery (RURL r)))
    else match match_route t (Method r) path with
    | Some ((_, h), matches) => Handle h matches
    | None =>
        match matchingMethods t path with
        | [] => NoRoute
        | allow => MethodNotAllowed allow
        end
    end.

End Find.
Arguments route : clear implicits.

(** What a server whose handlers are behind a mux answers. *)
Inductive answer :=
| Replied (r : Response)
| Redirected (to : URL).

(** ** Lemmas *)

(** A path without dot, dotdot or empty elements is clean. *)
Definition plain_elem (e : string) : bool := (e <>s "") && (e <>s ".") && (e <>s "..") && sfree "/" e.

Lemma plain_elem_true e :
  plain_elem e = true -> e <> "" /\ e <> "." /\ e <> ".." /\ sfree "/" e = true.
Proof.
  unfold plain_elem. rewrite !andb_true_iff, !negb_true_iff, !String.eqb_neq. tauto.
Qed.

Definition path_of (l : list string) : string := "/" +:+ Join l "/".

Lemma clean_plain l stack :
  Forall (fun e => plain_elem e = true) l -> fold_left clean_elem l stack = rev l ++ stack.
Proof.
  intros Hl. revert stack. induction Hl as [|e l He Hl IH]; intros stack; [done|].
  cbn [fold_left rev]. rewrite IH, <- app_assoc. f_equal. cbn [app].
  apply plain_elem_true in He as (H1 & H2 & H3 & _). unfold clean_elem.
  by rewrite !(proj2 (String.eqb_neq _ _)) by done.
Qed.

Lemma Split_path_of l :
  l <> [] -> Forall (fun e => plain_elem e = true) l -> Split "/" (path_of l) = "" :: l.
Proof.
  intros Hne Hl. unfold path_of. cbn [String.append Split]. rewrite Ascii.eqb_refl.
  rewrite Split_Join; [done|done|]. eapply Forall_impl; [exact Hl|]. intros e He.
  by apply plain_elem_true in He as (_ & _ & _ & ?).
Qed.

Lemma name_segments_plain l :
  Forall (fun e => plain_elem e = true) l -> name_segments l = map pathUnescape l.
Proof.
  intros Hl. induction Hl as [|e l He Hl IH]; [done|]. destruct l as [|e' l].
  - apply plain_elem_true in He as (H1 & _). cbn [name_segments map].
    by rewrite (proj2 (String.eqb_neq _ _) H1).
  - change (name_segments (e :: e' :: l)) with (pathUnescape e :: name_segments (e' :: l)). by rewrite IH.
Qed.

Lemma path_segments_path_of l :
  l <> [] -> Forall (fun e => plain_elem e = true) l -> path_segments (path_of l) = map pathUnescape l.
Proof.
  intros Hne Hl. unfold path_of. cbn [String.append path_segments]. rewrite Split_Join; [|done|].
  - by apply name_segments_plain.
  - eapply Forall_impl; [exact Hl|]. intros e He. by apply plain_elem_true in He as (_ & _ & _ & ?).
Qed.

Lemma Split_snoc sep p : Split sep (p +:+ String sep "") = Split sep p ++ [""].
Proof.
  induction p as [|c p IH]; cbn [String.append Split].
  - by rewrite Ascii.eqb_refl.
  - rewrite IH. destruct (Ascii.eqb c sep); [done|]. destruct (Split sep p) as [|w ws] eqn:E; [|done].
    destruct p as [|d p]; [done|]. cbn [Split] in E. destruct (Ascii.eqb d sep); [done|].
    by destruct (Split sep p).
Qed.

Lemma path_of_no_slash l :
  l <> [] -> Forall (fun e => plain_elem e = true) l -> HasSuffix (path_of l) "/" = false.
Proof.
  intros Hne Hl. destruct (HasSuffix (path_of l) "/") eqn:E; [|done]. exfalso.
  apply HasSuffix_true in E as [p E]. pose proof (Split_path_of l Hne Hl) as Hs. rewrite E in Hs.
  rewrite Split_snoc in Hs. apply (f_equal last) in Hs. rewrite last_snoc in Hs.
  destruct l as [|e l]; [done|]. rewrite last_cons_cons in Hs. symmetry in Hs.
  apply last_Some in Hs as [l' El]. rewrite El in Hl. apply Forall_app in Hl as [_ Hl].
  inversion Hl as [|? ? Hx]. by apply plain_elem_true in Hx as (? & _).
Qed.

Lemma cleanPath_path_of l :
  l <> [] -> Forall (fun e => plain_elem e = true) l -> cleanPath (path_of l) = path_of l.
Proof.
  intros Hne Hl. unfold cleanPath. change (path_of l =s "") with false. cbn iota.
  change (HasPrefix (path_of l) "/") with true. cbn iota zeta.
  rewrite path_of_no_slash by done. cbn [andb]. unfold Clean_rooted.
  rewrite Split_path_of by done. cbn [fold_left]. change (clean_elem [] "") with (@nil string).
  rewrite clean_plain, app_nil_r, rev_involutive by done. done.
Qed.

Lemma method_node_In {A} (t : table (A := A)) m segs e :
  In (segs, e) (method_node t m) -> In e t /\ segs = pat_segments (fst e) /\ pat_method (fst e) = m.
Proof.
  intros Hin. apply list_elem_of_In, list_elem_of_omap in Hin as (e' & Hin & He).
  destruct (seqb_spec (pat_method (fst e')) m); [|done]. injection He as <- <-. by apply list_elem_of_In in Hin.
Qed.

(** A table whose patterns neither end in a slash nor name one never matches a
    path that ends in a slash, so it never redirects to one. *)
Definition slashless (s : segment) : bool :=
  match s with Lit n => n <>s "/" | Wild => true | Subtree => false end.

Definition no_subtree {A} (t : table (A := A)) : bool := forallb (fun e => forallb slashless (pat_segments (fst e))) t.

Lemma matchPath_slash {A} (n : list (list segment * A)) segs matches :
  Forall (fun e => forallb slashless e.1 = true) n -> matchPath n (segs ++ ["/"]) matches = None.
Proof.
  assert (forall s (m : list (list segment * A)), Forall (fun e => forallb slashless e.1 = true) m ->
    Forall (fun e => forallb slashless e.1 = true) (child s m) /\ (slashless s = false -> child s m = [])) as Hc.
  { intros s m Hm. unfold child. induction Hm as [|[r a] m Hr Hm [IH1 IH2]]; [done|]. cbn [omap list_omap fst snd].
    destruct r as [|s' r]; [done|]. cbn in Hr. split_bools. destruct (decide (s' = s)) as [->|]; [|done].
    split; [by constructor|]. congruence. }
  revert n matches. induction segs as [|seg segs IH]; intros n matches Hn; cbn [app matchPath].
  - rewrite (proj2 (Hc (Lit "/") n Hn) eq_refl), (proj2 (Hc Subtree n Hn) eq_refl). done.
  - rewrite IH by (by apply Hc). rewrite (proj2 (Hc Subtree n Hn) eq_refl).
    destruct (seg <>s "/"); [|done]. by rewrite IH by (by apply Hc).
Qed.

Lemma name_segments_snoc l : l <> [] -> name_segments (l ++ [""]) = map pathUnescape l ++ ["/"].
Proof.
  induction l as [|e [|e' l] IH]; [done|done|]. intros _.
  change (name_segments ((e :: e' :: l) ++ [""])) with (pathUnescape e :: name_segments ((e' :: l) ++ [""])).
  by rewrite IH.
Qed.

Lemma no_slash_redirect {A} (t : table (A := A)) m path :
  no_subtree t = true -> slash_redirect t m path = false.
Proof.
  intros Ht. unfold slash_redirect. apply andb_false_iff. destruct path as [|c path]; [left|right].
  { by rewrite andb_false_r. }
  assert (match_route t m (String c path +:+ "/") = None) as ->; [|done].
  assert (forall m', matchPath (method_node t m') (path_segments (String c path +:+ "/")) [] = None) as Hm.
  { intros m'. cbn [String.append path_segments]. change (path +:+ "/") with (path +:+ String "/" "").
    rewrite Split_snoc, name_segments_snoc.
    - apply matchPath_slash, Forall_forall. intros [segs e] (Hin & -> & _)%list_elem_of_In%method_node_In.
      unfold no_subtree in Ht. rewrite forallb_forall in Ht. by apply Ht.
    - destruct path as [|d path]; [done|]. cbn [Split]. destruct (Ascii.eqb d "/"); [done|]. by destruct (Split "/" path). }
  unfold match_route. rewrite !Hm. by destruct (m =s "HEAD").
Qed.

(** ** What a pattern matches

    [pat_match] is the documented meaning of one pattern; the routing tree
    returns a pattern that matches, and fails only when none does. *)

Fixpoint pat_match (p : list segment) (segs : list string) : option (list string) :=
  match p, segs with
  | [], [] => Some []
  | Lit a :: p', s :: rest => if a =s s then pat_match p' rest else None
  | Wild :: p', s :: rest => if s <>s "/" then cons s <$> pat_match p' rest else None
  | [Subtree], _ :: _ => Some []
  | _, _ => None
  end.

Lemma leaf_Some {A} (n : list (list segment * A)) a : leaf n = Some a -> In ([], a) n.
Proof.
  unfold leaf. induction n as [|[[|s r] b] n IH]; cbn; [done| |].
  - intros [= ->]. by left.
  - intros E. right. by apply IH.
Qed.

Lemma leaf_In {A} (n : list (list segment * A)) a : In ([], a) n -> leaf n <> None.
Proof.
  unfold leaf. induction n as [|[[|s r] b] n IH]; cbn; [done|done|]. intros [E|Hin]; [done|]. by apply IH.
Qed.

Lemma child_In {A} s (n : list (list segment * A)) r a : In (r, a) (child s n) <-> In (s :: r, a) n.
Proof.
  unfold child. rewrite <- !list_elem_of_In, list_elem_of_omap. split.
  - intros ([[|s' r'] b] & Hin & E); [done|]. cbn in E. destruct (decide (s' = s)) as [->|]; [|done].
    by injection E as -> ->.
  - intros Hin. exists (s :: r, a). split; [done|]. cbn. by rewrite decide_True.
Qed.

Definition subtree_last (p : list segment) : bool :=
  match p with [] => true | _ => forallb (fun s => bool_decide (s <> Subtree)) (removelast p) end.

Lemma matchPath_sound {A} (n : list (list segment * A)) segs acc a ms :
  Forall (fun e => subtree_last e.1 = true) n -> matchPath n segs acc = Some (a, ms) ->
  exists p vs, In (p, a) n /\ pat_match p segs = Some vs /\ ms = acc ++ vs.
Proof.
  assert (forall s (m : list (list segment * A)), Forall (fun e => subtree_last e.1 = true) m ->
    Forall (fun e => subtree_last e.1 = true) (child s m)) as Hc.
  { intros s m Hm. apply Forall_forall. intros [r b] Hin%list_elem_of_In%child_In. rewrite Forall_forall in Hm.
    apply list_elem_of_In, Hm in Hin. destruct r as [|s' r]; [done|]. cbn in *. by split_bools. }
  revert n acc. induction segs as [|seg segs IH]; intros n acc Hn; cbn [matchPath].
  - destruct (leaf n) as [b|] eqn:E; [|done]. intros [= -> <-]. exists [], []. split_and!; [by apply leaf_Some|done|].
    by rewrite app_nil_r.
  - destruct (matchPath (child (Lit seg) n) segs acc) as [r|] eqn:E1.
    { intros [= ->]. apply IH in E1 as (p & vs & Hin & Hp & ->); [|by apply Hc]. apply child_In in Hin.
      exists (Lit seg :: p), vs. cbn. by rewrite seqb_refl. }
    destruct (if seg <>s "/" then _ else None) as [r|] eqn:E2.
    { intros [= ->]. destruct (seg <>s "/") eqn:Es; [|done].
      apply IH in E2 as (p & vs & Hin & Hp & ->); [|by apply Hc]. apply child_In in Hin.
      exists (Wild :: p), (seg :: vs). split_and!; [done|cbn; by rewrite Es, Hp|by rewrite <- app_assoc]. }
    destruct (leaf (child Subtree n)) as [b|] eqn:E3; [|done]. intros [= -> <-].
    apply leaf_Some, child_In in E3. exists [Subtree], []. split_and!; [done|done|by rewrite app_nil_r].
Qed.

Lemma matchPath_complete {A} (n : list (list segment * A)) segs acc p a vs :
  In (p, a) n -> pat_match p segs = Some vs -> matchPath n segs acc <> None.
Proof.
  revert n acc p vs. induction segs as [|seg segs IH]; intros n acc p vs Hin Hp; cbn [matchPath].
  - destruct p as [|[] [|? ?]]; try discriminate Hp. apply leaf_In in Hin. by destruct (leaf n).
  - destruct (matchPath (child (Lit seg) n) segs acc) as [r|] eqn:E1; [done|].
    destruct (if seg <>s "/" then _ else None) as [r|] eqn:E2; [done|].
    destruct p as [|[b| |] p]; [done| | |].
    + cbn in Hp. destruct (seqb_spec b seg) as [->|]; [|done]. apply child_In in Hin. exfalso. by eapply IH.
    + cbn in Hp. destruct (seg <>s "/"); [|done]. destruct (pat_match p segs) as [vs'|] eqn:Ep; [|done].
      apply child_In in Hin. exfalso. by eapply IH.
    + destruct p as [|s' p]; [|by destruct s']. apply child_In, leaf_In in Hin. by destruct (leaf _).
Qed.

(** The methods a pattern answers. *)
Definition allows (p : pattern) (m : string) : Prop :=
  pat_method p = m \/ pat_method p = "" \/ (pat_method p = "GET" /\ m = "HEAD").

Lemma slashless_subtree_last l : forallb slashless l = true -> subtree_last l = true.
Proof.
  intros Hl. unfold subtree_last. destruct l as [|s l]; [done|]. apply forallb_forall. intros x Hx.
  apply bool_decide_eq_true. intros ->. rewrite forallb_forall in Hl.
  assert (In Subtree (s :: l)) as Hin by (rewrite (app_removelast_last Wild) by done; apply in_app_iff; by left).
  by apply Hl in Hin.
Qed.

Lemma match_route_sound {A} (t : table (A := A)) m path p h ms :
  no_subtree t = true -> match_route t m path = Some ((p, h), ms) ->
  In (p, h) t /\ allows p m /\ pat_match (pat_segments p) (path_segments path) = Some ms.
Proof.
  intros Ht E. unfold match_route in E.
  assert (forall m', matchPath (method_node t m') (path_segments path) [] = Some ((p, h), ms) ->
    (m' = m \/ m' = "" \/ (m' = "GET" /\ m = "HEAD")) ->
    In (p, h) t /\ allows p m /\ pat_match (pat_segments p) (path_segments path) = Some ms) as Hs.
  { intros m' E' Hm'. apply matchPath_sound in E' as (segs & vs & Hin & Hp & ->).
    - apply method_node_In in Hin as (? & -> & <-). done.
    - apply Forall_forall. intros [segs e] (Hin & -> & _)%list_elem_of_In%method_node_In.
      apply slashless_subtree_last. unfold no_subtree in Ht. rewrite forallb_forall in Ht. by apply Ht. }
  destruct (matchPath (method_node t m) _ _) as [x|] eqn:E1; [injection E as ->; eapply Hs; eauto|].
  destruct (seqb_spec m "HEAD") as [Eh|]; [|eapply Hs; eauto].
  destruct (matchPath (method_node t "GET") _ _) as [x|] eqn:E2; [injection E as ->|]; eapply Hs; eauto.
Qed.

(** The route of a table whose patterns do not end in a slash. *)
Lemma mux_route_Handle {A} (t : table (A := A)) r h ms :
  no_subtree t = true -> mux_route t r = Handle h ms ->
  RequestURI r <> "*" /\
  (Method r <> "CONNECT" -> cleanPath (EscapedPath (RURL r)) = EscapedPath (RURL r)) /\
  exists p, In (p, h) t /\ allows p (Method r) /\
    pat_match (pat_segments p) (path_segments (EscapedPath (RURL r))) = Some ms.
Proof.
  intros Ht. unfold mux_route. destruct (seqb_spec (RequestURI r) "*") as [|Hstar]; [done|].
  rewrite no_slash_redirect by done. set (path := if Method r =s "CONNECT" then _ else _).
  destruct (negb (Method r =s "CONNECT") && (path <>s EscapedPath (RURL r))) eqn:Ec; [done|].
  assert (path = EscapedPath (RURL r)) as Hpath.
  { unfold path in *. destruct (Method r =s "CONNECT"); [done|]. cbn in Ec. by split_bools. }
  destruct (match_route t (Method r) path) as [[[p h'] ms']|] eqn:E; [|by destruct (matchingMethods t _)].
  intros [= -> ->]. split; [done|]. split.
  { intros Hne. unfold path in Hpath. by rewrite (proj2 (String.eqb_neq _ _) Hne) in Hpath. }
  rewrite Hpath in E. apply match_route_sound in E; eauto.
Qed.

(** And conversely, for a clean path and a pattern of the exact method. *)
Lemma mux_route_exact {A} (t : table (A := A)) r p h vs :
  no_subtree t = true -> In (p, h) t -> pat_method p = Method r ->
  RequestURI r <> "*" -> cleanPath (EscapedPath (RURL r)) = EscapedPath (RURL r) ->
  pat_match (pat_segments p) (path_segments (EscapedPath (RURL r))) = Some vs ->
  exists p' h' ms, mux_route t r = Handle h' ms /\ In (p', h') t /\ pat_method p' = Method r /\
    pat_match (pat_segments p') (path_segments (EscapedPath (RURL r))) = Some ms.
Proof.
  intros Ht Hin Hpm Hstar Hclean Hvs. unfold mux_route.
  rewrite (proj2 (String.eqb_neq _ _) Hstar), no_slash_redirect, Hclean by done.
  replace (if Method r =s "CONNECT" then EscapedPath (RURL r) else EscapedPath (RURL r))
    with (EscapedPath (RURL r)) by (by destruct (Method r =s "CONNECT")).
  rewrite seqb_refl, andb_false_r. unfold match_route.
  destruct (matchPath (method_node t (Method r)) _ _) as [[[p' h'] ms]|] eqn:E.
  - apply matchPath_sound in E as (segs & vs' & Hin' & Hp' & ->).
    + apply method_node_In in Hin' as (? & -> & ?). eauto 10.
    + apply Forall_forall. intros [segs e] (Hin' & -> & _)%list_elem_of_In%method_node_In.
      apply slashless_subtree_last. unfold no_subtree in Ht. rewrite forallb_forall in Ht. by apply Ht.
  - exfalso. revert E. apply (matchPath_complete _ _ _ (pat_segments p) (p, h) vs); [|done].
    apply list_elem_of_In, list_elem_of_omap. exists (p, h). split; [by apply list_elem_of_In|].
    cbn [fst]. by rewrite Hpm, seqb_refl.
Qed.
