(* ===== verification/GoXml.v ===== *)
(** * encoding/xml, as the error and STS responses use it

    UTF-8 decoding at the head of a string, the text escaper, and the indented
    encoder for the fixed element trees the handlers emit. *)

From Stdlib Require Import Ascii String ZArith NArith Bool Lia.
From stdpp Require Import base tactics list strings.
From S2P Require Import Prelude GoStrings.
Local Open Scope N_scope.

(** ** UTF-8 *)

Definition is_cont (c : ascii) : bool := (128 <=? code c) && (code c <=? 191).

Definition between (lo hi : N) (c : ascii) : bool := (lo <=? code c) && (code c <=? hi).

(** Width of the well-formed rune at the head of [s]; 0 when the first byte
    starts none (then [utf8.DecodeRune] yields [RuneError] with width 1). *)
Definition rune_width (s : string) : nat :=
  match s with
  | EmptyString => 0%nat
  | String a r =>
    if code a <? 128 then 1%nat
    else match r with
    | EmptyString => 0%nat
    | String b r2 =>
      if between 194 223 a then if is_cont b then 2%nat else 0%nat
      else match r2 with
      | EmptyString => 0%nat
      | String c r3 =>
        if between 224 239 a then
          if (if code a =? 224 then between 160 191 b
              else if code a =? 237 then between 128 159 b else is_cont b)
             && is_cont c
          then 3%nat else 0%nat
        else match r3 with
        | EmptyString => 0%nat
        | String d _ =>
          if between 240 244 a then
            if (if code a =? 240 then between 144 191 b
                else if code a =? 244 then between 128 143 b else is_cont b)
               && is_cont c && is_cont d
            then 4%nat else 0%nat
          else 0%nat
        end
      end
    end
  end.

(** The runes XML excludes although they are well formed: control characters
    and U+FFFE, U+FFFF. *)
Definition outside_xml_range (s : string) : bool :=
  match s with
  | String a r =>
      ((code a <? 32) && negb ((code a =? 9) || (code a =? 10) || (code a =? 13)))
      || match r with
         | String b (String c _) =>
             (code a =? 239) && (code b =? 191) && ((code c =? 190) || (code c =? 191))
         | _ => false
         end
  | EmptyString => false
  end.

(** ** Escaping *)

Definition entity (c : ascii) : option string :=
  match code c with
  | 34 => Some "&#34;"
  | 39 => Some "&#39;"
  | 38 => Some "&amp;"
  | 60 => Some "&lt;"
  | 62 => Some "&gt;"
  | 9 => Some "&#x9;"
  | 10 => Some "&#xA;"
  | 13 => Some "&#xD;"
  | _ => None
  end.

(** U+FFFD in UTF-8. *)
Definition replacement : string := String (chr 239) (String (chr 191) (String (chr 189) EmptyString)).

(** [EscapeString]: [skip] bytes of the current rune remain, kept if [keep]. *)
Fixpoint escape_go (s : string) (skip : nat) (keep : bool) : string :=
  match s with
  | EmptyString => EmptyString
  | String c r =>
      match skip with
      | S k => if keep then String c (escape_go r k keep) else escape_go r k keep
      | O =>
          match entity c with
          | Some e => e +:+ escape_go r 0 true
          | None =>
              match rune_width s with
              | O => replacement +:+ escape_go r 0 true
              | S w =>
                  if outside_xml_range s then replacement +:+ escape_go r w false
                  else String c (escape_go r w true)
              end
          end
      end
  end.

Definition EscapeString (s : string) : string := escape_go s 0 true.

(** ** Element trees and the encoder *)

Inductive xnode :=
| Leaf (tag text : string)
| Node (tag : string) (attrs : list (string * string)) (kids : list xnode).

Definition quote_char : string := String (chr 34) EmptyString.
Definition nl : string := String (chr 10) EmptyString.

Fixpoint indent (depth : nat) : string :=
  match depth with
  | O => EmptyString
  | S d => "  " +:+ indent d
  end.

Definition render_attr (a : string * string) : string :=
  " " +:+ fst a +:+ "=" +:+ quote_char +:+ EscapeString (snd a) +:+ quote_char.

(** [enc.Indent("", "  "); enc.Encode(v)], starting at nesting [depth]. *)
Fixpoint render (depth : nat) (x : xnode) : string :=
  match x with
  | Leaf tag text => indent depth +:+ "<" +:+ tag +:+ ">" +:+ EscapeString text +:+ "</" +:+ tag +:+ ">"
  | Node tag attrs kids =>
      indent depth +:+ "<" +:+ tag +:+ String.concat "" (map render_attr attrs) +:+ ">"
      +:+ String.concat "" (map (fun k => nl +:+ render (S depth) k) kids)
      +:+ (match kids with [] => "" | _ => nl +:+ indent depth end)
      +:+ "</" +:+ tag +:+ ">"
  end.

(** [xml.Header] *)
Definition xml_header : string :=
  "<?xml version=" +:+ quote_char +:+ "1.0" +:+ quote_char +:+ " encoding=" +:+ quote_char
  +:+ "UTF-8" +:+ quote_char +:+ "?>" +:+ nl.

(** The document the writers produce: header, tree, final newline. *)
Definition document (x : xnode) : string := xml_header +:+ render 0 x +:+ nl.

(** ** Reading text back *)

(** The eight references the escaper writes, inverted. *)
Definition references : list (string * ascii) :=
  [("#34;", chr 34); ("#39;", chr 39); ("amp;", chr 38); ("lt;", chr 60); ("gt;", chr 62);
   ("#x9;", chr 9); ("#xA;", chr 10); ("#xD;", chr 13)].

Fixpoint find_reference (refs : list (string * ascii)) (s : string) : option (nat * ascii) :=
  match refs with
  | [] => None
  | (name, c) :: rest =>
      if HasPrefix s name then Some (String.length name, c) else find_reference rest s
  end.

Fixpoint unescape_go (s : string) (skip : nat) : string :=
  match s with
  | EmptyString => EmptyString
  | String c r =>
      match skip with
      | S k => unescape_go r k
      | O =>
          if Ascii.eqb c "&" then
            match find_reference references r with
            | Some (n, d) => String d (unescape_go r n)
            | None => String c (unescape_go r 0)
            end
          else String c (unescape_go r 0)
      end
  end.

Definition UnescapeText (s : string) : string := unescape_go s 0.

(** ** Escaped text is inert *)

Definition is_markup (c : ascii) : bool :=
  Ascii.eqb c "<" || Ascii.eqb c ">" || Ascii.eqb c (chr 34) || Ascii.eqb c "'".

Lemma entity_markup c e : entity c = Some e -> sall (fun d => negb (is_markup d)) e = true.
Proof.
  assert ((match entity c with Some e => sall (fun d => negb (is_markup d)) e | None => true end) = true)
    as Hall by by_bytes c.
  intros E. by rewrite E in Hall.
Qed.

Lemma entity_none_markup c : entity c = None -> negb (is_markup c) = true.
Proof.
  assert ((match entity c with Some _ => true | None => negb (is_markup c) end) = true)
    as Hall by by_bytes c.
  intros E. by rewrite E in Hall.
Qed.

Lemma cont_not_markup c : is_cont c = true -> negb (is_markup c) = true.
Proof.
  assert (implb (is_cont c) (negb (is_markup c)) = true) as Hall by by_bytes c.
  intros E. by rewrite E in Hall.
Qed.

(** The continuation bytes of a rune. *)
Fixpoint conts (n : nat) (s : string) : bool :=
  match n, s with
  | O, _ => true
  | S k, String c r => is_cont c && conts k r
  | S _, EmptyString => false
  end.

Lemma between_cont lo hi c : 128 <= lo -> hi <= 191 -> between lo hi c = true -> is_cont c = true.
Proof.
  unfold between, is_cont. intros Hl Hh. rewrite !andb_true_iff, !N.leb_le. lia.
Qed.

Lemma rune_width_conts c r w : rune_width (String c r) = S w -> conts w r = true.
Proof.
  unfold rune_width. destruct (code c <? 128); [by intros [= <-]|].
  destruct r as [|b r]; [done|]. destruct (between 194 223 c).
  { destruct (is_cont b) eqn:E; [|done]. intros [= <-]. simpl. by rewrite E. }
  destruct r as [|d r]; [done|]. destruct (between 224 239 c).
  { destruct (_ && _)%bool eqn:E; [|done]. intros [= <-]. apply andb_true_iff in E as [E1 E2].
    simpl. rewrite E2, !andb_true_r.
    repeat case_match; try done; by eapply between_cont; [| |exact E1]. }
  destruct r as [|e r]; [done|]. destruct (between 240 244 c); [|done].
  destruct (_ && _)%bool eqn:E; [|done]. intros [= <-].
  apply andb_true_iff in E as [E E3]. apply andb_true_iff in E as [E1 E2].
  simpl. rewrite E2, E3, !andb_true_r.
  repeat case_match; try done; by eapply between_cont; [| |exact E1].
Qed.

Lemma escape_go_inert s skip keep :
  conts skip s = true -> sall (fun d => negb (is_markup d)) (escape_go s skip keep) = true.
Proof.
  revert skip keep. induction s as [|c r IH]; intros skip keep Hc; [done|]. cbn [escape_go].
  destruct skip as [|k].
  - destruct (entity c) as [e|] eqn:Ee.
    + by rewrite sall_app, (entity_markup _ _ Ee), IH.
    + destruct (rune_width (String c r)) as [|w] eqn:Ew.
      * by rewrite sall_app, IH.
      * apply rune_width_conts in Ew. destruct (outside_xml_range _).
        -- by rewrite sall_app, IH.
        -- cbn [sall]. by rewrite (entity_none_markup _ Ee), IH.
  - cbn [conts] in Hc. apply andb_true_iff in Hc as [H1 H2]. destruct keep; cbn [sall].
    + by rewrite (cont_not_markup _ H1), IH.
    + by apply IH.
Qed.

Lemma EscapeString_inert s : sall (fun d => negb (is_markup d)) (EscapeString s) = true.
Proof. by apply escape_go_inert. Qed.

(** ** Escaping loses nothing on XML text *)

(** Text made of well-formed runes that XML admits. *)
Fixpoint xml_text_go (s : string) (skip : nat) : bool :=
  match s with
  | EmptyString => true
  | String c r =>
      match skip with
      | S k => xml_text_go r k
      | O => match rune_width s with
             | O => false
             | S w => negb (outside_xml_range s) && xml_text_go r w
             end
      end
  end.

Definition xml_text (s : string) : bool := xml_text_go s 0.

Lemma unescape_entity c e rest :
  entity c = Some e -> unescape_go (e +:+ rest) 0 = String c (unescape_go rest 0).
Proof.
  unfold entity. intros E.
  assert (c = chr (code c)) as Hc by (symmetry; apply chr_code).
  destruct (code c) as [|p]; [done|].
  repeat (destruct p as [p|p|]; try done); injection E as <-; rewrite Hc; reflexivity.
Qed.

Lemma entity_ascii c e r : entity c = Some e -> rune_width (String c r) = 1%nat.
Proof.
  intros E. assert ((match entity c with Some _ => code c <? 128 | None => true end) = true)
    as Hall by by_bytes c.
  rewrite E in Hall. cbn [rune_width]. by rewrite Hall.
Qed.

Lemma not_ampersand c : entity c = None -> Ascii.eqb c "&" = false.
Proof.
  assert ((match entity c with Some _ => true | None => negb (Ascii.eqb c "&") end) = true)
    as Hall by by_bytes c.
  intros E. rewrite E in Hall. by apply negb_true_iff.
Qed.

Lemma cont_not_ampersand c : is_cont c = true -> Ascii.eqb c "&" = false.
Proof.
  assert (implb (is_cont c) (negb (Ascii.eqb c "&")) = true) as Hall by by_bytes c.
  intros E. rewrite E in Hall. by apply negb_true_iff.
Qed.

Lemma unescape_escape_go s skip :
  conts skip s = true -> xml_text_go s skip = true -> unescape_go (escape_go s skip true) 0 = s.
Proof.
  revert skip. induction s as [|c r IH]; intros skip Hc Hx; [done|].
  cbn [escape_go xml_text_go] in *. destruct skip as [|k].
  - destruct (rune_width (String c r)) as [|w] eqn:Ew; [done|].
    apply andb_true_iff in Hx as [Ho Hx]. apply negb_true_iff in Ho.
    destruct (entity c) as [e|] eqn:Ee.
    + rewrite (entity_ascii _ _ _ Ee) in Ew. injection Ew as <-.
      by rewrite (unescape_entity _ _ _ Ee), IH.
    + rewrite Ho. cbn [unescape_go]. rewrite (not_ampersand _ Ee).
      rewrite IH; [done|by eapply rune_width_conts|done].
  - cbn [conts] in Hc. apply andb_true_iff in Hc as [H1 H2]. cbn [unescape_go].
    by rewrite (cont_not_ampersand _ H1), IH.
Qed.

Lemma Unescape_Escape s : xml_text s = true -> UnescapeText (EscapeString s) = s.
Proof. by apply unescape_escape_go. Qed.
