(* ===== verification/GoJson.v ===== *)
(** * encoding/json

    JSON values, [json.Marshal] of them (with the HTML escaping it does by
    default), and the decoder: the grammar of RFC 8259 as Go's scanner accepts
    it, string unquoting with surrogate pairs and replacement of invalid UTF-8,
    and the assignment of an object's members to struct fields.  Go's limit on
    nesting (10000) is not modelled. *)

From Stdlib Require Import Ascii String ZArith NArith Bool Lia.
From stdpp Require Import base tactics list strings.
From S2P Require Import Prelude GoStrings GoTime GoRfc3339 GoXml.

(** ** Values *)

(** A number is kept as its literal, members in the order they are written. *)
Inductive json :=
| JNull
| JBool (b : bool)
| JNum (lit : string)
| JStr (s : string)
| JArr (l : list json)
| JObj (members : list (string * json)).

Definition JInt (z : Z) : json := JNum (Itoa z).

(** Induction through the lists. *)
Section Induction.
Context (P : json -> Prop) (Hnull : P JNull) (Hbool : forall b, P (JBool b)) (Hnum : forall l, P (JNum l))
  (Hstr : forall s, P (JStr s)) (Harr : forall l, Forall P l -> P (JArr l))
  (Hobj : forall l, Forall (fun kv => P kv.2) l -> P (JObj l)).

Fixpoint json_deep (j : json) : P j :=
  match j with
  | JNull => Hnull
  | JBool b => Hbool b
  | JNum l => Hnum l
  | JStr s => Hstr s
  | JArr l => Harr l (list_rect (Forall P) (Forall_nil_2 _) (fun x l IH => Forall_cons_2 _ _ _ (json_deep x) IH) l)
  | JObj l =>
      Hobj l (list_rect (Forall (fun kv => P kv.2)) (Forall_nil_2 _)
                (fun kv l IH => Forall_cons_2 (fun kv => P kv.2) _ _ (match kv return P kv.2 with (_, x) => json_deep x end) IH) l)
  end.

End Induction.

(** ** Marshal *)

Definition dq : ascii := chr 34.
Definition backslash : ascii := chr 92.

(** A byte below [utf8.RuneSelf] inside a string. *)
Definition json_byte (c : ascii) : string :=
  match code c with
  | 34 | 92 => String backslash (String c "")
  | 8 => "\b"
  | 9 => "\t"
  | 10 => "\n"
  | 12 => "\f"
  | 13 => "\r"
  | 38 | 60 | 62 => "\u00" +:+ hex_byte c
  | n => if (n <? 32)%N then "\u00" +:+ hex_byte c else String c ""
  end%N.

(** U+2028 and U+2029, the line separators JavaScript rejects: the last byte. *)
Definition line_separator (s : string) : option ascii :=
  match s with
  | String a (String b (String c _)) =>
      if (code a =? 226)%N && (code b =? 128)%N && ((code c =? 168)%N || (code c =? 169)%N) then Some c else None
  | _ => None
  end.

(** [appendString]: [skip] bytes of the current rune remain. *)
Fixpoint json_escape (s : string) (skip : nat) : string :=
  match s with
  | EmptyString => EmptyString
  | String c r =>
      match skip with
      | S k => String c (json_escape r k)
      | O =>
          if is_ascii7 c then json_byte c +:+ json_escape r 0
          else match rune_width s with
          | O => "\ufffd" +:+ json_escape r 0
          | S w =>
              match line_separator s, r with
              | Some d, String _ (String _ r2) =>
                  (if (code d =? 168)%N then "\u2028" else "\u2029") +:+ json_escape r2 0
              | _, _ => String c (json_escape r w)
              end
          end
      end
  end.

Definition json_quote (s : string) : string := String dq (json_escape s 0 +:+ String dq "").

(** [json.Marshal]; a Go map is given by its members in the order of its keys. *)
Fixpoint Marshal (j : json) : string :=
  match j with
  | JNull => "null"
  | JBool b => if b then "true" else "false"
  | JNum lit => lit
  | JStr s => json_quote s
  | JArr l => "[" +:+ Join (map Marshal l) "," +:+ "]"
  | JObj l => "{" +:+ Join (map (fun '(k, v) => json_quote k +:+ ":" +:+ Marshal v) l) "," +:+ "}"
  end.

(** ** The decoder: strings *)

Definition hex_val (c : ascii) : option N :=
  let n := code c in
  if is_digit c then Some (n - 48)%N
  else if in_range "a" "f" c then Some (n - 87)%N
  else if in_range "A" "F" c then Some (n - 55)%N
  else None.

Definition hex4 (a b c d : ascii) : option N :=
  match hex_val a, hex_val b, hex_val c, hex_val d with
  | Some x, Some y, Some z, Some t => Some (4096 * x + 256 * y + 16 * z + t)%N
  | _, _, _, _ => None
  end.

(** [utf8.EncodeRune] *)
Definition encode_rune (n : N) : string :=
  (if n <? 128 then String (chr n) ""
   else if n <? 2048 then String (chr (192 + n / 64)) (String (chr (128 + n mod 64)) "")
   else if n <? 65536 then
     String (chr (224 + n / 4096)) (String (chr (128 + n / 64 mod 64)) (String (chr (128 + n mod 64)) ""))
   else
     String (chr (240 + n / 262144)) (String (chr (128 + n / 4096 mod 64))
       (String (chr (128 + n / 64 mod 64)) (String (chr (128 + n mod 64)) ""))))%N.

Definition is_surrogate (n : N) : bool := ((55296 <=? n) && (n <? 57344))%N.

(** [utf16.DecodeRune] *)
Definition decode_pair (hi lo : N) : option N :=
  (if (55296 <=? hi) && (hi <? 56320) && (56320 <=? lo) && (lo <? 57344)
   then Some ((hi - 55296) * 1024 + (lo - 56320) + 65536) else None)%N.

Definition prepend (p : string) (x : option (string * string)) : option (string * string) :=
  (fun '(d, rest) => (p +:+ d, rest)) <$> x.

(** The byte a one-letter escape stands for. *)
Definition short_escape (e : ascii) : option ascii :=
  match code e with
  | 34 | 92 | 47 => Some e
  | 98 => Some (chr 8)
  | 102 => Some (chr 12)
  | 110 => Some (chr 10)
  | 114 => Some (chr 13)
  | 116 => Some (chr 9)
  | _ => None
  end%N.

(** The rest of a string literal: its value and what follows the closing
    quote; [skip] bytes of the current rune remain. *)
Fixpoint unquote (s : string) (skip : nat) : option (string * string) :=
  match s with
  | EmptyString => None
  | String c r =>
      match skip with
      | S k => prepend (String c "") (unquote r k)
      | O =>
          if Ascii.eqb c dq then Some ("", r)
          else if Ascii.eqb c backslash then
            match r with
            | EmptyString => None
            | String e r1 =>
                match short_escape e with
                | Some d => prepend (String d "") (unquote r1 0)
                | None =>
                    if negb (Ascii.eqb e "u") then None
                    else match r1 with
                    | String h1 (String h2 (String h3 (String h4 r2))) =>
                        match hex4 h1 h2 h3 h4 with
                        | None => None
                        | Some n =>
                            if negb (is_surrogate n) then prepend (encode_rune n) (unquote r2 0)
                            else match r2 with
                            | String b (String u (String l1 (String l2 (String l3 (String l4 r3))))) =>
                                match (if Ascii.eqb b backslash && Ascii.eqb u "u" then hex4 l1 l2 l3 l4 else None) with
                                | None => prepend replacement (unquote r2 0)
                                | Some lo =>
                                    match decode_pair n lo with
                                    | Some m => prepend (encode_rune m) (unquote r3 0)
                                    | None => prepend replacement (unquote r2 0)
                                    end
                                end
                            | _ => prepend replacement (unquote r2 0)
                            end
                        end
                    | _ => None
                    end
                end
            end
          else if (code c <? 32)%N then None
          else if is_ascii7 c then prepend (String c "") (unquote r 0)
          else match rune_width s with
          | O => prepend replacement (unquote r 0)
          | S w => prepend (String c "") (unquote r w)
          end
      end
  end.

(** ** The decoder: values *)

Definition is_json_space (c : ascii) : bool :=
  ((code c =? 32) || (code c =? 9) || (code c =? 10) || (code c =? 13))%N.

Fixpoint skip_space (s : string) : string :=
  match s with
  | String c r => if is_json_space c then skip_space r else s
  | EmptyString => EmptyString
  end.

(** The longest prefix of digits, and the rest. *)
Fixpoint span_num (s : string) : string * string :=
  match s with
  | String c r => if is_digit c then let '(d, t) := span_num r in (String c d, t) else ("", s)
  | EmptyString => ("", "")
  end.

(** [-]? (0 | [1-9][0-9]* ) *)
Definition scan_int (s : string) : option (string * string) :=
  let '(sign, t) := match s with
                    | String c r => if Ascii.eqb c "-" then ("-", r) else ("", s)
                    | EmptyString => ("", s)
                    end in
  match t with
  | EmptyString => None
  | String c r =>
      if Ascii.eqb c "0" then Some (sign +:+ "0", r)
      else if is_digit c then let '(d, t) := span_num r in Some (sign +:+ String c d, t)
      else None
  end.

(** ( . [0-9]+ )? *)
Definition scan_frac (s : string) : option (string * string) :=
  match s with
  | String c r =>
      if Ascii.eqb c "." then
        let '(d, t) := span_num r in if d =s "" then None else Some (String "." d, t)
      else Some ("", s)
  | EmptyString => Some ("", s)
  end.

(** ( [eE] [+-]? [0-9]+ )? *)
Definition scan_exp (s : string) : option (string * string) :=
  match s with
  | String c r =>
      if Ascii.eqb c "e" || Ascii.eqb c "E" then
        let '(sign, t) := match r with
                          | String x q => if Ascii.eqb x "+" || Ascii.eqb x "-" then (String x "", q) else ("", r)
                          | EmptyString => ("", r)
                          end in
        let '(d, t) := span_num t in if d =s "" then None else Some (String c (sign +:+ d), t)
      else Some ("", s)
  | EmptyString => Some ("", s)
  end.

Definition scan_number (s : string) : option (string * string) :=
  match scan_int s with
  | None => None
  | Some (i, s) =>
      match scan_frac s with
      | None => None
      | Some (f, s) =>
          match scan_exp s with
          | None => None
          | Some (e, s) => Some (i +:+ f +:+ e, s)
          end
      end
  end.

(** A literal or a number. *)
Definition parse_atom (s : string) : option (json * string) :=
  match CutPrefix s "null" with
  | Some r => Some (JNull, r)
  | None =>
      match CutPrefix s "true" with
      | Some r => Some (JBool true, r)
      | None =>
          match CutPrefix s "false" with
          | Some r => Some (JBool false, r)
          | None => (fun '(l, r) => (JNum l, r)) <$> scan_number s
          end
      end
  end.

(** A value, the elements of an array after its bracket, the members of an
    object after its brace (neither empty). *)
Fixpoint parse_value (fuel : nat) (s : string) : option (json * string) :=
  match fuel, skip_space s with
  | S fuel, String c r =>
      if Ascii.eqb c "{" then
        match CutPrefix (skip_space r) "}" with
        | Some t => Some (JObj [], t)
        | None => (fun '(l, t) => (JObj l, t)) <$> parse_members fuel r
        end
      else if Ascii.eqb c "[" then
        match CutPrefix (skip_space r) "]" with
        | Some t => Some (JArr [], t)
        | None => (fun '(l, t) => (JArr l, t)) <$> parse_elems fuel r
        end
      else if Ascii.eqb c dq then (fun '(d, t) => (JStr d, t)) <$> unquote r 0
      else parse_atom (String c r)
  | _, _ => None
  end
with parse_elems (fuel : nat) (s : string) : option (list json * string) :=
  match fuel with
  | O => None
  | S fuel =>
      match parse_value fuel s with
      | None => None
      | Some (x, t) =>
          match skip_space t with
          | EmptyString => None
          | String c t =>
              if Ascii.eqb c "," then (fun '(l, t) => (x :: l, t)) <$> parse_elems fuel t
              else if Ascii.eqb c "]" then Some ([x], t)
              else None
          end
      end
  end
with parse_members (fuel : nat) (s : string) : option (list (string * json) * string) :=
  match fuel, skip_space s with
  | S fuel, String c r =>
      if negb (Ascii.eqb c dq) then None
      else match unquote r 0 with
      | None => None
      | Some (k, t) =>
          match CutPrefix (skip_space t) ":" with
          | None => None
          | Some t =>
              match parse_value fuel t with
              | None => None
              | Some (x, t) =>
                  match skip_space t with
                  | EmptyString => None
                  | String c t =>
                      if Ascii.eqb c "," then (fun '(l, t) => ((k, x) :: l, t)) <$> parse_members fuel t
                      else if Ascii.eqb c "}" then Some ([(k, x)], t)
                      else None
                  end
              end
          end
      end
  | _, _ => None
  end.

(** The first value of a text, as [Decoder.Decode] takes it, and a text that is
    one value, as [json.Unmarshal] takes it.  A value has more bytes than the
    nesting and the lists below it, so its length is enough fuel. *)
Definition decode_first (s : string) : option json := fst <$> parse_value (S (String.length s)) s.

Definition decode_text (s : string) : option json :=
  match parse_value (S (String.length s)) s with
  | Some (j, rest) => if skip_space rest =s "" then Some j else None
  | None => None
  end.

(** The members of an object with the text of each value, as an [Unmarshaler]
    is given it; after the brace. *)
Fixpoint parse_raw_members (fuel : nat) (s : string) : option (list (string * (json * string)) * string) :=
  match fuel, skip_space s with
  | S fuel, String c r =>
      if negb (Ascii.eqb c dq) then None
      else match unquote r 0 with
      | None => None
      | Some (k, t) =>
          match CutPrefix (skip_space t) ":" with
          | None => None
          | Some t =>
              match parse_value fuel t with
              | None => None
              | Some (x, t') =>
                  let v := skip_space t in
                  let kv := (k, (x, stake (String.length v - String.length t') v)) in
                  match skip_space t' with
                  | EmptyString => None
                  | String c t =>
                      if Ascii.eqb c "," then (fun '(l, t) => (kv :: l, t)) <$> parse_raw_members fuel t
                      else if Ascii.eqb c "}" then Some ([kv], t)
                      else None
                  end
              end
          end
      end
  | _, _ => None
  end.

(** A text that is one object, or null, by its members and their texts. *)
Definition decode_object (s : string) : option (list (string * (json * string))) :=
  match decode_text s with
  | Some JNull | Some (JObj []) => Some []
  | Some (JObj _) =>
      r ← CutPrefix (skip_space s) "{"; fst <$> parse_raw_members (S (String.length s)) r
  | _ => None
  end.

Definition q (s : string) : string := smap (fun c => if Ascii.eqb c "'" then dq else c) s.

Example marshal_sample :
  Marshal (JObj [("a<b", JArr [JInt (-12); JNull]); ("c", JStr (String (chr 10) (String (chr 226) (String (chr 128) (String (chr 168) "é")))))])
  = q "{'a\u003cb':[-12,null],'c':'\n\u2028é'}".
Proof. vm_compute. reflexivity. Qed.

Example decode_sample :
  decode_text (q " { 'a\u003cb' : [ -12 , null,1.5e3, true ], 'c':'\ud83d\ude00' } ")
  = Some (JObj [("a<b", JArr [JNum "-12"; JNull; JNum "1.5e3"; JBool true]);
                ("c", JStr (String (chr 240) (String (chr 159) (String (chr 152) (String (chr 128) "")))))]).
Proof. vm_compute. reflexivity. Qed.

Example decode_bad :
  map decode_text [""; "01"; "[1,]"; "{1:2}"; "nul"; "[1"; "1 2"; q "'a"] = [None; None; None; None; None; None; None; None].
Proof. vm_compute. reflexivity. Qed.

(** ** Reading back what Marshal writes *)

(** *** Strings *)

Fixpoint utf8_go (s : string) (skip : nat) : bool :=
  match s with
  | EmptyString => true
  | String c r =>
      match skip with
      | S k => utf8_go r k
      | O => match rune_width s with
             | O => false
             | S w => utf8_go r w
             end
      end
  end.

(** Valid UTF-8. *)
Definition utf8_text (s : string) : bool := utf8_go s 0.

Lemma prepend_Some p d rest : prepend p (Some (d, rest)) = Some (p +:+ d, rest).
Proof. done. Qed.

Lemma unquote_byte c t :
  is_ascii7 c = true -> unquote (json_byte c +:+ t) 0 = prepend (String c "") (unquote t 0).
Proof. destruct c as [[] [] [] [] [] [] [] []]; intros E; first [discriminate E|reflexivity]. Qed.

(** The width of a rune depends on its own bytes only. *)
Lemma rune_width_stake c r w r' :
  rune_width (String c r) = S w -> stake w r' = stake w r -> rune_width (String c r') = S w.
Proof.
  unfold rune_width. destruct (code c <? 128)%N; [done|].
  destruct r as [|b r]; [done|]. destruct (between 194 223 c).
  { destruct (is_cont b) eqn:Eb; [|done]. intros [= <-]. destruct r' as [|b' r']; [done|].
    cbn [stake]. intros [= ->]. by rewrite Eb. }
  destruct r as [|d r]; [done|]. destruct (between 224 239 c).
  { destruct (_ && _)%bool eqn:E; [|done]. intros [= <-]. destruct r' as [|b' [|d' r']]; [done..|].
    cbn [stake]. intros [= -> ->]. by rewrite E. }
  destruct r as [|e r]; [done|]. destruct (between 240 244 c); [|done].
  destruct (_ && _)%bool eqn:E; [|done]. intros [= <-]. destruct r' as [|b' [|d' [|e' r']]]; [done..|].
  cbn [stake]. intros [= -> -> ->]. by rewrite E.
Qed.

Lemma stake_escape w : forall r u, conts w r = true -> stake w (json_escape r w +:+ u) = stake w r.
Proof.
  induction w as [|w IH]; intros r u Hc; [by destruct (_ +:+ _)|].
  destruct r as [|c r]; [discriminate Hc|]. cbn [conts] in Hc. apply andb_true_iff in Hc as [_ Hc].
  cbn [json_escape String.append stake]. by rewrite IH.
Qed.

Lemma line_separator_Some s d :
  line_separator s = Some d ->
  exists r, s = String (chr 226) (String (chr 128) (String d r)) /\ (d = chr 168 \/ d = chr 169) /\ rune_width s = 3%nat.
Proof.
  unfold line_separator. destruct s as [|a [|b [|c r]]]; try done.
  destruct (_ && _)%bool eqn:E; [|done]. intros [= <-]. apply andb_true_iff in E as [E Ec].
  apply andb_true_iff in E as [Ea Eb]. apply N.eqb_eq in Ea, Eb.
  assert (a = chr 226) as -> by (apply code_inj; exact Ea). assert (b = chr 128) as -> by (apply code_inj; exact Eb).
  exists r. split; [done|]. apply orb_true_iff in Ec as [Ec|Ec]; apply N.eqb_eq in Ec;
    [assert (c = chr 168) as -> by (apply code_inj; exact Ec)|assert (c = chr 169) as -> by (apply code_inj; exact Ec)]; auto.
Qed.

Lemma high_byte c : is_ascii7 c = false -> Ascii.eqb c dq = false /\ Ascii.eqb c backslash = false /\ (code c <? 32)%N = false.
Proof.
  assert (is_ascii7 c || negb (Ascii.eqb c dq || Ascii.eqb c backslash || (code c <? 32)%N) = true) as Hb by by_bytes c.
  intros E. rewrite E in Hb. cbn [orb] in Hb. by split_bools.
Qed.

Lemma unquote_escape n : forall s skip t,
  (String.length s <= n)%nat -> conts skip s = true -> utf8_go s skip = true ->
  unquote (json_escape s skip +:+ String dq t) skip = Some (s, t).
Proof.
  induction n as [|n IH]; intros s skip t Hn Hc Hu.
  { destruct s as [|c r]; [|cbn in Hn; lia]. by destruct skip. }
  destruct s as [|c r]; [by destruct skip|]. cbn [String.length] in Hn.
  destruct skip as [|k].
  - cbn [json_escape utf8_go] in *. destruct (is_ascii7 c) eqn:E7.
    { rewrite sapp_assoc, unquote_byte by done. rewrite IH; [done|lia|done|].
      assert (rune_width (String c r) = 1%nat) as Hw by (unfold rune_width; unfold is_ascii7 in E7; by rewrite E7).
      by rewrite Hw in Hu. }
    destruct (rune_width (String c r)) as [|w] eqn:Ew; [done|].
    destruct (line_separator (String c r)) as [d|] eqn:El.
    + apply line_separator_Some in El as (r2 & E & Hd & Hw). rewrite Ew in Hw. injection Hw as ->.
      injection E as -> ->. cbn [utf8_go] in Hu.
      assert (unquote (json_escape r2 0 +:+ String dq t) 0 = Some (r2, t)) as Hr2.
      { apply IH; [cbn in Hn; lia|done|done]. }
      assert (forall X, unquote ("\u2028" +:+ X) 0 = prepend (encode_rune 8232) (unquote X 0)) as H8 by reflexivity.
      assert (forall X, unquote ("\u2029" +:+ X) 0 = prepend (encode_rune 8233) (unquote X 0)) as H9 by reflexivity.
      rewrite sapp_assoc. destruct Hd as [-> | ->].
      * change (code (chr 168) =? 168)%N with true. cbn iota. by rewrite H8, Hr2.
      * change (code (chr 169) =? 168)%N with false. cbn iota. by rewrite H9, Hr2.
    + pose proof (rune_width_conts _ _ _ Ew) as Hcw.
      destruct (high_byte c E7) as (H1 & H2 & H3). cbn [String.append unquote]. rewrite H1, H2, H3, E7.
      rewrite (rune_width_stake c r w) by (first [done|by apply stake_escape]).
      rewrite IH; [done|lia|done|done].
  - cbn [json_escape String.append unquote utf8_go conts] in *. apply andb_true_iff in Hc as [_ Hc].
    rewrite IH; [done|lia|done|done].
Qed.

Lemma unquote_quote s t : utf8_text s = true -> unquote (json_escape s 0 +:+ String dq t) 0 = Some (s, t).
Proof. intros Hs. by apply (unquote_escape (String.length s)). Qed.

(** *** Numbers *)

Lemma ndigits_spec fuel z :
  (0 < z < 10 ^ Z.of_nat (S fuel))%Z ->
  exists k, ndigits fuel z = S k /\ (10 ^ Z.of_nat k <= z < 10 ^ Z.of_nat (S k))%Z.
Proof.
  revert z. induction fuel as [|fuel IH]; intros z Hz; cbn [ndigits].
  - exists O. change (10 ^ Z.of_nat 1)%Z with 10%Z in *. cbn. lia.
  - destruct (Z.ltb_spec z 10); [exists O; change (10 ^ Z.of_nat 1)%Z with 10%Z; cbn; lia|].
    assert (10 ^ Z.of_nat (S (S fuel)) = 10 * 10 ^ Z.of_nat (S fuel))%Z as Hp
      by (rewrite (Nat2Z.inj_succ (S fuel)), Z.pow_succ_r; lia).
    destruct (IH (z / 10)%Z) as (k & Hk & Hr).
    { split; [apply Z.div_str_pos; lia|apply Z.div_lt_upper_bound; lia]. }
    exists (S k). split; [by rewrite Hk|].
    rewrite (Nat2Z.inj_succ (S k)), Z.pow_succ_r by lia.
    rewrite (Nat2Z.inj_succ k), Z.pow_succ_r in Hr |- * by lia.
    pose proof (Z.div_mod z 10 ltac:(lia)). pose proof (Z.mod_pos_bound z 10 ltac:(lia)). lia.
Qed.

(** The first digit of [k + 1] digits. *)
Lemma digits_head k z :
  (0 <= z < 10 ^ Z.of_nat (S k))%Z -> digits (S k) z = String (digit_chr (z / 10 ^ Z.of_nat k)) (digits k (z mod 10 ^ Z.of_nat k)).
Proof.
  revert z. induction k as [|k IH]; intros z Hz.
  - cbn [digits]. change (10 ^ Z.of_nat 1)%Z with 10%Z in Hz. change (10 ^ Z.of_nat 0)%Z with 1%Z.
    rewrite Z.div_1_r, Z.mod_small by lia. done.
  - assert (10 ^ Z.of_nat (S (S k)) = 10 * 10 ^ Z.of_nat (S k))%Z as Hp
      by (rewrite (Nat2Z.inj_succ (S k)), Z.pow_succ_r; lia).
    assert (10 ^ Z.of_nat (S k) = 10 * 10 ^ Z.of_nat k)%Z as Hp'
      by (rewrite (Nat2Z.inj_succ k), Z.pow_succ_r; lia).
    assert (0 < 10 ^ Z.of_nat k)%Z as Hpos by (apply Z.pow_pos_nonneg; lia).
    cbn [digits] in IH |- *. rewrite IH by (split; [apply Z.div_pos; lia|apply Z.div_lt_upper_bound; lia]).
    cbn [String.append]. f_equal.
    + f_equal. rewrite Hp', Z.div_div by lia. done.
    + assert (z mod (10 * 10 ^ Z.of_nat k) = z mod 10 + 10 * ((z / 10) mod 10 ^ Z.of_nat k))%Z as Hm
        by (apply Z.rem_mul_r; lia).
      pose proof (Z.mod_pos_bound z 10 ltac:(lia)). rewrite Hp', Hm. f_equal; [f_equal|do 2 f_equal].
      * apply (Z.div_unique_pos _ 10 _ (z mod 10)); lia.
      * apply (Z.mod_unique_pos _ 10 ((z / 10) mod 10 ^ Z.of_nat k)); lia.
Qed.

(** A plain integer literal: no leading zero. *)
Definition int_lit (s : string) : bool :=
  let t := match s with String c r => if Ascii.eqb c "-" then r else s | EmptyString => s end in
  match t with
  | EmptyString => false
  | String c r => if Ascii.eqb c "0" then r =s "" else is_digit c && sall is_digit r
  end.

Lemma natural_lit z : (0 <= z <= 2 ^ 63)%Z ->
  let s := digits (ndigits 19 z) z in
  decimal 0 s = Some z /\ s <> "" /\ sall is_digit s = true /\
  match s with String c r => Ascii.eqb c "-" = false /\ Ascii.eqb c "+" = false /\
     (if Ascii.eqb c "0" then r = "" else is_digit c && sall is_digit r = true) | EmptyString => False end.
Proof.
  intros Hz s. assert (sall is_digit s = true) as Hall by apply sall_digits.
  destruct (Z.eq_dec z 0%Z) as [->|Hne]; [by subst s|].
  destruct (ndigits_spec 19 z) as (k & Hk & Hr); [change (10 ^ Z.of_nat 20)%Z with 100000000000000000000%Z; lia|].
  assert (decimal 0 s = Some z) as Hd.
  { subst s. rewrite decimal_digits_val by lia. f_equal. rewrite Hk, Z.mod_small by lia. lia. }
  subst s. rewrite Hk in *. rewrite digits_head in * by lia.
  set (h := (z / 10 ^ Z.of_nat k)%Z) in *.
  assert (1 <= h <= 9)%Z as Hh.
  { subst h. rewrite (Nat2Z.inj_succ k), Z.pow_succ_r in Hr by lia.
    assert (0 < 10 ^ Z.of_nat k)%Z by (apply Z.pow_pos_nonneg; lia).
    split; [apply Z.div_le_lower_bound; lia|]. enough (z / 10 ^ Z.of_nat k < 10)%Z by lia. apply Z.div_lt_upper_bound; lia. }
  split; [exact Hd|]. split; [done|]. split; [exact Hall|]. clearbody h. clear Hd. cbn [sall] in Hall.
  assert (h = 1 \/ h = 2 \/ h = 3 \/ h = 4 \/ h = 5 \/ h = 6 \/ h = 7 \/ h = 8 \/ h = 9)%Z as Hcases by lia.
  repeat destruct Hcases as [->|Hcases]; try subst h; split_and!; try reflexivity; exact Hall.
Qed.

Lemma Itoa_lit z : (- 2 ^ 63 <= z <= 2 ^ 63)%Z -> int_lit (Itoa z) = true.
Proof.
  intros Hz. unfold Itoa, int_lit. destruct (Z.ltb_spec z 0).
  - destruct (natural_lit (- z) ltac:(lia)) as (_ & _ & _ & Hs). rewrite Ascii.eqb_refl.
    destruct (digits _ _) as [|c r]; [done|]. destruct Hs as (_ & _ & Hs). destruct (Ascii.eqb c "0"); [by rewrite Hs|done].
  - destruct (natural_lit z ltac:(lia)) as (_ & _ & _ & Hs). destruct (digits _ _) as [|c r]; [done|].
    destruct Hs as (Hm & _ & Hs). rewrite Hm. destruct (Ascii.eqb c "0"); [by rewrite Hs|done].
Qed.

(** An int64 printed is read back. *)
Lemma Atoi_Itoa z : in_int64 z = true -> Atoi (Itoa z) = Some z.
Proof.
  intros Hz. pose proof Hz as Hr. unfold in_int64, min_int64, max_int64 in Hr. split_bools.
  apply Z.leb_le in H, H0. unfold Itoa. destruct (Z.ltb_spec z 0).
  - destruct (natural_lit (- z) ltac:(lia)) as (Hd & Hne & _). unfold Atoi.
    rewrite (proj2 (String.eqb_neq _ _) Hne), Hd, Z.opp_involutive, Hz. done.
  - destruct (natural_lit z ltac:(lia)) as (Hd & Hne & _ & Hs). unfold Atoi.
    destruct (digits (ndigits 19 z) z) as [|c r] eqn:E; [done|]. destruct Hs as (Hm & Hp & _).
    clear -Hd Hz Hm Hp.
    destruct c as [[] [] [] [] [] [] [] []]; first [discriminate Hm|discriminate Hp|cbv iota; rewrite Hd, Hz; reflexivity].
Qed.

(** *** Values *)

(** Values [Marshal] can produce and a decoder reads back: valid UTF-8 and
    plain integers. *)
Fixpoint json_ok (j : json) : bool :=
  match j with
  | JNull | JBool _ => true
  | JNum lit => int_lit lit
  | JStr s => utf8_text s
  | JArr l => forallb json_ok l
  | JObj l => forallb (fun kv => utf8_text kv.1 && json_ok kv.2) l
  end.

(** The fuel a value takes. *)
Fixpoint jsize (j : json) : nat :=
  match j with
  | JArr l => S (list_sum (map (fun x => S (jsize x)) l))
  | JObj l => S (list_sum (map (fun kv => S (jsize kv.2)) l))
  | _ => 1
  end.

(** What may follow a value: nothing a number could go on with. *)
Definition stops (s : string) : bool :=
  match s with
  | EmptyString => true
  | String c _ => negb (is_digit c || Ascii.eqb c "." || Ascii.eqb c "e" || Ascii.eqb c "E")
  end.

Lemma stops_scan s :
  stops s = true -> scan_frac s = Some ("", s) /\ scan_exp s = Some ("", s) /\ forall d, sall is_digit d = true -> span_num (d +:+ s) = (d, s).
Proof.
  intros Hs. assert (span_num s = ("", s)) as H0.
  { destruct s as [|c s]; [done|]. cbn [stops span_num] in *. by destruct (is_digit c). }
  split_and!.
  - destruct s as [|c s]; [done|]. cbn [stops scan_frac] in *. destruct (Ascii.eqb c "."); [|done].
    by rewrite orb_true_r in Hs.
  - destruct s as [|c s]; [done|]. cbn [stops scan_exp] in *. apply negb_true_iff in Hs. apply orb_false_iff in Hs as [Hs HE].
    apply orb_false_iff in Hs as [_ He]. by rewrite He, HE.
  - intros d Hd. induction d as [|c d IH]; [done|]. cbn [sall String.append span_num] in *.
    apply andb_true_iff in Hd as [-> Hd]. by rewrite IH.
Qed.

Lemma scan_number_lit l rest : int_lit l = true -> stops rest = true -> scan_number (l +:+ rest) = Some (l, rest).
Proof.
  intros Hl Hs. destruct (stops_scan rest Hs) as (Hf & He & Hd). unfold scan_number.
  assert (scan_int (l +:+ rest) = Some (l, rest)) as ->.
  { assert (forall sign c r, (if Ascii.eqb c "0" then r =s "" else is_digit c && sall is_digit r) = true ->
      match String c (r +:+ rest) with
      | EmptyString => None
      | String c r => if Ascii.eqb c "0" then Some (sign +:+ "0", r)
          else if is_digit c then let '(d, t) := span_num r in Some (sign +:+ String c d, t) else None
      end = Some (sign +:+ String c r, rest)) as Hnat.
    { intros sign c r Hr. destruct (Ascii.eqb_spec c "0") as [->|_]; [apply String.eqb_eq in Hr as ->; done|].
      apply andb_true_iff in Hr as [-> Hr]. by rewrite Hd. }
    unfold int_lit in Hl. unfold scan_int. destruct l as [|c l]; [done|]. cbn [String.append].
    destruct (Ascii.eqb_spec c "-") as [->|Hm].
    - destruct l as [|c l]; [done|]. by apply (Hnat "-").
    - by apply (Hnat ""). }
  rewrite Hf, He. by rewrite sapp_nil_r.
Qed.

Lemma int_lit_head l : int_lit l = true -> exists c r, l = String c r /\ (Ascii.eqb c "-" || is_digit c) = true.
Proof.
  unfold int_lit. destruct l as [|c r]; [done|]. intros Hl. exists c, r. split; [done|].
  destruct (Ascii.eqb c "-"); [done|]. destruct (Ascii.eqb_spec c "0") as [->|]; [done|].
  apply andb_true_iff in Hl as [-> _]. done.
Qed.

(** The first byte of a value. *)
Lemma Marshal_head j :
  json_ok j = true -> exists c r, Marshal j = String c r /\ is_json_space c = false /\ Ascii.eqb c "]" = false.
Proof.
  destruct j as [|[]|l|s|l|l]; intros Hj; try (do 2 eexists; split; [reflexivity|split; reflexivity]).
  apply int_lit_head in Hj as (c & r & -> & Hc). exists c, r. split; [done|].
  assert (implb (Ascii.eqb c "-" || is_digit c) (negb (is_json_space c) && negb (Ascii.eqb c "]")) = true) as Hb by by_bytes c.
  rewrite Hc in Hb. cbn [implb] in Hb. by split_bools.
Qed.

Definition reads_back (j : json) : Prop :=
  json_ok j = true -> forall fuel rest, (jsize j <= fuel)%nat -> stops rest = true ->
    parse_value fuel (Marshal j +:+ rest) = Some (j, rest).

Lemma parse_value_atom fuel c r :
  is_json_space c = false -> Ascii.eqb c "{" = false -> Ascii.eqb c "[" = false -> Ascii.eqb c dq = false ->
  parse_value (S fuel) (String c r) = parse_atom (String c r).
Proof. intros H1 H2 H3 H4. cbn [parse_value skip_space]. by rewrite H1, H2, H3, H4. Qed.

Lemma number_reads_back lit : reads_back (JNum lit).
Proof.
  intros Hl fuel rest Hf Hs. cbn [json_ok Marshal jsize] in *. destruct fuel as [|fuel]; [lia|].
  destruct (int_lit_head lit Hl) as (c & r & E & Hc).
  assert (implb (Ascii.eqb c "-" || is_digit c) (negb (is_json_space c || Ascii.eqb c "{" || Ascii.eqb c "[" || Ascii.eqb c dq
    || Ascii.eqb "n" c || Ascii.eqb "t" c || Ascii.eqb "f" c)) = true) as Hb by by_bytes c.
  rewrite Hc in Hb. cbn [implb] in Hb. apply negb_true_iff in Hb. split_bools.
  pose proof (scan_number_lit lit rest Hl Hs) as Hn. rewrite E in *. cbn [String.append] in *.
  rewrite parse_value_atom by done. unfold parse_atom, CutPrefix, HasPrefix.
  repeat match goal with H : Ascii.eqb _ _ = false |- _ => try rewrite H; clear H end. cbn [andb]. by rewrite Hn.
Qed.

Lemma skip_comma s : skip_space ("," +:+ s) = String "," s.
Proof. done. Qed.

(** The texts [parse_elems] and [parse_members] see. *)
Lemma elems_read_back x l : Forall reads_back (x :: l) -> forallb json_ok (x :: l) = true -> forall fuel rest,
  (list_sum (map (fun x => S (jsize x)) (x :: l)) <= fuel)%nat ->
  parse_elems fuel (Join (map Marshal (x :: l)) "," +:+ "]" +:+ rest) = Some (x :: l, rest).
Proof.
  revert x. induction l as [|y l IH]; intros x Hl Hok fuel rest Hf; apply Forall_cons in Hl as [Hx Hl];
    cbn [forallb] in Hok; apply andb_true_iff in Hok as [Hox Hok]; cbn [map list_sum fold_right] in Hf;
    destruct fuel as [|fuel]; try lia; cbn [parse_elems].
  - cbn [map Join String.concat String.append]. rewrite (Hx Hox) by (cbn; lia || done). done.
  - change (Join (map Marshal (x :: y :: l)) ",") with (Marshal x +:+ "," +:+ Join (map Marshal (y :: l)) ",").
    rewrite !sapp_assoc, (Hx Hox); [|lia|done]. rewrite skip_comma, Ascii.eqb_refl.
    rewrite (IH y Hl Hok); [done|]. cbn [map list_sum fold_right]. lia.
Qed.

Definition member (kv : string * json) : string := json_quote kv.1 +:+ ":" +:+ Marshal kv.2.

Lemma member_reads_back kv fuel rest :
  reads_back kv.2 -> utf8_text kv.1 && json_ok kv.2 = true -> (jsize kv.2 <= fuel)%nat -> stops rest = true ->
  parse_members (S fuel) (member kv +:+ rest) =
  match skip_space rest with
  | EmptyString => None
  | String c t =>
      if Ascii.eqb c "," then (fun '(l, t) => (kv :: l, t)) <$> parse_members fuel t
      else if Ascii.eqb c "}" then Some ([kv], t) else None
  end.
Proof.
  destruct kv as [k v]. cbn [fst snd]. intros Hv [Hk Hok]%andb_true_iff Hf Hs. unfold member, json_quote. cbn [fst snd].
  rewrite !sapp_assoc. cbn [String.append parse_members skip_space]. change (is_json_space dq) with false. cbn iota.
  rewrite Ascii.eqb_refl. cbn [negb]. rewrite !sapp_assoc. cbn [String.append]. rewrite unquote_quote by done.
  cbn [skip_space]. change (is_json_space ":") with false. cbn iota.
  change (CutPrefix (String ":" (Marshal v +:+ rest)) ":") with (Some (Marshal v +:+ rest)).
  cbv beta iota. by rewrite (Hv Hok).
Qed.

Lemma members_read_back x l :
  Forall (fun kv => reads_back kv.2) (x :: l) -> forallb (fun kv => utf8_text kv.1 && json_ok kv.2) (x :: l) = true ->
  forall fuel rest, (list_sum (map (fun kv => S (jsize kv.2)) (x :: l)) <= fuel)%nat ->
  parse_members fuel (Join (map member (x :: l)) "," +:+ "}" +:+ rest) = Some (x :: l, rest).
Proof.
  revert x. induction l as [|y l IH]; intros x Hl Hok fuel rest Hf; apply Forall_cons in Hl as [Hx Hl];
    cbn [forallb] in Hok; apply andb_true_iff in Hok as [Hox Hok]; cbn [map list_sum fold_right] in Hf;
    destruct fuel as [|fuel]; try lia.
  - cbn [map Join String.concat]. rewrite member_reads_back by (done || lia). done.
  - change (Join (map member (x :: y :: l)) ",") with (member x +:+ "," +:+ Join (map member (y :: l)) ",").
    rewrite !sapp_assoc, member_reads_back by (done || lia). rewrite skip_comma, Ascii.eqb_refl.
    rewrite (IH y Hl Hok); [done|]. cbn [map list_sum fold_right]. lia.
Qed.

(** The same with the texts of the values. *)
Definition raw_member (kv : string * json) : string * (json * string) := (kv.1, (kv.2, Marshal kv.2)).

Lemma raw_member_reads_back kv fuel rest :
  reads_back kv.2 -> utf8_text kv.1 && json_ok kv.2 = true -> (jsize kv.2 <= fuel)%nat -> stops rest = true ->
  parse_raw_members (S fuel) (member kv +:+ rest) =
  match skip_space rest with
  | EmptyString => None
  | String c t =>
      if Ascii.eqb c "," then (fun '(l, t) => (raw_member kv :: l, t)) <$> parse_raw_members fuel t
      else if Ascii.eqb c "}" then Some ([raw_member kv], t) else None
  end.
Proof.
  destruct kv as [k v]. cbn [fst snd]. intros Hv [Hk Hok]%andb_true_iff Hf Hs. unfold member, json_quote. cbn [fst snd].
  rewrite !sapp_assoc. cbn [String.append parse_raw_members skip_space]. change (is_json_space dq) with false. cbn iota.
  rewrite Ascii.eqb_refl. cbn [negb]. rewrite !sapp_assoc. cbn [String.append]. rewrite unquote_quote by done.
  cbn [skip_space]. change (is_json_space ":") with false. cbn iota.
  change (CutPrefix (String ":" (Marshal v +:+ rest)) ":") with (Some (Marshal v +:+ rest)).
  cbv beta iota. rewrite (Hv Hok) by done.
  assert (skip_space (Marshal v +:+ rest) = Marshal v +:+ rest) as ->.
  { destruct (Marshal_head v Hok) as (c & r & -> & Hsp & _). cbn [String.append skip_space]. by rewrite Hsp. }
  rewrite slength_app, Nat.add_sub. by rewrite stake_app_length.
Qed.

Lemma raw_members_read_back x l :
  Forall (fun kv => reads_back kv.2) (x :: l) -> forallb (fun kv => utf8_text kv.1 && json_ok kv.2) (x :: l) = true ->
  forall fuel rest, (list_sum (map (fun kv => S (jsize kv.2)) (x :: l)) <= fuel)%nat ->
  parse_raw_members fuel (Join (map member (x :: l)) "," +:+ "}" +:+ rest) = Some (map raw_member (x :: l), rest).
Proof.
  revert x. induction l as [|y l IH]; intros x Hl Hok fuel rest Hf; apply Forall_cons in Hl as [Hx Hl];
    cbn [forallb] in Hok; apply andb_true_iff in Hok as [Hox Hok]; cbn [map list_sum fold_right] in Hf;
    destruct fuel as [|fuel]; try lia.
  - cbn [map Join String.concat]. rewrite raw_member_reads_back by (done || lia). done.
  - change (Join (map member (x :: y :: l)) ",") with (member x +:+ "," +:+ Join (map member (y :: l)) ",").
    rewrite !sapp_assoc, raw_member_reads_back by (done || lia). rewrite skip_comma, Ascii.eqb_refl.
    rewrite (IH y Hl Hok); [done|]. cbn [map list_sum fold_right]. lia.
Qed.

Lemma Marshal_reads_back j : reads_back j.
Proof.
  induction j as [|b|lit|s|l IH|l IH] using json_deep.
  - intros _ [|fuel] rest Hf _; [cbn in Hf; lia|done].
  - intros _ [|fuel] rest Hf _; [cbn in Hf; lia|by destruct b].
  - apply number_reads_back.
  - intros Hs [|fuel] rest Hf _; [cbn in Hf; lia|]. cbn [json_ok Marshal] in *. unfold json_quote.
    cbn [String.append parse_value skip_space]. change (is_json_space dq) with false. cbn iota.
    change (Ascii.eqb dq "{") with false. change (Ascii.eqb dq "[") with false. rewrite Ascii.eqb_refl. cbn iota.
    rewrite sapp_assoc. cbn [String.append]. by rewrite unquote_quote.
  - intros Hok [|fuel] rest Hf _; [cbn in Hf; lia|]. destruct l as [|x l]; [done|].
    change (Marshal (JArr (x :: l))) with ("[" +:+ Join (map Marshal (x :: l)) "," +:+ "]"). rewrite !sapp_assoc.
    pose proof (elems_read_back x l IH Hok fuel rest ltac:(cbn [jsize] in Hf; lia)) as He.
    cbn [json_ok forallb] in Hok. apply andb_true_iff in Hok as [Hx _].
    set (t := Join (map Marshal (x :: l)) "," +:+ "]" +:+ rest) in *. cbn [String.append parse_value skip_space].
    change (is_json_space "[") with false. cbn iota. change (Ascii.eqb "[" "{") with false. rewrite Ascii.eqb_refl. cbn iota.
    assert (CutPrefix (skip_space t) "]" = None) as ->; [|by rewrite He].
    destruct (Marshal_head x Hx) as (c & r & E & Hsp & Hc). 
    assert (exists u, t = String c u) as [u ->].
    { subst t. destruct l as [|y l]; unfold Join; cbn [map]; [cbn [String.concat]|rewrite concat_cons2]; rewrite E; eexists; reflexivity. }
    cbn [skip_space]. rewrite Hsp. unfold CutPrefix, HasPrefix. by rewrite Ascii.eqb_sym, Hc.
  - intros Hok [|fuel] rest Hf _; [cbn in Hf; lia|]. destruct l as [|x l]; [done|].
    assert (Marshal (JObj (x :: l)) = "{" +:+ Join (map member (x :: l)) "," +:+ "}") as ->.
    { cbn [Marshal]. do 3 f_equal. apply map_ext. by intros [k v]. }
    rewrite !sapp_assoc.
    pose proof (members_read_back x l IH Hok fuel rest ltac:(cbn [jsize] in Hf; lia)) as He.
    set (t := Join (map member (x :: l)) "," +:+ "}" +:+ rest) in *. cbn [String.append parse_value skip_space].
    change (is_json_space "{") with false. cbn iota. rewrite Ascii.eqb_refl. cbn iota.
    assert (CutPrefix (skip_space t) "}" = None) as ->; [|by rewrite He].
    assert (exists u, t = String dq u) as [u ->]; [|done].
    subst t. destruct l as [|y l]; unfold Join; cbn [map]; [cbn [String.concat]|rewrite concat_cons2]; eexists; reflexivity.
Qed.

(** The fuel of the decoder is enough. *)
Lemma Join_length_sum (l : list string) :
  l <> [] -> S (String.length (Join l ",")) = list_sum (map (fun s => S (String.length s)) l).
Proof.
  induction l as [|x [|y l] IH]; intros Hne; [done|cbn; lia|]. unfold Join in *. rewrite concat_cons2, !slength_app.
  cbn [map list_sum fold_right] in IH |- *. specialize (IH ltac:(done)). cbn [String.length]. lia.
Qed.

Lemma list_sum_le {A} (f g : A -> nat) l :
  Forall (fun x => (f x <= g x)%nat) l -> (list_sum (map f l) <= list_sum (map g l))%nat.
Proof. induction 1; cbn; [done|]. unfold list_sum in *. lia. Qed.

Lemma jsize_length j : json_ok j = true -> (jsize j <= String.length (Marshal j))%nat.
Proof.
  induction j as [|b|lit|s|l IH|l IH] using json_deep; intros Hok; try (cbn; lia).
  - destruct b; cbn; lia.
  - apply int_lit_head in Hok as (c & r & -> & _). cbn. lia.
  - cbn [jsize json_ok] in *. destruct l as [|x l]; [cbn; lia|].
    change (Marshal (JArr (x :: l))) with ("[" +:+ Join (map Marshal (x :: l)) "," +:+ "]").
    rewrite !slength_app. pose proof (Join_length_sum (map Marshal (x :: l)) ltac:(done)) as HJ. rewrite map_map in HJ.
    assert (list_sum (map (fun x => S (jsize x)) (x :: l)) <= list_sum (map (fun x => S (String.length (Marshal x))) (x :: l)))%nat as Hle.
    { apply list_sum_le, Forall_forall. intros y Hy. apply le_n_S. eapply Forall_forall in IH; [|exact Hy]. apply IH.
      eapply forallb_forall in Hok; [exact Hok|]. by apply list_elem_of_In. }
    cbn [String.length]. lia.
  - cbn [jsize json_ok] in *. destruct l as [|x l]; [cbn; lia|].
    assert (Marshal (JObj (x :: l)) = "{" +:+ Join (map member (x :: l)) "," +:+ "}") as ->.
    { cbn [Marshal]. do 3 f_equal. apply map_ext. by intros [k v]. }
    rewrite !slength_app. pose proof (Join_length_sum (map member (x :: l)) ltac:(done)) as HJ. rewrite map_map in HJ.
    assert (list_sum (map (fun kv => S (jsize kv.2)) (x :: l)) <= list_sum (map (fun kv => S (String.length (member kv))) (x :: l)))%nat as Hle.
    { apply list_sum_le, Forall_forall. intros y Hy. apply le_n_S. eapply Forall_forall in IH; [|exact Hy].
      unfold member. rewrite !slength_app. enough (jsize y.2 <= String.length (Marshal y.2))%nat by lia. apply IH.
      eapply forallb_forall in Hok; [|by apply list_elem_of_In]. by apply andb_true_iff in Hok as [_ ?]. }
    cbn [String.length]. lia.
Qed.

Lemma decode_Marshal j : json_ok j = true -> decode_text (Marshal j) = Some j /\ decode_first (Marshal j) = Some j.
Proof.
  intros Hok. unfold decode_text, decode_first. pose proof (jsize_length j Hok).
  rewrite <- (sapp_nil_r (Marshal j)) at 2 4. rewrite (Marshal_reads_back j Hok) by (done || lia). done.
Qed.

Lemma decode_object_Marshal l :
  json_ok (JObj l) = true -> decode_object (Marshal (JObj l)) = Some (map raw_member l).
Proof.
  intros Hok. unfold decode_object. rewrite (proj1 (decode_Marshal _ Hok)). destruct l as [|x l]; [done|].
  pose proof (jsize_length _ Hok) as Hl.
  assert (Marshal (JObj (x :: l)) = "{" +:+ Join (map member (x :: l)) "," +:+ "}") as E.
  { cbn [Marshal]. do 3 f_equal. apply map_ext. by intros [k v]. }
  assert (parse_raw_members (S (String.length (Marshal (JObj (x :: l))))) (Join (map member (x :: l)) "," +:+ "}" +:+ "")
          = Some (map raw_member (x :: l), "")) as Hp.
  { apply raw_members_read_back; [apply Forall_forall; intros; apply Marshal_reads_back|exact Hok|].
    revert Hl. generalize (Marshal (JObj (x :: l))). cbn [jsize]. intros m Hm. lia. }
  revert Hp. generalize (String.length (Marshal (JObj (x :: l)))). intros n Hp. rewrite E. clear E Hok Hl.
  generalize dependent (Join (map member (x :: l)) ","). intros J Hp. cbn [String.append skip_space].
  change (is_json_space "{") with false. cbn iota.
  change (CutPrefix (String "{" (J +:+ "}")) "{") with (Some (J +:+ "}")). cbn [mbind option_bind].
  change ("}" +:+ "") with "}" in Hp. by rewrite Hp.
Qed.

(** ** Struct fields *)

(** [foldName]: ASCII letters upper-cased; the Kelvin sign and the long s are
    the only other runes that fold to ASCII. *)
Fixpoint fold_key (s : string) : string :=
  match s with
  | EmptyString => EmptyString
  | String a r =>
      let plain := String (upper_byte a) (fold_key r) in
      match r with
      | EmptyString => plain
      | String b r2 =>
          if ((code a =? 197) && (code b =? 191))%N then String "S" (fold_key r2)
          else match r2 with
          | EmptyString => plain
          | String c r3 =>
              if ((code a =? 226) && (code b =? 132) && (code c =? 170))%N then String "K" (fold_key r3) else plain
          end
      end
  end.

(** The field of a struct a key goes to: the exact name first. *)
Definition resolve (names : list string) (key : string) : option string :=
  if existsb (String.eqb key) names then Some key
  else List.find (fun n => fold_key n =s fold_key key) names.

(** The values assigned to the field [name], in order. *)
Definition field_values {A} (names : list string) (name : string) (members : list (string * A)) : list A :=
  omap (fun '(k, v) => if bool_decide (resolve names k = Some name) then Some v else None) members.

(** Assignments to a string field and to an int field: null is ignored, a value
    of another type is an error, the last one wins. *)
Definition string_field (vs : list json) : option string :=
  fold_left (fun acc j => match acc, j with
                          | Some _, JStr s => Some s
                          | Some v, JNull => Some v
                          | _, _ => None
                          end) vs (Some "").

Definition int_field (vs : list json) : option Z :=
  fold_left (fun acc j => match acc, j with
                          | Some _, JNum lit => Atoi lit
                          | Some v, JNull => Some v
                          | _, _ => None
                          end) vs (Some 0%Z).

(** [Time.UnmarshalJSON] of the text of a value: null is ignored, and nothing
    between the quotes is unescaped. *)
Definition Time_UnmarshalJSON (raw : string) (old : Time) : option Time :=
  if raw =s "null" then Some old
  else match raw with
  | String c r =>
      if Ascii.eqb c dq && HasSuffix r (String dq "") then Parse_rfc3339 (stake (String.length r - 1) r) else None
  | EmptyString => None
  end.

Definition time_field (vs : list (json * string)) : option Time :=
  fold_left (fun acc v => acc ≫= Time_UnmarshalJSON v.2) vs (Some zero_time).

(** A value decoded into a struct: its members; null changes nothing. *)
Definition struct_members (j : json) : option (list (string * json)) :=
  match j with
  | JObj l => Some l
  | JNull => Some []
  | _ => None
  end.

Example fold_sample :
  map (resolve ["access_token"; "expires_in"])
    ["access_token"; "Access_Token"; "acce" +:+ String (chr 197) (String (chr 191) "s_to") +:+ String (chr 226) (String (chr 132) (String (chr 170) "en")); "token"]
  = [Some "access_token"; Some "access_token"; Some "access_token"; None].
Proof. vm_compute. reflexivity. Qed.

(** Keys written as the field names resolve to themselves. *)
Lemma resolve_exact names key : In key names -> resolve names key = Some key.
Proof.
  intros Hin. unfold resolve. by rewrite (proj2 (existsb_exists _ _) (ex_intro _ key (conj Hin (seqb_refl key)))).
Qed.
