(* ===== verification/GoXmlDecode.v ===== *)
(** * encoding/xml: the decoder

    The tokenizer of [xml.Decoder] in its strict mode (elements and attributes,
    text with references, CDATA, comments, processing instructions,
    directives), the matching of end elements, and [xml.Unmarshal] into a
    struct whose fields are strings at paths of element names.  Such a struct
    names no namespace, so the translation of prefixes is left out.  The
    Unicode tables of XML names are the class [XmlTables]. *)

From Stdlib Require Import Ascii String ZArith NArith Bool Lia.
From stdpp Require Import base tactics list strings.
From S2P Require Import Prelude GoStrings GoXml GoJson.

(** ** Names *)

(** Membership of a rune beyond ASCII, given in UTF-8, in the tables [first] and
    [second] of the package. *)
Class XmlTables := { table_first : string -> bool; table_second : string -> bool }.

Section Decoder.
Context `{XmlTables}.

(** [isNameByte] *)
Definition isNameByte (c : ascii) : bool :=
  is_upper c || is_lower c || is_digit c || negb (sfree c "_:.-").

(** The bytes [readName] takes. *)
Fixpoint span_name (s : string) : string * string :=
  match s with
  | String c r =>
      if is_ascii7 c && negb (isNameByte c) then ("", s)
      else let '(n, t) := span_name r in (String c n, t)
  | EmptyString => ("", "")
  end.

(** [isName]: [skip] bytes of the current rune remain. *)
Fixpoint is_name_go (first : bool) (skip : nat) (s : string) : bool :=
  match s with
  | EmptyString => true
  | String c r =>
      match skip with
      | S k => is_name_go first k r
      | O =>
          match rune_width s with
          | O => false
          | S w =>
              (if is_ascii7 c
               then is_upper c || is_lower c || negb (sfree c "_:") || (negb first && (is_digit c || negb (sfree c "-.")))
               else table_first (stake (S w) s) || (negb first && table_second (stake (S w) s)))
              && is_name_go false w r
          end
      end
  end.

Definition isName (s : string) : bool := (s <>s "") && is_name_go true 0 s.

(** [d.name]: the end of the input inside a name is an error. *)
Definition xname_text (s : string) : option (string * string) :=
  let '(n, t) := span_name s in if (t <>s "") && isName n then Some (n, t) else None.

Record xname := mkXname { x_space : string; x_local : string }.

#[export] Instance xname_eq_dec : EqDecision xname.
Proof. solve_decision. Defined.

(** [d.nsname] *)
Definition nsname (s : string) : option (xname * string) :=
  '(n, t) ← xname_text s;
  match Split ":" n with
  | [space; local] => if (space =s "") || (local =s "") then Some (mkXname "" n, t) else Some (mkXname space local, t)
  | [_] => Some (mkXname "" n, t)
  | _ => None
  end.

Definition is_xml_space (c : ascii) : bool :=
  ((code c =? 32) || (code c =? 13) || (code c =? 10) || (code c =? 9))%N.

(** [d.space] *)
Fixpoint xspace (s : string) : string :=
  match s with
  | String c r => if is_xml_space c then xspace r else s
  | EmptyString => EmptyString
  end.

(** ** Text *)

Definition MaxRune : N := 1114111.

(** [string(rune(n))] *)
Definition rune_string (n : N) : string := if is_surrogate n then replacement else encode_rune n.

Fixpoint span_hex (hex : bool) (s : string) : string * string :=
  match s with
  | String c r =>
      if is_digit c || (hex && (in_range "a" "f" c || in_range "A" "F" c))
      then let '(d, t) := span_hex hex r in (String c d, t) else ("", s)
  | EmptyString => ("", "")
  end.

Fixpoint number_of (base acc : N) (s : string) : N :=
  match s with
  | EmptyString => acc
  | String c r => number_of base (acc * base + default 0 (hex_val c))%N r
  end.

(** What follows an ampersand: the text of the reference and what is left.  A
    number beyond 64 bits is beyond [MaxRune] too. *)
Definition char_ref (s : string) : option (string * string) :=
  match CutPrefix s "#" with
  | Some r =>
      let '(hex, r) := match CutPrefix r "x" with Some r' => (true, r') | None => (false, r) end in
      let '(ds, t) := span_hex hex r in
      t ← CutPrefix t ";";
      let n := number_of (if hex : bool then 16 else 10)%N 0 ds in
      if (ds <>s "") && (n <=? MaxRune)%N then Some (rune_string n, t) else None
  | None =>
      let '(n, t) := span_name s in
      t ← CutPrefix t ";";
      (fun c => (String c "", t)) <$>
        (if n =s "lt" then Some "<"%char else if n =s "gt" then Some ">"%char else if n =s "amp" then Some "&"%char
         else if n =s "apos" then Some "'"%char else if n =s "quot" then Some dq else None)
  end.

(** [d.text]: up to the quote, the next tag, or the end of a CDATA section; [b0]
    and [b1] are the two bytes before; [skip] bytes of a reference remain. *)
Fixpoint text_go (quote : option ascii) (cdata : bool) (b0 b1 : ascii) (skip : nat) (s : string)
    : option (string * string) :=
  match s with
  | EmptyString => if cdata then None else Some ("", "")
  | String c r =>
      match skip with
      | S k => text_go quote cdata b0 b1 k r
      | O =>
          if (if quote then false else true) && Ascii.eqb b0 "]" && Ascii.eqb b1 "]" && Ascii.eqb c ">" then
            if cdata then Some ("", r) else None
          else if Ascii.eqb c "<" && negb cdata then
            if quote then None else Some ("", s)
          else if (match quote with Some q => Ascii.eqb c q | None => false end) then Some ("", r)
          else if Ascii.eqb c "&" && negb cdata then
            match char_ref r with
            | None => None
            | Some (txt, t) =>
                prepend txt (text_go quote cdata "000" "000" (String.length r - String.length t) r)
            end
          else
            prepend (if Ascii.eqb c (chr 13) then nl
                     else if Ascii.eqb b1 (chr 13) && Ascii.eqb c (chr 10) then "" else String c "")
              (text_go quote cdata b1 c 0 r)
      end
  end.

(** Every rune must be one XML admits; a CDATA section ends in [ ]]> ], of which
    two bytes were taken as text. *)
Definition xtext (quote : option ascii) (cdata : bool) (s : string) : option (string * string) :=
  '(d, t) ← text_go quote cdata "000" "000" 0 s;
  let d := if cdata then stake (String.length d - 2) d else d in
  if xml_text d then Some (d, t) else None.

(** ** Tokens *)

Inductive xtok :=
| TStart (n : xname) (attrs : list (xname * string))
| TEnd (n : xname)
| TText (d : string)
| TOther.   (* comment, processing instruction, directive *)

(** The attributes of a start element, and whether it closes itself. *)
Fixpoint xattrs (fuel : nat) (s : string) : option (list (xname * string) * bool * string) :=
  match fuel, xspace s with
  | S fuel, String c r =>
      if Ascii.eqb c "/" then (fun t => ([], true, t)) <$> CutPrefix r ">"
      else if Ascii.eqb c ">" then Some ([], false, r)
      else
        '(n, t) ← nsname (String c r);
        t ← CutPrefix (xspace t) "=";
        match xspace t with
        | String q t =>
            if Ascii.eqb q dq || Ascii.eqb q "'" then
              '(v, t) ← xtext (Some q) false t;
              '(l, close, t) ← xattrs fuel t;
              Some ((n, v) :: l, close, t)
            else None
        | EmptyString => None
        end
  | _, _ => None
  end.

(** Up to [?>]: the data and what is left; [b0] is the byte before. *)
Fixpoint span_procinst (b0 : ascii) (s : string) : option (string * string) :=
  match s with
  | EmptyString => None
  | String c r =>
      if Ascii.eqb b0 "?" && Ascii.eqb c ">" then Some (">", r)
      else prepend (String c "") (span_procinst c r)
  end.

(** The loop of [procInst]: from the first occurrence of [param] that a quote
    follows, to the closing quote; an occurrence without one is passed with the
    byte after it. *)
Fixpoint procInst_go (param : string) (skip : nat) (s : string) : string :=
  match s with
  | EmptyString => ""
  | String _ r =>
      match skip with
      | S k => procInst_go param k r
      | O =>
          match CutPrefix s param with
          | Some (String sep v) =>
              if Ascii.eqb sep "'" || Ascii.eqb sep dq
              then match Split sep v with
                   | x :: _ :: _ => x
                   | _ => ""
                   end
              else procInst_go param (String.length param) r
          | _ => procInst_go param 0 r
          end
      end
  end.

Definition procInst (param s : string) : string := procInst_go (param +:+ "=") 0 s.

(** [<?target data?>] *)
Definition xprocinst (s : string) : option string :=
  '(target, t) ← xname_text s;
  '(d, t) ← span_procinst "000" (xspace t);
  let content := stake (String.length d - 2) d in
  let ver := procInst "version" content in
  let enc := procInst "encoding" content in
  if (target =s "xml") && (((ver <>s "") && (ver <>s "1.0")) || ((enc <>s "") && (smap lower_byte enc <>s "utf-8")))
  then None else Some t.

(** A comment after its [<!--]: two dashes must be followed by [>]. *)
Fixpoint xcomment (b0 b1 : ascii) (s : string) : option string :=
  match s with
  | EmptyString => None
  | String c r =>
      if Ascii.eqb b0 "-" && Ascii.eqb b1 "-" then if Ascii.eqb c ">" then Some r else None
      else xcomment b1 c r
  end.

(** Inside a directive: brackets nest, quotes and comments hide them. *)
Inductive dstate :=
| DNormal (depth : nat)
| DQuote (q : ascii) (depth : nat)
| DOpen (matched : nat) (depth : nat)      (* bytes of [!--] seen after [<] *)
| DComment (b0 b1 : ascii) (depth : nat).

Definition handleB (b : ascii) (depth : nat) : dstate :=
  if Ascii.eqb b "'" || Ascii.eqb b dq then DQuote b depth
  else if Ascii.eqb b ">" then DNormal (pred depth)
  else if Ascii.eqb b "<" then DOpen 0 depth
  else DNormal depth.

Fixpoint xdirective (st : dstate) (s : string) : option string :=
  match s with
  | EmptyString => None
  | String b r =>
      match st with
      | DNormal depth => if Ascii.eqb b ">" && (depth =? 0)%nat then Some r else xdirective (handleB b depth) r
      | DQuote q depth => xdirective (if Ascii.eqb b q then DNormal depth else DQuote q depth) r
      | DOpen i depth =>
          xdirective (if bool_decide (String.get i "!--" = Some b)
                      then if (i =? 2)%nat then DComment "000" "000" depth else DOpen (S i) depth
                      else handleB b (S depth)) r
      | DComment b0 b1 depth =>
          xdirective (if Ascii.eqb b0 "-" && Ascii.eqb b1 "-" && Ascii.eqb b ">" then DNormal depth else DComment b1 b depth) r
      end
  end.

(** [d.rawToken]: the token, whether the element closes itself, what is left.
    [None] is an error, the end of the input included. *)
Definition rawToken (s : string) : option (xtok * bool * string) :=
  match s with
  | EmptyString => None
  | String c r =>
      if negb (Ascii.eqb c "<") then (fun '(d, t) => (TText d, false, t)) <$> xtext None false s
      else match r with
      | EmptyString => None
      | String b t =>
          if Ascii.eqb b "/" then
            '(n, t) ← nsname t; t ← CutPrefix (xspace t) ">"; Some (TEnd n, false, t)
          else if Ascii.eqb b "?" then (fun t => (TOther, false, t)) <$> xprocinst t
          else if Ascii.eqb b "!" then
            match t with
            | EmptyString => None
            | String x t =>
                if Ascii.eqb x "-" then t ← CutPrefix t "-"; (fun t => (TOther, false, t)) <$> xcomment "000" "000" t
                else if Ascii.eqb x "[" then
                  t ← CutPrefix t "CDATA["; (fun '(d, t) => (TText d, false, t)) <$> xtext None true t
                else (fun t => (TOther, false, t)) <$> xdirective (DNormal 0) t
            end
          else
            '(n, t) ← nsname r;
            '(l, close, t) ← xattrs (String.length t) t;
            Some (TStart n l, close, t)
      end
  end.

(** ** [Decoder.Token]: end elements match start elements *)

Record decoder := mkDecoder {
  d_rest : string;
  d_close : option xname;       (* [needClose], [toClose] *)
  d_stack : list xname          (* the open elements *)
}.

Definition nextToken (d : decoder) : option (xtok * decoder) :=
  '(t, close, rest) ←
    match d_close d with
    | Some n => Some (TEnd n, false, d_rest d)
    | None => rawToken (d_rest d)
    end;
  match t with
  | TStart n _ => Some (t, mkDecoder rest (if close : bool then Some n else None) (n :: d_stack d))
  | TEnd n =>
      match d_stack d with
      | m :: stack => if bool_decide (m = n) then Some (t, mkDecoder rest None stack) else None
      | [] => None
      end
  | _ => Some (t, mkDecoder rest None (d_stack d))
  end.

(** ** Unmarshal *)

(** A field of the struct: the names of its parents below the root, its own. *)
Definition xfield : Type := list string * string.

Inductive matched := Exact (f : xfield) | Prefix | Unknown.

Definition extends (ps qs : list string) : bool := bool_decide (take (length ps) qs = ps).

(** The loop of [unmarshalPath] over the fields. *)
Fixpoint match_path (fields : list xfield) (parents : list string) (name : string) : matched :=
  match fields with
  | [] => Unknown
  | f :: fs =>
      if negb (extends parents f.1) then match_path fs parents name
      else if (length f.1 =? length parents)%nat && (f.2 =s name) then Exact f
      else if bool_decide (f.1 !! length parents = Some name) then Prefix
      else match_path fs parents name
  end.

(** Where the decoder is: before the root; below the elements of [ps] (a path
    some field has); [n] elements deep below a field, with its text so far;
    [n] elements deep in one that is skipped. *)
Inductive xmode :=
| Search
| Inside (ps : list string)
| InField (ps : list string) (f : xfield) (data : string) (n : nat)
| Skip (ps : list string) (n : nat).

(** One token: the next mode ([None] when the root has ended), and the field it
    completes. *)
Definition xmode_step (fields : list xfield) (m : xmode) (t : xtok) : option xmode * option (xfield * string) :=
  match m with
  | Search => (Some match t with TStart _ _ => Inside [] | _ => Search end, None)
  | Inside ps =>
      match t with
      | TStart n _ =>
          (Some match match_path fields ps (x_local n) with
                | Exact f => InField ps f "" 0
                | Prefix => Inside (ps ++ [x_local n])
                | Unknown => Skip ps 0
                end, None)
      | TEnd _ => (match ps with [] => None | _ => Some (Inside (removelast ps)) end, None)
      | _ => (Some m, None)
      end
  | InField ps f data n =>
      match t, n with
      | TStart _ _, _ => (Some (InField ps f data (S n)), None)
      | TEnd _, O => (Some (Inside ps), Some (f, data))
      | TEnd _, S n => (Some (InField ps f data n), None)
      | TText d, O => (Some (InField ps f (data +:+ d) 0), None)
      | _, _ => (Some m, None)
      end
  | Skip ps n =>
      match t, n with
      | TStart _ _, _ => (Some (Skip ps (S n)), None)
      | TEnd _, O => (Some (Inside ps), None)
      | TEnd _, S n => (Some (Skip ps n), None)
      | _, _ => (Some m, None)
      end
  end.

(** The values assigned, in order, and whether decoding ended well; [None] when
    the fuel was not enough. *)
Fixpoint unmarshal_loop (fuel : nat) (fields : list xfield) (m : xmode) (d : decoder) (log : list (xfield * string))
    : option (list (xfield * string) * bool) :=
  match fuel with
  | O => None
  | S fuel =>
      match nextToken d with
      | None => Some (log, false)
      | Some (t, d) =>
          let '(m, a) := xmode_step fields m t in
          let log := log ++ option_list a in
          match m with
          | None => Some (log, true)
          | Some m => unmarshal_loop fuel fields m d log
          end
      end
  end.

(** [xml.Unmarshal]: a token takes a byte at least, and one that closes an
    element without text follows a start element of four. *)
Definition xml_Unmarshal (fields : list xfield) (s : string) : option (list (xfield * string) * bool) :=
  unmarshal_loop (S (2 * String.length s)) fields Search (mkDecoder s None []) [].

(** The value of a field: the last one assigned. *)
Definition last_value (log : list (xfield * string)) (f : xfield) : string :=
  fold_left (fun v a => if bool_decide (a.1 = f) then a.2 else v) log "".

End Decoder.

(** The ASCII part of the tables. *)
#[export] Instance ascii_tables : XmlTables := {| table_first := fun _ => false; table_second := fun _ => false |}.

Section Samples.

Definition qx (s : string) : string := smap (fun c => if Ascii.eqb c "'" then dq else c) s.

Example unmarshal_sample :
  xml_Unmarshal [(["Error"], "Code"); (["Error"], "Message")]
    (qx "<?xml version='1.0' encoding='UTF-8'?><!DOCTYPE x [<!ENTITY y '>'>]>
<E xmlns='u' a='&lt;'><Error><Type/><Code>A&#x42;&amp;<i>no</i><![CDATA[<C>]]></Code><Message>m</Message></Error><!-- c --></E>trailing <")
  = Some ([((["Error"], "Code"), "AB&<C>"); ((["Error"], "Message"), "m")], true).
Proof. vm_compute. reflexivity. Qed.

(** What was assigned before an error stays assigned. *)
Example unmarshal_bad :
  map (xml_Unmarshal [([], "a")])
    [""; "<r><a>1</a></s>"; "<r><a>1</a>&nbsp;</r>"; "<r><a>1</a>]]></r>"; "<r x=1><a>1</a></r>"; "<?xml version='1.1'?><r/>"; "<r><a>1</a></r"]
  = [Some ([], false); Some ([(([], "a"), "1")], false); Some ([(([], "a"), "1")], false); Some ([(([], "a"), "1")], false);
     Some ([], false); Some ([], false); Some ([(([], "a"), "1")], false)].
Proof. vm_compute. reflexivity. Qed.

End Samples.

(** ** The decoder ends *)

Section Ends.
Context `{XmlTables}.

Lemma span_name_app s : s = (span_name s).1 +:+ (span_name s).2.
Proof.
  induction s as [|c s IH]; [done|]. cbn [span_name]. destruct (_ && _); [done|].
  destruct (span_name s) as [n t]. cbn [fst snd] in *. cbn [String.append]. by rewrite <- IH.
Qed.

Lemma xname_text_shorter s n t : xname_text s = Some (n, t) -> (String.length t < String.length s)%nat.
Proof.
  unfold xname_text. pose proof (span_name_app s) as E. destruct (span_name s) as [m u]. cbn [fst snd] in E.
  destruct (_ && isName m) eqn:Ei; [|done]. intros [= <- <-]. rewrite E, slength_app.
  apply andb_true_iff in Ei as [_ Ei]. destruct m; [done|]. cbn [String.length]. lia.
Qed.

Lemma nsname_shorter s n t : nsname s = Some (n, t) -> (String.length t < String.length s)%nat.
Proof.
  unfold nsname. destruct (xname_text s) as [[m u]|] eqn:E; [|done]. cbn [mbind option_bind].
  apply xname_text_shorter in E. repeat case_match; try done; by intros [= <- <-].
Qed.

Lemma xspace_shorter s : (String.length (xspace s) <= String.length s)%nat.
Proof. induction s as [|c s IH]; [done|]. cbn [xspace]. destruct (is_xml_space c); cbn [String.length]; lia. Qed.

Lemma CutPrefix_shorter s p t : CutPrefix s p = Some t -> (String.length s = String.length p + String.length t)%nat.
Proof. intros E%CutPrefix_Some. by rewrite E, slength_app. Qed.

Lemma text_go_shorter quote cdata b0 b1 skip s d t :
  text_go quote cdata b0 b1 skip s = Some (d, t) -> (String.length t <= String.length s)%nat.
Proof.
  revert b0 b1 skip d. induction s as [|c r IH]; intros b0 b1 skip d; cbn [text_go].
  - destruct cdata; [done|]. by intros [= <- <-].
  - assert (forall p b0 b1 k, prepend p (text_go quote cdata b0 b1 k r) = Some (d, t) ->
              (String.length t <= String.length (String c r))%nat) as Hrec.
    { intros p c0 c1 k. unfold prepend. destruct (text_go _ _ _ _ _ _) as [[d' t']|] eqn:E; [|done].
      intros [= <- <-]. apply IH in E. cbn [String.length]. lia. }
    destruct skip as [|k]; [|intros E%IH; cbn [String.length]; lia].
    repeat case_match; try done; try (by apply Hrec); intros [= <- <-]; cbn [String.length]; lia.
Qed.

Lemma xtext_shorter quote cdata s d t : xtext quote cdata s = Some (d, t) -> (String.length t <= String.length s)%nat.
Proof.
  unfold xtext. destruct (text_go _ _ _ _ _ _) as [[d' t']|] eqn:E; [|done]. cbn [mbind option_bind].
  apply text_go_shorter in E. destruct (xml_text _); [|done]. by intros [= <- <-].
Qed.

Lemma xtext_tag_shorter c r d t :
  Ascii.eqb c "<" = false -> xtext None false (String c r) = Some (d, t) -> (String.length t < String.length (String c r))%nat.
Proof.
  intros Hc. unfold xtext. destruct (text_go _ _ _ _ _ _) as [[d' t']|] eqn:E; [|done]. cbn [mbind option_bind].
  destruct (xml_text _); [|done]. intros [= <- <-]. cbn [text_go] in E. rewrite Hc in E. cbn [andb Ascii.eqb Bool.eqb] in E.
  assert (forall p b0 b1 k, prepend p (text_go None false b0 b1 k r) = Some (d', t') -> (String.length t' < String.length (String c r))%nat) as Hrec.
  { intros p c0 c1 k. unfold prepend. clear E. destruct (text_go _ _ _ _ _ _) as [[d0 t0]|] eqn:E0; [|discriminate].
    intros [= <- <-]. apply text_go_shorter in E0. cbn [String.length]. lia. }
  destruct (Ascii.eqb c "&"); cbn [negb] in E; [destruct (char_ref r) as [[x u]|]; [|discriminate E]|]; exact (Hrec _ _ _ _ E).
Qed.

Lemma xattrs_shorter fuel s l close t : xattrs fuel s = Some (l, close, t) -> (String.length t < String.length s)%nat.
Proof.
  revert s l close t. induction fuel as [|fuel IH]; intros s l close t; cbn [xattrs]; [done|].
  pose proof (xspace_shorter s) as Hs. destruct (xspace s) as [|c r] eqn:Ex; [done|]. cbn [String.length] in Hs.
  destruct (Ascii.eqb c "/").
  { destruct (CutPrefix r ">") as [u|] eqn:E; [|done]. intros [= <- <- <-]. apply CutPrefix_shorter in E. cbn in E. lia. }
  destruct (Ascii.eqb c ">"); [intros [= <- <- <-]; lia|].
  destruct (nsname (String c r)) as [[n u]|] eqn:En; [|done]. cbn [mbind option_bind]. apply nsname_shorter in En. cbn [String.length] in En.
  destruct (CutPrefix (xspace u) "=") as [v|] eqn:Ec; [|done]. cbn [mbind option_bind]. apply CutPrefix_shorter in Ec.
  pose proof (xspace_shorter u). pose proof (xspace_shorter v) as Hv. destruct (xspace v) as [|q w]; [done|].
  destruct (_ || _); [|done]. destruct (xtext _ _ w) as [[d x]|] eqn:Et; [|done]. cbn [mbind option_bind]. apply xtext_shorter in Et.
  destruct (xattrs fuel x) as [[[l' close'] y]|] eqn:Ea; [|done]. cbn [mbind option_bind]. intros [= <- <- <-].
  apply IH in Ea. cbn [String.length] in *. lia.
Qed.

Lemma span_procinst_shorter b s d t : span_procinst b s = Some (d, t) -> (String.length t <= String.length s)%nat.
Proof.
  revert b d. induction s as [|c r IH]; intros b d; cbn [span_procinst]; [done|].
  destruct (_ && _); [intros [= <- <-]; cbn [String.length]; lia|]. unfold prepend.
  destruct (span_procinst c r) as [[d' t']|] eqn:E; [|done]. intros [= <- <-]. apply IH in E. cbn [String.length]. lia.
Qed.

Lemma xcomment_shorter b0 b1 s t : xcomment b0 b1 s = Some t -> (String.length t <= String.length s)%nat.
Proof.
  revert b0 b1. induction s as [|c r IH]; intros b0 b1; cbn [xcomment]; [done|].
  repeat case_match; try done; [intros [= <-]; cbn [String.length]; lia|]. intros E%IH. cbn [String.length]. lia.
Qed.

Lemma xdirective_shorter st s t : xdirective st s = Some t -> (String.length t <= String.length s)%nat.
Proof.
  revert st. induction s as [|c r IH]; intros st; cbn [xdirective]; [done|].
  assert (forall st', xdirective st' r = Some t -> (String.length t <= String.length (String c r))%nat) as Hrec
    by (intros st' E%IH; cbn [String.length]; lia).
  destruct st; try (by apply Hrec). destruct (_ && _); [|by apply Hrec]. intros [= <-]. cbn [String.length]. lia.
Qed.

(** A token takes a byte at least. *)
Lemma rawToken_shorter s t close rest : rawToken s = Some (t, close, rest) -> (String.length rest < String.length s)%nat.
Proof.
  destruct s as [|c r]; [done|]. cbn [rawToken]. destruct (Ascii.eqb c "<") eqn:Ec; cbn [negb].
  2:{ destruct (xtext None false (String c r)) as [[d u]|] eqn:E; [|done]. intros [= <- <- <-]. by eapply xtext_tag_shorter. }
  destruct r as [|b t0]; [done|]. destruct (Ascii.eqb b "/").
  { destruct (nsname t0) as [[n u]|] eqn:En; [|done]. cbn [mbind option_bind]. apply nsname_shorter in En.
    destruct (CutPrefix (xspace u) ">") as [v|] eqn:E; [|done]. intros [= <- <- <-]. apply CutPrefix_shorter in E.
    pose proof (xspace_shorter u). cbn [String.length] in *. lia. }
  destruct (Ascii.eqb b "?").
  { unfold xprocinst. destruct (xname_text t0) as [[n u]|] eqn:En; [|done]. cbn [mbind option_bind]. apply xname_text_shorter in En.
    destruct (span_procinst _ _) as [[d v]|] eqn:E; [|done]. cbn [mbind option_bind]. apply span_procinst_shorter in E.
    pose proof (xspace_shorter u). destruct (_ && _); [done|]. intros [= <- <- <-]. cbn [String.length] in *. lia. }
  destruct (Ascii.eqb b "!").
  { destruct t0 as [|x t0]; [done|]. destruct (Ascii.eqb x "-"); [|destruct (Ascii.eqb x "[")].
    - destruct (CutPrefix t0 "-") as [u|] eqn:E; [|done]. cbn [mbind option_bind]. apply CutPrefix_shorter in E.
      destruct (xcomment _ _ u) as [v|] eqn:Ev; [|done]. intros [= <- <- <-]. apply xcomment_shorter in Ev. cbn [String.length] in *. lia.
    - destruct (CutPrefix t0 "CDATA[") as [u|] eqn:E; [|done]. cbn [mbind option_bind]. apply CutPrefix_shorter in E.
      destruct (xtext _ _ u) as [[d v]|] eqn:Ev; [|done]. intros [= <- <- <-]. apply xtext_shorter in Ev. cbn [String.length] in *. lia.
    - destruct (xdirective _ t0) as [v|] eqn:Ev; [|done]. intros [= <- <- <-]. apply xdirective_shorter in Ev. cbn [String.length] in *. lia. }
  destruct (nsname (String b t0)) as [[n u]|] eqn:En; [|done]. cbn [mbind option_bind]. apply nsname_shorter in En.
  destruct (xattrs _ u) as [[[l cl] v]|] eqn:Ea; [|done]. intros [= <- <- <-]. apply xattrs_shorter in Ea. cbn [String.length] in *. lia.
Qed.

Definition d_size (d : decoder) : nat := 2 * String.length (d_rest d) + (if d_close d then 1 else 0).

Lemma nextToken_smaller d t d' : nextToken d = Some (t, d') -> (d_size d' < d_size d)%nat.
Proof.
  destruct d as [rest close stack]. unfold nextToken, d_size. cbn [d_rest d_close d_stack]. destruct close as [n|].
  - cbn [mbind option_bind]. destruct stack as [|m stack]; [done|]. destruct (bool_decide _); [|done].
    intros [= <- <-]. cbn [d_rest d_close]. lia.
  - destruct (rawToken rest) as [[[t0 cl] r]|] eqn:E; [|done]. apply rawToken_shorter in E. cbn [mbind option_bind].
    destruct t0; try (destruct stack; [done|]; destruct (bool_decide _); [|done]);
      intros [= <- <-]; cbn [d_rest d_close]; try destruct cl; lia.
Qed.

Lemma unmarshal_loop_ends fields fuel m d log : (d_size d < fuel)%nat -> exists r, unmarshal_loop fuel fields m d log = Some r.
Proof.
  revert m d log. induction fuel as [|fuel IH]; intros m d log Hf; [lia|]. cbn [unmarshal_loop].
  destruct (nextToken d) as [[t d']|] eqn:E; [|by eexists]. apply nextToken_smaller in E.
  destruct (xmode_step fields m t) as [[m'|] a]; [|by eexists]. apply IH. lia.
Qed.

(** Decoding always ends. *)
Lemma xml_Unmarshal_total fields s : exists r, xml_Unmarshal fields s = Some r.
Proof. apply unmarshal_loop_ends. unfold d_size. cbn [d_rest d_close]. lia. Qed.

Lemma unmarshal_loop_more fields fuel fuel' m d log r :
  unmarshal_loop fuel fields m d log = Some r -> (fuel <= fuel')%nat -> unmarshal_loop fuel' fields m d log = Some r.
Proof.
  revert fuel' m d log. induction fuel as [|fuel IH]; intros [|fuel'] m d log E Hf; try done; [lia|].
  cbn [unmarshal_loop] in *. destruct (nextToken d) as [[t d']|]; [|done].
  destruct (xmode_step fields m t) as [[m'|] a]; [|done]. apply IH; [done|lia].
Qed.

End Ends.

(** ** Reading back what the encoder writes *)

Section ReadBack.
Context `{XmlTables}.

(** *** Names and text *)

(** Tags of letters and digits. *)
Definition tag_ok (n : string) : bool :=
  match n with String c _ => is_upper c || is_lower c | EmptyString => false end && sall is_alnum n.

Lemma alnum_name c : is_alnum c = true -> is_ascii7 c = true /\ isNameByte c = true /\ Ascii.eqb c ":" = false.
Proof.
  intros E. assert (implb (is_alnum c) (is_ascii7 c && isNameByte c && negb (Ascii.eqb c ":")) = true) as Hb by by_bytes c.
  rewrite E in Hb. by destruct (is_ascii7 c), (isNameByte c), (Ascii.eqb c ":").
Qed.

Lemma is_name_alnum n : sall is_alnum n = true -> is_name_go false 0 n = true.
Proof.
  induction n as [|c n IH]; [done|]. cbn [sall]. intros [Hc Hn]%andb_true_iff. cbn [is_name_go].
  destruct (alnum_name c Hc) as [Ha _]. assert (rune_width (String c n) = 1%nat) as ->.
  { unfold rune_width. unfold is_ascii7 in Ha. by rewrite Ha. }
  rewrite Ha, IH by done. unfold is_alnum in Hc. destruct (is_upper c); [done|]. destruct (is_lower c); [done|].
  cbn [orb] in *. by rewrite Hc, orb_true_r.
Qed.

Lemma span_name_alnum n c rest :
  sall is_alnum n = true -> is_ascii7 c && negb (isNameByte c) = true -> span_name (n +:+ String c rest) = (n, String c rest).
Proof.
  intros Hn Hc. induction n as [|d n IH]; [cbn [String.append span_name]; by rewrite Hc|].
  cbn [sall] in Hn. apply andb_true_iff in Hn as [Hd Hn]. cbn [String.append span_name].
  destruct (alnum_name d Hd) as (-> & -> & _). cbn [negb andb]. by rewrite IH.
Qed.

Lemma nsname_tag n c rest :
  tag_ok n = true -> is_ascii7 c && negb (isNameByte c) = true -> nsname (n +:+ String c rest) = Some (mkXname "" n, String c rest).
Proof.
  intros [Hf Hn]%andb_true_iff Hc. unfold nsname, xname_text. rewrite span_name_alnum by done.
  assert (isName n = true) as ->.
  { destruct n as [|d n]; [done|]. unfold isName. cbn [String.eqb negb andb is_name_go]. cbn [sall] in Hn.
    apply andb_true_iff in Hn as [Hd Hn]. destruct (alnum_name d Hd) as [Ha _].
    assert (rune_width (String d n) = 1%nat) as ->. { unfold rune_width, is_ascii7 in *. by rewrite Ha. }
    rewrite Ha, Hf. cbn [orb andb]. by apply is_name_alnum. }
  cbn [String.eqb negb andb mbind option_bind]. rewrite Split_free; [done|].
  revert Hn. apply sall_impl. intros d Hd. destruct (alnum_name d Hd) as (_ & _ & He).
  rewrite Ascii.eqb_sym. by rewrite He.
Qed.

Lemma text_go_skip quote b0 b1 p rest :
  text_go quote false b0 b1 (String.length p) (p +:+ rest) = text_go quote false b0 b1 0 rest.
Proof. induction p as [|c p IH]; [done|]. cbn [String.length String.append text_go]. exact IH. Qed.

Lemma char_ref_entity c e : entity c = Some e ->
  exists p, e = String "&" p /\ forall rest, char_ref (p +:+ rest) = Some (String c "", rest).
Proof.
  unfold entity. intros E. assert (c = chr (code c)) as Hc by (symmetry; apply chr_code).
  destruct (code c) as [|p]; [done|].
  repeat (destruct p as [p|p|]; try done); injection E as <-; rewrite Hc; eexists; (split; [reflexivity|]); intros rest; reflexivity.
Qed.

(** A byte the escaper leaves stands for itself in text. *)
Lemma text_go_plain quote b0 b1 c r :
  quote = None \/ quote = Some dq -> entity c = None ->
  text_go quote false b0 b1 0 (String c r) = prepend (String c "") (text_go quote false b1 c 0 r).
Proof.
  intros Hq He. assert ((match entity c with Some _ => true | None =>
    negb (Ascii.eqb c ">") && negb (Ascii.eqb c "<") && negb (Ascii.eqb c dq) && negb (Ascii.eqb c "&")
    && negb (Ascii.eqb c (chr 13)) && negb (Ascii.eqb c (chr 10)) end) = true) as Hb by by_bytes c.
  rewrite He in Hb. cbn [text_go].
  destruct (Ascii.eqb c ">"), (Ascii.eqb c "<"), (Ascii.eqb c dq) eqn:Ed, (Ascii.eqb c "&"), (Ascii.eqb c (chr 13)), (Ascii.eqb c (chr 10));
    try discriminate Hb; clear Hb.
  destruct Hq as [-> | ->]; rewrite ?Ed, ?andb_false_r; done.
Qed.

(** Where text ends. *)
Definition text_stop (quote : option ascii) (stop rest : string) : Prop :=
  forall b0 b1, text_go quote false b0 b1 0 stop = Some ("", rest).

Lemma text_stop_tag rest : text_stop None (String "<" rest) (String "<" rest).
Proof. intros b0 b1. cbn [text_go]. by rewrite andb_false_r. Qed.

Lemma text_stop_quote rest : text_stop (Some dq) (String dq rest) rest.
Proof. intros b0 b1. reflexivity. Qed.

Lemma text_go_escape quote stop rest s skip b0 b1 :
  quote = None \/ quote = Some dq -> text_stop quote stop rest -> conts skip s = true -> xml_text_go s skip = true ->
  text_go quote false b0 b1 0 (escape_go s skip true +:+ stop) = Some (s, rest).
Proof.
  intros Hq Hs. revert skip b0 b1. induction s as [|c r IH]; intros skip b0 b1 Hc Hx; [apply Hs|].
  cbn [escape_go xml_text_go] in *. destruct skip as [|k].
  - destruct (rune_width (String c r)) as [|w] eqn:Ew; [done|]. apply andb_true_iff in Hx as [Ho Hx]. apply negb_true_iff in Ho.
    destruct (entity c) as [e|] eqn:Ee.
    + rewrite (entity_ascii _ _ _ Ee) in Ew. injection Ew as <-. destruct (char_ref_entity c e Ee) as (p & -> & Hp).
      cbn [String.append]. rewrite sapp_assoc. cbn [text_go]. rewrite !andb_false_r.
      assert ((match quote with Some q => Ascii.eqb "&" q | None => false end) = false) as -> by (destruct Hq as [-> | ->]; done).
      cbn [Ascii.eqb Bool.eqb negb andb]. rewrite Hp, slength_app, Nat.add_sub, text_go_skip, IH by done. done.
    + rewrite Ho. cbn [String.append]. rewrite text_go_plain by done. rewrite IH; [done|by eapply rune_width_conts|done].
  - cbn [conts] in Hc. apply andb_true_iff in Hc as [H1 H2]. cbn [String.append].
    assert (entity c = None) as He.
    { assert (implb (is_cont c) (match entity c with None => true | _ => false end) = true) as Hb by by_bytes c.
      rewrite H1 in Hb. by destruct (entity c). }
    rewrite text_go_plain by done. by rewrite IH.
Qed.

Lemma xtext_escape quote stop rest s :
  quote = None \/ quote = Some dq -> text_stop quote stop rest -> xml_text s = true ->
  xtext quote false (EscapeString s +:+ stop) = Some (s, rest).
Proof. intros Hq Hs Hx. unfold xtext, EscapeString. rewrite (text_go_escape quote stop rest) by done. cbn [mbind option_bind]. by rewrite Hx. Qed.

(** Indentation. *)
Definition is_indent (c : ascii) : bool := Ascii.eqb c " " || Ascii.eqb c (chr 10).

Lemma text_go_indent ws rest b0 b1 : sall is_indent ws = true -> Ascii.eqb b1 (chr 13) = false ->
  text_go None false b0 b1 0 (ws +:+ String "<" rest) = Some (ws, String "<" rest).
Proof.
  revert b0 b1. induction ws as [|c ws IH]; intros b0 b1 Hw Hb; [apply text_stop_tag|].
  cbn [sall] in Hw. apply andb_true_iff in Hw as [Hc Hw]. cbn [String.append].
  apply orb_true_iff in Hc as [E|E]; apply Ascii.eqb_eq in E as ->.
  - rewrite text_go_plain by auto. by rewrite IH.
  - assert (text_go None false b0 b1 0 (String (chr 10) (ws +:+ String "<" rest))
            = prepend nl (text_go None false b1 (chr 10) 0 (ws +:+ String "<" rest))) as ->; [|by rewrite IH].
    cbn [text_go]. change (Ascii.eqb (chr 10) ">") with false. change (Ascii.eqb (chr 10) "<") with false.
    change (Ascii.eqb (chr 10) "&") with false. change (Ascii.eqb (chr 10) (chr 13)) with false.
    rewrite Hb, !andb_false_r. done.
Qed.

Lemma xml_text_indent ws : sall is_indent ws = true -> xml_text ws = true.
Proof.
  unfold xml_text. induction ws as [|c ws IH]; [done|]. cbn [sall]. intros [Hc Hw]%andb_true_iff. cbn [xml_text_go].
  apply orb_true_iff in Hc as [E|E]; apply Ascii.eqb_eq in E as ->;
    (assert (forall d r, (code d <? 128)%N = true -> rune_width (String d r) = 1%nat) as -> by (intros ? ? Hd; unfold rune_width; by rewrite Hd);
     [|done]); rewrite IH by done; (assert (outside_xml_range _ = false) as ->; [|done]); by destruct ws as [|? [|? ?]].
Qed.

(** *** Tokens *)

Definition attr_ok (a : string * string) : bool := tag_ok a.1 && xml_text a.2.

Lemma xattrs_render attrs rest fuel :
  forallb attr_ok attrs = true -> (length attrs < fuel)%nat ->
  xattrs fuel (String.concat "" (map render_attr attrs) +:+ String ">" rest)
  = Some (map (fun a => (mkXname "" a.1, a.2)) attrs, false, rest).
Proof.
  revert fuel. induction attrs as [|[n v] attrs IH]; intros fuel Hok Hf; (destruct fuel as [|fuel]; [cbn in Hf; lia|]); [done|].
  cbn [forallb] in Hok. apply andb_true_iff in Hok as [[Hn Hv]%andb_true_iff Hok]. cbn [fst snd] in *.
  assert (String.concat "" (map render_attr ((n, v) :: attrs)) = render_attr (n, v) +:+ String.concat "" (map render_attr attrs)) as ->.
  { cbn [map String.concat]. destruct (map render_attr attrs); [by rewrite sapp_nil_r|done]. }
  unfold render_attr at 1. unfold quote_char. fold dq. cbn [fst snd]. rewrite !sapp_assoc. cbn [String.append xattrs xspace].
  change (is_xml_space " ") with true. cbn iota.
  set (R := String.concat "" (map render_attr attrs) +:+ String ">" rest) in *.
  assert (exists c r, n = String c r /\ is_xml_space c = false /\ Ascii.eqb c "/" = false /\ Ascii.eqb c ">" = false) as (c & r & En & Hsp & Hsl & Hgt).
  { destruct n as [|c r]; [done|]. apply andb_true_iff in Hn as [Hc _]. exists c, r. split; [done|].
    assert (implb (is_upper c || is_lower c) (negb (is_xml_space c) && negb (Ascii.eqb c "/") && negb (Ascii.eqb c ">")) = true) as Hb by by_bytes c.
    rewrite Hc in Hb. by destruct (is_xml_space c), (Ascii.eqb c "/"), (Ascii.eqb c ">"). }
  assert (xspace (n +:+ String "=" (String dq (EscapeString v +:+ String dq R))) = n +:+ String "=" (String dq (EscapeString v +:+ String dq R))) as Hx.
  { rewrite En. cbn [String.append xspace]. by rewrite Hsp. }
  rewrite Hx.
  pose proof (nsname_tag n "=" (String dq (EscapeString v +:+ String dq R)) Hn ltac:(done)) as Hns.
  rewrite En in Hns |- *. cbn [String.append] in Hns |- *. rewrite Hsl, Hgt, Hns. cbn [mbind option_bind].
  change (xspace (String "=" (String dq (EscapeString v +:+ String dq R)))) with (String "=" (String dq (EscapeString v +:+ String dq R))).
  change (CutPrefix (String "=" (String dq (EscapeString v +:+ String dq R))) "=") with (Some (String dq (EscapeString v +:+ String dq R))).
  cbn [mbind option_bind xspace]. change (is_xml_space dq) with false. cbn iota. rewrite Ascii.eqb_refl. cbn [orb].
  rewrite (xtext_escape (Some dq) (String dq R) R) by (auto using text_stop_quote). cbn [mbind option_bind].
  unfold R. rewrite IH by (done || cbn [length] in Hf; lia). done.
Qed.

Lemma concat_attrs_length attrs : forallb attr_ok attrs = true ->
  (length attrs <= String.length (String.concat "" (map render_attr attrs)))%nat.
Proof.
  induction attrs as [|a attrs IH]; [cbn; lia|]. cbn [forallb]. intros [_ Hok]%andb_true_iff.
  assert (String.concat "" (map render_attr (a :: attrs)) = render_attr a +:+ String.concat "" (map render_attr attrs)) as ->.
  { cbn [map String.concat]. destruct (map render_attr attrs); [by rewrite sapp_nil_r|done]. }
  rewrite slength_app. unfold render_attr at 1. rewrite !slength_app. specialize (IH Hok). cbn [length String.length]. lia.
Qed.

Lemma rawToken_start tag attrs rest :
  tag_ok tag = true -> forallb attr_ok attrs = true ->
  rawToken ("<" +:+ tag +:+ String.concat "" (map render_attr attrs) +:+ ">" +:+ rest)
  = Some (TStart (mkXname "" tag) (map (fun a => (mkXname "" a.1, a.2)) attrs), false, rest).
Proof.
  intros Ht Ha. cbn [String.append]. set (T := String.concat "" (map render_attr attrs) +:+ String ">" rest).
  assert (exists c r, tag = String c r /\ Ascii.eqb c "/" = false /\ Ascii.eqb c "?" = false /\ Ascii.eqb c "!" = false) as (c & r & En & Hs & Hq & He).
  { destruct tag as [|c r]; [done|]. apply andb_true_iff in Ht as [Hc _]. exists c, r. split; [done|].
    assert (implb (is_upper c || is_lower c) (negb (Ascii.eqb c "/") && negb (Ascii.eqb c "?") && negb (Ascii.eqb c "!")) = true) as Hb by by_bytes c.
    rewrite Hc in Hb. by destruct (Ascii.eqb c "/"), (Ascii.eqb c "?"), (Ascii.eqb c "!"). }
  assert (exists d t, T = String d t /\ is_ascii7 d && negb (isNameByte d) = true) as (d & t & ET & Hd).
  { subst T. destruct attrs as [|a attrs]; [do 2 eexists; split; reflexivity|].
    cbn [map String.concat]. destruct (map render_attr attrs); do 2 eexists; split; reflexivity. }
  pose proof (nsname_tag tag d t Ht Hd) as Hn. rewrite <- ET in Hn. rewrite En in Hn |- *. cbn [String.append rawToken] in *.
  rewrite Ascii.eqb_refl, Hs, Hq, He, Hn. cbn [negb mbind option_bind].
  subst T. rewrite xattrs_render; [done..|]. rewrite slength_app. pose proof (concat_attrs_length attrs Ha). cbn [String.length]. lia.
Qed.

Lemma rawToken_end tag rest : tag_ok tag = true -> rawToken ("</" +:+ tag +:+ ">" +:+ rest) = Some (TEnd (mkXname "" tag), false, rest).
Proof.
  intros Ht. cbn [String.append rawToken]. rewrite !Ascii.eqb_refl. cbn [negb].
  rewrite (nsname_tag tag ">" rest Ht) by done. cbn [mbind option_bind xspace]. change (is_xml_space ">") with false. cbn iota.
  change (CutPrefix (String ">" rest) ">") with (Some rest). done.
Qed.

Lemma rawToken_text s rest : s <> "" -> xml_text s = true ->
  rawToken (EscapeString s +:+ String "<" rest) = Some (TText s, false, String "<" rest).
Proof.
  intros Hs Hx. pose proof (xtext_escape None _ _ s (or_introl eq_refl) (text_stop_tag rest) Hx) as Ht.
  pose proof (EscapeString_inert s) as Hi. destruct (EscapeString s) as [|c e] eqn:E.
  - cbn in Ht. injection Ht as Ht. by symmetry in Ht.
  - cbn [sall] in Hi. apply andb_true_iff in Hi as [Hc _]. cbn [String.append rawToken] in *. rewrite Ht.
    assert (Ascii.eqb c "<" = false) as ->; [|done].
    unfold is_markup in Hc. by destruct (Ascii.eqb c "<").
Qed.

Lemma rawToken_indent ws rest : ws <> "" -> sall is_indent ws = true ->
  rawToken (ws +:+ String "<" rest) = Some (TText ws, false, String "<" rest).
Proof.
  intros Hs Hi. assert (xtext None false (ws +:+ String "<" rest) = Some (ws, String "<" rest)) as Ht.
  { unfold xtext. rewrite text_go_indent by done. cbn [mbind option_bind]. by rewrite xml_text_indent. }
  destruct ws as [|c ws]; [done|]. cbn [sall] in Hi. apply andb_true_iff in Hi as [Hc _].
  cbn [String.append rawToken] in *. rewrite Ht. assert (Ascii.eqb c "<" = false) as ->; [|done].
  by apply orb_true_iff in Hc as [E|E]; apply Ascii.eqb_eq in E as ->.
Qed.

Lemma rawToken_header rest : rawToken (xml_header +:+ rest) = Some (TOther, false, nl +:+ rest).
Proof. reflexivity. Qed.

(** *** Trees *)

Fixpoint xnode_ok (x : xnode) : bool :=
  match x with
  | Leaf tag text => tag_ok tag && xml_text text
  | Node tag attrs kids => tag_ok tag && forallb attr_ok attrs && forallb xnode_ok kids
  end.

(** The fields a tree holds, below the elements of [ps]. *)
Fixpoint held_fields (fields : list xfield) (ps : list string) (x : xnode) : list (xfield * string) :=
  match x with
  | Leaf tag text => match match_path fields ps tag with Exact f => [(f, text)] | _ => [] end
  | Node tag _ kids =>
      match match_path fields ps tag with
      | Prefix => flat_map (held_fields fields (ps ++ [tag])) kids
      | _ => []
      end
  end.

(** Fields are leaves, and no leaf stands where a field's parent is expected. *)
Fixpoint placed (fields : list xfield) (ps : list string) (x : xnode) : bool :=
  match x with
  | Leaf tag _ => match match_path fields ps tag with Prefix => false | _ => true end
  | Node tag _ kids =>
      match match_path fields ps tag with
      | Exact _ => false
      | Prefix => forallb (placed fields (ps ++ [tag])) kids
      | Unknown => true
      end
  end.

Section Deep.
Context (P : xnode -> Prop) (Hleaf : forall tag text, P (Leaf tag text))
  (Hnode : forall tag attrs kids, Forall P kids -> P (Node tag attrs kids)).

Fixpoint xnode_deep (x : xnode) : P x :=
  match x with
  | Leaf tag text => Hleaf tag text
  | Node tag attrs kids =>
      Hnode tag attrs kids
        (list_rect (Forall P) (Forall_nil_2 _) (fun k l IH => Forall_cons_2 _ _ _ (xnode_deep k) IH) kids)
  end.

End Deep.

(** A configuration leads to another in some number of tokens. *)
Definition leads (fields : list xfield) (m : xmode) (d : decoder) (log : list (xfield * string))
    (m' : xmode) (d' : decoder) (log' : list (xfield * string)) : Prop :=
  exists k, forall fuel, unmarshal_loop (k + fuel) fields m d log = unmarshal_loop fuel fields m' d' log'.

Lemma leads_refl fields m d log : leads fields m d log m d log.
Proof. by exists O. Qed.

Lemma leads_trans fields m d log m' d' log' m'' d'' log'' :
  leads fields m d log m' d' log' -> leads fields m' d' log' m'' d'' log'' -> leads fields m d log m'' d'' log''.
Proof. intros [k Hk] [j Hj]. exists (k + j)%nat. intros fuel. by rewrite <- Nat.add_assoc, Hk, Hj. Qed.

Lemma leads_token fields m d log t d' m' a :
  nextToken d = Some (t, d') -> xmode_step fields m t = (Some m', a) -> leads fields m d log m' d' (log ++ option_list a).
Proof. intros Ht Hs. exists 1%nat. intros fuel. cbn [Nat.add unmarshal_loop]. by rewrite Ht, Hs. Qed.

Lemma leads_silent fields m d log t d' m' :
  nextToken d = Some (t, d') -> xmode_step fields m t = (Some m', None) -> leads fields m d log m' d' log.
Proof. intros Ht Hs. rewrite <- (app_nil_r log) at 2. by apply (leads_token _ _ _ _ t _ _ None). Qed.

(** The next token, spelled out. *)
Lemma nextToken_start tag attrs rest stk :
  tag_ok tag = true -> forallb attr_ok attrs = true ->
  nextToken (mkDecoder ("<" +:+ tag +:+ String.concat "" (map render_attr attrs) +:+ ">" +:+ rest) None stk)
  = Some (TStart (mkXname "" tag) (map (fun a => (mkXname "" a.1, a.2)) attrs), mkDecoder rest None (mkXname "" tag :: stk)).
Proof. intros Ht Ha. unfold nextToken. cbn [d_close d_rest d_stack]. by rewrite rawToken_start. Qed.

Lemma nextToken_end tag rest stk : tag_ok tag = true ->
  nextToken (mkDecoder ("</" +:+ tag +:+ ">" +:+ rest) None (mkXname "" tag :: stk))
  = Some (TEnd (mkXname "" tag), mkDecoder rest None stk).
Proof.
  intros Ht. unfold nextToken. cbn [d_close d_rest d_stack]. rewrite rawToken_end by done. cbn [mbind option_bind].
  by rewrite bool_decide_eq_true_2.
Qed.

(** Modes in which text is passed over. *)
Definition quiet_mode (m : xmode) : Prop := forall fields d, xmode_step fields m (TText d) = (Some m, None).

Lemma leads_indent fields m ws rest stk log :
  quiet_mode m -> sall is_indent ws = true ->
  leads fields m (mkDecoder (ws +:+ String "<" rest) None stk) log m (mkDecoder (String "<" rest) None stk) log.
Proof.
  intros Hm Hi. destruct ws as [|c ws]; [apply leads_refl|].
  eapply (leads_silent _ _ _ _ (TText (String c ws))); [|apply Hm].
  unfold nextToken. cbn [d_close d_rest d_stack]. by rewrite rawToken_indent.
Qed.

Lemma sall_indent depth : sall is_indent (indent depth) = true.
Proof. induction depth as [|d IH]; [done|]. cbn [indent]. rewrite sall_app. by rewrite IH. Qed.

Lemma render_start depth x : exists r, render depth x = indent depth +:+ String "<" r.
Proof. destruct x; cbn [render String.append]; by eexists. Qed.

(** Passing an element: what it assigns when met in mode [m]. *)
Definition passes (fields : list xfield) (m : xmode) (x : xnode) (assigned : list (xfield * string)) : Prop :=
  forall ws depth rest stk log, sall is_indent ws = true ->
    leads fields m (mkDecoder (ws +:+ render depth x +:+ rest) None stk) log m (mkDecoder rest None stk) (log ++ assigned).

Lemma leads_kids fields m kids (E : xnode -> list (xfield * string)) depth rest stk log :
  Forall (fun k => passes fields m k (E k)) kids ->
  leads fields m (mkDecoder (String.concat "" (map (fun k => nl +:+ render depth k) kids) +:+ rest) None stk) log
    m (mkDecoder rest None stk) (log ++ flat_map E kids).
Proof.
  intros Hk. revert log. induction Hk as [|k kids Hk Hks IH]; intros log; [rewrite app_nil_r; apply leads_refl|].
  assert (String.concat "" (map (fun k => nl +:+ render depth k) (k :: kids))
          = (nl +:+ render depth k) +:+ String.concat "" (map (fun k => nl +:+ render depth k) kids)) as ->.
  { cbn [map String.concat]. destruct (map _ kids); [by rewrite sapp_nil_r|done]. }
  rewrite !sapp_assoc. cbn [flat_map]. rewrite app_assoc.
  eapply leads_trans; [apply (Hk nl); done|apply IH].
Qed.

(** An element with children, entered in mode [m] and read in mode [m1]. *)
Lemma node_passes fields m m1 tag attrs kids E :
  quiet_mode m -> quiet_mode m1 -> tag_ok tag = true -> forallb attr_ok attrs = true ->
  (forall l, xmode_step fields m (TStart (mkXname "" tag) l) = (Some m1, None)) ->
  xmode_step fields m1 (TEnd (mkXname "" tag)) = (Some m, None) ->
  Forall (fun k => passes fields m1 k (E k)) kids ->
  passes fields m (Node tag attrs kids) (flat_map E kids).
Proof.
  intros Hm Hm1 Ht Ha Hs He Hk ws depth rest stk log Hw. cbn [render]. rewrite !sapp_assoc.
  rewrite <- (sapp_assoc ws (indent depth)).
  eapply leads_trans; [apply leads_indent; [done|by rewrite sall_app, Hw, sall_indent]|].
  eapply leads_trans; [eapply leads_silent; [by apply nextToken_start|apply Hs]|].
  eapply leads_trans; [apply leads_kids; exact Hk|].
  eapply leads_trans.
  - destruct kids as [|k kids]; [apply leads_refl|]. rewrite sapp_assoc. rewrite <- (sapp_assoc nl).
    apply (leads_indent _ _ (nl +:+ indent depth)); [done|by rewrite sall_app, sall_indent].
  - destruct kids; (eapply leads_silent; [by apply nextToken_end|exact He]).
Qed.

(** A leaf entered in mode [m], its text read in mode [m1], left in mode [m2]. *)
Lemma leaf_passes fields m m1 m2 a tag text :
  quiet_mode m -> tag_ok tag = true -> xml_text text = true ->
  (forall l, xmode_step fields m (TStart (mkXname "" tag) l) = (Some m1, None)) ->
  (if text =s "" then m1 = m2 else xmode_step fields m1 (TText text) = (Some m2, None)) ->
  xmode_step fields m2 (TEnd (mkXname "" tag)) = (Some m, a) ->
  passes fields m (Leaf tag text) (option_list a).
Proof.
  intros Hm Ht Hx Hs Htx He ws depth rest stk log Hw. cbn [render]. rewrite !sapp_assoc.
  rewrite <- (sapp_assoc ws (indent depth)).
  eapply leads_trans; [apply leads_indent; [done|by rewrite sall_app, Hw, sall_indent]|].
  eapply leads_trans; [eapply leads_silent; [by apply (nextToken_start tag [])|apply Hs]|].
  eapply leads_trans; [|eapply leads_token; [by apply nextToken_end|exact He]].
  destruct (seqb_spec text "") as [->|Hne]; [subst m2; apply leads_refl|].
  eapply (leads_silent _ _ _ _ (TText text)); [|exact Htx].
  unfold nextToken. cbn [d_close d_rest d_stack]. change ("</" +:+ tag +:+ ">" +:+ rest) with (String "<" ("/" +:+ tag +:+ ">" +:+ rest)).
  by rewrite rawToken_text.
Qed.

Lemma skip_passes fields ps n x : xnode_ok x = true -> passes fields (Skip ps n) x [].
Proof.
  revert n. induction x as [tag text|tag attrs kids IH] using xnode_deep; intros n Hok; cbn [xnode_ok] in Hok.
  - apply andb_true_iff in Hok as [Ht Hx].
    apply (leaf_passes fields (Skip ps n) (Skip ps (S n)) (Skip ps (S n)) None); try done. by destruct (text =s "").
  - apply andb_true_iff in Hok as [[Ht Ha]%andb_true_iff Hk].
    assert (passes fields (Skip ps n) (Node tag attrs kids) (flat_map (fun _ => []) kids)) as Hp.
    { apply (node_passes fields (Skip ps n) (Skip ps (S n))); try done. apply Forall_forall. intros k Hin.
      eapply Forall_forall in IH; [|exact Hin]. apply IH. eapply forallb_forall in Hk; [exact Hk|]. by apply list_elem_of_In. }
    assert (flat_map (fun _ : xnode => @nil (xfield * string)) kids = []) as E by (clear; induction kids; done).
    by rewrite E in Hp.
Qed.

(** What a tree assigns is what it holds. *)
Lemma inside_passes fields x : xnode_ok x = true -> forall ps, placed fields ps x = true ->
  passes fields (Inside ps) x (held_fields fields ps x).
Proof.
  induction x as [tag text|tag attrs kids IH] using xnode_deep; intros Hok ps Hp; cbn [xnode_ok placed held_fields] in *.
  - apply andb_true_iff in Hok as [Ht Hx]. destruct (match_path fields ps tag) as [f| |] eqn:E; [|done|].
    + apply (leaf_passes fields (Inside ps) (InField ps f "" 0) (InField ps f text 0) (Some (f, text))); try done.
      * intros l. cbn [xmode_step x_local]. by rewrite E.
      * by destruct (seqb_spec text "") as [->|].
    + apply (leaf_passes fields (Inside ps) (Skip ps 0) (Skip ps 0) None); try done.
      * intros l. cbn [xmode_step x_local]. by rewrite E.
      * by destruct (text =s "").
  - apply andb_true_iff in Hok as [[Ht Ha]%andb_true_iff Hk].
    assert (forall k, k ∈ kids -> xnode_ok k = true) as Hko.
    { intros k Hin. eapply forallb_forall in Hk; [exact Hk|]. by apply list_elem_of_In. }
    destruct (match_path fields ps tag) as [f| |] eqn:E; [done| |].
    + apply (node_passes fields (Inside ps) (Inside (ps ++ [tag]))); try done.
      * intros l. cbn [xmode_step x_local]. by rewrite E.
      * pose proof (removelast_last ps tag) as Hr. destruct (ps ++ [tag]) eqn:El; [by destruct ps|]. cbn [xmode_step]. by rewrite Hr.
      * apply Forall_forall. intros k Hin. eapply Forall_forall in IH; [|exact Hin]. apply IH; [by apply Hko|].
        eapply forallb_forall in Hp; [exact Hp|]. by apply list_elem_of_In.
    + assert (passes fields (Inside ps) (Node tag attrs kids) (flat_map (fun _ => []) kids)) as Hs.
      { apply (node_passes fields (Inside ps) (Skip ps 0)); try done; [intros l; cbn [xmode_step x_local]; by rewrite E|].
        apply Forall_forall. intros k Hin. by apply skip_passes, Hko. }
      assert (flat_map (fun _ : xnode => @nil (xfield * string)) kids = []) as En by (clear; induction kids; done).
      by rewrite En in Hs.
Qed.

(** Decoding a document the encoder wrote. *)
Lemma Unmarshal_document fields tag attrs kids :
  xnode_ok (Node tag attrs kids) = true -> forallb (placed fields []) kids = true ->
  xml_Unmarshal fields (document (Node tag attrs kids)) = Some (flat_map (held_fields fields []) kids, true).
Proof.
  intros Hok Hp. cbn [xnode_ok] in Hok. apply andb_true_iff in Hok as [[Ht Ha]%andb_true_iff Hk].
  set (doc := document (Node tag attrs kids)).
  assert (exists n, unmarshal_loop n fields Search (mkDecoder doc None []) [] = Some (flat_map (held_fields fields []) kids, true)) as [n Hn].
  { assert (exists close, leads fields Search (mkDecoder doc None []) [] (Inside []) (mkDecoder ("</" +:+ tag +:+ ">" +:+ close) None [mkXname "" tag]) ([] ++ flat_map (held_fields fields []) kids)) as (close & k & Hl).
    { exists nl. unfold doc, document. cbn [render indent]. rewrite !sapp_assoc.
      eapply leads_trans; [eapply (leads_silent _ _ _ [] TOther _ Search); [unfold nextToken; cbn [d_close d_rest d_stack]; by rewrite rawToken_header|done]|].
      eapply leads_trans; [apply (leads_indent _ Search nl); done|].
      eapply leads_trans; [eapply leads_silent; [by apply nextToken_start|done]|].
      eapply leads_trans; [apply (leads_kids _ _ _ (held_fields fields []))|].
      - apply Forall_forall. intros x Hin. apply inside_passes.
        + eapply forallb_forall in Hk; [exact Hk|]. by apply list_elem_of_In.
        + eapply forallb_forall in Hp; [exact Hp|]. by apply list_elem_of_In.
      - destruct kids as [|x kids]; [apply leads_refl|]. apply (leads_indent _ (Inside []) nl); done. }
    exists (k + 1)%nat. rewrite Hl. cbn [unmarshal_loop]. rewrite nextToken_end by done. cbn [xmode_step option_list]. by rewrite app_nil_r. }
  unfold xml_Unmarshal. destruct (xml_Unmarshal_total fields doc) as [r Hr]. unfold xml_Unmarshal in Hr. fold doc. rewrite Hr.
  apply (unmarshal_loop_more _ _ (n + S (2 * String.length doc))) in Hr; [|lia].
  apply (unmarshal_loop_more _ _ (n + S (2 * String.length doc))) in Hn; [|lia]. congruence.
Qed.

End ReadBack.

(** ** Text the encoder repairs *)

(** The text a reader gets: runes that are not well formed or that XML does not
    admit have become U+FFFD. *)
Fixpoint clean_go (s : string) (skip : nat) (keep : bool) : string :=
  match s with
  | EmptyString => EmptyString
  | String c r =>
      match skip with
      | S k => if keep then String c (clean_go r k keep) else clean_go r k keep
      | O =>
          match rune_width s with
          | O => replacement +:+ clean_go r 0 true
          | S w =>
              if outside_xml_range s then replacement +:+ clean_go r w false
              else String c (clean_go r w true)
          end
      end
  end.

Definition clean (s : string) : string := clean_go s 0 true.

Lemma stake_clean w r : stake w (clean_go r w true) = stake w r.
Proof. revert r. induction w as [|w IH]; intros [|c r]; try done; cbn [clean_go stake]; by rewrite IH. Qed.

(** Whether a rune is admitted depends on its own bytes only. *)
Lemma outside_stake c r w r' :
  rune_width (String c r) = S w -> stake w r' = stake w r -> outside_xml_range (String c r') = outside_xml_range (String c r).
Proof.
  intros Hw Hs. unfold outside_xml_range. f_equal. destruct (N.eqb_spec (code c) 239) as [E|E].
  - assert (w = 2%nat) as ->.
    { unfold rune_width, between in Hw. rewrite E in Hw. destruct r as [|b [|d r]]; try done. cbn -[is_cont] in Hw.
      destruct (is_cont b && is_cont d); [congruence|done]. }
    assert (conts 2 r = true) as Hc by by eapply rune_width_conts.
    destruct r as [|b [|d r]]; try done; [cbn in Hc; by rewrite andb_false_r in Hc|]. destruct r' as [|b' [|d' r']]; try done.
    by injection Hs as -> ->.
  - cbn [andb]. by destruct r as [|? [|? ?]], r' as [|? [|? ?]].
Qed.

Lemma rune_width_clean c r w : rune_width (String c r) = S w ->
  rune_width (String c (clean_go r w true)) = S w /\ outside_xml_range (String c (clean_go r w true)) = outside_xml_range (String c r).
Proof. intros Hw. pose proof (stake_clean w r). split; [by eapply rune_width_stake|by eapply outside_stake]. Qed.

Lemma entity_admitted c e r : entity c = Some e -> outside_xml_range (String c r) = false.
Proof.
  intros E. assert ((match entity c with Some _ => (code c <? 32)%N && negb ((code c =? 9) || (code c =? 10) || (code c =? 13))%N || (code c =? 239)%N | None => false end) = false)
    as Hb by (apply negb_true_iff; by_bytes c).
  rewrite E in Hb. apply orb_false_iff in Hb as [H1 H2]. unfold outside_xml_range. rewrite H1, H2. by destruct r as [|? [|? ?]].
Qed.

Lemma escape_replacement s : escape_go (replacement +:+ s) 0 true = replacement +:+ escape_go s 0 true.
Proof. reflexivity. Qed.

Lemma xml_text_replacement s : xml_text_go (replacement +:+ s) 0 = xml_text_go s 0.
Proof. reflexivity. Qed.

(** The escaper writes the same for the cleaned text, which is XML text. *)
Lemma clean_go_spec s skip :
  (escape_go (clean_go s skip true) skip true = escape_go s skip true /\ (conts skip s = true -> xml_text_go (clean_go s skip true) skip = true)) /\
  (escape_go (clean_go s skip false) 0 true = escape_go s skip false /\ xml_text_go (clean_go s skip false) 0 = true).
Proof.
  revert skip. induction s as [|c r IH]; intros skip; [by destruct skip|].
  destruct skip as [|k].
  - assert (escape_go (clean_go (String c r) 0 true) 0 true = escape_go (String c r) 0 true /\ xml_text_go (clean_go (String c r) 0 true) 0 = true) as [E1 E2].
    { cbn [clean_go]. destruct (rune_width (String c r)) as [|w] eqn:Ew.
      - assert (entity c = None) as Hn by (destruct (entity c) eqn:Ee; [by rewrite (entity_ascii _ _ _ Ee) in Ew|done]).
        destruct (IH 0%nat) as [[I1 I2] _]. rewrite escape_replacement, xml_text_replacement, I1. split; [cbn [escape_go]; by rewrite Hn, Ew|by apply I2].
      - destruct (outside_xml_range (String c r)) eqn:Eo.
        + assert (entity c = None) as Hn by (destruct (entity c) eqn:Ee; [by rewrite (entity_admitted _ _ _ Ee) in Eo|done]).
          destruct (IH w) as [_ [I1 I2]]. rewrite escape_replacement, xml_text_replacement, I1. split; [cbn [escape_go]; by rewrite Hn, Ew, Eo|done].
        + destruct (rune_width_clean _ _ _ Ew) as [Hw Ho]. destruct (IH w) as [[I1 I2] _].
          cbn [escape_go xml_text_go]. rewrite Hw, Ew, Ho, Eo, I1. split; [|apply I2; by eapply rune_width_conts].
          destruct (entity c) as [e|] eqn:Ee; [|done]. rewrite (entity_ascii _ _ _ Ee) in Ew. injection Ew as <-. by rewrite I1. }
    assert (clean_go (String c r) 0 false = clean_go (String c r) 0 true) as -> by done.
    assert (escape_go (String c r) 0 false = escape_go (String c r) 0 true) as -> by done. done.
  - destruct (IH k) as [[I1 I2] [J1 J2]]. cbn [clean_go escape_go xml_text_go conts]. rewrite I1. split; [|done].
    split; [done|]. intros [_ Hc]%andb_true_iff. by apply I2.
Qed.

Lemma Escape_clean s : EscapeString (clean s) = EscapeString s.
Proof. apply (proj1 (clean_go_spec s 0)). Qed.

Lemma xml_text_clean s : xml_text (clean s) = true.
Proof. by apply (proj1 (clean_go_spec s 0)). Qed.

Lemma clean_go_id s skip : xml_text_go s skip = true -> clean_go s skip true = s.
Proof.
  revert skip. induction s as [|c r IH]; intros [|k] Hx; try done; cbn [clean_go xml_text_go] in *.
  - destruct (rune_width (String c r)) as [|w]; [done|]. apply andb_true_iff in Hx as [->%negb_true_iff Hx]. by rewrite IH.
  - by rewrite IH.
Qed.

Lemma clean_id s : xml_text s = true -> clean s = s.
Proof. apply clean_go_id. Qed.

(** Trees with the texts a reader gets. *)
Fixpoint xclean (x : xnode) : xnode :=
  match x with
  | Leaf tag text => Leaf tag (clean text)
  | Node tag attrs kids => Node tag (map (fun a => (a.1, clean a.2)) attrs) (map xclean kids)
  end.

Fixpoint tags_ok (x : xnode) : bool :=
  match x with
  | Leaf tag _ => tag_ok tag
  | Node tag attrs kids => tag_ok tag && forallb (fun a => tag_ok a.1) attrs && forallb tags_ok kids
  end.

Lemma render_clean depth x : render depth (xclean x) = render depth x.
Proof.
  revert depth. induction x as [tag text|tag attrs kids IH] using xnode_deep; intros depth; cbn [xclean render]; [by rewrite Escape_clean|].
  assert (map render_attr (map (fun a => (a.1, clean a.2)) attrs) = map render_attr attrs) as ->.
  { rewrite map_map. apply map_ext. intros [n v]. unfold render_attr. cbn [fst snd]. by rewrite Escape_clean. }
  assert (map (fun k => nl +:+ render (S depth) k) (map xclean kids) = map (fun k => nl +:+ render (S depth) k) kids) as ->.
  { rewrite map_map. clear -IH. induction IH as [|k kids Hk Hks IH]; [done|]. cbn [map]. by rewrite IH, Hk. }
  by destruct kids.
Qed.

Lemma xnode_ok_clean x : tags_ok x = true -> xnode_ok (xclean x) = true.
Proof.
  induction x as [tag text|tag attrs kids IH] using xnode_deep; cbn [xclean tags_ok xnode_ok].
  - intros ->. by rewrite xml_text_clean.
  - intros [[-> Ha]%andb_true_iff Hk]%andb_true_iff. cbn [andb]. apply andb_true_iff. split.
    + clear -Ha. induction attrs as [|[n v] attrs IHa]; [done|]. cbn [map forallb] in *. apply andb_true_iff in Ha as [Hn Ha].
      unfold attr_ok at 1. cbn [fst snd] in *. by rewrite Hn, xml_text_clean, IHa.
    + clear -IH Hk. induction IH as [|k kids Hk' Hks IHk]; [done|]. cbn [map forallb] in *. apply andb_true_iff in Hk as [H1 H2].
      by rewrite Hk', IHk.
Qed.

(** Every document of proper tags decodes, to the texts a reader gets. *)
Lemma Unmarshal_written `{XmlTables} fields tag attrs kids :
  tags_ok (Node tag attrs kids) = true -> forallb (placed fields []) (map xclean kids) = true ->
  xml_Unmarshal fields (document (Node tag attrs kids)) = Some (flat_map (held_fields fields []) (map xclean kids), true).
Proof.
  intros Hok Hp. unfold document. rewrite <- render_clean. apply xnode_ok_clean in Hok. cbn [xclean] in *.
  by apply Unmarshal_document.
Qed.
