(* ===== verification/S3err.v ===== *)
(** * Package s3err: S3-shaped error documents (internal/s3err/s3err.go) *)

From Stdlib Require Import Ascii String ZArith NArith Bool Lia.
From stdpp Require Import base tactics list strings.
From S2P Require Import Prelude GoStrings GoHttp GoXml GoJson GoXmlDecode.

Definition CodeAccessDenied : string := "AccessDenied".
Definition CodeInvalidAccessKeyID : string := "InvalidAccessKeyId".
Definition CodeExpiredToken : string := "ExpiredToken".
Definition CodeInvalidToken : string := "InvalidToken".
Definition CodeSignatureDoesNotMatch : string := "SignatureDoesNotMatch".
Definition CodeRequestTimeTooSkewed : string := "RequestTimeTooSkewed".
Definition CodeAuthorizationHeaderMalformed : string := "AuthorizationHeaderMalformed".
Definition CodeAuthorizationQueryParametersError : string := "AuthorizationQueryParametersError".
Definition CodeInvalidRequest : string := "InvalidRequest".
Definition CodeMissingSecurityHeader : string := "MissingSecurityHeader".
Definition CodeInternalError : string := "InternalError".
Definition CodeServiceUnavailable : string := "ServiceUnavailable".

(** [errorXML]: [Resource] is omitted when empty. *)
Definition errorXML (errcode msg resource requestID : string) : xnode :=
  Node "Error" [] ([Leaf "Code" errcode; Leaf "Message" msg]
    ++ (if resource =s "" then [] else [Leaf "Resource" resource])
    ++ [Leaf "RequestId" requestID]).

Definition Write (st : Z) (errcode msg resource requestID : string) : Response :=
  mkResponse st "application/xml" (document (errorXML errcode msg resource requestID)).

Example write_sample :
  body (Write 403 CodeAccessDenied "a<b" "" "r1") =
  xml_header +:+ "<Error>" +:+ nl +:+ "  <Code>AccessDenied</Code>" +:+ nl
  +:+ "  <Message>a&lt;b</Message>" +:+ nl +:+ "  <RequestId>r1</RequestId>" +:+ nl +:+ "</Error>" +:+ nl.
Proof. reflexivity. Qed.

(** ** What a client reads of the document *)

(** The fields a client decodes an error document into: a struct with a string
    per element name. *)
Definition error_fields : list xfield := [([], "Code"); ([], "Message"); ([], "Resource"); ([], "RequestId")].

(** ** Properties *)

(** C39: a client that decodes an error document with encoding/xml reads what
    the proxy meant, whatever the request put in it.  For every status, code,
    message, resource and request ID the decoder accepts the document to its
    end, and assigns exactly: the code, the message, the resource when it is
    not empty, the request ID, once each and in that order, each to the letter
    but for bytes XML cannot carry, which read as the replacement character
    ([clean], the identity on XML text). *)
Theorem error_document_reads_back `{XmlTables} st errcode msg resource reqID :
  let a := Write st errcode msg resource reqID in
  status a = st /\ content_type a = "application/xml" /\
  xml_Unmarshal error_fields (body a) =
    Some ([(([], "Code"), clean errcode); (([], "Message"), clean msg)]
          ++ (if resource =s "" then [] else [(([], "Resource"), clean resource)])
          ++ [(([], "RequestId"), clean reqID)], true) /\
  (forall text, xml_text text = true -> clean text = text).
Proof.
  cbv zeta. split_and!; [done|done| |exact clean_id]. unfold Write, errorXML. cbn [body].
  destruct (resource =s ""); rewrite Unmarshal_written by reflexivity; reflexivity.
Qed.
