(* ===== verification/Sigv4.v ===== *)
(** * Package sigv4: AWS Signature Version 4

    Models internal/sigv4: the header parser, the canonical request, [Verify]
    (sigv4.go), presigned URLs (presign.go) and the signer (sign.go).  Errors
    carry the sentinel callers match with [errors.Is] and the message text. *)

From Stdlib Require Import Ascii String ZArith NArith Bool Lia.
From stdpp Require Import base tactics list strings gmap sorting.
From S2P Require Import Prelude GoStrings Sha256 GoTime GoHttp.

Definition Algorithm : string := "AWS4-HMAC-SHA256".

Definition emptyBodySHA256 : string :=
  "e3b0c44298fc1c149afbf4c8996fb92427ae41e4649b934ca495991b7852b855".

(** ** Errors *)

Inductive sigkind :=
| ErrMalformed
| ErrMissingDate
| ErrSkew
| ErrScope
| ErrSignatureMismatch
| ErrPresignExpired.

#[export] Instance sigkind_eq_dec : EqDecision sigkind.
Proof. solve_decision. Defined.

Definition sentinel (k : sigkind) : string :=
  match k with
  | ErrMalformed => "malformed SigV4 authorization"
  | ErrMissingDate => "missing X-Amz-Date"
  | ErrSkew => "request time too skewed"
  | ErrScope => "credential scope mismatch"
  | ErrSignatureMismatch => "signature does not match"
  | ErrPresignExpired => "presigned URL has expired"
  end.

(** An error wrapping the sentinel [kind], with its message. *)
Record sigerr := SigErr { kind : sigkind; message : string }.

Definition bare (k : sigkind) : sigerr := SigErr k (sentinel k).
Definition wrapped (k : sigkind) (detail : string) : sigerr :=
  SigErr k (sentinel k +:+ ": " +:+ detail).

(** ** The Authorization header *)

Record Authorization := mkAuth {
  AccessKeyID : string;
  Date : string;
  Region : string;
  Service : string;
  SignedHeaders : list string;
  Signature : string
}.

Definition empty_auth : Authorization := mkAuth "" "" "" "" [] "".

Definition IsSigV4 (header : string) : bool := HasPrefix header (Algorithm +:+ " ").

Section Header.
Context `{GoLib}.

Definition setCredential (a : Authorization) (value : string) : res sigerr Authorization :=
  let bad := Err (wrapped ErrMalformed ("credential scope " +:+ quote value)) in
  match Split "/" value with
  | [akid; date; region; service; last] =>
      if last =s "aws4_request" then
        if (akid =s "") || negb (String.length date =? 8)%nat then bad
        else Ok (mkAuth akid date region service (SignedHeaders a) (Signature a))
      else bad
  | _ => bad
  end.

Fixpoint add_signed_headers (names : list string) (a : Authorization) : res sigerr Authorization :=
  match names with
  | [] => Ok a
  | h :: rest =>
      let h := ToLower (TrimSpace h) in
      if h =s "" then Err (wrapped ErrMalformed "empty signed header name")
      else add_signed_headers rest
             (mkAuth (AccessKeyID a) (Date a) (Region a) (Service a) (SignedHeaders a ++ [h]) (Signature a))
  end.

Definition setSignedHeaders (a : Authorization) (value : string) : res sigerr Authorization :=
  add_signed_headers (Split ";" value) a.

Definition setSignature (a : Authorization) (value : string) : res sigerr Authorization :=
  let sig := ToLower (TrimSpace value) in
  if negb (String.length sig =? 64)%nat
  then Err (wrapped ErrMalformed "signature must be 64 hex chars")
  else if negb (hex_decodable sig)
  then Err (wrapped ErrMalformed "signature is not hex")
  else Ok (mkAuth (AccessKeyID a) (Date a) (Region a) (Service a) (SignedHeaders a) sig).

Definition parse_component (a : Authorization) (part : string) : res sigerr Authorization :=
  let '(key, value, found) := Cut "=" part in
  if negb found then Err (wrapped ErrMalformed ("component " +:+ quote part))
  else if key =s "Credential" then setCredential a value
  else if key =s "SignedHeaders" then setSignedHeaders a value
  else if key =s "Signature" then setSignature a value
  else Err (wrapped ErrMalformed ("unknown component " +:+ quote key)).

Fixpoint parse_components (parts : list string) (a : Authorization) : res sigerr Authorization :=
  match parts with
  | [] => Ok a
  | part :: rest =>
      let part := TrimSpace part in
      if part =s "" then parse_components rest a
      else let? a' := parse_component a part in parse_components rest a'
  end.

Definition ParseAuthorization (header : string) : res sigerr Authorization :=
  match CutPrefix header Algorithm with
  | None => Err (wrapped ErrMalformed "unsupported algorithm")
  | Some rest =>
      let? auth := parse_components (Split "," rest) empty_auth in
      if (AccessKeyID auth =s "") || (length (SignedHeaders auth) =? 0)%nat || (Signature auth =s "")
      then Err (wrapped ErrMalformed "missing Credential, SignedHeaders or Signature")
      else Ok auth
  end.

End Header.

(** The one shape in which the proxy prints the header ([fmt.Sprintf] in
    sign.go and forward.go). *)
Definition print_authorization (a : Authorization) : string :=
  Algorithm +:+ " Credential=" +:+ AccessKeyID a +:+ "/" +:+ Date a +:+ "/" +:+ Region a +:+ "/"
    +:+ Service a +:+ "/aws4_request, SignedHeaders=" +:+ Join (SignedHeaders a) ";"
    +:+ ", Signature=" +:+ Signature a.

(** ** The canonical request *)

Definition uri_unreserved (c : ascii) : bool := is_alnum c || negb (sfree c "-._~").

Definition uriEncode (s : string) (encodeSlash : bool) : string :=
  sflat_map (fun c =>
    if uri_unreserved c then String c ""
    else if Ascii.eqb c "/" && negb encodeSlash then String c ""
    else percent_byte c) s.

(** [sort.Slice] order of the encoded pairs: by key, then by value. *)
Definition pair_le (p q : string * string) : Prop :=
  if decide (p.1 = q.1) then String.le p.2 q.2 else String.le p.1 q.1.

#[export] Instance pair_le_dec : RelDecision pair_le.
Proof. intros p q. unfold pair_le. case_decide; apply _. Defined.

Definition join_pair (p : string * string) : string := p.1 +:+ "=" +:+ p.2.

Definition orSlash (p : string) : string := if p =s "" then "/" else p.

Section Canonical.
Context `{GoLib}.

Fixpoint query_pairs (parts : list string) (skipKey : string) : res sigerr (list (string * string)) :=
  match parts with
  | [] => Ok []
  | part :: rest =>
      if part =s "" then query_pairs rest skipKey
      else
        let '(k, v, _) := Cut "=" part in
        match PathUnescape k with
        | None => Err (wrapped ErrMalformed ("query key " +:+ quote k))
        | Some dk =>
            match PathUnescape v with
            | None => Err (wrapped ErrMalformed ("query value " +:+ quote v))
            | Some dv =>
                let? more := query_pairs rest skipKey in
                if (skipKey <>s "") && (dk =s skipKey) then Ok more
                else Ok ((uriEncode dk true, uriEncode dv true) :: more)
            end
        end
  end.

Definition canonicalQuery (rawQuery skipKey : string) : res sigerr string :=
  if rawQuery =s "" then Ok ""
  else let? pairs := query_pairs (Split "&" rawQuery) skipKey in
       Ok (Join (map join_pair (merge_sort pair_le pairs)) "&").

Definition canonicalURI (r : Request) : string :=
  let uri := RequestURI r in
  if uri =s "" then orSlash (EscapedPath (RURL r))
  else
    let wire := orSlash (fst (fst (Cut "?" uri))) in
    if HasPrefix uri "http://" || HasPrefix uri "https://" then
      match ParseRequestURI uri with
      | Some u => orSlash (EscapedPath u)
      | None => wire
      end
    else wire.

Definition headerValue (r : Request) (lowerName : string) : string :=
  let values :=
    if lowerName =s "host" then [if Host r =s "" then UHost (RURL r) else Host r]
    else if lowerName =s "content-length" then
      let vs := HValues (RHeader r) "Content-Length" in
      match vs with
      | [] => if (0 <=? ContentLength r)%Z then [Itoa (ContentLength r)] else []
      | _ => vs
      end
    else HValues (RHeader r) lowerName in
  Join (map (fun v => Join (Fields v) " ") values) ",".

Definition newline : string := String (chr 10) "".

Definition canonical_headers (r : Request) (signedHeaders : list string) : string :=
  Join (map (fun name => name +:+ ":" +:+ headerValue r name +:+ newline) signedHeaders) "".

Definition buildCanonical (r : Request) (signedHeaders : list string) (skipQueryKey payloadHash : string)
    : res sigerr string :=
  let? query := canonicalQuery (RawQuery (RURL r)) skipQueryKey in
  Ok (Join [Method r; canonicalURI r; query; canonical_headers r signedHeaders;
            Join signedHeaders ";"; payloadHash] newline).

Definition canonicalRequest (r : Request) (signedHeaders : list string) : res sigerr string :=
  let declared := HGet (RHeader r) "X-Amz-Content-Sha256" in
  let payloadHash := if declared =s "" then emptyBodySHA256 else declared in
  buildCanonical r signedHeaders "" payloadHash.

End Canonical.

(** ** Signing key and signature *)

Definition hmacSHA256 (key data : string) : string := hmac_sum key data.

Definition deriveKey (secret date region service : string) : string :=
  let kDate := hmacSHA256 ("AWS4" +:+ secret) date in
  let kRegion := hmacSHA256 kDate region in
  let kService := hmacSHA256 kRegion service in
  hmacSHA256 kService "aws4_request".

Definition string_to_sign (amzDate date region service canonical : string) : string :=
  Join [Algorithm; amzDate; date +:+ "/" +:+ region +:+ "/" +:+ service +:+ "/aws4_request";
        EncodeToString (Sum256 canonical)] newline.

(** The hex signature of a canonical request. *)
Definition signature_of (secret amzDate date region service canonical : string) : string :=
  EncodeToString (hmacSHA256 (deriveKey secret date region service)
                    (string_to_sign amzDate date region service canonical)).

(** ** Verify *)

Record Input := mkInput {
  in_Request : Request;
  in_Auth : Authorization;
  in_Secret : string;
  in_Region : string;
  in_Service : string;
  in_Now : Time;
  in_ClockSkew : Duration
}.

Section Verify.
Context `{GoLib}.

(** [None] is the nil error: the signature is accepted. *)
Definition Verify (i : Input) : option sigerr :=
  let a := in_Auth i in
  if Service a <>s in_Service i then
    Some (wrapped ErrScope ("service " +:+ quote (Service a) +:+ ", expected " +:+ quote (in_Service i)))
  else if Region a <>s in_Region i then
    Some (wrapped ErrScope ("region " +:+ quote (Region a) +:+ ", expected " +:+ quote (in_Region i)))
  else
  let amzDate := HGet (RHeader (in_Request i)) "X-Amz-Date" in
  if amzDate =s "" then Some (bare ErrMissingDate)
  else match Parse_amz amzDate with
  | None => Some (wrapped ErrMalformed ("X-Amz-Date " +:+ quote amzDate))
  | Some t =>
    let d := Sub (in_Now i) t in
    if ((in_ClockSkew i <? d) || (d <? wrap64 (- in_ClockSkew i)))%Z then
      Some (wrapped ErrSkew ("request time " +:+ Format_rfc3339 t +:+ " vs server time "
                             +:+ Format_rfc3339 (in_Now i)))
    else if stake 8 amzDate <>s Date a then
      Some (wrapped ErrScope ("scope date " +:+ Date a +:+ " does not match X-Amz-Date " +:+ amzDate))
    else match canonicalRequest (in_Request i) (SignedHeaders a) with
    | Err e => Some e
    | Ok canonical =>
        let expected := signature_of (in_Secret i) amzDate (Date a) (Region a) (Service a) canonical in
        if expected =s Signature a then None else Some (bare ErrSignatureMismatch)
    end
  end.

End Verify.

(** ** Parsing what the proxy prints *)

(** A header name as [setSignedHeaders] stores it and a [;]-list can carry. *)
Definition signed_name_byte (c : ascii) : bool :=
  is_graph c && negb (is_upper c) && negb (Ascii.eqb c ";") && negb (Ascii.eqb c ",").

Definition scope_part (s : string) : bool := sfree "," s && sfree "/" s.

(** The authorizations that survive a print/parse round trip. *)
Definition wf_auth (a : Authorization) : bool :=
  (AccessKeyID a <>s "") && scope_part (AccessKeyID a)
  && (String.length (Date a) =? 8)%nat && scope_part (Date a)
  && scope_part (Region a) && scope_part (Service a)
  && negb (length (SignedHeaders a) =? 0)%nat
  && forallb (fun h => (h <>s "") && sall signed_name_byte h) (SignedHeaders a)
  && (String.length (Signature a) =? 64)%nat && sall is_lower_hex (Signature a).

Section ParseLemmas.
Context `{GoLib}.

Lemma signed_name_graph h : sall signed_name_byte h = true -> sall is_graph h = true.
Proof. apply sall_impl. unfold signed_name_byte. intros c Hc. by split_bools. Qed.

Lemma signed_name_lower h : sall signed_name_byte h = true -> ToLower h = h.
Proof.
  intros Hh. apply ToLower_id. revert Hh. apply sall_impl.
  unfold signed_name_byte, is_graph. intros c Hc. split_bools.
  match goal with E : is_ascii7 _ = true |- _ => rewrite E end.
  by match goal with E : is_upper _ = false |- _ => rewrite E end.
Qed.

Lemma signed_name_free c h :
  (c = ";" \/ c = ",")%char -> sall signed_name_byte h = true -> sfree c h = true.
Proof. intros [-> | ->]; by apply sall_sfree. Qed.

Lemma add_signed_headers_ok names a :
  Forall (fun h => h <> "" /\ sall signed_name_byte h = true) names ->
  add_signed_headers names a =
  Ok (mkAuth (AccessKeyID a) (Date a) (Region a) (Service a) (SignedHeaders a ++ names) (Signature a)).
Proof.
  intros Hn. revert a. induction Hn as [|h names [Hne Hh] Hn IH]; intros a; simpl.
  - rewrite app_nil_r. by destruct a.
  - rewrite (TrimSpace_all_graph h), signed_name_lower by auto using signed_name_graph.
    apply String.eqb_neq in Hne. rewrite Hne, IH. simpl. by rewrite <- app_assoc.
Qed.

Lemma setSignedHeaders_join a names :
  names <> [] -> Forall (fun h => h <> "" /\ sall signed_name_byte h = true) names ->
  setSignedHeaders a (Join names ";") =
  Ok (mkAuth (AccessKeyID a) (Date a) (Region a) (Service a) (SignedHeaders a ++ names) (Signature a)).
Proof.
  intros Hne Hn. unfold setSignedHeaders. rewrite Split_Join; [by apply add_signed_headers_ok|done|].
  eapply Forall_impl; [exact Hn|]. intros h [_ Hh]. apply signed_name_free; auto.
Qed.

Lemma setSignature_hex a sig :
  String.length sig = 64 -> sall is_lower_hex sig = true ->
  setSignature a sig =
  Ok (mkAuth (AccessKeyID a) (Date a) (Region a) (Service a) (SignedHeaders a) sig).
Proof.
  intros Hlen Hhex. unfold setSignature.
  assert (sall (fun c => is_graph c && negb (is_upper c)) sig = true) as Hg.
  { revert Hhex. apply sall_impl. intros c Hc. pose proof (lower_hex_graph c) as Hi.
    by rewrite Hc in Hi. }
  rewrite sall_and in Hg. split_bools.
  rewrite TrimSpace_all_graph by done. rewrite ToLower_id.
  - rewrite Hlen. cbn [Nat.eqb negb]. unfold hex_decodable. rewrite Hlen.
    rewrite (sall_impl is_lower_hex is_hex); [done|apply lower_hex_is_hex|done].
  - rewrite sall_and. apply andb_true_iff. split; [|done].
    revert H0. apply sall_impl. unfold is_graph. intros c Hc. by split_bools.
Qed.

Lemma setCredential_print a akid date region service :
  akid <> "" -> String.length date = 8 ->
  sfree "/" akid = true -> sfree "/" date = true ->
  sfree "/" region = true -> sfree "/" service = true ->
  setCredential a (akid +:+ "/" +:+ date +:+ "/" +:+ region +:+ "/" +:+ service +:+ "/aws4_request")
  = Ok (mkAuth akid date region service (SignedHeaders a) (Signature a)).
Proof.
  intros Hne Hlen Ha Hd Hr Hs. unfold setCredential. cbn [String.append].
  rewrite !Split_app by done. change (Split "/" "aws4_request") with ["aws4_request"].
  cbv iota. rewrite seqb_refl. apply String.eqb_neq in Hne. by rewrite Hne, Hlen.
Qed.

(** The three components of a printed header, as the comma splits them. *)
Definition credential_of (a : Authorization) : string :=
  AccessKeyID a +:+ "/" +:+ Date a +:+ "/" +:+ Region a +:+ "/" +:+ Service a +:+ "/aws4_request".

Lemma print_authorization_parts a :
  print_authorization a =
  Algorithm +:+ ((" Credential=" +:+ credential_of a) +:+ String ","
                 ((" SignedHeaders=" +:+ Join (SignedHeaders a) ";") +:+ String ","
                  (" Signature=" +:+ Signature a))).
Proof. unfold print_authorization, credential_of. by rewrite !sapp_assoc. Qed.

Lemma TrimSpace_component key value c :
  is_graph c = true -> sall is_graph key = true -> key <> "" ->
  TrimSpace (" " +:+ key +:+ value +:+ String c "") = key +:+ value +:+ String c "".
Proof.
  intros Hc Hk Hne. cbn [String.append]. rewrite TrimSpace_space.
  destruct key as [|k key]; [done|]. simpl in Hk. split_bools.
  rewrite sapp_cons, <- sapp_assoc. by apply TrimSpace_graph.
Qed.

Lemma wf_auth_inv a :
  wf_auth a = true ->
  AccessKeyID a <> "" /\ String.length (Date a) = 8 /\
  sfree "," (credential_of a) = true /\
  sfree "/" (AccessKeyID a) = true /\ sfree "/" (Date a) = true /\
  sfree "/" (Region a) = true /\ sfree "/" (Service a) = true /\
  SignedHeaders a <> [] /\
  Forall (fun h => h <> "" /\ sall signed_name_byte h = true) (SignedHeaders a) /\
  String.length (Signature a) = 64 /\ sall is_lower_hex (Signature a) = true.
Proof.
  unfold wf_auth, scope_part. intros Hw. split_bools.
  repeat match goal with E : (_ =? _)%nat = true |- _ => apply Nat.eqb_eq in E end.
  repeat split; try done.
  - unfold credential_of. rewrite !sfree_app.
    repeat match goal with E : sfree "," _ = true |- _ => rewrite E end. done.
  - intros E. by rewrite E in *.
  - apply Forall_forall. intros h Hin.
    match goal with E : forallb _ _ = true |- _ =>
      pose proof (proj1 (forallb_forall _ _) E h) as Hh end.
    apply list_elem_of_In in Hin. specialize (Hh Hin). cbv beta in Hh. by split_bools.
Qed.

Lemma parse_component_step a part rest :
  TrimSpace part <> "" ->
  parse_components (part :: rest) a =
  res_bind (parse_component a (TrimSpace part)) (parse_components rest).
Proof. intros Hne. simpl. apply String.eqb_neq in Hne. by rewrite Hne. Qed.

Lemma Join_snoc_graph names :
  names <> [] -> Forall (fun h => h <> "" /\ sall signed_name_byte h = true) names ->
  exists v c, Join names ";" = v +:+ String c "" /\ is_graph c = true.
Proof.
  intros Hne Hn. induction Hn as [|h names [Hh Hg] Hn IH]; [done|].
  destruct names as [|h' names].
  - destruct (snoc_cases h) as [->|(v & c & ->)]; [done|]. exists v, c. split; [done|].
    apply signed_name_graph in Hg. rewrite sall_app in Hg. simpl in Hg. by split_bools.
  - destruct IH as (v & c & E & Hc); [done|]. exists (h +:+ ";" +:+ v), c. split; [|done].
    unfold Join in *. rewrite concat_cons2, E. by rewrite !sapp_assoc.
Qed.

Lemma parse_print_auth a :
  wf_auth a = true -> ParseAuthorization (print_authorization a) = Ok a.
Proof.
  intros Hw. apply wf_auth_inv in Hw as (Hak & Hdate & Hcf & Hf1 & Hf2 & Hf3 & Hf4 & Hsh & Hnames & Hlen & Hhex).
  unfold ParseAuthorization. rewrite print_authorization_parts, CutPrefix_app.
  rewrite Split_app; [|by rewrite sfree_app, Hcf].
  rewrite Split_app; [|rewrite sfree_app; apply sall_concat; [done|];
    eapply Forall_impl; [exact Hnames|]; intros h [_ Hh]; by apply (signed_name_free ",")%char; auto].
  rewrite Split_free; [|rewrite sfree_app; by apply (sall_sfree is_lower_hex)].
  (* Credential *)
  assert (TrimSpace (" Credential=" +:+ credential_of a) = "Credential=" +:+ credential_of a) as E1.
  { assert (credential_of a = (AccessKeyID a +:+ "/" +:+ Date a +:+ "/" +:+ Region a +:+ "/"
      +:+ Service a +:+ "/aws4_reques") +:+ String "t" "") as ->
      by (unfold credential_of; by rewrite !sapp_assoc).
    by apply (TrimSpace_component "Credential="). }
  rewrite parse_component_step; rewrite E1; [|done].
  assert (forall a0, parse_component a0 ("Credential=" +:+ credential_of a) = setCredential a0 (credential_of a)) as P1
    by done.
  rewrite P1. unfold credential_of at 1. rewrite setCredential_print by done. cbn [res_bind].
  (* SignedHeaders *)
  destruct (Join_snoc_graph _ Hsh Hnames) as (v & c & EJ & Hc).
  assert (TrimSpace (" SignedHeaders=" +:+ Join (SignedHeaders a) ";") = "SignedHeaders=" +:+ Join (SignedHeaders a) ";") as E2.
  { rewrite EJ. by apply (TrimSpace_component "SignedHeaders="). }
  rewrite parse_component_step; rewrite E2; [|done].
  assert (forall a0 v0, parse_component a0 ("SignedHeaders=" +:+ v0) = setSignedHeaders a0 v0) as P2 by done.
  rewrite P2, setSignedHeaders_join by done. cbn [res_bind].
  (* Signature *)
  assert (TrimSpace (" Signature=" +:+ Signature a) = "Signature=" +:+ Signature a) as E3.
  { destruct (snoc_cases (Signature a)) as [E|(w & d & E)]; [by rewrite E in Hlen|]. rewrite E.
    apply (TrimSpace_component "Signature="); [|done..].
    rewrite E, sall_app in Hhex. simpl in Hhex. split_bools.
    pose proof (lower_hex_graph d) as Hi. rewrite H1 in Hi. simpl in Hi. by split_bools. }
  rewrite parse_component_step; rewrite E3; [|done].
  assert (forall a0 v0, parse_component a0 ("Signature=" +:+ v0) = setSignature a0 v0) as P3 by done.
  rewrite P3, setSignature_hex by done. cbn [res_bind parse_components]. simpl.
  rewrite (proj2 (String.eqb_neq _ _) Hak). destruct (SignedHeaders a) eqn:ES; [done|].
  destruct (Signature a) eqn:EG; [done|]. simpl. rewrite <- ES, <- EG. by destruct a.
Qed.

End ParseLemmas.

(** ** AWS URI encoding *)

Definition uriEncode_byte (encodeSlash : bool) (c : ascii) : string :=
  if uri_unreserved c then String c ""
  else if Ascii.eqb c "/" && negb encodeSlash then String c "" else percent_byte c.

Lemma uriEncode_byte_cases b c :
  uriEncode_byte b c = percent_byte c \/ (uriEncode_byte b c = String c "" /\ c <> "%"%char).
Proof.
  unfold uriEncode_byte. destruct (uri_unreserved c) eqn:E.
  - right. split; [done|]. by intros ->.
  - destruct (Ascii.eqb_spec c "/") as [->|_], b; simpl; auto; right; done.
Qed.

Lemma uriEncode_unescape s b : PathUnescape (uriEncode s b) = Some s.
Proof.
  unfold PathUnescape, uriEncode. change (fun c => _) with (uriEncode_byte b).
  induction s as [|c s IH]; [done|]. cbn [sflat_map].
  destruct (uriEncode_byte_cases b c) as [->|[-> Hc]].
  - by rewrite percent_byte_unescape, IH.
  - cbn [String.append unescape andb]. rewrite IH.
    by rewrite (proj2 (Ascii.eqb_neq _ _) Hc).
Qed.

#[export] Instance uriEncode_inj b : Inj (=) (=) (fun s => uriEncode s b).
Proof.
  intros s t E. pose proof (uriEncode_unescape s b) as Hs. cbv beta in E.
  rewrite E, uriEncode_unescape in Hs. congruence.
Qed.

Lemma uriEncode_free c s :
  (c = "&" \/ c = "=")%char -> sfree c (uriEncode s true) = true.
Proof.
  intros Hc. unfold sfree, uriEncode. apply sall_sflat_map. intros d.
  assert (forall b d, (b = "&" \/ b = "=")%char ->
    sall (fun e => negb (Ascii.eqb b e))
      (if uri_unreserved d then String d ""
       else if Ascii.eqb d "/" && negb true then String d "" else percent_byte d) = true) as Hall.
  { intros b e [-> | ->]; by_bytes e. }
  by apply Hall.
Qed.

(** ** The canonical query *)

#[export] Instance pair_le_trans : Transitive pair_le.
Proof.
  intros [k1 v1] [k2 v2] [k3 v3]. unfold pair_le. simpl.
  destruct (decide (k1 = k2)) as [->|H12], (decide (k2 = k3)) as [->|H23]; simpl.
  - intros; by etrans.
  - auto.
  - rewrite decide_False by done. auto.
  - intros L12 L23. destruct (decide (k1 = k3)) as [->|H13]; [|by etrans].
    exfalso. apply H12. by apply (anti_symm String.le).
Qed.

#[export] Instance pair_le_antisymm : AntiSymm (=) pair_le.
Proof.
  intros [k1 v1] [k2 v2]. unfold pair_le. simpl.
  destruct (decide (k1 = k2)) as [->|H12].
  - rewrite decide_True by done. intros. f_equal. by apply (anti_symm String.le).
  - rewrite decide_False by done. intros. exfalso. apply H12. by apply (anti_symm String.le).
Qed.

#[export] Instance pair_le_total : Total pair_le.
Proof.
  intros [k1 v1] [k2 v2]. unfold pair_le. simpl.
  destruct (decide (k1 = k2)) as [->|H12].
  - rewrite decide_True by done. apply (total String.le).
  - rewrite decide_False by done. apply (total String.le).
Qed.

(** What a query string says: the decoded pairs of its non-empty parts, less
    the skipped key.  This is the meaning the canonical form must capture. *)
Definition decode_part (part : string) : option (string * string) :=
  let '(k, v, _) := Cut "=" part in
  match PathUnescape k, PathUnescape v with
  | Some dk, Some dv => Some (dk, dv)
  | _, _ => None
  end.

Definition nonempty_parts (q : string) : list string :=
  filter (fun p => p <> "") (Split "&" q).

Definition query_meaning (q skipKey : string) : option (list (string * string)) :=
  filter (fun kv => skipKey = "" \/ kv.1 <> skipKey) <$> mapM decode_part (nonempty_parts q).

Definition encode_pair (kv : string * string) : string * string :=
  (uriEncode kv.1 true, uriEncode kv.2 true).

#[export] Instance encode_pair_inj : Inj (=) (=) encode_pair.
Proof.
  intros [k v] [k' v'] [= Ek Ev]. simpl in *.
  apply (inj (fun s => uriEncode s true)) in Ek, Ev. congruence.
Qed.

Section QueryLemmas.
Context `{GoLib}.

Lemma mapM_option_cons {A B} (f : A -> option B) x l :
  mapM f (x :: l) = match f x, mapM f l with Some y, Some k => Some (y :: k) | _, _ => None end.
Proof. simpl. destruct (f x); simpl; [|done]. by destruct (mapM f l). Qed.

Lemma query_pairs_meaning parts sk :
  match mapM decode_part (filter (fun p => p <> "") parts) with
  | Some ds => query_pairs parts sk
               = Ok (map encode_pair (filter (fun kv => sk = "" \/ kv.1 <> sk) ds))
  | None => exists e, query_pairs parts sk = Err e
  end.
Proof.
  induction parts as [|p parts IH]; [done|].
  destruct (seqb_spec p "") as [->|Hp].
  - rewrite filter_cons_False by naive_solver. exact IH.
  - rewrite filter_cons_True by done. cbn [query_pairs]. rewrite (proj2 (String.eqb_neq _ _) Hp).
    rewrite mapM_option_cons. unfold decode_part at 1.
    destruct (Cut "=" p) as [[k v] f]. destruct (PathUnescape k) as [dk|]; [|by eauto].
    destruct (PathUnescape v) as [dv|]; [|by eauto].
    destruct (mapM decode_part (filter (fun p => p <> "") parts)) as [ds|].
    + rewrite IH. cbn [res_bind mbind option_bind].
      destruct (seqb_spec sk "") as [->|Hs]; cbn [negb andb].
      * by rewrite filter_cons_True by auto.
      * destruct (seqb_spec dk sk) as [->|Hk].
        -- rewrite filter_cons_False; [done|]. naive_solver.
        -- rewrite filter_cons_True; [done|]. naive_solver.
    + destruct IH as [e ->]. by eauto.
Qed.

(** The canonical form of a decoded query. *)
Definition canonical_of (ds : list (string * string)) : string :=
  Join (map join_pair (merge_sort pair_le (map encode_pair ds))) "&".

Lemma canonicalQuery_meaning q sk :
  match query_meaning q sk with
  | Some ds => canonicalQuery q sk = Ok (canonical_of ds)
  | None => exists e, canonicalQuery q sk = Err e
  end.
Proof.
  unfold canonicalQuery, query_meaning, nonempty_parts.
  destruct (seqb_spec q "") as [->|Hq]; [done|].
  pose proof (query_pairs_meaning (Split "&" q) sk) as Hp.
  destruct (mapM _ _) as [ds|]; simpl.
  - by rewrite Hp.
  - destruct Hp as [e ->]. by exists e.
Qed.

Lemma join_encoded_part kv :
  Cut "=" (join_pair (encode_pair kv)) = (uriEncode kv.1 true, uriEncode kv.2 true, true)
  /\ sfree "&" (join_pair (encode_pair kv)) = true /\ join_pair (encode_pair kv) <> "".
Proof.
  unfold join_pair, encode_pair. simpl. split; [|split].
  - apply Cut_app, uriEncode_free. auto.
  - rewrite sfree_app. change (sfree "&" (String "=" (uriEncode kv.2 true))) with (sfree "&" (uriEncode kv.2 true)).
    by rewrite !uriEncode_free by auto.
  - by destruct (uriEncode kv.1 true).
Qed.

Lemma decode_encoded_part kv : decode_part (join_pair (encode_pair kv)) = Some kv.
Proof.
  unfold decode_part. destruct (join_encoded_part kv) as [-> _].
  rewrite !uriEncode_unescape. by destruct kv.
Qed.

(** Reading a canonical query back gives the pairs it was made of. *)
Lemma canonical_meaning_id (ds : list (string * string)) :
  query_meaning (Join (map join_pair (map encode_pair ds)) "&") "" = Some ds.
Proof.
  unfold query_meaning, nonempty_parts. destruct ds as [|d ds]; [done|].
  rewrite Split_Join; [|done|].
  - generalize (d :: ds) as l. clear d ds. intros l.
    assert (filter (fun p => p <> "") (map join_pair (map encode_pair l))
            = map join_pair (map encode_pair l)) as ->.
    { induction l as [|kv l IH]; [done|]. cbn [map].
      rewrite filter_cons_True by apply join_encoded_part. by rewrite IH. }
    assert (mapM decode_part (map join_pair (map encode_pair l)) = Some l) as ->.
    { induction l as [|kv l IH]; [done|]. cbn [map].
      by rewrite mapM_option_cons, decode_encoded_part, IH. }
    simpl. f_equal. induction l as [|kv l IH]; [done|].
    by rewrite filter_cons_True, IH by auto.
  - rewrite map_map. apply Forall_forall. intros x Hx. apply list_elem_of_In, in_map_iff in Hx.
    destruct Hx as (kv & <- & _). apply join_encoded_part.
Qed.

(** Sorting encoded pairs is sorting some permutation of the decoded ones. *)
Lemma sorted_encoded ds :
  exists ds', ds' ≡ₚ ds /\ merge_sort pair_le (map encode_pair ds) = map encode_pair ds'.
Proof.
  pose proof (merge_sort_Permutation pair_le (map encode_pair ds)) as Hp.
  apply Permutation_map_inv in Hp as (ds' & E & Hp). exists ds'. by rewrite E.
Qed.

Lemma merge_sort_perm_eq (l1 l2 : list (string * string)) :
  l1 ≡ₚ l2 -> merge_sort pair_le l1 = merge_sort pair_le l2.
Proof.
  intros Hp. apply (Sorted_unique pair_le).
  - apply (Sorted_merge_sort _).
  - apply (Sorted_merge_sort _).
  - by rewrite !merge_sort_Permutation.
Qed.

Lemma canonical_of_perm ds1 ds2 : canonical_of ds1 = canonical_of ds2 <-> ds1 ≡ₚ ds2.
Proof.
  unfold canonical_of. split.
  - destruct (sorted_encoded ds1) as (e1 & P1 & ->), (sorted_encoded ds2) as (e2 & P2 & ->).
    intros E. pose proof (canonical_meaning_id e1) as M1. rewrite E, canonical_meaning_id in M1.
    injection M1 as <-. by rewrite <- P1, P2.
  - intros Hp. by rewrite (merge_sort_perm_eq (map encode_pair ds1) (map encode_pair ds2)) by (by rewrite Hp).
Qed.

Lemma canonicalQuery_canonical ds : canonicalQuery (canonical_of ds) "" = Ok (canonical_of ds).
Proof.
  pose proof (canonicalQuery_meaning (canonical_of ds) "") as Hm.
  destruct (sorted_encoded ds) as (e & P & E).
  assert (query_meaning (canonical_of ds) "" = Some e) as Hq
    by (unfold canonical_of; rewrite E; apply canonical_meaning_id).
  rewrite Hq in Hm. rewrite Hm. f_equal. by apply canonical_of_perm.
Qed.

End QueryLemmas.

(** ** What a canonical request binds *)

Definition nl : ascii := chr 10.

Definition line_free (s : string) : bool := sfree nl s.

Lemma fields_go_spaceless s skip cur :
  sall (fun c => negb (ascii_space c)) cur = true ->
  Forall (fun w => sall (fun c => negb (ascii_space c)) w = true) (fields_go s skip cur).
Proof.
  revert skip cur. induction s as [|c s IH]; intros skip cur Hc; cbn [fields_go].
  - destruct (cur =s ""); by repeat constructor.
  - destruct skip as [|k]; [|by apply IH].
    destruct (space_width (String c s)) as [|w] eqn:E.
    + apply IH. rewrite sall_app, Hc. simpl. rewrite andb_true_r.
      cbn [space_width] in E. by destruct (ascii_space c).
    + apply Forall_app. split; [destruct (cur =s ""); by repeat constructor|by apply IH].
Qed.

Lemma headerValue_line_free r name : line_free (headerValue r name) = true.
Proof.
  unfold headerValue. apply sall_concat; [done|]. apply Forall_map, Forall_true. intros v.
  apply sall_concat; [done|]. eapply Forall_impl; [by apply fields_go_spaceless|].
  intros w. apply sall_impl. intros c Hc. apply negb_true_iff in Hc.
  destruct (Ascii.eqb_spec nl c) as [<-|]; [done|done].
Qed.

Lemma uriEncode_line_free s b : line_free (uriEncode s b) = true.
Proof.
  apply sall_sflat_map. intros c.
  destruct b; by_bytes c.
Qed.

Lemma canonical_of_line_free ds : line_free (canonical_of ds) = true.
Proof.
  unfold canonical_of. destruct (sorted_encoded ds) as (e & _ & ->).
  apply sall_concat; [done|]. rewrite map_map. apply Forall_map, Forall_true. intros kv.
  unfold join_pair, encode_pair. simpl. unfold line_free, sfree.
  rewrite sall_app. simpl. by rewrite !uriEncode_line_free.
Qed.

Lemma Split_lines lines rest :
  Forall (fun l => line_free l = true) lines ->
  Split nl (Join (map (fun l => l +:+ newline) lines) "" +:+ rest) = lines ++ Split nl rest.
Proof.
  unfold Join. induction 1 as [|l lines Hl Hls IH]; [done|]. cbn [map].
  assert (String.concat "" ((l +:+ newline) :: map (fun l => l +:+ newline) lines)
          = l +:+ String nl (String.concat "" (map (fun l => l +:+ newline) lines))) as ->.
  { destruct lines; [done|]. cbn [map]. rewrite concat_cons2, sapp_assoc. done. }
  rewrite sapp_assoc, sapp_cons, Split_app by done. simpl. by rewrite IH.
Qed.

Lemma Join_six_lines a b c d e f :
  Join [a; b; c; d; e; f] newline =
  a +:+ String nl (b +:+ String nl (c +:+ String nl (d +:+ String nl (e +:+ String nl f)))).
Proof. done. Qed.

Section Binding.
Context `{GoLib}.

Lemma canonical_headers_lines r names :
  canonical_headers r names =
  Join (map (fun l => l +:+ newline) (map (fun n => n +:+ ":" +:+ headerValue r n) names)) "".
Proof.
  unfold canonical_headers. rewrite map_map. f_equal. apply map_ext. intros n.
  by rewrite !sapp_assoc.
Qed.

(** The lines of a canonical request. *)
Lemma buildCanonical_lines r names sk payload c :
  buildCanonical r names sk payload = Ok c ->
  line_free (Method r) = true -> line_free (canonicalURI r) = true ->
  Forall (fun n => line_free n = true) names ->
  exists ds, query_meaning (RawQuery (RURL r)) sk = Some ds /\
    Split nl c = Method r :: canonicalURI r :: canonical_of ds ::
      map (fun n => n +:+ ":" +:+ headerValue r n) names ++
      "" :: Split nl (Join names ";" +:+ String nl payload).
Proof.
  unfold buildCanonical. intros Hb Hm Hu Hn.
  pose proof (canonicalQuery_meaning (RawQuery (RURL r)) sk) as Hq.
  destruct (query_meaning _ _) as [ds|].
  2:{ destruct Hq as [e Hq]. rewrite Hq in Hb. done. }
  rewrite Hq in Hb. cbn [res_bind] in Hb.
  match type of Hb with Ok ?x = Ok _ => assert (c = x) as -> by congruence end.
  exists ds. split; [done|]. rewrite Join_six_lines, !Split_app by (done || apply canonical_of_line_free).
  rewrite canonical_headers_lines, Split_lines.
  - cbn [String.append Split]. rewrite Ascii.eqb_refl. done.
  - apply Forall_map. eapply Forall_impl; [exact Hn|]. intros n Hnl. cbv beta in *.
    pose proof (headerValue_line_free r n) as Hv. unfold line_free in *.
    by rewrite !sfree_app, Hnl, Hv.
Qed.

Lemma buildCanonical_inj r1 r2 names1 names2 sk1 sk2 p1 p2 c :
  buildCanonical r1 names1 sk1 p1 = Ok c -> buildCanonical r2 names2 sk2 p2 = Ok c ->
  line_free (Method r1) = true -> line_free (Method r2) = true ->
  line_free (canonicalURI r1) = true -> line_free (canonicalURI r2) = true ->
  Forall (fun n => line_free n = true /\ sfree ";" n = true) names1 ->
  Forall (fun n => line_free n = true /\ sfree ";" n = true) names2 ->
  line_free p1 = true -> line_free p2 = true ->
  Method r1 = Method r2 /\ canonicalURI r1 = canonicalURI r2 /\
  (exists ds1 ds2, query_meaning (RawQuery (RURL r1)) sk1 = Some ds1 /\
     query_meaning (RawQuery (RURL r2)) sk2 = Some ds2 /\ ds1 ≡ₚ ds2) /\
  names1 = names2 /\ Forall (fun n => headerValue r1 n = headerValue r2 n) names1 /\ p1 = p2.
Proof.
  intros H1 H2 Hm1 Hm2 Hu1 Hu2 Hn1 Hn2 Hp1 Hp2.
  assert (forall names, Forall (fun n => line_free n = true /\ sfree ";" n = true) names ->
    Forall (fun n => line_free n = true) names /\ line_free (Join names ";") = true
    /\ (names <> [] -> Split ";" (Join names ";") = names)) as Hnames.
  { intros names Hn. assert (Forall (fun n => line_free n = true) names) as Hl
      by (eapply Forall_impl; [exact Hn|]; by intros ? [? _]).
    split; [done|]. split; [by apply sall_concat|]. intros Hne. apply Split_Join; [done|].
    eapply Forall_impl; [exact Hn|]. by intros ? [_ ?]. }
  destruct (Hnames _ Hn1) as (L1 & J1 & S1), (Hnames _ Hn2) as (L2 & J2 & S2).
  apply buildCanonical_lines in H1 as (ds1 & Q1 & E1); [|done..].
  apply buildCanonical_lines in H2 as (ds2 & Q2 & E2); [|done..].
  rewrite E1 in E2. injection E2 as EM EU EQ ER.
  rewrite !Split_app, !Split_free in ER by done.
  assert (length names1 = length names2) as Hlen.
  { apply (f_equal length) in ER. rewrite !length_app, !length_map in ER. simpl in ER. lia. }
  apply app_inj_1 in ER as [EH ET]; [|by rewrite !length_map].
  injection ET as EJ EP.
  assert (names1 = names2) as EN.
  { destruct names1 as [|n1 ns1], names2 as [|n2 ns2]; try done.
    rewrite <- (S1 ltac:(done)), EJ. by apply S2. }
  split_and!; [done|done| |done| |done].
  - exists ds1, ds2. split_and!; [done|done|]. by apply canonical_of_perm.
  - subst names2. clear -EH. induction names1 as [|n ns IH]; [done|].
    cbn [map] in EH. injection EH as E1 E2. constructor; [|by apply IH].
    apply (inj (String.append n)) in E1. by injection E1.
Qed.

End Binding.

(** ** Verify, branch by branch *)

(** The declarative condition for acceptance. *)
Record accepts `{GoLib} (i : Input) (t : Time) (canonical : string) : Prop := {
  acc_service : Service (in_Auth i) = in_Service i;
  acc_region : Region (in_Auth i) = in_Region i;
  acc_date : Parse_amz (HGet (RHeader (in_Request i)) "X-Amz-Date") = Some t;
  acc_skew : (wrap64 (- in_ClockSkew i) <= Sub (in_Now i) t <= in_ClockSkew i)%Z;
  acc_scope_date : stake 8 (HGet (RHeader (in_Request i)) "X-Amz-Date") = Date (in_Auth i);
  acc_canonical : canonicalRequest (in_Request i) (SignedHeaders (in_Auth i)) = Ok canonical;
  acc_signature : Signature (in_Auth i) =
    signature_of (in_Secret i) (HGet (RHeader (in_Request i)) "X-Amz-Date") (Date (in_Auth i))
      (Region (in_Auth i)) (Service (in_Auth i)) canonical
}.

Section VerifyLemmas.
Context `{GoLib}.

Lemma Verify_None i : Verify i = None <-> exists t canonical, accepts i t canonical.
Proof.
  split.
  - unfold Verify. intros Hv.
    destruct (seqb_spec (Service (in_Auth i)) (in_Service i)); [|done].
    destruct (seqb_spec (Region (in_Auth i)) (in_Region i)); [|done]. cbn [negb] in Hv.
    destruct (_ =s "") eqn:E0; [done|].
    destruct (Parse_amz _) as [t|] eqn:E1; [|done].
    destruct (_ || _)%bool eqn:E2; [done|]. apply orb_false_iff in E2 as [? ?].
    destruct (seqb_spec (stake 8 (HGet (RHeader (in_Request i)) "X-Amz-Date")) (Date (in_Auth i)));
      [|done]. cbn [negb] in Hv.
    destruct (canonicalRequest _ _) as [c|e3] eqn:E3; [|done].
    destruct (seqb_spec (signature_of (in_Secret i) (HGet (RHeader (in_Request i)) "X-Amz-Date")
      (Date (in_Auth i)) (Region (in_Auth i)) (Service (in_Auth i)) c) (Signature (in_Auth i)));
      [|done].
    exists t, c. split; try done. lia.
  - intros (t & c & [H1 H2 H3 H4 H5 H6 H7]). unfold Verify.
    rewrite H1, H2, !seqb_refl. cbn [negb].
    destruct (seqb_spec (HGet (RHeader (in_Request i)) "X-Amz-Date") "") as [E|_];
      [rewrite E in H3; done|].
    rewrite H3, H5, seqb_refl, H6. cbn [negb].
    destruct (_ || _)%bool eqn:E2; [exfalso; apply orb_true_iff in E2; lia|].
    rewrite H7, H1, H2. by rewrite seqb_refl.
Qed.

(** The sentinel each refusal carries. *)
Lemma query_pairs_err_kind parts sk e : query_pairs parts sk = Err e -> kind e = ErrMalformed.
Proof.
  revert e. induction parts as [|p ps IH]; intros e; [done|]. cbn [query_pairs].
  destruct (p =s ""); [apply IH|]. destruct (Cut "=" p) as [[k v] f].
  destruct (PathUnescape k); [|by intros [= <-]].
  destruct (PathUnescape v); [|by intros [= <-]].
  destruct (query_pairs ps sk); cbn [res_bind]; [by case_match|]. intros [= <-]. by apply IH.
Qed.

Lemma buildCanonical_err_kind r names sk p e :
  buildCanonical r names sk p = Err e -> kind e = ErrMalformed.
Proof.
  unfold buildCanonical, canonicalQuery. destruct (_ =s ""); [done|].
  destruct (query_pairs _ _) eqn:E; cbn [res_bind]; [done|]. intros [= <-].
  by apply query_pairs_err_kind in E.
Qed.

(** A request that passed [Verify] has a query the canonicaliser accepts. *)
Lemma buildCanonical_ok_any r names sk p c names' sk' p' :
  buildCanonical r names sk p = Ok c -> exists c', buildCanonical r names' sk' p' = Ok c'.
Proof.
  unfold buildCanonical.
  pose proof (canonicalQuery_meaning (RawQuery (RURL r)) sk) as H1.
  pose proof (canonicalQuery_meaning (RawQuery (RURL r)) sk') as H2.
  unfold query_meaning in *. destruct (mapM _ _); simpl in *.
  - rewrite H2. simpl. eauto.
  - destruct H1 as [e ->]. done.
Qed.

End VerifyLemmas.

(** ** Properties *)

(** The request and header of the AWS "get-vanilla" test vector. *)
Module Vanilla.

Definition request : Request :=
  mkRequest "GET" (mkURL "http" "example.amazonaws.com" "/" "" "") "/" "example.amazonaws.com"
    {[ "X-Amz-Date" := ["20150830T123600Z"] ]} 0 (Some "") None false.

Definition auth : Authorization :=
  mkAuth "AKIDEXAMPLE" "20150830" "us-east-1" "service" ["host"; "x-amz-date"]
    "5fa00fa31553b73ebf1942676e86291e8372ff2a2260956d9b8aae1d763fbf31".

Definition secret : string := "wJalrXUtnFEMI/K7MDENG+bPxRfiCYEXAMPLEKEY".

Definition input : Input :=
  mkInput request auth secret "us-east-1" "service" (1440938160 * Second)%Z (15 * Minute)%Z.

End Vanilla.

Section Properties.
Context `{GoLib}.

(** The parser reads back every well-formed authorization the proxy
    prints, so no component of the header can be confused with another. *)
Theorem authorization_roundtrip a :
  wf_auth a = true -> ParseAuthorization (print_authorization a) = Ok a.
Proof. apply parse_print_auth. Qed.

(** C9: [Verify] returns no error exactly when the declarative conditions hold:
    scope, a parseable date inside the skew window, a scope date that matches,
    and the signature recomputed from the secret over the canonical request. *)
Theorem verify_accepts_iff i : Verify i = None <-> exists t canonical, accepts i t canonical.
Proof. apply Verify_None. Qed.

(** C4: a canonical request determines what was signed: two requests with the
    same canonical form agree on method, URI, payload hash, the list of signed
    headers and their values, and their queries decode to the same pairs up to
    order. *)
Theorem canonical_request_binds r1 r2 names1 names2 sk1 sk2 p1 p2 c :
  buildCanonical r1 names1 sk1 p1 = Ok c -> buildCanonical r2 names2 sk2 p2 = Ok c ->
  line_free (Method r1) = true -> line_free (Method r2) = true ->
  line_free (canonicalURI r1) = true -> line_free (canonicalURI r2) = true ->
  Forall (fun n => line_free n = true /\ sfree ";" n = true) names1 ->
  Forall (fun n => line_free n = true /\ sfree ";" n = true) names2 ->
  line_free p1 = true -> line_free p2 = true ->
  Method r1 = Method r2 /\ canonicalURI r1 = canonicalURI r2 /\
  (exists ds1 ds2, query_meaning (RawQuery (RURL r1)) sk1 = Some ds1 /\
     query_meaning (RawQuery (RURL r2)) sk2 = Some ds2 /\ ds1 ≡ₚ ds2) /\
  names1 = names2 /\ Forall (fun n => headerValue r1 n = headerValue r2 n) names1 /\ p1 = p2.
Proof. apply buildCanonical_inj. Qed.

(** C14: the canonical query identifies exactly the queries that decode to the
    same pairs up to order; it fails exactly on an undecodable escape; and a
    canonical query is its own canonical form. *)
Theorem canonical_query_faithful q1 q2 sk ds1 ds2 :
  query_meaning q1 sk = Some ds1 -> query_meaning q2 sk = Some ds2 ->
  (canonicalQuery q1 sk = canonicalQuery q2 sk <-> ds1 ≡ₚ ds2) /\
  (forall q, query_meaning q sk = None <-> exists e, canonicalQuery q sk = Err e) /\
  (forall q c, canonicalQuery q sk = Ok c -> canonicalQuery c "" = Ok c).
Proof.
  intros H1 H2. pose proof (fun q => canonicalQuery_meaning q sk) as E. split_and!.
  - pose proof (E q1) as E1. pose proof (E q2) as E2.
    rewrite H1 in E1. rewrite H2 in E2. rewrite E1, E2, <- canonical_of_perm. split; congruence.
  - intros q. specialize (E q). destruct (query_meaning q sk); [|naive_solver].
    split; [done|]. intros [e He]. congruence.
  - intros q c Ec. specialize (E q). destruct (query_meaning q sk) as [ds|]; [|destruct E; congruence].
    rewrite E in Ec. injection Ec as <-. apply canonicalQuery_canonical.
Qed.

End Properties.

#[local] Existing Instance ascii_lib.

Lemma authorization_roundtrip_witness :
  wf_auth Vanilla.auth = true /\
  ParseAuthorization (print_authorization Vanilla.auth) = Ok Vanilla.auth.
Proof. split; [reflexivity|]. apply authorization_roundtrip. reflexivity. Defined.

Definition vanilla_with_query (q : string) : Request :=
  with_url Vanilla.request (with_raw_query (RURL Vanilla.request) q).

Lemma canonical_request_binds_witness :
  exists c, buildCanonical (vanilla_with_query "b=2&a=%31") ["host"] "" "p" = Ok c /\
  buildCanonical (vanilla_with_query "a=1&b=2") ["host"] "" "p" = Ok c /\
  headerValue (vanilla_with_query "b=2&a=%31") "host" = headerValue (vanilla_with_query "a=1&b=2") "host".
Proof.
  destruct (buildCanonical (vanilla_with_query "b=2&a=%31") ["host"] "" "p") as [c|] eqn:E1; [|discriminate E1].
  assert (buildCanonical (vanilla_with_query "a=1&b=2") ["host"] "" "p" = Ok c) as E2
    by (rewrite <- E1; reflexivity).
  exists c. split; [reflexivity|]. split; [exact E2|].
  assert (Forall (fun n => line_free n = true /\ sfree ";" n = true) ["host"]) as Hn
    by (repeat constructor).
  pose proof (canonical_request_binds _ _ _ _ _ _ _ _ _ E1 E2
    eq_refl eq_refl eq_refl eq_refl Hn Hn eq_refl eq_refl) as (_ & _ & _ & _ & Hv & _).
  exact (Forall_inv Hv).
Defined.

Lemma canonical_query_faithful_witness :
  query_meaning "b=2&a=%31" "" = Some [("b", "2"); ("a", "1")] /\
  query_meaning "a=1&b=2&" "" = Some [("a", "1"); ("b", "2")] /\
  canonicalQuery "b=2&a=%31" "" = canonicalQuery "a=1&b=2&" "".
Proof.
  split; [reflexivity|]. split; [reflexivity|].
  refine (proj2 (proj1 (canonical_query_faithful "b=2&a=%31" "a=1&b=2&" "" [("b", "2"); ("a", "1")] [("a", "1"); ("b", "2")] _ _)) _).
  - reflexivity.
  - reflexivity.
  - apply Permutation_swap.
Defined.

(** The vector verifies. *)
Example vanilla_verifies : Verify Vanilla.input = None.
Proof. vm_compute. reflexivity. Qed.
