(* ===== verification/Presign.v ===== *)
(** * Package sigv4: presigned URLs (presign.go)

    Query-string authentication: recognising, parsing and verifying a
    presigned URL. *)

From Stdlib Require Import Ascii String ZArith NArith Bool Lia.
From stdpp Require Import base tactics list strings gmap sorting.
From S2P Require Import Prelude GoStrings Sha256 GoTime GoHttp Sigv4.

Definition maxPresignExpires : Z := 604800.
Definition unsignedPayload : string := "UNSIGNED-PAYLOAD".

Record Presigned := mkPresigned {
  p_Authorization : Authorization;
  p_AmzDate : string;
  p_Expires : Duration;
  p_SecurityToken : string
}.

Definition IsPresigned (r : Request) : bool :=
  let q := Query (RURL r) in
  VHas q "X-Amz-Algorithm" || VHas q "X-Amz-Signature".

Definition IsSigV2Query (r : Request) : bool :=
  let q := Query (RURL r) in
  VHas q "AWSAccessKeyId" && VHas q "Signature".

Record PresignInput := mkPresignInput {
  pi_Request : Request;
  pi_Auth : Presigned;
  pi_Secret : string;
  pi_Region : string;
  pi_Service : string;
  pi_Now : Time;
  pi_ClockSkew : Duration
}.

Section Presign.
Context `{GoLib}.

Definition ParsePresigned (r : Request) : res sigerr Presigned :=
  let q := Query (RURL r) in
  let alg := VGet q "X-Amz-Algorithm" in
  if alg <>s Algorithm then Err (wrapped ErrMalformed ("X-Amz-Algorithm " +:+ quote alg))
  else
  let amzDate := VGet q "X-Amz-Date" in
  let? a1 := setCredential empty_auth (VGet q "X-Amz-Credential") in
  let? a2 := setSignedHeaders a1 (VGet q "X-Amz-SignedHeaders") in
  let? a3 := setSignature a2 (VGet q "X-Amz-Signature") in
  if negb (String.length amzDate =? 16)%nat
  then Err (wrapped ErrMalformed ("X-Amz-Date " +:+ quote amzDate))
  else
  let expires := VGet q "X-Amz-Expires" in
  match Atoi expires with
  | None => Err (wrapped ErrMalformed ("X-Amz-Expires " +:+ quote expires +:+ " is not a number"))
  | Some n =>
      if (n <=? 0)%Z then Err (wrapped ErrMalformed "X-Amz-Expires must be positive")
      else if (maxPresignExpires <? n)%Z then
        Err (wrapped ErrMalformed
          ("X-Amz-Expires must be at most " +:+ Itoa maxPresignExpires +:+ " seconds (one week)"))
      else Ok (mkPresigned a3 amzDate (seconds n) (VGet q "X-Amz-Security-Token"))
  end.

Definition VerifyPresigned (i : PresignInput) : option sigerr :=
  let p := pi_Auth i in
  let a := p_Authorization p in
  if Service a <>s pi_Service i then
    Some (wrapped ErrScope ("service " +:+ quote (Service a) +:+ ", expected " +:+ quote (pi_Service i)))
  else if Region a <>s pi_Region i then
    Some (wrapped ErrScope ("region " +:+ quote (Region a) +:+ ", expected " +:+ quote (pi_Region i)))
  else match Parse_amz (p_AmzDate p) with
  | None => Some (wrapped ErrMalformed ("X-Amz-Date " +:+ quote (p_AmzDate p)))
  | Some t =>
    if stake 8 (p_AmzDate p) <>s Date a then
      Some (wrapped ErrScope ("scope date " +:+ Date a +:+ " does not match X-Amz-Date " +:+ p_AmzDate p))
    else if (pi_ClockSkew i <? Sub t (pi_Now i))%Z then
      Some (wrapped ErrSkew ("URL signed at " +:+ Format_rfc3339 t +:+ ", in the future"))
    else if After (pi_Now i) (Add t (p_Expires p)) then Some (bare ErrPresignExpired)
    else match buildCanonical (pi_Request i) (SignedHeaders a) "X-Amz-Signature" unsignedPayload with
    | Err e => Some e
    | Ok canonical =>
        let expected := signature_of (pi_Secret i) (p_AmzDate p) (Date a) (Region a) (Service a) canonical in
        if expected =s Signature a then None else Some (bare ErrSignatureMismatch)
    end
  end.

End Presign.

(** ** What parsing and verifying a presigned URL guarantee *)

Section PresignLemmas.
Context `{GoLib}.

Lemma seconds_week n : (0 < n <= maxPresignExpires)%Z -> seconds n = (n * Second)%Z.
Proof.
  unfold maxPresignExpires, seconds, Second. intros. apply wrap64_id. unfold min_int64, max_int64. lia.
Qed.

Lemma ParsePresigned_Ok r p :
  ParsePresigned r = Ok p ->
  VGet (Query (RURL r)) "X-Amz-Algorithm" = Algorithm /\
  String.length (p_AmzDate p) = 16 /\
  p_SecurityToken p = VGet (Query (RURL r)) "X-Amz-Security-Token" /\
  exists n, Atoi (VGet (Query (RURL r)) "X-Amz-Expires") = Some n /\
    (0 < n <= maxPresignExpires)%Z /\ p_Expires p = (n * Second)%Z.
Proof.
  unfold ParsePresigned. destruct (seqb_spec (VGet (Query (RURL r)) "X-Amz-Algorithm") Algorithm) as [Ea|];
    [|done]. cbn [negb].
  destruct (setCredential _ _) as [a1|]; [|done]. cbn [res_bind].
  destruct (setSignedHeaders _ _) as [a2|]; [|done]. cbn [res_bind].
  destruct (setSignature _ _) as [a3|]; [|done]. cbn [res_bind].
  destruct (String.length _ =? 16)%nat eqn:El; [|done]. apply Nat.eqb_eq in El. cbn [negb].
  destruct (Atoi _) as [n|] eqn:En; [|done].
  destruct (Z.leb_spec n 0); [done|]. destruct (Z.ltb_spec maxPresignExpires n); [done|].
  intros [= <-]. cbn [p_AmzDate p_SecurityToken p_Expires]. split_and!; try done.
  exists n. split; [done|]. split; [lia|]. by apply seconds_week.
Qed.

(** The declarative condition for accepting a presigned URL. *)
Record presign_accepts (i : PresignInput) (t : Time) (canonical : string) : Prop := {
  pa_service : Service (p_Authorization (pi_Auth i)) = pi_Service i;
  pa_region : Region (p_Authorization (pi_Auth i)) = pi_Region i;
  pa_date : Parse_amz (p_AmzDate (pi_Auth i)) = Some t;
  pa_scope_date : stake 8 (p_AmzDate (pi_Auth i)) = Date (p_Authorization (pi_Auth i));
  pa_future : (Sub t (pi_Now i) <= pi_ClockSkew i)%Z;
  pa_expiry : (pi_Now i <= t + p_Expires (pi_Auth i))%Z;
  pa_canonical : buildCanonical (pi_Request i) (SignedHeaders (p_Authorization (pi_Auth i)))
                   "X-Amz-Signature" unsignedPayload = Ok canonical;
  pa_signature : Signature (p_Authorization (pi_Auth i)) =
    signature_of (pi_Secret i) (p_AmzDate (pi_Auth i)) (Date (p_Authorization (pi_Auth i)))
      (Region (p_Authorization (pi_Auth i))) (Service (p_Authorization (pi_Auth i))) canonical
}.

Lemma VerifyPresigned_None i : VerifyPresigned i = None <-> exists t canonical, presign_accepts i t canonical.
Proof.
  unfold VerifyPresigned. split.
  - destruct (seqb_spec (Service (p_Authorization (pi_Auth i))) (pi_Service i)); [|done]. cbn [negb].
    destruct (seqb_spec (Region (p_Authorization (pi_Auth i))) (pi_Region i)); [|done]. cbn [negb].
    destruct (Parse_amz _) as [t|] eqn:Ep; [|done].
    destruct (seqb_spec (stake 8 (p_AmzDate (pi_Auth i))) (Date (p_Authorization (pi_Auth i)))); [|done].
    cbn [negb]. destruct (Z.ltb_spec (pi_ClockSkew i) (Sub t (pi_Now i))); [done|].
    unfold After, Add. destruct (Z.ltb_spec (t + p_Expires (pi_Auth i)) (pi_Now i)); [done|].
    destruct (buildCanonical _ _ _ _) as [c|] eqn:Ec; [|done].
    destruct (seqb_spec (signature_of (pi_Secret i) (p_AmzDate (pi_Auth i))
      (Date (p_Authorization (pi_Auth i))) (Region (p_Authorization (pi_Auth i)))
      (Service (p_Authorization (pi_Auth i))) c) (Signature (p_Authorization (pi_Auth i)))); [|done].
    intros _. exists t, c. by split.
  - intros (t & c & [H1 H2 H3 H4 H5 H6 H7 H8]).
    rewrite H1, H2, H3, H4, !seqb_refl, H7. cbn [negb].
    rewrite (proj2 (Z.ltb_ge _ _) H5). unfold After, Add. rewrite (proj2 (Z.ltb_ge _ _) H6).
    by rewrite H8, H1, H2, seqb_refl.
Qed.

End PresignLemmas.

(** ** Properties *)

Section Properties.
Context `{GoLib}.

(** C10: [VerifyPresigned] returns no error exactly when scope, date, window and
    the recomputed signature all hold. *)
Theorem presigned_accepts_iff i :
  VerifyPresigned i = None <-> exists t canonical, presign_accepts i t canonical.
Proof. apply VerifyPresigned_None. Qed.

(** An accepted presigned URL is never usable earlier than the skew before
    its date, nor later than its declared lifetime after it, and that lifetime
    is the declared number of seconds, at least one and at most a week. *)
Theorem presigned_window r p i :
  ParsePresigned r = Ok p -> pi_Auth i = p -> (0 <= pi_ClockSkew i < max_int64)%Z ->
  VerifyPresigned i = None ->
  exists t n, Parse_amz (p_AmzDate p) = Some t /\
    Atoi (VGet (Query (RURL r)) "X-Amz-Expires") = Some n /\ (1 <= n <= 604800)%Z /\
    (t - pi_ClockSkew i <= pi_Now i <= t + n * Second)%Z.
Proof.
  intros (_ & _ & _ & n & Hn & Hb & He)%ParsePresigned_Ok <- Hs (t & c & [_ _ Hd _ Hf Hx _ _])%VerifyPresigned_None.
  exists t, n. unfold maxPresignExpires in Hb. split_and!; try done; try lia.
  unfold Sub, clamp64 in Hf. unfold min_int64, max_int64 in *. lia.
Qed.

End Properties.

(** A presigned GET, its signature computed over the query before it is
    appended. *)
Module SamplePresigned.

Definition query : string :=
  "X-Amz-Algorithm=AWS4-HMAC-SHA256&X-Amz-Credential=AKIDEXAMPLE%2F20150830%2Fus-east-1%2Fs3%2Faws4_request"
  +:+ "&X-Amz-Date=20150830T123600Z&X-Amz-Expires=60&X-Amz-SignedHeaders=host&X-Amz-Security-Token=tok".

Definition with_signature (sig : string) : Request :=
  mkRequest "GET" (mkURL "" "" "/bucket/key" "" (query +:+ "&X-Amz-Signature=" +:+ sig))
    ("/bucket/key?" +:+ query +:+ "&X-Amz-Signature=" +:+ sig)
    "example.amazonaws.com" ∅ 0 (Some "") None false.

Definition signature : string := Eval vm_compute in
  match @buildCanonical ascii_lib (with_signature "") ["host"] "X-Amz-Signature" unsignedPayload with
  | Ok c => signature_of "secret" "20150830T123600Z" "20150830" "us-east-1" "s3" c
  | Err _ => ""
  end.

Definition request : Request := with_signature signature.

Definition parsed : Presigned :=
  mkPresigned (mkAuth "AKIDEXAMPLE" "20150830" "us-east-1" "s3" ["host"] signature)
    "20150830T123600Z" (60 * Second)%Z "tok".

Definition input (now : Time) : PresignInput :=
  mkPresignInput request parsed "secret" "us-east-1" "s3" now (15 * Minute)%Z.

End SamplePresigned.

#[local] Existing Instance ascii_lib.

Lemma sample_presigned_verifies : VerifyPresigned (SamplePresigned.input (1440938190 * Second)%Z) = None.
Proof. vm_compute. reflexivity. Qed.

Lemma presigned_window_witness :
  ParsePresigned SamplePresigned.request = Ok SamplePresigned.parsed /\
  VerifyPresigned (SamplePresigned.input (1440938190 * Second)%Z) = None /\
  exists t n, Parse_amz "20150830T123600Z" = Some t /\ Atoi "60" = Some n /\ (1 <= n <= 604800)%Z /\
    (t - 15 * Minute <= 1440938190 * Second <= t + n * Second)%Z.
Proof.
  assert (ParsePresigned SamplePresigned.request = Ok SamplePresigned.parsed) as Hp
    by (vm_compute; reflexivity).
  pose proof sample_presigned_verifies as Hv.
  split; [exact Hp|]. split; [exact Hv|].
  destruct (presigned_window _ _ (SamplePresigned.input (1440938190 * Second)%Z) Hp eq_refl
    ltac:(vm_compute; split; [discriminate|reflexivity]) Hv)
    as (t & n & Ht & Hn & Hb & Hw).
  exists t, n. split; [exact Ht|]. split; [|split; [exact Hb|exact Hw]].
  rewrite <- Hn. vm_compute. reflexivity.
Defined.

(** One second after its lifetime the same URL is refused. *)
Example presigned_expires :
  VerifyPresigned (SamplePresigned.input (1440938221 * Second)%Z) = Some (bare ErrPresignExpired).
Proof. vm_compute. reflexivity. Qed.
