(* ===== verification/Sign.v ===== *)
(** * Package sigv4: the signer (sign.go)

    [Sign] mutates the request it is given; the model returns the request as
    it is left, together with the error, because callers go on using it. *)

From Stdlib Require Import Ascii String ZArith NArith Bool Lia.
From stdpp Require Import base tactics list strings gmap sorting.
From S2P Require Import Prelude GoStrings Sha256 GoTime GoHttp Sigv4 Presign.

Record SignInput := mkSignInput {
  si_Request : Request;
  si_AccessKeyID : string;
  si_Secret : string;
  si_Region : string;
  si_Service : string;
  si_Host : string;
  si_Now : Time
}.

Section Sign.
Context `{GoLib}.

Definition signedHeaderNames (r : Request) : list string :=
  let xamz := omap (fun name =>
                let lower := ToLower name in
                if HasPrefix lower "x-amz-" then Some lower else None)
              (map fst (map_to_list (RHeader r))) in
  merge_sort String.le ("host" :: xamz).

(** The request as [Sign] leaves it, and the error if it failed. *)
Definition Sign (i : SignInput) : Request * option sigerr :=
  let r := si_Request i in
  let r := if si_Host i <>s "" then with_host r (si_Host i) else r in
  let amzDate := Format_amz (si_Now i) in
  let r := req_set r "X-Amz-Date" amzDate in
  let declared := HGet (RHeader r) "X-Amz-Content-Sha256" in
  let payloadHash := if declared =s "" then "UNSIGNED-PAYLOAD" else declared in
  let r := if declared =s "" then req_set r "X-Amz-Content-Sha256" payloadHash else r in
  let signedHeaders := signedHeaderNames r in
  match buildCanonical r signedHeaders "" payloadHash with
  | Err e => (r, Some e)
  | Ok canonical =>
      let date := stake 8 amzDate in
      let signature := signature_of (si_Secret i) amzDate date (si_Region i) (si_Service i) canonical in
      (req_set r "Authorization"
         (print_authorization
            (mkAuth (si_AccessKeyID i) date (si_Region i) (si_Service i) signedHeaders signature)), None)
  end.

End Sign.

(** ** Signed names *)

(** The keys net/http lets into a request: header field tokens. *)
Definition token_keys (h : Header) : Prop := map_Forall (fun k _ => sall is_token k = true) h.

#[export] Instance token_keys_dec h : Decision (token_keys h).
Proof. unfold token_keys. apply _. Defined.

Lemma token_keys_set h k v : sall is_token (CanonicalKey k) = true -> token_keys h -> token_keys (HSet h k v).
Proof. intros Hk Hh. unfold token_keys, HSet. by apply map_Forall_insert_2. Qed.

Lemma token_keys_del h k : token_keys h -> token_keys (HDel h k).
Proof. intros Hh. unfold token_keys, HDel. by apply map_Forall_delete. Qed.

Lemma token_lower_name k :
  sall is_token k = true ->
  sall is_ascii7 k = true /\ sall signed_name_byte (smap lower_byte k) = true.
Proof.
  intros Hk. rewrite sall_smap. split; revert Hk; apply sall_impl; intros c Hc.
  - assert (implb (is_token c) (is_ascii7 c) = true) as Hi by by_bytes c. by rewrite Hc in Hi.
  - assert (implb (is_token c) (signed_name_byte (lower_byte c)) = true) as Hi by by_bytes c.
    by rewrite Hc in Hi.
Qed.

Section SignLemmas.
Context `{GoLib}.

Lemma ToLower_token k :
  sall is_token k = true ->
  ToLower k = smap lower_byte k /\ sall signed_name_byte (ToLower k) = true.
Proof.
  intros Hk. destruct (token_lower_name k Hk) as (H7 & Hb). by rewrite ToLower_ascii.
Qed.

Lemma signedHeaderNames_elem r name :
  In name (signedHeaderNames r) <->
  name = "host" \/ exists k, is_Some (RHeader r !! k) /\ name = ToLower k /\ HasPrefix name "x-amz-" = true.
Proof.
  unfold signedHeaderNames. rewrite <- list_elem_of_In, merge_sort_Permutation.
  rewrite elem_of_cons, list_elem_of_omap. split.
  - intros [->|(k & Hk & E)]; [by left|right]. exists k.
    apply list_elem_of_In, in_map_iff in Hk as ([k' v] & <- & Hin).
    apply list_elem_of_In, elem_of_map_to_list in Hin. simpl in *.
    destruct (HasPrefix (ToLower k') "x-amz-") eqn:Ep; [|done]. injection E as <-.
    split_and!; eauto.
  - intros [->|(k & [v Hv] & -> & Hp)]; [by left|right]. exists k. rewrite Hp. split; [|done].
    apply list_elem_of_In, in_map_iff. exists (k, v). split; [done|].
    by apply list_elem_of_In, elem_of_map_to_list.
Qed.

Lemma signedHeaderNames_class r name :
  token_keys (RHeader r) -> In name (signedHeaderNames r) ->
  (name = "host" \/ HasPrefix name "x-amz-" = true) /\ name <> "" /\ sall signed_name_byte name = true.
Proof.
  intros Hk [->|(k & [v Hv] & -> & Hp)]%signedHeaderNames_elem; [by auto|].
  destruct (ToLower_token k) as [_ Hb]; [exact (Hk k v Hv)|].
  split_and!; auto. intros E. by rewrite E in Hp.
Qed.

Lemma xamz_not_authorization name :
  HasPrefix name "x-amz-" = true -> CanonicalKey name <> CanonicalKey "Authorization".
Proof.
  intros [t ->]%HasPrefix_true. change (CanonicalKey "Authorization") with "Authorization".
  unfold CanonicalKey. by destruct (sall is_token ("x-amz-" +:+ t)).
Qed.

Lemma headerValue_set_authorization r v name :
  name = "host" \/ HasPrefix name "x-amz-" = true ->
  headerValue (req_set r "Authorization" v) name = headerValue r name.
Proof.
  intros Hn. unfold headerValue, req_set. simpl.
  destruct (seqb_spec name "host") as [->|Hh]; [done|].
  destruct Hn as [->|Hp]; [done|].
  destruct (seqb_spec name "content-length") as [->|_]; [done|].
  by rewrite HValues_HSet_ne by (apply not_eq_sym, xamz_not_authorization, Hp).
Qed.

(** Setting the Authorization header does not change a canonical request whose
    signed headers are host and x-amz-*: the signature does not cover itself. *)
Lemma buildCanonical_set_authorization r v names sk p :
  Forall (fun n => n = "host" \/ HasPrefix n "x-amz-" = true) names ->
  buildCanonical (req_set r "Authorization" v) names sk p = buildCanonical r names sk p.
Proof.
  intros Hn.
  assert (canonical_headers (req_set r "Authorization" v) names = canonical_headers r names) as E.
  { unfold canonical_headers. f_equal. induction Hn as [|n ns H1 H2 IH]; [done|].
    cbn [map]. by rewrite headerValue_set_authorization, IH. }
  unfold buildCanonical. by rewrite E.
Qed.

(** ** The request as [Sign] prepares it *)

Definition sign_prepared (i : SignInput) : Request :=
  let r := si_Request i in
  let r := if si_Host i <>s "" then with_host r (si_Host i) else r in
  let r := req_set r "X-Amz-Date" (Format_amz (si_Now i)) in
  if HGet (RHeader r) "X-Amz-Content-Sha256" =s ""
  then req_set r "X-Amz-Content-Sha256" "UNSIGNED-PAYLOAD" else r.

Lemma Sign_eq i :
  let r := sign_prepared i in
  let payload := HGet (RHeader r) "X-Amz-Content-Sha256" in
  payload <> "" /\ HGet (RHeader r) "X-Amz-Date" = Format_amz (si_Now i) /\
  Sign i = match buildCanonical r (signedHeaderNames r) "" payload with
    | Err e => (r, Some e)
    | Ok canonical =>
        (req_set r "Authorization" (print_authorization
           (mkAuth (si_AccessKeyID i) (stake 8 (Format_amz (si_Now i))) (si_Region i) (si_Service i)
              (signedHeaderNames r)
              (signature_of (si_Secret i) (Format_amz (si_Now i)) (stake 8 (Format_amz (si_Now i)))
                 (si_Region i) (si_Service i) canonical))), None)
    end.
Proof.
  unfold Sign, sign_prepared.
  set (r0 := req_set (if si_Host i <>s "" then with_host (si_Request i) (si_Host i) else si_Request i)
               "X-Amz-Date" (Format_amz (si_Now i))).
  assert (HGet (RHeader r0) "X-Amz-Date" = Format_amz (si_Now i)) as Hd
    by (unfold r0; header_simpl; done).
  destruct (seqb_spec (HGet (RHeader r0) "X-Amz-Content-Sha256") "") as [E|E].
  - assert (HGet (RHeader (req_set r0 "X-Amz-Content-Sha256" "UNSIGNED-PAYLOAD")) "X-Amz-Content-Sha256"
            = "UNSIGNED-PAYLOAD") as Ep by (header_simpl; done).
    rewrite Ep. split_and!; [done| |done]. rewrite <- Hd. header_simpl. done.
  - split_and!; done.
Qed.

Lemma sign_prepared_url i : RURL (sign_prepared i) = RURL (si_Request i).
Proof. unfold sign_prepared. repeat case_match; done. Qed.

Lemma sign_prepared_keys i :
  token_keys (RHeader (si_Request i)) -> token_keys (RHeader (sign_prepared i)).
Proof.
  intros Hk. unfold sign_prepared.
  repeat (case_match || apply token_keys_set); try done.
Qed.

Lemma Sign_token_keys i :
  token_keys (RHeader (si_Request i)) -> token_keys (RHeader (Sign i).1).
Proof.
  intros Hk. destruct (Sign_eq i) as (_ & _ & ->).
  destruct (buildCanonical _ _ _ _); [|by apply sign_prepared_keys].
  apply token_keys_set; [done|]. by apply sign_prepared_keys.
Qed.

Lemma signature_wf secret amzDate date region service canonical :
  String.length (signature_of secret amzDate date region service canonical) = 64 /\
  sall is_lower_hex (signature_of secret amzDate date region service canonical) = true.
Proof.
  unfold signature_of, hmacSHA256. rewrite slength_EncodeToString, slength_hmac_sum.
  split; [done|apply EncodeToString_lower].
Qed.

Lemma digits_scope_part s : sall is_digit s = true -> scope_part s = true.
Proof. intros Hs. unfold scope_part. by rewrite !(sall_sfree is_digit) by done. Qed.

Lemma merge_sort_nonempty (l : list string) : l <> [] -> merge_sort String.le l <> [].
Proof.
  intros Hl E. pose proof (merge_sort_Permutation String.le l) as Hp. rewrite E in Hp.
  by apply Permutation_nil_l in Hp.
Qed.

(** The header [Sign] writes is well formed. *)
Lemma signed_auth_wf i canonical :
  token_keys (RHeader (si_Request i)) -> four_digit_year (si_Now i) ->
  si_AccessKeyID i <> "" -> scope_part (si_AccessKeyID i) = true ->
  scope_part (si_Region i) = true -> scope_part (si_Service i) = true ->
  wf_auth (mkAuth (si_AccessKeyID i) (stake 8 (Format_amz (si_Now i))) (si_Region i) (si_Service i)
             (signedHeaderNames (sign_prepared i))
             (signature_of (si_Secret i) (Format_amz (si_Now i)) (stake 8 (Format_amz (si_Now i)))
                (si_Region i) (si_Service i) canonical)) = true.
Proof.
  intros Hk Hy Hak Hak' Hr Hs. unfold wf_auth.
  cbn [AccessKeyID Date Region Service SignedHeaders Signature].
  rewrite stake_Format_amz by done. rewrite (digits_scope_part (Format_date (si_Now i))) by (by apply sall_Format_date).
  rewrite slength_Format_date by done. rewrite (proj2 (String.eqb_neq _ _) Hak), Hak', Hr, Hs.
  destruct (signature_wf (si_Secret i) (Format_amz (si_Now i)) (Format_date (si_Now i)) (si_Region i) (si_Service i) canonical) as [-> ->].
  cbn [negb andb Nat.eqb]. rewrite !andb_true_r. apply andb_true_iff. split.
  - apply negb_true_iff, Nat.eqb_neq. intros E. apply nil_length_inv in E.
    by apply (merge_sort_nonempty ("host" :: _)) in E.
  - apply forallb_forall. intros n Hn.
    apply signedHeaderNames_class in Hn as (_ & Hne & Hb); [|by apply sign_prepared_keys].
    by rewrite Hb, (proj2 (String.eqb_neq _ _) Hne).
Qed.

(** What [Sign] needs of its caller for the header to be unambiguous. *)
Record sign_ready (i : SignInput) : Prop := {
  ready_keys : token_keys (RHeader (si_Request i));
  ready_year : four_digit_year (si_Now i);
  ready_akid : si_AccessKeyID i <> "";
  ready_akid_scope : scope_part (si_AccessKeyID i) = true;
  ready_region : scope_part (si_Region i) = true;
  ready_service : scope_part (si_Service i) = true
}.

(** [Sign] succeeds exactly on requests whose query the canonicaliser reads. *)
Lemma Sign_ok_iff i :
  (exists r', Sign i = (r', None)) <-> query_meaning (RawQuery (RURL (si_Request i))) "" <> None.
Proof.
  destruct (Sign_eq i) as (_ & _ & ->). unfold buildCanonical. rewrite sign_prepared_url.
  pose proof (canonicalQuery_meaning (RawQuery (RURL (si_Request i))) "") as Hq.
  destruct (query_meaning _ _).
  - rewrite Hq. cbn [res_bind]. split; [done|eauto].
  - destruct Hq as [e ->]. cbn [res_bind]. split; [|done]. by intros [r' [=]].
Qed.

Lemma Sign_verifies i r' :
  sign_ready i -> Sign i = (r', None) ->
  exists a, ParseAuthorization (HGet (RHeader r') "Authorization") = Ok a /\
    AccessKeyID a = si_AccessKeyID i /\
    (HGet (RHeader r') "Authorization" = print_authorization a /\
     SignedHeaders a = signedHeaderNames (sign_prepared i)) /\
    forall now skew,
      (wrap64 (- skew) <= Sub now (si_Now i / Second * Second) <= skew)%Z ->
      Verify (mkInput r' a (si_Secret i) (si_Region i) (si_Service i) now skew) = None.
Proof.
  intros [Hk Hy Hak Hak' Hr Hs] HS. destruct (Sign_eq i) as (Hp & Hd & HE). rewrite HE in HS.
  destruct (buildCanonical _ _ _ _) as [c|e] eqn:Hb; [|done].
  apply pair_equal_spec in HS as [<- _].
  pose proof (signed_auth_wf i c Hk Hy Hak Hak' Hr Hs) as Hw. revert Hw.
  set (a := mkAuth _ _ _ _ _ _). intros Hw.
  assert (forall k, CanonicalKey "Authorization" <> CanonicalKey k ->
    HGet (RHeader (req_set (sign_prepared i) "Authorization" (print_authorization a))) k
    = HGet (RHeader (sign_prepared i)) k) as Hne.
  { intros k Hk'. unfold req_set. simpl RHeader. by rewrite HGet_HSet, decide_False. }
  exists a. split.
  { unfold req_set. simpl RHeader. rewrite HGet_HSet, decide_True by done. by apply parse_print_auth. }
  split; [reflexivity|]. split.
  { split; [|reflexivity]. unfold req_set. simpl RHeader. by rewrite HGet_HSet, decide_True. }
  intros now skew Hskew. apply Verify_None.
  exists (si_Now i / Second * Second)%Z, c.
  split; cbn [in_Request in_Auth in_Secret in_Region in_Service in_Now in_ClockSkew].
  - reflexivity.
  - reflexivity.
  - rewrite Hne, Hd by (vm_compute; discriminate). by apply Parse_Format_amz.
  - exact Hskew.
  - rewrite Hne, Hd by (vm_compute; discriminate). reflexivity.
  - unfold canonicalRequest. rewrite Hne by (vm_compute; discriminate).
    rewrite (proj2 (String.eqb_neq _ _) Hp). rewrite buildCanonical_set_authorization; [exact Hb|].
    apply Forall_forall. intros n Hn. apply list_elem_of_In in Hn.
    apply signedHeaderNames_class in Hn as [Hn _]; [exact Hn|by apply sign_prepared_keys].
  - rewrite Hne, Hd by (vm_compute; discriminate). reflexivity.
Qed.

End SignLemmas.

(** ** Properties *)

Section Properties.
Context `{GoLib}.

(** C3: what [Sign] signs, [Verify] accepts: on a request whose query the
    canonicaliser reads (and only there) signing succeeds, the header it
    writes parses back to the signer's access key, and the signed request
    verifies with the same secret, region and service at every instant within
    the skew of the signing time (truncated to the second). *)
Theorem sign_then_verify i :
  sign_ready i -> query_meaning (RawQuery (RURL (si_Request i))) "" <> None ->
  exists r' a, Sign i = (r', None) /\
    ParseAuthorization (HGet (RHeader r') "Authorization") = Ok a /\
    AccessKeyID a = si_AccessKeyID i /\
    forall now skew,
      (wrap64 (- skew) <= Sub now (si_Now i / Second * Second) <= skew)%Z ->
      Verify (mkInput r' a (si_Secret i) (si_Region i) (si_Service i) now skew) = None.
Proof.
  intros Hi Hq. destruct (proj2 (Sign_ok_iff i) Hq) as [r' Hs].
  destruct (Sign_verifies i r' Hi Hs) as (a & Hp & Ha & _ & Hv). by exists r', a.
Qed.

End Properties.

(** A request for an upload, as an SDK would build it. *)
Definition sample_upload : SignInput :=
  mkSignInput
    (mkRequest "PUT" (mkURL "" "" "/bucket/a key" "" "uploads=&prefix=a%2Fb") "/bucket/a%20key?uploads=&prefix=a%2Fb"
       "s3.example.com"
       (<["X-Amz-Security-Token" := ["tok"]]> {[ "Content-Type" := ["text/plain"] ]}) 3 (Some "abc") None false)
    "OZPX0123456789ABCDEF" "secret" "us-east-1" "s3" "" (1440938160 * Second + 7)%Z.

#[local] Existing Instance ascii_lib.

Lemma sample_upload_ready : sign_ready sample_upload.
Proof.
  split; try reflexivity; try discriminate.
  - apply (bool_decide_unpack _). vm_compute. exact I.
  - vm_compute. split; discriminate.
Qed.

Lemma sign_then_verify_witness :
  exists r' a, Sign sample_upload = (r', None) /\
    ParseAuthorization (HGet (RHeader r') "Authorization") = Ok a /\
    Verify (mkInput r' a "secret" "us-east-1" "s3" (1440938200 * Second)%Z (15 * Minute)%Z) = None.
Proof.
  destruct (sign_then_verify sample_upload sample_upload_ready ltac:(vm_compute; discriminate))
    as (r' & a & Hs & Hp & _ & Hv).
  exists r', a. split; [exact Hs|]. split; [exact Hp|].
  apply Hv. vm_compute. split; discriminate.
Defined.
