(* ===== verification/Store.v ===== *)
(** * Package store: minted credentials and the in-memory store

    Models internal/store/store.go and memory.go: the credential record, its
    minting from random bytes, the [Store] interface the STS handler and the
    data path are written against, and the in-process implementation with its
    sweeper. *)

From Stdlib Require Import Ascii String ZArith NArith Bool Lia.
From stdpp Require Import base tactics list strings gmap relations.
From S2P Require Import Prelude GoStrings GoTime.

(** ** Credentials *)

Record Credentials := mkCredentials {
  cr_AccessKeyID : string;
  cr_SecretAccessKey : string;
  cr_SessionToken : string;
  cr_Username : string;
  cr_Issuer : string;
  cr_ExpiresAt : Time
}.

#[export] Instance Credentials_eq_dec : EqDecision Credentials.
Proof. solve_decision. Defined.

Definition Expired (c : Credentials) (now : Time) : bool := negb (Before now (cr_ExpiresAt c)).

(** ** Minting *)

(** A source of random bytes: what the [i]-th [rand.Read] of a handler puts in
    a buffer of [n] bytes, or [None] when it fails. *)
Definition Entropy := nat -> nat -> option string.

(** [rand.Read] fills the buffer or fails. *)
Definition fills (e : Entropy) : Prop := forall i n s, e i n = Some s -> String.length s = n.

Definition akidPrefix : string := "OZPX".
Definition crockford32 : string := "0123456789ABCDEFGHJKMNPQRSTVWXYZ".

Definition crockford_byte (b : ascii) : ascii :=
  default "0"%char (String.get (N.to_nat (code b mod 32)) crockford32).

Definition randCrockford (read : option string) : option string := smap crockford_byte <$> read.
Definition randBase64URL (read : option string) : option string := RawURLEncode <$> read.

(** [Mint], reading its three buffers as calls [i], [i+1], [i+2]. *)
Definition Mint (e : Entropy) (i : nat) (username issuer : string) (expiresAt : Time)
    : res string Credentials :=
  match randCrockford (e i 16) with
  | None => Err "mint access key id"
  | Some akid =>
      match randBase64URL (e (S i) 30) with
      | None => Err "mint secret"
      | Some secret =>
          match randBase64URL (e (S (S i)) 32) with
          | None => Err "mint session token"
          | Some token => Ok (mkCredentials (akidPrefix +:+ akid) secret token username issuer expiresAt)
          end
      end
  end.

(** ** The interface

    Every operation receives the reading of the store's clock.  [Get] may
    change the state (a client-side cache); errors are messages. *)

Class Store (S : Type) := {
  Put : Time -> Credentials -> S -> S * option string;
  Get : Time -> string -> S -> S * res string (option Credentials);
  Delete : Time -> string -> S -> S * option string;
  Count : Time -> S -> res string Z
}.

(** What a client may rely on: how long a record outlives its expiry, which
    records the store can represent, and for which keys a write is not masked
    by an earlier read (a client-side cache).  Memory has no restrictions. *)
Class StoreLaws (S : Type) `{Store S} := {
  kept_for : Duration;
  storable : Credentials -> Prop;
  unread : string -> S -> Prop;
  (** A record just put is what a successful [Get] returns, as long as its
      retention lasts. *)
  put_get : forall now now' c s s' s'' o,
    storable c -> unread (cr_AccessKeyID c) s ->
    Put now c s = (s', None) ->
    (now <= now' <= cr_ExpiresAt c + kept_for)%Z -> (cr_ExpiresAt c + kept_for - now < max_int64 - Second)%Z ->
    Get now' (cr_AccessKeyID c) s' = (s'', Ok o) -> o = Some c
}.

(** A store in which a deletion takes effect at once. *)
Class StoreRevokes (S : Type) `{Store S} := {
  delete_get : forall now now' k s s' s'' o,
    Delete now k s = (s', None) -> Get now' k s' = (s'', Ok o) -> o = None
}.

(** ** The memory store *)

Module Memory.

Record t := mk {
  creds : gmap string Credentials;
  sweepEvery : Duration;
  retention : Duration;
  stopped : bool
}.

Definition with_creds (m : t) (c : gmap string Credentials) : t :=
  mk c (sweepEvery m) (retention m) (stopped m).

Definition NewMemory : t := mk ∅ Minute Hour false.

(** [WithSweepInterval], [WithRetention] *)
Definition WithSweepInterval (d : Duration) (m : t) : t := mk (creds m) d (retention m) (stopped m).
Definition WithRetention (d : Duration) (m : t) : t := mk (creds m) (sweepEvery m) d (stopped m).

Definition Put (c : Credentials) (m : t) : t := with_creds m (<[cr_AccessKeyID c := c]> (creds m)).
Definition Get (akid : string) (m : t) : option Credentials := creds m !! akid.
Definition Delete (akid : string) (m : t) : t := with_creds m (delete akid (creds m)).

(** The loop of [Count] over the map. *)
Definition Count (now : Time) (m : t) : Z :=
  map_fold (fun _ c n => if Expired c now then n else (n + 1)%Z) 0%Z (creds m).

Definition Close (m : t) : t := mk (creds m) (sweepEvery m) (retention m) true.

(** [sweep]: drop what expired before [now - retention]. *)
Definition sweep (now : Time) (m : t) : t :=
  let cutoff := Add now (wrap64 (- retention m)) in
  with_creds m (filter (fun kc => Before (cr_ExpiresAt kc.2) cutoff = false) (creds m)).

End Memory.

#[export] Instance memory_store : Store Memory.t := {|
  Put _ c m := (Memory.Put c m, None);
  Get _ k m := (m, Ok (Memory.Get k m));
  Delete _ k m := (Memory.Delete k m, None);
  Count now m := Ok (Memory.Count now m)
|}.

(** ** Minted credentials have the documented shape *)

Definition is_crockford (c : ascii) : bool := negb (sfree c crockford32).

Lemma crockford_byte_class c : is_crockford (crockford_byte c) = true.
Proof. by_bytes c. Qed.

Lemma RawURLEncode_step a b c r :
  RawURLEncode (String a (String b (String c r))) =
  let v := (code a * 65536 + code b * 256 + code c)%N in
  String (b64_chr (v / 262144 mod 64)) (String (b64_chr (v / 4096 mod 64))
    (String (b64_chr (v / 64 mod 64)) (String (b64_chr (v mod 64)) (RawURLEncode r)))).
Proof. done. Qed.

(** Strong induction along three-byte groups. *)
Lemma string_ind3 (P : string -> Prop) :
  P "" -> (forall a, P (String a "")) -> (forall a b, P (String a (String b ""))) ->
  (forall a b c r, P r -> P (String a (String b (String c r)))) -> forall s, P s.
Proof.
  intros H0 H1 H2 H3 s. remember (String.length s) as n eqn:E.
  revert s E. induction (lt_wf n) as [n _ IH]. intros [|a [|b [|c r]]] E; auto.
  apply H3. eapply IH; [|reflexivity]. subst. simpl. lia.
Qed.

Lemma RawURLEncode_length s : String.length (RawURLEncode s) = (4 * String.length s + 2) / 3.
Proof.
  induction s as [|a|a b|a b c r IH] using string_ind3; [done..|].
  rewrite RawURLEncode_step. cbv zeta. cbn [String.length]. rewrite IH.
  replace (4 * S (S (S (String.length r))) + 2) with (4 * String.length r + 2 + 4 * 3) by lia.
  rewrite Nat.div_add by lia. lia.
Qed.

Lemma b64_mod v : is_base64url (b64_chr (v mod 64)) = true.
Proof. apply b64_chr_class. by apply N.mod_upper_bound. Qed.

Lemma RawURLEncode_class s : sall is_base64url (RawURLEncode s) = true.
Proof.
  induction s as [|a|a b|a b c r IH] using string_ind3; [done| | |];
  rewrite ?RawURLEncode_step; cbv zeta; cbn [RawURLEncode sall]; by rewrite ?b64_mod, ?IH.
Qed.

Record minted (c : Credentials) (username issuer : string) (expiresAt : Time) : Prop := {
  minted_akid : exists k, cr_AccessKeyID c = akidPrefix +:+ k /\ String.length k = 16
                          /\ sall is_crockford k = true;
  minted_secret : String.length (cr_SecretAccessKey c) = 40
                  /\ sall is_base64url (cr_SecretAccessKey c) = true;
  minted_token : String.length (cr_SessionToken c) = 43
                 /\ sall is_base64url (cr_SessionToken c) = true;
  minted_username : cr_Username c = username;
  minted_issuer : cr_Issuer c = issuer;
  minted_expiry : cr_ExpiresAt c = expiresAt
}.

Lemma Mint_minted e i username issuer expiresAt c :
  fills e -> Mint e i username issuer expiresAt = Ok c -> minted c username issuer expiresAt.
Proof.
  intros Hf. unfold Mint, randCrockford, randBase64URL.
  destruct (e i 16) as [b1|] eqn:E1; [|done]. destruct (e (S i) 30) as [b2|] eqn:E2; [|done].
  destruct (e (S (S i)) 32) as [b3|] eqn:E3; [|done].
  apply Hf in E1, E2, E3. cbn [fmap option_fmap option_map]. intros [= <-].
  split; cbn [cr_AccessKeyID cr_SecretAccessKey cr_SessionToken cr_Username cr_Issuer cr_ExpiresAt];
    try reflexivity.
  - exists (smap crockford_byte b1). rewrite slength_smap, sall_smap. split_and!; [done|done|].
    clear. induction b1 as [|x b1 IH]; simpl; [done|]. by rewrite crockford_byte_class, IH.
  - rewrite RawURLEncode_length, E2, RawURLEncode_class. done.
  - rewrite RawURLEncode_length, E3, RawURLEncode_class. done.
Qed.

(** ** The memory store meets the interface *)

#[export] Instance memory_laws : StoreLaws Memory.t.
Proof.
  refine {| kept_for := Hour; storable := fun _ => True; unread := fun _ _ => True |}.
  intros now now' c s s' s'' o _ _ [= <-] _ _ [= _ <-]. apply lookup_insert_eq.
Defined.

#[export] Instance memory_revokes : StoreRevokes Memory.t.
Proof. split. intros now now' k s s' s'' o [= <-] [= _ <-]. apply lookup_delete_eq. Qed.

Module MemoryProps.
Import Memory.

(** [Count]'s loop counts exactly the unexpired records. *)
Lemma Count_live now m :
  Memory.Count now m = Z.of_nat (size (filter (fun kc => Expired kc.2 now = false) (creds m))).
Proof.
  unfold Memory.Count. generalize (creds m) as l. intros l.
  induction l as [|k c l Hk Hf IH] using map_first_key_ind.
  - by rewrite map_fold_empty, map_filter_empty, map_size_empty.
  - rewrite map_fold_insert_first_key by done. rewrite IH.
    destruct (Expired c now) eqn:E.
    + rewrite map_filter_insert_False by (simpl; congruence). rewrite delete_id by done. done.
    + rewrite map_filter_insert_True by done.
      rewrite map_size_insert_None; [lia|]. by apply map_lookup_filter_None_2; left.
Qed.

(** ** Interleavings

    The store is used by concurrent requests and by the sweeper goroutine;
    the mutex makes each operation atomic, so a run is a sequence of steps.
    [running] is whether the sweeper has not returned yet. *)

Record world := World { mem : Memory.t; running : bool; clock : Time }.

Inductive event :=
| EvPut (c : Credentials)
| EvDelete (akid : string)
| EvClose
| EvTick (now : Time)   (* the ticker fires and [sweep] runs *)
| EvStop.               (* the sweeper sees the closed channel and returns *)

Inductive step : world -> event -> world -> Prop :=
| step_put w c : step w (EvPut c) (World (Put c (mem w)) (running w) (clock w))
| step_delete w k : step w (EvDelete k) (World (Delete k (mem w)) (running w) (clock w))
| step_close w : step w EvClose (World (Close (mem w)) (running w) (clock w))
| step_tick w now :
    running w = true -> (clock w <= now)%Z ->
    step w (EvTick now) (World (sweep now (mem w)) true now)
| step_stop w :
    running w = true -> stopped (mem w) = true ->
    step w EvStop (World (mem w) false (clock w)).

Inductive run : world -> list event -> world -> Prop :=
| run_nil w : run w [] w
| run_snoc w evs w' e w'' : run w evs w' -> step w' e w'' -> run w (evs ++ [e]) w''.

(** The abstract store: what was put last under each key and not deleted
    since; it never expires anything. *)
Definition abs_step (a : gmap string Credentials) (e : event) : gmap string Credentials :=
  match e with
  | EvPut c => <[cr_AccessKeyID c := c]> a
  | EvDelete k => delete k a
  | _ => a
  end.

Definition abs_run (evs : list event) : gmap string Credentials := fold_left abs_step evs ∅.

Lemma abs_run_snoc evs e : abs_run (evs ++ [e]) = abs_step (abs_run evs) e.
Proof. unfold abs_run. by rewrite fold_left_app. Qed.

(** The simulation relation. *)
Record simulates (r : Duration) (w : world) (a : gmap string Credentials) : Prop := {
  sim_retention : retention (mem w) = r;
  sim_sound : creds (mem w) ⊆ a;
  sim_complete : forall k c, a !! k = Some c ->
    creds (mem w) !! k = Some c \/ (cr_ExpiresAt c + r < clock w)%Z;
  sim_keyed : forall k c, a !! k = Some c -> cr_AccessKeyID c = k
}.

Lemma step_simulates r w e w' a :
  (0 <= r <= max_int64)%Z -> simulates r w a -> step w e w' -> simulates r w' (abs_step a e).
Proof.
  intros Hr [Hret Hs Hc Hk] Hst. inversion Hst; subst; split; simpl; try done.
  - by apply insert_mono.
  - intros k c'. rewrite !lookup_insert. case_decide; [by left|]. apply Hc.
  - intros k c'. rewrite lookup_insert. case_decide; [naive_solver|]. apply Hk.
  - by apply delete_mono.
  - intros k' c'. rewrite !lookup_delete. case_decide; [done|]. apply Hc.
  - intros k' c'. rewrite lookup_delete. case_decide; [done|]. apply Hk.
  - etrans; [apply map_filter_subseteq|done].
  - intros k c Ha. destruct (Hc k c Ha) as [Hm|Hx]; [|right; lia].
    unfold sweep. simpl. unfold Add, Before.
    rewrite wrap64_id by (unfold min_int64, max_int64 in *; lia).
    destruct (Z.ltb_spec (cr_ExpiresAt c) (now + - retention (mem w))) as [Hlt|Hge]; [right; lia|].
    left. apply map_lookup_filter_Some_2; [done|]. simpl. by apply Z.ltb_ge.
Qed.

Lemma run_simulates w0 evs w :
  (0 <= retention (mem w0) <= max_int64)%Z -> creds (mem w0) = ∅ -> run w0 evs w ->
  simulates (retention (mem w0)) w (abs_run evs).
Proof.
  intros Hr H0 Hrun. induction Hrun as [w|w0 evs w e w' Hrun IH Hst].
  - split; [done|by rewrite H0|done|done].
  - rewrite abs_run_snoc. eapply step_simulates; [done| |done]. by apply IH.
Qed.

End MemoryProps.

(** ** Properties *)

(** Credentials are minted in the documented shape, bound to the user,
    issuer and expiry they were asked for: an access key ID [OZPX] plus 16
    Crockford characters, a 40-character secret and a 43-character session
    token over the URL-safe base64 alphabet. *)
Theorem mint_shape e i username issuer expiresAt c :
  fills e -> Mint e i username issuer expiresAt = Ok c -> minted c username issuer expiresAt.
Proof. apply Mint_minted. Qed.

Definition zero_entropy : Entropy := fun _ n => Some (String.concat "" (replicate n "0")).

Lemma zero_entropy_fills : fills zero_entropy.
Proof.
  intros i n s [= <-]. induction n as [|n IH]; [done|]. rewrite replicate_S.
  destruct n as [|n]; [done|]. rewrite replicate_S, concat_cons2, !slength_app. simpl in *. lia.
Qed.

Lemma mint_shape_witness :
  exists c, Mint zero_entropy 0 "alice" "kc" 5%Z = Ok c /\ minted c "alice" "kc" 5%Z.
Proof.
  eexists. split; [vm_compute; reflexivity|].
  eapply (mint_shape zero_entropy 0); [apply zero_entropy_fills|]. vm_compute. reflexivity.
Defined.

(** C8: the memory store refines the map of records put and not deleted, under
    every interleaving of puts, deletes, sweeps and the shutdown: it never
    invents or alters a record, and it drops one only after its retention has
    passed. *)
Theorem memory_refines_map r evs w k :
  (0 <= r <= max_int64)%Z ->
  MemoryProps.run (MemoryProps.World (Memory.WithRetention r Memory.NewMemory) true 0%Z) evs w ->
  match Memory.Get k (MemoryProps.mem w) with
  | Some c => MemoryProps.abs_run evs !! k = Some c /\ cr_AccessKeyID c = k
  | None => forall c, MemoryProps.abs_run evs !! k = Some c -> (cr_ExpiresAt c + r < MemoryProps.clock w)%Z
  end.
Proof.
  intros Hr Hrun. apply MemoryProps.run_simulates in Hrun as [_ Hs Hc Hk]; [|done|done].
  simpl in *. unfold Memory.Get. destruct (Memory.creds (MemoryProps.mem w) !! k) as [c|] eqn:E.
  - pose proof (lookup_weaken _ _ _ _ E Hs). eauto.
  - intros c Ha. destruct (Hc k c Ha); congruence.
Qed.

Definition sample_record : Credentials := mkCredentials "OZPX1" "s" "t" "alice" "kc" 100%Z.

(** After the put and two passes of the sweeper, the second past retention. *)
Definition sample_world : MemoryProps.world :=
  MemoryProps.World
    (Memory.sweep 111%Z (Memory.sweep 105%Z (Memory.Put sample_record (Memory.WithRetention 10%Z Memory.NewMemory))))
    true 111%Z.

Lemma memory_refines_map_witness :
  MemoryProps.run (MemoryProps.World (Memory.WithRetention 10%Z Memory.NewMemory) true 0%Z)
    [MemoryProps.EvPut sample_record; MemoryProps.EvTick 105%Z; MemoryProps.EvTick 111%Z] sample_world /\
  Memory.Get "OZPX1" (MemoryProps.mem sample_world) = None /\ (100 + 10 < MemoryProps.clock sample_world)%Z.
Proof.
  assert (MemoryProps.run (MemoryProps.World (Memory.WithRetention 10%Z Memory.NewMemory) true 0%Z)
    ((([] ++ [MemoryProps.EvPut sample_record]) ++ [MemoryProps.EvTick 105%Z]) ++ [MemoryProps.EvTick 111%Z])
    sample_world) as Hrun.
  { eapply MemoryProps.run_snoc; [eapply MemoryProps.run_snoc; [eapply MemoryProps.run_snoc|]|].
    - apply MemoryProps.run_nil.
    - apply MemoryProps.step_put.
    - apply MemoryProps.step_tick; [reflexivity|simpl; lia].
    - apply (MemoryProps.step_tick (MemoryProps.World _ true 105%Z)); [reflexivity|simpl; lia]. }
  assert (Memory.Get "OZPX1" (MemoryProps.mem sample_world) = None) as Hg by (vm_compute; reflexivity).
  split; [exact Hrun|]. split; [exact Hg|].
  pose proof (memory_refines_map 10%Z _ _ "OZPX1" ltac:(vm_compute; split; discriminate) Hrun) as Hm.
  rewrite Hg in Hm. apply (Hm sample_record). vm_compute. reflexivity.
Defined.

(** [Count] of the memory store is the number of unexpired records: no
    expired record is counted and no live one missed. *)
Theorem memory_count_live now m :
  Memory.Count now m =
  Z.of_nat (size (filter (fun kc : string * Credentials => Expired kc.2 now = false) (Memory.creds m))).
Proof. apply MemoryProps.Count_live. Qed.
