(* ===== verification/Forward.v ===== *)
(** * Package forward: identity injection and the reverse proxy

    Models internal/forward/forward.go: the three ways the authenticated
    username is put into the outbound Authorization header, the removal of the
    presigned query parameters, and the request the reverse proxy sends to the
    S3 Gateway (the [Rewrite] callback together with what
    [httputil.ReverseProxy] does around it). *)

From Stdlib Require Import Ascii String ZArith NArith Bool Lia.
From stdpp Require Import base tactics list strings gmap sorting.
From S2P Require Import Prelude GoStrings Sha256 GoTime GoHttp GoXml S3err Sigv4 Presign Sign.

Definition junkSignature : string :=
  "0000000000000000000000000000000000000000000000000000000000000000".

Definition ResignSecret : string := "ozone-oidc-proxy-resign".

(** ** Identity injection *)

Definition ApplySynthetic (r : Request) (username region : string) (now : Time) : Request :=
  let r := req_set r "Authorization"
             (print_authorization
                (mkAuth username (Format_date now) region "s3" ["host"; "x-amz-date"] junkSignature)) in
  let r := req_set r "X-Amz-Date" (Format_amz now) in
  let r := req_set r "X-Amz-Content-Sha256" "UNSIGNED-PAYLOAD" in
  req_del r "X-Amz-Security-Token".

Definition ApplyResign `{GoLib} (r : Request) (username upstreamHost region : string) (now : Time)
    : Request * option sigerr :=
  let r := req_del r "X-Amz-Security-Token" in
  Sign (mkSignInput r username ResignSecret region "s3" upstreamHost now).

Definition RewriteAccessKeyID (r : Request) (auth : Authorization) (username : string) : Request :=
  let signed := filter (fun h => h <> "x-amz-security-token") (SignedHeaders auth) in
  let r := req_set r "Authorization"
             (print_authorization
                (mkAuth username (Date auth) (Region auth) (Service auth) signed (Signature auth))) in
  req_del r "X-Amz-Security-Token".

(** ** Presigned query parameters *)

Definition presignedAuthParams : list string :=
  ["X-Amz-Algorithm"; "X-Amz-Credential"; "X-Amz-Date"; "X-Amz-Expires"; "X-Amz-SignedHeaders";
   "X-Amz-Signature"; "X-Amz-Security-Token"].

Definition keep_part (part : string) : bool :=
  if part =s "" then false
  else
    let '(key, _, _) := Cut "=" part in
    match QueryUnescape key with
    | Some decoded => negb (existsb (String.eqb decoded) presignedAuthParams)
    | None => true
    end.

Definition StripPresignedQuery (r : Request) : Request :=
  let q := RawQuery (RURL r) in
  if q =s "" then r
  else with_url r (with_raw_query (RURL r)
         (Join (List.filter keep_part (Split "&" q)) "&")).

(** ** The reverse proxy *)

(** [textproto.TrimString]: ASCII blanks only. *)
Definition is_blank (c : ascii) : bool :=
  Ascii.eqb c " " || (code c =? 9)%N || (code c =? 10)%N || (code c =? 13)%N.

Fixpoint trim_blank_left (s : string) : string :=
  match s with
  | String c r => if is_blank c then trim_blank_left r else s
  | EmptyString => EmptyString
  end.

Fixpoint trim_blank_right (s : string) : string :=
  match s with
  | EmptyString => EmptyString
  | String c r => if sall is_blank s then EmptyString else String c (trim_blank_right r)
  end.

Definition TrimString (s : string) : string := trim_blank_right (trim_blank_left s).

(** The header names a [Connection] header lists. *)
Definition connection_tokens (h : Header) : list string :=
  List.filter (fun t => t <>s "")
    (map TrimString (concat (map (Split ",") (default [] (h !! "Connection"))))).

Definition hopHeaders : list string :=
  ["Connection"; "Proxy-Connection"; "Keep-Alive"; "Proxy-Authenticate"; "Proxy-Authorization";
   "Te"; "Trailer"; "Transfer-Encoding"; "Upgrade"].

Definition removeHopByHopHeaders (h : Header) : Header :=
  fold_left HDel hopHeaders (fold_left HDel (connection_tokens h) h).

(** [httpguts.HeaderValuesContainsToken], which compares case-insensitively. *)
Definition values_contain_token (values : list string) (token : string) : bool :=
  existsb (fun t => smap lower_byte (TrimString t) =s smap lower_byte token)
    (concat (map (Split ",") values)).

Definition upgradeType (h : Header) : string :=
  if values_contain_token (default [] (h !! "Connection")) "Upgrade" then HGet h "Upgrade" else "".

(** [url.QueryEscape] *)
Definition QueryEscape (s : string) : string :=
  sflat_map (fun c => if uri_unreserved c then String c ""
                      else if Ascii.eqb c " " then "+" else percent_byte c) s.

(** [Values.Encode]: by sorted key, the values of a key in their order. *)
Definition VEncode (q : Values) : string :=
  Join (concat (map (fun k =>
         map (fun kv => QueryEscape k +:+ "=" +:+ QueryEscape (snd kv))
             (List.filter (fun kv => fst kv =s k) q))
       (merge_sort String.le (remove_dups (map fst q))))) "&".

(** Every [%] starts a two-digit escape and there is no [;]. *)
Fixpoint query_clean (s : string) : bool :=
  match s with
  | EmptyString => true
  | String c r =>
      if Ascii.eqb c ";" then false
      else if Ascii.eqb c "%" then
        match r with
        | String a (String b r') => is_hex a && is_hex b && query_clean r'
        | _ => false
        end
      else query_clean r
  end.

Definition cleanQueryParams (s : string) : string :=
  if query_clean s then s else VEncode (fst (ParseQuery s)).

Definition ends_with_slash (s : string) : bool := bool_decide (from_last "/" s = Some "/").

Definition singleJoiningSlash (a b : string) : string :=
  match ends_with_slash a, HasPrefix b "/" with
  | true, true => a +:+ sdrop 1 b
  | false, false => a +:+ "/" +:+ b
  | _, _ => a +:+ b
  end.

Definition joinURLPath (a b : URL) : string * string :=
  if (RawPath a =s "") && (RawPath b =s "") then (singleJoiningSlash (Path a) (Path b), "")
  else
    let apath := EscapedPath a in
    let bpath := EscapedPath b in
    match ends_with_slash apath, HasPrefix bpath "/" with
    | true, true => (Path a +:+ sdrop 1 (Path b), apath +:+ sdrop 1 bpath)
    | false, false => (Path a +:+ "/" +:+ Path b, apath +:+ "/" +:+ bpath)
    | _, _ => (Path a +:+ Path b, apath +:+ bpath)
    end.

(** [pr.SetURL(target)] on the outbound URL. *)
Definition SetURL (target u : URL) : URL :=
  let '(path, rawpath) := joinURLPath target u in
  let query := if (RawQuery target =s "") || (RawQuery u =s "")
               then RawQuery target +:+ RawQuery u
               else RawQuery target +:+ "&" +:+ RawQuery u in
  mkURL (Scheme target) (UHost target) path rawpath query.

(** [pr.SetXForwarded()]: the outbound header carries no earlier
    X-Forwarded-For, because the proxy strips it first. *)
Definition SetXForwarded (r : Request) (h : Header) : Header :=
  let h := match RemoteIP r with
           | Some ip => HSet h "X-Forwarded-For" ip
           | None => HDel h "X-Forwarded-For"
           end in
  let h := HSet h "X-Forwarded-Host" (Host r) in
  HSet h "X-Forwarded-Proto" (if IsTLS r then "https" else "http").

Definition is_print (c : ascii) : bool := (32 <=? code c)%N && (code c <=? 126)%N.

(** The outbound request [NewReverseProxy] builds from [r], or [None] when the
    requested protocol upgrade is not printable. *)
Definition proxy_request (target : URL) (r : Request) : option Request :=
  let h := RHeader r in
  let up := upgradeType h in
  if negb (sall is_print up) then None
  else
  let h' := removeHopByHopHeaders h in
  let h' := if values_contain_token (default [] (h !! "Te")) "trailers"
            then HSet h' "Te" "trailers" else h' in
  let h' := if up <>s "" then HSet (HSet h' "Connection" "Upgrade") "Upgrade" up else h' in
  let h' := HDel (HDel (HDel (HDel h' "Forwarded") "X-Forwarded-For") "X-Forwarded-Host")
              "X-Forwarded-Proto" in
  let h' := SetXForwarded r h' in
  let h' := match h' !! "User-Agent" with None => HSet h' "User-Agent" "" | Some _ => h' end in
  let u := SetURL target (with_raw_query (RURL r) (cleanQueryParams (RawQuery (RURL r)))) in
  Some (mkRequest (Method r) u "" (UHost target) h' (ContentLength r) (Body r)
          (RemoteIP r) (IsTLS r)).

(** What the gateway does with a request is a parameter: it answers, or the
    exchange fails, [canceled] telling whether the client went away first. *)
Inductive upstream_result :=
| Answered (resp : Response)
| Failed (canceled : bool).

(** What the two callbacks observe. *)
Inductive upstream_event :=
| ObservedResponse (code : Z)
| ObservedError
| ObservedNothing.

Definition upstream_failure (path : string) : Response :=
  Write 502 CodeInternalError "upstream S3 gateway unreachable" path "".

(** [NewReverseProxy(target, ...).ServeHTTP] *)
Definition proxy_ServeHTTP (target : URL) (gateway : Request -> upstream_result) (r : Request)
    : Response * upstream_event :=
  match proxy_request target r with
  | None => (upstream_failure (Path (RURL r)), ObservedError)
  | Some out =>
      match gateway out with
      | Answered resp => (resp, ObservedResponse (status resp))
      | Failed canceled =>
          (upstream_failure (Path (RURL out)), if canceled then ObservedNothing else ObservedError)
      end
  end.

(** ** Stripping the presigned parameters *)

Definition is_auth_param (k : string) : bool := existsb (String.eqb k) presignedAuthParams.

Lemma query_part_kept part kv :
  default None (query_part part) = Some kv -> keep_part part = negb (is_auth_param kv.1).
Proof.
  unfold query_part, keep_part. destruct (negb (sfree ";" part)); [done|].
  destruct (part =s ""); [done|]. destruct (Cut "=" part) as [[k v] f].
  destruct (QueryUnescape k) as [k'|]; [|done]. destruct (QueryUnescape v) as [v'|]; [|done].
  by intros [= <-].
Qed.

Lemma omap_step {A B} (f : A -> option B) x l :
  omap f (x :: l) = match f x with Some y => y :: omap f l | None => omap f l end.
Proof. done. Qed.

Lemma omap_query_filter parts :
  omap (fun p => default None p) (map query_part (List.filter keep_part parts)) =
  List.filter (fun kv => negb (is_auth_param kv.1))
    (omap (fun p => default None p) (map query_part parts)).
Proof.
  induction parts as [|p parts IH]; [done|]. pose proof (query_part_kept p) as Hk.
  cbn [List.filter map]. rewrite (omap_step _ (query_part p)).
  destruct (default None (query_part p)) as [kv|] eqn:E.
  - cbn [List.filter]. rewrite <- (Hk kv eq_refl). destruct (keep_part p).
    + cbn [map]. rewrite omap_step, E. by rewrite IH.
    + exact IH.
  - destruct (keep_part p); [|exact IH]. cbn [map]. rewrite omap_step, E. exact IH.
Qed.

Lemma Query_Strip r :
  Query (RURL (StripPresignedQuery r)) =
  List.filter (fun kv => negb (is_auth_param kv.1)) (Query (RURL r)).
Proof.
  unfold StripPresignedQuery. destruct (seqb_spec (RawQuery (RURL r)) "") as [E|_].
  - unfold Query. by rewrite E.
  - unfold Query, ParseQuery. cbn [RURL with_url RawQuery with_raw_query fst].
    rewrite <- omap_query_filter.
    destruct (List.filter keep_part (Split "&" (RawQuery (RURL r)))) as [|p ps] eqn:Ef; [done|].
    rewrite Split_Join; [done|done|]. rewrite <- Ef.
    apply Forall_forall. intros x Hx. apply list_elem_of_In, List.filter_In in Hx as [Hx _].
    pose proof (Split_parts_free "&" (RawQuery (RURL r))) as Hp.
    rewrite Forall_forall in Hp. by apply Hp, list_elem_of_In.
Qed.

Lemma VHas_filter q k (p : string -> bool) :
  p k = false -> VHas (List.filter (fun kv => p kv.1) q) k = false.
Proof.
  intros Hp. unfold VHas. induction q as [|[a b] q IH]; [done|]. cbn [List.filter fst].
  destruct (p a) eqn:E; [|exact IH]. cbn [existsb fst]. rewrite IH, orb_false_r.
  apply String.eqb_neq. congruence.
Qed.

Lemma IsPresigned_Strip r : IsPresigned (StripPresignedQuery r) = false.
Proof. unfold IsPresigned. by rewrite Query_Strip, !(VHas_filter _ _ (fun k => negb (is_auth_param k))). Qed.

Lemma with_raw_query_same r : with_url r (with_raw_query (RURL r) (RawQuery (RURL r))) = r.
Proof. by destruct r as [? [] ? ? ? ? ? ? ?]. Qed.

(** Stripping touches the query string and nothing else. *)
Lemma Strip_frame r :
  StripPresignedQuery r =
  with_url r (with_raw_query (RURL r) (RawQuery (RURL (StripPresignedQuery r)))).
Proof.
  unfold StripPresignedQuery. case_match; [symmetry; apply with_raw_query_same|done].
Qed.

(** ** The identity the gateway reads *)

(** The access key ID an S3 gateway finds in the Authorization header. *)
Definition identity_of `{GoLib} (r : Request) : option string :=
  match ParseAuthorization (HGet (RHeader r) "Authorization") with
  | Ok a => Some (AccessKeyID a)
  | Err _ => None
  end.

(** A username the header can carry: the default username policy implies it. *)
Definition header_safe (username : string) : Prop := username <> "" /\ scope_part username = true.

#[export] Instance header_safe_dec u : Decision (header_safe u).
Proof. unfold header_safe. apply _. Defined.

Section Identity.
Context `{GoLib}.

Lemma identity_set r a :
  wf_auth a = true ->
  identity_of (req_del (req_set r "Authorization" (print_authorization a)) "X-Amz-Security-Token")
  = Some (AccessKeyID a).
Proof. intros Hw. unfold identity_of. header_simpl. by rewrite parse_print_auth. Qed.

Lemma no_token_del r : HGet (RHeader (req_del r "X-Amz-Security-Token")) "X-Amz-Security-Token" = "".
Proof. by header_simpl. Qed.

Lemma ApplySynthetic_identity r username region now :
  header_safe username -> scope_part region = true -> four_digit_year now ->
  identity_of (ApplySynthetic r username region now) = Some username /\
  HGet (RHeader (ApplySynthetic r username region now)) "X-Amz-Security-Token" = "".
Proof.
  intros [Hu Hu'] Hr Hy. split; [|unfold ApplySynthetic; apply no_token_del].
  unfold ApplySynthetic, identity_of. header_simpl.
  rewrite parse_print_auth; [done|]. unfold wf_auth.
  cbn [AccessKeyID Date Region Service SignedHeaders Signature].
  rewrite (proj2 (String.eqb_neq _ _) Hu), Hu', slength_Format_date, Hr by done.
  by rewrite (digits_scope_part (Format_date now)) by (by apply sall_Format_date).
Qed.

(** What [ParseAuthorization] and [Verify] together guarantee of a client's
    header, as far as rewriting needs it. *)
Definition rewritable (a : Authorization) : bool :=
  (String.length (Date a) =? 8)%nat && scope_part (Date a) && scope_part (Region a)
  && scope_part (Service a)
  && existsb (fun h => h <>s "x-amz-security-token") (SignedHeaders a)
  && forallb (fun h => (h <>s "") && sall signed_name_byte h) (SignedHeaders a)
  && (String.length (Signature a) =? 64)%nat && sall is_lower_hex (Signature a).

Lemma RewriteAccessKeyID_identity r a username :
  rewritable a = true -> header_safe username ->
  identity_of (RewriteAccessKeyID r a username) = Some username /\
  HGet (RHeader (RewriteAccessKeyID r a username)) "X-Amz-Security-Token" = "".
Proof.
  intros Hr [Hu Hu']. split; [|unfold RewriteAccessKeyID; apply no_token_del].
  unfold RewriteAccessKeyID. rewrite identity_set; [done|].
  unfold rewritable in Hr. unfold wf_auth.
  cbn [AccessKeyID Date Region Service SignedHeaders Signature].
  rewrite (proj2 (String.eqb_neq _ _) Hu), Hu'.
  rewrite !andb_true_iff in Hr. destruct Hr as (((((((-> & ->) & ->) & ->) & He) & Hf) & ->) & ->).
  rewrite !andb_true_r. cbn [negb andb]. apply andb_true_iff. split.
  - apply existsb_exists in He as (h & Hin & Hh). apply sneqb_true in Hh.
    apply negb_true_iff, Nat.eqb_neq. intros E. apply nil_length_inv in E.
    assert (h ∈ filter (fun h => h <> "x-amz-security-token") (SignedHeaders a)) as Hx
      by (apply list_elem_of_filter; split; [done|by apply list_elem_of_In]).
    rewrite E in Hx. by apply not_elem_of_nil in Hx.
  - rewrite forallb_forall in Hf |- *. intros h Hin.
    apply list_elem_of_In, list_elem_of_filter in Hin as [_ Hin].
    by apply Hf, list_elem_of_In.
Qed.

(** The proxy forwards the signature, date and every header other than the
    two it replaces as the client sent them. *)
Lemma RewriteAccessKeyID_frame r a username k :
  CanonicalKey k <> "Authorization" -> CanonicalKey k <> "X-Amz-Security-Token" ->
  HGet (RHeader (RewriteAccessKeyID r a username)) k = HGet (RHeader r) k.
Proof.
  intros H1 H2. unfold RewriteAccessKeyID, req_set, req_del. simpl RHeader.
  rewrite HGet_HDel, decide_False by (intros E; apply H2; rewrite <- E; reflexivity).
  by rewrite HGet_HSet, decide_False by (intros E; apply H1; rewrite <- E; reflexivity).
Qed.

(** The signer's input in resign mode meets its conditions. *)
Definition resign_input (r : Request) (username upstreamHost region : string) (now : Time) : SignInput :=
  mkSignInput (req_del r "X-Amz-Security-Token") username ResignSecret region "s3" upstreamHost now.

Lemma resign_ready r username upstreamHost region now :
  token_keys (RHeader r) -> header_safe username -> scope_part region = true -> four_digit_year now ->
  sign_ready (resign_input r username upstreamHost region now).
Proof. intros Hk [Hu Hu'] Hr Hy. split; try done. simpl. by apply token_keys_del. Qed.

Lemma ApplyResign_ok r username upstreamHost region now :
  token_keys (RHeader r) -> header_safe username -> scope_part region = true ->
  four_digit_year now -> query_meaning (RawQuery (RURL r)) "" <> None ->
  exists r', ApplyResign r username upstreamHost region now = (r', None) /\
    identity_of r' = Some username /\
    exists a, ParseAuthorization (HGet (RHeader r') "Authorization") = Ok a /\
      forall t skew,
        (wrap64 (- skew) <= Sub t (now / Second * Second) <= skew)%Z ->
        Verify (mkInput r' a ResignSecret region "s3" t skew) = None.
Proof.
  intros Hk Hu Hr Hy Hq. set (i := resign_input r username upstreamHost region now).
  assert (sign_ready i) as Hi by (by apply resign_ready).
  destruct (proj2 (Sign_ok_iff i) Hq) as [r' Hr'].
  destruct (Sign_verifies i r' Hi Hr') as (a & Hp & Ha & _ & Hv).
  exists r'. split; [exact Hr'|]. split.
  - unfold identity_of. by rewrite Hp, Ha.
  - by exists a.
Qed.

End Identity.

(** ** What survives the reverse proxy *)

Lemma HGet_fold_HDel l h k :
  HGet (fold_left HDel l h) k = if decide (CanonicalKey k ∈ map CanonicalKey l) then "" else HGet h k.
Proof.
  revert h. induction l as [|x l IH]; intros h; cbn [fold_left map].
  - by rewrite decide_False by apply not_elem_of_nil.
  - rewrite IH, HGet_HDel. repeat case_decide; rewrite ?elem_of_cons in *; naive_solver.
Qed.

(** The names [removeHopByHopHeaders] deletes. *)
Definition connection_named (h : Header) (k : string) : Prop :=
  CanonicalKey k ∈ map CanonicalKey (connection_tokens h).

#[export] Instance connection_named_dec h k : Decision (connection_named h k).
Proof. unfold connection_named. apply _. Defined.

Definition proxy_owned : list string :=
  hopHeaders ++ ["Forwarded"; "X-Forwarded-For"; "X-Forwarded-Host"; "X-Forwarded-Proto"; "User-Agent"].

Lemma proxy_owned_canonical n : n ∈ proxy_owned -> CanonicalKey n = n.
Proof.
  revert n. apply Forall_forall. unfold proxy_owned, hopHeaders. cbn [app].
  repeat (constructor; [reflexivity|]). constructor.
Qed.

Lemma HGet_HSet_other h n k v : n ∈ proxy_owned -> CanonicalKey k ∉ proxy_owned -> HGet (HSet h n v) k = HGet h k.
Proof.
  intros Hn Hk. rewrite HGet_HSet, decide_False; [done|]. intros E. apply Hk. rewrite <- E.
  by rewrite proxy_owned_canonical.
Qed.

Lemma HGet_HDel_other h n k : n ∈ proxy_owned -> CanonicalKey k ∉ proxy_owned -> HGet (HDel h n) k = HGet h k.
Proof.
  intros Hn Hk. rewrite HGet_HDel, decide_False; [done|]. intros E. apply Hk. rewrite <- E.
  by rewrite proxy_owned_canonical.
Qed.

Lemma HGet_removeHopByHop h k :
  CanonicalKey k ∉ proxy_owned ->
  HGet (removeHopByHopHeaders h) k = if decide (connection_named h k) then "" else HGet h k.
Proof.
  intros Hk. unfold removeHopByHopHeaders. rewrite !HGet_fold_HDel, decide_False; [done|].
  intros (n & Hn & Hin)%list_elem_of_In%in_map_iff.
  assert (n ∈ proxy_owned) as Ho by (apply elem_of_app; left; by apply list_elem_of_In).
  apply Hk. rewrite <- Hn. by rewrite proxy_owned_canonical.
Qed.

Ltac owned := apply list_elem_of_In; vm_compute; tauto.

(** Every header the proxy does not own reaches the gateway unchanged, unless
    the client's [Connection] header names it. *)
Lemma proxy_request_HGet target r out k :
  proxy_request target r = Some out -> CanonicalKey k ∉ proxy_owned ->
  HGet (RHeader out) k = if decide (connection_named (RHeader r) k) then "" else HGet (RHeader r) k.
Proof.
  unfold proxy_request, SetXForwarded. case_match; [done|]. intros E Hk.
  apply (inj Some) in E. rewrite <- E. clear E. cbn [RHeader].
  rewrite <- HGet_removeHopByHop by done.
  repeat first [ case_match | rewrite HGet_HSet_other by (assumption || owned)
               | rewrite HGet_HDel_other by (assumption || owned) ]; reflexivity.
Qed.

(** ** Resigning cannot fail after a verification *)

Section Resignable.
Context `{GoLib}.

Lemma buildCanonical_query r names sk p c :
  buildCanonical r names sk p = Ok c -> mapM decode_part (nonempty_parts (RawQuery (RURL r))) <> None.
Proof.
  unfold buildCanonical. pose proof (canonicalQuery_meaning (RawQuery (RURL r)) sk) as Hq.
  unfold query_meaning in Hq. destruct (mapM _ _); [done|]. destruct Hq as [e ->]. done.
Qed.

Lemma mapM_sublist {A B} (f : A -> option B) l l' :
  (forall x, x ∈ l' -> x ∈ l) -> mapM f l <> None -> mapM f l' <> None.
Proof.
  intros Hsub Hl. assert (is_Some (mapM f l)) as Hs by (destruct (mapM f l); [by eexists|done]).
  apply mapM_is_Some in Hs. rewrite Forall_forall in Hs.
  assert (is_Some (mapM f l')) as [k ->]; [|done]. apply mapM_is_Some, Forall_forall. auto.
Qed.

Lemma query_meaning_decodes q : mapM decode_part (nonempty_parts q) <> None -> query_meaning q "" <> None.
Proof. unfold query_meaning. by destruct (mapM _ _). Qed.

Lemma Strip_parts r x :
  x ∈ nonempty_parts (RawQuery (RURL (StripPresignedQuery r))) -> x ∈ nonempty_parts (RawQuery (RURL r)).
Proof.
  unfold StripPresignedQuery. destruct (_ =s ""); [done|]. cbn [RURL with_url RawQuery with_raw_query].
  unfold nonempty_parts. rewrite !list_elem_of_filter. intros [Hne Hx]. split; [done|].
  destruct (List.filter keep_part (Split "&" (RawQuery (RURL r)))) as [|p ps] eqn:Ef.
  { simpl in Hx. by apply list_elem_of_singleton in Hx as ->. }
  rewrite Split_Join in Hx; [| done |].
  - rewrite <- Ef in Hx. apply list_elem_of_In, List.filter_In in Hx as [Hx _]. by apply list_elem_of_In.
  - rewrite <- Ef. apply Forall_forall. intros y Hy. apply list_elem_of_In, List.filter_In in Hy as [Hy _].
    pose proof (Split_parts_free "&" (RawQuery (RURL r))) as Hp.
    rewrite Forall_forall in Hp. by apply Hp, list_elem_of_In.
Qed.

Lemma Verify_query i : Verify i = None -> query_meaning (RawQuery (RURL (in_Request i))) "" <> None.
Proof.
  intros (t & c & Ha)%Verify_None. apply query_meaning_decodes.
  by eapply buildCanonical_query, (acc_canonical _ _ _ Ha).
Qed.

Lemma VerifyPresigned_query i :
  VerifyPresigned i = None -> query_meaning (RawQuery (RURL (StripPresignedQuery (pi_Request i)))) "" <> None.
Proof.
  intros (t & c & Ha)%VerifyPresigned_None. apply query_meaning_decodes.
  eapply mapM_sublist; [apply Strip_parts|]. by eapply buildCanonical_query, (pa_canonical _ _ _ Ha).
Qed.

End Resignable.

(** ** What reaches the gateway *)

Section Wire.
Context `{GoLib}.

(** Injecting the identity edits four headers. *)
Definition identity_headers : list string :=
  ["Authorization"; "X-Amz-Date"; "X-Amz-Content-Sha256"; "X-Amz-Security-Token"].

Definition edits (r r' : Request) : Prop :=
  RURL r' = RURL r /\ forall k, k ∉ identity_headers -> RHeader r' !! k = RHeader r !! k.

Lemma edits_set r r' n v : CanonicalKey n ∈ identity_headers -> edits r r' -> edits r (req_set r' n v).
Proof.
  intros Hn [Hu Hk]. split; [done|]. intros k Hk'. cbn. unfold HSet. rewrite lookup_insert_ne by set_solver. by apply Hk.
Qed.

Lemma edits_del r r' : edits r r' -> edits r (req_del r' "X-Amz-Security-Token").
Proof.
  intros [Hu Hk]. split; [done|]. intros k Hk'. cbn. unfold HDel. rewrite lookup_delete_ne by (cbn; set_solver). by apply Hk.
Qed.

Lemma edits_refl r : edits r r.
Proof. done. Qed.

Lemma Sign_edits r i : edits r (si_Request i) -> edits r (Sign i).1.
Proof.
  intros He. destruct (Sign_eq i) as (_ & _ & ->).
  assert (edits r (sign_prepared i)) as Hp.
  { unfold sign_prepared. repeat case_match; repeat (apply edits_set; [vm_compute; set_solver|]); exact He. }
  destruct (buildCanonical _ _ _ _); [|exact Hp]. apply edits_set; [vm_compute; set_solver|exact Hp].
Qed.

Lemma ApplyResign_edits r u host region now : edits r (ApplyResign r u host region now).1.
Proof. apply Sign_edits, edits_del, edits_refl. Qed.

(** The identity the gateway parses from what the reverse proxy sends it, when
    the injected one is [u]: none if the client's [Connection] header names
    Authorization, [u] otherwise. *)
Definition gateway_reads (client : Request) (u : string) : option string :=
  if decide (connection_named (RHeader client) "Authorization") then None else Some u.

Lemma edits_connection r r' k : edits r r' -> connection_named (RHeader r') k <-> connection_named (RHeader r) k.
Proof.
  intros [_ Hk]. unfold connection_named, connection_tokens. rewrite (Hk "Connection"); [done|].
  unfold identity_headers. set_solver.
Qed.

Lemma not_owned k : bool_decide (CanonicalKey k ∈ proxy_owned) = false -> CanonicalKey k ∉ proxy_owned.
Proof. apply bool_decide_eq_false. Qed.

Lemma wire_identity target client out sent u :
  edits client out -> identity_of out = Some u -> proxy_request target out = Some sent ->
  identity_of sent = gateway_reads client u.
Proof.
  intros He Hi Hp. unfold identity_of in *.
  rewrite (proxy_request_HGet _ _ _ "Authorization" Hp) by (apply not_owned; reflexivity). unfold gateway_reads.
  destruct (decide (connection_named (RHeader client) "Authorization")) as [Hc|Hc].
  - rewrite decide_True; [done|]. by apply (edits_connection client).
  - rewrite decide_False; [done|]. by rewrite (edits_connection client).
Qed.

Lemma wire_token target out sent :
  HGet (RHeader out) "X-Amz-Security-Token" = "" -> proxy_request target out = Some sent ->
  HGet (RHeader sent) "X-Amz-Security-Token" = "".
Proof.
  intros Ht Hp. rewrite (proxy_request_HGet _ _ _ "X-Amz-Security-Token" Hp) by (apply not_owned; reflexivity).
  by destruct (decide _).
Qed.

End Wire.

(** ** The parts of a stripped query *)

(** The name of a query part decodes to a SigV4 query-auth parameter. *)
Definition names_auth_param (part : string) : Prop :=
  exists name, QueryUnescape (Cut "=" part).1.1 = Some name /\ name ∈ presignedAuthParams.

#[export] Instance names_auth_param_dec part : Decision (names_auth_param part).
Proof.
  refine (match QueryUnescape (Cut "=" part).1.1 as o
          return QueryUnescape (Cut "=" part).1.1 = o -> Decision (names_auth_param part) with
          | Some name => fun E => cast_if (decide (name ∈ presignedAuthParams))
          | None => fun E => right _
          end eq_refl); unfold names_auth_param; [by exists name|naive_solver|naive_solver].
Defined.

Lemma keep_part_spec part : keep_part part = true <-> part <> "" /\ ~ names_auth_param part.
Proof.
  unfold keep_part, names_auth_param. destruct (seqb_spec part "") as [->|Hne]; [naive_solver|].
  destruct (Cut "=" part) as [[k v] f]. cbn [fst]. destruct (QueryUnescape k) as [name|]; [|naive_solver].
  rewrite negb_true_iff, <- not_true_iff_false, existsb_exists. split.
  - intros Hn. split; [done|]. intros (name' & [= <-] & Hin). apply Hn. exists name. by rewrite seqb_refl, <- list_elem_of_In.
  - intros [_ Hn] (x & Hx & ->%String.eqb_eq). apply Hn. exists x. by rewrite list_elem_of_In.
Qed.

Lemma Strip_raw_query r :
  RawQuery (RURL (StripPresignedQuery r)) = Join (filter (fun p => ~ names_auth_param p) (nonempty_parts (RawQuery (RURL r)))) "&".
Proof.
  unfold StripPresignedQuery. destruct (seqb_spec (RawQuery (RURL r)) "") as [E|_]; [by rewrite E|].
  cbn [RURL with_url RawQuery with_raw_query]. f_equal. unfold nonempty_parts.
  induction (Split "&" (RawQuery (RURL r))) as [|p l IH]; [done|]. cbn [List.filter]. rewrite filter_cons.
  pose proof (keep_part_spec p) as Hk. destruct (keep_part p), (decide (p <> "")) as [Hp|Hp].
  - rewrite filter_cons, decide_True by tauto. by rewrite IH.
  - tauto.
  - rewrite filter_cons, decide_False by (intros Hn; assert (false = true) by tauto; done). exact IH.
  - exact IH.
Qed.

(** ** Properties *)

Section Properties.
Context `{GoLib}.

(** C16: stripping removes every SigV4 query-auth parameter, under any escaping
    of its name, and nothing else: the raw query is the client's parts, byte for
    byte and in order, without the empty ones and those whose name decodes to
    such a parameter (a part whose name does not decode stays); the decoded
    query is the client's without those parameters; the rest of the request is
    untouched; and the result is no longer a presigned request. *)
Theorem strip_presigned_exact r :
  RawQuery (RURL (StripPresignedQuery r)) =
    Join (filter (fun part => ~ names_auth_param part) (nonempty_parts (RawQuery (RURL r)))) "&" /\
  Query (RURL (StripPresignedQuery r)) =
    List.filter (fun kv => negb (is_auth_param kv.1)) (Query (RURL r)) /\
  StripPresignedQuery r =
    with_url r (with_raw_query (RURL r) (RawQuery (RURL (StripPresignedQuery r)))) /\
  IsPresigned (StripPresignedQuery r) = false.
Proof. split_and!; [apply Strip_raw_query|apply Query_Strip|apply Strip_frame|apply IsPresigned_Strip]. Qed.

(** Rewriting the access key keeps the client's request: the gateway reads
    the username as access key ID, the session token is gone, and every other
    header is what the client sent. *)
Theorem rewrite_attributes r a username :
  rewritable a = true -> header_safe username ->
  identity_of (RewriteAccessKeyID r a username) = Some username /\
  HGet (RHeader (RewriteAccessKeyID r a username)) "X-Amz-Security-Token" = "" /\
  forall k, CanonicalKey k <> "Authorization" -> CanonicalKey k <> "X-Amz-Security-Token" ->
    HGet (RHeader (RewriteAccessKeyID r a username)) k = HGet (RHeader r) k.
Proof.
  intros Ha Hu. destruct (RewriteAccessKeyID_identity r a username Ha Hu) as [H1 H2].
  split_and!; [done|done|]. intros k. apply RewriteAccessKeyID_frame.
Qed.

(** C11: in resign mode the signer cannot fail on a request the SigV4 lane
    verified (for a username and a region the credential scope can carry, header
    names that are tokens, and a four-digit year): the re-signed request carries
    the username and verifies against the resign secret, so the fallback is
    never taken.  What the reverse proxy sends of it carries the username too,
    or, if the client's Connection header names Authorization, no identity. *)
Theorem resign_after_verify i username upstreamHost region now :
  Verify i = None ->
  token_keys (RHeader (in_Request i)) -> header_safe username -> scope_part region = true ->
  four_digit_year now ->
  exists r', ApplyResign (in_Request i) username upstreamHost region now = (r', None) /\
    identity_of r' = Some username /\
    (exists a, ParseAuthorization (HGet (RHeader r') "Authorization") = Ok a /\
       forall t skew,
         (wrap64 (- skew) <= Sub t (now / Second * Second) <= skew)%Z ->
         Verify (mkInput r' a ResignSecret region "s3" t skew) = None) /\
    forall target sent, proxy_request target r' = Some sent -> identity_of sent = gateway_reads (in_Request i) username.
Proof.
  intros Hv Hk Hu Hr Hy. pose proof (ApplyResign_edits (in_Request i) username upstreamHost region now) as He.
  destruct (ApplyResign_ok (in_Request i) username upstreamHost region now) as (r' & Ha & Hi & Hp); auto; [by apply Verify_query|].
  rewrite Ha in He. exists r'. split_and!; [done|done|done|]. intros target sent. by apply wire_identity.
Qed.

(** The same on the presigned lane, where the request that is signed is the
    stripped one. *)
Theorem resign_after_presigned i username upstreamHost region now :
  VerifyPresigned i = None ->
  token_keys (RHeader (pi_Request i)) -> header_safe username -> scope_part region = true ->
  four_digit_year now ->
  exists r', ApplyResign (StripPresignedQuery (pi_Request i)) username upstreamHost region now = (r', None) /\
    identity_of r' = Some username.
Proof.
  intros Hv Hk Hu Hr Hy.
  destruct (ApplyResign_ok (StripPresignedQuery (pi_Request i)) username upstreamHost region now)
    as (r' & Hs & Hi & _); eauto.
  - by rewrite Strip_frame.
  - by apply VerifyPresigned_query.
Qed.

(** The reverse proxy passes on every header it does not own, except those
    the client's [Connection] header lists, which it removes. *)
Theorem proxy_preserves_headers target r out k :
  proxy_request target r = Some out -> CanonicalKey k ∉ proxy_owned ->
  HGet (RHeader out) k = if decide (connection_named (RHeader r) k) then "" else HGet (RHeader r) k.
Proof. apply proxy_request_HGet. Qed.

(** C36: in particular the identity the proxy injects is lost on the way to the
    gateway whenever the client lists [Authorization] in its [Connection]
    header: the outbound request has no Authorization header at all. *)
Theorem connection_header_strips_identity target r out username region now :
  CanonicalKey "Authorization" ∈ map CanonicalKey (connection_tokens (RHeader r)) ->
  proxy_request target (ApplySynthetic r username region now) = Some out ->
  HGet (RHeader out) "Authorization" = "".
Proof.
  intros Hc Hp. rewrite (proxy_request_HGet _ _ _ "Authorization" Hp).
  - rewrite decide_True; [done|]. unfold connection_named, connection_tokens in *.
    unfold ApplySynthetic, req_set, req_del, HSet, HDel. cbn [RHeader with_header].
    by rewrite lookup_delete_ne, !lookup_insert_ne by (vm_compute; discriminate).
  - intros Hin. apply list_elem_of_In in Hin. vm_compute in Hin.
    repeat (destruct Hin as [Hin|Hin]; [discriminate Hin|]). exact Hin.
Qed.

End Properties.

#[local] Existing Instance ascii_lib.

Lemma rewrite_attributes_witness :
  rewritable Vanilla.auth = true /\ header_safe "alice" /\
  identity_of (RewriteAccessKeyID Vanilla.request Vanilla.auth "alice") = Some "alice".
Proof.
  assert (header_safe "alice") as Hu by (split; [discriminate|reflexivity]).
  split; [reflexivity|]. split; [exact Hu|].
  apply (rewrite_attributes Vanilla.request Vanilla.auth "alice"); [reflexivity|exact Hu].
Defined.

Lemma resign_after_verify_witness :
  Verify Vanilla.input = None /\
  exists r', ApplyResign Vanilla.request "alice" "gateway:9878" "us-east-1" (1440938170 * Second)%Z = (r', None)
             /\ identity_of r' = Some "alice".
Proof.
  pose proof vanilla_verifies as Hv.
  split; [exact Hv|].
  destruct (resign_after_verify Vanilla.input "alice" "gateway:9878" "us-east-1" (1440938170 * Second)%Z)
    as (r' & Hr & Hi & _); [exact Hv| | |reflexivity| |].
  - apply (bool_decide_unpack _). vm_compute. exact I.
  - split; [discriminate|reflexivity].
  - vm_compute. split; discriminate.
  - exists r'. split; [exact Hr|exact Hi].
Defined.

Lemma resign_after_presigned_witness :
  VerifyPresigned (SamplePresigned.input (1440938190 * Second)%Z) = None /\
  exists r', ApplyResign (StripPresignedQuery SamplePresigned.request) "alice" "gateway:9878" "us-east-1"
               (1440938190 * Second)%Z = (r', None) /\ identity_of r' = Some "alice".
Proof.
  pose proof sample_presigned_verifies as Hv.
  split; [exact Hv|].
  apply (resign_after_presigned (SamplePresigned.input (1440938190 * Second)%Z));
    [exact Hv| | |reflexivity|].
  - apply (bool_decide_unpack _). vm_compute. exact I.
  - split; [discriminate|reflexivity].
  - vm_compute. split; discriminate.
Defined.

(** A client that names the Authorization header in its Connection header. *)
Definition hostile_request : Request :=
  with_header Vanilla.request (<["Connection" := ["close, Authorization"]]> (RHeader Vanilla.request)).

Definition gateway_url : URL := mkURL "http" "gateway:9878" "" "" "".

Lemma proxy_preserves_headers_witness :
  exists out, proxy_request gateway_url Vanilla.request = Some out /\
    HGet (RHeader out) "X-Amz-Date" = "20150830T123600Z".
Proof.
  destruct (proxy_request gateway_url Vanilla.request) as [out|] eqn:E; [|vm_compute in E; discriminate E].
  exists out. split; [reflexivity|].
  rewrite (proxy_preserves_headers _ _ _ "X-Amz-Date" E).
  - vm_compute. reflexivity.
  - intros Hin. apply list_elem_of_In in Hin. vm_compute in Hin.
    repeat (destruct Hin as [Hin|Hin]; [discriminate Hin|]). exact Hin.
Defined.

Lemma connection_header_strips_identity_witness :
  exists out, proxy_request gateway_url
      (ApplySynthetic hostile_request "alice" "us-east-1" (1440938170 * Second)%Z) = Some out /\
    HGet (RHeader out) "Authorization" = "".
Proof.
  destruct (proxy_request gateway_url
      (ApplySynthetic hostile_request "alice" "us-east-1" (1440938170 * Second)%Z)) as [out|] eqn:E;
    [|vm_compute in E; discriminate E].
  exists out. split; [reflexivity|].
  apply (connection_header_strips_identity gateway_url hostile_request out "alice" "us-east-1"
           (1440938170 * Second)%Z); [|exact E].
  apply list_elem_of_In. vm_compute. tauto.
Defined.
