(* ===== verification/Config.v ===== *)
(** * Package config: loading and validating the configuration

    Models internal/config/config.go.  Decoding YAML into the structure is the
    work of a third-party package and is an argument of [Parse]; the
    environment is a function; everything after the decoding (overrides,
    defaults, validation) is here. *)

From Stdlib Require Import Ascii String ZArith NArith Bool Lia.
From stdpp Require Import base tactics list strings gmap.
From S2P Require Import Prelude GoStrings GoTime GoFloat GoDuration GoHttp.

Definition ForwardModeRewrite : string := "rewrite".
Definition ForwardModeResign : string := "resign".
Definition StoreMemory : string := "memory".
Definition StoreValkey : string := "valkey".

Definition supportedSigningAlgs : gset string :=
  list_to_set ["RS256"; "RS384"; "RS512"; "PS256"; "PS384"; "PS512"; "ES256"; "ES384"; "ES512"].

(** ** Durations *)

Inductive duration_error := Undecodable | InvalidDuration (s : string).

(** [Duration.UnmarshalYAML] of a node, given what [node.Decode] into a string
    makes of it: [None] for a node it cannot decode, such as a mapping or a
    sequence.  A scalar that is not a string, such as the number 0, decodes
    into its text. *)
Definition UnmarshalYAML (node : option string) : res duration_error Duration :=
  match node with
  | None => Err Undecodable
  | Some s =>
      match ParseDuration s with
      | None => Err (InvalidDuration s)
      | Some v => Ok v
      end
  end.

(** [Duration.Std]: the conversion does not change the value. *)
Definition Std (d : Duration) : Duration := d.

(** ** The structure *)

Record Upstream := mkUpstream { S3Endpoint : string; ForwardMode : string }.

(** The two pointers of the Go structure are options. *)
Record DataPath := mkDataPath { AcceptBearer : option bool; Strict : option bool }.

Definition BearerEnabled (d : DataPath) : bool := default true (AcceptBearer d).
Definition StrictEnabled (d : DataPath) : bool := default true (Strict d).

Record Issuer := mkIssuer {
  Name : string;
  IssuerURL : string;
  JWKSURI : string;
  Audiences : list string;
  UsernameClaim : string
}.

Record STS := mkSTS { MaxDuration : Z; RoleARNAllowlist : list string }.
Record ValkeyStore := mkValkeyStore { Addr : string; KeyEnv : string }.
Record CredentialStore := mkCredentialStore { Type_ : string; Valkey : ValkeyStore }.

Record Security := mkSecurity {
  SigV4ClockSkew : Duration;
  AllowedSigningAlgs : list string;
  SecRegion : string
}.

(** [regex] is the compiled pattern: nil until [validate] succeeds. *)
Record UsernamePolicy := mkUsernamePolicy { Pattern : string; regex : option (string -> bool) }.

Definition policy_Validate (p : UsernamePolicy) (username : string) : bool :=
  match regex p with
  | None => false
  | Some re => re username
  end.

Record Config := mkConfig {
  Listen : string;
  AdminListen : string;
  cfg_Upstream : Upstream;
  cfg_DataPath : DataPath;
  cfg_Issuers : list Issuer;
  cfg_STS : STS;
  cfg_CredentialStore : CredentialStore;
  cfg_Security : Security;
  cfg_UsernamePolicy : UsernamePolicy
}.

(** ** Environment overrides *)

(** [strconv.ParseBool] *)
Definition ParseBool (s : string) : option bool :=
  if existsb (String.eqb s) ["1"; "t"; "T"; "TRUE"; "true"; "True"] then Some true
  else if existsb (String.eqb s) ["0"; "f"; "F"; "FALSE"; "false"; "False"] then Some false
  else None.

Definition override (v old : string) : string := if v <>s "" then v else old.

(** An override that does not parse as a boolean is ignored. *)
Definition override_bool (v : string) (old : option bool) : option bool :=
  if v <>s "" then match ParseBool v with Some b => Some b | None => old end else old.

Definition applyEnv (getenv : string -> string) (c : Config) : Config :=
  mkConfig
    (override (getenv "OZPX_LISTEN") (Listen c))
    (override (getenv "OZPX_ADMIN_LISTEN") (AdminListen c))
    (mkUpstream (override (getenv "OZPX_UPSTREAM_S3_ENDPOINT") (S3Endpoint (cfg_Upstream c)))
                (ForwardMode (cfg_Upstream c)))
    (mkDataPath (override_bool (getenv "OZPX_ACCEPT_BEARER") (AcceptBearer (cfg_DataPath c)))
                (override_bool (getenv "OZPX_STRICT") (Strict (cfg_DataPath c))))
    (cfg_Issuers c) (cfg_STS c) (cfg_CredentialStore c) (cfg_Security c) (cfg_UsernamePolicy c).

(** ** Defaults *)

Definition or_default (v d : string) : string := if v =s "" then d else v.

Definition default_issuer (i : Issuer) : Issuer :=
  mkIssuer (Name i) (IssuerURL i) (JWKSURI i) (Audiences i)
    (or_default (UsernameClaim i) "preferred_username").

Definition applyDefaults (c : Config) : Config :=
  let sts := cfg_STS c in
  let cs := cfg_CredentialStore c in
  let sec := cfg_Security c in
  mkConfig
    (or_default (Listen c) "0.0.0.0:9000")
    (or_default (AdminListen c) "0.0.0.0:9090")
    (mkUpstream (S3Endpoint (cfg_Upstream c))
                (or_default (ForwardMode (cfg_Upstream c)) ForwardModeRewrite))
    (cfg_DataPath c)
    (map default_issuer (cfg_Issuers c))
    (mkSTS (if (MaxDuration sts =? 0)%Z then 3600 else MaxDuration sts) (RoleARNAllowlist sts))
    (mkCredentialStore (or_default (Type_ cs) StoreMemory)
       (mkValkeyStore (Addr (Valkey cs)) (or_default (KeyEnv (Valkey cs)) "OZPX_STORE_KEY")))
    (mkSecurity (if (SigV4ClockSkew sec =? 0)%Z then (15 * Minute)%Z else SigV4ClockSkew sec)
       (if (length (AllowedSigningAlgs sec) =? 0)%nat then ["RS256"; "ES256"] else AllowedSigningAlgs sec)
       (or_default (SecRegion sec) "us-east-1"))
    (mkUsernamePolicy (or_default (Pattern (cfg_UsernamePolicy c)) default_username_pattern)
       (regex (cfg_UsernamePolicy c))).

(** ** Validation *)

(** The errors: a message built here, or one that wraps the text of a library
    error after the given prefix. *)
Inductive cfgerr :=
| Msg (s : string)
| Wraps (prefix : string).

Section Validate.
Context `{GoLib}.

Definition checkHTTPURL (field raw : string) : option cfgerr :=
  match url_Parse raw with
  | None => Some (Wraps (field +:+ ": "))
  | Some u =>
      if ((Scheme u <>s "http") && (Scheme u <>s "https")) || (UHost u =s "")
      then Some (Msg (field +:+ ": " +:+ quote raw +:+ " must be an absolute http(s) URL"))
      else None
  end.

(** The loop over the issuers, with its index and the two "seen" sets. *)
Fixpoint validate_issuers (i : Z) (seenName seenIss : gset string) (l : list Issuer) : option cfgerr :=
  match l with
  | [] => None
  | iss :: rest =>
      let where_ := "issuers[" +:+ Itoa i +:+ "]" in
      let named := where_ +:+ " (" +:+ Name iss +:+ ")" in
      if Name iss =s "" then Some (Msg (where_ +:+ ": name is required"))
      else if decide (Name iss ∈ seenName) then
        Some (Msg (where_ +:+ ": duplicate issuer name " +:+ quote (Name iss)))
      else if IssuerURL iss =s "" then Some (Msg (named +:+ ": issuer URL is required"))
      else if decide (IssuerURL iss ∈ seenIss) then
        Some (Msg (named +:+ ": duplicate issuer URL " +:+ quote (IssuerURL iss)))
      else match checkHTTPURL (where_ +:+ ".issuer") (IssuerURL iss) with
      | Some e => Some e
      | None =>
          match (if JWKSURI iss <>s "" then checkHTTPURL (where_ +:+ ".jwks_uri") (JWKSURI iss) else None) with
          | Some e => Some e
          | None =>
              if (length (Audiences iss) =? 0)%nat
              then Some (Msg (named +:+ ": audiences must not be empty"))
              else validate_issuers (i + 1) ({[Name iss]} ∪ seenName) ({[IssuerURL iss]} ∪ seenIss) rest
          end
      end
  end.

Fixpoint check_algs (algs : list string) : option cfgerr :=
  match algs with
  | [] => None
  | alg :: rest =>
      if decide (alg ∈ supportedSigningAlgs) then check_algs rest
      else Some (Msg ("security.allowed_signing_algs: " +:+ quote alg
                      +:+ " is not a supported asymmetric algorithm"))
  end.

Definition check_store (s : CredentialStore) : option cfgerr :=
  if Type_ s =s StoreMemory then None
  else if Type_ s =s StoreValkey then
    if Addr (Valkey s) =s "" then
      Some (Msg ("credential_store.valkey.addr is required when credential_store.type is " +:+ quote StoreValkey))
    else None
  else Some (Msg ("credential_store.type " +:+ quote (Type_ s) +:+ " not supported ("
                  +:+ quote StoreMemory +:+ " or " +:+ quote StoreValkey +:+ ")")).

(** [validate]: the configuration with its compiled pattern, or the first
    error. *)
Definition validate (c : Config) : res cfgerr Config :=
  let up := cfg_Upstream c in
  if S3Endpoint up =s "" then Err (Msg "upstream.s3_endpoint is required")
  else match checkHTTPURL "upstream.s3_endpoint" (S3Endpoint up) with
  | Some e => Err e
  | None =>
  if (ForwardMode up <>s ForwardModeRewrite) && (ForwardMode up <>s ForwardModeResign) then
    Err (Msg ("upstream.forward_mode " +:+ quote (ForwardMode up) +:+ " not supported ("
              +:+ quote ForwardModeRewrite +:+ " or " +:+ quote ForwardModeResign +:+ ")"))
  else match check_store (cfg_CredentialStore c) with
  | Some e => Err e
  | None =>
  if (length (cfg_Issuers c) =? 0)%nat then Err (Msg "at least one issuer must be configured")
  else match validate_issuers 0 ∅ ∅ (cfg_Issuers c) with
  | Some e => Err e
  | None =>
  if (MaxDuration (cfg_STS c) <=? 0)%Z then Err (Msg "sts.max_duration must be positive")
  else if (SigV4ClockSkew (cfg_Security c) <=? 0)%Z then
    Err (Msg "security.sigv4_clock_skew must be positive")
  else match check_algs (AllowedSigningAlgs (cfg_Security c)) with
  | Some e => Err e
  | None =>
  match regexp_compile (Pattern (cfg_UsernamePolicy c)) with
  | None => Err (Wraps "username_policy.pattern: ")
  | Some re =>
      Ok (mkConfig (Listen c) (AdminListen c) up (cfg_DataPath c) (cfg_Issuers c) (cfg_STS c)
            (cfg_CredentialStore c) (cfg_Security c)
            (mkUsernamePolicy (Pattern (cfg_UsernamePolicy c)) (Some re)))
  end end end end end.

(** [Parse], with the YAML decoder (strict about unknown keys) and the
    environment as arguments. *)
Definition Parse (yaml : string -> option Config) (getenv : string -> string) (raw : string)
    : res cfgerr Config :=
  match yaml raw with
  | None => Err (Wraps "parse config: ")
  | Some cfg =>
      match validate (applyDefaults (applyEnv getenv cfg)) with
      | Ok c => Ok c
      | Err (Msg s) => Err (Msg ("invalid config: " +:+ s))
      | Err (Wraps s) => Err (Wraps ("invalid config: " +:+ s))
      end
  end.

End Validate.

(** ** What a valid configuration is *)

Definition http_url `{GoLib} (raw : string) : Prop :=
  exists u, url_Parse raw = Some u /\ (Scheme u = "http" \/ Scheme u = "https") /\ UHost u <> "".

Record issuer_ok `{GoLib} (i : Issuer) : Prop := {
  iss_named : Name i <> "";
  iss_url_set : IssuerURL i <> "";
  iss_url : http_url (IssuerURL i);
  iss_jwks : JWKSURI i <> "" -> http_url (JWKSURI i);
  iss_audiences : Audiences i <> []
}.

Record valid_config `{GoLib} (c : Config) : Prop := {
  valid_endpoint : S3Endpoint (cfg_Upstream c) <> "" /\ http_url (S3Endpoint (cfg_Upstream c));
  valid_mode : ForwardMode (cfg_Upstream c) = ForwardModeRewrite
               \/ ForwardMode (cfg_Upstream c) = ForwardModeResign;
  valid_store : Type_ (cfg_CredentialStore c) = StoreMemory
                \/ (Type_ (cfg_CredentialStore c) = StoreValkey
                    /\ Addr (Valkey (cfg_CredentialStore c)) <> "");
  valid_issuers : cfg_Issuers c <> [] /\ Forall issuer_ok (cfg_Issuers c);
  valid_names : NoDup (map Name (cfg_Issuers c));
  valid_urls : NoDup (map IssuerURL (cfg_Issuers c));
  valid_duration : (0 < MaxDuration (cfg_STS c))%Z;
  valid_skew : (0 < SigV4ClockSkew (cfg_Security c))%Z;
  valid_algs : Forall (fun a => a ∈ supportedSigningAlgs) (AllowedSigningAlgs (cfg_Security c));
  valid_pattern : regexp_compile (Pattern (cfg_UsernamePolicy c)) <> None
}.

Definition with_regex (c : Config) (re : option (string -> bool)) : Config :=
  mkConfig (Listen c) (AdminListen c) (cfg_Upstream c) (cfg_DataPath c) (cfg_Issuers c) (cfg_STS c)
    (cfg_CredentialStore c) (cfg_Security c) (mkUsernamePolicy (Pattern (cfg_UsernamePolicy c)) re).

Section ValidateLemmas.
Context `{GoLib}.

Lemma checkHTTPURL_None field raw : checkHTTPURL field raw = None <-> http_url raw.
Proof.
  unfold checkHTTPURL, http_url. destruct (url_Parse raw) as [u|]; [|naive_solver].
  destruct (seqb_spec (Scheme u) "http"), (seqb_spec (Scheme u) "https"), (seqb_spec (UHost u) "");
    simpl; split; intros; naive_solver.
Qed.

Lemma check_jwks_None field uri :
  (if uri <>s "" then checkHTTPURL field uri else None) = None <-> (uri <> "" -> http_url uri).
Proof. destruct (seqb_spec uri ""); simpl; [naive_solver|]. rewrite checkHTTPURL_None. naive_solver. Qed.

Lemma Forall_not_in_union (f : Issuer -> string) a (s : gset string) l :
  Forall (fun y => f y ∉ {[a]} ∪ s) l <-> a ∉ map f l /\ Forall (fun y => f y ∉ s) l.
Proof.
  induction l as [|y l IH]; cbn [map].
  - split; [|constructor]. split; [apply not_elem_of_nil|constructor].
  - rewrite !Forall_cons, IH, not_elem_of_cons, not_elem_of_union, not_elem_of_singleton.
    naive_solver.
Qed.

Lemma validate_issuers_None l i sn si :
  validate_issuers i sn si l = None <->
  Forall issuer_ok l /\ NoDup (map Name l) /\ NoDup (map IssuerURL l)
  /\ Forall (fun x => Name x ∉ sn /\ IssuerURL x ∉ si) l.
Proof.
  revert i sn si. induction l as [|x l IH]; intros i sn si; cbn [validate_issuers map].
  { split; [|done]. intros _. split_and!; constructor. }
  rewrite !Forall_cons, !NoDup_cons.
  destruct (seqb_spec (Name x) "") as [En|En]; [split; [done|]; intros ([[]] & _); done|].
  case_decide as Hn; [naive_solver|].
  destruct (seqb_spec (IssuerURL x) "") as [Eu|Eu]; [split; [done|]; intros ([[]] & _); done|].
  case_decide as Hu; [naive_solver|].
  destruct (checkHTTPURL _ (IssuerURL x)) eqn:E1.
  { split; [done|]. intros ([[]] & _). by rewrite (proj2 (checkHTTPURL_None _ _)) in E1. }
  destruct (if JWKSURI x <>s "" then _ else _) eqn:E2.
  { split; [done|]. intros ([[]] & _). by rewrite (proj2 (check_jwks_None _ _)) in E2. }
  apply checkHTTPURL_None in E1. pose proof (proj1 (check_jwks_None _ _) E2).
  destruct (Audiences x) as [|a aud] eqn:Ea; cbn [length Nat.eqb].
  { split; [done|]. intros ([[]] & _). done. }
  rewrite IH, !Forall_and, !Forall_not_in_union.
  assert (issuer_ok x) by (split; [done..|by rewrite Ea]). tauto.
Qed.

Lemma check_algs_None algs : check_algs algs = None <-> Forall (fun a => a ∈ supportedSigningAlgs) algs.
Proof.
  induction algs as [|a algs IH]; cbn [check_algs]; [split; [constructor|done]|].
  rewrite Forall_cons. case_decide; naive_solver.
Qed.

Lemma check_store_None s :
  check_store s = None <-> Type_ s = StoreMemory \/ (Type_ s = StoreValkey /\ Addr (Valkey s) <> "").
Proof.
  unfold check_store. destruct (seqb_spec (Type_ s) StoreMemory) as [->|]; [naive_solver|].
  destruct (seqb_spec (Type_ s) StoreValkey) as [->|]; [|naive_solver].
  destruct (seqb_spec (Addr (Valkey s)) ""); naive_solver.
Qed.

(** [validate] accepts exactly the valid configurations, and then only adds
    the compiled pattern. *)
Lemma validate_Ok c c' :
  validate c = Ok c' <->
  valid_config c /\ c' = with_regex c (regexp_compile (Pattern (cfg_UsernamePolicy c))).
Proof.
  unfold validate. split.
  - intros Hv. repeat (case_in Hv; try discriminate Hv). injection Hv as <-. split_bools.
    repeat match goal with
    | E : checkHTTPURL _ _ = None |- _ => apply checkHTTPURL_None in E
    | E : check_store _ = None |- _ => apply check_store_None in E
    | E : validate_issuers _ _ _ _ = None |- _ => apply validate_issuers_None in E as (? & ? & ? & _)
    | E : check_algs _ = None |- _ => apply check_algs_None in E
    | E : (_ =? _)%nat = false |- _ => apply Nat.eqb_neq in E
    | E : (_ <=? _)%Z = false |- _ => apply Z.leb_gt in E
    | E : (_ && _)%bool = false |- _ => apply andb_false_iff in E
    end.
    split; [|unfold with_regex; congruence].
    split; try done; try congruence.
    + destruct Heqb0 as [E|E]; split_bools; auto.
    + split; [|done]. by destruct (cfg_Issuers c).
  - intros [[[H1 H2] H3 H4 [H5 H5'] H6 H7 H8 H9 H10 H11] ->].
    rewrite (proj2 (String.eqb_neq _ _) H1).
    rewrite (proj2 (checkHTTPURL_None _ _) H2).
    replace ((ForwardMode (cfg_Upstream c) <>s ForwardModeRewrite)
             && (ForwardMode (cfg_Upstream c) <>s ForwardModeResign)) with false
      by (by destruct H3 as [-> | ->]).
    rewrite (proj2 (check_store_None _) H4).
    rewrite (proj2 (Nat.eqb_neq _ _)) by (by destruct (cfg_Issuers c)).
    rewrite (proj2 (validate_issuers_None _ _ _ _)).
    2:{ split_and!; try done. by apply Forall_forall. }
    rewrite (proj2 (Z.leb_gt _ _) H8), (proj2 (Z.leb_gt _ _) H9), (proj2 (check_algs_None _) H10).
    by destruct (regexp_compile _).
Qed.

Lemma or_default_idem v d : or_default (or_default v d) d = or_default v d.
Proof. unfold or_default. destruct (v =s "") eqn:E; [|by rewrite E]. by destruct (d =s "") . Qed.

Lemma applyDefaults_idem c : applyDefaults (applyDefaults c) = applyDefaults c.
Proof.
  unfold applyDefaults. cbn -[or_default Minute]. rewrite !or_default_idem, map_map.
  f_equal; [|f_equal|f_equal].
  - apply map_ext. intros i. unfold default_issuer. cbn -[or_default]. by rewrite or_default_idem.
  - by destruct (MaxDuration (cfg_STS c) =? 0)%Z eqn:E; rewrite ?E.
  - by destruct (SigV4ClockSkew (cfg_Security c) =? 0)%Z eqn:E; rewrite ?E.
  - by destruct (AllowedSigningAlgs (cfg_Security c)).
Qed.

(** What the rest of the program may assume of a loaded configuration. *)
Record usable_config (c : Config) : Prop := {
  usable_valid : valid_config c;
  usable_algs : AllowedSigningAlgs (cfg_Security c) <> [];
  usable_claims : Forall (fun i => UsernameClaim i <> "") (cfg_Issuers c);
  usable_region : SecRegion (cfg_Security c) <> "";
  usable_policy : exists re, regexp_compile (Pattern (cfg_UsernamePolicy c)) = Some re
                             /\ regex (cfg_UsernamePolicy c) = Some re
}.

Lemma or_default_nonempty v d : d <> "" -> or_default v d <> "".
Proof. unfold or_default. by destruct (seqb_spec v ""). Qed.

Lemma valid_with_regex c re : valid_config c -> valid_config (with_regex c re).
Proof. intros []. by split. Qed.

Lemma Parse_usable yaml getenv raw c : Parse yaml getenv raw = Ok c -> usable_config c.
Proof.
  unfold Parse. destruct (yaml raw) as [c0|]; [|done].
  destruct (validate _) as [c1|[]] eqn:E; try done. intros [= ->].
  apply validate_Ok in E as [Hv ->].
  split.
  - by apply valid_with_regex.
  - simpl. destruct (AllowedSigningAlgs (cfg_Security c0)); done.
  - simpl. apply Forall_forall. intros i (x & <- & _)%list_elem_of_In%in_map_iff.
    simpl. by apply or_default_nonempty.
  - simpl. by apply or_default_nonempty.
  - apply valid_pattern in Hv. simpl in *. destruct (regexp_compile _) as [re|]; [eauto|done].
Qed.

End ValidateLemmas.

Lemma supported_asymmetric alg :
  alg ∈ supportedSigningAlgs -> alg <> "none" /\ HasPrefix alg "HS" = false.
Proof.
  unfold supportedSigningAlgs. intros Ha. apply elem_of_list_to_set in Ha.
  repeat (apply elem_of_cons in Ha as [->|Ha]; [split; [discriminate|reflexivity]|]).
  by apply not_elem_of_nil in Ha.
Qed.

(** ** Properties *)

Section Properties.
Context `{GoLib}.

(** C21: [validate] accepts exactly the valid configurations (reachable
    upstream URL, known modes, distinct named issuers with http(s) URLs and at
    least one audience each, positive limits, asymmetric algorithms only, a
    compilable pattern), and changes nothing but to store the compiled
    pattern. *)
Theorem validate_exact c c' :
  validate c = Ok c' <->
  valid_config c /\ c' = with_regex c (regexp_compile (Pattern (cfg_UsernamePolicy c))).
Proof. apply validate_Ok. Qed.

(** Whatever the YAML decoder and the environment deliver, a configuration
    [Parse] returns is valid, allows at least one signing algorithm and none
    that is symmetric or absent, names a username claim for every issuer, and
    carries the compiled username policy. *)
Theorem parse_yields_usable yaml getenv raw c :
  Parse yaml getenv raw = Ok c ->
  usable_config c /\
  Forall (fun alg => alg <> "none" /\ HasPrefix alg "HS" = false) (AllowedSigningAlgs (cfg_Security c)).
Proof.
  intros Hp. apply Parse_usable in Hp as Hu. split; [done|].
  eapply Forall_impl; [exact (valid_algs _ (usable_valid _ Hu))|]. intros a. apply supported_asymmetric.
Qed.

(** Strict mode and the Bearer lane are on unless the file or the
    environment says a literal false; an override that is not a boolean is
    ignored, and defaulting never touches either switch. *)
Theorem switches_default_on getenv c :
  let d := cfg_DataPath (applyDefaults (applyEnv getenv c)) in
  (StrictEnabled d = false <->
     ParseBool (getenv "OZPX_STRICT") = Some false
     \/ (ParseBool (getenv "OZPX_STRICT") = None /\ Strict (cfg_DataPath c) = Some false)) /\
  (BearerEnabled d = false <->
     ParseBool (getenv "OZPX_ACCEPT_BEARER") = Some false
     \/ (ParseBool (getenv "OZPX_ACCEPT_BEARER") = None /\ AcceptBearer (cfg_DataPath c) = Some false)).
Proof.
  assert (forall v old, default true (override_bool v old) = false <->
    ParseBool v = Some false \/ (ParseBool v = None /\ old = Some false)) as Hb.
  { intros v old. unfold override_bool. destruct (seqb_spec v "") as [->|_]; cbn [negb].
    - change (ParseBool "") with (@None bool). destruct old as [[]|]; naive_solver.
    - destruct (ParseBool v) as [[]|]; [naive_solver..|]. destruct old as [[]|]; naive_solver. }
  cbv zeta. split; apply Hb.
Qed.

(** Defaulting is idempotent. *)
Theorem defaults_idempotent c : applyDefaults (applyDefaults c) = applyDefaults c.
Proof. apply applyDefaults_idem. Qed.

End Properties.

(** A minimal file: one issuer, an upstream, nothing else. *)
Definition minimal_config : Config :=
  mkConfig "" "" (mkUpstream "http://s3g:9878" "") (mkDataPath None None)
    [mkIssuer "kc" "https://kc.example/realms/a" "" ["ozone"] ""]
    (mkSTS 0 []) (mkCredentialStore "" (mkValkeyStore "" "")) (mkSecurity 0%Z [] "") (mkUsernamePolicy "" None).

#[local] Existing Instance ascii_lib.

Lemma parse_yields_usable_witness :
  exists c, Parse (fun _ => Some minimal_config) (fun _ => "") "listen:" = Ok c /\ usable_config c
            /\ AllowedSigningAlgs (cfg_Security c) = ["RS256"; "ES256"].
Proof.
  destruct (Parse (fun _ => Some minimal_config) (fun _ => "") "listen:") as [c|e] eqn:E.
  - exists c. split; [reflexivity|]. split.
    + apply (parse_yields_usable (fun _ => Some minimal_config) (fun _ => "") "listen:" c E).
    + vm_compute in E. injection E as <-. reflexivity.
  - vm_compute in E. discriminate E.
Defined.

(** ** Durations in the file *)

Example duration_sample : UnmarshalYAML (Some "1h30m") = Ok (90 * Minute)%Z.
Proof. reflexivity. Qed.
