(* ===== verification/Oidc.v ===== *)
(** * Package oidc: validating tokens against the configured issuers

    Models internal/oidc/oidc.go.  JOSE (the jwx packages), the JWKS cache and
    the HTTP client are third-party code or the network: they are the class
    [Jwx], whose documented behaviour is stated as [JwxLaws].  The chain of
    checks, the resolution of JWKS URLs and the rate limit on forced refreshes
    are the code of this package and are defined here. *)

From Stdlib Require Import Ascii String ZArith NArith Bool Lia.
From stdpp Require Import base tactics list strings gmap.
From S2P Require Import Prelude GoStrings GoTime GoHttp GoXml GoJson Config.

(** ** Errors and results *)

(** The sentinels callers tell apart with [errors.Is]. *)
Inductive oidcerr :=
| ErrUnknownIssuer
| ErrTokenExpired
| ErrTokenInvalid
| ErrBadUsername
| ErrIssuerUnavailable.

#[export] Instance oidcerr_eq_dec : EqDecision oidcerr.
Proof. solve_decision. Defined.

Definition jwtSkew : Duration := (60 * Second)%Z.
Definition refreshCooldown : Duration := (10 * Second)%Z.

Record Identity := mkIdentity {
  id_Username : string;
  id_Subject : string;
  id_IssuerName : string;
  id_IssuerURL : string;
  id_Expiry : Time
}.

(** ** The clock

    [now i] is what the [i]-th reading of the clock by one request returns. *)
Definition Clock := nat -> Time.

Definition later (k : nat) (now : Clock) : Clock := fun i => now (k + i).

Definition monotone (now : Clock) : Prop := forall i j, i <= j -> (now i <= now j)%Z.

(** ** What the handlers need of a validator *)

Class TokenValidator (V : Type) :=
  Validate : Clock -> string -> V -> V * res oidcerr Identity.

(** What they may rely on: a property of the validator that use preserves, and
    a property of every username it returns. *)
Class ValidatorLaws (V : Type) `{TokenValidator V} (sound : V -> Prop) (user : string -> Prop) := {
  validate_sound : forall now raw v v' r, sound v -> Validate now raw v = (v', r) -> sound v';
  validate_user : forall now raw v v' id,
    sound v -> Validate now raw v = (v', Ok id) -> user (id_Username id)
}.

(** ** The JOSE library and the network *)

Inductive jwterr := JwtExpired | JwtOther.

Class Jwx := {
  Token : Type;
  Key : Type;
  KeySet : Type;
  (** Claims of a token; [claim] gives a claim's value, [Some None] when it is
      not a string. *)
  tok_Issuer : Token -> string;
  tok_Subject : Token -> string;
  tok_Audience : Token -> list string;
  tok_Expiration : Token -> Time;
  claim : Token -> string -> option (option string);
  (** [jwt.ParseInsecure]; [jws.Parse], reduced to algorithm and key ID of
      each signature's protected header; [jwt.Parse] with the key, the skew,
      the required claims and the clock. *)
  ParseInsecure : string -> option Token;
  jws_Parse : string -> option (list (string * string));
  jwt_Parse : string -> string -> Key -> Duration -> list string -> Time -> res jwterr Token;
  LookupKeyID : KeySet -> string -> option Key;
  (** The state of the JWKS cache and of everything beyond the network. *)
  Ext : Type;
  cache_Register : string -> Ext -> Ext * bool;
  cache_Get : string -> Ext -> Ext * option KeySet;
  cache_Refresh : string -> Ext -> Ext * option KeySet;
  (** [httpClient.Do] of a GET: status and body. *)
  http_Get : string -> Ext -> Ext * option (Z * string)
}.

(** ** The validator *)

Record issuerState := mkIssuerState {
  is_cfg : Issuer;
  jwksURL : string;
  lastRefresh : Time
}.

Definition issuerState_of (i : Issuer) : issuerState := mkIssuerState i "" zero_time.

Definition set_jwksURL (s : issuerState) (u : string) : issuerState := mkIssuerState (is_cfg s) u (lastRefresh s).
Definition set_lastRefresh (s : issuerState) (t : Time) : issuerState := mkIssuerState (is_cfg s) (jwksURL s) t.

Fixpoint intersects (a b : list string) : bool :=
  match a with
  | [] => false
  | x :: a' => existsb (String.eqb x) b || intersects a' b
  end.

(** The section of [lookupKey] under the issuer's lock: whether to refresh,
    reading the clock once, and once more when it does. *)
Definition refresh_gate (now0 now1 : Time) (iss : issuerState) : issuerState * bool :=
  let needRefresh := (refreshCooldown <? Sub now0 (lastRefresh iss))%Z in
  (if needRefresh then set_lastRefresh iss now1 else iss, needRefresh).

Section Validator.
Context `{GoLib} `{Jwx}.

Record Validator := mkValidator {
  byIssuerURL : gmap string issuerState;
  allowedAlgs : gset string;
  v_policy : UsernamePolicy;
  ext : Ext
}.

Definition New (cfg : Config) (e : Ext) : Validator :=
  mkValidator
    (fold_left (fun m iss => <[IssuerURL iss := issuerState_of iss]> m) (cfg_Issuers cfg) ∅)
    (list_to_set (AllowedSigningAlgs (cfg_Security cfg)))
    (cfg_UsernamePolicy cfg) e.

Definition with_ext (v : Validator) (e : Ext) : Validator :=
  mkValidator (byIssuerURL v) (allowedAlgs v) (v_policy v) e.

(** Write back the state of the issuer registered under [k]. *)
Definition with_issuer (v : Validator) (k : string) (iss : issuerState) : Validator :=
  mkValidator (<[k := iss]> (byIssuerURL v)) (allowedAlgs v) (v_policy v) (ext v).

Definition stringClaim (token : Token) (name : string) : string :=
  match claim token name with
  | Some (Some s) => s
  | _ => ""
  end.

(** The [jwks_uri] member of a discovery document. *)
Definition decode_jwks_uri (text : string) : option string :=
  l ← decode_first text ≫= struct_members;
  string_field (field_values ["jwks_uri"] "jwks_uri" l).

(** [None] is any of its errors; the caller reports them all alike. *)
Definition discoverJWKS (issuerURL : string) (e : Ext) : Ext * option string :=
  let wellKnown := issuerURL +:+ "/.well-known/openid-configuration" in
  match url_Parse wellKnown with
  | None => (e, None)
  | Some _ =>
      match http_Get wellKnown e with
      | (e', None) => (e', None)
      | (e', Some (status, body)) =>
          if negb (status =? 200)%Z then (e', None)
          else match decode_jwks_uri body with
          | None => (e', None)
          | Some uri => (e', if uri =s "" then None else Some uri)
          end
      end
  end.

Definition resolveJWKS (k : string) (iss : issuerState) (v : Validator) : Validator * res oidcerr string :=
  if jwksURL iss <>s "" then (v, Ok (jwksURL iss))
  else
    let '(e, found) := if JWKSURI (is_cfg iss) =s "" then discoverJWKS (IssuerURL (is_cfg iss)) (ext v)
                       else (ext v, Some (JWKSURI (is_cfg iss))) in
    match found with
    | None => (with_ext v e, Err ErrIssuerUnavailable)
    | Some url =>
        match cache_Register url e with
        | (e', false) => (with_ext v e', Err ErrIssuerUnavailable)
        | (e', true) => (with_issuer (with_ext v e') k (set_jwksURL iss url), Ok url)
        end
    end.

(** [lookupKey] for the issuer registered under [k]; it reads the clock twice. *)
Definition lookupKey (now : Clock) (k : string) (iss : issuerState) (kid : string) (v : Validator)
    : Validator * res oidcerr Key :=
  match resolveJWKS k iss v with
  | (v, Err e) => (v, Err e)
  | (v, Ok url) =>
      match cache_Get url (ext v) with
      | (e, None) => (with_ext v e, Err ErrIssuerUnavailable)
      | (e, Some set) =>
          let v := with_ext v e in
          match LookupKeyID set kid with
          | Some key => (v, Ok key)
          | None =>
              let iss := default iss (byIssuerURL v !! k) in
              let '(iss', needRefresh) := refresh_gate (now 0) (now 1) iss in
              let v := with_issuer v k iss' in
              let '(e, set) := if needRefresh then cache_Refresh url (ext v) else cache_Get url (ext v) in
              let v := with_ext v e in
              match set with
              | None => (v, Err ErrIssuerUnavailable)
              | Some set =>
                  match LookupKeyID set kid with
                  | Some key => (v, Ok key)
                  | None => (v, Err ErrTokenInvalid)
                  end
              end
          end
      end
  end.

(** The checks after the signature: audience, username, policy. *)
Definition identity_from (iss : issuerState) (policy : UsernamePolicy) (token : Token) : res oidcerr Identity :=
  if negb (intersects (tok_Audience token) (Audiences (is_cfg iss))) then Err ErrTokenInvalid
  else
    let claimed := stringClaim token (UsernameClaim (is_cfg iss)) in
    let username := if claimed =s "" then tok_Subject token else claimed in
    if username =s "" then Err ErrBadUsername
    else if negb (policy_Validate policy username) then Err ErrBadUsername
    else Ok (mkIdentity username (tok_Subject token) (Name (is_cfg iss)) (IssuerURL (is_cfg iss))
               (tok_Expiration token)).

Definition validator_Validate (now : Clock) (raw : string) (v : Validator) : Validator * res oidcerr Identity :=
  if raw =s "" then (v, Err ErrTokenInvalid)
  else match ParseInsecure raw with
  | None => (v, Err ErrTokenInvalid)
  | Some unverified =>
    let k := tok_Issuer unverified in
    match byIssuerURL v !! k with
    | None => (v, Err ErrUnknownIssuer)
    | Some iss =>
      match jws_Parse raw with
      | None | Some [] => (v, Err ErrTokenInvalid)
      | Some ((alg, kid) :: _) =>
        if negb (bool_decide (alg ∈ allowedAlgs v)) then (v, Err ErrTokenInvalid)
        else if kid =s "" then (v, Err ErrTokenInvalid)
        else match lookupKey now k iss kid v with
        | (v, Err e) => (v, Err e)
        | (v, Ok key) =>
            match jwt_Parse raw alg key jwtSkew ["exp"] (now 2) with
            | Err JwtExpired => (v, Err ErrTokenExpired)
            | Err JwtOther => (v, Err ErrTokenInvalid)
            | Ok token => (v, identity_from iss (v_policy v) token)
            end
        end
      end
    end
  end.

#[export] Instance oidc_validator : TokenValidator Validator := validator_Validate.

End Validator.

(** ** Documented behaviour of the library *)

Class JwxLaws `{Jwx} := {
  (** The JWS serialisation [raw] carries a signature by [Key] under an
      algorithm. *)
  Signed : string -> string -> Key -> Prop;
  (** [jwt.Parse] with a key verifies the signature, and yields the claims
      [jwt.ParseInsecure] yields. *)
  parse_signed : forall raw alg key skew req now tok,
    jwt_Parse raw alg key skew req now = Ok tok -> Signed raw alg key;
  parse_claims : forall raw alg key skew req now tok,
    jwt_Parse raw alg key skew req now = Ok tok -> ParseInsecure raw = Some tok;
  (** With a required [exp], a token whose expiry lies [skew] in the past (in
      whole seconds) is refused. *)
  parse_unexpired : forall raw alg key skew req now tok,
    jwt_Parse raw alg key skew req now = Ok tok -> "exp" ∈ req ->
    (now / Second * Second < tok_Expiration tok + skew)%Z
}.

(** ** The rate limit on forced refreshes *)

Lemma Sub_gt t u d : (min_int64 <= d < max_int64)%Z -> (d < Sub t u)%Z -> (d < t - u)%Z.
Proof. unfold Sub, clamp64. lia. Qed.

(** Pairs of clock readings in order. *)
Fixpoint ordered (from : Time) (readings : list (Time * Time)) : Prop :=
  match readings with
  | [] => True
  | (now0, now1) :: rest => (from <= now0 <= now1)%Z /\ ordered now1 rest
  end.

Fixpoint spaced (d : Duration) (last : Time) (l : list Time) : Prop :=
  match l with
  | [] => True
  | t :: rest => (last + d < t)%Z /\ spaced d t rest
  end.

(** ** What an accepted token satisfies *)

Section Soundness.
Context `{GoLib} `{JX : Jwx} `{!JwxLaws}.

(** One call on the cache or the network. *)
Inductive ext_step : Ext -> Ext -> Prop :=
| ext_register url e : ext_step e (cache_Register url e).1
| ext_get url e : ext_step e (cache_Get url e).1
| ext_refresh url e : ext_step e (cache_Refresh url e).1
| ext_http url e : ext_step e (http_Get url e).1.

(** [url] is where an issuer publishes its keys, as known in state [e]: the
    configured location, or the one the document at the issuer's well-known
    location gave, fetched in an earlier state of the same world. *)
Definition jwks_location (i : Issuer) (url : string) (e : Ext) : Prop :=
  (JWKSURI i <> "" /\ url = JWKSURI i)
  \/ (JWKSURI i = "" /\ exists e1 e2 document,
        http_Get (IssuerURL i +:+ "/.well-known/openid-configuration") e1 = (e2, Some (200%Z, document)) /\
        decode_jwks_uri document = Some url /\ url <> "" /\ rtc ext_step e2 e).

(** Between [v] and [v'], the key set the cache held for the issuer's location
    had [key] under the ID [kid]. *)
Definition published (v v' : Validator) (i : Issuer) (kid : string) (key : Key) : Prop :=
  exists url e1 e2 set,
    rtc ext_step (ext v) e1 /\ jwks_location i url e1 /\
    (cache_Get url e1 = (e2, Some set) \/ cache_Refresh url e1 = (e2, Some set)) /\ rtc ext_step e2 (ext v') /\
    LookupKeyID set kid = Some key.

(** What a validator remembers is where its issuers publish. *)
Definition located (v : Validator) : Prop :=
  forall k iss, byIssuerURL v !! k = Some iss -> jwksURL iss = "" \/ jwks_location (is_cfg iss) (jwksURL iss) (ext v).

Lemma jwks_location_later i url e e' : jwks_location i url e -> rtc ext_step e e' -> jwks_location i url e'.
Proof.
  intros [Hc|(Hj & e1 & e2 & d & Hg & Hd & Hu & Hr)] He; [by left|]. right. split; [done|]. exists e1, e2, d.
  split_and!; [done..|]. by etrans.
Qed.

Lemma ext_get_steps url e e' o : cache_Get url e = (e', o) -> rtc ext_step e e'.
Proof. intros E. apply rtc_once. pose proof (ext_get url e) as Hs. by rewrite E in Hs. Qed.

Lemma ext_refresh_steps url e e' o : cache_Refresh url e = (e', o) -> rtc ext_step e e'.
Proof. intros E. apply rtc_once. pose proof (ext_refresh url e) as Hs. by rewrite E in Hs. Qed.

Lemma ext_register_steps url e e' o : cache_Register url e = (e', o) -> rtc ext_step e e'.
Proof. intros E. apply rtc_once. pose proof (ext_register url e) as Hs. by rewrite E in Hs. Qed.

Lemma discover_steps u e e' o : discoverJWKS u e = (e', o) -> rtc ext_step e e'.
Proof.
  unfold discoverJWKS. destruct (url_Parse _); [|intros [= <- _]; reflexivity].
  pose proof (ext_http (u +:+ "/.well-known/openid-configuration") e) as Hs.
  destruct (http_Get _ e) as [e1 [[st b]|]]; cbn [fst] in Hs; repeat case_match; intros [= <- _]; by apply rtc_once.
Qed.

Lemma discover_found u e e' url : discoverJWKS u e = (e', Some url) ->
  exists document, http_Get (u +:+ "/.well-known/openid-configuration") e = (e', Some (200%Z, document)) /\
    decode_jwks_uri document = Some url /\ url <> "".
Proof.
  unfold discoverJWKS. destruct (url_Parse _); [|done]. destruct (http_Get _ e) as [e1 [[st b]|]]; [|done].
  destruct (Z.eqb_spec st 200) as [->|]; [|done]. cbn [negb]. destruct (decode_jwks_uri b) as [uri|] eqn:Ed; [|done].
  destruct (seqb_spec uri ""); [done|]. intros [= <- <-]. by exists b.
Qed.

(** Validation never changes the registry except the lazily filled fields of
    the issuer it looks at. *)
Record same_registry (v v' : Validator) : Prop := {
  same_algs : allowedAlgs v' = allowedAlgs v;
  same_policy : v_policy v' = v_policy v;
  same_cfgs : is_cfg <$> byIssuerURL v' = is_cfg <$> byIssuerURL v
}.

#[export] Instance same_registry_preorder : PreOrder same_registry.
Proof.
  split; [by split|]. intros x y z [] []. split; congruence.
Qed.

Lemma same_with_ext v e : same_registry v (with_ext v e).
Proof. by split. Qed.

Lemma same_with_issuer v k iss iss' :
  byIssuerURL v !! k = Some iss -> is_cfg iss' = is_cfg iss -> same_registry v (with_issuer v k iss').
Proof.
  intros Hk Hc. split; simpl; [done..|]. rewrite fmap_insert, Hc. apply insert_id.
  by rewrite lookup_fmap, Hk.
Qed.

(** What a call does to a validator. *)
Record evolves (v v' : Validator) : Prop := {
  ev_same : same_registry v v';
  ev_ext : rtc ext_step (ext v) (ext v');
  ev_located : located v'
}.

Lemma located_ext v e : located v -> rtc ext_step (ext v) e -> located (with_ext v e).
Proof.
  intros Hl He k iss Hk. destruct (Hl k iss Hk) as [?|Hj]; [by left|right]. by eapply jwks_location_later.
Qed.

Lemma evolves_ext v v' e : evolves v v' -> rtc ext_step (ext v') e -> evolves v (with_ext v' e).
Proof.
  intros [Hs He Hl] Hr. split; [etrans; [exact Hs|apply same_with_ext]|by etrans|by apply located_ext].
Qed.

Lemma evolves_issuer v v' k iss iss' :
  evolves v v' -> byIssuerURL v' !! k = Some iss -> is_cfg iss' = is_cfg iss ->
  jwksURL iss' = "" \/ jwks_location (is_cfg iss') (jwksURL iss') (ext v') -> evolves v (with_issuer v' k iss').
Proof.
  intros [Hs He Hl] Hk Hc Hj. split; [etrans; [exact Hs|by eapply same_with_issuer]|done|].
  intros k' iss0 Hk'. cbn in Hk'. apply lookup_insert_Some in Hk' as [[_ <-]|[_ Hk']]; [done|by apply (Hl k')].
Qed.

Lemma evolves_refl v : located v -> evolves v v.
Proof. by split. Qed.

Lemma resolveJWKS_spec k iss v v' r :
  located v -> byIssuerURL v !! k = Some iss -> resolveJWKS k iss v = (v', r) ->
  evolves v v' /\ (forall url, r = Ok url -> jwks_location (is_cfg iss) url (ext v')).
Proof.
  intros Hl Hk. unfold resolveJWKS. destruct (seqb_spec (jwksURL iss) "") as [Ej|Ej]; cbn [negb].
  2:{ intros [= <- <-]. split; [by apply evolves_refl|]. intros url [= <-]. by destruct (Hl k iss Hk). }
  destruct (if JWKSURI (is_cfg iss) =s "" then _ else _) as [e found] eqn:Ef.
  assert (rtc ext_step (ext v) e /\ forall url, found = Some url -> jwks_location (is_cfg iss) url e) as [He Hloc].
  { destruct (seqb_spec (JWKSURI (is_cfg iss)) "") as [Eu|Eu].
    - split; [by eapply discover_steps|]. intros url ->. apply discover_found in Ef as (d & Hg & Hd & Hu).
      right. split; [done|]. by exists (ext v), e, d.
    - injection Ef as <- <-. split; [reflexivity|]. intros url [= <-]. by left. }
  pose proof (evolves_ext v v e (evolves_refl v Hl) He) as Hev.
  destruct found as [url|]; [|by intros [= <- <-]]. specialize (Hloc url eq_refl).
  destruct (cache_Register url e) as [e' b] eqn:Er. apply ext_register_steps in Er.
  assert (evolves v (with_ext v e')) as Hev' by (apply evolves_ext; [by apply evolves_refl|by etrans]).
  assert (jwks_location (is_cfg iss) url e') as Hloc' by (by eapply jwks_location_later).
  destruct b; intros [= <- <-]; [|by split]. split; [|by intros url' [= <-]].
  eapply evolves_issuer; [exact Hev'|exact Hk|done|by right].
Qed.

Lemma refresh_gate_cfg n0 n1 iss iss' b :
  refresh_gate n0 n1 iss = (iss', b) -> is_cfg iss' = is_cfg iss /\ jwksURL iss' = jwksURL iss.
Proof. unfold refresh_gate. by destruct (_ <? _)%Z; intros [= <- <-]. Qed.

Lemma same_registry_lookup v v' k iss :
  same_registry v v' -> byIssuerURL v !! k = Some iss ->
  exists iss', byIssuerURL v' !! k = Some iss' /\ is_cfg iss' = is_cfg iss.
Proof.
  intros [_ _ Hc] Hk. assert (is_cfg <$> (byIssuerURL v' !! k) = Some (is_cfg iss)) as E
    by (by rewrite <- lookup_fmap, Hc, lookup_fmap, Hk).
  apply fmap_Some in E as (iss' & ? & ?). eauto.
Qed.

Lemma lookupKey_spec now k iss kid v v' r :
  located v -> byIssuerURL v !! k = Some iss -> lookupKey now k iss kid v = (v', r) ->
  evolves v v' /\ (forall key, r = Ok key -> published v v' (is_cfg iss) kid key).
Proof.
  intros Hloc Hk. unfold lookupKey. destruct (resolveJWKS k iss v) as [v1 [url|err]] eqn:Er.
  2:{ intros [= <- <-]. by apply resolveJWKS_spec in Er as [Hs _]. }
  apply resolveJWKS_spec in Er as [Hev Hl]; [|done..]. specialize (Hl url eq_refl). pose proof (ev_ext _ _ Hev) as Hx.
  destruct (cache_Get url (ext v1)) as [e o] eqn:Eg. pose proof (ext_get_steps _ _ _ _ Eg) as Hg.
  assert (evolves v (with_ext v1 e)) as Hev1 by (by apply evolves_ext).
  destruct o as [set|]; [|by intros [= <- <-]].
  destruct (LookupKeyID set kid) as [key|] eqn:El.
  { intros [= <- <-]. split; [done|]. intros key' [= <-]. exists url, (ext v1), e, set. split_and!; try done. by left. }
  destruct (same_registry_lookup v v1 k iss (ev_same _ _ Hev) Hk) as (iss1 & Hk1 & Hc1).
  change (byIssuerURL (with_ext v1 e)) with (byIssuerURL v1). rewrite Hk1. change (default iss (Some iss1)) with iss1.
  destruct (refresh_gate (now 0) (now 1) iss1) as [iss2 need] eqn:Eg'.
  apply refresh_gate_cfg in Eg' as [Hc2 Hj2]. set (v2 := with_issuer (with_ext v1 e) k iss2).
  assert (evolves v v2) as Hev2.
  { eapply evolves_issuer; [exact Hev1|exact Hk1|done|]. rewrite Hj2, Hc2. by apply (ev_located _ _ Hev1 k). }
  destruct (if need then cache_Refresh url (ext v2) else cache_Get url (ext v2)) as [e2 set2] eqn:E2.
  assert (rtc ext_step (ext v2) e2) as Hr2 by (destruct need; [by eapply ext_refresh_steps|by eapply ext_get_steps]).
  assert (evolves v (with_ext v2 e2)) as Hev3 by (by apply evolves_ext).
  destruct set2 as [set2|]; [|by intros [= <- <-]].
  destruct (LookupKeyID set2 kid) as [key|] eqn:El2; [|by intros [= <- <-]].
  intros [= <- <-]. split; [done|]. intros key' [= <-]. exists url, (ext v2), e2, set2.
  split_and!; [apply Hev2|by eapply jwks_location_later|destruct need; auto|reflexivity|done].
Qed.

Lemma intersects_true a b : intersects a b = true <-> exists x, x ∈ a /\ x ∈ b.
Proof.
  induction a as [|y a IH]; cbn [intersects].
  - split; [done|]. intros (x & Hx & _). by apply not_elem_of_nil in Hx.
  - rewrite orb_true_iff, IH, existsb_exists. setoid_rewrite elem_of_cons. split.
    + intros [(x & Hx & ->%String.eqb_eq)|(x & Hx & Hb)]; [|by eauto].
      exists x. split; [by left|by apply list_elem_of_In].
    + intros (x & [->|Hx] & Hb); [left|by eauto]. exists y. by rewrite seqb_refl, <- list_elem_of_In.
Qed.

(** The username a token maps to: the configured claim, else the subject. *)
Definition mapped_username (iss : issuerState) (tok : Token) : string :=
  let claimed := stringClaim tok (UsernameClaim (is_cfg iss)) in
  if claimed =s "" then tok_Subject tok else claimed.

(** The facts behind an accepted token. *)
Record authentic (v v' : Validator) (now : Time) (raw : string) (id : Identity)
    (tok : Token) (iss : issuerState) (alg : string) : Prop := {
  auth_claims : ParseInsecure raw = Some tok;
  auth_issuer : byIssuerURL v !! tok_Issuer tok = Some iss;
  auth_alg : alg ∈ allowedAlgs v;
  auth_key : exists kid rest key, jws_Parse raw = Some ((alg, kid) :: rest) /\ kid <> "" /\
               published v v' (is_cfg iss) kid key /\ Signed raw alg key;
  auth_exp : (now / Second * Second < tok_Expiration tok + jwtSkew)%Z;
  auth_aud : exists a, a ∈ tok_Audience tok /\ a ∈ Audiences (is_cfg iss);
  auth_username : mapped_username iss tok <> "" /\ policy_Validate (v_policy v) (mapped_username iss tok) = true;
  auth_identity : id = mkIdentity (mapped_username iss tok) (tok_Subject tok) (Name (is_cfg iss))
                         (IssuerURL (is_cfg iss)) (tok_Expiration tok)
}.

Lemma identity_from_Ok iss p tok id :
  identity_from iss p tok = Ok id ->
  (exists a, a ∈ tok_Audience tok /\ a ∈ Audiences (is_cfg iss)) /\
  (mapped_username iss tok <> "" /\ policy_Validate p (mapped_username iss tok) = true) /\
  id = mkIdentity (mapped_username iss tok) (tok_Subject tok) (Name (is_cfg iss))
         (IssuerURL (is_cfg iss)) (tok_Expiration tok).
Proof.
  unfold identity_from. fold (mapped_username iss tok).
  destruct (intersects _ _) eqn:Ei; [|done]. apply intersects_true in Ei. cbn [negb].
  destruct (seqb_spec (mapped_username iss tok) ""); [done|].
  destruct (policy_Validate _ _) eqn:Ep; [|done]. by intros [= <-].
Qed.

Lemma validator_Validate_spec now raw v v' r :
  located v -> validator_Validate now raw v = (v', r) ->
  evolves v v' /\
  (forall id, r = Ok id -> exists tok iss alg, authentic v v' (now 2) raw id tok iss alg).
Proof.
  intros Hloc. pose proof (evolves_refl v Hloc) as Hrefl. unfold validator_Validate. destruct (raw =s ""); [by intros [= <- <-]|].
  destruct (ParseInsecure raw) as [tok|] eqn:Ep; [|by intros [= <- <-]].
  destruct (byIssuerURL v !! tok_Issuer tok) as [iss|] eqn:Eb; [|by intros [= <- <-]].
  destruct (jws_Parse raw) as [[|[alg kid] sigs]|] eqn:Ejs; [by intros [= <- <-]| |by intros [= <- <-]].
  destruct (bool_decide (alg ∈ allowedAlgs v)) eqn:Ea; [|by intros [= <- <-]].
  apply bool_decide_eq_true in Ea. cbn [negb].
  destruct (seqb_spec kid "") as [_|Hkid]; [by intros [= <- <-]|].
  destruct (lookupKey now _ iss kid v) as [v1 [key|e]] eqn:El;
    apply lookupKey_spec in El as [Hs Hkey]; try done; [|by intros [= <- <-]].
  specialize (Hkey key eq_refl).
  destruct (jwt_Parse raw alg key jwtSkew ["exp"] (now 2)) as [tok'|[]] eqn:Ej;
    [|by intros [= <- <-]..].
  intros [= <- <-]. split; [done|]. intros id Hid.
  assert (tok' = tok) as -> by (apply parse_claims in Ej; congruence).
  apply identity_from_Ok in Hid as (Haud & Huser & ->). rewrite (same_policy _ _ (ev_same _ _ Hs)) in Huser.
  exists tok, iss, alg. split; try done.
  - exists kid, sigs, key. split_and!; try done. by eapply parse_signed.
  - eapply parse_unexpired; [exact Ej|]. by apply elem_of_list_here || (apply list_elem_of_In; left).
Qed.

(** ** A validator built from a loaded configuration *)

(** Invariant of every validator obtained from [New cfg]. *)
Record trusts (cfg : Config) (v : Validator) : Prop := {
  trusts_algs : allowedAlgs v = list_to_set (AllowedSigningAlgs (cfg_Security cfg));
  trusts_policy : v_policy v = cfg_UsernamePolicy cfg;
  trusts_issuers : forall k iss, byIssuerURL v !! k = Some iss ->
    is_cfg iss ∈ cfg_Issuers cfg /\ IssuerURL (is_cfg iss) = k;
  trusts_located : located v
}.

Lemma New_fold_lookup l (m : gmap string issuerState) k iss :
  fold_left (fun m i => <[IssuerURL i := issuerState_of i]> m) l m !! k = Some iss ->
  (is_cfg iss ∈ l /\ IssuerURL (is_cfg iss) = k /\ jwksURL iss = "") \/ m !! k = Some iss.
Proof.
  revert m. induction l as [|i l IH]; intros m Hm; cbn [fold_left] in Hm; [by right|].
  apply IH in Hm as [(Hin & He & Hj)|Hm]; [left; split_and!; [by right|done..]|].
  rewrite lookup_insert in Hm. case_decide as E; [|by right].
  injection Hm as <-. left. split_and!; [by left|done..].
Qed.

Lemma trusts_New cfg e : trusts cfg (New cfg e).
Proof.
  assert (forall k iss, byIssuerURL (New cfg e) !! k = Some iss ->
    is_cfg iss ∈ cfg_Issuers cfg /\ IssuerURL (is_cfg iss) = k /\ jwksURL iss = "") as Hn.
  { intros k iss Hk. simpl in Hk. by apply New_fold_lookup in Hk as [?|Hk]; [|rewrite lookup_empty in Hk]. }
  split; [done..| |]; intros k iss Hk; destruct (Hn k iss Hk) as (? & ? & ?); [done|by left].
Qed.

Lemma trusts_evolves cfg v v' : trusts cfg v -> evolves v v' -> trusts cfg v'.
Proof.
  intros [Ha Hp Hi _] [[Sa Sp Sc] _ Hl]. split; [congruence..| |done]. intros k iss' Hk'.
  assert (is_cfg <$> (byIssuerURL v !! k) = Some (is_cfg iss')) as E
    by (by rewrite <- lookup_fmap, <- Sc, lookup_fmap, Hk').
  apply fmap_Some in E as (iss & Hk & ->). by apply Hi.
Qed.

(** Validators in use: built by [New], then used any number of times. *)
Inductive in_use (cfg : Config) : Validator -> Prop :=
| use_new e : in_use cfg (New cfg e)
| use_step v now raw v' r : in_use cfg v -> Validate now raw v = (v', r) -> in_use cfg v'.

Lemma in_use_trusts cfg v : in_use cfg v -> trusts cfg v.
Proof.
  induction 1 as [e|v now raw v' r _ IH E]; [apply trusts_New|].
  apply validator_Validate_spec in E as [Hs _]; [by eapply trusts_evolves|apply IH].
Qed.

(** The usernames a configuration admits. *)
Definition admitted (cfg : Config) (u : string) : Prop :=
  u <> "" /\ policy_Validate (cfg_UsernamePolicy cfg) u = true.

#[export] Instance oidc_laws cfg : ValidatorLaws Validator (trusts cfg) (admitted cfg).
Proof.
  split.
  - intros now raw v v' r Ht E. apply validator_Validate_spec in E as [Hs _]; [by eapply trusts_evolves|apply Ht].
  - intros now raw v v' id Ht E. apply validator_Validate_spec in E as [_ Ha]; [|apply Ht].
    destruct (Ha id eq_refl) as (tok & iss & alg & [_ _ _ _ _ _ [Hne Hp] ->]).
    cbn [id_Username]. split; [done|]. by rewrite <- (trusts_policy _ _ Ht).
Qed.

End Soundness.

(** ** Properties *)

Section Properties.
Context `{GoLib} `{JX : Jwx} `{!JwxLaws}.

(** C6: an accepted token is authentic.  For a validator built from a loaded
    configuration and used any number of times: the token's issuer is a
    configured one, and its signature verifies under the key the cache held for
    the token's key ID at that issuer's JWKS location during this call.  That
    location is the configured one, or what the issuer's discovery document
    said when it was fetched, remembered since.  The algorithm is allowed, hence
    asymmetric; the token has not expired beyond the skew; its audience meets
    the issuer's list; and the identity is the token's, with a username the
    policy admits. *)
Theorem accepted_token_is_authentic cfg v now raw v' id :
  usable_config cfg -> in_use cfg v -> Validate now raw v = (v', Ok id) ->
  exists tok iss alg, authentic v v' (now 2) raw id tok iss alg /\
    is_cfg iss ∈ cfg_Issuers cfg /\ id_IssuerURL id = tok_Issuer tok /\
    alg ∈ supportedSigningAlgs /\ alg <> "none" /\ HasPrefix alg "HS" = false /\
    policy_Validate (cfg_UsernamePolicy cfg) (id_Username id) = true.
Proof.
  intros Hc Hu Hv. apply in_use_trusts in Hu as [Ta Tp Ti Tl].
  apply validator_Validate_spec in Hv as [_ Ha]; [|done]. destruct (Ha id eq_refl) as (tok & iss & alg & Hau).
  exists tok, iss, alg. split; [done|]. destruct Hau as [_ Hi Halg _ _ _ [_ Hpol] ->].
  destruct (Ti _ _ Hi) as [Hin Hurl].
  assert (alg ∈ supportedSigningAlgs) as Hs.
  { rewrite Ta in Halg. apply elem_of_list_to_set in Halg.
    pose proof (valid_algs _ (usable_valid _ Hc)) as Hf. rewrite Forall_forall in Hf. by apply Hf. }
  destruct (supported_asymmetric alg Hs). rewrite <- Tp. by split_and!.
Qed.

(** Nothing is fetched for a token that names no configured issuer, or
    whose header has no allowed algorithm and key ID: the validator, with its
    cache and the network behind it, is left exactly as it was. *)
Theorem no_fetch_for_unacceptable_header now raw v v' r :
  Validate now raw v = (v', r) ->
  (forall tok iss alg kid rest,
     ParseInsecure raw = Some tok -> byIssuerURL v !! tok_Issuer tok = Some iss ->
     jws_Parse raw = Some ((alg, kid) :: rest) -> alg ∈ allowedAlgs v -> kid = "") ->
  v' = v /\ (r = Err ErrTokenInvalid \/ r = Err ErrUnknownIssuer).
Proof.
  intros Hv Hno. unfold Validate, oidc_validator, validator_Validate in Hv.
  destruct (raw =s ""); [injection Hv as <- <-; auto|].
  destruct (ParseInsecure raw) as [tok|] eqn:Ep; [|injection Hv as <- <-; auto].
  destruct (byIssuerURL v !! tok_Issuer tok) as [iss|] eqn:Eb; [|injection Hv as <- <-; auto].
  destruct (jws_Parse raw) as [[|[alg kid] sigs]|] eqn:Ej; try (injection Hv as <- <-; by auto).
  destruct (bool_decide (alg ∈ allowedAlgs v)) eqn:Ea; [|injection Hv as <- <-; auto].
  apply bool_decide_eq_true in Ea. rewrite (Hno tok iss alg kid sigs) in Hv by done.
  injection Hv as <- <-; auto.
Qed.

(** C27: a token that meets the checks is accepted: with its key in the cached
    set of a resolved issuer, a token the library verifies, an intersecting
    audience and an admitted username yield the mapped identity. *)
Theorem good_token_is_accepted now raw v tok iss alg kid rest url e set key :
  raw <> "" -> ParseInsecure raw = Some tok -> byIssuerURL v !! tok_Issuer tok = Some iss ->
  jws_Parse raw = Some ((alg, kid) :: rest) -> alg ∈ allowedAlgs v -> kid <> "" ->
  jwksURL iss = url -> url <> "" -> cache_Get url (ext v) = (e, Some set) ->
  LookupKeyID set kid = Some key -> jwt_Parse raw alg key jwtSkew ["exp"] (now 2) = Ok tok ->
  (exists a, a ∈ tok_Audience tok /\ a ∈ Audiences (is_cfg iss)) ->
  mapped_username iss tok <> "" -> policy_Validate (v_policy v) (mapped_username iss tok) = true ->
  Validate now raw v =
  (with_ext v e, Ok (mkIdentity (mapped_username iss tok) (tok_Subject tok) (Name (is_cfg iss))
                       (IssuerURL (is_cfg iss)) (tok_Expiration tok))).
Proof.
  intros Hraw Hp Hi Hj Ha Hk Hurl Hu Hg Hl Ht Haud Hne Hpol.
  unfold Validate, oidc_validator, validator_Validate.
  rewrite (proj2 (String.eqb_neq _ _) Hraw), Hp, Hi, Hj, (bool_decide_eq_true_2 _ Ha). cbn [negb].
  rewrite (proj2 (String.eqb_neq _ _) Hk). unfold lookupKey, resolveJWKS.
  rewrite Hurl, (proj2 (String.eqb_neq _ _) Hu). cbn [negb].
  rewrite Hg, Hl, Ht. f_equal. unfold identity_from. rewrite (proj2 (intersects_true _ _) Haud). cbn [negb].
  fold (mapped_username iss tok). rewrite (proj2 (String.eqb_neq _ _) Hne).
  cbn [v_policy with_ext]. by rewrite Hpol.
Qed.

End Properties.

(** ** Forced refreshes, observed

    [traced] is the library with a witness at the network: it notes the URL of
    every forced refresh of the key cache, and is otherwise the same. *)

Definition traced (J : Jwx) : Jwx := {|
  Token := Token; Key := Key; KeySet := KeySet;
  tok_Issuer := tok_Issuer; tok_Subject := tok_Subject; tok_Audience := tok_Audience;
  tok_Expiration := tok_Expiration; claim := claim;
  ParseInsecure := ParseInsecure; jws_Parse := jws_Parse; jwt_Parse := jwt_Parse; LookupKeyID := LookupKeyID;
  Ext := Ext * list string;
  cache_Register := fun url e => let '(e', o) := cache_Register url e.1 in ((e', e.2), o);
  cache_Get := fun url e => let '(e', o) := cache_Get url e.1 in ((e', e.2), o);
  cache_Refresh := fun url e => let '(e', o) := cache_Refresh url e.1 in ((e', url :: e.2), o);
  http_Get := fun url e => let '(e', o) := http_Get url e.1 in ((e', e.2), o)
|}.

Section Refreshes.
Context `{GoLib} (J : Jwx).
#[local] Existing Instance traced.
Abbreviation Validator := (@Validator (traced J)).

(** The forced refreshes so far, the latest first. *)
Definition forced (v : Validator) : list string := (ext v : Ext * list string).2.

(** The issuer a token names. *)
Definition names_issuer (raw k : string) : bool :=
  match ParseInsecure raw with Some tok => tok_Issuer tok =s k | None => false end.

(** When the tokens that name issuer [k], among those validated one after the
    other, forced a refresh. *)
Fixpoint refresh_times (k : string) (calls : list (Clock * string)) (v : Validator) : list Time :=
  match calls with
  | [] => []
  | (now, raw) :: rest =>
      let v' := (Validate now raw v).1 in
      (if bool_decide (forced v' <> forced v) && names_issuer raw k then [now 1] else []) ++ refresh_times k rest v'
  end.

(** A call leaves the registry as it was but for the state of one issuer, and
    forces a refresh only past that issuer's cooldown, noting the instant. *)
Record gated (now : Clock) (k : string) (iss : issuerState) (v v' : Validator) : Prop := {
  gt_others : forall k', k' <> k -> byIssuerURL v' !! k' = byIssuerURL v !! k';
  gt_refresh : exists iss', byIssuerURL v' !! k = Some iss' /\
    ((forced v' = forced v /\ lastRefresh iss' = lastRefresh iss) \/
     exists url, forced v' = url :: forced v /\ (refreshCooldown < Sub (now 0%nat) (lastRefresh iss))%Z /\ lastRefresh iss' = now 1%nat)
}.

Lemma gated_same now k iss v : byIssuerURL v !! k = Some iss -> gated now k iss v v.
Proof. intros Hk. split; [done|]. exists iss. auto. Qed.

Lemma discover_forced u (e e' : @Ext (traced J)) o : discoverJWKS u e = (e', o) -> e'.2 = e.2.
Proof.
  unfold discoverJWKS. destruct (url_Parse _); [|by intros [= <- _]]. cbn [http_Get traced].
  destruct (@http_Get J _ e.1) as [e1 [[st b]|]]; repeat case_match; by intros [= <- _].
Qed.

Lemma resolve_gated k iss v v' r :
  byIssuerURL v !! k = Some iss -> resolveJWKS k iss v = (v', r) ->
  (forall k', k' <> k -> byIssuerURL v' !! k' = byIssuerURL v !! k') /\ forced v' = forced v /\
  exists iss', byIssuerURL v' !! k = Some iss' /\ lastRefresh iss' = lastRefresh iss.
Proof.
  intros Hk. unfold resolveJWKS. destruct (negb _); [intros [= <- <-]; by eauto|].
  destruct (if JWKSURI (is_cfg iss) =s "" then _ else _) as [e found] eqn:Ef.
  assert (e.2 = forced v) as He by (destruct (_ =s ""); [by eapply discover_forced|by injection Ef as <- _]).
  destruct found as [url|]; [|intros [= <- <-]; by eauto]. cbn [cache_Register traced].
  destruct (@cache_Register J url e.1) as [e' []]; intros [= <- <-]; unfold forced; cbn; [|by eauto].
  split_and!; [intros k' Hne; by rewrite lookup_insert_ne|done|]. eexists. by rewrite lookup_insert_eq.
Qed.

Lemma lookup_gated now k iss kid v v' r :
  byIssuerURL v !! k = Some iss -> lookupKey now k iss kid v = (v', r) -> gated now k iss v v'.
Proof.
  intros Hk. unfold lookupKey. destruct (resolveJWKS k iss v) as [v1 o] eqn:Er.
  apply resolve_gated in Er as (Ho & Hf & iss1 & Hk1 & Hl); [|done].
  assert (forall v2, byIssuerURL v2 = byIssuerURL v1 -> forced v2 = forced v1 -> gated now k iss v v2) as Hsame.
  { intros v2 Hb Hf2. split; [intros k' Hne; rewrite Hb; by apply Ho|]. exists iss1. rewrite Hb. split; [done|]. left. by rewrite Hf2. }
  destruct o as [url|]; [|intros [= <- <-]; by apply Hsame]. cbn [cache_Get traced].
  destruct (@cache_Get J url (ext v1).1) as [e [set|]]; [|intros [= <- <-]; by apply Hsame].
  cbn [LookupKeyID traced]. destruct (@LookupKeyID J set kid); [intros [= <- <-]; by apply Hsame|].
  cbn [byIssuerURL with_ext]. rewrite Hk1. change (default iss (Some iss1)) with iss1. unfold refresh_gate.
  destruct (Z.ltb_spec refreshCooldown (Sub (now 0%nat) (lastRefresh iss1))) as [Hg|_]; cbn [ext with_issuer with_ext fst snd].
  - cbn [cache_Refresh traced fst snd]. destruct (@cache_Refresh J url e) as [e2 set2].
    assert (forall v2, byIssuerURL v2 = <[k := set_lastRefresh iss1 (now 1%nat)]> (byIssuerURL v1) -> forced v2 = url :: forced v1 ->
      gated now k iss v v2) as Hnew.
    { intros v2 Hb Hf2. split; [intros k' Hne; rewrite Hb, lookup_insert_ne by done; by apply Ho|].
      eexists. rewrite Hb, lookup_insert_eq. split; [done|]. right. exists url. rewrite Hf2, Hf, <- Hl. done. }
    repeat case_match; intros [= <- <-]; by apply Hnew.
  - cbn [cache_Get traced fst snd]. destruct (@cache_Get J url e) as [e2 set2].
    assert (<[k := iss1]> (byIssuerURL v1) = byIssuerURL v1) as Hid by (by apply insert_id).
    repeat case_match; intros [= <- <-]; by apply Hsame.
Qed.

(** A token that names no registered issuer changes nothing; one that does is
    gated by that issuer. *)
Lemma Validate_gated now raw v v' r :
  Validate now raw v = (v', r) ->
  v' = v \/ exists tok iss, ParseInsecure raw = Some tok /\ byIssuerURL v !! tok_Issuer tok = Some iss /\
    gated now (tok_Issuer tok) iss v v'.
Proof.
  unfold Validate, oidc_validator, validator_Validate. destruct (raw =s ""); [intros [= <- _]; by left|].
  destruct (ParseInsecure raw) as [tok|] eqn:Ep; [|intros [= <- _]; by left].
  destruct (byIssuerURL v !! tok_Issuer tok) as [iss|] eqn:Eb; [|intros [= <- _]; by left].
  destruct (jws_Parse raw) as [[|[alg kid] sigs]|]; [intros [= <- _]; by left| |intros [= <- _]; by left].
  destruct (negb _); [intros [= <- _]; by left|]. destruct (kid =s ""); [intros [= <- _]; by left|].
  destruct (lookupKey now _ iss kid v) as [v1 [key|e]] eqn:El; apply lookup_gated in El; [|done| |done].
  - intros E. right. exists tok, iss. split_and!; [done|done|]. by repeat case_match; simplify_eq.
  - intros [= <- _]. right. by exists tok, iss.
Qed.

(** The last refresh on record bounds those to come. *)
Lemma refresh_times_spaced k calls : forall from v iss,
  byIssuerURL v !! k = Some iss -> ordered from (map (fun c => (c.1 0%nat, c.1 1%nat)) calls) ->
  spaced refreshCooldown (lastRefresh iss) (refresh_times k calls v).
Proof.
  induction calls as [|[now raw] rest IH]; intros from v iss Hk; [done|]. cbn [map ordered refresh_times fst]. intros [Hn Ho].
  destruct (Validate now raw v) as [v' r] eqn:Ev. cbn [fst]. apply Validate_gated in Ev as [->|(tok & iss0 & Hp & Hk0 & [Hoth Hg])].
  { rewrite bool_decide_eq_false_2 by tauto. by eapply IH. }
  unfold names_issuer. rewrite Hp. destruct (seqb_spec (tok_Issuer tok) k) as [E|Hne].
  - subst k. assert (iss0 = iss) as -> by congruence. rewrite andb_true_r.
    destruct Hg as (iss' & Hk' & [[Hf Hl]|(url & Hf & Hcd & Hl)]).
    + rewrite bool_decide_eq_false_2 by (rewrite Hf; tauto). rewrite <- Hl. by eapply IH.
    + rewrite bool_decide_eq_true_2. 2:{ rewrite Hf. intros E. apply (f_equal length) in E. cbn in E. lia. }
      cbn [app spaced]. apply Sub_gt in Hcd; [|done]. split; [lia|]. rewrite <- Hl. by eapply IH.
  - rewrite andb_false_r. eapply IH; [|exact Ho]. rewrite Hoth; [done|congruence].
Qed.

(** C25: forced JWKS refreshes are rate-limited.  Let the library note every
    forced refresh of its key cache, and let tokens be validated one after the
    other, the clock never going back.  A validation forces at most one
    refresh, and only for a token that names a registered issuer; and the
    refreshes forced by tokens that name the same issuer, however many unknown
    keys they name, are more than the cooldown of ten seconds apart, the first
    more than the cooldown after the last one on record. *)
Theorem refreshes_rate_limited k calls from v iss :
  byIssuerURL v !! k = Some iss -> ordered from (map (fun c => (c.1 0%nat, c.1 1%nat)) calls) ->
  spaced refreshCooldown (lastRefresh iss) (refresh_times k calls v) /\
  forall now raw v1, forced (Validate now raw v1).1 = forced v1 \/
    exists tok url, ParseInsecure raw = Some tok /\ is_Some (byIssuerURL v1 !! tok_Issuer tok) /\
      forced (Validate now raw v1).1 = url :: forced v1.
Proof.
  intros Hk Ho. split; [by eapply refresh_times_spaced|]. intros now raw v1.
  destruct (Validate now raw v1) as [v' r] eqn:Ev. cbn [fst]. apply Validate_gated in Ev as [->|(tok & iss0 & Hp & Hk0 & [_ Hg])]; [by left|].
  destruct Hg as (iss' & _ & [[Hf _]|(url & Hf & _)]); [by left|]. right. exists tok, url. split_and!; [done|by eexists|done].
Qed.

End Refreshes.

(** ** A concrete library, to show the laws can hold

    One token, signed by one key. *)
Module DemoJwx.

Definition iss_url : string := "https://kc.example/realms/a".
Definition exp : Time := (2000 * Second)%Z.
Definition raw : string := "good.jwt.token".

Definition jwx : Jwx := {|
  Token := unit; Key := unit; KeySet := unit;
  tok_Issuer := fun _ => iss_url;
  tok_Subject := fun _ => "0f9c";
  tok_Audience := fun _ => ["account"; "ozone"];
  tok_Expiration := fun _ => exp;
  claim := fun _ name => if name =s "preferred_username" then Some (Some "alice") else None;
  ParseInsecure := fun r => if r =s raw then Some tt else None;
  jws_Parse := fun r => if r =s raw then Some [("RS256", "k1")] else None;
  jwt_Parse := fun r alg _ skew _ now =>
    if (r =s raw) && (alg =s "RS256") then
      if (now / Second * Second <? exp + skew)%Z then Ok tt else Err JwtExpired
    else Err JwtOther;
  LookupKeyID := fun _ kid => if kid =s "k1" then Some tt else None;
  Ext := unit;
  cache_Register := fun _ e => (e, true);
  cache_Get := fun _ e => (e, Some tt);
  cache_Refresh := fun _ e => (e, Some tt);
  http_Get := fun _ e => (e, Some (200%Z, q "{'jwks_uri':'https://kc.example/jwks'}"))
|}.

#[export] Existing Instance jwx.

#[export] Instance laws : JwxLaws.
Proof.
  assert (forall r alg key skew req now tok, jwt_Parse r alg key skew req now = Ok tok ->
    r = raw /\ alg = "RS256" /\ (now / Second * Second < exp + skew)%Z) as Hp.
  { intros r alg key skew req now tok. cbn [jwt_Parse jwx].
    destruct (seqb_spec r raw), (seqb_spec alg "RS256"); cbn [andb]; try discriminate.
    destruct (Z.ltb_spec (now / Second * Second) (exp + skew)); [|discriminate]. intros _. auto. }
  refine {| Signed := fun r alg _ => r = raw /\ alg = "RS256" |}.
  - intros r alg key skew req now tok E. apply Hp in E as (-> & -> & _). auto.
  - intros r alg key skew req now [] E. apply Hp in E as (-> & _ & _). reflexivity.
  - intros r alg key skew req now tok E _. apply Hp in E as (_ & _ & Hn). exact Hn.
Defined.

Definition config : Config :=
  mkConfig "0.0.0.0:9000" "0.0.0.0:9090" (mkUpstream "http://s3g:9878" "rewrite") (mkDataPath None None)
    [mkIssuer "kc" iss_url "" ["ozone"] "preferred_username"]
    (mkSTS 3600 []) (mkCredentialStore "memory" (mkValkeyStore "" "OZPX_STORE_KEY"))
    (mkSecurity (15 * Minute)%Z ["RS256"; "ES256"] "us-east-1")
    (mkUsernamePolicy default_username_pattern (Some default_username_match)).

#[local] Existing Instance ascii_lib.

Lemma usable : usable_config config.
Proof.
  assert (Parse (fun _ => Some config) (fun _ => "") "" = Ok config) as Hp by (vm_compute; reflexivity).
  by eapply Parse_usable.
Qed.

(** A validator that has resolved and cached the issuer's keys. *)
Definition fresh : Validator := New config tt.
Definition warm : Validator := (Validate (fun _ => 0%Z) raw fresh).1.

Lemma warm_in_use : in_use config warm.
Proof.
  unfold warm. destruct (Validate (fun _ => 0%Z) raw fresh) as [v r] eqn:E.
  eapply use_step; [apply use_new|exact E].
Qed.

Definition alice : Identity := mkIdentity "alice" "0f9c" "kc" iss_url exp.

End DemoJwx.

Section Witnesses.
#[local] Existing Instance ascii_lib.
Import DemoJwx.

Lemma accepted_token_is_authentic_witness :
  (Validate (fun _ => (1000 * Second)%Z) raw warm).2 = Ok alice /\
  exists tok iss alg, authentic warm (Validate (fun _ => (1000 * Second)%Z) raw warm).1 (1000 * Second)%Z raw alice tok iss alg /\
    alg ∈ supportedSigningAlgs.
Proof.
  assert ((Validate (fun _ => (1000 * Second)%Z) raw warm).2 = Ok alice) as Hr by (vm_compute; reflexivity).
  split; [exact Hr|].
  destruct (Validate (fun _ => (1000 * Second)%Z) raw warm) as [v' r] eqn:Hv. cbn [snd] in Hr. subst r.
  destruct (accepted_token_is_authentic config warm (fun _ => (1000 * Second)%Z) raw v' alice usable warm_in_use Hv)
    as (tok & iss & alg & Ha & _ & _ & Hs & _).
  exists tok, iss, alg. split; [exact Ha|exact Hs].
Defined.

(** A library whose cached key set never has the key a token names. *)
Definition unknown_keys : Jwx := {|
  Token := unit; Key := unit; KeySet := unit;
  tok_Issuer := tok_Issuer; tok_Subject := tok_Subject; tok_Audience := tok_Audience;
  tok_Expiration := tok_Expiration; claim := claim;
  ParseInsecure := ParseInsecure; jws_Parse := jws_Parse; jwt_Parse := jwt_Parse;
  LookupKeyID := fun _ _ => None;
  Ext := unit; cache_Register := cache_Register; cache_Get := cache_Get; cache_Refresh := cache_Refresh; http_Get := http_Get
|}.

Definition storm : list (Clock * string) :=
  [((fun _ => 0%Z), raw); ((fun _ => (5 * Second)%Z), raw); ((fun _ => (10 * Second)%Z), raw); ((fun _ => (11 * Second)%Z), raw)].

(** Of four tokens with unknown keys within eleven seconds, two force a
    refresh. *)
Lemma refreshes_rate_limited_witness :
  refresh_times unknown_keys iss_url storm (@New (traced unknown_keys) config (tt, [])) = [0; 11 * Second]%Z /\
  spaced refreshCooldown zero_time [0; 11 * Second]%Z.
Proof.
  assert (refresh_times unknown_keys iss_url storm (@New (traced unknown_keys) config (tt, [])) = [0; 11 * Second]%Z) as E
    by (vm_compute; reflexivity).
  split; [exact E|]. rewrite <- E.
  destruct (byIssuerURL (@New (traced unknown_keys) config (tt, [])) !! iss_url) as [iss|] eqn:Ei; [|vm_compute in Ei; discriminate Ei].
  assert (lastRefresh iss = zero_time) as <- by (vm_compute in Ei; injection Ei as <-; reflexivity).
  apply (refreshes_rate_limited unknown_keys iss_url storm 0%Z _ iss Ei).
  unfold storm. simpl. unfold Second. lia.
Defined.

Lemma no_fetch_for_unacceptable_header_witness :
  (Validate (fun _ => 0%Z) "not.a.token" fresh).1 = fresh.
Proof.
  destruct (Validate (fun _ => 0%Z) "not.a.token" fresh) as [v' r] eqn:Hv.
  apply (no_fetch_for_unacceptable_header (fun _ => 0%Z) "not.a.token" fresh v' r Hv).
  intros tok iss alg kid rest Hp. vm_compute in Hp. discriminate Hp.
Defined.

Lemma good_token_is_accepted_witness :
  (Validate (fun _ => (1000 * Second)%Z) raw warm).2 = Ok alice.
Proof.
  destruct (byIssuerURL warm !! iss_url) as [iss|] eqn:E; [|vm_compute in E; discriminate E].
  assert (iss = mkIssuerState (mkIssuer "kc" iss_url "" ["ozone"] "preferred_username")
            "https://kc.example/jwks" zero_time) as Hi by (vm_compute in E; injection E as <-; reflexivity).
  rewrite (good_token_is_accepted (fun _ => (1000 * Second)%Z) raw warm tt iss "RS256" "k1" []
    "https://kc.example/jwks" tt tt tt).
  - rewrite Hi. vm_compute. reflexivity.
  - discriminate.
  - reflexivity.
  - exact E.
  - reflexivity.
  - apply (bool_decide_unpack _). vm_compute. exact I.
  - discriminate.
  - rewrite Hi. reflexivity.
  - discriminate.
  - reflexivity.
  - reflexivity.
  - vm_compute. reflexivity.
  - rewrite Hi. exists "ozone". split; apply list_elem_of_In; vm_compute; tauto.
  - rewrite Hi. vm_compute. discriminate.
  - rewrite Hi. vm_compute. reflexivity.
Defined.

End Witnesses.
