(* ===== verification/Sts.v ===== *)
(** * Package sts: AssumeRoleWithWebIdentity

    Models internal/sts/sts.go and xml.go: reading the form, validating the
    token, computing the lifetime, minting and storing the credentials, and
    the XML documents of the answers.  The handler is written against the
    interfaces [TokenValidator] and [Store]. *)

From Stdlib Require Import Ascii String ZArith NArith Bool Lia.
From stdpp Require Import base tactics list strings gmap.
From S2P Require Import Prelude GoStrings GoTime GoHttp GoXml Config Oidc Store.

Definition Action : string := "AssumeRoleWithWebIdentity".

Definition codeValidationError : string := "ValidationError".
Definition codeInvalidIdentityToken : string := "InvalidIdentityToken".
Definition codeExpiredToken : string := "ExpiredTokenException".
Definition codeIDPCommunicationError : string := "IDPCommunicationError".
Definition codeAccessDenied : string := "AccessDenied".
Definition codeServiceFailure : string := "ServiceFailure".

Definition stsXMLNS : string := "https://sts.amazonaws.com/doc/2011-06-15/".

(** [OnExchange] receives one of these per exchange. *)
Record Result := mkResult { res_Issuer : string; res_Code : string }.

(** ** Documents *)

Record successData := mkSuccess {
  sd_Subject : string;
  sd_Provider : string;
  sd_RoleArn : string;
  sd_SessionName : string;
  sd_Creds : Credentials;
  sd_RequestID : string
}.

Definition writeXML (st : Z) (v : xnode) : Response := mkResponse st "text/xml" (document v).

Definition assumeRoleResponse (d : successData) : xnode :=
  let c := sd_Creds d in
  Node "AssumeRoleWithWebIdentityResponse" [("xmlns", stsXMLNS)]
    [Node "AssumeRoleWithWebIdentityResult" []
       [Leaf "SubjectFromWebIdentityToken" (sd_Subject d);
        Node "AssumedRoleUser" []
          [Leaf "AssumedRoleId" ("OZPXROLEID:" +:+ sd_SessionName d);
           Leaf "Arn" (sd_RoleArn d +:+ "/" +:+ sd_SessionName d)];
        Node "Credentials" []
          [Leaf "AccessKeyId" (cr_AccessKeyID c);
           Leaf "SecretAccessKey" (cr_SecretAccessKey c);
           Leaf "SessionToken" (cr_SessionToken c);
           Leaf "Expiration" (Format_rfc3339 (cr_ExpiresAt c))];
        Leaf "Provider" (sd_Provider d)];
     Node "ResponseMetadata" [] [Leaf "RequestId" (sd_RequestID d)]].

Definition writeSuccess (d : successData) : Response := writeXML 200 (assumeRoleResponse d).

Definition errorResponse (errcode msg reqID : string) : xnode :=
  Node "ErrorResponse" [("xmlns", stsXMLNS)]
    [Node "Error" [] [Leaf "Type" "Sender"; Leaf "Code" errcode; Leaf "Message" msg];
     Leaf "RequestId" reqID].

Definition writeError (st : Z) (errcode msg reqID : string) : Response :=
  writeXML st (errorResponse errcode msg reqID).

Definition newRequestID (read : option string) : string :=
  match read with
  | Some buf => EncodeToString buf
  | None => "00000000000000000000000000000000"
  end.

(** ** Error mapping *)

Definition mapTokenError (e : oidcerr) : string * Z :=
  match e with
  | ErrTokenExpired => (codeExpiredToken, 400)
  | ErrIssuerUnavailable => (codeIDPCommunicationError, 400)
  | _ => (codeInvalidIdentityToken, 400)
  end%Z.

Definition publicTokenErrorMessage (e : oidcerr) : string :=
  match e with
  | ErrTokenExpired => "web identity token is expired"
  | ErrIssuerUnavailable => "could not reach the identity provider"
  | ErrUnknownIssuer => "token issuer is not trusted"
  | ErrBadUsername => "token username is not acceptable"
  | ErrTokenInvalid => "web identity token could not be validated"
  end.

Definition contains (l : list string) (v : string) : bool := existsb (fun x => x =s v) l.

(** [roleSessionNamePattern]: two to 64 bytes of [\w+=,.@-]. *)
Definition session_byte (c : ascii) : bool := is_alnum c || negb (sfree c "_+=,.@-").

Definition roleSessionNamePattern (s : string) : bool :=
  (2 <=? String.length s)%nat && (String.length s <=? 64)%nat && sall session_byte s.

(** ** The lifetime *)

Definition effective_ttl (expiry now : Time) (maxDuration requested : Z) : Duration :=
  let ttl := Sub expiry now in
  let max := seconds maxDuration in
  let ttl := if (max <? ttl)%Z then max else ttl in
  if (0 <? requested)%Z then
    let req := seconds requested in
    if (req <? ttl)%Z then req else ttl
  else ttl.

(** ** The handler *)

(** A refusal: status, code, message. *)
Record refusal := Refuse { rf_status : Z; rf_code : string; rf_message : string }.

Record params := mkParams {
  token : string;
  roleArn : string;
  sessionName : string;
  requested : Z
}.

Section Handler.
Context `{GoLib}.

(** [r.ParseForm()] of a POST: the values of a form body, with an error for a
    body that cannot be read or parsed, a bad media type or a bad query. *)
Definition ParseForm (r : Request) : option Values :=
  let ct := HGet (RHeader r) "Content-Type" in
  let ct := if ct =s "" then "application/octet-stream" else ct in
  match ParseMediaType ct with
  | None => None
  | Some mediatype =>
      if negb (snd (ParseQuery (RawQuery (RURL r)))) then None
      else if mediatype =s "application/x-www-form-urlencoded" then
        match Body r with
        | None => None
        | Some b => let '(vs, ok) := ParseQuery b in if ok then Some vs else None
        end
      else Some []
  end.

(** The checks before the token is looked at. *)
Definition read_params (cfg : STS) (r : Request) : res refusal params :=
  if Method r <>s "POST" then Err (Refuse 405 codeValidationError "only POST is supported")
  else match ParseForm r with
  | None => Err (Refuse 400 codeValidationError "malformed form body")
  | Some form =>
    let got := VGet form "Action" in
    if got <>s Action then Err (Refuse 400 codeValidationError ("unsupported Action " +:+ quote got))
    else
    let token := VGet form "WebIdentityToken" in
    if token =s "" then Err (Refuse 400 codeValidationError "WebIdentityToken is required")
    else
    let roleArn := VGet form "RoleArn" in
    if roleArn =s "" then Err (Refuse 400 codeValidationError "RoleArn is required")
    else if negb (length (RoleARNAllowlist cfg) =? 0)%nat && negb (contains (RoleARNAllowlist cfg) roleArn)
    then Err (Refuse 403 codeAccessDenied ("RoleArn " +:+ quote roleArn +:+ " is not allowed"))
    else
    let given := VGet form "RoleSessionName" in
    let sessionName := if given =s "" then "web-identity" else given in
    if negb (roleSessionNamePattern sessionName)
    then Err (Refuse 400 codeValidationError "invalid RoleSessionName")
    else
    let v := VGet form "DurationSeconds" in
    if v =s "" then Ok (mkParams token roleArn sessionName 0)
    else match Atoi v with
    | None => Err (Refuse 400 codeValidationError "invalid DurationSeconds")
    | Some n => if (n <=? 0)%Z then Err (Refuse 400 codeValidationError "invalid DurationSeconds")
                else Ok (mkParams token roleArn sessionName n)
    end
  end.

Section Serve.
Context {V S : Type} `{TokenValidator V} `{!Store S}.

(** What one exchange leaves behind. *)
Record outcome := Outcome { o_validator : V; o_store : S; o_response : Response; o_result : Result }.

Definition refused (v : V) (s : S) (issuer : string) (rf : refusal) (reqID : string) : outcome :=
  Outcome v s (writeError (rf_status rf) (rf_code rf) (rf_message rf) reqID) (mkResult issuer (rf_code rf)).

(** [Handler.ServeHTTP].  The validator takes the first three readings of the
    clock, the handler the fourth, the store the fifth; the request ID takes
    the first random buffer, [Mint] the next three. *)
Definition ServeHTTP (cfg : STS) (now : Clock) (rand : Entropy) (r : Request) (v : V) (s : S) : outcome :=
  let reqID := newRequestID (rand 0 16) in
  match read_params cfg r with
  | Err rf => refused v s "" rf reqID
  | Ok p =>
    match Validate now (token p) v with
    | (v, Err e) =>
        let '(errcode, st) := mapTokenError e in
        refused v s "" (Refuse st errcode (publicTokenErrorMessage e)) reqID
    | (v, Ok identity) =>
        let t := now 3 in
        let ttl := effective_ttl (id_Expiry identity) t (MaxDuration cfg) (requested p) in
        let issuer := id_IssuerName identity in
        if (ttl <=? 0)%Z then
          refused v s issuer (Refuse 400 codeExpiredToken "web identity token is expired") reqID
        else match Mint rand 1 (id_Username identity) issuer (Add t ttl) with
        | Err _ => refused v s issuer (Refuse 500 codeServiceFailure "credential minting failed") reqID
        | Ok creds =>
            match Put (now 4) creds s with
            | (s, Some _) =>
                refused v s issuer (Refuse 500 codeServiceFailure "credential store unavailable") reqID
            | (s, None) =>
                Outcome v s
                  (writeSuccess (mkSuccess (id_Subject identity) (id_IssuerURL identity) (roleArn p)
                                   (sessionName p) creds reqID))
                  (mkResult issuer "")
            end
        end
    end
  end.

End Serve.
End Handler.

(** ** The lifetime: lemmas *)

Lemma effective_ttl_le expiry now maxd req :
  (effective_ttl expiry now maxd req <= Sub expiry now)%Z /\
  (effective_ttl expiry now maxd req <= seconds maxd)%Z /\
  ((0 < req)%Z -> (effective_ttl expiry now maxd req <= seconds req)%Z).
Proof.
  unfold effective_ttl.
  destruct (Z.ltb_spec (seconds maxd) (Sub expiry now)), (Z.ltb_spec 0 req);
    repeat match goal with |- context [(?a <? ?b)%Z] => destruct (Z.ltb_spec a b) end; lia.
Qed.

Lemma seconds_exact n : (0 <= n <= 9223372036)%Z -> seconds n = (n * Second)%Z.
Proof. intros Hn. unfold seconds, Second. apply wrap64_id. unfold min_int64, max_int64. lia. Qed.

(** Below the overflow threshold the code computes the documented minimum. *)
Lemma effective_ttl_min expiry now maxd req :
  (0 < maxd <= 9223372036)%Z -> (0 <= req <= 9223372036)%Z ->
  effective_ttl expiry now maxd req =
  Z.min (Sub expiry now)
    (if (0 <? req)%Z then Z.min (maxd * Second) (req * Second) else maxd * Second).
Proof.
  intros Hm Hr. unfold effective_ttl. rewrite !seconds_exact by lia.
  destruct (Z.ltb_spec (maxd * Second) (Sub expiry now)), (Z.ltb_spec 0 req);
    repeat match goal with |- context [(?a <? ?b)%Z] => destruct (Z.ltb_spec a b) end; lia.
Qed.

Lemma Sub_pos_le t u : (0 < Sub t u)%Z -> (Sub t u <= t - u)%Z.
Proof. unfold Sub, clamp64, min_int64, max_int64. lia. Qed.

(** ** The handler: lemmas *)

Section ServeLemmas.
Context `{GoLib} {V S : Type} `{TokenValidator V} `{!Store S}.

(** Everything a successful exchange established. *)
Record exchanged (cfg : STS) (now : Clock) (rand : Entropy) (r : Request) (v : V) (s : S)
    (o : outcome (V := V) (S := S)) (p : params) (id : Identity) (c : Credentials) : Prop := {
  ex_params : read_params cfg r = Ok p;
  ex_token : Validate now (token p) v = (o_validator o, Ok id);
  ex_live : (0 < effective_ttl (id_Expiry id) (now 3%nat) (MaxDuration cfg) (requested p))%Z;
  ex_minted : Mint rand 1 (id_Username id) (id_IssuerName id)
    (Add (now 3%nat) (effective_ttl (id_Expiry id) (now 3%nat) (MaxDuration cfg) (requested p))) = Ok c;
  ex_stored : Put (now 4) c s = (o_store o, None);
  ex_response : o_response o =
    writeSuccess (mkSuccess (id_Subject id) (id_IssuerURL id) (roleArn p) (sessionName p) c
                    (newRequestID (rand 0 16)));
  ex_result : o_result o = mkResult (id_IssuerName id) ""
}.

(** Everything a refused exchange established: an error document whose code is
    the reported one, and a store that was not written, or whose write failed. *)
Record declined (now : Clock) (s : S) (o : outcome (V := V) (S := S)) (rf : refusal) (reqID : string) : Prop := {
  dec_status : rf_status rf ∈ [400; 403; 405; 500]%Z;
  dec_code : rf_code rf <> "";
  dec_response : o_response o = writeError (rf_status rf) (rf_code rf) (rf_message rf) reqID;
  dec_result : res_Code (o_result o) = rf_code rf;
  dec_store : o_store o = s \/ exists c err, Put (now 4) c s = (o_store o, Some err)
}.

Lemma read_params_err cfg r rf :
  read_params cfg r = Err rf ->
  rf_code rf = codeValidationError /\ rf_status rf ∈ [400; 405]%Z
  \/ rf_code rf = codeAccessDenied /\ rf_status rf = 403%Z.
Proof.
  unfold read_params. intros Hp.
  repeat (case_in Hp; try discriminate Hp); injection Hp as <-; cbn [rf_code rf_status];
    first [right; split; reflexivity | left; split; [reflexivity|set_solver]].
Qed.

Lemma refused_declined now (v : V) s s' issuer rf reqID :
  rf_status rf ∈ [400; 403; 405; 500]%Z -> rf_code rf <> "" ->
  (s' = s \/ exists c err, Put (now 4) c s = (s', Some err)) ->
  declined now s (refused v s' issuer rf reqID) rf reqID.
Proof. by split. Qed.

Lemma ServeHTTP_cases cfg now rand r v s :
  let o := ServeHTTP cfg now rand r v s in
  (exists p id c, exchanged cfg now rand r v s o p id c) \/
  (exists rf, declined now s o rf (newRequestID (rand 0 16))).
Proof.
  cbv zeta. unfold ServeHTTP. destruct (read_params cfg r) as [p|rf] eqn:Ep.
  2:{ right. exists rf. apply read_params_err in Ep. apply refused_declined; [set_solver| |by left].
      by destruct Ep as [[-> _]|[-> _]]. }
  destruct (Validate now (token p) v) as [v' [id|e]] eqn:Ev.
  2:{ right. destruct e; eexists; (apply refused_declined; [set_solver|done|by left]). }
  destruct (Z.leb_spec (effective_ttl (id_Expiry id) (now 3) (MaxDuration cfg) (requested p)) 0) as [Ht|Ht].
  { right. eexists. apply refused_declined; [set_solver|done|by left]. }
  destruct (Mint rand 1 _ _ _) as [c|] eqn:Em.
  2:{ right. eexists. apply refused_declined; [set_solver|done|by left]. }
  destruct (Put (now 4) c s) as [s' [err|]] eqn:Eput.
  { right. eexists. apply refused_declined; [set_solver|done|eauto]. }
  left. exists p, id, c. by split.
Qed.

(** The lifetime of the stored record. *)
Lemma exchanged_expiry cfg now rand r v s o p id c :
  exchanged cfg now rand r v s o p id c -> fills rand ->
  minted c (id_Username id) (id_IssuerName id)
    (Add (now 3%nat) (effective_ttl (id_Expiry id) (now 3%nat) (MaxDuration cfg) (requested p))) /\
  (now 3%nat < cr_ExpiresAt c <= id_Expiry id)%Z /\
  (cr_ExpiresAt c <= now 3%nat + seconds (MaxDuration cfg))%Z /\
  ((0 < requested p)%Z -> (cr_ExpiresAt c <= now 3%nat + seconds (requested p))%Z).
Proof.
  intros He Hf. pose proof (Mint_minted _ _ _ _ _ _ Hf (ex_minted _ _ _ _ _ _ _ _ _ _ He)) as Hm.
  pose proof (ex_live _ _ _ _ _ _ _ _ _ _ He) as Hl.
  destruct (effective_ttl_le (id_Expiry id) (now 3%nat) (MaxDuration cfg) (requested p)) as (H1 & H2 & H3).
  pose proof (Sub_pos_le (id_Expiry id) (now 3%nat)).
  split; [done|]. rewrite (minted_expiry _ _ _ _ Hm). unfold Add. lia.
Qed.

End ServeLemmas.

(** ** Properties *)

(** Below the overflow threshold (about 292 years) the lifetime is the
    documented minimum of the token's remaining life, the configured cap and
    the requested duration. *)
Theorem ttl_is_minimum expiry now maxd req :
  (0 < maxd <= 9223372036)%Z -> (0 <= req <= 9223372036)%Z ->
  effective_ttl expiry now maxd req =
  Z.min (Sub expiry now)
    (if (0 <? req)%Z then Z.min (maxd * Second) (req * Second) else maxd * Second).
Proof. apply effective_ttl_min. Qed.

Lemma ttl_is_minimum_witness :
  (effective_ttl (5000 * Second) 0 3600 900 =
   Z.min (Sub (5000 * Second) 0) (Z.min (3600 * Second) (900 * Second)))%Z.
Proof. exact (ttl_is_minimum (5000 * Second)%Z 0%Z 3600%Z 900%Z ltac:(lia) ltac:(lia)). Defined.

Lemma seconds_overflow n : (9223372037 <= n <= 18446744073)%Z -> (seconds n < 0)%Z.
Proof.
  intros Hn. unfold seconds, wrap64, Second.
  replace (n * 1000000000 + 2 ^ 63)%Z with (n * 1000000000 + 2 ^ 63 - 2 ^ 64 + 1 * 2 ^ 64)%Z by lia.
  rewrite Z.mod_add by lia. rewrite Z.mod_small; lia.
Qed.

Section Properties.
Context `{GoLib} {V S : Type} `{TokenValidator V} `{!Store S}.

(** C7: every exchange ends in one of two ways.  Either the parameters were
    acceptable, the validator accepted the token, and exactly one record was
    put, minted for that identity, whose life starts now and ends no later
    than the token, the cap and the requested duration, and the answer is the
    success document carrying it; or the answer is an error document with a
    4xx or 5xx status whose code is the one reported to the metrics, and the
    store was left alone unless the put itself failed. *)
Theorem exchange_outcomes cfg now rand r (v : V) (s : S) :
  fills rand ->
  let o := ServeHTTP cfg now rand r v s in
  (exists p id c, exchanged cfg now rand r v s o p id c /\
     (now 3%nat < cr_ExpiresAt c <= id_Expiry id)%Z /\
     (cr_ExpiresAt c <= now 3%nat + seconds (MaxDuration cfg))%Z /\
     ((0 < requested p)%Z -> (cr_ExpiresAt c <= now 3%nat + seconds (requested p))%Z) /\
     cr_Username c = id_Username id) \/
  (exists rf, declined now s o rf (newRequestID (rand 0 16))).
Proof.
  intros Hf. cbv zeta. destruct (ServeHTTP_cases cfg now rand r v s) as [(p & id & c & He)|Hd]; [|by right].
  left. exists p, id, c. destruct (exchanged_expiry _ _ _ _ _ _ _ _ _ _ He Hf) as (Hm & H1 & H2 & H3).
  split_and!; try done; try lia. by apply (minted_username _ _ _ _ Hm).
Qed.

(** C37: for a requested duration of 9223372037 to 18446744073 seconds the
    multiplication by a second overflows to a negative duration: a valid token
    is answered with ExpiredTokenException instead of credentials capped at
    [sts.max_duration], and nothing is stored. *)
Theorem huge_duration_overflows cfg now rand r (v v' : V) (s : S) p id :
  read_params cfg r = Ok p -> Validate now (token p) v = (v', Ok id) ->
  (9223372037 <= requested p <= 18446744073)%Z ->
  let o := ServeHTTP cfg now rand r v s in
  res_Code (o_result o) = codeExpiredToken /\ o_store o = s.
Proof.
  intros Hp Hv Hr. cbv zeta. unfold ServeHTTP. rewrite Hp, Hv.
  destruct (effective_ttl_le (id_Expiry id) (now 3) (MaxDuration cfg) (requested p)) as (_ & _ & H3).
  pose proof (seconds_overflow _ Hr).
  rewrite (proj2 (Z.leb_le _ _)) by lia. done.
Qed.

End Properties.

(** ** Concrete exchanges *)

Module DemoExchange.

Definition form (duration : string) : string :=
  "Action=AssumeRoleWithWebIdentity&Version=2011-06-15&RoleArn=arn:aws:iam::1:role/r&WebIdentityToken="
  +:+ DemoJwx.raw +:+ "&DurationSeconds=" +:+ duration.

Definition request (duration : string) : Request :=
  mkRequest "POST" (mkURL "" "" "/" "" "") "/" "proxy:9000"
    {[ "Content-Type" := ["application/x-www-form-urlencoded"] ]} 0 (Some (form duration)) None false.

Definition now : Clock := fun _ => (1000 * Second)%Z.

Definition params (n : Z) : params := mkParams DemoJwx.raw "arn:aws:iam::1:role/r" "web-identity" n.

End DemoExchange.

Section Witnesses.
#[local] Existing Instance ascii_lib.
Import DemoJwx DemoExchange.

Lemma exchange_outcomes_witness :
  fills zero_entropy /\
  res_Code (o_result (ServeHTTP (cfg_STS config) now zero_entropy (request "900") warm Memory.NewMemory)) = "" /\
  exists c, cr_Username c = "alice" /\ (1000 * Second < cr_ExpiresAt c <= exp)%Z.
Proof.
  split; [apply zero_entropy_fills|].
  assert (res_Code (o_result (ServeHTTP (cfg_STS config) now zero_entropy (request "900") warm Memory.NewMemory)) = "")
    as Hok by (vm_compute; reflexivity).
  split; [exact Hok|].
  pose proof (exchange_outcomes (cfg_STS config) now zero_entropy (request "900") warm Memory.NewMemory
    zero_entropy_fills) as [(p & id & c & He & Hl & _ & _ & Hu)|(rf & [_ Hc _ Hr _])].
  - assert (id = alice) as ->.
    { pose proof (ex_params _ _ _ _ _ _ _ _ _ _ He) as Hp. vm_compute in Hp. injection Hp as <-.
      pose proof (ex_token _ _ _ _ _ _ _ _ _ _ He) as Ht. apply (f_equal snd) in Ht. vm_compute in Ht.
      injection Ht as <-. reflexivity. }
    exists c. split; [exact Hu|exact Hl].
  - exfalso. apply Hc. rewrite <- Hr. exact Hok.
Defined.

Lemma huge_duration_overflows_witness :
  read_params (cfg_STS config) (request "9223372037") = Ok (DemoExchange.params 9223372037) /\
  res_Code (o_result (ServeHTTP (cfg_STS config) now zero_entropy (request "9223372037") warm Memory.NewMemory))
    = codeExpiredToken.
Proof.
  assert (read_params (cfg_STS config) (request "9223372037") = Ok (DemoExchange.params 9223372037)) as Hp
    by (vm_compute; reflexivity).
  split; [exact Hp|].
  destruct (Validate now raw warm) as [v' r] eqn:Hv.
  assert (r = Ok alice) as -> by (change r with (v', r).2; rewrite <- Hv; vm_compute; reflexivity).
  apply (huge_duration_overflows (cfg_STS config) now zero_entropy (request "9223372037") warm v' Memory.NewMemory
           (DemoExchange.params 9223372037) alice Hp Hv).
  vm_compute. split; discriminate.
Defined.

End Witnesses.
