(* ===== verification/Metrics.v ===== *)
(** * The metrics of package server (metrics.go)

    Counter vectors are finite maps from label values to counts.  A histogram
    vector keeps the durations observed under each lane, newest first; the
    buckets a scrape shows are counted from them in [Histogram].  The elapsed
    times [time.Since] yields are read from a clock of the machine's own, the
    field [wall], one reading per observation.  The second half is the
    registry: the descriptors of every collector, and what registering them
    does. *)

From Stdlib Require Import Ascii String ZArith NArith Bool Lia.
From stdpp Require Import base tactics list strings gmap sorting.
From S2P Require Import Prelude GoStrings GoTime GoFloat Store.

(** The observations of a histogram vector, by lane. *)
Abbreviation histograms := (gmap string (list Duration)).

Record metrics := mkMetrics {
  stsExchanges : gmap (string * string) N;   (* issuer, result *)
  bearerAuth : gmap (string * string) N;     (* issuer, result *)
  sigv4Verifies : gmap string N;             (* result *)
  presignedVerifies : gmap string N;         (* result *)
  upstream : gmap string N;                  (* code *)
  upstreamErrors : N;
  revocations : gmap string N;               (* result *)
  duration : histograms;                     (* lane *)
  verifyDuration : histograms;               (* lane *)
  wall : nat -> Duration;                    (* what [time.Since] yields, in turn *)
  ticks : nat
}.

(** The vectors [newMetrics] makes; their registration is [registered] below. *)
Definition newMetrics (w : nat -> Duration) : metrics := mkMetrics ∅ ∅ ∅ ∅ ∅ 0 ∅ ∅ ∅ w 0.

(** [vec.WithLabelValues(k).Inc()] *)
Definition inc {K} `{Countable K} (k : K) (m : gmap K N) : gmap K N :=
  <[k := N.succ (default 0%N (m !! k))]> m.

(** [vec.WithLabelValues(lane).Observe(time.Since(start).Seconds())] *)
Definition Observe (lane : string) (d : Duration) (h : histograms) : histograms :=
  <[lane := d :: default [] (h !! lane)]> h.

(** Total over all labels. *)
Definition total {K} `{Countable K} (m : gmap K N) : N := map_fold (fun _ n acc => (n + acc)%N) 0%N m.

(** How often the histogram was used. *)
Definition samples (h : histograms) : N := total ((fun ds => N.of_nat (length ds)) <$> h).

Definition count_sts (issuer result : string) (m : metrics) : metrics :=
  mkMetrics (inc (issuer, result) (stsExchanges m)) (bearerAuth m) (sigv4Verifies m)
    (presignedVerifies m) (upstream m) (upstreamErrors m) (revocations m) (duration m) (verifyDuration m) (wall m) (ticks m).

Definition count_bearer (issuer result : string) (m : metrics) : metrics :=
  mkMetrics (stsExchanges m) (inc (issuer, result) (bearerAuth m)) (sigv4Verifies m)
    (presignedVerifies m) (upstream m) (upstreamErrors m) (revocations m) (duration m) (verifyDuration m) (wall m) (ticks m).

Definition count_sigv4 (result : string) (m : metrics) : metrics :=
  mkMetrics (stsExchanges m) (bearerAuth m) (inc result (sigv4Verifies m))
    (presignedVerifies m) (upstream m) (upstreamErrors m) (revocations m) (duration m) (verifyDuration m) (wall m) (ticks m).

Definition count_presigned (result : string) (m : metrics) : metrics :=
  mkMetrics (stsExchanges m) (bearerAuth m) (sigv4Verifies m)
    (inc result (presignedVerifies m)) (upstream m) (upstreamErrors m) (revocations m) (duration m) (verifyDuration m) (wall m) (ticks m).

Definition count_revocation (result : string) (m : metrics) : metrics :=
  mkMetrics (stsExchanges m) (bearerAuth m) (sigv4Verifies m) (presignedVerifies m)
    (upstream m) (upstreamErrors m) (inc result (revocations m)) (duration m) (verifyDuration m) (wall m) (ticks m).

Definition observeUpstream (st : Z) (m : metrics) : metrics :=
  mkMetrics (stsExchanges m) (bearerAuth m) (sigv4Verifies m) (presignedVerifies m)
    (inc (Itoa st) (upstream m)) (upstreamErrors m) (revocations m) (duration m) (verifyDuration m) (wall m) (ticks m).

Definition observeUpstreamError (m : metrics) : metrics :=
  mkMetrics (stsExchanges m) (bearerAuth m) (sigv4Verifies m) (presignedVerifies m)
    (upstream m) (N.succ (upstreamErrors m)) (revocations m) (duration m) (verifyDuration m) (wall m) (ticks m).

Definition observeDuration (lane : string) (m : metrics) : metrics :=
  mkMetrics (stsExchanges m) (bearerAuth m) (sigv4Verifies m) (presignedVerifies m) (upstream m) (upstreamErrors m)
    (revocations m) (Observe lane (wall m (ticks m)) (duration m)) (verifyDuration m) (wall m) (S (ticks m)).

Definition observeVerification (lane : string) (m : metrics) : metrics :=
  mkMetrics (stsExchanges m) (bearerAuth m) (sigv4Verifies m) (presignedVerifies m) (upstream m) (upstreamErrors m)
    (revocations m) (duration m) (Observe lane (wall m (ticks m)) (verifyDuration m)) (wall m) (S (ticks m)).

Definition resultLabel (errcode : string) : string := if errcode =s "" then "success" else errcode.

(** ** The registry *)

(** [prometheus.Desc]: the fully qualified name, the help text and the names of
    the variable labels; none of ours has constant labels. *)
Record Desc := mkDesc { fqName : string; help : string; variableLabels : list string }.

Definition stsExchanges_desc : Desc :=
  mkDesc "sts_exchanges_total" "AssumeRoleWithWebIdentity exchanges by issuer and result." ["issuer"; "result"].
Definition bearerAuth_desc : Desc :=
  mkDesc "bearer_auth_total" "Bearer-lane authentications by issuer and result." ["issuer"; "result"].
Definition sigv4Verifies_desc : Desc :=
  mkDesc "sigv4_verifications_total" "Data-path SigV4 verifications by result." ["result"].
Definition presignedVerifies_desc : Desc :=
  mkDesc "presigned_verifications_total" "Presigned-URL (SigV4 query auth) verifications by result." ["result"].
Definition upstream_desc : Desc :=
  mkDesc "upstream_requests_total" "Responses received from the Ozone S3 Gateway by status code." ["code"].
Definition upstreamErrors_desc : Desc :=
  mkDesc "upstream_errors_total"
    ("Requests the Ozone S3 Gateway never answered: refused, reset or timed out. "
     +:+ "A client that disconnects first is not counted.") [].
Definition revocations_desc : Desc :=
  mkDesc "revocations_total" "Admin credential revocations by result; a revocation is a store delete." ["result"].
Definition duration_desc : Desc :=
  mkDesc "request_duration_seconds" "Wall time per proxy request by lane." ["lane"].
Definition verifyDuration_desc : Desc :=
  mkDesc "verification_duration_seconds" "Wall time of the pure verification step by lane; target p99 under 1 ms." ["lane"].

(** The upper bounds of the verification histogram, in seconds. *)
Definition verifyBuckets : list float64 :=
  [of_decimal 5 (-5); of_decimal 1 (-4); of_decimal 25 (-5); of_decimal 5 (-4); of_decimal 1 (-3);
   of_decimal 25 (-4); of_decimal 5 (-3); of_decimal 1 (-2)].

(** [storeCollector] without its store, which is an argument of [Collect]. *)
Record storeCollector := mkStoreCollector { sc_timeout : Duration; up : Desc; active : Desc }.

Definition storeProbeTimeout : Duration := (2 * Second)%Z.

Definition newStoreCollector (timeout : Duration) : storeCollector :=
  mkStoreCollector timeout
    (mkDesc "credential_store_up" "Whether the credential store answered at the last scrape." [])
    (mkDesc "active_credentials"
       "Unexpired temporary credentials currently in the store; absent while the store cannot be read." []).

Definition Describe (c : storeCollector) : list Desc := [up c; active c].

(** [storeCollector.Collect]: the gauges sent on one scrape. *)
Definition Collect {S} `{Store S} (now : Time) (s : S) : list (string * Z) :=
  let c := newStoreCollector storeProbeTimeout in
  match Count now s with
  | Err _ => [(fqName (up c), 0%Z)]
  | Ok n => [(fqName (up c), 1%Z); (fqName (active c), n)]
  end.

(** [registry.Register] refuses a collector that describes a metric without a
    valid name or one another collector already described. *)
Definition name_start (c : ascii) : bool := is_upper c || is_lower c || Ascii.eqb c "_" || Ascii.eqb c ":".
Definition name_byte (c : ascii) : bool := name_start c || is_digit c.
Definition valid_name (s : string) : bool :=
  match s with String c r => name_start c && sall name_byte r | EmptyString => false end.

Definition Register (reg ds : list Desc) : option (list Desc) :=
  if forallb (fun d => valid_name (fqName d)) ds
     && forallb (fun d => negb (existsb (fun d' => fqName d' =s fqName d) reg)) ds
  then Some (reg ++ ds) else None.

(** [registry.MustRegister]; [None] is its panic. *)
Definition MustRegister (cs : list (list Desc)) : option (list Desc) :=
  fold_left (fun reg ds => reg ← reg; Register reg ds) cs (Some []).

(** What the Go and the process collector describe. *)
Class Collectors := { go_descs : list Desc; process_descs : list Desc }.

(** Their names are valid and have a prefix of their own. *)
Class CollectorLaws `{Collectors} := {
  go_names : Forall (fun d => valid_name (fqName d) = true /\ HasPrefix (fqName d) "go_" = true) go_descs;
  process_names : Forall (fun d => valid_name (fqName d) = true /\ HasPrefix (fqName d) "process_" = true) process_descs
}.

Definition own_collectors : list (list Desc) :=
  [[stsExchanges_desc]; [bearerAuth_desc]; [sigv4Verifies_desc]; [presignedVerifies_desc]; [upstream_desc];
   [upstreamErrors_desc]; [revocations_desc]; [duration_desc]; [verifyDuration_desc];
   Describe (newStoreCollector storeProbeTimeout)].

(** The registration in [newMetrics]. *)
Definition registered `{Collectors} : option (list Desc) := MustRegister (own_collectors ++ [go_descs; process_descs]).

(** ** Lemmas *)

Lemma total_inc {K} `{Countable K} (k : K) m : total (inc k m) = N.succ (total m).
Proof.
  unfold total, inc. destruct (m !! k) as [n|] eqn:E; cbn [default from_option].
  - assert (m !! k = Some n) as E' by done. rewrite <- (insert_delete_id m k n E').
    rewrite insert_insert_eq, !map_fold_insert_L; try (intros; lia); [|apply lookup_delete_eq..].
    unfold id. lia.
  - rewrite map_fold_insert_L; [simpl; lia|intros; lia|done].
Qed.

Lemma samples_Observe lane d h : samples (Observe lane d h) = N.succ (samples h).
Proof.
  unfold samples, Observe. rewrite fmap_insert.
  assert (N.of_nat (length (d :: default [] (h !! lane)))
          = N.succ (default 0%N (((fun ds : list Duration => N.of_nat (length ds)) <$> h) !! lane))) as E.
  { rewrite lookup_fmap. destruct (h !! lane); cbn; lia. }
  cbn beta. rewrite E. apply total_inc.
Qed.

(** ** Properties *)

Lemma Register_fresh reg ds :
  Forall (fun d => valid_name (fqName d) = true /\ fqName d ∉ map fqName reg) ds -> Register reg ds = Some (reg ++ ds).
Proof.
  rewrite Forall_forall. intros Hd. unfold Register. rewrite !(proj2 (forallb_forall _ _)); [done|..];
    intros d Hin%list_elem_of_In; destruct (Hd d Hin) as [Hv Hn]; [|done].
  apply negb_true_iff, not_true_iff_false. intros (d' & Hin' & E)%existsb_exists. apply String.eqb_eq in E.
  apply Hn. rewrite <- E. by apply list_elem_of_fmap_2, list_elem_of_In.
Qed.

Lemma own_names_unprefixed n :
  n ∈ map fqName (concat own_collectors) -> HasPrefix n "go_" = false /\ HasPrefix n "process_" = false.
Proof.
  intros Hn. assert (Forall (fun n => HasPrefix n "go_" = false /\ HasPrefix n "process_" = false) (map fqName (concat own_collectors))) as Ha
    by (repeat constructor).
  rewrite Forall_forall in Ha. by apply Ha.
Qed.

(** Starting the proxy cannot panic in the registry: whatever the Go and
    process collectors describe under their own prefixes, every collector is
    accepted.  The registry then describes each metric of the proxy once, the
    bounds of the verification histogram increase, and a scrape of the store
    collector sends only gauges it described. *)
Theorem registration_succeeds `{CollectorLaws} {S} `{Store S} :
  (exists reg, registered = Some reg /\ reg = concat own_collectors ++ go_descs ++ process_descs) /\
  NoDup (map fqName (concat own_collectors)) /\
  StronglySorted (fun a b => fltb a b = true) verifyBuckets /\
  forall now (s : S), Forall (fun m => m.1 ∈ map fqName (Describe (newStoreCollector storeProbeTimeout))) (Collect now s).
Proof.
  split_and!.
  - exists (concat own_collectors ++ go_descs ++ process_descs). split; [|done].
    unfold registered, MustRegister. rewrite fold_left_app.
    replace (fold_left _ own_collectors (Some [])) with (Some (concat own_collectors)) by (vm_compute; reflexivity).
    cbn [fold_left mbind option_bind]. rewrite Register_fresh; cbn [mbind option_bind].
    + rewrite Register_fresh; [by rewrite <- app_assoc|].
      eapply Forall_impl; [apply process_names|]. intros d [Hv Hp]. split; [done|].
      rewrite map_app, elem_of_app. intros [Hin|Hin].
      * apply own_names_unprefixed in Hin. destruct Hin. congruence.
      * apply list_elem_of_fmap in Hin as (d' & E & Hd'). pose proof (go_names) as Hg. rewrite Forall_forall in Hg.
        destruct (Hg d' Hd') as [_ Hg']. rewrite <- E in Hg'. apply HasPrefix_true in Hg' as [a Ha], Hp as [b Hb].
        rewrite Ha in Hb. discriminate Hb.
    + eapply Forall_impl; [apply go_names|]. intros d [Hv Hp]. split; [done|]. intros Hin.
      apply own_names_unprefixed in Hin as [Hin _]. congruence.
  - apply (bool_decide_unpack _). vm_compute. exact I.
  - repeat constructor.
  - intros now s. unfold Collect. destruct (Count now s); repeat constructor; set_solver.
Qed.
