(* ===== verification/Server.v ===== *)
(** * Package server: dispatch, lanes and the admin surface

    Models internal/server/server.go.  The server is a record of its
    configuration, validator, store, upstream target and counters; a handler
    maps it to the server it leaves, the response, and the request handed to
    the reverse proxy, if any.  The gateway behind the proxy is a function. *)

From Stdlib Require Import Ascii String ZArith NArith Bool Lia.
From stdpp Require Import base tactics list strings gmap sorting.
From S2P Require Import Prelude GoStrings Sha256 GoTime GoHttp GoXml S3err Sigv4 Presign Sign Store.
From S2P Require Import Forward Config Oidc Sts Metrics.

Definition maxSTSBodyBytes : N := 1048576.

(** [http.MaxBytesReader]: reading past the limit fails. *)
Definition MaxBytesReader (limit : N) (b : option string) : option string :=
  match b with
  | Some s => if (N.of_nat (String.length s) <=? limit)%N then Some s else None
  | None => None
  end.

Definition orUnknown (s : string) : string := if s =s "" then "unknown" else s.

Definition newRequestID (read : option string) : string :=
  match read with
  | Some buf => EncodeToString buf
  | None => "000000000000000000000000"
  end.

Definition mapBearerError (e : oidcerr) : Z * string :=
  match e with
  | ErrTokenExpired => (403, CodeExpiredToken)
  | ErrIssuerUnavailable => (503, CodeServiceUnavailable)
  | _ => (403, CodeAccessDenied)
  end%Z.

Definition bearerErrorMessage (e : oidcerr) : string :=
  match e with
  | ErrTokenExpired => "the bearer token has expired"
  | ErrIssuerUnavailable => "could not reach the identity provider"
  | _ => "the bearer token was rejected"
  end.

(** The arguments of a lane's [reject]. *)
Record rejection := Reject { rj_status : Z; rj_result : string; rj_code : string; rj_message : string }.

(** The switch over [Verify]'s error in [serveSigV4]. *)
Definition sigv4_rejection (e : sigerr) : rejection :=
  match kind e with
  | ErrSkew => Reject 403 "skew" CodeRequestTimeTooSkewed
      "the difference between the request time and the server's time is too large"
  | ErrScope => Reject 400 "scope" CodeAuthorizationHeaderMalformed (message e)
  | ErrMissingDate => Reject 400 "missing_date" CodeMissingSecurityHeader
      "the X-Amz-Date header is required"
  | ErrMalformed => Reject 400 "malformed" CodeAuthorizationHeaderMalformed (message e)
  | _ => Reject 403 "mismatch" CodeSignatureDoesNotMatch
      "the request signature does not match the credentials"
  end.

(** The switch over [VerifyPresigned]'s error in [servePresigned]. *)
Definition presigned_rejection (e : sigerr) : rejection :=
  match kind e with
  | ErrPresignExpired => Reject 403 "url_expired" CodeAccessDenied "Request has expired"
  | ErrSkew => Reject 403 "skew" CodeRequestTimeTooSkewed "the presigned URL is dated in the future"
  | ErrScope | ErrMalformed => Reject 400 "malformed" CodeAuthorizationQueryParametersError (message e)
  | _ => Reject 403 "mismatch" CodeSignatureDoesNotMatch
      "the request signature does not match the credentials"
  end.

Definition store_unavailable : rejection :=
  Reject 500 "store_error" CodeInternalError "credential store unavailable".
Definition unknown_akid : rejection :=
  Reject 403 "unknown_akid" CodeInvalidAccessKeyID
    "the access key ID does not exist (exchange a token via AssumeRoleWithWebIdentity first)".
Definition credentials_expired : rejection :=
  Reject 403 "expired" CodeExpiredToken "the temporary credentials have expired".
Definition bad_token : rejection :=
  Reject 403 "bad_token" CodeInvalidToken
    "the security token is missing or does not match the credentials".

Section Server.
Context `{GoLib} {V S : Type} `{TokenValidator V} `{!Store S}.

Record Server := mkServer {
  cfg : Config;
  validator : V;
  store : S;
  target : URL;
  srv_metrics : metrics
}.

Definition upstreamHost (s : Server) : string := UHost (target s).

Definition New (c : Config) (v : V) (st : S) (w : nat -> Duration) : option Server :=
  match url_Parse (S3Endpoint (cfg_Upstream c)) with
  | None => None
  | Some t => Some (mkServer c v st t (newMetrics w))
  end.

Definition with_validator (s : Server) (v : V) : Server := mkServer (cfg s) v (store s) (target s) (srv_metrics s).
Definition with_store (s : Server) (st : S) : Server := mkServer (cfg s) (validator s) st (target s) (srv_metrics s).
Definition measure (f : metrics -> metrics) (s : Server) : Server :=
  mkServer (cfg s) (validator s) (store s) (target s) (f (srv_metrics s)).

(** What a handler leaves: the server, the response, and the request given to
    the reverse proxy. *)
Record reply := Reply { after : Server; resp : Response; handed : option Request }.

Definition region (s : Server) : string := SecRegion (cfg_Security (cfg s)).

(** [applyIdentity]; a failed resigning leaves its edits on the request, and
    the rewrite goes on from there. *)
Definition applyIdentity (s : Server) (now : Clock) (r : Request) (username : string)
    (auth : option Authorization) : Request :=
  let fallback r :=
    match auth with
    | Some a => RewriteAccessKeyID r a username
    | None => ApplySynthetic r username (region s) (now 1)
    end in
  if ForwardMode (cfg_Upstream (cfg s)) =s ForwardModeResign then
    match ApplyResign r username (upstreamHost s) (region s) (now 0) with
    | (r', None) => r'
    | (r', Some _) => fallback r'
    end
  else fallback r.

(** [s.proxy.ServeHTTP(w, r)] with its two observers. *)
Definition proxy (gateway : Request -> upstream_result) (s : Server) (r : Request) : reply :=
  let '(response, ev) := proxy_ServeHTTP (target s) gateway r in
  let s' := match ev with
            | ObservedResponse st => measure (observeUpstream st) s
            | ObservedError => measure observeUpstreamError s
            | ObservedNothing => s
            end in
  Reply s' response (Some r).

(** The deferred [observeDuration]. *)
Definition timed (lane : string) (p : reply) : reply :=
  Reply (measure (observeDuration lane) (after p)) (resp p) (handed p).

Definition refuse (count : string -> metrics -> metrics) (r : Request) (reqID : string)
    (s : Server) (rj : rejection) : reply :=
  Reply (measure (count (rj_result rj)) s)
    (Write (rj_status rj) (rj_code rj) (rj_message rj) (Path (RURL r)) reqID) None.

Definition isSTSRequest (r : Request) : bool :=
  if (Method r <>s "POST") || ((Path (RURL r) <>s "/") && (Path (RURL r) <>s "")) then false
  else match ParseMediaType (HGet (RHeader r) "Content-Type") with
       | Some ct => ct =s "application/x-www-form-urlencoded"
       | None => false
       end.

(** The credential lookup the SigV4 lanes share: found, unexpired, and with
    the session token the client presented. *)
Definition lookup_credentials (now : Clock) (akid presented : string) (s : Server)
    : Server * res rejection Credentials :=
  match Get (now 0) akid (store s) with
  | (st, Err _) => (with_store s st, Err store_unavailable)
  | (st, Ok None) => (with_store s st, Err unknown_akid)
  | (st, Ok (Some creds)) =>
      (with_store s st,
       if Expired creds (now 1) then Err credentials_expired
       else if presented =s cr_SessionToken creds then Ok creds else Err bad_token)
  end.

Definition serveBearer (gateway : Request -> upstream_result) (now : Clock) (r : Request)
    (token reqID : string) (s : Server) : reply :=
  timed "bearer"
  (if negb (BearerEnabled (cfg_DataPath (cfg s))) then
     Reply (measure (count_bearer "unknown" "disabled") s)
       (Write 403 CodeAccessDenied "bearer authentication is disabled" (Path (RURL r)) reqID) None
   else
   match Validate now token (validator s) with
   | (v, Err e) =>
       let s := measure (observeVerification "bearer") (with_validator s v) in
       let '(st, errcode) := mapBearerError e in
       Reply (measure (count_bearer "unknown" errcode) s)
         (Write st errcode (bearerErrorMessage e) (Path (RURL r)) reqID) None
   | (v, Ok identity) =>
       let s := measure (observeVerification "bearer") (with_validator s v) in
       let s := measure (count_bearer (id_IssuerName identity) "success") s in
       proxy gateway s (applyIdentity s (later 3 now) r (id_Username identity) None)
   end).

(** The clock: lookup takes readings 0 and 1, verification 2, injection 3, 4. *)
Definition serveSigV4 (gateway : Request -> upstream_result) (now : Clock) (r : Request)
    (authHeader reqID : string) (s : Server) : reply :=
  timed "sigv4"
  (match ParseAuthorization authHeader with
   | Err _ => refuse count_sigv4 r reqID s
                (Reject 400 "malformed" CodeAuthorizationHeaderMalformed
                   "the Authorization header is malformed")
   | Ok auth =>
     match lookup_credentials now (AccessKeyID auth) (HGet (RHeader r) "X-Amz-Security-Token") s with
     | (s, Err rj) => refuse count_sigv4 r reqID s rj
     | (s, Ok creds) =>
       let verdict := Verify (mkInput r auth (cr_SecretAccessKey creds) (region s) "s3" (now 2)
                                (SigV4ClockSkew (cfg_Security (cfg s)))) in
       let s := measure (observeVerification "sigv4") s in
       match verdict with
       | Some e => refuse count_sigv4 r reqID s (sigv4_rejection e)
       | None =>
           let s := measure (count_sigv4 "success") s in
           proxy gateway s (applyIdentity s (later 3 now) r (cr_Username creds) (Some auth))
       end
     end
   end).

Definition servePresigned (gateway : Request -> upstream_result) (now : Clock) (r : Request)
    (reqID : string) (s : Server) : reply :=
  timed "presigned"
  (match ParsePresigned r with
   | Err e => refuse count_presigned r reqID s
                (Reject 400 "malformed" CodeAuthorizationQueryParametersError (message e))
   | Ok auth =>
     match lookup_credentials now (AccessKeyID (p_Authorization auth)) (p_SecurityToken auth) s with
     | (s, Err rj) => refuse count_presigned r reqID s rj
     | (s, Ok creds) =>
       let verdict := VerifyPresigned (mkPresignInput r auth (cr_SecretAccessKey creds) (region s) "s3"
                                         (now 2) (SigV4ClockSkew (cfg_Security (cfg s)))) in
       let s := measure (observeVerification "presigned") s in
       match verdict with
       | Some e => refuse count_presigned r reqID s (presigned_rejection e)
       | None =>
           let s := measure (count_presigned "success") s in
           proxy gateway s
             (applyIdentity s (later 3 now) (StripPresignedQuery r) (cr_Username creds) None)
       end
     end
   end).

Definition serveUnauthenticated (gateway : Request -> upstream_result) (r : Request) (reqID : string)
    (s : Server) : reply :=
  timed "unauthenticated"
  (if StrictEnabled (cfg_DataPath (cfg s)) then
     if IsSigV2Query r then
       Reply s (Write 400 CodeInvalidRequest
         ("The authorization mechanism you have provided is not supported. "
          +:+ "Please use AWS4-HMAC-SHA256.") (Path (RURL r)) reqID) None
     else
       Reply s (Write 403 CodeAccessDenied
         "authentication required: present a Bearer token or temporary SigV4 credentials"
         (Path (RURL r)) reqID) None
   else proxy gateway s r).

(** The STS handler behind its body limit and its observer. *)
Definition serveSTS (now : Clock) (rand : Entropy) (r : Request) (s : Server) : reply :=
  let o := ServeHTTP (cfg_STS (cfg s)) now rand (with_body r (MaxBytesReader maxSTSBodyBytes (Body r)))
             (validator s) (store s) in
  let s := with_store (with_validator s (o_validator o)) (o_store o) in
  let s := measure (count_sts (orUnknown (res_Issuer (o_result o))) (resultLabel (res_Code (o_result o)))) s in
  timed "sts" (Reply s (o_response o) None).

Definition later_rand (k : nat) (rand : Entropy) : Entropy := fun i n => rand (k + i) n.

(** [serve]: reading 0 is [start]; the first random buffer is the request ID. *)
Definition serve (gateway : Request -> upstream_result) (now : Clock) (rand : Entropy) (r : Request)
    (s : Server) : reply :=
  let reqID := newRequestID (rand 0 12) in
  if isSTSRequest r then serveSTS (later 1 now) (later_rand 1 rand) r s
  else
    let authHeader := HGet (RHeader r) "Authorization" in
    if HasPrefix authHeader "Bearer " then
      serveBearer gateway (later 1 now) r (TrimPrefix authHeader "Bearer ") reqID s
    else if IsSigV4 authHeader then serveSigV4 gateway (later 1 now) r authHeader reqID s
    else if (authHeader =s "") && IsPresigned r then servePresigned gateway (later 1 now) r reqID s
    else serveUnauthenticated gateway r reqID s.

(** ** The admin surface *)

(** [http.Error] *)
Definition http_Error (msg : string) (st : Z) : Response :=
  mkResponse st "text/plain; charset=utf-8" (msg +:+ newline).

(** The clock: the lookup takes reading 0, the deletion reading 1. *)
Definition handleRevoke (now : Clock) (akid : string) (s : Server) : Server * Response :=
  match Get (now 0) akid (store s) with
  | (st, Err _) =>
      (measure (count_revocation "error") (with_store s st), http_Error "credential store unavailable" 503)
  | (st, Ok None) =>
      (measure (count_revocation "unknown") (with_store s st), http_Error "unknown access key ID" 404)
  | (st, Ok (Some _)) =>
      match Delete (now 1) akid st with
      | (st', Some _) =>
          (measure (count_revocation "error") (with_store s st'), http_Error "credential store unavailable" 503)
      | (st', None) =>
          (measure (count_revocation "revoked") (with_store s st'), mkResponse 204 "" "")
      end
  end.

Definition healthz : Response := mkResponse 200 "text/plain; charset=utf-8" ("ok" +:+ newline).

Definition readyz (now : Time) (s : Server) : Response :=
  match Count now (store s) with
  | Err _ => http_Error "credential store unavailable" 503
  | Ok _ => mkResponse 200 "text/plain; charset=utf-8" ("ready" +:+ newline)
  end.

End Server.
