(* ===== verification/Lanes.v ===== *)
(** * The data-path lanes: what reaches the gateway and what is refused

    Lemmas on [serve] against the interfaces [TokenValidator] and [Store]:
    which requests are handed to the reverse proxy, with which identity, and
    with which status and code the others are refused. *)

From Stdlib Require Import Ascii String ZArith NArith Bool Lia.
From stdpp Require Import base tactics list strings gmap sorting.
From S2P Require Import Prelude GoStrings Sha256 GoTime GoHttp GoXml S3err Sigv4 Presign Sign Store.
From S2P Require Import Forward Config Oidc Sts Metrics Server.

Section Lanes.
Context `{GoLib} {V S : Type} `{TokenValidator V} `{!Store S}.
Abbreviation Server := (@Server V S).

(** ** Authentication, declaratively *)

(** A record of the store that is live at the lane's clock readings and whose
    session token the client presented. *)
Record holds (s : Server) (now : Clock) (akid presented : string) (c : Credentials) : Prop := {
  holds_record : (Get (now 0%nat) akid (store s)).2 = Ok (Some c);
  holds_live : (now 1%nat < cr_ExpiresAt c)%Z;
  holds_token : presented = cr_SessionToken c
}.

(** The input [serveSigV4] and [servePresigned] verify. *)
Definition lane_input (s : Server) (now : Clock) (r : Request) (a : Authorization) (c : Credentials) : Input :=
  mkInput r a (cr_SecretAccessKey c) (region s) "s3" (now 2) (SigV4ClockSkew (cfg_Security (cfg s))).

Definition presign_input (s : Server) (now : Clock) (r : Request) (p : Presigned) (c : Credentials) : PresignInput :=
  mkPresignInput r p (cr_SecretAccessKey c) (region s) "s3" (now 2) (SigV4ClockSkew (cfg_Security (cfg s))).

(** [authenticated s now r u auth base]: request [r] proves to server [s] that
    it is user [u]'s; [base] is the request the identity is injected into. *)
Inductive authenticated (s : Server) (now : Clock) (r : Request)
    : string -> option Authorization -> Request -> Prop :=
| by_bearer tok v id :
    HGet (RHeader r) "Authorization" = "Bearer " +:+ tok ->
    BearerEnabled (cfg_DataPath (cfg s)) = true ->
    Validate now tok (validator s) = (v, Ok id) ->
    authenticated s now r (id_Username id) None r
| by_sigv4 a c :
    IsSigV4 (HGet (RHeader r) "Authorization") = true ->
    ParseAuthorization (HGet (RHeader r) "Authorization") = Ok a ->
    holds s now (AccessKeyID a) (HGet (RHeader r) "X-Amz-Security-Token") c ->
    Verify (lane_input s now r a c) = None ->
    authenticated s now r (cr_Username c) (Some a) r
| by_presigned p c :
    HGet (RHeader r) "Authorization" = "" ->
    ParsePresigned r = Ok p ->
    holds s now (AccessKeyID (p_Authorization p)) (p_SecurityToken p) c ->
    VerifyPresigned (presign_input s now r p c) = None ->
    authenticated s now r (cr_Username c) None (StripPresignedQuery r).

(** ** Inversion of the lanes *)

Lemma handed_proxy gateway (s : Server) r : handed (proxy gateway s r) = Some r.
Proof. unfold proxy. by destruct (proxy_ServeHTTP _ _ _). Qed.

Lemma lookup_credentials_server now akid presented (s s' : Server) o :
  lookup_credentials now akid presented s = (s', o) -> exists st, s' = with_store s st.
Proof.
  unfold lookup_credentials. destruct (Get _ _ _) as [st [[c|]|]]; intros [= <- _]; eauto.
Qed.

Lemma lookup_credentials_Ok now akid presented (s s' : Server) c :
  lookup_credentials now akid presented s = (s', Ok c) ->
  holds s now akid presented c /\ exists st, s' = with_store s st.
Proof.
  unfold lookup_credentials. destruct (Get (now 0) akid (store s)) as [st [[c'|]|]] eqn:Eg; try done.
  unfold Expired, Before. destruct (Z.ltb_spec (now 1) (cr_ExpiresAt c')); [|done]. cbn [negb].
  destruct (seqb_spec presented (cr_SessionToken c')); [|done].
  intros [= <- <-]. split; [|eauto]. split; [by rewrite Eg|done..].
Qed.

Lemma serveBearer_handed gateway now r tok reqID (s : Server) r' :
  HGet (RHeader r) "Authorization" = "Bearer " +:+ tok ->
  handed (serveBearer gateway now r tok reqID s) = Some r' ->
  exists u, authenticated s now r u None r /\ r' = applyIdentity s (later 3 now) r u None.
Proof.
  intros Ha. unfold serveBearer. cbn [handed timed].
  destruct (BearerEnabled _) eqn:Eb; [|done]. cbn [negb].
  destruct (Validate now tok (validator s)) as [v [id|e]] eqn:Ev; [|by destruct (mapBearerError e)].
  rewrite handed_proxy. intros [= <-]. exists (id_Username id). split; [by econstructor|done].
Qed.

Lemma serveSigV4_handed gateway now r reqID (s : Server) r' :
  IsSigV4 (HGet (RHeader r) "Authorization") = true ->
  handed (serveSigV4 gateway now r (HGet (RHeader r) "Authorization") reqID s) = Some r' ->
  exists u a, authenticated s now r u (Some a) r /\ r' = applyIdentity s (later 3 now) r u (Some a).
Proof.
  intros H4. unfold serveSigV4. cbn [handed timed].
  destruct (ParseAuthorization _) as [a|] eqn:Ea; [|done].
  destruct (lookup_credentials _ _ _ _) as [s' [c|rj]] eqn:El; [|done].
  apply lookup_credentials_Ok in El as [Hh [st ->]].
  destruct (Verify _) eqn:Ev; [done|]. rewrite handed_proxy. intros [= <-].
  exists (cr_Username c), a. split; [by econstructor|done].
Qed.

Lemma servePresigned_handed gateway now r reqID (s : Server) r' :
  HGet (RHeader r) "Authorization" = "" ->
  handed (servePresigned gateway now r reqID s) = Some r' ->
  exists u, authenticated s now r u None (StripPresignedQuery r)
            /\ r' = applyIdentity s (later 3 now) (StripPresignedQuery r) u None.
Proof.
  intros Ha. unfold servePresigned. cbn [handed timed].
  destruct (ParsePresigned r) as [p|] eqn:Ep; [|done].
  destruct (lookup_credentials _ _ _ _) as [s' [c|rj]] eqn:El; [|done].
  apply lookup_credentials_Ok in El as [Hh [st ->]].
  destruct (VerifyPresigned _) eqn:Ev; [done|]. rewrite handed_proxy. intros [= <-].
  exists (cr_Username c). split; [by econstructor|done].
Qed.

Lemma serve_handed gateway now rand r (s : Server) r' :
  StrictEnabled (cfg_DataPath (cfg s)) = true ->
  handed (serve gateway now rand r s) = Some r' ->
  exists u auth base, authenticated s (later 1 now) r u auth base
    /\ r' = applyIdentity s (later 4 now) base u auth.
Proof.
  intros Hs. unfold serve. destruct (isSTSRequest r); [done|].
  destruct (HasPrefix _ "Bearer ") eqn:Eb.
  { apply HasPrefix_true in Eb as [tok Et]. rewrite Et at 1. unfold TrimPrefix.
    rewrite CutPrefix_app. cbn [default from_option]. intros Hh.
    apply serveBearer_handed in Hh as (u & Ha & ->); [|done]. by exists u, None, r. }
  destruct (IsSigV4 _) eqn:E4.
  { intros (u & a & Ha & ->)%serveSigV4_handed; [|done]. by exists u, (Some a), r. }
  destruct (seqb_spec (HGet (RHeader r) "Authorization") "") as [Ee|_]; cbn [andb].
  2:{ unfold serveUnauthenticated. rewrite Hs. by case_match. }
  destruct (IsPresigned r).
  { intros (u & Ha & ->)%servePresigned_handed; [|done]. by exists u, None, (StripPresignedQuery r). }
  unfold serveUnauthenticated. rewrite Hs. by case_match.
Qed.

(** ** The injected identity *)

(** Signed header names a [;]-separated list can carry, at least one of them
    other than the session token the proxy removes. *)
Definition names_ok (a : Authorization) : bool :=
  existsb (fun h => h <>s "x-amz-security-token") (SignedHeaders a)
  && forallb (fun h => (h <>s "") && sall signed_name_byte h) (SignedHeaders a).

Lemma Verify_rewritable i :
  Verify i = None -> scope_part (in_Region i) = true -> scope_part (in_Service i) = true ->
  names_ok (in_Auth i) = true -> rewritable (in_Auth i) = true.
Proof.
  intros (t & c & [H1 H2 H3 _ H5 _ H7])%Verify_None Hr Hs Hn.
  unfold rewritable. rewrite H1, H2, Hr, Hs, H7.
  destruct (signature_wf (in_Secret i) (HGet (RHeader (in_Request i)) "X-Amz-Date")
    (Date (in_Auth i)) (Region (in_Auth i)) (Service (in_Auth i)) c) as [-> ->].
  unfold names_ok in Hn. apply andb_true_iff in Hn as [-> ->].
  pose proof (Parse_amz_date _ _ H3) as Hd. pose proof (Parse_amz_length _ _ H3) as Hl.
  rewrite H5 in Hd. rewrite (digits_scope_part _ Hd), <- H5, slength_stake.
  rewrite Nat.min_l by lia. done.
Qed.

Lemma Sign_frame i k :
  CanonicalKey k <> "Authorization" -> CanonicalKey k <> "X-Amz-Date" ->
  CanonicalKey k <> "X-Amz-Content-Sha256" ->
  HGet (RHeader (Sign i).1) k = HGet (RHeader (si_Request i)) k.
Proof.
  intros H1 H2 H3. destruct (Sign_eq i) as (_ & _ & ->).
  assert (HGet (RHeader (sign_prepared i)) k = HGet (RHeader (si_Request i)) k) as Hp.
  { unfold sign_prepared. repeat case_match; rewrite ?HGet_req_set_ne by done; done. }
  destruct (buildCanonical _ _ _ _); [|exact Hp]. cbn [fst]. by rewrite HGet_req_set_ne.
Qed.

(** What the injection needs of its surroundings. *)
Record injectable (s : Server) (now : Clock) (base : Request) (u : string)
    (auth : option Authorization) : Prop := {
  inj_user : header_safe u;
  inj_region : scope_part (region s) = true;
  inj_years : four_digit_year (now 0) /\ four_digit_year (now 1);
  inj_keys : token_keys (RHeader base);
  inj_auth : forall a, auth = Some a -> rewritable a = true
}.

Lemma injected_fallback (s : Server) now base r u auth :
  injectable s now base u auth ->
  let out := match auth with
             | Some a => RewriteAccessKeyID r a u
             | None => ApplySynthetic r u (region s) (now 1)
             end in
  identity_of out = Some u /\ HGet (RHeader out) "X-Amz-Security-Token" = "".
Proof.
  intros [Hu Hr [_ Hy] _ Ha]. destruct auth as [a|]; cbv zeta.
  - by apply RewriteAccessKeyID_identity; [apply Ha|].
  - by apply ApplySynthetic_identity.
Qed.

Lemma applyIdentity_identity (s : Server) now base u auth :
  injectable s now base u auth ->
  identity_of (applyIdentity s now base u auth) = Some u /\
  HGet (RHeader (applyIdentity s now base u auth)) "X-Amz-Security-Token" = "".
Proof.
  intros Hi. unfold applyIdentity. destruct (_ =s ForwardModeResign).
  2:{ by apply (injected_fallback s now base base u auth). }
  destruct (ApplyResign _ _ _ _ _) as [r' [e|]] eqn:Er;
    [by apply (injected_fallback s now base r' u auth)|].
  destruct Hi as [Hu Hr [Hy _] Hk _].
  set (i := resign_input base u (upstreamHost s) (region s) (now 0)). change (Sign i = (r', None)) in Er. split.
  - destruct (Sign_verifies i r') as (a & Hp & Ha & _); [by apply resign_ready|done|].
    unfold identity_of. by rewrite Hp, Ha.
  - pose proof (Sign_frame i "X-Amz-Security-Token") as Hf. rewrite Er in Hf. cbn [fst] in Hf.
    rewrite Hf by (vm_compute; discriminate). apply no_token_del.
Qed.

Lemma applyIdentity_edits (s : Server) now r u auth : edits r (applyIdentity s now r u auth).
Proof.
  assert (forall r', edits r r' -> edits r match auth with Some a => RewriteAccessKeyID r' a u | None => ApplySynthetic r' u (region s) (now 1) end) as Hf.
  { intros r' He. destruct auth; unfold RewriteAccessKeyID, ApplySynthetic; apply edits_del;
      repeat (apply edits_set; [vm_compute; set_solver|]); exact He. }
  unfold applyIdentity. destruct (_ =s ForwardModeResign); [|by apply Hf].
  pose proof (Sign_edits r (resign_input r u (upstreamHost s) (region s) (now 0)) ltac:(by apply edits_del)) as He.
  unfold ApplyResign. change (Sign (mkSignInput _ _ _ _ _ _ _)) with (Sign (resign_input r u (upstreamHost s) (region s) (now 0))).
  destruct (Sign _) as [r' [e|]]; [by apply Hf|exact He].
Qed.

(** What the reverse proxy sends of a request the identity [u] was injected
    into: the gateway reads [u] from it, unless the client's [Connection] header
    had the proxy drop it, and finds no session token. *)
Definition delivered (target : URL) (client out : Request) (u : string) : Prop :=
  forall sent, proxy_request target out = Some sent ->
    identity_of sent = gateway_reads client u /\ HGet (RHeader sent) "X-Amz-Security-Token" = "".

Lemma authenticated_header (s : Server) now r u auth base : authenticated s now r u auth base -> RHeader base = RHeader r.
Proof. intros []; [done|done|]. by rewrite Strip_frame. Qed.

Lemma applyIdentity_delivered target (s : Server) now r base u auth :
  RHeader base = RHeader r -> injectable s now base u auth -> delivered target r (applyIdentity s now base u auth) u.
Proof.
  intros Hh Hi sent Hs. destruct (applyIdentity_identity s now base u auth Hi) as [Hid Ht]. split; [|by eapply wire_token].
  rewrite (wire_identity _ _ _ _ _ (applyIdentity_edits s now base u auth) Hid Hs). unfold gateway_reads. by rewrite Hh.
Qed.

(** ** Completeness of the lanes *)

Lemma lookup_credentials_holds now akid presented (s : Server) c :
  holds s now akid presented c ->
  lookup_credentials now akid presented s = (with_store s (Get (now 0) akid (store s)).1, Ok c).
Proof.
  intros [Hg Hl Ht]. unfold lookup_credentials.
  destruct (Get (now 0) akid (store s)) as [st o] eqn:Eg. cbn [snd] in Hg. subst o presented.
  unfold Expired, Before. rewrite (proj2 (Z.ltb_lt _ _) Hl), seqb_refl. done.
Qed.

(** A request that proves itself by SigV4 is handed on with its identity. *)
Lemma serveSigV4_complete gateway now r reqID (s : Server) a c :
  ParseAuthorization (HGet (RHeader r) "Authorization") = Ok a ->
  holds s now (AccessKeyID a) (HGet (RHeader r) "X-Amz-Security-Token") c ->
  Verify (lane_input s now r a c) = None ->
  handed (serveSigV4 gateway now r (HGet (RHeader r) "Authorization") reqID s) =
  Some (applyIdentity s (later 3 now) r (cr_Username c) (Some a)).
Proof.
  intros Ha Hh Hv. unfold serveSigV4. cbn [handed timed].
  rewrite Ha, (lookup_credentials_holds _ _ _ _ _ Hh). unfold lane_input in Hv. cbn [cfg with_store region].
  change (region (with_store s _)) with (region s). rewrite Hv. by rewrite handed_proxy.
Qed.

Lemma servePresigned_complete gateway now r reqID (s : Server) p c :
  ParsePresigned r = Ok p ->
  holds s now (AccessKeyID (p_Authorization p)) (p_SecurityToken p) c ->
  VerifyPresigned (presign_input s now r p c) = None ->
  handed (servePresigned gateway now r reqID s) =
  Some (applyIdentity s (later 3 now) (StripPresignedQuery r) (cr_Username c) None).
Proof.
  intros Ha Hh Hv. unfold servePresigned. cbn [handed timed].
  rewrite Ha, (lookup_credentials_holds _ _ _ _ _ Hh). unfold presign_input in Hv.
  change (region (with_store s _)) with (region s). cbn [cfg with_store]. rewrite Hv. by rewrite handed_proxy.
Qed.

Lemma serve_sigv4_lane gateway now rand r (s : Server) :
  isSTSRequest r = false -> IsSigV4 (HGet (RHeader r) "Authorization") = true ->
  serve gateway now rand r s =
  serveSigV4 gateway (later 1 now) r (HGet (RHeader r) "Authorization") (newRequestID (rand 0 12)) s.
Proof.
  intros Hs H4. unfold serve. rewrite Hs, H4.
  unfold IsSigV4 in H4. apply HasPrefix_true in H4 as [t Et]. by rewrite Et.
Qed.

Lemma VHas_VGet q k : VGet q k <> "" -> VHas q k = true.
Proof.
  induction q as [|[a b] q IH]; [done|]. cbn [VGet VHas existsb fst].
  destruct (a =s k); [done|]. apply IH.
Qed.

Lemma ParsePresigned_IsPresigned r p : ParsePresigned r = Ok p -> IsPresigned r = true.
Proof.
  intros (Ha & _)%ParsePresigned_Ok. unfold IsPresigned. by rewrite (VHas_VGet _ "X-Amz-Algorithm") by (by rewrite Ha).
Qed.

Lemma authenticated_handed gateway now rand r (s : Server) u auth base :
  isSTSRequest r = false -> authenticated s (later 1 now) r u auth base ->
  handed (serve gateway now rand r s) = Some (applyIdentity s (later 4 now) base u auth).
Proof.
  intros Hs Ha. destruct Ha as [tok v id Hh Hb Hv|a c H4 Ha Hh Hv|p c He Hp Hh Hv].
  - unfold serve. rewrite Hs, Hh, HasPrefix_app. unfold TrimPrefix. rewrite CutPrefix_app.
    change (default _ (Some tok)) with tok. unfold serveBearer. cbn [handed timed]. rewrite Hb. cbn [negb].
    rewrite Hv. by rewrite handed_proxy.
  - rewrite serve_sigv4_lane by done. by apply serveSigV4_complete.
  - unfold serve. rewrite Hs, He. change (IsSigV4 "") with false. change (HasPrefix "" "Bearer ") with false.
    rewrite seqb_refl, (ParsePresigned_IsPresigned r p Hp). cbn [andb]. by rewrite (servePresigned_complete _ _ _ _ _ p c Hp Hh Hv).
Qed.

(** ** Refusals *)

(** The ways a SigV4-lane request is refused: status, counter label, code. *)
Definition sigv4_refusals : list (Z * string * string) :=
  [(400, "malformed", CodeAuthorizationHeaderMalformed);
   (500, "store_error", CodeInternalError);
   (403, "unknown_akid", CodeInvalidAccessKeyID);
   (403, "expired", CodeExpiredToken);
   (403, "bad_token", CodeInvalidToken);
   (403, "skew", CodeRequestTimeTooSkewed);
   (400, "scope", CodeAuthorizationHeaderMalformed);
   (400, "missing_date", CodeMissingSecurityHeader);
   (403, "mismatch", CodeSignatureDoesNotMatch)]%Z.

Definition rejection_key (rj : rejection) : Z * string * string := (rj_status rj, rj_result rj, rj_code rj).

Lemma sigv4_rejection_listed e : In (rejection_key (sigv4_rejection e)) sigv4_refusals.
Proof. unfold sigv4_rejection. destruct (kind e); vm_compute; tauto. Qed.

Lemma lookup_rejection_listed now akid presented (s s' : Server) rj :
  lookup_credentials now akid presented s = (s', Err rj) ->
  In (rejection_key rj) sigv4_refusals /\ exists st, s' = with_store s st.
Proof.
  unfold lookup_credentials. destruct (Get _ _ _) as [st [[c|]|]];
    repeat case_match; intros [= <- <-]; (split; [vm_compute; tauto|eauto]).
Qed.

(** Exactly one verdict is counted per SigV4-lane request: "success" when it
    is handed on, else the label of the refusal the client receives. *)
Lemma serveSigV4_verdict gateway now r reqID (s : Server) :
  let p := serveSigV4 gateway now r (HGet (RHeader r) "Authorization") reqID s in
  exists label, sigv4Verifies (srv_metrics (after p)) = inc label (sigv4Verifies (srv_metrics s)) /\
  ((label = "success" /\ exists r', handed p = Some r') \/
   (handed p = None /\ exists st errcode msg, In (st, label, errcode) sigv4_refusals /\
      resp p = Write st errcode msg (Path (RURL r)) reqID)).
Proof.
  cbv zeta. unfold serveSigV4. cbn [handed timed after resp].
  destruct (ParseAuthorization _) as [a|].
  2:{ exists "malformed". split; [done|right]. split; [done|]. do 3 eexists. split; [|done]. vm_compute; tauto. }
  destruct (lookup_credentials _ _ _ _) as [s' [c|rj]] eqn:El.
  2:{ apply lookup_rejection_listed in El as [Hin [st ->]]. exists (rj_result rj).
      split; [done|right]. split; [done|]. do 3 eexists. by split. }
  apply lookup_credentials_Ok in El as [_ [st ->]].
  destruct (Verify _) as [e|].
  - exists (rj_result (sigv4_rejection e)). split; [done|right]. split; [done|].
    do 3 eexists. split; [apply sigv4_rejection_listed|done].
  - exists "success". unfold proxy. destruct (proxy_ServeHTTP _ _ _) as [response ev].
    split; [by destruct ev|left; eauto].
Qed.

(** ** What a lane changes *)

(** A data-path request leaves configuration and target alone, uses the
    validator and reads the store at most once, and is timed exactly once,
    under its lane. *)
Record advanced (s : Server) (lane : string) (s' : Server) : Prop := {
  adv_cfg : cfg s' = cfg s;
  adv_target : target s' = target s;
  adv_validator : validator s' = validator s \/ exists now tok, validator s' = (Validate now tok (validator s)).1;
  adv_store : store s' = store s \/ exists now k, store s' = (Get now k (store s)).1;
  adv_timed : exists d, duration (srv_metrics s') = Observe lane d (duration (srv_metrics s))
}.

(** Built-up servers: changes of counters only. *)
Record counted (s s' : Server) : Prop := {
  cnt_cfg : cfg s' = cfg s;
  cnt_target : target s' = target s;
  cnt_validator : validator s' = validator s;
  cnt_store : store s' = store s;
  cnt_duration : duration (srv_metrics s') = duration (srv_metrics s)
}.

Lemma proxy_counted gateway (s0 s : Server) r : counted s0 s -> counted s0 (after (proxy gateway s r)).
Proof. intros []. unfold proxy. destruct (proxy_ServeHTTP _ _ _) as [? []]; by split. Qed.

Lemma advanced_timed (s s1 : Server) lane p :
  cfg s1 = cfg s -> target s1 = target s -> duration (srv_metrics s1) = duration (srv_metrics s) ->
  (validator s1 = validator s \/ exists now tok, validator s1 = (Validate now tok (validator s)).1) ->
  (store s1 = store s \/ exists now k, store s1 = (Get now k (store s)).1) ->
  counted s1 (after p) -> advanced s lane (after (timed lane p)).
Proof.
  intros H1 H2 H3 H4 H5 [C1 C2 C3 C4 C5].
  split; cbn [timed after measure cfg target validator store srv_metrics duration observeDuration];
    rewrite ?C1, ?C2, ?C3, ?C4, ?C5; try done. rewrite H3. eauto.
Qed.

(** Closes the side conditions of [advanced_timed] for a server that is [s]
    with some fields replaced. *)
Ltac lane_done := first [reflexivity | by left | by apply proxy_counted; split | by split
  | right; do 2 eexists; first [eassumption | reflexivity]].

Lemma serveBearer_advanced gateway now r tok reqID (s : Server) :
  advanced s "bearer" (after (serveBearer gateway now r tok reqID s)).
Proof.
  unfold serveBearer. destruct (BearerEnabled _); cbn [negb]; [|by apply (advanced_timed s s); lane_done].
  destruct (Validate now tok (validator s)) as [v o] eqn:Ev.
  assert (v = (Validate now tok (validator s)).1) as Hv by (by rewrite Ev).
  destruct o as [id|e]; [|destruct (mapBearerError e)];
    (eapply (advanced_timed s (with_validator s v)); lane_done).
Qed.

Lemma lookup_credentials_store now akid presented (s s' : Server) o :
  lookup_credentials now akid presented s = (s', o) -> s' = with_store s (Get (now 0) akid (store s)).1.
Proof.
  unfold lookup_credentials. destruct (Get _ _ _) as [st [[c|]|]]; by intros [= <- _].
Qed.

Lemma serveSigV4_advanced gateway now r header reqID (s : Server) :
  advanced s "sigv4" (after (serveSigV4 gateway now r header reqID s)).
Proof.
  unfold serveSigV4. destruct (ParseAuthorization _) as [a|]; [|by apply (advanced_timed s s); lane_done].
  destruct (lookup_credentials _ _ _ _) as [s' o] eqn:El. apply lookup_credentials_store in El.
  destruct o as [c|rj]; [|subst s'; apply (advanced_timed s (with_store s (Get (now 0) (AccessKeyID a) (store s)).1)); lane_done].
  subst s'. destruct (Verify _); apply (advanced_timed s (with_store s (Get (now 0) (AccessKeyID a) (store s)).1)); lane_done.
Qed.

Lemma servePresigned_advanced gateway now r reqID (s : Server) :
  advanced s "presigned" (after (servePresigned gateway now r reqID s)).
Proof.
  unfold servePresigned. destruct (ParsePresigned _) as [a|]; [|by apply (advanced_timed s s); lane_done].
  destruct (lookup_credentials _ _ _ _) as [s' o] eqn:El. apply lookup_credentials_store in El.
  destruct o as [c|rj]; [|subst s'; apply (advanced_timed s (with_store s (Get (now 0) (AccessKeyID (p_Authorization a)) (store s)).1)); lane_done].
  subst s'. destruct (VerifyPresigned _); apply (advanced_timed s (with_store s (Get (now 0) (AccessKeyID (p_Authorization a)) (store s)).1)); lane_done.
Qed.

Lemma serveUnauthenticated_advanced gateway r reqID (s : Server) :
  advanced s "unauthenticated" (after (serveUnauthenticated gateway r reqID s)).
Proof. unfold serveUnauthenticated. repeat case_match; by apply (advanced_timed s s); lane_done. Qed.

Lemma serve_advanced gateway now rand r (s : Server) :
  isSTSRequest r = false ->
  exists lane, lane ∈ ["bearer"; "sigv4"; "presigned"; "unauthenticated"] /\
    advanced s lane (after (serve gateway now rand r s)).
Proof.
  intros Hs. unfold serve. rewrite Hs. repeat case_match; eexists;
    (split; [|first [apply serveBearer_advanced | apply serveSigV4_advanced
                    | apply servePresigned_advanced | apply serveUnauthenticated_advanced]]); set_solver.
Qed.

(** ** Revocation *)

Lemma revoked_not_held `{!StoreRevokes S} now (s s' : Server) akid response :
  handleRevoke now akid s = (s', response) -> status response = 204%Z ->
  forall now' presented c, holds s' now' akid presented c -> False.
Proof.
  unfold handleRevoke. intros Hr Hst now' presented c [Hg _ _].
  destruct (Get (now 0) akid (store s)) as [st [[c0|]|]]; [|by injection Hr as <- <-..].
  destruct (Delete (now 1) akid st) as [st' [err|]] eqn:Ed; injection Hr as <- <-; [done|].
  cbn [measure with_store store] in Hg. destruct (Get (now' 0) akid st') as [st'' o] eqn:Eg.
  cbn [snd] in Hg. subst o. by pose proof (delete_get _ _ _ _ _ _ _ Ed Eg).
Qed.

(** A key the store holds no usable record for is refused on both SigV4 lanes. *)
Lemma unheld_key_refused gateway now rand r (s : Server) akid :
  (forall now' presented c, holds s now' akid presented c -> False) -> isSTSRequest r = false ->
  (forall a, IsSigV4 (HGet (RHeader r) "Authorization") = true ->
     ParseAuthorization (HGet (RHeader r) "Authorization") = Ok a -> AccessKeyID a = akid ->
     handed (serve gateway now rand r s) = None) /\
  (forall p, HGet (RHeader r) "Authorization" = "" -> ParsePresigned r = Ok p ->
     AccessKeyID (p_Authorization p) = akid -> handed (serve gateway now rand r s) = None).
Proof.
  intros Hno Hn. split.
  - intros a H4 Ha Hk. rewrite serve_sigv4_lane by done.
    unfold serveSigV4. cbn [handed timed]. rewrite Ha, Hk.
    destruct (lookup_credentials _ _ _ _) as [s1 [c|rj]] eqn:El; [|done].
    apply lookup_credentials_Ok in El as [Hh _]. by apply Hno in Hh.
  - intros p He Hp Hk. unfold serve. rewrite Hn, He.
    change (IsSigV4 "") with false. change (HasPrefix "" "Bearer ") with false.
    rewrite seqb_refl, (ParsePresigned_IsPresigned r p Hp). cbn [andb].
    unfold servePresigned. cbn [handed timed]. rewrite Hp, Hk.
    destruct (lookup_credentials _ _ _ _) as [s1 [c|rj]] eqn:El; [|done].
    apply lookup_credentials_Ok in El as [Hh _]. by apply Hno in Hh.
Qed.

End Lanes.

(** ** Properties *)

Section Properties.
Context `{GoLib} {V S : Type} `{TokenValidator V} `{!Store S}.

(** C2: in strict mode the proxy forwards a data-path request if and only if it
    authenticates: by a Bearer token the validator accepts on an enabled lane,
    or by SigV4 (header or presigned) with a record the store holds, unexpired,
    whose session token was presented and whose secret reproduces the
    signature.  What is handed to the reverse proxy is then that request with
    the authenticated username injected. *)
Theorem strict_forwards_iff_authenticated gateway now rand r (s : @Server V S) r' :
  StrictEnabled (cfg_DataPath (cfg s)) = true -> isSTSRequest r = false ->
  handed (serve gateway now rand r s) = Some r' <->
  exists u auth base, authenticated s (later 1 now) r u auth base
    /\ r' = applyIdentity s (later 4 now) base u auth.
Proof.
  intros Hs Hn. split; [by apply serve_handed|].
  intros (u & auth & base & Ha & ->). by apply authenticated_handed.
Qed.

(** C23: exactly one verdict is counted per request on the SigV4 lane, and it is
    the one the client experiences: "success" if and only if the request is
    forwarded, otherwise one of nine labels, each with its own S3 error code
    and status. *)
Theorem sigv4_verdict_counted gateway now rand r (s : @Server V S) :
  isSTSRequest r = false -> IsSigV4 (HGet (RHeader r) "Authorization") = true ->
  let p := serve gateway now rand r s in
  total (sigv4Verifies (srv_metrics (after p))) = N.succ (total (sigv4Verifies (srv_metrics s))) /\
  exists label, sigv4Verifies (srv_metrics (after p)) = inc label (sigv4Verifies (srv_metrics s)) /\
  ((label = "success" /\ exists r', handed p = Some r') \/
   (handed p = None /\ exists st errcode msg, In (st, label, errcode) sigv4_refusals /\
      resp p = Write st errcode msg (Path (RURL r)) (newRequestID (rand 0 12)))).
Proof.
  intros Hs H4. cbv zeta. rewrite serve_sigv4_lane by done.
  destruct (serveSigV4_verdict gateway (later 1 now) r (newRequestID (rand 0 12)) s) as (label & Hm & Hr).
  split; [by rewrite Hm, total_inc|]. by exists label.
Qed.

(** A data-path request cannot change anything but counters and caches: the
    configuration and the target stay, the store is at most read, the
    validator at most used, and the request is timed exactly once under its
    lane. *)
Theorem data_path_frame gateway now rand r (s : @Server V S) :
  isSTSRequest r = false ->
  exists lane, lane ∈ ["bearer"; "sigv4"; "presigned"; "unauthenticated"] /\
    advanced s lane (after (serve gateway now rand r s)) /\
    samples (duration (srv_metrics (after (serve gateway now rand r s)))) = N.succ (samples (duration (srv_metrics s))).
Proof.
  intros Hs. destruct (serve_advanced gateway now rand r s Hs) as (lane & Hl & Ha).
  exists lane. split_and!; [done|done|]. destruct (adv_timed _ _ _ Ha) as [d ->]. apply samples_Observe.
Qed.

(** Revocation is immediate: once [handleRevoke] has answered 204 for an
    access key ID, no later request, header-signed or presigned, authenticates
    with it, whatever the clock. *)
Theorem revoked_key_refused `{!StoreRevokes S} now akid (s s' : @Server V S) response :
  handleRevoke now akid s = (s', response) -> status response = 204%Z ->
  forall gateway now' rand r,
    isSTSRequest r = false ->
    (forall a, IsSigV4 (HGet (RHeader r) "Authorization") = true ->
       ParseAuthorization (HGet (RHeader r) "Authorization") = Ok a -> AccessKeyID a = akid ->
       handed (serve gateway now' rand r s') = None) /\
    (forall p, HGet (RHeader r) "Authorization" = "" -> ParsePresigned r = Ok p ->
       AccessKeyID (p_Authorization p) = akid -> handed (serve gateway now' rand r s') = None).
Proof.
  intros Hr H204 gateway now' rand r Hn. apply unheld_key_refused; [|done].
  exact (revoked_not_held now s s' akid response Hr H204).
Qed.

(** Expired credentials are refused with 403 ExpiredToken, whatever the
    signature, and the request is not forwarded. *)
Theorem expired_credentials_refused gateway now rand r (s : @Server V S) a c :
  isSTSRequest r = false -> IsSigV4 (HGet (RHeader r) "Authorization") = true ->
  ParseAuthorization (HGet (RHeader r) "Authorization") = Ok a ->
  (Get (now 1) (AccessKeyID a) (store s)).2 = Ok (Some c) -> (cr_ExpiresAt c <= now 2%nat)%Z ->
  handed (serve gateway now rand r s) = None /\
  resp (serve gateway now rand r s) =
    Write 403 CodeExpiredToken "the temporary credentials have expired" (Path (RURL r)) (newRequestID (rand 0 12)).
Proof.
  intros Hs H4 Ha Hg He. rewrite serve_sigv4_lane by done. unfold serveSigV4. cbn [handed timed resp].
  rewrite Ha. unfold lookup_credentials. change (later 1 now 0) with (now 1).
  destruct (Get (now 1) (AccessKeyID a) (store s)) as [st o]. cbn [snd] in Hg. subst o.
  unfold Expired, Before. change (later 1 now 1) with (now 2). by rewrite (proj2 (Z.ltb_ge _ _) He).
Qed.

End Properties.

(** ** A concrete server and its clients *)

Module DemoServer.
#[export] Existing Instance ascii_lib.
Export DemoJwx.

Definition record : Credentials :=
  mkCredentials "OZPX0000000000000000" "secret" "tok" "alice" "kc" (2000 * Second)%Z.

Definition server : Server :=
  mkServer config warm (Memory.Put record Memory.NewMemory) gateway_url (newMetrics (fun _ => 700000%Z)).

Definition now : Clock := fun _ => (1000 * Second)%Z.
Definition expired : Clock := fun _ => (2000 * Second)%Z.

(** The gateway answers every request with an empty 200. *)
Definition gateway (_ : Request) : upstream_result := Answered (mkResponse 200 "" "").

Definition get (h : Header) : Request :=
  mkRequest "GET" (mkURL "" "" "/bucket/key" "" "") "/bucket/key" "proxy:9000" h 0 (Some "") None false.

Definition bearer : Request := get {[ "Authorization" := ["Bearer " +:+ raw] ]}.

(** A GET signed with [record]. *)
Definition signed : Request := Eval vm_compute in
  (Sign (mkSignInput (get {[ "X-Amz-Security-Token" := ["tok"] ]})
           (cr_AccessKeyID record) (cr_SecretAccessKey record) "us-east-1" "s3" "" (1000 * Second)%Z)).1.

Lemma signed_key :
  match ParseAuthorization (HGet (RHeader signed) "Authorization") with
  | Ok a => AccessKeyID a
  | Err _ => ""
  end = "OZPX0000000000000000".
Proof. vm_compute. reflexivity. Qed.

Definition served : reply := serve gateway now zero_entropy signed server.

Lemma served_forwards : handed served <> None.
Proof. apply some_not_none. vm_compute. reflexivity. Qed.

End DemoServer.

Section Witnesses.
Import DemoServer.

Lemma strict_forwards_iff_authenticated_witness :
  exists r' u auth base, handed (serve gateway now zero_entropy bearer server) = Some r' /\
    authenticated server (later 1 now) bearer u auth base /\
    r' = applyIdentity server (later 4 now) base u auth.
Proof.
  destruct (handed (serve gateway now zero_entropy bearer server)) as [r'|] eqn:E;
    [|vm_compute in E; discriminate E].
  destruct (proj1 (strict_forwards_iff_authenticated gateway now zero_entropy bearer server r' eq_refl
    ltac:(vm_compute; reflexivity)) E) as (u & auth & base & Ha & Hr).
  exists r', u, auth, base. split; [reflexivity|]. split; [exact Ha|exact Hr].
Defined.

Lemma sigv4_verdict_counted_witness :
  handed served <> None /\
  total (sigv4Verifies (srv_metrics (after served))) = N.succ (total (sigv4Verifies (srv_metrics server))).
Proof.
  split; [apply served_forwards|].
  destruct (sigv4_verdict_counted gateway now zero_entropy signed server
    ltac:(vm_compute; reflexivity) ltac:(vm_compute; reflexivity)) as [Ht _].
  exact Ht.
Defined.

Lemma data_path_frame_witness :
  exists lane, advanced server lane (after (serve gateway now zero_entropy bearer server)).
Proof.
  destruct (data_path_frame gateway now zero_entropy bearer server ltac:(vm_compute; reflexivity))
    as (lane & _ & Ha & _).
  exists lane. exact Ha.
Defined.

Lemma revoked_key_refused_witness :
  status (handleRevoke now "OZPX0000000000000000" server).2 = 204%Z /\
  handed served <> None /\
  handed (serve gateway now zero_entropy signed (handleRevoke now "OZPX0000000000000000" server).1) = None.
Proof.
  assert (status (handleRevoke now "OZPX0000000000000000" server).2 = 204%Z) as Hst by (vm_compute; reflexivity).
  split; [exact Hst|]. split; [apply served_forwards|].
  destruct (handleRevoke now "OZPX0000000000000000" server) as [s' response] eqn:Er. cbn [snd fst] in *.
  pose proof signed_key as Hk.
  destruct (ParseAuthorization (HGet (RHeader signed) "Authorization")) as [a|] eqn:Ea; [|discriminate Hk].
  destruct (revoked_key_refused now _ server s' response Er Hst gateway now zero_entropy signed
    ltac:(vm_compute; reflexivity)) as [H1 _].
  apply (H1 a); [vm_compute; reflexivity|exact Ea|exact Hk].
Defined.

Lemma expired_credentials_refused_witness :
  handed served <> None /\
  status (resp (serve gateway expired zero_entropy signed server)) = 403%Z /\
  handed (serve gateway expired zero_entropy signed server) = None.
Proof.
  split; [apply served_forwards|].
  pose proof signed_key as Hk.
  destruct (ParseAuthorization (HGet (RHeader signed) "Authorization")) as [a|] eqn:Ea; [|discriminate Hk].
  destruct (expired_credentials_refused gateway expired zero_entropy signed server a record) as [Hh Hr].
  - vm_compute. reflexivity.
  - vm_compute. reflexivity.
  - exact Ea.
  - rewrite Hk. vm_compute. reflexivity.
  - vm_compute. discriminate.
  - split; [rewrite Hr; reflexivity|exact Hh].
Defined.

End Witnesses.
