(* ===== verification/Logs.v ===== *)
(** * The log of the proxy

    Models what internal/server, internal/sts and internal/forward write through
    [slog]: for each handler the records it logs, in order, with their level,
    message and attributes.  The handlers themselves are [Server] and [Sts];
    each function here follows the same path through the same guards, and the
    theorems tie the two together.  The text of an error that comes from a
    library or from the network is the class [ErrorTexts]. *)

From Stdlib Require Import Ascii String ZArith NArith Bool Lia.
From stdpp Require Import base tactics list strings gmap.
From S2P Require Import Prelude GoStrings GoTime GoHttp GoXml GoJson GoXmlDecode S3err Sigv4 Presign Sign Store Forward Config.
From S2P Require Import Oidc Sts Metrics Server Lanes.

(** ** Records *)

Inductive level := LevelInfo | LevelWarn | LevelError.

Record entry := mkEntry { e_level : level; e_msg : string; e_attrs : list (string * string) }.

(** The first attribute with a key. *)
Definition attr (e : entry) (k : string) : option string :=
  snd <$> List.find (fun a => a.1 =s k) (e_attrs e).

(** [err.Error()] of a failed validation, of an outbound request that could not
    be sent, of one that could not be built, and of a failed random read. *)
Class ErrorTexts (V : Type) := {
  validate_text : Clock -> string -> V -> string;
  transport_text : Request -> string;
  outbound_text : Request -> string;
  entropy_text : string
}.

(** ** internal/server and internal/forward *)

Section Logs.
Context `{GoLib} {V S : Type} `{TokenValidator V} `{!Store S} `{!ErrorTexts V}.
Abbreviation Server := (@Server V S).

(** [s.logger.With("request_id", ..., "lane", ..., "method", ..., "path", ...)] *)
Definition lane_attrs (reqID lane : string) (r : Request) : list (string * string) :=
  [("request_id", reqID); ("lane", lane); ("method", Method r); ("path", Path (RURL r))].

(** The error the reverse proxy hands to its [ErrorHandler], if any. *)
Definition upstream_error (gateway : Request -> upstream_result) (s : Server) (r : Request) : option string :=
  match proxy_request (target s) r with
  | None => Some (outbound_text r)
  | Some out => match gateway out with Answered _ => None | Failed _ => Some (transport_text out) end
  end.

(** The [ErrorHandler] of the reverse proxy: its request is the outbound one
    where there is one. *)
Definition proxy_log (gateway : Request -> upstream_result) (s : Server) (r : Request) : list entry :=
  match upstream_error gateway s r with
  | None => []
  | Some err =>
      [mkEntry LevelError "upstream request failed"
         [("error", err); ("path", Path (RURL (default r (proxy_request (target s) r))))]]
  end.

Definition applyIdentity_log (s : Server) (now : Clock) (r : Request) (username : string) : list entry :=
  if ForwardMode (cfg_Upstream (cfg s)) =s ForwardModeResign then
    match (ApplyResign r username (upstreamHost s) (region s) (now 0)).2 with
    | None => []
    | Some e => [mkEntry LevelWarn "resign failed, falling back to rewrite" [("error", message e)]]
    end
  else [].

(** Injecting the identity, then the reverse proxy. *)
Definition forward_log (gateway : Request -> upstream_result) (s : Server) (now : Clock) (r : Request)
    (username : string) (auth : option Authorization) : list entry :=
  applyIdentity_log s now r username ++ proxy_log gateway s (applyIdentity s now r username auth).

(** The closure [reject] of the SigV4 lanes. *)
Definition reject_entry (msg : string) (with_ : list (string * string)) (rj : rejection) : entry :=
  mkEntry LevelInfo msg (with_ ++ [("code", rj_code rj); ("detail", rj_message rj)]).

Definition success_entry (msg : string) (with_ : list (string * string)) (username issuer : string) : entry :=
  mkEntry LevelInfo msg (with_ ++ [("username", username); ("issuer", issuer)]).

Definition serveBearer_log (gateway : Request -> upstream_result) (now : Clock) (r : Request)
    (token reqID : string) (s : Server) : list entry :=
  let with_ := lane_attrs reqID "bearer" r in
  if negb (BearerEnabled (cfg_DataPath (cfg s))) then [mkEntry LevelInfo "bearer lane disabled" with_]
  else match Validate now token (validator s) with
  | (_, Err e) =>
      [mkEntry LevelInfo "bearer rejected"
         (with_ ++ [("error", validate_text now token (validator s)); ("code", (mapBearerError e).2)])]
  | (_, Ok identity) =>
      success_entry "bearer authenticated" with_ (id_Username identity) (id_IssuerName identity)
      :: forward_log gateway s (later 3 now) r (id_Username identity) None
  end.

Definition serveSigV4_log (gateway : Request -> upstream_result) (now : Clock) (r : Request)
    (authHeader reqID : string) (s : Server) : list entry :=
  let with_ := lane_attrs reqID "sigv4" r in
  match ParseAuthorization authHeader with
  | Err _ =>
      [reject_entry "sigv4 rejected" with_
         (Reject 400 "malformed" CodeAuthorizationHeaderMalformed "the Authorization header is malformed")]
  | Ok auth =>
      let with_ := with_ ++ [("access_key_id", AccessKeyID auth)] in
      match lookup_credentials now (AccessKeyID auth) (HGet (RHeader r) "X-Amz-Security-Token") s with
      | (_, Err rj) => [reject_entry "sigv4 rejected" with_ rj]
      | (_, Ok creds) =>
          match Verify (lane_input s now r auth creds) with
          | Some e => [reject_entry "sigv4 rejected" with_ (sigv4_rejection e)]
          | None =>
              success_entry "sigv4 verified" with_ (cr_Username creds) (cr_Issuer creds)
              :: forward_log gateway s (later 3 now) r (cr_Username creds) (Some auth)
          end
      end
  end.

Definition servePresigned_log (gateway : Request -> upstream_result) (now : Clock) (r : Request)
    (reqID : string) (s : Server) : list entry :=
  let with_ := lane_attrs reqID "presigned" r in
  match ParsePresigned r with
  | Err e =>
      [reject_entry "presigned rejected" with_ (Reject 400 "malformed" CodeAuthorizationQueryParametersError (message e))]
  | Ok auth =>
      let with_ := with_ ++ [("access_key_id", AccessKeyID (p_Authorization auth))] in
      match lookup_credentials now (AccessKeyID (p_Authorization auth)) (p_SecurityToken auth) s with
      | (_, Err rj) => [reject_entry "presigned rejected" with_ rj]
      | (_, Ok creds) =>
          match VerifyPresigned (presign_input s now r auth creds) with
          | Some e => [reject_entry "presigned rejected" with_ (presigned_rejection e)]
          | None =>
              success_entry "presigned verified" with_ (cr_Username creds) (cr_Issuer creds)
              :: forward_log gateway s (later 3 now) (StripPresignedQuery r) (cr_Username creds) None
          end
      end
  end.

Definition serveUnauthenticated_log (gateway : Request -> upstream_result) (r : Request) (reqID : string)
    (s : Server) : list entry :=
  let with_ := lane_attrs reqID "none" r in
  if StrictEnabled (cfg_DataPath (cfg s)) then
    if IsSigV2Query r then [mkEntry LevelInfo "sigv2 query authentication rejected" with_]
    else [mkEntry LevelInfo "unauthenticated request rejected (strict mode)" with_]
  else mkEntry LevelWarn "unauthenticated request forwarded (strict mode disabled)" with_ :: proxy_log gateway s r.

(** ** internal/sts *)

Definition ServeHTTP_log (cfg : STS) (now : Clock) (rand : Entropy) (r : Request) (v : V) (s : S) : list entry :=
  let with_ := [("request_id", Sts.newRequestID (rand 0 16)); ("handler", "sts")] in
  match read_params cfg r with
  | Err _ => []
  | Ok p =>
    match Validate now (token p) v with
    | (_, Err e) =>
        [mkEntry LevelInfo "token exchange rejected"
           (with_ ++ [("error", validate_text now (token p) v); ("code", (mapTokenError e).1)])]
    | (_, Ok identity) =>
        let t := now 3 in
        let ttl := effective_ttl (id_Expiry identity) t (MaxDuration cfg) (requested p) in
        if (ttl <=? 0)%Z then []
        else match Mint rand 1 (id_Username identity) (id_IssuerName identity) (Add t ttl) with
        | Err e => [mkEntry LevelError "minting failed" (with_ ++ [("error", e +:+ ": " +:+ entropy_text)])]
        | Ok creds =>
            match (Put (now 4) creds s).2 with
            | Some e => [mkEntry LevelError "credential store put failed" (with_ ++ [("error", e)])]
            | None =>
                [mkEntry LevelInfo "token exchange succeeded"
                   (with_ ++ [("username", id_Username identity); ("issuer", id_IssuerName identity);
                              ("access_key_id", cr_AccessKeyID creds); ("role_arn", roleArn p);
                              ("role_session_name", sessionName p);
                              ("expires_at", Format_rfc3339 (cr_ExpiresAt creds))])]
            end
        end
    end
  end.

(** The main handler. *)
Definition serve_log (gateway : Request -> upstream_result) (now : Clock) (rand : Entropy) (r : Request)
    (s : Server) : list entry :=
  let reqID := newRequestID (rand 0 12) in
  if isSTSRequest r then
    ServeHTTP_log (cfg_STS (cfg s)) (later 1 now) (later_rand 1 rand)
      (with_body r (MaxBytesReader maxSTSBodyBytes (Body r))) (validator s) (store s)
  else
    let authHeader := HGet (RHeader r) "Authorization" in
    if HasPrefix authHeader "Bearer " then
      serveBearer_log gateway (later 1 now) r (TrimPrefix authHeader "Bearer ") reqID s
    else if IsSigV4 authHeader then serveSigV4_log gateway (later 1 now) r authHeader reqID s
    else if (authHeader =s "") && IsPresigned r then servePresigned_log gateway (later 1 now) r reqID s
    else serveUnauthenticated_log gateway r reqID s.

(** The revocation endpoint. *)
Definition handleRevoke_log (now : Clock) (akid : string) (s : Server) : list entry :=
  let with_ := [("endpoint", "revoke"); ("access_key_id", akid)] in
  match Get (now 0) akid (store s) with
  | (_, Err e) => [mkEntry LevelError "revocation lookup failed" (with_ ++ [("error", e)])]
  | (_, Ok None) => [mkEntry LevelInfo "revocation of unknown access key ID" with_]
  | (st, Ok (Some creds)) =>
      match (Delete (now 1) akid st).2 with
      | Some e => [mkEntry LevelError "revocation delete failed" (with_ ++ [("error", e)])]
      | None => [success_entry "credentials revoked" with_ (cr_Username creds) (cr_Issuer creds)]
      end
  end.

End Logs.

(** ** The log is the audit trail *)

Section Audit.
Context `{GoLib} {V S : Type} `{TokenValidator V} `{!Store S} `{!ErrorTexts V}.
Abbreviation Server := (@Server V S).

(** What every record of a lane says of its request. *)
Definition about (reqID : string) (r : Request) (e : entry) : Prop :=
  attr e "request_id" = Some reqID /\ attr e "method" = Some (Method r) /\ attr e "path" = Some (Path (RURL r)).

(** The record of a request that was let through: its user, and nothing but
    warnings and errors after it. *)
Record admitted_entry (u : string) (e : entry) (rest : list entry) : Prop := {
  ae_msg : e_msg e ∈ ["bearer authenticated"; "sigv4 verified"; "presigned verified"];
  ae_user : attr e "username" = Some u;
  ae_rest : Forall (fun x => e_level x <> LevelInfo /\ attr x "username" = None) rest
}.

(** The three refusals logged without a code, and what each answers. *)
Definition uncoded (msg : string) : option string :=
  if msg =s "bearer lane disabled" then Some "AccessDenied"
  else if msg =s "sigv2 query authentication rejected" then Some "InvalidRequest"
  else if msg =s "unauthenticated request rejected (strict mode)" then Some "AccessDenied"
  else None.

(** The record of a request that was refused: no user, and the code answered,
    in the record itself but for those three. *)
Record refused_entry (errcode : string) (e : entry) (rest : list entry) : Prop := {
  re_only : rest = [];
  re_user : attr e "username" = None;
  re_code : match uncoded (e_msg e) with
            | Some c => attr e "code" = None /\ errcode = c
            | None => attr e "code" = Some errcode
            end
}.

(** One lane: its log and its reply. *)
Definition lane_audited (s : Server) (now : Clock) (reqID : string) (r : Request) (log : list entry) (p : reply (V := V) (S := S)) : Prop :=
  exists e rest, log = e :: rest /\ about reqID r e /\
    match handed p with
    | Some out => exists u auth base, authenticated s now r u auth base /\ out = applyIdentity s (later 3 now) base u auth /\
                    admitted_entry u e rest
    | None => exists st errcode msg, resp p = Write st errcode msg (Path (RURL r)) reqID /\ refused_entry errcode e rest
    end.

Lemma forward_log_quiet gateway (s : Server) now r u auth :
  Forall (fun x => e_level x <> LevelInfo /\ attr x "username" = None) (forward_log gateway s now r u auth).
Proof.
  unfold forward_log, applyIdentity_log, proxy_log. apply Forall_app. split; repeat case_match; repeat constructor; done.
Qed.

(** A branch that refuses. *)
Ltac audit_refused :=
  do 2 eexists; split; [done|]; split; [done|]; do 3 eexists; split; [done|]; split; done.

Lemma serveBearer_audited gateway now r tok reqID (s : Server) :
  HGet (RHeader r) "Authorization" = "Bearer " +:+ tok ->
  lane_audited s now reqID r (serveBearer_log gateway now r tok reqID s) (serveBearer gateway now r tok reqID s).
Proof.
  intros Ha. unfold lane_audited, serveBearer_log, serveBearer. cbn [handed timed resp].
  destruct (BearerEnabled _) eqn:Eb; cbn [negb].
  2:{ audit_refused. }
  destruct (Validate now tok (validator s)) as [v [id|e]] eqn:Ev.
  - do 2 eexists. split; [done|]. split; [done|]. rewrite handed_proxy. exists (id_Username id), None, r.
    split; [by econstructor|]. split; [done|]. split; [cbn; set_solver|done|apply forward_log_quiet].
  - destruct (mapBearerError e) as [st errcode]. audit_refused.
Qed.

Lemma serveSigV4_audited gateway now r reqID (s : Server) :
  IsSigV4 (HGet (RHeader r) "Authorization") = true ->
  lane_audited s now reqID r (serveSigV4_log gateway now r (HGet (RHeader r) "Authorization") reqID s)
    (serveSigV4 gateway now r (HGet (RHeader r) "Authorization") reqID s).
Proof.
  intros H4. unfold lane_audited, serveSigV4_log, serveSigV4. cbn [handed timed resp].
  destruct (ParseAuthorization _) as [a|] eqn:Ea.
  2:{ audit_refused. }
  destruct (lookup_credentials _ _ _ _) as [s' [c|rj]] eqn:El.
  2:{ audit_refused. }
  apply lookup_credentials_Ok in El as [Hh [st ->]]. change (region (with_store s st)) with (region s). cbn [cfg with_store].
  fold (lane_input s now r a c). destruct (Verify (lane_input s now r a c)) as [e|] eqn:Ev.
  { audit_refused. }
  do 2 eexists. split; [done|]. split; [done|]. rewrite handed_proxy. exists (cr_Username c), (Some a), r.
  split; [by econstructor|]. split; [done|]. split; [cbn; set_solver|done|apply forward_log_quiet].
Qed.

Lemma servePresigned_audited gateway now r reqID (s : Server) :
  HGet (RHeader r) "Authorization" = "" ->
  lane_audited s now reqID r (servePresigned_log gateway now r reqID s) (servePresigned gateway now r reqID s).
Proof.
  intros Ha. unfold lane_audited, servePresigned_log, servePresigned. cbn [handed timed resp].
  destruct (ParsePresigned r) as [a|] eqn:Ea.
  2:{ audit_refused. }
  destruct (lookup_credentials _ _ _ _) as [s' [c|rj]] eqn:El.
  2:{ audit_refused. }
  apply lookup_credentials_Ok in El as [Hh [st ->]]. change (region (with_store s st)) with (region s). cbn [cfg with_store].
  fold (presign_input s now r a c). destruct (VerifyPresigned (presign_input s now r a c)) as [e|] eqn:Ev.
  { audit_refused. }
  do 2 eexists. split; [done|]. split; [done|]. rewrite handed_proxy. exists (cr_Username c), None, (StripPresignedQuery r).
  split; [by econstructor|]. split; [done|]. split; [cbn; set_solver|done|apply forward_log_quiet].
Qed.

Lemma serveUnauthenticated_audited gateway now r reqID (s : Server) :
  StrictEnabled (cfg_DataPath (cfg s)) = true ->
  lane_audited s now reqID r (serveUnauthenticated_log gateway r reqID s) (serveUnauthenticated gateway r reqID s).
Proof.
  intros Hs. unfold lane_audited, serveUnauthenticated_log, serveUnauthenticated. rewrite Hs. cbn [handed timed resp].
  destruct (IsSigV2Query r); audit_refused.
Qed.

Lemma serve_audited gateway now rand r (s : Server) :
  isSTSRequest r = false -> StrictEnabled (cfg_DataPath (cfg s)) = true ->
  lane_audited s (later 1 now) (newRequestID (rand 0 12)) r (serve_log gateway now rand r s) (serve gateway now rand r s).
Proof.
  intros Hn Hs. unfold serve_log, serve. rewrite Hn. destruct (HasPrefix _ "Bearer ") eqn:Eb.
  { apply HasPrefix_true in Eb as [tok Et]. rewrite Et. unfold TrimPrefix. rewrite CutPrefix_app.
    by apply serveBearer_audited. }
  destruct (IsSigV4 _) eqn:E4; [by apply serveSigV4_audited|].
  destruct (seqb_spec (HGet (RHeader r) "Authorization") "") as [Ee|_]; cbn [andb]; [|by apply serveUnauthenticated_audited].
  destruct (IsPresigned r); [by apply servePresigned_audited|by apply serveUnauthenticated_audited].
Qed.

(** The record of a successful exchange. *)
Record exchange_entry (p : params) (id : Identity) (c : Credentials) (e : entry) : Prop := {
  xe_msg : e_msg e = "token exchange succeeded";
  xe_user : attr e "username" = Some (id_Username id);
  xe_issuer : attr e "issuer" = Some (id_IssuerName id);
  xe_key : attr e "access_key_id" = Some (cr_AccessKeyID c);
  xe_role : attr e "role_arn" = Some (roleArn p);
  xe_expiry : attr e "expires_at" = Some (Format_rfc3339 (cr_ExpiresAt c))
}.

Lemma exchange_audited cfg now rand r (v : V) (s : S) :
  let o := ServeHTTP cfg now rand r v s in
  (exists p id c e, exchanged cfg now rand r v s o p id c /\ ServeHTTP_log cfg now rand r v s = [e] /\ exchange_entry p id c e) \/
  (status (o_response o) <> 200%Z /\ Forall (fun e => attr e "username" = None) (ServeHTTP_log cfg now rand r v s)).
Proof.
  cbv zeta. pose proof (ServeHTTP_cases cfg now rand r v s) as Hc. cbv zeta in Hc.
  unfold ServeHTTP_log, ServeHTTP in *. destruct (read_params cfg r) as [p|rf] eqn:Ep.
  2:{ right. destruct Hc as [(p & id & c & He)|(rf' & [Hst _ Hr _ _])]; [by destruct He|]. split; [|constructor].
      rewrite Hr. cbn [status writeError writeXML]. intros E. rewrite E in Hst. set_solver. }
  destruct (Validate now (token p) v) as [v' [id|e]] eqn:Ev.
  2:{ right. destruct e; (split; [done|by repeat constructor]). }
  destruct (_ <=? 0)%Z eqn:Et; [right; by repeat constructor|].
  destruct (Mint rand 1 _ _ _) as [c|] eqn:Em; [|right; by repeat constructor].
  destruct (Put (now 4) c s) as [s' [err|]] eqn:Eput; [right; by repeat constructor|].
  left. cbn [snd]. destruct Hc as [(p' & id' & c' & He)|(rf & [Hst _ Hr _ _])].
  2:{ exfalso. cbn [o_response] in Hr. apply (f_equal status) in Hr. cbn in Hr. rewrite <- Hr in Hst. set_solver. }
  exists p, id, c. eexists. split; [|split; [done|by split]].
  pose proof He as [Hp Ht _ Hm _ _ _]. assert (p' = p) as -> by congruence. assert (id' = id) as -> by congruence.
  assert (c' = c) as -> by congruence. exact He.
Qed.

End Audit.

(** ** The log keeps the secrets *)

Section Secrecy.
Context `{GoLib} {V S : Type} `{TokenValidator V} `{!Store S} `{!ErrorTexts V}.
Abbreviation Server := (@Server V S).
Abbreviation token_header := "X-Amz-Security-Token".

(** A record without its secrets. *)
Definition redact (c : Credentials) : Credentials :=
  mkCredentials (cr_AccessKeyID c) "" "" (cr_Username c) (cr_Issuer c) (cr_ExpiresAt c).

(** What a lookup shows of a record. *)
Definition redact_lookup (o : res string (option Credentials)) : res string (option Credentials) :=
  match o with Ok c => Ok (redact <$> c) | Err e => Err e end.

(** Two servers that differ at most in the secrets of their records. *)
Record alike (s1 s2 : Server) : Prop := {
  alike_cfg : cfg s1 = cfg s2;
  alike_target : target s1 = target s2;
  alike_validator : validator s1 = validator s2;
  alike_store : forall t k, redact_lookup (Get t k (store s1)).2 = redact_lookup (Get t k (store s2)).2;
  alike_put : forall t c1 c2, redact c1 = redact c2 -> (Put t c1 (store s1)).2 = (Put t c2 (store s2)).2
}.

(** An authorization without its signature. *)
Definition unsigned (a : Authorization) : Authorization :=
  mkAuth (AccessKeyID a) (Date a) (Region a) (Service a) (SignedHeaders a) "".

(** Two Authorization headers that differ at most in a SigV4 signature. *)
Inductive same_authorization : string -> string -> Prop :=
| same_header h : same_authorization h h
| same_unsigned h1 h2 a1 a2 :
    IsSigV4 h1 = true -> IsSigV4 h2 = true -> ParseAuthorization h1 = Ok a1 -> ParseAuthorization h2 = Ok a2 ->
    unsigned a1 = unsigned a2 -> same_authorization h1 h2.

(** A value the signature parameter may have. *)
Definition signature_text (d : string) : bool :=
  let sig := ToLower (TrimSpace d) in (String.length sig =? 64)%nat && hex_decodable sig.

(** Two values of the query parameter [name] that are as public as each other:
    the same, or two session tokens, or two signatures. *)
Definition same_value (name d1 d2 : string) : Prop :=
  d1 = d2 \/ name = token_header \/ (name = "X-Amz-Signature" /\ signature_text d1 = true /\ signature_text d2 = true).

(** Two query parts that differ at most in the value of such a parameter,
    however its name and value are escaped. *)
Inductive same_part : string -> string -> Prop :=
| same_text p : same_part p p
| same_secret k name v1 v2 d1 d2 :
    sfree "=" k = true -> sfree ";" (k +:+ "=" +:+ v1) = true -> sfree ";" (k +:+ "=" +:+ v2) = true ->
    QueryUnescape k = Some name -> QueryUnescape v1 = Some d1 -> QueryUnescape v2 = Some d2 ->
    name ∈ [token_header; "X-Amz-Signature"] -> same_value name d1 d2 ->
    same_part (k +:+ "=" +:+ v1) (k +:+ "=" +:+ v2).

Definition same_query (q1 q2 : string) : Prop := Forall2 same_part (Split "&" q1) (Split "&" q2).

(** Two URLs that differ at most in such parameters. *)
Definition same_url (u1 u2 : URL) : Prop :=
  with_raw_query u1 "" = with_raw_query u2 "" /\ same_query (RawQuery u1) (RawQuery u2).

(** A request without its URL and the two headers that may carry secrets. *)
Definition blank (r : Request) : Request :=
  mkRequest (Method r) (mkURL "" "" "" "" "") "" (Host r) (HDel (HDel (RHeader r) token_header) "Authorization")
    (ContentLength r) (Body r) (RemoteIP r) (IsTLS r).

(** Two requests that differ at most in what is made from secrets: the session
    token and the signature, in the headers or in a presigned URL (also where
    the request line repeats it). *)
Record same_public (r1 r2 : Request) : Prop := {
  sp_rest : blank r1 = blank r2;
  sp_url : same_url (RURL r1) (RURL r2);
  sp_auth : same_authorization (HGet (RHeader r1) "Authorization") (HGet (RHeader r2) "Authorization")
}.

(** Two random sources that differ at most in the buffers an exchange makes
    the secret key and the session token of, the third and fourth of [serve]. *)
Record same_but_minted (rand1 rand2 : Entropy) : Prop := {
  sm_public : forall i n, i < 3 -> rand1 i n = rand2 i n;
  sm_alive : forall i n, is_Some (rand1 i n) <-> is_Some (rand2 i n)
}.

(** The two runs look the same from outside: both requests were let through
    and the gateway failed on both alike or on none, or both were answered alike. *)
Definition same_outcome (gateway : Request -> upstream_result) (s1 s2 : Server) (p1 p2 : reply (V := V) (S := S)) : Prop :=
  match handed p1, handed p2 with
  | Some out1, Some out2 => upstream_error gateway s1 out1 = upstream_error gateway s2 out2
  | None, None => resp p1 = resp p2
  | _, _ => False
  end.

(** *** Queries that differ in secrets *)

Lemma same_query_refl q : same_query q q.
Proof. unfold same_query. induction (Split "&" q); constructor; [constructor|done]. Qed.

Lemma same_url_refl u : same_url u u.
Proof. split; [done|apply same_query_refl]. Qed.

Lemma unescape_both plus1 plus2 s d : unescape plus1 s = Some d -> exists d', unescape plus2 s = Some d'.
Proof.
  enough (forall n s d, (String.length s < n)%nat -> unescape plus1 s = Some d -> exists d', unescape plus2 s = Some d') as Hn.
  { apply (Hn (1 + String.length s)). lia. }
  clear s d. induction n as [|n IH]; intros s d Hl; [lia|]. destruct s as [|c r]; [by eexists|]. cbn [unescape String.length] in *.
  destruct (Ascii.eqb c "%").
  - destruct r as [|a [|b r']]; [done|done|]. destruct (_ && _); [|done]. cbn [String.length] in Hl. intros (d' & Hd & _)%fmap_Some.
    destruct (IH r' d' ltac:(lia) Hd) as [d2 ->]. by eexists.
  - intros (d' & Hd & _)%fmap_Some. destruct (IH r d' ltac:(lia) Hd) as [d2 ->]. by eexists.
Qed.

Lemma Cut_eq k v : sfree "=" k = true -> Cut "=" (k +:+ "=" +:+ v) = (k, v, true).
Proof. apply Cut_app. Qed.

(** What [url.ParseQuery] reads of two such parts. *)
Inductive same_read : option (option (string * string)) -> option (option (string * string)) -> Prop :=
| same_read_eq o : same_read o o
| same_read_pair k v1 v2 : same_value k v1 v2 -> same_read (Some (Some (k, v1))) (Some (Some (k, v2))).

Lemma query_part_public p1 p2 : same_part p1 p2 -> same_read (query_part p1) (query_part p2).
Proof.
  intros [p|k name v1 v2 d1 d2 Hk Hs1 Hs2 Hn Hd1 Hd2 _ Hv]; [constructor|]. unfold query_part. rewrite Hs1, Hs2. cbn [negb].
  destruct (seqb_spec (k +:+ "=" +:+ v1) "") as [E|_]; [by destruct k|]. destruct (seqb_spec (k +:+ "=" +:+ v2) "") as [E|_]; [by destruct k|].
  rewrite !(Cut_eq k) by done. rewrite Hn, Hd1, Hd2. by constructor.
Qed.

Lemma ParseQuery_public q1 q2 :
  same_query q1 q2 -> (ParseQuery q1).2 = (ParseQuery q2).2 /\
  Forall2 (fun a b => a.1 = b.1 /\ same_value a.1 a.2 b.2) (ParseQuery q1).1 (ParseQuery q2).1.
Proof.
  unfold same_query, ParseQuery. cbn [fst snd]. induction 1 as [|p1 p2 l1 l2 Hp _ [IH1 IH2]]; [done|]. cbn [map forallb omap list_omap].
  destruct (query_part_public _ _ Hp) as [[[[k v]|]|]|k v1 v2 Hv]; cbn [default]; rewrite ?IH1; split; try done.
  - constructor; [split; [done|by left]|done].
  - by constructor.
Qed.

Lemma VHas_public q1 q2 k : same_query q1 q2 -> VHas (ParseQuery q1).1 k = VHas (ParseQuery q2).1 k.
Proof.
  intros [_ Hf]%ParseQuery_public. unfold VHas. induction Hf as [|a b l1 l2 [Hk _] _ IH]; [done|]. cbn. by rewrite Hk, IH.
Qed.

Lemma VGet_public q1 q2 k : same_query q1 q2 -> same_value k (VGet (ParseQuery q1).1 k) (VGet (ParseQuery q2).1 k).
Proof.
  intros [_ Hf]%ParseQuery_public. induction Hf as [|[k1 v1] [k2 v2] l1 l2 [Hk Hv] _ IH]; [by left|]. cbn in *. subst k2.
  destruct (seqb_spec k1 k) as [->|_]; done.
Qed.

Lemma VGet_same q1 q2 k :
  same_query q1 q2 -> k ∉ [token_header; "X-Amz-Signature"] -> VGet (ParseQuery q1).1 k = VGet (ParseQuery q2).1 k.
Proof. intros Hq Hk. destruct (VGet_public _ _ k Hq) as [?|[->|[-> _]]]; [done|set_solver..]. Qed.

(** Canonicalising fails on both alike. *)
Lemma query_pairs_public l1 l2 sk :
  Forall2 same_part l1 l2 ->
  match query_pairs l1 sk, query_pairs l2 sk with Ok _, Ok _ => True | Err e1, Err e2 => e1 = e2 | _, _ => False end.
Proof.
  induction 1 as [|p1 p2 l1 l2 Hp _ IH]; [done|]. destruct Hp as [p|k name v1 v2 d1 d2 Hk _ _ Hn Hd1 Hd2 _ _]; cbn [query_pairs].
  - destruct (p =s ""); [done|]. destruct (Cut "=" p) as [[k v] f]. destruct (PathUnescape k); [|done].
    destruct (PathUnescape v); [|done]. destruct (query_pairs l1 sk), (query_pairs l2 sk); cbn [res_bind]; try done; by destruct (_ && _).
  - destruct (seqb_spec (k +:+ "=" +:+ v1) "") as [E|_]; [by destruct k|]. destruct (seqb_spec (k +:+ "=" +:+ v2) "") as [E|_]; [by destruct k|].
    rewrite !(Cut_eq k) by done. unfold PathUnescape.
    destruct (unescape_both _ false _ _ Hn) as [? ->], (unescape_both _ false _ _ Hd1) as [? ->], (unescape_both _ false _ _ Hd2) as [? ->].
    destruct (query_pairs l1 sk), (query_pairs l2 sk); cbn [res_bind]; try done; by destruct (_ && _).
Qed.

Lemma same_query_empty q1 q2 : same_query q1 q2 -> q1 = "" <-> q2 = "".
Proof.
  assert (forall a b, same_query a b -> a = "" -> b = "") as Hx.
  { intros a b Hq ->. unfold same_query in Hq. cbn in Hq. inversion Hq as [|x y l l' Hp Hl E1 E2]; subst. inversion Hl; subst.
    pose proof (Join_Split "&" b) as Hj. rewrite <- E2 in Hj. cbn in Hj. subst b.
    inversion Hp as [|k name v1 v2 d1 d2 _ _ _ _ _ _ _ _ E]; [done|]. by destruct k. }
  intros Hq. split; [by apply Hx|]. apply Hx. unfold same_query in *. clear Hx. induction Hq as [|x y l l' Hp _ IH]; constructor; [|done].
  destruct Hp as [|k name v1 v2 d1 d2 ? ? ? ? ? ? ? Hv]; [constructor|]. eapply same_secret; try done.
  destruct Hv as [->|[->|(-> & ? & ?)]]; [by left|right; by left|right; by right].
Qed.

Lemma canonicalQuery_public q1 q2 sk :
  same_query q1 q2 ->
  match canonicalQuery q1 sk, canonicalQuery q2 sk with Ok _, Ok _ => True | Err e1, Err e2 => e1 = e2 | _, _ => False end.
Proof.
  intros Hq. pose proof (same_query_empty _ _ Hq) as He. unfold canonicalQuery.
  destruct (seqb_spec q1 "") as [E1|E1], (seqb_spec q2 "") as [E2|E2]; [done|tauto|tauto|].
  pose proof (query_pairs_public _ _ sk Hq) as Hp. by destruct (query_pairs (Split "&" q1) sk), (query_pairs (Split "&" q2) sk).
Qed.

(** Stripping removes the secrets. *)
Lemma Strip_public r1 r2 : same_url (RURL r1) (RURL r2) -> RURL (StripPresignedQuery r1) = RURL (StripPresignedQuery r2).
Proof.
  intros [Hu Hq]. pose proof (same_query_empty _ _ Hq) as He. unfold StripPresignedQuery.
  assert (forall q, with_raw_query (RURL r1) q = with_raw_query (RURL r2) q) as Hw.
  { intros q. unfold with_raw_query in *. by injection Hu as -> -> -> ->. }
  destruct (seqb_spec (RawQuery (RURL r1)) "") as [E1|E1], (seqb_spec (RawQuery (RURL r2)) "") as [E2|E2]; [|tauto|tauto|].
  - specialize (Hw ""). rewrite <- E1 in Hw at 1. rewrite <- E2 in Hw. by destruct (RURL r1), (RURL r2).
  - cbn [RURL with_url]. rewrite Hw. do 2 f_equal. unfold same_query in Hq. clear -Hq. induction Hq as [|p1 p2 l1 l2 Hp _ IH]; [done|].
    cbn [List.filter]. rewrite IH. destruct Hp as [|k name v1 v2 d1 d2 Hk _ _ Hn _ _ Hin _]; [done|].
    assert (forall v, keep_part (k +:+ "=" +:+ v) = false) as Hd; [|by rewrite !Hd].
    intros v. unfold keep_part. destruct (_ =s ""); [done|]. rewrite (Cut_eq k) by done. rewrite Hn.
    apply elem_of_cons in Hin as [->|Hin]; [done|]. by apply list_elem_of_singleton in Hin as ->.
Qed.

(** *** Requests that differ in secrets *)

Lemma same_public_fields r1 r2 :
  same_public r1 r2 -> Method r1 = Method r2 /\ Path (RURL r1) = Path (RURL r2) /\ Body r1 = Body r2.
Proof. destruct r1 as [? []], r2 as [? []]. unfold same_url, with_raw_query, blank. intros [Hr [Hu _] _]. cbn in *. by simplify_eq. Qed.

Lemma same_public_lookup r1 r2 k :
  same_public r1 r2 -> k <> token_header -> k <> "Authorization" -> RHeader r1 !! k = RHeader r2 !! k.
Proof.
  intros [E _ _] H1 H2. apply (f_equal (fun r => RHeader r !! k)) in E. cbn in E. unfold HDel in E.
  rewrite !lookup_delete_ne in E by done. exact E.
Qed.

Lemma same_public_get r1 r2 k :
  same_public r1 r2 -> CanonicalKey k <> token_header -> CanonicalKey k <> "Authorization" ->
  HGet (RHeader r1) k = HGet (RHeader r2) k.
Proof. intros Hr H1 H2. unfold HGet. by rewrite (same_public_lookup r1 r2). Qed.

(** Whether a request asks for an upgrade the proxy cannot make, and the path
    of what it sends, are in its URL and its other headers. *)
Lemma proxy_path_public (s1 s2 : Server) r1 r2 :
  target s1 = target s2 -> same_url (RURL r1) (RURL r2) -> (forall k, k ∉ identity_headers -> RHeader r1 !! k = RHeader r2 !! k) ->
  Path (RURL (default r1 (proxy_request (target s1) r1))) = Path (RURL (default r2 (proxy_request (target s2) r2))).
Proof.
  intros Ht Hu Hk. assert (upgradeType (RHeader r1) = upgradeType (RHeader r2)) as Hup.
  { unfold upgradeType, HGet. rewrite (Hk "Connection"), (Hk (CanonicalKey "Upgrade")) by (vm_compute; set_solver). done. }
  assert (forall q1 q2, Path (SetURL (target s2) (with_raw_query (RURL r1) q1)) = Path (SetURL (target s2) (with_raw_query (RURL r2) q2))
          /\ Path (RURL r1) = Path (RURL r2)) as Hp.
  { destruct Hu as [Hu _], (RURL r1), (RURL r2). unfold with_raw_query in *. cbn in Hu. simplify_eq. intros q1 q2. split; [|done].
    unfold SetURL, joinURLPath, EscapedPath. cbn. by repeat case_match; simplify_eq. }
  unfold proxy_request. rewrite Hup, Ht. destruct (negb _); cbn [default RURL]; apply Hp; exact "".
Qed.

(** Signing fails on the query alone. *)
Lemma Sign_error i :
  (Sign i).2 = match canonicalQuery (RawQuery (RURL (si_Request i))) "" with Ok _ => None | Err e => Some e end.
Proof.
  destruct (Sign_eq i) as (_ & _ & ->). assert (RURL (sign_prepared i) = RURL (si_Request i)) as <-.
  { unfold sign_prepared. by repeat case_match. }
  unfold buildCanonical. by destruct (canonicalQuery _ _).
Qed.

Lemma forward_log_public gateway (s1 s2 : Server) now r1 r2 u auth1 auth2 :
  alike s1 s2 -> same_url (RURL r1) (RURL r2) -> (forall k, k ∉ identity_headers -> RHeader r1 !! k = RHeader r2 !! k) ->
  upstream_error gateway s1 (applyIdentity s1 now r1 u auth1) = upstream_error gateway s2 (applyIdentity s2 now r2 u auth2) ->
  forward_log gateway s1 now r1 u auth1 = forward_log gateway s2 now r2 u auth2.
Proof.
  intros [Hc Ht _ _ _] Hu Hk Ho. unfold forward_log. f_equal.
  - unfold applyIdentity_log, ApplyResign, upstreamHost, region. rewrite !Sign_error. cbn. rewrite Hc.
    pose proof (canonicalQuery_public _ _ "" (proj2 Hu)) as Hq. repeat case_match; by simplify_eq.
  - unfold proxy_log. rewrite Ho.
    destruct (applyIdentity_edits s1 now r1 u auth1) as [Hu1 Hk1], (applyIdentity_edits s2 now r2 u auth2) as [Hu2 Hk2].
    rewrite (proxy_path_public s1 s2 (applyIdentity s1 now r1 u auth1) (applyIdentity s2 now r2 u auth2)); [done|done|by rewrite Hu1, Hu2|].
    intros k Hn. rewrite Hk1, Hk2 by done. by apply Hk.
Qed.

Lemma same_public_other r1 r2 : same_public r1 r2 -> forall k, k ∉ identity_headers -> RHeader r1 !! k = RHeader r2 !! k.
Proof. intros Hr k Hk. apply same_public_lookup; [done|set_solver..]. Qed.

(** The verdict on a signature depends on the secrets only by whether it is
    the expected one. *)
Lemma Verify_public i1 i2 e1 e2 :
  same_public (in_Request i1) (in_Request i2) -> unsigned (in_Auth i1) = unsigned (in_Auth i2) -> in_Region i1 = in_Region i2 ->
  in_Service i1 = in_Service i2 -> in_Now i1 = in_Now i2 -> in_ClockSkew i1 = in_ClockSkew i2 ->
  Verify i1 = Some e1 -> Verify i2 = Some e2 -> e1 = e2.
Proof.
  intros Hr [= _ Hd Hre Hse Hsh] Hg Hs Hn Hk. unfold Verify, canonicalRequest, buildCanonical.
  rewrite (same_public_get _ _ "X-Amz-Date" Hr), Hd, Hre, Hse, Hsh, Hg, Hs, Hn, Hk by done.
  pose proof (canonicalQuery_public _ _ "" (proj2 (sp_url _ _ Hr))) as Hq.
  destruct (canonicalQuery _ _), (canonicalQuery _ _); cbn [res_bind]; try done; repeat case_match; congruence.
Qed.

(** A presigned URL without its signature and session token. *)
Definition p_public (p : Presigned) : Authorization * string * Duration := (unsigned (p_Authorization p), p_AmzDate p, p_Expires p).

Lemma VerifyPresigned_public i1 i2 e1 e2 :
  same_url (RURL (pi_Request i1)) (RURL (pi_Request i2)) -> p_public (pi_Auth i1) = p_public (pi_Auth i2) -> pi_Region i1 = pi_Region i2 ->
  pi_Service i1 = pi_Service i2 -> pi_Now i1 = pi_Now i2 -> pi_ClockSkew i1 = pi_ClockSkew i2 ->
  VerifyPresigned i1 = Some e1 -> VerifyPresigned i2 = Some e2 -> e1 = e2.
Proof.
  intros Hr [= _ Hd Hre Hse Hsh Hamz Hexp] Hg Hs Hn Hk. unfold VerifyPresigned, buildCanonical.
  rewrite Hd, Hre, Hse, Hsh, Hamz, Hexp, Hg, Hs, Hn, Hk.
  pose proof (canonicalQuery_public _ _ "X-Amz-Signature" (proj2 Hr)) as Hq.
  destruct (canonicalQuery _ _), (canonicalQuery _ _); cbn [res_bind]; try done; repeat case_match; congruence.
Qed.

Lemma setSignature_public a d1 d2 :
  same_value "X-Amz-Signature" d1 d2 ->
  match setSignature a d1, setSignature a d2 with
  | Ok a1, Ok a2 => unsigned a1 = unsigned a2
  | Err e1, Err e2 => e1 = e2
  | _, _ => False
  end.
Proof.
  intros [->|[?|(_ & H1 & H2)]]; [by destruct (setSignature a d2)|done|]. unfold signature_text, setSignature in *.
  apply andb_true_iff in H1 as [-> ->], H2 as [-> ->]. done.
Qed.

Lemma ParsePresigned_public r1 r2 :
  same_url (RURL r1) (RURL r2) ->
  match ParsePresigned r1, ParsePresigned r2 with
  | Ok p1, Ok p2 => p_public p1 = p_public p2
  | Err e1, Err e2 => e1 = e2
  | _, _ => False
  end.
Proof.
  intros [_ Hq]. unfold ParsePresigned, Query.
  rewrite !(VGet_same _ _ "X-Amz-Algorithm" Hq), !(VGet_same _ _ "X-Amz-Date" Hq), !(VGet_same _ _ "X-Amz-Credential" Hq),
    !(VGet_same _ _ "X-Amz-SignedHeaders" Hq), !(VGet_same _ _ "X-Amz-Expires" Hq) by set_solver.
  destruct (_ <>s Algorithm); [done|]. destruct (setCredential _ _) as [a1|]; [|done]. cbn [res_bind].
  destruct (setSignedHeaders a1 _) as [a2|]; [|done]. cbn [res_bind].
  pose proof (setSignature_public a2 _ _ (VGet_public _ _ "X-Amz-Signature" Hq)) as Hs.
  destruct (setSignature a2 (VGet (ParseQuery (RawQuery (RURL r1))).1 "X-Amz-Signature")) as [b1|e1],
    (setSignature a2 (VGet (ParseQuery (RawQuery (RURL r2))).1 "X-Amz-Signature")) as [b2|e2]; try done; cbn [res_bind].
  destruct (negb _); [done|]. destruct (Atoi _) as [n|]; [|done]. destruct (n <=? 0)%Z; [done|]. destruct (maxPresignExpires <? n)%Z; [done|].
  unfold p_public. cbn. by rewrite Hs.
Qed.

(** A refusal over the session token is not answered like one over the
    signature. *)
Lemma bad_token_unlike st msg resource reqID rj resource' reqID' e :
  rj = sigv4_rejection e \/ rj = presigned_rejection e ->
  Write st (rj_code bad_token) msg resource reqID <> Write (rj_status rj) (rj_code rj) (rj_message rj) resource' reqID'.
Proof.
  intros Hrj E. apply (f_equal (fun r => String.get 55 (body r))) in E. revert E.
  destruct Hrj as [->| ->]; destruct e as [k m]; destruct k; lazy; discriminate.
Qed.

(** Lookups in two servers that differ in secrets, as one relation. *)
Inductive lookups_agree : res rejection Credentials -> res rejection Credentials -> Prop :=
| both_refused rj : lookups_agree (Err rj) (Err rj)
| both_found c1 c2 : redact c1 = redact c2 -> lookups_agree (Ok c1) (Ok c2)
| found_left c : lookups_agree (Ok c) (Err bad_token)
| found_right c : lookups_agree (Err bad_token) (Ok c).

Lemma lookup_public (s1 s2 : Server) now akid tok1 tok2 :
  alike s1 s2 -> lookups_agree (lookup_credentials now akid tok1 s1).2 (lookup_credentials now akid tok2 s2).2.
Proof.
  intros [_ _ _ Hs _]. specialize (Hs (now 0) akid). unfold lookup_credentials.
  destruct (Get _ _ (store s1)) as [st1 [[c1|]|e1]], (Get _ _ (store s2)) as [st2 [[c2|]|e2]]; try done; try constructor.
  cbn in *. assert (redact c1 = redact c2) as Hc by congruence.
  assert (Expired c1 (now 1) = Expired c2 (now 1)) as Hx by (unfold Expired; destruct c1, c2; by injection Hc as -> -> -> ->).
  rewrite Hx. repeat case_match; by constructor.
Qed.

Lemma IsSigV4_not_bearer h : IsSigV4 h = true -> HasPrefix h "Bearer " = false.
Proof. intros [rest ->]%HasPrefix_true. done. Qed.

Lemma Strip_header r : RHeader (StripPresignedQuery r) = RHeader r.
Proof. by rewrite Strip_frame. Qed.

Lemma same_authorization_parse h1 h2 :
  same_authorization h1 h2 ->
  (exists a1 a2, ParseAuthorization h1 = Ok a1 /\ ParseAuthorization h2 = Ok a2 /\ unsigned a1 = unsigned a2) \/
  (exists e1 e2, ParseAuthorization h1 = Err e1 /\ ParseAuthorization h2 = Err e2).
Proof.
  intros [h|? ? a1 a2 _ _ H1 H2 Hu]; [destruct (ParseAuthorization h); [left|right]; by eauto|left; by exists a1, a2].
Qed.

(** One server finds the token wrong, the other goes on to the signature. *)
Ltac unlike_token :=
  let E := fresh in
  match goal with |- context [match ?v with Some _ => refuse _ _ _ _ _ | None => _ end] => destruct v as [e|] end;
  [cbn [refuse handed resp]; intros E; exfalso;
   first [exact (bad_token_unlike _ _ _ _ _ _ _ _ (or_introl eq_refl) E) | exact (bad_token_unlike _ _ _ _ _ _ _ _ (or_intror eq_refl) E)
         | exact (bad_token_unlike _ _ _ _ _ _ _ _ (or_introl eq_refl) (eq_sym E))
         | exact (bad_token_unlike _ _ _ _ _ _ _ _ (or_intror eq_refl) (eq_sym E))]
  |rewrite handed_proxy; done].

Lemma serveSigV4_log_public gateway now r1 r2 h1 h2 reqID (s1 s2 : Server) :
  alike s1 s2 -> same_public r1 r2 -> same_authorization h1 h2 ->
  same_outcome gateway s1 s2 (serveSigV4 gateway now r1 h1 reqID s1) (serveSigV4 gateway now r2 h2 reqID s2) ->
  serveSigV4_log gateway now r1 h1 reqID s1 = serveSigV4_log gateway now r2 h2 reqID s2.
Proof.
  intros Ha Hr Hh. destruct (same_public_fields _ _ Hr) as (Hm & Hu & _).
  unfold serveSigV4_log, serveSigV4, lane_attrs, same_outcome. cbn [handed resp timed]. rewrite Hm, Hu.
  destruct (same_authorization_parse _ _ Hh) as [(a1 & a2 & -> & -> & Has)|(e1 & e2 & -> & ->)]; [|done].
  assert (AccessKeyID a1 = AccessKeyID a2) as Hkey by (by injection Has). rewrite Hkey.
  pose proof (lookup_public s1 s2 now (AccessKeyID a2) (HGet (RHeader r1) token_header) (HGet (RHeader r2) token_header) Ha) as Hl.
  destruct (lookup_credentials _ _ _ s1) as [s1' o1] eqn:E1, (lookup_credentials _ _ _ s2) as [s2' o2] eqn:E2. cbn in Hl.
  apply lookup_credentials_server in E1 as [st1 ->], E2 as [st2 ->].
  change (region (with_store s1 st1)) with (region s1). change (region (with_store s2 st2)) with (region s2). cbn [cfg with_store].
  destruct Hl as [rj|c1 c2 Hc|c|c]; [done|..].
  - fold (lane_input s1 now r1 a1 c1) (lane_input s2 now r2 a2 c2). injection Hc as _ Hun His _.
    destruct (Verify (lane_input s1 now r1 a1 c1)) as [e1|] eqn:Ev1, (Verify (lane_input s2 now r2 a2 c2)) as [e2|] eqn:Ev2;
      rewrite ?handed_proxy; try done; intros Ho.
    + do 2 f_equal. f_equal. refine (Verify_public _ _ _ _ _ _ _ _ _ _ Ev1 Ev2); try done; cbn; unfold region; by destruct Ha as [-> _ _ _ _].
    + rewrite Hun, His in *. f_equal. apply forward_log_public; [done|apply Hr|by apply same_public_other|exact Ho].
  - unlike_token.
  - unlike_token.
Qed.

Lemma servePresigned_log_public gateway now r1 r2 reqID (s1 s2 : Server) :
  alike s1 s2 -> same_public r1 r2 ->
  same_outcome gateway s1 s2 (servePresigned gateway now r1 reqID s1) (servePresigned gateway now r2 reqID s2) ->
  servePresigned_log gateway now r1 reqID s1 = servePresigned_log gateway now r2 reqID s2.
Proof.
  intros Ha Hr. destruct (same_public_fields _ _ Hr) as (Hm & Hu & _).
  unfold servePresigned_log, servePresigned, lane_attrs, same_outcome. cbn [handed resp timed].
  pose proof (ParsePresigned_public r1 r2 (sp_url _ _ Hr)) as Hpp. rewrite Hm, Hu.
  destruct (ParsePresigned r1) as [a1|e1], (ParsePresigned r2) as [a2|e2]; try done; [|by subst].
  assert (AccessKeyID (p_Authorization a1) = AccessKeyID (p_Authorization a2)) as Hkey by (by injection Hpp). rewrite Hkey.
  pose proof (lookup_public s1 s2 now (AccessKeyID (p_Authorization a2)) (p_SecurityToken a1) (p_SecurityToken a2) Ha) as Hl.
  destruct (lookup_credentials _ _ _ s1) as [s1' o1] eqn:E1, (lookup_credentials _ _ _ s2) as [s2' o2] eqn:E2. cbn in Hl.
  apply lookup_credentials_server in E1 as [st1 ->], E2 as [st2 ->].
  change (region (with_store s1 st1)) with (region s1). change (region (with_store s2 st2)) with (region s2). cbn [cfg with_store].
  destruct Hl as [rj|c1 c2 Hc|c|c]; [done|..].
  - fold (presign_input s1 now r1 a1 c1) (presign_input s2 now r2 a2 c2). injection Hc as _ Hun His _.
    destruct (VerifyPresigned (presign_input s1 now r1 a1 c1)) as [e1|] eqn:Ev1,
      (VerifyPresigned (presign_input s2 now r2 a2 c2)) as [e2|] eqn:Ev2; rewrite ?handed_proxy; try done; intros Ho.
    + do 2 f_equal. f_equal.
      refine (VerifyPresigned_public _ _ _ _ _ _ _ _ _ _ Ev1 Ev2); try done; [by apply Hr|..]; cbn; unfold region; by destruct Ha as [-> _ _ _ _].
    + rewrite Hun, His in *. f_equal. apply forward_log_public; [done| | |exact Ho].
      * rewrite (Strip_public r1 r2) by apply Hr. apply same_url_refl.
      * intros k Hk. rewrite !Strip_header. by apply same_public_other.
  - unlike_token.
  - unlike_token.
Qed.

(** Minting from such sources gives the same record but for its secrets. *)
Lemma Mint_public rand1 rand2 u iss t :
  same_but_minted rand1 rand2 ->
  match Mint (later_rand 1 rand1) 1 u iss t, Mint (later_rand 1 rand2) 1 u iss t with
  | Ok c1, Ok c2 => redact c1 = redact c2
  | Err e1, Err e2 => e1 = e2
  | _, _ => False
  end.
Proof.
  intros [Hp Ha]. unfold Mint, later_rand, randCrockford, randBase64URL. cbn [Nat.add].
  rewrite (Hp 2 16) by lia. pose proof (Ha 3 30) as H3. pose proof (Ha 4 32) as H4.
  destruct (rand2 2 16); [|done]. cbn. rewrite !is_Some_alt in *.
  destruct (rand1 3 30), (rand2 3 30); cbn; try tauto. destruct (rand1 4 32), (rand2 4 32); cbn; (done || tauto).
Qed.

Lemma read_params_public cfg r1 r2 : same_public r1 r2 -> read_params cfg r1 = read_params cfg r2.
Proof.
  intros Hr. destruct (same_public_fields _ _ Hr) as (Hm & Hu & Hb).
  unfold read_params, ParseForm.
  by rewrite (same_public_get _ _ "Content-Type" Hr), Hm, (proj1 (ParseQuery_public _ _ (proj2 (sp_url _ _ Hr)))), Hb by done.
Qed.

Lemma ServeHTTP_log_public cfg now rand1 rand2 r1 r2 (s1 s2 : Server) :
  alike s1 s2 -> same_public r1 r2 -> same_but_minted rand1 rand2 ->
  ServeHTTP_log cfg now (later_rand 1 rand1) r1 (validator s1) (store s1) =
  ServeHTTP_log cfg now (later_rand 1 rand2) r2 (validator s2) (store s2).
Proof.
  intros Ha Hr Hm. pose proof (sm_public _ _ Hm 1 16 ltac:(lia)) as Hid. unfold ServeHTTP_log.
  change (later_rand 1 rand1 0 16) with (rand1 1 16). change (later_rand 1 rand2 0 16) with (rand2 1 16).
  rewrite (read_params_public _ _ _ Hr), Hid, (alike_validator _ _ Ha). destruct (read_params cfg r2) as [p|]; [|done].
  destruct (Validate _ _ _) as [v [id|]]; [|done]. destruct (_ <=? 0)%Z; [done|].
  pose proof (Mint_public rand1 rand2 (id_Username id) (id_IssuerName id)
    (Add (now 3) (effective_ttl (id_Expiry id) (now 3) (MaxDuration cfg) (requested p))) Hm) as Hc.
  destruct (Mint (later_rand 1 rand1) _ _ _ _) as [c1|], (Mint (later_rand 1 rand2) _ _ _ _) as [c2|]; try done; [|by subst].
  rewrite (alike_put _ _ Ha (now 4) c1 c2 Hc). destruct (Put _ c2 _).2; [done|]. by injection Hc as -> _ _ ->.
Qed.

Lemma with_body_public r1 r2 b : same_public r1 r2 -> same_public (with_body r1 b) (with_body r2 b).
Proof.
  intros [E Hu Hh]. split; [|done|done]. unfold blank, with_body in *. destruct r1, r2. cbn in *.
  injection E as -> -> E -> _ -> ->. by rewrite E.
Qed.

Lemma serveBearer_log_public gateway now r1 r2 tok reqID (s1 s2 : Server) :
  alike s1 s2 -> same_public r1 r2 ->
  same_outcome gateway s1 s2 (serveBearer gateway now r1 tok reqID s1) (serveBearer gateway now r2 tok reqID s2) ->
  serveBearer_log gateway now r1 tok reqID s1 = serveBearer_log gateway now r2 tok reqID s2.
Proof.
  intros Ha Hr. destruct (same_public_fields _ _ Hr) as (Hm & Hu & _). unfold serveBearer_log, serveBearer, lane_attrs, same_outcome.
  cbn [handed resp timed]. rewrite Hm, Hu, (alike_cfg _ _ Ha), (alike_validator _ _ Ha). destruct (negb _); [done|].
  destruct (Validate _ _ _) as [v [id|e]]; [|done]. rewrite !handed_proxy. intros Ho.
  f_equal. apply forward_log_public; [done|apply Hr|by apply same_public_other|exact Ho].
Qed.

Lemma serveUnauthenticated_log_public gateway r1 r2 reqID (s1 s2 : Server) :
  StrictEnabled (cfg_DataPath (cfg s1)) = true -> alike s1 s2 -> same_public r1 r2 ->
  serveUnauthenticated_log gateway r1 reqID s1 = serveUnauthenticated_log gateway r2 reqID s2.
Proof.
  intros Hs Ha Hr. destruct (same_public_fields _ _ Hr) as (Hm & Hu & _).
  unfold serveUnauthenticated_log, lane_attrs, IsSigV2Query, Query.
  by rewrite <- (alike_cfg _ _ Ha), Hs, Hm, Hu, !(VHas_public _ _ _ (proj2 (sp_url _ _ Hr))).
Qed.

End Secrecy.

(** ** Properties *)

Section LogProperties.
Context `{GoLib} {V S : Type} `{TokenValidator V} `{!Store S} `{!ErrorTexts V}.
Abbreviation Server := (@Server V S).

(** An exchange that is refused before its token is looked at (a role outside
    the allowlist is answered AccessDenied) leaves no record, nor does one
    whose token has no life left. *)
Lemma early_refusals_unlogged cfg now rand r (v : V) (s : S) :
  let o := ServeHTTP cfg now rand r v s in
  (forall rf, read_params cfg r = Err rf ->
     ServeHTTP_log cfg now rand r v s = [] /\ o_response o = writeError (rf_status rf) (rf_code rf) (rf_message rf) (Sts.newRequestID (rand 0 16))) /\
  (forall p v' id, read_params cfg r = Ok p -> Validate now (token p) v = (v', Ok id) ->
     (effective_ttl (id_Expiry id) (now 3%nat) (MaxDuration cfg) (requested p) <= 0)%Z ->
     ServeHTTP_log cfg now rand r v s = [] /\ res_Code (o_result o) = codeExpiredToken).
Proof.
  cbv zeta. unfold ServeHTTP_log, ServeHTTP. split; [by intros rf ->|].
  intros p v' id -> -> Ht. destruct (Z.leb_spec (effective_ttl (id_Expiry id) (now 3) (MaxDuration cfg) (requested p)) 0); [done|lia].
Qed.

(** C38: The log is the audit trail (strict mode).  A data-path request leaves
    a record with its request ID, method and path.  If the request was handed
    to the gateway, the record names the user that authenticated and whose
    identity was injected, and whatever else is logged is a warning or an
    error without a user; if it was refused, it is the only record, names no
    user, and carries the code answered, except for three refusals whose record
    has no code but whose message has one answer (the bearer lane is disabled,
    the query is signed with SigV2, strict mode and nothing presented).  An
    exchange is answered with 200 exactly when one record of success was
    written, with the user, issuer, access key, role and expiry of the record
    stored; else no record names a user. *)
Theorem audit_trail gateway now rand r (s : Server) :
  StrictEnabled (cfg_DataPath (cfg s)) = true ->
  let p := serve gateway now rand r s in
  let log := serve_log gateway now rand r s in
  (isSTSRequest r = false -> lane_audited s (later 1 now) (newRequestID (rand 0 12)) r log p) /\
  (isSTSRequest r = true ->
     (status (resp p) = 200%Z /\ exists pr id c e, log = [e] /\ exchange_entry pr id c e /\
        Validate (later 1 now) (token pr) (validator s) = (validator (after p), Ok id) /\
        Put (now 5%nat) c (store s) = (store (after p), None)) \/
     (status (resp p) <> 200%Z /\ Forall (fun e => attr e "username" = None) log)).
Proof.
  intros Hs. cbv zeta. split; [intros; by apply serve_audited|]. intros Hsts. unfold serve_log, serve, serveSTS. rewrite Hsts.
  cbn [resp timed after].
  match goal with |- context [ServeHTTP ?a ?b ?c ?d ?e ?f] => pose proof (exchange_audited a b c d e f) as Hx; cbv zeta in Hx;
    set (o := ServeHTTP a b c d e f) in * end.
  destruct Hx as [(pr & id & c & e & [_ Ht _ _ Hput Hr _] & Hl & He)|[Hst Hf]]; [left|by right].
  rewrite Hr. split; [done|]. by exists pr, id, c, e.
Qed.

(** C17: The log keeps the secrets (strict mode).  Run the proxy twice, with
    servers that differ at most in the secret keys and session tokens of their
    records, on requests that differ at most in the session token and signature
    they present, be it in the headers or as X-Amz-Security-Token and
    X-Amz-Signature in the URL, with random sources that differ at most in the
    buffers secrets are minted from.  If the two runs look the same from outside
    (for an exchange, even if they do not), the two logs are the same, record
    for record. *)
Theorem log_keeps_secrets gateway now rand1 rand2 r1 r2 (s1 s2 : Server) :
  StrictEnabled (cfg_DataPath (cfg s1)) = true ->
  alike s1 s2 -> same_public r1 r2 -> same_but_minted rand1 rand2 ->
  (isSTSRequest r1 = false -> same_outcome gateway s1 s2 (serve gateway now rand1 r1 s1) (serve gateway now rand2 r2 s2)) ->
  serve_log gateway now rand1 r1 s1 = serve_log gateway now rand2 r2 s2.
Proof.
  intros Hs Ha Hr Hm. destruct (same_public_fields _ _ Hr) as (Hme & Hu & Hb).
  unfold serve_log, serve, isSTSRequest. rewrite (sm_public _ _ Hm 0 12 ltac:(lia)), <- Hme, <- Hu, <- Hb.
  rewrite (same_public_get _ _ "Content-Type" Hr) by done.
  match goal with |- context [if ?b then false else ?c] => destruct (if b then false else c) end; intros Ho.
  { rewrite (alike_cfg _ _ Ha). apply ServeHTTP_log_public; [done| |done]. by apply with_body_public. }
  specialize (Ho eq_refl). pose proof (sp_auth _ _ Hr) as Hh. revert Ho.
  set (h1 := HGet (RHeader r1) "Authorization") in *. set (h2 := HGet (RHeader r2) "Authorization") in *.
  assert (IsSigV4 h1 = IsSigV4 h2 /\ (IsSigV4 h1 = false -> h1 = h2)) as [H4 Hsame] by (destruct Hh; split; congruence).
  destruct (IsSigV4 h1) eqn:E1; rewrite <- H4.
  { rewrite (IsSigV4_not_bearer h1), (IsSigV4_not_bearer h2) by done. by apply serveSigV4_log_public. }
  rewrite <- Hsame by done. destruct (HasPrefix h1 "Bearer "); [by apply serveBearer_log_public|].
  unfold IsPresigned, Query. rewrite !(VHas_public _ _ _ (proj2 (sp_url _ _ Hr))). destruct (_ && _); [by apply servePresigned_log_public|].
  intros _. by apply serveUnauthenticated_log_public.
Qed.

End LogProperties.

(** ** Concrete runs *)

Module DemoLogs.
Export DemoServer.

#[export] Instance texts : ErrorTexts Validator := {|
  validate_text _ _ _ := "token rejected";
  transport_text _ := "connection refused";
  outbound_text _ := "invalid upgrade";
  entropy_text := "no entropy"
|}.

(** The server and the signed request of [DemoServer], with other secrets. *)
Definition record' : Credentials :=
  mkCredentials "OZPX0000000000000000" "another secret" "another token" "alice" "kc" (2000 * Second)%Z.

Definition server' : Server := with_store server (Memory.Put record' Memory.NewMemory).

Definition signed' : Request := Eval vm_compute in
  (Sign (mkSignInput (get {[ "X-Amz-Security-Token" := ["another token"] ]})
           (cr_AccessKeyID record') (cr_SecretAccessKey record') "us-east-1" "s3" "" (1000 * Second)%Z)).1.

Lemma servers_alike : alike server server'.
Proof.
  split; try reflexivity. intros t k. cbn [Get memory_store server server' store with_store snd redact_lookup].
  unfold Memory.Get, Memory.Put. cbn [Memory.creds Memory.with_creds Memory.NewMemory].
  rewrite <- !lookup_fmap. by rewrite !fmap_insert, fmap_empty.
Qed.

Lemma requests_alike : same_public signed signed'.
Proof.
  split; [vm_compute; reflexivity|apply same_url_refl|].
  pose (parsed r := match ParseAuthorization (HGet (RHeader r) "Authorization") with Ok a => a | Err _ => empty_auth end).
  apply (same_unsigned _ _ (parsed signed) (parsed signed')); vm_compute; reflexivity.
Qed.

(** Two presigned URLs of different secrets. *)
Definition presigned_url (tok sig : string) : URL :=
  mkURL "" "" "/bucket/key" "" ("X-Amz-Algorithm=AWS4-HMAC-SHA256&X-Amz-Security-Token=" +:+ tok +:+ "&X-Amz-Signature=" +:+ sig).

Example presigned_alike :
  same_url (presigned_url "tok" SamplePresigned.signature)
    (presigned_url "another+tok" "0000000000000000000000000000000000000000000000000000000000000000").
Proof.
  split; [reflexivity|]. unfold same_query. change (Split "&" _) with
    ["X-Amz-Algorithm=AWS4-HMAC-SHA256"; "X-Amz-Security-Token=tok"; "X-Amz-Signature=" +:+ SamplePresigned.signature] at 1.
  change (Split "&" (RawQuery (presigned_url "another+tok" _))) with
    ["X-Amz-Algorithm=AWS4-HMAC-SHA256"; "X-Amz-Security-Token=another+tok"; "X-Amz-Signature=" +:+ "0000000000000000000000000000000000000000000000000000000000000000"].
  constructor; [constructor|]. constructor; [|constructor; [|constructor]].
  - apply (same_secret "X-Amz-Security-Token" "X-Amz-Security-Token" "tok" "another+tok" "tok" "another tok"); try reflexivity; [set_solver|right; by left].
  - eapply (same_secret "X-Amz-Signature" "X-Amz-Signature"); try reflexivity; [set_solver|]. right. right. by split_and!.
Qed.

End DemoLogs.

Section Witnesses.
Import DemoLogs.

Lemma audit_trail_witness :
  StrictEnabled (cfg_DataPath (cfg server)) = true /\
  (exists e rest, serve_log gateway now zero_entropy signed server = e :: rest /\ attr e "username" = Some "alice") /\
  lane_audited server (later 1 now) (newRequestID (zero_entropy 0 12)) signed
    (serve_log gateway now zero_entropy signed server) (serve gateway now zero_entropy signed server).
Proof.
  split; [reflexivity|]. split; [do 2 eexists; split; vm_compute; reflexivity|].
  exact (proj1 (audit_trail gateway now zero_entropy signed server eq_refl) ltac:(vm_compute; reflexivity)).
Defined.

Lemma log_keeps_secrets_witness :
  handed (serve gateway now zero_entropy signed server) <> None /\
  handed (serve gateway now zero_entropy signed' server') <> None /\
  HGet (RHeader signed) "Authorization" <> HGet (RHeader signed') "Authorization" /\
  serve_log gateway now zero_entropy signed server = serve_log gateway now zero_entropy signed' server'.
Proof.
  split; [apply served_forwards|]. split; [apply some_not_none; vm_compute; reflexivity|]. split; [vm_compute; discriminate|].
  apply log_keeps_secrets; [reflexivity|apply servers_alike|apply requests_alike|done|].
  intros _. vm_compute. reflexivity.
Defined.

End Witnesses.
