(* ===== verification/Admin.v ===== *)
(** * Package server: the admin listener

    Models [AdminHandler] of internal/server/server.go: the routes of the admin
    mux in front of the health, readiness, metrics and revocation handlers of
    [Server].  The page promhttp renders is an argument, given the counters
    and the gauges of one scrape. *)

From Stdlib Require Import Ascii String ZArith NArith Bool Lia.
From stdpp Require Import base tactics list strings gmap.
From S2P Require Import Prelude GoStrings GoTime GoHttp GoMux S3err Sigv4 Presign Store.
From S2P Require Import Forward Config Oidc Sts Metrics Server Lanes.

Inductive admin_endpoint := Healthz | Readyz | MetricsPage | Revoke.

#[export] Instance admin_endpoint_eq_dec : EqDecision admin_endpoint.
Proof. solve_decision. Defined.

(** The patterns [AdminHandler] registers. *)
Definition admin_table : table (A := admin_endpoint) :=
  [(mkPattern "" [Lit "healthz"], Healthz); (mkPattern "" [Lit "readyz"], Readyz);
   (mkPattern "" [Lit "metrics"], MetricsPage); (mkPattern "DELETE" [Lit "credentials"; Wild], Revoke)].

Section Admin.
Context `{GoLib} {V S : Type} `{TokenValidator V} `{!Store S}.

Definition AdminHandler (page : metrics -> list (string * Z) -> Response) (now : Clock) (r : Request)
    (s : Server (V := V) (S := S)) : Server * answer :=
  match mux_route admin_table r with
  | Handle Healthz _ => (s, Replied healthz)
  | Handle Readyz _ => (s, Replied (readyz (now 0) s))
  | Handle MetricsPage _ => (s, Replied (page (srv_metrics s) (Collect (now 0) (store s))))
  | Handle Revoke akid =>
      let '(s', resp) := handleRevoke now (default "" (head akid)) s in (s', Replied resp)
  | Redirect to => (s, Redirected to)
  | MethodNotAllowed _ => (s, Replied (http_Error "Method Not Allowed" 405))
  | NoRoute => (s, Replied (http_Error "404 page not found" 404))
  | BadRequest => (s, Replied (mkResponse 400 "" ""))
  end.

End Admin.

(** ** The routes *)

(** The URL under which a credential is revoked. *)
Definition revocation_path (akid : string) : string := path_of ["credentials"; akid].

Lemma admin_revoke_route r ms :
  mux_route admin_table r = Handle Revoke ms <->
  RequestURI r <> "*" /\ Method r = "DELETE" /\ cleanPath (EscapedPath (RURL r)) = EscapedPath (RURL r) /\
  exists akid, ms = [akid] /\ akid <> "/" /\ path_segments (EscapedPath (RURL r)) = ["credentials"; akid].
Proof.
  split.
  - intros Hr. apply mux_route_Handle in Hr as (Hstar & Hclean & p & Hin & Hm & Hp); [|done].
    cbn in Hin. destruct Hin as [E|[E|[E|[E|[]]]]]; try discriminate E; injection E as <-.
    destruct Hm as [Hm|[Hm|[Hm _]]]; [|discriminate Hm..]. cbn [pat_method] in Hm.
    split_and!; [done|done|apply Hclean; rewrite <- Hm; discriminate|].
    cbn [pat_segments] in Hp. destruct (path_segments _) as [|a segs]; [discriminate Hp|]. cbn [pat_match] in Hp.
    destruct (seqb_spec "credentials" a) as [<-|]; [|discriminate Hp].
    destruct segs as [|b segs]; [discriminate Hp|].
    destruct (seqb_spec b "/") as [|Hb]; [discriminate Hp|]. destruct segs; [|discriminate Hp].
    injection Hp as <-. eauto.
  - intros (Hstar & Hm & Hclean & akid & -> & Hne & Hs).
    destruct (mux_route_exact admin_table r (mkPattern "DELETE" [Lit "credentials"; Wild]) Revoke [akid])
      as (p' & h' & ms & Hr & Hin & Hm' & Hp'); try done.
    + cbn. tauto.
    + rewrite Hs. cbn [pat_segments pat_match]. by rewrite seqb_refl, (proj2 (String.eqb_neq _ _) Hne).
    + rewrite Hr. cbn in Hin. destruct Hin as [E|[E|[E|[E|[]]]]]; injection E as <- <-;
        cbn [pat_method] in Hm'; try congruence.
      rewrite Hs in Hp'. cbn [pat_segments pat_match] in Hp'. rewrite seqb_refl in Hp'. rewrite (proj2 (String.eqb_neq _ _) Hne) in Hp'. by injection Hp' as <-.
Qed.

(** An access key ID in the minted shape is a plain path element. *)
Lemma akid_bytes k : sall is_crockford k = true -> sall (fun c => is_upper c || is_digit c) k = true.
Proof.
  apply sall_impl. intros c. assert (implb (is_crockford c) (is_upper c || is_digit c) = true) as Hb by by_bytes c.
  intros Hc. by rewrite Hc in Hb.
Qed.

Lemma unescape_plain k : sall (fun c => is_upper c || is_digit c) k = true -> unescape false k = Some k.
Proof.
  induction k as [|c k IH]; [done|]. cbn [sall unescape]. intros [Hc Hk]%andb_true_iff.
  assert (implb (is_upper c || is_digit c) (negb (Ascii.eqb c "%")) = true) as Hb by by_bytes c.
  rewrite Hc in Hb. cbn [implb] in Hb. rewrite negb_true_iff in Hb. rewrite Hb. cbn [andb]. by rewrite IH.
Qed.

Lemma minted_path_element k :
  sall is_crockford k = true ->
  plain_elem (akidPrefix +:+ k) = true /\ pathUnescape (akidPrefix +:+ k) = akidPrefix +:+ k.
Proof.
  intros Hk. apply akid_bytes in Hk. split.
  - unfold plain_elem. rewrite sfree_app. change (sfree "/" akidPrefix) with true.
    rewrite (sall_sfree (fun c => is_upper c || is_digit c)) by done. done.
  - unfold pathUnescape, PathUnescape. rewrite unescape_plain; [done|]. rewrite sall_app, Hk. done.
Qed.

Section Properties.
Context `{GoLib} {V S : Type} `{TokenValidator V} `{!Store S}.

Lemma AdminHandler_revoke page now r (s : @Server V S) akid :
  mux_route admin_table r = Handle Revoke [akid] ->
  AdminHandler page now r s = ((handleRevoke now akid s).1, Replied (handleRevoke now akid s).2).
Proof.
  intros Er. unfold AdminHandler. rewrite Er. change (default "" (head [akid])) with akid.
  by destruct (handleRevoke now akid s).
Qed.

Lemma AdminHandler_cases page now r (s : @Server V S) :
  (AdminHandler page now r s).1 = s \/
  exists akid, mux_route admin_table r = Handle Revoke [akid] /\
    AdminHandler page now r s = ((handleRevoke now akid s).1, Replied (handleRevoke now akid s).2).
Proof.
  destruct (mux_route admin_table r) as [h ms| | | |] eqn:Er;
    [|left; unfold AdminHandler; by rewrite Er..].
  destruct h; [left; unfold AdminHandler; by rewrite Er..|].
  pose proof Er as Er'. apply admin_revoke_route in Er' as (_ & _ & _ & akid & -> & _).
  right. exists akid. split; [done|]. by apply AdminHandler_revoke.
Qed.

(** The route of the DELETE on a minted credential's URL. *)
Lemma minted_revoke_route r k :
  sall is_crockford k = true -> Method r = "DELETE" -> RequestURI r <> "*" ->
  EscapedPath (RURL r) = revocation_path (akidPrefix +:+ k) ->
  mux_route admin_table r = Handle Revoke [akidPrefix +:+ k].
Proof.
  intros Hk Hm Hstar Hp. apply admin_revoke_route. destruct (minted_path_element k Hk) as [Hplain Hun].
  assert (Forall (fun e => plain_elem e = true) ["credentials"; akidPrefix +:+ k]) as Hl by (by repeat constructor).
  rewrite Hp. unfold revocation_path. split_and!; [done|done|by apply cleanPath_path_of|].
  exists (akidPrefix +:+ k). rewrite path_segments_path_of by done. cbn [map]. by rewrite Hun.
Qed.

(** The admin listener changes nothing except by revocation: a request that
    leaves a different server behind is a DELETE whose clean path is
    /credentials/ followed by one segment, and it does exactly what the
    revocation handler does with that segment decoded.  And every access key
    ID the proxy can mint is revoked by the DELETE on its own URL. *)
Theorem admin_changes_only_by_revocation page now r (s : @Server V S) :
  ((AdminHandler page now r s).1 = s \/
   (Method r = "DELETE" /\ exists akid, path_segments (EscapedPath (RURL r)) = ["credentials"; akid] /\ akid <> "/" /\
      AdminHandler page now r s = ((handleRevoke now akid s).1, Replied (handleRevoke now akid s).2))) /\
  (forall k, sall is_crockford k = true -> Method r = "DELETE" -> RequestURI r <> "*" ->
     EscapedPath (RURL r) = revocation_path (akidPrefix +:+ k) ->
     AdminHandler page now r s =
       ((handleRevoke now (akidPrefix +:+ k) s).1, Replied (handleRevoke now (akidPrefix +:+ k) s).2)).
Proof.
  split.
  - destruct (AdminHandler_cases page now r s) as [Hs|(akid & Er & Ha)]; [by left|right].
    apply admin_revoke_route in Er as (_ & Hm & _ & akid' & [= <-] & Hne & Hp). eauto 10.
  - intros k Hk Hm Hstar Hp. by apply AdminHandler_revoke, minted_revoke_route.
Qed.

End Properties.
