(* ===== verification/System.v ===== *)
(** * The system: exchanges, accesses, revocations and the sweeper together

    The end-to-end path of a client (exchange a token, sign a request with the
    minted credentials, have it forwarded under the token's username), and the
    states a server over the memory store can reach under any interleaving of
    requests, revocations and sweeps. *)

From Stdlib Require Import Ascii String ZArith NArith Bool Lia.
From stdpp Require Import base tactics list strings gmap sorting.
From S2P Require Import Prelude GoStrings Sha256 GoTime GoHttp GoMux GoXml S3err Sigv4 Presign Sign Store.
From S2P Require Import Forward Config Oidc Sts Metrics Server Lanes Admin.

(** ** Minted keys are fit for the Authorization header *)

Lemma crockford_scope k : sall is_crockford k = true -> scope_part k = true.
Proof. intros Hk. unfold scope_part. by rewrite !(sall_sfree is_crockford). Qed.

Lemma minted_header_safe c u i t : minted c u i t -> header_safe (cr_AccessKeyID c).
Proof.
  intros [(k & -> & _ & Hk) _ _ _ _ _]. split; [done|].
  apply crockford_scope in Hk. unfold scope_part in *. rewrite !sfree_app. apply andb_true_iff in Hk as [-> ->].
  done.
Qed.

Lemma signed_names_ok `{GoLib} r :
  token_keys (RHeader r) ->
  existsb (fun h => h <>s "x-amz-security-token") (signedHeaderNames r)
  && forallb (fun h => (h <>s "") && sall signed_name_byte h) (signedHeaderNames r) = true.
Proof.
  intros Hk. apply andb_true_iff. split.
  - apply existsb_exists. exists "host". split; [|done]. apply signedHeaderNames_elem. by left.
  - apply forallb_forall. intros n Hn. apply signedHeaderNames_class in Hn as (_ & Hne & Hb); [|done].
    by rewrite Hb, (proj2 (String.eqb_neq _ _) Hne).
Qed.

Section EndToEnd.
Context `{GoLib} {V S : Type} `{TokenValidator V} `{!Store S}.
Abbreviation Server := (@Server V S).

(** A client's request signed with credentials [c] at instant [t]. *)
Definition client_sign (base : Request) (c : Credentials) (region : string) (t : Time) : SignInput :=
  mkSignInput base (cr_AccessKeyID c) (cr_SecretAccessKey c) region "s3" "" t.

Lemma IsSigV4_print a : IsSigV4 (print_authorization a) = true.
Proof.
  unfold IsSigV4, print_authorization. apply HasPrefix_true.
  eexists. by rewrite sapp_assoc.
Qed.

(** What a signed access needs of the clock: the record is live, the request
    fresh, and the years printable. *)
Record timely (s : Server) (now : Clock) (c : Credentials) (t : Time) : Prop := {
  tm_live : (now 2%nat < cr_ExpiresAt c)%Z;
  tm_fresh : (wrap64 (- SigV4ClockSkew (cfg_Security (cfg s)))
              <= Sub (now 3%nat) (t / Second * Second)
              <= SigV4ClockSkew (cfg_Security (cfg s)))%Z;
  tm_signed : four_digit_year t;
  tm_years : four_digit_year (now 4) /\ four_digit_year (now 5)
}.

(** A request signed with a record the store holds is forwarded under the
    record's username. *)
Lemma signed_access gateway now rand base c (s : Server) u iss ex t r' :
  minted c u iss ex -> header_safe u -> scope_part (region s) = true ->
  (Get (now 1%nat) (cr_AccessKeyID c) (store s)).2 = Ok (Some c) ->
  HGet (RHeader base) "X-Amz-Security-Token" = cr_SessionToken c ->
  token_keys (RHeader base) -> timely s now c t ->
  Sign (client_sign base c (region s) t) = (r', None) -> isSTSRequest r' = false ->
  exists out, handed (serve gateway now rand r' s) = Some out /\ identity_of out = Some u /\ delivered (target s) r' out u.
Proof.
  intros Hm Hu Hr Hg Htok Hk [Hl Hf Hy [Hy4 Hy5]] Hs Hsts.
  destruct (minted_header_safe _ _ _ _ Hm) as [Ha Ha'].
  set (i := client_sign base c (region s) t) in *.
  assert (sign_ready i) as Hi by (by split).
  destruct (Sign_verifies i r' Hi Hs) as (a & Hp & Hak & [Hh Hn] & Hv).
  assert (HGet (RHeader r') "X-Amz-Security-Token" = cr_SessionToken c) as Htok'.
  { pose proof (Sign_frame i "X-Amz-Security-Token") as Hfr. rewrite Hs in Hfr. cbn [fst] in Hfr.
    rewrite Hfr by (vm_compute; discriminate). exact Htok. }
  assert (Verify (lane_input s (later 1 now) r' a c) = None) as Hver by (by apply Hv).
  rewrite serve_sigv4_lane by (rewrite ?Hh; auto using IsSigV4_print).
  rewrite (serveSigV4_complete gateway (later 1 now) r' _ s a c Hp); [| |done].
  2:{ rewrite Hak, Htok'. by split. }
  eexists. split; [reflexivity|]. rewrite (minted_username _ _ _ _ Hm).
  assert (injectable s (later 3 (later 1 now)) r' u (Some a)) as Hinj.
  2:{ split; [by apply applyIdentity_identity|by apply applyIdentity_delivered]. }
  split; try done.
  - assert (token_keys (RHeader (Sign i).1)) as Hk' by (by apply Sign_token_keys). by rewrite Hs in Hk'.
  - intros a' [= <-]. apply (Verify_rewritable (lane_input s (later 1 now) r' a c)); try done.
    unfold names_ok. cbn [in_Auth lane_input]. rewrite Hn. apply signed_names_ok. by apply sign_prepared_keys.
Qed.

(** ** The exchange *)

(** A 200 from the STS endpoint comes with a stored, minted record. *)
Lemma sts_success gateway now rand r (s : Server) :
  isSTSRequest r = true -> status (resp (serve gateway now rand r s)) = 200%Z ->
  exists o p id c,
    exchanged (cfg_STS (cfg s)) (later 1 now) (later_rand 1 rand)
      (with_body r (MaxBytesReader maxSTSBodyBytes (Body r))) (validator s) (store s) o p id c /\
    store (after (serve gateway now rand r s)) = o_store o /\
    validator (after (serve gateway now rand r s)) = o_validator o /\
    resp (serve gateway now rand r s) = o_response o.
Proof.
  intros Hs. unfold serve, serveSTS. rewrite Hs. cbn [resp timed after].
  match goal with |- context [ServeHTTP ?a ?b ?c ?d ?e ?f] =>
    pose proof (ServeHTTP_cases a b c d e f) as Hc; set (o := ServeHTTP a b c d e f) in * end.
  cbv zeta in Hc. destruct Hc as [(p & id & c & He)|(rf & [Hst _ Hr _ _])].
  - intros _. exists o, p, id, c. by split_and!.
  - rewrite Hr. cbn [writeError writeXML status]. intros E. rewrite E in Hst. exfalso.
    repeat (apply elem_of_cons in Hst as [?|Hst]; [done|]). by apply not_elem_of_nil in Hst.
Qed.

(** Exchange, then access, over any store that keeps its contract. *)
Lemma exchange_then_access `{!StoreLaws S} gateway now rand r (s : Server) :
  isSTSRequest r = true -> status (resp (serve gateway now rand r s)) = 200%Z -> fills rand ->
  exists p id c,
    Validate (later 1 now) (token p) (validator s) =
      (validator (after (serve gateway now rand r s)), Ok id) /\
    resp (serve gateway now rand r s) =
      writeSuccess (mkSuccess (id_Subject id) (id_IssuerURL id) (roleArn p) (sessionName p) c
                      (Sts.newRequestID (rand 1 16))) /\
    (now 4%nat < cr_ExpiresAt c <= id_Expiry id)%Z /\
    forall gateway' now' rand' base t r',
      let s' := with_store s (store (after (serve gateway now rand r s))) in
      header_safe (id_Username id) -> scope_part (region s) = true ->
      storable c -> unread (cr_AccessKeyID c) (store s) ->
      (now 5%nat <= now' 1%nat <= cr_ExpiresAt c + kept_for)%Z ->
      (cr_ExpiresAt c + kept_for - now 5%nat < max_int64 - Second)%Z ->
      (exists o, (Get (now' 1) (cr_AccessKeyID c) (store s')).2 = Ok o) ->
      HGet (RHeader base) "X-Amz-Security-Token" = cr_SessionToken c ->
      token_keys (RHeader base) -> timely s' now' c t ->
      Sign (client_sign base c (region s) t) = (r', None) -> isSTSRequest r' = false ->
      exists out, handed (serve gateway' now' rand' r' s') = Some out /\ identity_of out = Some (id_Username id) /\
        delivered (target s) r' out (id_Username id).
Proof.
  intros Hs H200 Hf. destruct (sts_success gateway now rand r s Hs H200) as (o & p & id & c & He & Es & Ev & Er).
  exists p, id, c.
  assert (fills (later_rand 1 rand)) as Hf' by (intros i n b Hb; by apply (Hf (1 + i))).
  destruct (exchanged_expiry _ _ _ _ _ _ _ _ _ _ He Hf') as (Hm & Hexp & _ & _).
  split_and!; [rewrite Ev; apply He|rewrite Er; apply (ex_response _ _ _ _ _ _ _ _ _ _ He)|apply Hexp|apply Hexp|].
  intros gateway' now' rand' base t r' s' Hu Hr Hsto Hun Hret Hmax [o' Ho'] Htok Hk Ht Hsig Hns.
  eapply (signed_access gateway' now' rand' base c s'); try done.
  change (store s') with (store (after (serve gateway now rand r s))) in *. rewrite Es in *.
  destruct (Get (now' 1) (cr_AccessKeyID c) (o_store o)) as [s2 g] eqn:Eg. cbn [snd] in *. subst g.
  f_equal. eapply put_get; [done|done|apply (ex_stored _ _ _ _ _ _ _ _ _ _ He)|exact Hret|exact Hmax|exact Eg].
Qed.

End EndToEnd.

(** ** Reachable states over the memory store *)

Section Reachable.
Context `{GoLib} {V : Type} `{TokenValidator V}.
Context (sound : V -> Prop) (user : string -> Prop) `{!ValidatorLaws V sound user}.
Abbreviation Server := (@Server V Memory.t).

(** One step of the whole system: a request on the main listener, one on the
    admin listener, or a pass of the sweeper. *)
Inductive sys_step : Server -> Server -> Prop :=
| sys_request gateway now rand r s : fills rand -> sys_step s (after (serve gateway now rand r s))
| sys_admin page now r s : sys_step s (AdminHandler page now r s).1
| sys_sweep t s : sys_step s (with_store s (Memory.sweep t (store s))).

(** States reachable from a fresh server with an empty store. *)
Inductive reachable (c : Config) : Server -> Prop :=
| reach_new v w s : sound v -> New c v Memory.NewMemory w = Some s -> reachable c s
| reach_step s s' : reachable c s -> sys_step s s' -> reachable c s'.

(** A record as the STS handler mints it for an admitted user. *)
Definition well_minted (k : string) (cr : Credentials) : Prop :=
  cr_AccessKeyID cr = k /\ user (cr_Username cr) /\
  minted cr (cr_Username cr) (cr_Issuer cr) (cr_ExpiresAt cr).

Record sys_inv (c : Config) (s : Server) : Prop := {
  inv_cfg : cfg s = c;
  inv_target : url_Parse (S3Endpoint (cfg_Upstream c)) = Some (target s);
  inv_validator : sound (validator s);
  inv_store : map_Forall well_minted (Memory.creds (store s))
}.

Lemma minted_self cr u i t : minted cr u i t -> minted cr (cr_Username cr) (cr_Issuer cr) (cr_ExpiresAt cr).
Proof. intros []. by split. Qed.

Lemma advanced_inv c (s s' : Server) lane : sys_inv c s -> advanced s lane s' -> sys_inv c s'.
Proof.
  intros [Hc Ht Hv Hs] [Ac At Av As _]. split; [congruence|congruence| |].
  - destruct Av as [->|(now & tok & ->)]; [done|].
    destruct (Validate now tok (validator s)) as [v o] eqn:Ev. by eapply validate_sound.
  - by destruct As as [->|(now & k & ->)].
Qed.

Lemma sts_inv c gateway now rand r (s : Server) :
  isSTSRequest r = true -> fills rand -> sys_inv c s -> sys_inv c (after (serve gateway now rand r s)).
Proof.
  intros Hs Hf [Hc Ht Hv Hst]. unfold serve, serveSTS. rewrite Hs. cbn [after timed].
  match goal with |- context [ServeHTTP ?a ?b ?c ?d ?e ?f] =>
    set (o := ServeHTTP a b c d e f); pose proof (ServeHTTP_cases a b c d e f) as Hcases end.
  cbv zeta in Hcases. fold o in Hcases. 
  assert (sound (o_validator o)) as Hv'.
  { unfold o, ServeHTTP. destruct (read_params _ _) as [p|rf]; [|done].
    destruct (Validate _ (token p) (validator s)) as [v' g] eqn:Ev. apply validate_sound in Ev; [|done].
    repeat case_match; simplify_eq; done. }
  split; cbn [measure with_store with_validator cfg target validator store]; try done.
  assert (fills (later_rand 1 rand)) as Hf' by (intros i n b Hb; by apply (Hf (1 + i))).
  destruct Hcases as [(p & id & cr & He)|(rf & [_ _ _ _ [->|(cr & err & Hput)]])]; [|done|done].
  destruct (exchanged_expiry _ _ _ _ _ _ _ _ _ _ He Hf') as (Hm & _).
  pose proof (ex_stored _ _ _ _ _ _ _ _ _ _ He) as Hput. injection Hput as <-.
  apply map_Forall_insert_2; [|done]. split; [done|]. split; [|by eapply minted_self].
  rewrite (minted_username _ _ _ _ Hm). eapply validate_user; [|apply (ex_token _ _ _ _ _ _ _ _ _ _ He)]. done.
Qed.

Lemma step_inv c s s' : sys_inv c s -> sys_step s s' -> sys_inv c s'.
Proof.
  intros Hi Hst. destruct Hst as [gateway now rand r s Hf|page now r s|t s].
  - destruct (isSTSRequest r) eqn:Er; [by apply sts_inv|].
    destruct (serve_advanced gateway now rand r s Er) as (lane & _ & Ha). by eapply advanced_inv.
  - destruct (AdminHandler_cases page now r s) as [->|(akid & _ & ->)]; [done|]. cbn [fst].
    destruct Hi as [Hc Ht Hv Hs]. unfold handleRevoke. cbn [Get memory_store].
    destruct (Memory.Get akid (store s)); [|by split]. split; try done. simpl. by apply map_Forall_delete.
  - destruct Hi as [Hc Ht Hv Hs]. split; try done. simpl.
    intros k cr Hk. apply map_lookup_filter_Some in Hk as [Hk _]. by apply Hs.
Qed.

Lemma reachable_inv c s : reachable c s -> sys_inv c s.
Proof.
  induction 1 as [v w s Hv Hn|s s' _ IH Hst]; [|by eapply step_inv].
  unfold New in Hn. destruct (url_Parse _) eqn:Eu; [|done]. injection Hn as <-. split; try done.
Qed.

(** Entropy that does not give the next exchange the access key ID [akid]. *)
Definition never_mints (rand : Entropy) (akid : string) : Prop :=
  forall u i t c, Mint (later_rand 1 rand) 1 u i t = Ok c -> cr_AccessKeyID c <> akid.

(** Any number of steps during which [akid] is not minted again. *)
Inductive quiet (akid : string) (s : Server) : Server -> Prop :=
| quiet_refl : quiet akid s s
| quiet_request gateway now rand r s' :
    quiet akid s s' -> (isSTSRequest r = true -> never_mints rand akid) -> quiet akid s (after (serve gateway now rand r s'))
| quiet_admin page now r s' : quiet akid s s' -> quiet akid s (AdminHandler page now r s').1
| quiet_sweep t s' : quiet akid s s' -> quiet akid s (with_store s' (Memory.sweep t (store s'))).

(** An exchange touches no record but the one it mints. *)
Lemma sts_other gateway now rand r (s : Server) akid :
  isSTSRequest r = true -> never_mints rand akid ->
  Memory.Get akid (store (after (serve gateway now rand r s))) = Memory.Get akid (store s).
Proof.
  intros Hs Hn. unfold serve, serveSTS. rewrite Hs. cbn [after timed].
  match goal with |- context [ServeHTTP ?a ?b ?c ?d ?e ?f] =>
    set (o := ServeHTTP a b c d e f); pose proof (ServeHTTP_cases a b c d e f) as Hcases end.
  cbv zeta in Hcases. fold o in Hcases. cbn [measure with_store with_validator store].
  destruct Hcases as [(p & id & cr & He)|(rf & [_ _ _ _ [->|(cr & err & Hput)]])]; [|done|done].
  pose proof (ex_stored _ _ _ _ _ _ _ _ _ _ He) as Hput. injection Hput as <-.
  unfold Memory.Get, Memory.Put. cbn [Memory.creds Memory.with_creds].
  rewrite lookup_insert_ne; [done|]. eapply Hn, (ex_minted _ _ _ _ _ _ _ _ _ _ He).
Qed.

Lemma serve_other gateway now rand r (s : Server) akid :
  (isSTSRequest r = true -> never_mints rand akid) ->
  Memory.Get akid (store (after (serve gateway now rand r s))) = Memory.Get akid (store s).
Proof.
  intros Hn. destruct (isSTSRequest r) eqn:Er; [apply sts_other; auto|].
  destruct (serve_advanced gateway now rand r s Er) as (lane & _ & [_ _ _ [->|(t & k & ->)] _]); done.
Qed.

Lemma serve_frame gateway now rand r (s : Server) :
  cfg (after (serve gateway now rand r s)) = cfg s /\ target (after (serve gateway now rand r s)) = target s.
Proof.
  destruct (isSTSRequest r) eqn:Er; [by unfold serve; rewrite Er|].
  by destruct (serve_advanced gateway now rand r s Er) as (lane & _ & [Hc Ht _ _ _]).
Qed.

(** Any number of steps that leave the record [c] alone: its key is neither
    minted again nor revoked, and no sweep runs later than the retention after
    its expiry. *)
Inductive kept (c : Credentials) (s : Server) : Server -> Prop :=
| kept_refl : kept c s s
| kept_request gateway now rand r s' :
    kept c s s' -> (isSTSRequest r = true -> never_mints rand (cr_AccessKeyID c)) -> kept c s (after (serve gateway now rand r s'))
| kept_admin page now r s' :
    kept c s s' -> mux_route admin_table r <> Handle Revoke [cr_AccessKeyID c] -> kept c s (AdminHandler page now r s').1
| kept_sweep t s' :
    kept c s s' -> (Add t (wrap64 (- Memory.retention (store s'))) <= cr_ExpiresAt c)%Z ->
    kept c s (with_store s' (Memory.sweep t (store s'))).

Lemma kept_holds c (s s' : Server) :
  kept c s s' -> Memory.Get (cr_AccessKeyID c) (store s) = Some c ->
  Memory.Get (cr_AccessKeyID c) (store s') = Some c /\ cfg s' = cfg s /\ target s' = target s.
Proof.
  intros Hk Hg. induction Hk as [|gateway now rand r s' _ IH Hn|page now r s' _ IH Hr|t s' _ IH Ht]; [done|..].
  - destruct IH as (IH & <- & <-). rewrite serve_other by done. split; [done|apply serve_frame].
  - destruct IH as (IH & <- & <-). destruct (AdminHandler_cases page now r s') as [->|(k & Hm & ->)]; [done|]. cbn [fst].
    unfold handleRevoke. cbn [Get memory_store]. destruct (Memory.Get k (store s')); [|done]. cbn. split; [|done].
    unfold Memory.Get, Memory.Delete in *. cbn. rewrite lookup_delete_ne; [done|]. congruence.
  - destruct IH as (IH & <- & <-). split; [|done]. unfold Memory.Get, Memory.sweep in *. cbn. apply map_lookup_filter_Some.
    split; [done|]. cbn. apply Z.ltb_ge. exact Ht.
Qed.

Lemma quiet_absent akid (s s' : Server) :
  quiet akid s s' -> Memory.Get akid (store s) = None -> Memory.Get akid (store s') = None.
Proof.
  intros Hq Ha. induction Hq as [|gateway now rand r s' _ IH Hn|page now r s' _ IH|t s' _ IH]; [done| | |].
  - by rewrite serve_other.
  - destruct (AdminHandler_cases page now r s') as [->|(k & _ & ->)]; [done|]. cbn [fst].
    unfold handleRevoke. cbn [Get memory_store]. destruct (Memory.Get k (store s')); [|done]. cbn.
    by apply lookup_delete_None; right.
  - cbn. unfold Memory.Get, Memory.sweep in *. cbn. apply map_lookup_filter_None. by left.
Qed.

(** What the environment owes the identity theorem: header keys are tokens
    (net/http refuses others), a region the credential scope can carry, a
    clock within the four-digit years, and a client whose signed header names
    are well formed. *)
Record civil_request (s : Server) (now : Clock) (r : Request) : Prop := {
  cv_keys : token_keys (RHeader r);
  cv_region : scope_part (region s) = true;
  cv_years : forall i, four_digit_year (now i);
  cv_names : forall a, ParseAuthorization (HGet (RHeader r) "Authorization") = Ok a -> names_ok a = true
}.

Lemma authenticated_user c (s : Server) now r u auth base :
  sys_inv c s -> authenticated s now r u auth base -> user u.
Proof.
  intros [_ _ Hv Hs] Ha. destruct Ha as [tok v id _ _ Ev|a cr _ _ [Hg _ _] _|p cr _ _ [Hg _ _] _].
  - by eapply validate_user.
  - simpl in Hg. injection Hg as Hg. by apply Hs in Hg as (_ & Hu & _).
  - simpl in Hg. injection Hg as Hg. by apply Hs in Hg as (_ & Hu & _).
Qed.

Lemma authenticated_injectable (s : Server) now r u auth base :
  civil_request s now r -> header_safe u -> authenticated s (later 1 now) r u auth base ->
  injectable s (later 4 now) base u auth.
Proof.
  intros [Hk Hr Hy Hn] Hu Ha. split; try done.
  - split; apply Hy.
  - destruct Ha; try done. by rewrite Strip_frame.
  - intros a ->. inversion Ha as [|a' cr H4 Hp Hh Hv|]; subst.
    apply (Verify_rewritable _ Hv); [done|done|by apply Hn].
Qed.

End Reachable.

(** ** The default username policy *)

(** Usernames the default pattern matches are safe in the header. *)
Lemma username_bytes_safe u :
  default_username_match u = true ->
  header_safe u /\ sfree "$" u = true /\ (String.length u <= 64)%nat.
Proof.
  unfold default_username_match. intros Hm. apply andb_true_iff in Hm as [Hm Hb]. 
  apply andb_true_iff in Hm as [H1 H2]. apply Nat.leb_le in H1, H2.
  split_and!; [|by apply (sall_sfree username_byte)|done].
  split; [by destruct u; simpl in *; [lia|]|]. unfold scope_part.
  by rewrite !(sall_sfree username_byte).
Qed.

(** ** Properties *)

Section Properties.
Context `{GoLib} {V : Type} `{TokenValidator V}.
Context (sound : V -> Prop) (user : string -> Prop) `{!ValidatorLaws V sound user}.

(** C1: strict mode attributes every forwarded request to its authenticated
    user.  In any state a server over the memory store can reach by requests,
    revocations and sweeps, a request that is handed to the reverse proxy
    authenticated as some user the policy admits, and that user is injected as
    its identity.  From what the reverse proxy sends the gateway parses exactly
    that user, or, if the client's Connection header names Authorization, no
    user at all; the session token is gone.  Assumed: the policy admits only
    usernames the credential scope can carry, and of the request that its
    header names are tokens, its signed header names well formed, the region
    one the scope can carry and the clock within four-digit years. *)
Theorem strict_mode_attributes c (s : @Server V Memory.t) gateway now rand r out :
  reachable sound c s -> StrictEnabled (cfg_DataPath c) = true ->
  (forall u, user u -> header_safe u) -> civil_request s now r ->
  handed (serve gateway now rand r s) = Some out ->
  exists u auth base, authenticated s (later 1 now) r u auth base /\ user u /\
    identity_of out = Some u /\ delivered (target s) r out u.
Proof.
  intros Hreach Hs Hsafe Hciv Hh. apply (reachable_inv sound user) in Hreach as Hi.
  rewrite <- (inv_cfg _ _ _ _ Hi) in Hs.
  destruct (serve_handed _ _ _ _ _ _ Hs Hh) as (u & auth & base & Ha & ->).
  assert (user u) as Hu by (eapply (authenticated_user sound user); eauto).
  assert (injectable s (later 4 now) base u auth) as Hinj by (eapply authenticated_injectable; eauto).
  exists u, auth, base. split_and!; [done|done|by apply applyIdentity_identity|].
  apply applyIdentity_delivered; [by eapply authenticated_header|done].
Qed.

(** In every reachable state the configuration and the upstream are those
    the server was built with, and every stored record was minted by the STS
    handler: in the documented shape, filed under its own access key ID, for a
    user the validator admitted. *)
Theorem reachable_store_well_minted c (s : @Server V Memory.t) :
  reachable sound c s ->
  cfg s = c /\ url_Parse (S3Endpoint (cfg_Upstream c)) = Some (target s) /\
  map_Forall (well_minted user) (Memory.creds (store s)).
Proof. intros Hr. apply (reachable_inv sound user) in Hr as [? ? _ ?]. done. Qed.

(** C12: Revocation is final over the memory store.  Once the admin listener has answered 204 to the
    DELETE on a credential's URL, then after any further requests, revocations
    and sweeps, in whatever order, no request signed with that access key ID,
    by header or presigned, is forwarded, unless an exchange drew the same
    random ID again. *)
Theorem revocation_is_final page now r (s s1 s2 : @Server V Memory.t) k response :
  sall is_crockford k = true -> Method r = "DELETE" -> RequestURI r <> "*" ->
  EscapedPath (RURL r) = revocation_path (akidPrefix +:+ k) ->
  AdminHandler page now r s = (s1, Replied response) -> status response = 204%Z ->
  quiet (akidPrefix +:+ k) s1 s2 ->
  forall gateway now' rand q,
    isSTSRequest q = false ->
    (forall a, IsSigV4 (HGet (RHeader q) "Authorization") = true ->
       ParseAuthorization (HGet (RHeader q) "Authorization") = Ok a -> AccessKeyID a = akidPrefix +:+ k ->
       handed (serve gateway now' rand q s2) = None) /\
    (forall p, HGet (RHeader q) "Authorization" = "" -> ParsePresigned q = Ok p ->
       AccessKeyID (p_Authorization p) = akidPrefix +:+ k -> handed (serve gateway now' rand q s2) = None).
Proof.
  intros Hk Hm Hstar Hp Ha H204 Hq gateway now' rand q Hn.
  rewrite (AdminHandler_revoke page now r s _ (minted_revoke_route r k Hk Hm Hstar Hp)) in Ha.
  injection Ha as Hs1 Hresp. apply unheld_key_refused; [|done]. intros now'' presented c [Hg _ _].
  assert (Memory.Get (akidPrefix +:+ k) (store s2) = None) as Hnone.
  { eapply quiet_absent; [exact Hq|]. rewrite <- Hs1. rewrite <- Hresp in H204. unfold handleRevoke in *.
    cbn [Get Delete memory_store] in *. destruct (Memory.Get _ (store s)); [|discriminate H204].
    apply lookup_delete_eq. }
  cbn [Get memory_store snd] in Hg. congruence.
Qed.

End Properties.

(** Under the default username policy (the pattern matched as regular
    expressions are documented to) every admitted username is non-empty, at
    most 64 bytes, and free of the separators of the Authorization header and
    of the multi-tenancy sign [$]. *)
Theorem default_policy_is_header_safe `{GoLib} cfg yaml getenv raw u :
  regexp_compile default_username_pattern = Some default_username_match ->
  Parse yaml getenv raw = Ok cfg -> Pattern (cfg_UsernamePolicy cfg) = default_username_pattern ->
  admitted cfg u -> header_safe u /\ sfree "$" u = true /\ (String.length u <= 64)%nat.
Proof.
  intros Hre Hp Hpat [_ Hu]. apply Parse_usable in Hp as [_ _ _ _ (re & E & Hr)].
  rewrite Hpat, Hre in E. injection E as <-. unfold policy_Validate in Hu. rewrite Hr in Hu.
  by apply username_bytes_safe.
Qed.

(** C5: the whole path of a client, over the memory store.  When the STS
    endpoint answers 200, the validator accepted the token and the answer
    carries credentials that end no later than the token.  From then on, after
    any further requests, admin calls and sweeps that neither mint nor revoke
    their key, a request signed with them while they are live, and fresh, is
    handed to the reverse proxy under the token's username; the gateway parses
    that username from what is sent, or none if the client's Connection header
    names Authorization.  Assumed: username and region the credential scope can
    carry, header names that are tokens, four-digit years. *)
Theorem exchange_grants_access `{GoLib} {V : Type} `{TokenValidator V} gateway now rand r (s : @Server V Memory.t) :
  isSTSRequest r = true -> status (resp (serve gateway now rand r s)) = 200%Z -> fills rand ->
  exists p id c,
    Validate (later 1 now) (token p) (validator s) =
      (validator (after (serve gateway now rand r s)), Ok id) /\
    resp (serve gateway now rand r s) =
      writeSuccess (mkSuccess (id_Subject id) (id_IssuerURL id) (roleArn p) (sessionName p) c
                      (Sts.newRequestID (rand 1 16))) /\
    (now 4%nat < cr_ExpiresAt c <= id_Expiry id)%Z /\
    forall s', kept c (after (serve gateway now rand r s)) s' ->
    forall gateway' now' rand' base t r',
      header_safe (id_Username id) -> scope_part (region s) = true ->
      HGet (RHeader base) "X-Amz-Security-Token" = cr_SessionToken c ->
      token_keys (RHeader base) -> timely s' now' c t ->
      Sign (client_sign base c (region s) t) = (r', None) -> isSTSRequest r' = false ->
      exists out, handed (serve gateway' now' rand' r' s') = Some out /\ identity_of out = Some (id_Username id) /\
        delivered (target s) r' out (id_Username id).
Proof.
  intros Hs H200 Hf. destruct (sts_success gateway now rand r s Hs H200) as (o & p & id & c & He & Es & Ev & Er).
  exists p, id, c.
  assert (fills (later_rand 1 rand)) as Hf' by (intros i n b Hb; by apply (Hf (1 + i))).
  destruct (exchanged_expiry _ _ _ _ _ _ _ _ _ _ He Hf') as (Hm & Hexp & _ & _).
  split_and!; [rewrite Ev; apply He|rewrite Er; apply (ex_response _ _ _ _ _ _ _ _ _ _ He)|apply Hexp|apply Hexp|].
  intros s' Hk gateway' now' rand' base t r' Hu Hr Htok Hkeys Ht Hsig Hns.
  destruct (kept_holds c _ s' Hk) as (Hg & Hcfg & Htgt).
  { rewrite Es. pose proof (ex_stored _ _ _ _ _ _ _ _ _ _ He) as Hput. injection Hput as <-. apply lookup_insert_eq. }
  destruct (serve_frame gateway now rand r s) as [Hc1 Ht1].
  assert (region s' = region s) as Hreg by (unfold region; congruence). rewrite <- Hreg in *.
  assert (target s' = target s) as <- by congruence.
  eapply (signed_access gateway' now' rand' base c s'); try done. cbn [Get memory_store snd]. by rewrite Hg.
Qed.

Section Witnesses.
Import DemoServer.

Definition demo_new : @Server Validator Memory.t := mkServer config warm Memory.NewMemory (mkURL "http" "s3g:9878" "" "" "") (newMetrics (fun _ => 0%Z)).

Lemma demo_reachable : reachable (trusts config) config demo_new.
Proof.
  apply (reach_new _ _ warm (fun _ => 0%Z)); [apply in_use_trusts, warm_in_use|]. reflexivity.
Qed.

Lemma admitted_safe u : admitted config u -> header_safe u.
Proof. intros [_ Hu]. by apply username_bytes_safe. Qed.

Lemma demo_civil : civil_request demo_new now bearer.
Proof.
  split.
  - apply (bool_decide_unpack _). vm_compute. exact I.
  - reflexivity.
  - intros i. vm_compute. split; discriminate.
  - intros a Ha. vm_compute in Ha. discriminate Ha.
Qed.

Lemma strict_mode_attributes_witness :
  exists out u, handed (serve gateway now zero_entropy bearer demo_new) = Some out /\
    identity_of out = Some u /\ admitted config u.
Proof.
  destruct (handed (serve gateway now zero_entropy bearer demo_new)) as [out|] eqn:E;
    [|vm_compute in E; discriminate E].
  destruct (strict_mode_attributes (trusts config) (admitted config) config demo_new gateway now zero_entropy bearer out
    demo_reachable eq_refl admitted_safe demo_civil E) as (u & auth & base & _ & Hu & Hid & _).
  exists out, u. split; [reflexivity|]. split; [exact Hid|exact Hu].
Defined.

(** The state after one exchange. *)
Definition demo_exchanged : @Server Validator Memory.t :=
  after (serve gateway now zero_entropy (DemoExchange.request "900") demo_new).

Lemma reachable_store_well_minted_witness :
  size (Memory.creds (store demo_exchanged)) = 1 /\
  map_Forall (well_minted (admitted config)) (Memory.creds (store demo_exchanged)).
Proof.
  split; [vm_compute; reflexivity|].
  assert (reachable (trusts config) config demo_exchanged) as Hr.
  { eapply reach_step; [apply demo_reachable|]. apply sys_request. apply zero_entropy_fills. }
  apply (reachable_store_well_minted (trusts config) (admitted config) config demo_exchanged Hr).
Defined.

Definition demo_delete : Request :=
  mkRequest "DELETE" (mkURL "" "" "/credentials/OZPX0000000000000000" "" "") "/credentials/OZPX0000000000000000"
    "proxy:9090" ∅ 0 (Some "") None false.

Definition demo_page (_ : metrics) (_ : list (string * Z)) : Response := mkResponse 200 "" "".

(** The request [signed] is forwarded before the revocation and not after it,
    nor after a later sweep. *)
Lemma revocation_is_final_witness :
  let s1 := (AdminHandler demo_page now demo_delete server).1 in
  let s2 := with_store s1 (Memory.sweep 0%Z (store s1)) in
  handed (serve gateway now zero_entropy signed server) <> None /\
  handed (serve gateway now zero_entropy signed s2) = None.
Proof.
  cbv zeta. split; [apply served_forwards|].
  destruct (ParseAuthorization (HGet (RHeader signed) "Authorization")) as [a|e] eqn:Ea;
    [|vm_compute in Ea; discriminate Ea].
  assert (AdminHandler demo_page now demo_delete server =
    ((AdminHandler demo_page now demo_delete server).1, Replied (mkResponse 204 "" ""))) as Hd
    by (rewrite (AdminHandler_revoke demo_page now demo_delete server "OZPX0000000000000000")
          by (vm_compute; reflexivity); reflexivity).
  assert (EscapedPath (RURL demo_delete) = revocation_path (akidPrefix +:+ "0000000000000000")) as Hp
    by (vm_compute; reflexivity).
  assert (AccessKeyID a = akidPrefix +:+ "0000000000000000") as Hk by (pose proof signed_key as Hk; rewrite Ea in Hk; exact Hk).
  assert (IsSigV4 (HGet (RHeader signed) "Authorization") = true) as H4 by (vm_compute; reflexivity).
  assert (isSTSRequest signed = false) as Hs by (vm_compute; reflexivity).
  apply (proj1 (revocation_is_final demo_page now demo_delete server _ _ "0000000000000000" (mkResponse 204 "" "")
    eq_refl eq_refl ltac:(discriminate) Hp Hd eq_refl (quiet_sweep _ _ 0%Z _ (quiet_refl _ _))
    gateway now zero_entropy signed Hs) a H4 Ea Hk).
Defined.

Lemma default_policy_is_header_safe_witness :
  admitted config "alice" /\ header_safe "alice".
Proof.
  assert (admitted config "alice") as Ha by (split; [discriminate|vm_compute; reflexivity]).
  split; [exact Ha|].
  apply (default_policy_is_header_safe config (fun _ => Some config) (fun _ => "") "" "alice");
    [reflexivity|vm_compute; reflexivity|reflexivity|exact Ha].
Defined.

Lemma Sign_method i : Method (Sign i).1 = Method (si_Request i).
Proof.
  destruct (Sign_eq i) as (_ & _ & ->). unfold sign_prepared. by repeat case_match.
Qed.

(** A client's GET with the session token of [c]. *)
Definition demo_get (c : Credentials) : Request := get {[ "X-Amz-Security-Token" := [cr_SessionToken c] ]}.

Lemma demo_sign_ok c t : exists r', Sign (client_sign (demo_get c) c "us-east-1" t) = (r', None) /\ isSTSRequest r' = false.
Proof.
  destruct (proj2 (Sign_ok_iff (client_sign (demo_get c) c "us-east-1" t)) ltac:(vm_compute; discriminate))
    as [r' Hr].
  exists r'. split; [exact Hr|]. pose proof (Sign_method (client_sign (demo_get c) c "us-east-1" t)) as Hm.
  rewrite Hr in Hm. cbn [fst] in Hm. unfold isSTSRequest. by rewrite Hm.
Qed.

(** A request of another client and a pass of the sweeper after the exchange. *)
Definition demo_later : @Server Validator Memory.t :=
  let s1 := after (serve gateway now zero_entropy bearer demo_exchanged) in with_store s1 (Memory.sweep 0%Z (store s1)).

Lemma exchange_grants_access_witness :
  status (resp (serve gateway now zero_entropy (DemoExchange.request "900") demo_new)) = 200%Z /\
  exists c r' out u, Sign (client_sign (demo_get c) c "us-east-1" (1000 * Second)%Z) = (r', None) /\
    handed (serve gateway now zero_entropy r' demo_later) = Some out /\
    delivered (target demo_new) r' out u /\ admitted config u.
Proof.
  assert (status (resp (serve gateway now zero_entropy (DemoExchange.request "900") demo_new)) = 200%Z) as H200
    by (vm_compute; reflexivity).
  split; [exact H200|].
  destruct (exchange_grants_access gateway now zero_entropy (DemoExchange.request "900") demo_new
    ltac:(vm_compute; reflexivity) H200 zero_entropy_fills)
    as (p & id & c & Hv & _ & He & Hacc).
  assert (admitted config (id_Username id)) as Hu
    by (eapply (validate_user (sound := trusts config)); [apply in_use_trusts, warm_in_use|exact Hv]).
  destruct (demo_sign_ok c (1000 * Second)%Z) as (r' & Hr' & Hns).
  destruct (Hacc demo_later) with (gateway' := gateway) (now' := now) (rand' := zero_entropy) (base := demo_get c)
    (t := (1000 * Second)%Z) (r' := r') as (out & Hh & _ & Hd).
  - apply kept_sweep; [apply kept_request; [apply kept_refl|]|].
    + intros E. vm_compute in E. discriminate E.
    + assert (Add 0%Z (wrap64 (- Memory.retention (store (after (serve gateway now zero_entropy bearer demo_exchanged)))))
              = - Hour)%Z as -> by (vm_compute; reflexivity). change (now 4) with (1000 * Second)%Z in He. unfold Hour, Minute, Second in *. lia.
  - apply admitted_safe, Hu.
  - reflexivity.
  - reflexivity.
  - apply map_Forall_singleton. reflexivity.
  - split; [exact (proj1 He)|vm_compute; split; discriminate|vm_compute; split; discriminate|].
    split; vm_compute; split; discriminate.
  - exact Hr'.
  - exact Hns.
  - exists c, r', out, (id_Username id). split; [exact Hr'|]. split; [exact Hh|]. split; [exact Hd|exact Hu].
Defined.

End Witnesses.
