(* ===== verification/Concurrent.v ===== *)
(** * Concurrent requests

    net/http runs every request in a goroutine of its own; what they share is
    the credential store, the token validator and the metrics, each behind its
    own lock.  Here the handlers of internal/server and internal/sts are
    programs over those shared accesses: [GetThen] and the like are one call
    each, and between any two calls of one request any number of calls of
    others may happen.  [run] executes a program without interruption, and the
    theorems first show that this is [serve] and [handleRevoke]; then they
    prove of every interleaving of the single calls what [System] proves of
    whole requests.  The store is the memory store, with its sweeper.  A call
    of [Validate] is one step: the locks inside it only guard the remembered
    location of an issuer's keys and the time of the last forced refresh. *)

From Stdlib Require Import Ascii String ZArith NArith Bool Lia.
From stdpp Require Import base tactics list strings gmap.
From S2P Require Import Prelude GoStrings GoTime GoHttp GoXml S3err Sigv4 Presign Sign Store Forward Config.
From S2P Require Import Oidc Sts Metrics Server Lanes Admin System.

(** ** Programs *)

Section Programs.
Context `{GoLib} {V S : Type} `{TokenValidator V} `{!Store S}.
Abbreviation Server := (@Server V S).

(** What is left of a request: its next call on something shared and how it
    goes on with the result, or its answer and the request it handed to the
    reverse proxy. *)
Inductive action :=
| GetThen (t : Time) (akid : string) (next : res string (option Credentials) -> action)
| PutThen (t : Time) (c : Credentials) (next : option string -> action)
| DeleteThen (t : Time) (akid : string) (next : option string -> action)
| ValidateThen (now : Clock) (tok : string) (next : res oidcerr Identity -> action)
| MeasureThen (f : metrics -> metrics) (next : action)
| Done (response : Response) (out : option Request).

(** One call. *)
Definition step_action (a : action) (s : Server) : option (Server * action) :=
  match a with
  | GetThen t k next => let '(st, o) := Get t k (store s) in Some (with_store s st, next o)
  | PutThen t c next => let '(st, o) := Put t c (store s) in Some (with_store s st, next o)
  | DeleteThen t k next => let '(st, o) := Delete t k (store s) in Some (with_store s st, next o)
  | ValidateThen now tok next => let '(v, o) := Validate now tok (validator s) in Some (with_validator s v, next o)
  | MeasureThen f next => Some (measure f s, next)
  | Done _ _ => None
  end.

(** All calls of a request in a row. *)
Fixpoint run (a : action) (s : Server) : reply (V := V) (S := S) :=
  match a with
  | GetThen t k next => let '(st, o) := Get t k (store s) in run (next o) (with_store s st)
  | PutThen t c next => let '(st, o) := Put t c (store s) in run (next o) (with_store s st)
  | DeleteThen t k next => let '(st, o) := Delete t k (store s) in run (next o) (with_store s st)
  | ValidateThen now tok next => let '(v, o) := Validate now tok (validator s) in run (next o) (with_validator s v)
  | MeasureThen f next => run next (measure f s)
  | Done response out => Reply s response out
  end.

(** A deferred observation. *)
Fixpoint finally (f : metrics -> metrics) (a : action) : action :=
  match a with
  | GetThen t k next => GetThen t k (fun o => finally f (next o))
  | PutThen t c next => PutThen t c (fun o => finally f (next o))
  | DeleteThen t k next => DeleteThen t k (fun o => finally f (next o))
  | ValidateThen now tok next => ValidateThen now tok (fun o => finally f (next o))
  | MeasureThen g next => MeasureThen g (finally f next)
  | Done response out => MeasureThen f (Done response out)
  end.

(** ** The handlers

    [s] is only read for what never changes: configuration and target. *)

Definition proxy_prog (gateway : Request -> upstream_result) (s : Server) (r : Request) : action :=
  let '(response, ev) := proxy_ServeHTTP (target s) gateway r in
  match ev with
  | ObservedResponse st => MeasureThen (observeUpstream st) (Done response (Some r))
  | ObservedError => MeasureThen observeUpstreamError (Done response (Some r))
  | ObservedNothing => Done response (Some r)
  end.

Definition refuse_prog (count : string -> metrics -> metrics) (r : Request) (reqID : string) (rj : rejection) : action :=
  MeasureThen (count (rj_result rj)) (Done (Write (rj_status rj) (rj_code rj) (rj_message rj) (Path (RURL r)) reqID) None).

(** The credential lookup after the store has answered. *)
Definition checked (now : Time) (presented : string) (o : res string (option Credentials)) : res rejection Credentials :=
  match o with
  | Err _ => Err store_unavailable
  | Ok None => Err unknown_akid
  | Ok (Some creds) =>
      if Expired creds now then Err credentials_expired
      else if presented =s cr_SessionToken creds then Ok creds else Err bad_token
  end.

Definition serveBearer_prog (gateway : Request -> upstream_result) (now : Clock) (r : Request)
    (token reqID : string) (s : Server) : action :=
  finally (observeDuration "bearer")
  (if negb (BearerEnabled (cfg_DataPath (cfg s))) then
     MeasureThen (count_bearer "unknown" "disabled")
       (Done (Write 403 CodeAccessDenied "bearer authentication is disabled" (Path (RURL r)) reqID) None)
   else ValidateThen now token (fun o =>
     MeasureThen (observeVerification "bearer")
       match o with
       | Err e =>
           let '(st, errcode) := mapBearerError e in
           MeasureThen (count_bearer "unknown" errcode)
             (Done (Write st errcode (bearerErrorMessage e) (Path (RURL r)) reqID) None)
       | Ok identity =>
           MeasureThen (count_bearer (id_IssuerName identity) "success")
             (proxy_prog gateway s (applyIdentity s (later 3 now) r (id_Username identity) None))
       end)).

Definition serveSigV4_prog (gateway : Request -> upstream_result) (now : Clock) (r : Request)
    (authHeader reqID : string) (s : Server) : action :=
  finally (observeDuration "sigv4")
  match ParseAuthorization authHeader with
  | Err _ => refuse_prog count_sigv4 r reqID
               (Reject 400 "malformed" CodeAuthorizationHeaderMalformed "the Authorization header is malformed")
  | Ok auth => GetThen (now 0) (AccessKeyID auth) (fun o =>
      match checked (now 1) (HGet (RHeader r) "X-Amz-Security-Token") o with
      | Err rj => refuse_prog count_sigv4 r reqID rj
      | Ok creds =>
          MeasureThen (observeVerification "sigv4")
            match Verify (lane_input s now r auth creds) with
            | Some e => refuse_prog count_sigv4 r reqID (sigv4_rejection e)
            | None => MeasureThen (count_sigv4 "success")
                        (proxy_prog gateway s (applyIdentity s (later 3 now) r (cr_Username creds) (Some auth)))
            end
      end)
  end.

Definition servePresigned_prog (gateway : Request -> upstream_result) (now : Clock) (r : Request)
    (reqID : string) (s : Server) : action :=
  finally (observeDuration "presigned")
  match ParsePresigned r with
  | Err e => refuse_prog count_presigned r reqID (Reject 400 "malformed" CodeAuthorizationQueryParametersError (message e))
  | Ok auth => GetThen (now 0) (AccessKeyID (p_Authorization auth)) (fun o =>
      match checked (now 1) (p_SecurityToken auth) o with
      | Err rj => refuse_prog count_presigned r reqID rj
      | Ok creds =>
          MeasureThen (observeVerification "presigned")
            match VerifyPresigned (presign_input s now r auth creds) with
            | Some e => refuse_prog count_presigned r reqID (presigned_rejection e)
            | None => MeasureThen (count_presigned "success")
                        (proxy_prog gateway s (applyIdentity s (later 3 now) (StripPresignedQuery r) (cr_Username creds) None))
            end
      end)
  end.

Definition serveUnauthenticated_prog (gateway : Request -> upstream_result) (r : Request) (reqID : string) (s : Server) : action :=
  finally (observeDuration "unauthenticated")
  (if StrictEnabled (cfg_DataPath (cfg s)) then
     if IsSigV2Query r then
       Done (Write 400 CodeInvalidRequest
         ("The authorization mechanism you have provided is not supported. " +:+ "Please use AWS4-HMAC-SHA256.")
         (Path (RURL r)) reqID) None
     else
       Done (Write 403 CodeAccessDenied
         "authentication required: present a Bearer token or temporary SigV4 credentials" (Path (RURL r)) reqID) None
   else proxy_prog gateway s r).

(** The exchange, with the observer of its result. *)
Definition finish_sts (response : Response) (issuer errcode : string) : action :=
  MeasureThen (count_sts (orUnknown issuer) (resultLabel errcode)) (Done response None).

Definition refused_prog (issuer : string) (rf : refusal) (reqID : string) : action :=
  finish_sts (writeError (rf_status rf) (rf_code rf) (rf_message rf) reqID) issuer (rf_code rf).

Definition ServeHTTP_prog (c : STS) (now : Clock) (rand : Entropy) (r : Request) : action :=
  let reqID := Sts.newRequestID (rand 0 16) in
  match read_params c r with
  | Err rf => refused_prog "" rf reqID
  | Ok p => ValidateThen now (token p) (fun o =>
      match o with
      | Err e =>
          let '(errcode, st) := mapTokenError e in refused_prog "" (Refuse st errcode (publicTokenErrorMessage e)) reqID
      | Ok identity =>
          let t := now 3 in
          let ttl := effective_ttl (id_Expiry identity) t (MaxDuration c) (requested p) in
          let issuer := id_IssuerName identity in
          if (ttl <=? 0)%Z then refused_prog issuer (Refuse 400 codeExpiredToken "web identity token is expired") reqID
          else match Mint rand 1 (id_Username identity) issuer (Add t ttl) with
          | Err _ => refused_prog issuer (Refuse 500 codeServiceFailure "credential minting failed") reqID
          | Ok creds => PutThen (now 4) creds (fun err =>
              match err with
              | Some _ => refused_prog issuer (Refuse 500 codeServiceFailure "credential store unavailable") reqID
              | None =>
                  finish_sts (writeSuccess (mkSuccess (id_Subject identity) (id_IssuerURL identity) (roleArn p)
                                (sessionName p) creds reqID)) issuer ""
              end)
          end
      end)
  end.

Definition serve_prog (gateway : Request -> upstream_result) (now : Clock) (rand : Entropy) (r : Request) (s : Server) : action :=
  let reqID := newRequestID (rand 0 12) in
  if isSTSRequest r then
    finally (observeDuration "sts")
      (ServeHTTP_prog (cfg_STS (cfg s)) (later 1 now) (later_rand 1 rand)
         (with_body r (MaxBytesReader maxSTSBodyBytes (Body r))))
  else
    let authHeader := HGet (RHeader r) "Authorization" in
    if HasPrefix authHeader "Bearer " then serveBearer_prog gateway (later 1 now) r (TrimPrefix authHeader "Bearer ") reqID s
    else if IsSigV4 authHeader then serveSigV4_prog gateway (later 1 now) r authHeader reqID s
    else if (authHeader =s "") && IsPresigned r then servePresigned_prog gateway (later 1 now) r reqID s
    else serveUnauthenticated_prog gateway r reqID s.

Definition handleRevoke_prog (now : Clock) (akid : string) : action :=
  GetThen (now 0) akid (fun o =>
    match o with
    | Err _ => MeasureThen (count_revocation "error") (Done (http_Error "credential store unavailable" 503) None)
    | Ok None => MeasureThen (count_revocation "unknown") (Done (http_Error "unknown access key ID" 404) None)
    | Ok (Some _) => DeleteThen (now 1) akid (fun err =>
        match err with
        | Some _ => MeasureThen (count_revocation "error") (Done (http_Error "credential store unavailable" 503) None)
        | None => MeasureThen (count_revocation "revoked") (Done (mkResponse 204 "" "") None)
        end)
    end).

(** ** Uninterrupted, a program is its handler *)

Lemma run_finally lane a : forall s, run (finally (observeDuration lane) a) s = timed lane (run a s).
Proof.
  induction a as [t k next IH|t c next IH|t k next IH|now tok next IH|f next IH|response out]; intros s; cbn [finally run].
  - destruct (Get t k (store s)) as [st o]. apply IH.
  - destruct (Put t c (store s)) as [st o]. apply IH.
  - destruct (Delete t k (store s)) as [st o]. apply IH.
  - destruct (Validate now tok (validator s)) as [v o]. apply IH.
  - apply IH.
  - done.
Qed.

Lemma run_proxy gateway (s0 s : Server) r : target s0 = target s -> run (proxy_prog gateway s0 r) s = proxy gateway s r.
Proof. intros Ht. unfold proxy_prog, proxy. rewrite Ht. by destruct (proxy_ServeHTTP _ _ _) as [response []]. Qed.

Lemma run_sts now rand r (s : Server) :
  run (finally (observeDuration "sts") (ServeHTTP_prog (cfg_STS (cfg s)) now rand
         (with_body r (MaxBytesReader maxSTSBodyBytes (Body r))))) s = serveSTS now rand r s.
Proof.
  rewrite run_finally. unfold serveSTS. f_equal. unfold ServeHTTP_prog, ServeHTTP.
  destruct (read_params _ _) as [p|rf]; [|done]. cbn [run].
  destruct (Validate now (token p) (validator s)) as [v [id|e]]; [|by destruct (mapTokenError e)].
  destruct (_ <=? 0)%Z; [done|]. destruct (Mint rand 1 _ _ _) as [c|]; [|done]. cbn [run].
  by destruct (Put (now 4) c (store s)) as [st [err|]] eqn:Ep; cbn [with_validator store]; rewrite Ep.
Qed.

Lemma run_serve gateway now rand r (s : Server) : run (serve_prog gateway now rand r s) s = serve gateway now rand r s.
Proof.
  unfold serve_prog, serve. destruct (isSTSRequest r); [apply run_sts|].
  destruct (HasPrefix _ "Bearer "); [|destruct (IsSigV4 _); [|destruct (_ && _)]].
  - unfold serveBearer_prog, serveBearer. rewrite run_finally. f_equal. destruct (negb _); [done|]. cbn [run].
    destruct (Validate _ _ (validator s)) as [v [id|e]]; cbn [run]; [by apply run_proxy|by destruct (mapBearerError e)].
  - unfold serveSigV4_prog, serveSigV4. rewrite run_finally. f_equal. destruct (ParseAuthorization _) as [a|]; [|done]. cbn [run].
    unfold lookup_credentials. destruct (Get _ _ (store s)) as [st o]. unfold checked.
    destruct o as [[c|]|]; [|done|done]. destruct (Expired c _); [done|]. destruct (_ =s cr_SessionToken c); [|done]. cbn [run].
    fold (lane_input s (later 1 now) r a c). change (region (with_store s st)) with (region s). cbn [cfg with_store].
    fold (lane_input s (later 1 now) r a c). destruct (Verify _); [done|]. cbn [run]. by apply run_proxy.
  - unfold servePresigned_prog, servePresigned. rewrite run_finally. f_equal. destruct (ParsePresigned r) as [a|]; [|done]. cbn [run].
    unfold lookup_credentials. destruct (Get _ _ (store s)) as [st o]. unfold checked.
    destruct o as [[c|]|]; [|done|done]. destruct (Expired c _); [done|]. destruct (_ =s cr_SessionToken c); [|done]. cbn [run].
    change (region (with_store s st)) with (region s). cbn [cfg with_store].
    fold (presign_input s (later 1 now) r a c). destruct (VerifyPresigned _); [done|]. cbn [run]. by apply run_proxy.
  - unfold serveUnauthenticated_prog, serveUnauthenticated. rewrite run_finally. f_equal.
    destruct (StrictEnabled _); [by destruct (IsSigV2Query r)|by apply run_proxy].
Qed.

Lemma run_revoke now akid (s : Server) :
  (after (run (handleRevoke_prog now akid) s), resp (run (handleRevoke_prog now akid) s)) = handleRevoke now akid s.
Proof.
  unfold handleRevoke_prog, handleRevoke. cbn [run]. destruct (Get _ _ (store s)) as [st [[c|]|]]; [|done|done]. cbn [run].
  cbn [with_store store]. by destruct (Delete _ _ st) as [st' [err|]].
Qed.

End Programs.

(** ** Interleavings *)

Section Interleaving.
Context `{GoLib} {V : Type} `{TokenValidator V}.
Abbreviation Server := (@Server V Memory.t).

(** A request in progress: the request and its clock (none for a revocation),
    the states of the server its calls so far were made in, the latest first,
    and what is left of it. *)
Record thread := Thread { origin : option (Clock * Request); saw : list Server; rest : action }.

Record machine := Machine { shared : Server; threads : list thread }.

(** Which requests arrive at a server. *)
Context (arrives : Server -> Clock -> Entropy -> Request -> Prop).

(** What may start on a server: a request on the main listener, or a
    revocation. *)
Inductive starts (s : Server) : thread -> Prop :=
| starts_request gateway now rand r :
    arrives s now rand r -> starts s (Thread (Some (now, r)) [] (serve_prog gateway now rand r s))
| starts_revoke now akid : starts s (Thread None [] (handleRevoke_prog now akid)).

Inductive machine_step : machine -> machine -> Prop :=
| machine_start s l th : starts s th -> machine_step (Machine s l) (Machine s (l ++ [th]))
| machine_call s l i o seen a s' a' :
    l !! i = Some (Thread o seen a) -> step_action a s = Some (s', a') ->
    machine_step (Machine s l) (Machine s' (<[i := Thread o (s :: seen) a']> l))
| machine_sweep s l t : machine_step (Machine s l) (Machine (with_store s (Memory.sweep t (store s))) l).

(** *** Safety of a program

    [inv] holds of every state a call may find, [put_ok] of every record that
    may be stored. *)

Section Safety.
Context (inv : Server -> Prop) (put_ok : Credentials -> Prop).

(** What a request may still do, in whatever states of the server its calls
    find: it stores only records that are [put_ok], and hands over only
    requests that satisfy [Q]. *)
Fixpoint safe (Q : list Server -> Request -> Prop) (seen : list Server) (a : action) : Prop :=
  match a with
  | GetThen t k next => forall s, inv s -> safe Q (s :: seen) (next (Get t k (store s)).2)
  | PutThen t cr next => put_ok cr /\ forall s, inv s -> safe Q (s :: seen) (next (Put t cr (store s)).2)
  | DeleteThen t k next => forall s, inv s -> safe Q (s :: seen) (next (Delete t k (store s)).2)
  | ValidateThen now tok next => forall s, inv s -> safe Q (s :: seen) (next (Validate now tok (validator s)).2)
  | MeasureThen _ next => forall s, inv s -> safe Q (s :: seen) next
  | Done _ out => forall r, out = Some r -> Q seen r
  end.

(** What was handed over stays so as the request goes on. *)
Definition monotone (Q : list Server -> Request -> Prop) : Prop := forall seen s r, Q seen r -> Q (s :: seen) r.

Lemma safe_finally Q f a : monotone Q -> forall seen, safe Q seen a -> safe Q seen (finally f a).
Proof.
  intros HQ. induction a as [t k next IH|t cr next IH|t k next IH|now tok next IH|g next IH|response out]; intros seen; cbn [safe finally].
  - intros Ha s Hs. by apply IH, Ha.
  - intros [Hc Ha]. split; [done|]. intros s Hs. by apply IH, Ha.
  - intros Ha s Hs. by apply IH, Ha.
  - intros Ha s Hs. by apply IH, Ha.
  - intros Ha s Hs. by apply IH, Ha.
  - intros Ha s Hs r Hr. by apply HQ, Ha.
Qed.

Lemma safe_proxy Q seen gateway (s : Server) r : monotone Q -> Q seen r -> safe Q seen (proxy_prog gateway s r).
Proof.
  intros HQ Hr. unfold proxy_prog. destruct (proxy_ServeHTTP _ _ _) as [response []]; cbn [safe].
  - intros s2 _ out [= <-]. by apply HQ.
  - intros s2 _ out [= <-]. by apply HQ.
  - by intros out [= <-].
Qed.

Lemma revoke_safe Q now akid : safe Q [] (handleRevoke_prog now akid).
Proof. intros s Hs. by destruct (Get _ _ _).2 as [[cr|]|]. Qed.

(** The invariant is kept by every call that stores nothing it should not. *)
Definition inv_kept : Prop :=
  (forall s s' a a', inv s -> match a with PutThen _ cr _ => put_ok cr | _ => True end -> step_action a s = Some (s', a') -> inv s') /\
  (forall s t, inv s -> inv (with_store s (Memory.sweep t (store s)))).

Lemma step_action_safe Q (s s' : Server) seen a a' :
  inv_kept -> inv s -> safe Q seen a -> step_action a s = Some (s', a') -> inv s' /\ safe Q (s :: seen) a'.
Proof.
  intros [Hk _] Hi Ha Hst. split.
  - eapply Hk; [exact Hi| |exact Hst]. destruct a; try done. apply Ha.
  - destruct a as [t k next|t cr next|t k next|now tok next|g next|response out]; cbn [step_action safe] in *.
    + cbn [Get memory_store] in Hst. injection Hst as _ <-. by apply Ha.
    + cbn [Put memory_store] in Hst. injection Hst as _ <-. by apply Ha.
    + cbn [Delete memory_store] in Hst. injection Hst as _ <-. by apply Ha.
    + specialize (Ha s Hi). destruct (Validate now tok (validator s)) as [v o]. by injection Hst as _ <-.
    + injection Hst as _ <-. by apply Ha.
    + done.
Qed.

(** Every thread is safe for what its origin promises. *)
Context (promise : option (Clock * Request) -> list Server -> Request -> Prop).

Record machine_inv (m : machine) : Prop := {
  mi_shared : inv (shared m);
  mi_threads : Forall (fun th => safe (promise (origin th)) (saw th) (rest th)) (threads m)
}.

Context (Hkept : inv_kept).
Context (Hserve : forall gateway (s : Server) now rand r,
  inv s -> arrives s now rand r -> safe (promise (Some (now, r))) [] (serve_prog gateway now rand r s)).

Lemma machine_step_inv m m' : machine_inv m -> machine_step m m' -> machine_inv m'.
Proof using Hkept Hserve.
  intros [Hi Hl] Hst. destruct Hst as [s l th Hs|s l i o seen a s' a' Hth Hstep|s l t]; cbn [shared threads] in *.
  - split; [done|]. apply Forall_app. split; [done|]. apply Forall_singleton.
    destruct Hs as [gateway now rand r Ha|now akid]; [by apply Hserve|apply revoke_safe].
  - pose proof (Forall_lookup_1 _ _ _ _ Hl Hth) as Ha. cbn in Ha.
    destruct (step_action_safe _ s s' seen a a' Hkept Hi Ha Hstep) as [Hi' Ha']. split; [done|]. by apply Forall_insert.
  - split; [|done]. by apply Hkept.
Qed.

Lemma machine_reachable_inv m m' : machine_inv m -> rtc machine_step m m' -> machine_inv m'.
Proof using Hkept Hserve. intros Hi Hr. induction Hr as [|p p1 p2 Hs _ IH]; [done|]. apply IH. by eapply machine_step_inv. Qed.

End Safety.

End Interleaving.

(** ** Attribution: what is handed over was authenticated *)

Section Attribution.
Context `{GoLib} {V : Type} `{TokenValidator V}.
Context (sound : V -> Prop) (user : string -> Prop) `{!ValidatorLaws V sound user}.
Abbreviation Server := (@Server V Memory.t).

(** What was handed over for a request: in one of the states the server was in
    while it was served, it authenticated as a user the policy admits; it
    carries that user, and so does what the reverse proxy sends of it. *)
Record attributed (seen : list Server) (now : Clock) (r out : Request) (u : string) : Prop := {
  at_user : user u;
  at_proof : exists s' auth base, s' ∈ seen /\ authenticated s' (later 1 now) r u auth base /\
               out = applyIdentity s' (later 4 now) base u auth;
  at_identity : identity_of out = Some u;
  at_delivered : forall target, delivered target r out u
}.

Definition handed_over (o : option (Clock * Request)) (seen : list Server) (out : Request) : Prop :=
  match o with Some (now, r) => exists u, attributed seen now r out u | None => False end.

Lemma handed_over_later o : monotone (handed_over o).
Proof.
  intros seen s out. destruct o as [[now r]|]; [|done]. intros [u [Hu (s' & auth & base & Hs & Ha & Ho) Hi Ht]]. exists u. split; try done.
  exists s', auth, base. split_and!; [by right|done|done].
Qed.

(** Requests with a civil clock and civil headers, and entropy that fills the
    buffers it is given. *)
Definition civil (s : Server) (now : Clock) (rand : Entropy) (r : Request) : Prop := fills rand /\ civil_request s now r.

Section Config.
Context (c : Config).
Abbreviation inv := (sys_inv sound user c).
Abbreviation put_ok := (fun cr => well_minted user (cr_AccessKeyID cr) cr).
Abbreviation safe := (safe inv put_ok).

Lemma sys_inv_kept : inv_kept inv put_ok.
Proof.
  split; [|intros s t Hi; eapply (step_inv sound user); [exact Hi|constructor]].
  intros s s' a a' [Hc Ht Hv Hs] Ha. destruct a as [t k next|t cr next|t k next|now tok next|g next|response out]; cbn [step_action].
  - cbn [Get memory_store]. intros [= <- _]. by split.
  - cbn [Put memory_store]. intros [= <- _]. split; try done. by apply map_Forall_insert_2.
  - cbn [Delete memory_store]. intros [= <- _]. split; try done. by apply map_Forall_delete.
  - destruct (Validate now tok (validator s)) as [v o] eqn:Ev. intros [= <- _]. split; try done. by eapply validate_sound.
  - intros [= <- _]. by split.
  - done.
Qed.

(** The lookup of a lane succeeds only on a record the store held when it was
    asked. *)
Lemma checked_holds (s : Server) now k presented cr :
  checked (now 1) presented (Get (now 0) k (store s)).2 = Ok cr -> holds s now k presented cr.
Proof.
  unfold checked. destruct (Get (now 0) k (store s)).2 as [[c'|]|] eqn:Eg; try done. unfold Expired, Before.
  destruct (Z.ltb_spec (now 1) (cr_ExpiresAt c')); [|done]. cbn [negb].
  destruct (seqb_spec presented (cr_SessionToken c')); [|done]. by intros [= ->].
Qed.

Section Handlers.
Context (s : Server) (Hinv : inv s).
Context (Hstrict : StrictEnabled (cfg_DataPath c) = true) (Hsafe : forall u, user u -> header_safe u).
Context (now : Clock) (r : Request) (Hciv : civil_request s now r).
Abbreviation Q := (handed_over (Some (now, r))).

(** The handler reads the configuration when it starts; it never changes. *)
Lemma inv_same_cfg s' : inv s' -> cfg s' = cfg s.
Proof. intros Hi. by rewrite (inv_cfg _ _ _ _ Hi), (inv_cfg _ _ _ _ Hinv). Qed.

Lemma lane_input_same s' t a cr : inv s' -> lane_input s t r a cr = lane_input s' t r a cr.
Proof. intros Hi. unfold lane_input, region. by rewrite (inv_same_cfg s' Hi). Qed.

Lemma presign_input_same s' t a cr : inv s' -> presign_input s t r a cr = presign_input s' t r a cr.
Proof. intros Hi. unfold presign_input, region. by rewrite (inv_same_cfg s' Hi). Qed.

Lemma applyIdentity_same s' t q u a : inv s' -> applyIdentity s t q u a = applyIdentity s' t q u a.
Proof.
  intros Hi. assert (target s' = target s) as Et.
  { pose proof (inv_target _ _ _ _ Hi) as H1. pose proof (inv_target _ _ _ _ Hinv) as H2. congruence. }
  unfold applyIdentity, upstreamHost, region. by rewrite Et, (inv_same_cfg s' Hi).
Qed.

(** Injecting the identity of a request that authenticated in a state it saw. *)
Lemma proxy_safe gateway seen (s' : Server) u auth base :
  inv s' -> s' ∈ seen -> authenticated s' (later 1 now) r u auth base ->
  safe Q seen (proxy_prog gateway s (applyIdentity s (later 4 now) base u auth)).
Proof.
  intros Hi Hin Ha. assert (civil_request s' now r) as Hciv'.
  { destruct Hciv as [Hk Hr Hy Hn]. split; try done. unfold region in *. by rewrite (inv_same_cfg s' Hi). }
  assert (user u) as Hu by (by eapply (authenticated_user sound user c s')).
  pose proof (authenticated_injectable s' now r u auth base Hciv' (Hsafe u Hu) Ha) as Hinj.
  rewrite (applyIdentity_same s' _ _ _ _ Hi). apply safe_proxy; [apply handed_over_later|]. exists u.
  split; [done|exists s', auth, base; by split_and!|by apply applyIdentity_identity|].
  intros target. apply applyIdentity_delivered; [by eapply authenticated_header|done].
Qed.

Lemma serveSTS_safe rand :
  fills rand -> safe Q [] (ServeHTTP_prog (cfg_STS (cfg s)) (later 1 now) rand (with_body r (MaxBytesReader maxSTSBodyBytes (Body r)))).
Proof.
  intros Hf. unfold ServeHTTP_prog. destruct (read_params _ _) as [p|rf]; [|done]. intros s0 Hs0.
  destruct (Validate _ _ (validator s0)) as [v' [id|e]] eqn:Ev; cbn [snd]; [|by destruct (mapTokenError e)].
  destruct (_ <=? 0)%Z; [done|]. destruct (Mint _ 1 _ _ _) as [cr|] eqn:Em; [|done].
  pose proof (Mint_minted _ _ _ _ _ _ Hf Em) as Hm. split; [|done].
  split; [done|]. split; [|by eapply minted_self]. rewrite (minted_username _ _ _ _ Hm).
  eapply validate_user; [|exact Ev]. apply Hs0.
Qed.

Lemma serveBearer_safe gateway tok reqID :
  HGet (RHeader r) "Authorization" = "Bearer " +:+ tok -> safe Q [] (serveBearer_prog gateway (later 1 now) r tok reqID s).
Proof.
  intros Ht. apply safe_finally; [apply handed_over_later|]. destruct (BearerEnabled _) eqn:En; cbn [negb]; [|done]. intros s0 Hs0 s1 _.
  destruct (Validate _ _ (validator s0)) as [v' [id|e]] eqn:Ev; cbn [snd]; [|by destruct (mapBearerError e)]. intros s2 _.
  apply (proxy_safe gateway _ s0); [done|set_solver|]. eapply by_bearer; [done|by rewrite (inv_same_cfg s0 Hs0)|exact Ev].
Qed.

Lemma serveSigV4_safe gateway reqID :
  IsSigV4 (HGet (RHeader r) "Authorization") = true ->
  safe Q [] (serveSigV4_prog gateway (later 1 now) r (HGet (RHeader r) "Authorization") reqID s).
Proof.
  intros H4. apply safe_finally; [apply handed_over_later|]. destruct (ParseAuthorization _) as [a|] eqn:Ea; [|done]. intros s0 Hs0.
  destruct (checked _ _ _) as [cr|rj] eqn:Ec; [|done]. apply (checked_holds s0 (later 1 now)) in Ec. intros s1 _.
  destruct (Verify _) eqn:Ev; [done|]. intros s2 _. rewrite (lane_input_same s0) in Ev by done.
  apply (proxy_safe gateway _ s0); [done|set_solver|by apply by_sigv4].
Qed.

Lemma servePresigned_safe gateway reqID :
  HGet (RHeader r) "Authorization" = "" -> safe Q [] (servePresigned_prog gateway (later 1 now) r reqID s).
Proof.
  intros He. apply safe_finally; [apply handed_over_later|]. destruct (ParsePresigned r) as [a|] eqn:Ea; [|done]. intros s0 Hs0.
  destruct (checked _ _ _) as [cr|rj] eqn:Ec; [|done]. apply (checked_holds s0 (later 1 now)) in Ec. intros s1 _.
  destruct (VerifyPresigned _) eqn:Ev; [done|]. intros s2 _. rewrite (presign_input_same s0) in Ev by done.
  apply (proxy_safe gateway _ s0); [done|set_solver|by eapply by_presigned].
Qed.

Lemma serveUnauthenticated_safe gateway reqID : safe Q [] (serveUnauthenticated_prog gateway r reqID s).
Proof. unfold serveUnauthenticated_prog. rewrite (inv_cfg _ _ _ _ Hinv), Hstrict. by destruct (IsSigV2Query r). Qed.

Lemma serve_safe gateway rand : fills rand -> safe Q [] (serve_prog gateway now rand r s).
Proof.
  intros Hf. unfold serve_prog. destruct (isSTSRequest r).
  { apply safe_finally; [apply handed_over_later|]. apply serveSTS_safe. intros i n b Hb. by apply (Hf (1 + i)). }
  destruct (HasPrefix _ "Bearer ") eqn:Eb.
  { apply HasPrefix_true in Eb as [tok Et]. rewrite Et. unfold TrimPrefix. rewrite CutPrefix_app. by apply serveBearer_safe. }
  destruct (IsSigV4 _) eqn:E4; [by apply serveSigV4_safe|].
  destruct (seqb_spec (HGet (RHeader r) "Authorization") "") as [Ee|_]; cbn [andb]; [|apply serveUnauthenticated_safe].
  destruct (IsPresigned r); [by apply servePresigned_safe|apply serveUnauthenticated_safe].
Qed.

End Handlers.

Lemma new_machine_inv v w s : sound v -> New c v Memory.NewMemory w = Some s -> machine_inv inv put_ok handed_over (Machine s []).
Proof. intros Hv Hn. split; [|done]. apply (reachable_inv sound user). by eapply reach_new. Qed.

End Config.
End Attribution.

(** ** Runs inside the machine *)

Section Runs.
Context `{GoLib} {V : Type} `{TokenValidator V}.
Abbreviation Server := (@Server V Memory.t).
Context (arrives : Server -> Clock -> Entropy -> Request -> Prop).
Abbreviation machine_step := (machine_step arrives).

(** The next call stores a record under [k]. *)
Definition stores (k : string) (a : action) : Prop :=
  match a with PutThen _ c _ => cr_AccessKeyID c = k | _ => False end.

(** A step of a machine in which no exchange is about to store under [k]. *)
Definition quiet_step (k : string) (p p' : @machine V) : Prop :=
  machine_step p p' /\ Forall (fun th => ~ stores k (rest th)) (threads p).

Definition lacks (k : string) (s : Server) : Prop := Memory.Get k (store s) = None.

(** The key is in no state that thread [j] has seen, nor in the present one. *)
Record forgotten (k : string) (j : nat) (p : @machine V) : Prop := {
  fg_shared : lacks k (shared p);
  fg_saw : forall th, threads p !! j = Some th -> Forall (lacks k) (saw th)
}.

Lemma step_action_lacks k (s s' : Server) a a' :
  lacks k s -> ~ stores k a -> step_action a s = Some (s', a') -> lacks k s'.
Proof.
  unfold lacks. intros Hk Hn. destruct a as [t q next|t cr next|t q next|now tok next|g next|response out]; cbn [step_action stores] in *.
  - by intros [= <- <-].
  - cbn [Put memory_store]. intros [= <- <-]. unfold Memory.Get, Memory.Put in *. cbn. by rewrite lookup_insert_ne.
  - cbn [Delete memory_store]. intros [= <- <-]. unfold Memory.Get, Memory.Delete in *. cbn. apply lookup_delete_None. by right.
  - destruct (Validate now tok (validator s)). by intros [= <- <-].
  - by intros [= <- <-].
  - done.
Qed.

Lemma quiet_step_forgotten k j p p' : forgotten k j p -> quiet_step k p p' -> forgotten k j p'.
Proof.
  intros [Hs Hl] [Hst Hq]. destruct Hst as [s l th Hth|s l i o seen a s' a' Hth Hstep|s l t]; cbn [shared threads] in *.
  - split; [done|]. cbn [threads]. intros th' [Hj|[_ Hj]]%lookup_app_Some; [by apply Hl|].
    apply list_lookup_singleton_Some in Hj as [_ <-]. by destruct Hth.
  - pose proof (Forall_lookup_1 _ _ _ _ Hq Hth) as Ha. cbn [rest] in Ha. split; [exact (step_action_lacks k s s' a a' Hs Ha Hstep)|]. cbn [threads]. intros th' Hj.
    apply list_lookup_insert_Some in Hj as [(<- & <- & _)|[_ Hj]]; [|by apply Hl].
    cbn [saw]. apply Forall_cons. split; [done|]. by apply (Hl _ Hth).
  - split; [|done]. unfold lacks, Memory.Get, Memory.sweep in *. cbn. apply map_lookup_filter_None. by left.
Qed.

Lemma quiet_forgotten k j p p' : forgotten k j p -> rtc (quiet_step k) p p' -> forgotten k j p'.
Proof. intros Hf Hr. induction Hr as [|p p1 p2 Hs _ IH]; [done|]. apply IH. by eapply quiet_step_forgotten. Qed.

Lemma quiet_machine_steps k p p' : rtc (quiet_step k) p p' -> rtc machine_step p p'.
Proof. induction 1 as [|p p1 p2 [Hs _] _ IH]; [done|]. by eapply rtc_l. Qed.

(** A program that never stores under [k]. *)
Fixpoint silent (k : string) (a : action) : Prop :=
  match a with
  | GetThen _ _ next => forall o, silent k (next o)
  | PutThen _ c next => cr_AccessKeyID c <> k /\ forall o, silent k (next o)
  | DeleteThen _ _ next => forall o, silent k (next o)
  | ValidateThen _ _ next => forall o, silent k (next o)
  | MeasureThen _ next => silent k next
  | Done _ _ => True
  end.

Lemma silent_stores k a : silent k a -> ~ stores k a.
Proof. destruct a; cbn; tauto. Qed.

Lemma silent_finally k f a : silent k a -> silent k (finally f a).
Proof. induction a; cbn; naive_solver. Qed.

Lemma silent_proxy k gateway (s : Server) r : silent k (proxy_prog gateway s r).
Proof. unfold proxy_prog. by destruct (proxy_ServeHTTP _ _ _) as [response []]. Qed.

(** Only an exchange that draws [k] stores under it. *)
Lemma silent_serve k gateway now rand r (s : Server) :
  (isSTSRequest r = true -> never_mints rand k) -> silent k (serve_prog gateway now rand r s).
Proof.
  intros Hn. unfold serve_prog. destruct (isSTSRequest r).
  { specialize (Hn eq_refl). apply silent_finally. unfold ServeHTTP_prog. destruct (read_params _ _) as [q|rf]; [|done].
    intros [id|e]; [|by destruct (mapTokenError e)]. destruct (_ <=? 0)%Z; [done|].
    destruct (Mint _ 1 _ _ _) as [cr|] eqn:Em; [|done]. split; [by apply (Hn _ _ _ _ Em)|by intros [|]]. }
  clear Hn. destruct (HasPrefix _ "Bearer "); [|destruct (IsSigV4 _); [|destruct (_ && _)]]; apply silent_finally.
  - destruct (negb _); [done|]. intros [id|e]; [apply silent_proxy|by destruct (mapBearerError e)].
  - destruct (ParseAuthorization _); [|done]. intros o. destruct (checked _ _ o); [|done].
    destruct (Verify _); [done|apply silent_proxy].
  - destruct (ParsePresigned r); [|done]. intros o. destruct (checked _ _ o); [|done].
    destruct (VerifyPresigned _); [done|apply silent_proxy].
  - destruct (StrictEnabled _); [by destruct (IsSigV2Query r)|apply silent_proxy].
Qed.

Lemma silent_revoke k now akid : silent k (handleRevoke_prog now akid).
Proof. intros [[c|]|]; [by intros [|]|done|done]. Qed.

(** One call of thread [i], and what it leads to. *)
Lemma quiet_call k (s s' : Server) l i o seen a a' p :
  l !! i = Some (Thread o seen a) -> Forall (fun th => ~ stores k (rest th)) l -> step_action a s = Some (s', a') ->
  rtc (quiet_step k) (Machine s' (<[i := Thread o (s :: seen) a']> l)) p -> rtc (quiet_step k) (Machine s l) p.
Proof. intros Hth Hl Hst Hr. eapply rtc_l; [|exact Hr]. split; [by eapply machine_call|done]. Qed.

(** A thread may always be run to its end, the others waiting. *)
Lemma run_in_machine k a : forall (s : Server) l i o seen,
  silent k a -> l !! i = Some (Thread o seen a) -> Forall (fun th => ~ stores k (rest th)) l ->
  exists seen', rtc (quiet_step k) (Machine s l)
    (Machine (after (run a s)) (<[i := Thread o seen' (Done (resp (run a s)) (handed (run a s)))]> l)).
Proof.
  assert (forall (s s' : Server) l i o seen a0 a', silent k a' ->
    l !! i = Some (Thread o seen a0) -> Forall (fun th => ~ stores k (rest th)) l -> step_action a0 s = Some (s', a') ->
    (forall l' seen', l' !! i = Some (Thread o seen' a') -> Forall (fun th => ~ stores k (rest th)) l' ->
      exists seen2, rtc (quiet_step k) (Machine s' l')
        (Machine (after (run a' s')) (<[i := Thread o seen2 (Done (resp (run a' s')) (handed (run a' s')))]> l'))) ->
    exists seen2, rtc (quiet_step k) (Machine s l)
        (Machine (after (run a' s')) (<[i := Thread o seen2 (Done (resp (run a' s')) (handed (run a' s')))]> l))) as Hcall.
  { intros s s' l i o seen a0 a' Ha' Hth Hl Hst Hrest.
    destruct (Hrest (<[i := Thread o (s :: seen) a']> l) (s :: seen)) as [seen2 Hr].
    - apply list_lookup_insert_eq. by apply lookup_lt_Some in Hth.
    - apply Forall_insert; [done|]. by apply silent_stores.
    - rewrite list_insert_insert_eq in Hr. exists seen2. by eapply quiet_call. }
  induction a as [t q next IH|t c next IH|t q next IH|now tok next IH|f next IH|response out]; intros s l i o seen Ha Hth Hl; cbn [run].
  - destruct (Get t q (store s)) as [st x] eqn:E. eapply Hcall; [apply Ha|exact Hth|done|cbn [step_action]; by rewrite E|].
    intros l' seen' Hth' Hl'. by apply (IH x _ l' i o seen').
  - destruct (Put t c (store s)) as [st x] eqn:E. destruct Ha as [_ Ha].
    eapply Hcall; [apply Ha|exact Hth|done|cbn [step_action]; by rewrite E|]. intros l' seen' Hth' Hl'. by apply (IH x _ l' i o seen').
  - destruct (Delete t q (store s)) as [st x] eqn:E. eapply Hcall; [apply Ha|exact Hth|done|cbn [step_action]; by rewrite E|].
    intros l' seen' Hth' Hl'. by apply (IH x _ l' i o seen').
  - destruct (Validate now tok (validator s)) as [v x] eqn:E. eapply Hcall; [apply Ha|exact Hth|done|cbn [step_action]; by rewrite E|].
    intros l' seen' Hth' Hl'. by apply (IH x _ l' i o seen').
  - eapply Hcall; [apply Ha|exact Hth|done|done|]. intros l' seen' Hth' Hl'. by apply (IH _ l' i o seen').
  - exists seen. cbn [after resp handed]. by rewrite list_insert_id.
Qed.

End Runs.

(** ** Revocation: a request is handed over only if its key was found *)

Section Revocation.
Context `{GoLib} {V : Type} `{TokenValidator V}.
Abbreviation Server := (@Server V Memory.t).

(** The request is signed with the key [k], by header or presigned. *)
Definition signed_with (r : Request) (k : string) : Prop :=
  (exists auth, IsSigV4 (HGet (RHeader r) "Authorization") = true /\
     ParseAuthorization (HGet (RHeader r) "Authorization") = Ok auth /\ AccessKeyID auth = k) \/
  (exists auth, HGet (RHeader r) "Authorization" = "" /\ ParsePresigned r = Ok auth /\
     AccessKeyID (p_Authorization auth) = k).

(** One of the states seen held a record for the key the request is signed
    with. *)
Definition found_key (r : Request) (seen : list Server) : Prop :=
  forall k, signed_with r k -> exists s, s ∈ seen /\ Memory.Get k (store s) <> None.

Definition promised (o : option (Clock * Request)) (seen : list Server) (out : Request) : Prop :=
  match o with Some (_, r) => found_key r seen | None => False end.

Definition anything (s : Server) (now : Clock) (rand : Entropy) (r : Request) : Prop := True.

Abbreviation safe := (safe (fun _ : Server => True) (fun _ => True)).

Lemma promised_later o : monotone (promised o).
Proof.
  intros seen s out. destruct o as [[now r]|]; [|done]. intros Hf k Hk. destruct (Hf k Hk) as (s' & Hin & Hs).
  exists s'. split; [by right|done].
Qed.

Lemma checked_found (s : Server) t0 t1 k presented cr :
  checked t1 presented (Get t0 k (store s)).2 = Ok cr -> Memory.Get k (store s) <> None.
Proof. cbn. unfold checked. by destruct (Memory.Get k (store s)). Qed.

(** A request no SigV4 lane takes is signed with no key. *)
Lemma unsigned_found r seen :
  IsSigV4 (HGet (RHeader r) "Authorization") = false ->
  HGet (RHeader r) "Authorization" <> "" \/ IsPresigned r = false -> found_key r seen.
Proof.
  intros H4 Hp k [(auth & E & _)|(auth & Ee & Ea & _)]; [congruence|]. exfalso.
  apply ParsePresigned_IsPresigned in Ea. destruct Hp; congruence.
Qed.

Lemma sigv4_found r a seen s :
  IsSigV4 (HGet (RHeader r) "Authorization") = true -> ParseAuthorization (HGet (RHeader r) "Authorization") = Ok a ->
  s ∈ seen -> Memory.Get (AccessKeyID a) (store s) <> None -> found_key r seen.
Proof.
  intros H4 Ha Hin Hg k [(auth & _ & E & <-)|(auth & E & _)]; [|by rewrite E in H4].
  exists s. split; [done|]. by assert (auth = a) as -> by congruence.
Qed.

Lemma presigned_found r a seen s :
  HGet (RHeader r) "Authorization" = "" -> ParsePresigned r = Ok a ->
  s ∈ seen -> Memory.Get (AccessKeyID (p_Authorization a)) (store s) <> None -> found_key r seen.
Proof.
  intros He Ha Hin Hg k [(auth & E & _)|(auth & _ & E & <-)]; [by rewrite He in E|].
  exists s. split; [done|]. by assert (auth = a) as -> by congruence.
Qed.

Lemma serve_found gateway (s : Server) now rand r : safe (promised (Some (now, r))) [] (serve_prog gateway now rand r s).
Proof.
  pose proof (promised_later (Some (now, r))) as Hm. unfold serve_prog. destruct (isSTSRequest r).
  { apply safe_finally; [done|]. unfold ServeHTTP_prog. destruct (read_params _ _) as [p|rf]; [|done]. intros s0 _.
    destruct (Validate _ _ _).2 as [id|e]; [|by destruct (mapTokenError e)]. destruct (_ <=? 0)%Z; [done|].
    by destruct (Mint _ 1 _ _ _). }
  destruct (HasPrefix _ "Bearer ") eqn:Eb.
  { apply HasPrefix_true in Eb as [tok Et]. apply safe_finally; [done|]. destruct (negb _); [done|]. intros s0 _ s1 _.
    destruct (Validate _ _ _).2 as [id|e]; [|by destruct (mapBearerError e)]. intros s2 _. apply safe_proxy; [done|].
    apply unsigned_found; rewrite Et; [done|by left]. }
  destruct (IsSigV4 _) eqn:E4.
  { apply safe_finally; [done|]. destruct (ParseAuthorization _) as [a|] eqn:Ea; [|done]. intros s0 _.
    destruct (checked _ _ _) as [cr|] eqn:Ec; [|done]. apply checked_found in Ec. intros s1 _. destruct (Verify _); [done|].
    intros s2 _. apply safe_proxy; [done|]. eapply (sigv4_found r a _ s0); [done|done|set_solver|done]. }
  destruct (seqb_spec (HGet (RHeader r) "Authorization") "") as [Ee|Ee]; cbn [andb].
  2:{ apply safe_finally; [done|]. destruct (StrictEnabled _); [by destruct (IsSigV2Query r)|]. apply safe_proxy; [done|].
      apply unsigned_found; [done|by left]. }
  destruct (IsPresigned r) eqn:Ep.
  { apply safe_finally; [done|]. destruct (ParsePresigned r) as [a|] eqn:Ea; [|done]. intros s0 _.
    destruct (checked _ _ _) as [cr|] eqn:Ec; [|done]. apply checked_found in Ec. intros s1 _. destruct (VerifyPresigned _); [done|].
    intros s2 _. apply safe_proxy; [done|]. eapply (presigned_found r a _ s0); [done|done|set_solver|done]. }
  apply safe_finally; [done|]. destruct (StrictEnabled _); [by destruct (IsSigV2Query r)|]. apply safe_proxy; [done|].
  apply unsigned_found; [done|by right].
Qed.

Lemma machine_found (s : Server) m :
  rtc (machine_step anything) (Machine s []) m -> machine_inv (fun _ => True) (fun _ => True) promised m.
Proof.
  intros Hr. apply (machine_reachable_inv anything (fun _ => True) (fun _ => True) promised) with (m := Machine s []); [done| |by split|done].
  intros. apply serve_found.
Qed.

End Revocation.

(** ** Properties *)

(** C15: attribution under concurrency, over the memory store and in strict
    mode.  From a fresh server, whatever requests, revocations and sweeps are
    started and however the single calls they make on store, validator and
    metrics interleave: every stored record was minted by an exchange for an
    admitted user, and a finished request that was handed to the reverse proxy
    authenticated, in a state the server was in while serving it, as a user the
    policy admits; it carries that user, and from what the reverse proxy sends
    the gateway parses that user (none if the client's Connection header names
    Authorization) and finds no session token.  A revocation hands over
    nothing.  Run without interruption the programs are the handlers
    themselves.  Assumed: the policy admits only usernames the credential scope
    can carry, and each request is civil (header names that are tokens, signed
    header names well formed, such a region, four-digit years). *)
Theorem concurrent_attribution `{GoLib} {V : Type} `{TokenValidator V} (sound : V -> Prop) (user : string -> Prop)
    `{!ValidatorLaws V sound user} c v w (s : @Server V Memory.t) p :
  StrictEnabled (cfg_DataPath c) = true -> (forall u, user u -> header_safe u) ->
  sound v -> New c v Memory.NewMemory w = Some s -> rtc (machine_step civil) (Machine s []) p ->
  (cfg (shared p) = c /\ map_Forall (well_minted user) (Memory.creds (store (shared p)))) /\
  (forall i o seen response out, threads p !! i = Some (Thread o seen (Done response (Some out))) ->
     exists now r u, o = Some (now, r) /\ attributed user seen now r out u) /\
  (forall gateway now rand r, run (serve_prog gateway now rand r (shared p)) (shared p) = serve gateway now rand r (shared p)) /\
  (forall now akid, let x := run (handleRevoke_prog now akid) (shared p) in
     (after x, resp x) = handleRevoke now akid (shared p)).
Proof.
  intros Hstrict Hsafe Hv Hn Hr.
  destruct (machine_reachable_inv civil _ _ (handed_over user) (sys_inv_kept sound user c)) with (m := Machine s []) (m' := p)
    as [[Hc _ _ Hs] Hl]; [intros gateway s0 now rand r Hi [Hf Hciv]; by apply serve_safe|by eapply (new_machine_inv sound user c)|done|].
  split_and!; [done|done| |intros; apply run_serve|intros; apply run_revoke].
  intros i o seen response out Hi. pose proof (Forall_lookup_1 _ _ _ _ Hl Hi) as Ht. cbn in Ht. specialize (Ht out eq_refl).
  destruct o as [[now r]|]; [|done]. destruct Ht as [u Hu]. by exists now, r, u.
Qed.

(** C13: revocation under concurrency, over the memory store.  Whatever the
    configuration, the validator and the requests: once a revocation's Delete
    of a key has run, a request signed with that key, by header or presigned,
    that had made no call before it is not handed to the reverse proxy, however
    its calls and those of other requests, revocations and sweeps interleave
    from then on, unless an exchange draws the same key again. *)
Theorem concurrent_revocation `{GoLib} {V : Type} `{TokenValidator V}
    (s s1 s2 : @Server V Memory.t) l i o seen t k next a p j now r seen' response out :
  rtc (machine_step anything) (Machine s []) (Machine s1 l) ->
  l !! i = Some (Thread o seen (DeleteThen t k next)) -> step_action (DeleteThen t k next) s1 = Some (s2, a) ->
  rtc (quiet_step anything k) (Machine s2 (<[i := Thread o (s1 :: seen) a]> l)) p ->
  (forall th, l !! j = Some th -> saw th = []) -> j <> i ->
  threads p !! j = Some (Thread (Some (now, r)) seen' (Done response out)) -> signed_with r k ->
  out = None.
Proof.
  intros Hr1 Hi Hst Hr2 Hj Hne Hth Hkey. destruct out as [out|]; [|done]. exfalso.
  assert (forgotten k j (Machine s2 (<[i := Thread o (s1 :: seen) a]> l))) as Hf.
  { cbn in Hst. injection Hst as <- <-. split; [apply lookup_delete_eq|]. cbn [threads]. intros th Hl.
    rewrite list_lookup_insert_ne in Hl by done. by rewrite (Hj th Hl). }
  pose proof (quiet_forgotten _ _ _ _ _ Hf Hr2) as [_ Hs]. specialize (Hs _ Hth). cbn [saw] in Hs.
  destruct (machine_found s p) as [_ Hl].
  { etrans; [exact Hr1|]. eapply rtc_l; [by eapply machine_call|]. by eapply quiet_machine_steps. }
  pose proof (Forall_lookup_1 _ _ _ _ Hl Hth) as Ht. cbn in Ht. destruct (Ht out eq_refl k Hkey) as (s' & Hin & Hg).
  apply (proj1 (Forall_forall _ _) Hs) in Hin. done.
Qed.

Section Witnesses.
Import DemoServer.

Abbreviation machine := (@machine Validator).

Lemma zero_never_mints_empty : never_mints zero_entropy "".
Proof.
  intros u i t c Hm. apply Mint_minted in Hm; [|intros x n b; apply (zero_entropy_fills (1 + x))].
  apply minted_header_safe in Hm as [Hs _]. intros E. rewrite E in Hs. by destruct Hs.
Qed.

(** Starting a request on [s] and running it to its end, whatever else waits. *)
Lemma serve_in_machine arrives k (s : @Server Validator Memory.t) l r :
  arrives s now zero_entropy r -> (isSTSRequest r = true -> never_mints zero_entropy k) ->
  Forall (fun th => ~ stores k (rest th)) l ->
  let x := serve gateway now zero_entropy r s in
  exists seen, rtc (quiet_step arrives k) (Machine s l) (Machine (after x) (l ++ [Thread (Some (now, r)) seen (Done (resp x) (handed x))])).
Proof.
  intros Hc Hn Hl x. pose proof (silent_serve k gateway now zero_entropy r s Hn) as Hsil.
  destruct (run_in_machine arrives k (serve_prog gateway now zero_entropy r s) s (l ++ [Thread (Some (now, r)) [] (serve_prog gateway now zero_entropy r s)])
    (length l) (Some (now, r)) [] Hsil) as [seen Hr].
  - by rewrite lookup_app_r, Nat.sub_diag by done.
  - apply Forall_app. split; [done|]. apply Forall_singleton. by apply silent_stores.
  - exists seen. rewrite run_serve in Hr. rewrite insert_app_r_alt, Nat.sub_diag in Hr by done. cbn in Hr.
    eapply rtc_l; [|exact Hr]. split; [|done]. apply machine_start. by apply starts_request.
Qed.

Lemma concurrent_attribution_witness :
  exists (p : machine) i seen response out u, rtc (machine_step civil) (Machine demo_new []) p /\
    threads p !! i = Some (Thread (Some (now, bearer)) seen (Done response (Some out))) /\ identity_of out = Some u.
Proof.
  destruct (handed (serve gateway now zero_entropy bearer demo_new)) as [out|] eqn:E; [|vm_compute in E; discriminate E].
  destruct (serve_in_machine civil "" demo_new [] bearer (conj zero_entropy_fills demo_civil) (fun _ => zero_never_mints_empty) (Forall_nil_2 _)) as [seen Hr].
  cbv zeta in Hr. rewrite E in Hr. apply quiet_machine_steps in Hr.
  destruct (concurrent_attribution (trusts config) (admitted config) config warm (fun _ => 0%Z) demo_new _
    eq_refl admitted_safe (in_use_trusts _ _ warm_in_use) eq_refl Hr) as (_ & Ht & _).
  destruct (Ht 0 _ _ _ _ eq_refl) as (now' & r & u & [= <- <-] & Hu).
  exists (Machine (after (serve gateway now zero_entropy bearer demo_new))
    ([] ++ [Thread (Some (now, bearer)) seen (Done (resp (serve gateway now zero_entropy bearer demo_new)) (Some out))])), 0,
    seen, (resp (serve gateway now zero_entropy bearer demo_new)), out, u.
  split; [exact Hr|]. split; [reflexivity|apply (at_identity _ _ _ _ _ _ Hu)].
Defined.

(** The key the first exchange draws, its record, and a GET signed with it. *)
Definition demo_key : string := "OZPXGGGGGGGGGGGGGGGG".

Definition demo_creds : Credentials := Eval vm_compute in
  default (mkCredentials "" "" "" "" "" 0%Z) (Memory.Get demo_key (store demo_exchanged)).

Definition demo_signed : Request := Eval vm_compute in (Sign (client_sign (demo_get demo_creds) demo_creds "us-east-1" (1000 * Second)%Z)).1.

(** The server once the key is deleted. *)
Definition demo_revoked : @Server Validator Memory.t := with_store demo_exchanged (Memory.Delete demo_key (store demo_exchanged)).

(** An exchange runs, a revocation of its key looks the record up and deletes
    it, and a request signed with the record, forwarded before, is refused. *)
Lemma concurrent_revocation_witness :
  handed (serve gateway now zero_entropy demo_signed demo_exchanged) <> None /\
  handed (serve gateway now zero_entropy demo_signed demo_revoked) = None.
Proof.
  split; [apply some_not_none; vm_compute; reflexivity|].
  destruct (serve_in_machine anything "" demo_new [] (DemoExchange.request "900") I (fun _ => zero_never_mints_empty)
    (Forall_nil_2 _)) as [seen0 H0].
  apply quiet_machine_steps in H0. cbv zeta in H0. fold demo_exchanged in H0.
  set (th0 := Thread _ seen0 _) in H0.
  assert (Memory.Get demo_key (store demo_exchanged) = Some demo_creds) as Hget by (vm_compute; reflexivity).
  assert (match ParseAuthorization (HGet (RHeader demo_signed) "Authorization") with Ok a => AccessKeyID a =s demo_key | Err _ => false end
          = true) as E by (vm_compute; reflexivity).
  destruct (ParseAuthorization (HGet (RHeader demo_signed) "Authorization")) as [auth|e] eqn:Ea; [|discriminate E].
  assert (AccessKeyID auth = demo_key) as Hk by (apply String.eqb_eq, E). clear E.
  set (done_prog := fun err : option string => match err with
        | Some _ => MeasureThen (count_revocation "error") (Done (http_Error "credential store unavailable" 503) None)
        | None => MeasureThen (count_revocation "revoked") (Done (mkResponse 204 "" "") None)
        end).
  set (th1 := Thread None [demo_exchanged] (DeleteThen (now 1) demo_key done_prog)).
  assert (rtc (machine_step anything) (Machine demo_new []) (Machine demo_exchanged [th0; th1])) as H1.
  { etrans; [exact H0|]. eapply rtc_l; [apply machine_start, (starts_revoke anything demo_exchanged now demo_key)|].
    apply rtc_once. apply (machine_call anything demo_exchanged [th0; Thread None [] (handleRevoke_prog now demo_key)] 1 None []
      (handleRevoke_prog now demo_key)); [reflexivity|].
    unfold handleRevoke_prog. cbn [step_action Get memory_store]. rewrite Hget. reflexivity. }
  destruct (serve_in_machine anything demo_key demo_revoked [th0; Thread None [demo_exchanged; demo_exchanged] (done_prog None)] demo_signed) as [seen2 H2].
  - exact I.
  - assert (isSTSRequest demo_signed = false) as E by (vm_compute; reflexivity). rewrite E. discriminate.
  - apply Forall_cons. split; [intros []|]. apply Forall_singleton. intros [].
  - refine (concurrent_revocation demo_new demo_exchanged demo_revoked [th0; th1] 1 None [demo_exchanged] (now 1) demo_key
      done_prog (done_prog None) _ 2 now demo_signed seen2 _ _ H1 eq_refl eq_refl H2 _ _ eq_refl _).
    + intros th Hth. discriminate Hth.
    + discriminate.
    + left. exists auth. split; [vm_compute; reflexivity|]. split; [exact Ea|exact Hk].
Defined.

End Witnesses.
