(* ===== verification/Valkey.v ===== *)
(** * Package store: the valkey store

    Models internal/store/valkey.go: the value key, sealing records with
    AES-256-GCM bound to their access key ID, the JSON of a record, the commands
    sent to the server, and the SCAN loop of [Count].  The cipher, the local
    time zone, and the valkey client with the server behind it are the class
    [ValkeyLib]; what the store relies on is [ValkeyLaws]. *)

From Stdlib Require Import Ascii String ZArith NArith Bool Lia.
From stdpp Require Import base tactics list strings gmap.
From S2P Require Import Prelude GoStrings GoTime GoRfc3339 GoXml GoJson Store.

Definition valkeyPrefix : string := "ozpx:cred:".
Definition StoreKeyBytes : nat := 32.

(** ** base64.StdEncoding *)

Definition base64std : string :=
  "ABCDEFGHIJKLMNOPQRSTUVWXYZabcdefghijklmnopqrstuvwxyz0123456789+/".

Definition b64std_chr (n : N) : ascii := default "A"%char (String.get (N.to_nat n) base64std).

(** The value of a base64 digit. *)
Definition b64std_val (c : ascii) : option N :=
  if is_upper c then Some (code c - 65)%N
  else if is_lower c then Some (code c - 71)%N
  else if is_digit c then Some (code c + 4)%N
  else if Ascii.eqb c "+" then Some 62%N
  else if Ascii.eqb c "/" then Some 63%N
  else None.

Definition byte_of (v : N) (shift : N) : ascii := chr (v / 2 ^ shift mod 256).

(** Decoding of quanta: four digits, or the last one with [=] padding, whose
    unused bits are not checked. *)
Fixpoint std_decode_quanta (s : string) : option string :=
  match s with
  | EmptyString => Some EmptyString
  | String a (String b (String c (String d r))) =>
      match b64std_val a, b64std_val b with
      | Some va, Some vb =>
          let v2 := (va * 262144 + vb * 4096)%N in
          match b64std_val c with
          | Some vc =>
              let v3 := (v2 + vc * 64)%N in
              match b64std_val d with
              | Some vd =>
                  let v := (v3 + vd)%N in
                  (fun t => String (byte_of v 16) (String (byte_of v 8) (String (byte_of v 0) t)))
                    <$> std_decode_quanta r
              | None =>
                  if Ascii.eqb d "=" && (r =s "")
                  then Some (String (byte_of v3 16) (String (byte_of v3 8) EmptyString)) else None
              end
          | None =>
              if Ascii.eqb c "=" && Ascii.eqb d "=" && (r =s "")
              then Some (String (byte_of v2 16) EmptyString) else None
          end
      | _, _ => None
      end
  | _ => None
  end.

(** [base64.StdEncoding.DecodeString] skips CR and LF. *)
Definition StdDecode (s : string) : option string :=
  std_decode_quanta (sfilter (fun c => negb ((code c =? 10) || (code c =? 13))%N) s).

Definition ParseStoreKey (s : string) : res string string :=
  match StdDecode s with
  | None => Err "store key is not valid base64"
  | Some key =>
      if negb (String.length key =? StoreKeyBytes)%nat
      then Err ("store key must decode to 32 bytes, got " +:+ Itoa (Z.of_nat (String.length key)))
      else Ok key
  end.

(** ** The library *)

Class ValkeyLib := {
  (** [cipher.AEAD] for a 32-byte key: [Seal] and [Open], given the nonce. *)
  aead_Seal : string -> string -> string -> string -> string;
  aead_Open : string -> string -> string -> string -> option string;
  (** [time.Local]: seconds east of UTC at an instant. *)
  local_offset : Time -> Z;
  (** The client with its cache, and the server; each command with the instant
      it is executed.  [None] as a value is the nil reply. *)
  Client : Type;
  valkey_Set : Time -> string -> string -> Z -> Client -> Client * option string;
  valkey_GetCached : Time -> string -> Duration -> Client -> Client * res string (option string);
  valkey_Del : Time -> string -> Client -> Client * option string;
  valkey_Scan : N -> string -> Client -> res string (N * list string)
}.

(** ** The JSON of a record *)

(** [json.Marshal] of [Credentials], in the local zone of its clock: no field
    has a tag, so the members are named as the fields. *)
Definition credentials_json (c : Credentials) (expires : string) : json :=
  JObj [("AccessKeyID", JStr (cr_AccessKeyID c)); ("SecretAccessKey", JStr (cr_SecretAccessKey c));
        ("SessionToken", JStr (cr_SessionToken c)); ("Username", JStr (cr_Username c));
        ("Issuer", JStr (cr_Issuer c)); ("ExpiresAt", JStr expires)].

Definition json_Marshal (offset : Z) (c : Credentials) : option string :=
  expires ← Time_MarshalText offset (cr_ExpiresAt c); Some (Marshal (credentials_json c expires)).

(** [json.Unmarshal] into a zero [Credentials]. *)
Definition json_Unmarshal (s : string) : option Credentials :=
  l ← decode_object s;
  let names := ["AccessKeyID"; "SecretAccessKey"; "SessionToken"; "Username"; "Issuer"; "ExpiresAt"] in
  let text name := string_field (map fst (field_values names name l)) in
  akid ← text "AccessKeyID"; secret ← text "SecretAccessKey"; token ← text "SessionToken";
  username ← text "Username"; issuer ← text "Issuer"; expires ← time_field (field_values names "ExpiresAt" l);
  Some (mkCredentials akid secret token username issuer expires).

(** Records JSON represents: text, an expiry in a year of four digits, and a
    zone whose offset is whole minutes. *)
Definition json_representable (offset : Z) (c : Credentials) : Prop :=
  Forall (fun s => utf8_text s = true)
    [cr_AccessKeyID c; cr_SecretAccessKey c; cr_SessionToken c; cr_Username c; cr_Issuer c] /\
  zone_ok offset /\ four_digit_year (cr_ExpiresAt c + offset * Second)%Z.

(** [aead.NonceSize()] of GCM. *)
Definition NonceSize : nat := 12.

Section Valkey.
Context `{ValkeyLib}.

(** The immutable part of the store. *)
Record Valkey := mkValkey { aead : string; retention : Duration; cacheTTL : Duration }.

Definition newAEAD (key : string) : res string string :=
  if negb (String.length key =? StoreKeyBytes)%nat
  then Err ("store key must be 32 bytes, got " +:+ Itoa (Z.of_nat (String.length key)))
  else Ok key.

(** [WithValkeyRetention], [WithValkeyCacheTTL] *)
Definition WithValkeyRetention (d : Duration) (v : Valkey) : Valkey := mkValkey (aead v) d (cacheTTL v).
Definition WithValkeyCacheTTL (d : Duration) (v : Valkey) : Valkey := mkValkey (aead v) (retention v) d.

(** [NewValkey], given the outcome of [valkey.NewClient]. *)
Definition NewValkey (addr key : string) (client : option Client) (opts : list (Valkey -> Valkey)) : res string (Valkey * Client) :=
  let? a := newAEAD key in
  match client with
  | None => Err ("valkey connect " +:+ addr)
  | Some c => Ok (fold_left (fun v opt => opt v) opts (mkValkey a Hour (10 * Second)%Z), c)
  end.

(** [seal]: nonce followed by ciphertext; [nonce] is what [rand.Read] gave. *)
Definition seal (key : string) (nonce : option string) (plain aad : string) : option string :=
  match nonce with
  | None => None
  | Some n => Some (n +:+ aead_Seal key n plain aad)
  end.

Definition open_ (key sealed aad : string) : option string :=
  if (String.length sealed <? NonceSize)%nat then None
  else aead_Open key (stake NonceSize sealed) (sdrop NonceSize sealed) aad.

(** The time to live of a record, in milliseconds. *)
Definition record_ttl (v : Valkey) (expiresAt now : Time) : Z :=
  let ttl := Sub (Add expiresAt (retention v)) now in
  Milliseconds (if (ttl <=? 0)%Z then retention v else ttl).

Definition vk_Put (v : Valkey) (nonce : option string) (now : Time) (creds : Credentials) (s : Client)
    : Client * option string :=
  match json_Marshal (local_offset (cr_ExpiresAt creds)) creds with
  | None => (s, Some "json: error calling MarshalJSON for type time.Time")
  | Some plain =>
      match seal (aead v) nonce plain (cr_AccessKeyID creds) with
      | None => (s, Some "rand: failure")
      | Some sealed =>
          valkey_Set now (valkeyPrefix +:+ cr_AccessKeyID creds) sealed
            (record_ttl v (cr_ExpiresAt creds) now) s
      end
  end.

Definition vk_Get (v : Valkey) (now : Time) (akid : string) (s : Client)
    : Client * res string (option Credentials) :=
  match valkey_GetCached now (valkeyPrefix +:+ akid) (cacheTTL v) s with
  | (s', Err e) => (s', Err ("valkey get: " +:+ e))
  | (s', Ok None) => (s', Ok None)
  | (s', Ok (Some data)) =>
      (s', match open_ (aead v) data akid with
           | None => Err "credential record failed decryption (store key mismatch or record/key mismatch?)"
           | Some plain =>
               match json_Unmarshal plain with
               | None => Err "credential record corrupt"
               | Some creds => Ok (Some creds)
               end
           end)
  end.

Definition vk_Delete (now : Time) (akid : string) (s : Client) : Client * option string :=
  valkey_Del now (valkeyPrefix +:+ akid) s.

(** The SCAN loop of [Count]; [None] when [fuel] pages were not enough. *)
Fixpoint scan_loop (fuel : nat) (cursor : N) (total : Z) (s : Client) : option (res string Z) :=
  match fuel with
  | 0 => None
  | S fuel' =>
      match valkey_Scan cursor (valkeyPrefix +:+ "*") s with
      | Err e => Some (Err ("valkey scan: " +:+ e))
      | Ok (next, elements) =>
          let total := (total + Z.of_nat (length elements))%Z in
          if (next =? 0)%N then Some (Ok total) else scan_loop fuel' next total s
      end
  end.

Definition vk_Count (fuel : nat) (s : Client) : option (res string Z) := scan_loop fuel 0 0 s.

(** The store the handlers see: a valkey configuration, the nonce the next
    [Put] reads, and the fuel of [Count]. *)
Definition valkey_store (v : Valkey) (nonce : option string) (fuel : nat) : Store Client := {|
  Put := vk_Put v nonce;
  Get := vk_Get v;
  Delete := vk_Delete;
  Count _ s := default (Err "scan did not end") (vk_Count fuel s)
|}.

End Valkey.

(** ** Documented behaviour *)

Class ValkeyLaws `{ValkeyLib} := {
  (** GCM: opening inverts sealing, and only a sealed value opens. *)
  open_seal : forall key nonce plain aad, aead_Open key nonce (aead_Seal key nonce plain aad) aad = Some plain;
  open_only_sealed : forall key nonce ct aad plain,
    aead_Open key nonce ct aad = Some plain -> ct = aead_Seal key nonce plain aad;
  (** SET with PX, then GET before the key expires, when the client had not
      cached the key. *)
  uncached : string -> Client -> Prop;
  set_get : forall now now' k v ms ttl s s' s'' o,
    uncached k s -> valkey_Set now k v ms s = (s', None) ->
    (now <= now' < now + ms * 1000000)%Z ->
    valkey_GetCached now' k ttl s' = (s'', Ok o) -> o = Some v
}.

(** ** Lemmas *)

(** The text of an instant stands in JSON as it is. *)
Lemma instant_bytes_plain text : sall is_instant_byte text = true ->
  json_escape text 0 = text /\ utf8_text text = true.
Proof.
  unfold utf8_text. induction text as [|c r IH]; [done|]. cbn [sall]. intros [Hc Hr]%andb_true_iff.
  destruct (IH Hr) as [He Hu]. split.
  - cbn [json_escape]. assert (is_ascii7 c = true /\ json_byte c = String c "") as [-> ->]; [|cbn [String.append]; by rewrite He].
    clear -Hc. destruct c as [[] [] [] [] [] [] [] []]; vm_compute in Hc; try discriminate Hc; done.
  - cbn [utf8_go]. assert (rune_width (String c r) = 1%nat) as ->; [|done].
    unfold rune_width. clear -Hc. destruct c as [[] [] [] [] [] [] [] []]; vm_compute in Hc; try discriminate Hc; done.
Qed.

Lemma UnmarshalJSON_quoted text old :
  sall is_instant_byte text = true -> Time_UnmarshalJSON (json_quote text) old = Parse_rfc3339 text.
Proof.
  intros Ht. unfold json_quote. rewrite (proj1 (instant_bytes_plain text Ht)). unfold Time_UnmarshalJSON.
  destruct (seqb_spec (String dq (text +:+ String dq "")) "null"); [done|].
  rewrite Ascii.eqb_refl, HasSuffix_app. cbn [andb]. rewrite slength_app. cbn [String.length].
  by rewrite Nat.add_sub, stake_app_length.
Qed.

(** A representable record survives the codec. *)
Lemma json_roundtrip offset c : json_representable offset c ->
  exists plain, json_Marshal offset c = Some plain /\ json_Unmarshal plain = Some c.
Proof.
  destruct c as [akid secret token username issuer expires]. intros (Hu & Hz & Hy). cbn in Hu, Hy.
  repeat apply Forall_cons in Hu as [? Hu].
  assert (exists text, Time_MarshalText offset expires = Some text) as [text Ht].
  { unfold Time_MarshalText, four_digit_year in *. destruct Hy. destruct (zone_minutes _ Hz) as (_ & ? & _).
    rewrite (proj2 (Z.leb_le 0 _)), (proj2 (Z.leb_le _ 9999)), (proj2 (Z.ltb_lt _ 24)) by lia. by eexists. }
  pose proof (MarshalText_bytes _ _ _ Ht) as Hb. destruct (instant_bytes_plain text Hb) as [_ Hbu].
  unfold json_Marshal. cbn [cr_ExpiresAt]. rewrite Ht. eexists. split; [reflexivity|].
  unfold json_Unmarshal, credentials_json. rewrite decode_object_Marshal.
  2:{ cbn [json_ok forallb fst snd cr_AccessKeyID cr_SecretAccessKey cr_SessionToken cr_Username cr_Issuer].
      by repeat match goal with E : utf8_text ?x = true |- context [utf8_text ?x] => rewrite E; clear E end. }
  cbn [mbind option_bind]. cbv zeta. set (l := map raw_member _). set (names := ["AccessKeyID"; _; _; _; _; _]).
  change (field_values names "AccessKeyID" l) with [(JStr akid, json_quote akid)].
  change (field_values names "SecretAccessKey" l) with [(JStr secret, json_quote secret)].
  change (field_values names "SessionToken" l) with [(JStr token, json_quote token)].
  change (field_values names "Username" l) with [(JStr username, json_quote username)].
  change (field_values names "Issuer" l) with [(JStr issuer, json_quote issuer)].
  change (field_values names "ExpiresAt" l) with [(JStr text, json_quote text)].
  cbn [map fst snd string_field fold_left mbind option_bind time_field].
  rewrite (UnmarshalJSON_quoted text) by done. by rewrite (Parse_MarshalText _ _ _ Hz Ht).
Qed.

Section Lemmas.
Context `{ValkeyLib} `{!ValkeyLaws}.

Definition encodable (c : Credentials) : Prop := json_representable (local_offset (cr_ExpiresAt c)) c.

Lemma open_seal_value key nonce plain aad :
  String.length nonce = NonceSize -> open_ key (nonce +:+ aead_Seal key nonce plain aad) aad = Some plain.
Proof.
  intros Hn. unfold open_. rewrite slength_app.
  rewrite (proj2 (Nat.ltb_ge _ _)) by lia. rewrite <- Hn, stake_app_length, sdrop_app_length.
  apply open_seal.
Qed.

Lemma open_sealed_value key sealed aad plain :
  open_ key sealed aad = Some plain ->
  exists nonce, String.length nonce = NonceSize /\ sealed = nonce +:+ aead_Seal key nonce plain aad.
Proof.
  unfold open_. destruct (Nat.ltb_spec (String.length sealed) NonceSize); [done|]. intros Ho.
  exists (stake NonceSize sealed). split; [rewrite slength_stake; lia|].
  apply open_only_sealed in Ho. rewrite <- Ho. by rewrite stake_sdrop.
Qed.

Lemma Milliseconds_lower d : (0 <= d)%Z -> (d - 1000000 < Milliseconds d * 1000000 <= d)%Z.
Proof.
  intros Hd. unfold Milliseconds. rewrite Z.quot_div_nonneg by lia.
  pose proof (Z.div_mod d 1000000). pose proof (Z.mod_pos_bound d 1000000). lia.
Qed.

(** A record is kept until less than a millisecond before its expiry plus the
    retention. *)
Lemma record_ttl_covers v expiresAt now now' :
  (now <= now' <= expiresAt + retention v - 1000000)%Z ->
  (expiresAt + retention v - now <= max_int64)%Z ->
  (now <= now' < now + record_ttl v expiresAt now * 1000000)%Z.
Proof.
  intros Hn Hm. unfold record_ttl, Sub, Add. rewrite clamp64_id by (unfold min_int64; lia).
  rewrite (proj2 (Z.leb_gt _ _)) by lia.
  pose proof (Milliseconds_lower (expiresAt + retention v - now)). lia.
Qed.

Lemma vk_put_get v nonce now now' c s s' s'' o :
  encodable c -> uncached (valkeyPrefix +:+ cr_AccessKeyID c) s ->
  (forall n, nonce = Some n -> String.length n = NonceSize) ->
  vk_Put v nonce now c s = (s', None) ->
  (now <= now' <= cr_ExpiresAt c + retention v - 1000000)%Z ->
  (cr_ExpiresAt c + retention v - now <= max_int64)%Z ->
  vk_Get v now' (cr_AccessKeyID c) s' = (s'', Ok o) -> o = Some c.
Proof.
  intros He Hu Hn Hp Ht Hm Hg. destruct (json_roundtrip _ c He) as (plain & Hj & Hj').
  unfold vk_Put, seal in Hp. rewrite Hj in Hp. destruct nonce as [n|]; [|done].
  unfold vk_Get in Hg. destruct (valkey_GetCached _ _ _ _) as [s1 [g|e]] eqn:Eg; [|done].
  rewrite (set_get _ _ _ _ _ _ _ _ _ _ Hu Hp (record_ttl_covers v _ _ _ Ht Hm) Eg) in Hg.
  rewrite open_seal_value, Hj' in Hg by auto. by injection Hg as _ <-.
Qed.

(** The pages a SCAN returns from a cursor on. *)
Inductive scan_pages (s : Client) : N -> list (list string) -> Prop :=
| scan_last cursor els :
    valkey_Scan cursor (valkeyPrefix +:+ "*") s = Ok (0%N, els) -> scan_pages s cursor [els]
| scan_more cursor next els pages :
    valkey_Scan cursor (valkeyPrefix +:+ "*") s = Ok (next, els) -> next <> 0%N ->
    scan_pages s next pages -> scan_pages s cursor (els :: pages).

Lemma scan_loop_pages s cursor pages total fuel :
  scan_pages s cursor pages -> (length pages <= fuel)%nat ->
  scan_loop fuel cursor total s = Some (Ok (total + Z.of_nat (length (concat pages)))%Z).
Proof.
  intros Hp. revert total fuel. induction Hp as [cursor els E|cursor next els pages E Hn Hp IH];
    intros total [|fuel] Hf; cbn [length] in Hf; try lia; cbn [scan_loop]; rewrite E.
  - cbn [N.eqb concat]. by rewrite app_nil_r.
  - rewrite (proj2 (N.eqb_neq _ _) Hn), IH by lia. cbn [concat]. rewrite length_app. do 2 f_equal. lia.
Qed.

End Lemmas.

(** ** The valkey store behind the interface *)

Section Interface.
Context `{ValkeyLib} `{!ValkeyLaws} (v : Valkey) (nonce : option string) (fuel : nat).
Hypothesis nonce_full : forall n, nonce = Some n -> String.length n = NonceSize.

#[local] Existing Instance valkey_store.

(** Records outlive their expiry by the retention, up to a millisecond. *)
Definition valkey_laws : @StoreLaws Client (valkey_store v nonce fuel).
Proof.
  refine (@Build_StoreLaws Client (valkey_store v nonce fuel) (retention v - 1000000)%Z encodable
    (fun akid s => uncached (valkeyPrefix +:+ akid) s) _).
  intros now now' c s s' s'' o He Hu Hp Ht Hm Hg. cbn [Put Get valkey_store] in *.
  apply (vk_put_get v nonce now now' c s s' s'' o He Hu nonce_full Hp); [lia| |exact Hg].
  unfold max_int64, Second in *. lia.
Defined.

End Interface.

(** ** base64: encoding, to state the round trip *)

Fixpoint StdEncode (s : string) : string :=
  match s with
  | EmptyString => EmptyString
  | String a EmptyString =>
      let v := (code a * 65536)%N in
      String (b64std_chr (v / 262144)) (String (b64std_chr (v / 4096 mod 64)) "==")
  | String a (String b EmptyString) =>
      let v := (code a * 65536 + code b * 256)%N in
      String (b64std_chr (v / 262144)) (String (b64std_chr (v / 4096 mod 64))
        (String (b64std_chr (v / 64 mod 64)) "="))
  | String a (String b (String c r)) =>
      let v := (code a * 65536 + code b * 256 + code c)%N in
      String (b64std_chr (v / 262144)) (String (b64std_chr (v / 4096 mod 64))
        (String (b64std_chr (v / 64 mod 64)) (String (b64std_chr (v mod 64)) (StdEncode r))))
  end.

Lemma b64std_inverse n : (n < 64)%N -> b64std_val (b64std_chr n) = Some n.
Proof.
  intros Hn. assert (In n (map N.of_nat (seq 0 64))) as Hin.
  { apply in_map_iff. exists (N.to_nat n). split; [lia|]. apply in_seq. lia. }
  assert (bool_decide (b64std_val (b64std_chr n) = Some n) = true) as Hb; [|by apply bool_decide_eq_true in Hb].
  clear Hn. revert n Hin. apply (proj1 (forallb_forall _ _)). vm_compute. reflexivity.
Qed.

Lemma b64std_chr_line n :
  (n < 64)%N -> negb ((code (b64std_chr n) =? 10) || (code (b64std_chr n) =? 13))%N = true.
Proof.
  intros Hn. assert (In n (map N.of_nat (seq 0 64))) as Hin.
  { apply in_map_iff. exists (N.to_nat n). split; [lia|]. apply in_seq. lia. }
  clear Hn. revert n Hin. apply (proj1 (forallb_forall _ _)). vm_compute. reflexivity.
Qed.

Lemma byte_of_code v sh a : (v / 2 ^ sh mod 256 = code a)%N -> byte_of v sh = a.
Proof. intros E. unfold byte_of. rewrite E. apply chr_code. Qed.

Lemma sextets a b c :
  (a < 256)%N -> (b < 256)%N -> (c < 256)%N ->
  let v := (a * 65536 + b * 256 + c)%N in
  (v / 262144 < 64)%N /\
  (v / 262144 * 262144 + v / 4096 mod 64 * 4096 + v / 64 mod 64 * 64 + v mod 64 = v)%N /\
  (v / 65536 mod 256 = a)%N /\ (v / 256 mod 256 = b)%N /\ (v mod 256 = c)%N.
Proof.
  intros Ha Hb Hc. cbv zeta. remember (a * 65536 + b * 256 + c)%N as v eqn:Ev.
  assert (v / 4096 = v / 64 / 64)%N as E1 by (by rewrite N.Div0.div_div).
  assert (v / 262144 = v / 64 / 64 / 64)%N as E2 by (by rewrite !N.Div0.div_div).
  pose proof (N.div_mod v 64). pose proof (N.div_mod (v / 64) 64). pose proof (N.div_mod (v / 64 / 64) 64).
  assert (v / 65536 = a)%N as E3 by (symmetry; apply (N.div_unique v 65536 a (b * 256 + c)); lia).
  assert (v / 256 = a * 256 + b)%N as E4
    by (symmetry; apply (N.div_unique v 256 (a * 256 + b) c); lia).
  split; [apply N.Div0.div_lt_upper_bound; lia|]. split; [rewrite E1, E2; lia|].
  rewrite E3, E4. split; [by apply N.mod_small|]. split.
  - symmetry. apply (N.mod_unique (a * 256 + b) 256 a b); lia.
  - symmetry. apply (N.mod_unique v 256 (a * 256 + b) c); lia.
Qed.

Lemma quantum_bytes a b c r :
  let v := (code a * 65536 + code b * 256 + code c)%N in
  let w := (v / 262144 * 262144 + v / 4096 mod 64 * 4096 + v / 64 mod 64 * 64 + v mod 64)%N in
  String (byte_of w 16) (String (byte_of w 8) (String (byte_of w 0) r)) = String a (String b (String c r)).
Proof.
  cbv zeta.
  destruct (sextets (code a) (code b) (code c)) as (_ & -> & H1 & H2 & H3); [apply code_bound..|].
  rewrite (byte_of_code _ 16 a), (byte_of_code _ 8 b), (byte_of_code _ 0 c); [done|..|done|done].
  by rewrite N.div_1_r.
Qed.

(** A padded quantum is the full one with zero bytes, cut. *)
Lemma std_decode_encode s : std_decode_quanta (StdEncode s) = Some s.
Proof.
  assert (forall v, (v mod 64 < 64)%N) as Hm by (intros; by apply N.mod_lt).
  assert (forall a b c, ((code a * 65536 + code b * 256 + code c) / 262144 < 64)%N) as Hd.
  { intros a b c. by apply (sextets (code a) (code b) (code c)); apply code_bound. }
  induction s as [|a|a b|a b c r IH] using string_ind3; [done|..].
  - pose proof (Hd a (chr 0) (chr 0)) as Hl. change (code (chr 0)) with 0%N in Hl. rewrite !N.add_0_r in Hl.
    cbn [StdEncode std_decode_quanta]. rewrite !b64std_inverse by auto.
    change (b64std_val "=") with (@None N). cbn [andb Ascii.eqb Bool.eqb String.eqb].
    pose proof (quantum_bytes a (chr 0) (chr 0) "") as Hq. cbv zeta in Hq.
    change (code (chr 0)) with 0%N in Hq. rewrite !N.add_0_r in Hq.
    replace (code a * 65536 / 64 mod 64)%N with 0%N in Hq.
    2:{ symmetry. replace (code a * 65536)%N with (code a * 16 * 64 * 64)%N by lia.
        rewrite N.div_mul by done. by apply N.Div0.mod_mul. }
    replace (code a * 65536 mod 64)%N with 0%N in Hq.
    2:{ symmetry. replace (code a * 65536)%N with (code a * 1024 * 64)%N by lia. by apply N.Div0.mod_mul. }
    rewrite !N.add_0_r in Hq. by injection Hq as -> _ _.
  - pose proof (Hd a b (chr 0)) as Hl. change (code (chr 0)) with 0%N in Hl. rewrite !N.add_0_r in Hl.
    cbn [StdEncode std_decode_quanta]. rewrite !b64std_inverse by auto.
    change (b64std_val "=") with (@None N). cbn [andb Ascii.eqb Bool.eqb String.eqb].
    pose proof (quantum_bytes a b (chr 0) "") as Hq. cbv zeta in Hq.
    change (code (chr 0)) with 0%N in Hq. rewrite !N.add_0_r in Hq.
    replace ((code a * 65536 + code b * 256) mod 64)%N with 0%N in Hq.
    2:{ symmetry. replace (code a * 65536 + code b * 256)%N with ((code a * 1024 + code b * 4) * 64)%N by lia.
        by apply N.Div0.mod_mul. }
    rewrite !N.add_0_r in Hq. by injection Hq as -> -> _.
  - cbn [StdEncode std_decode_quanta]. rewrite !b64std_inverse by auto. rewrite IH. cbn [fmap option_fmap option_map].
    f_equal. apply quantum_bytes.
Qed.

Lemma StdEncode_lines s :
  sall (fun c => negb ((code c =? 10) || (code c =? 13))%N) (StdEncode s) = true.
Proof.
  assert (forall v, (v mod 64 < 64)%N) as Hm by (intros; by apply N.mod_lt).
  assert (forall a b c, ((code a * 65536 + code b * 256 + code c) / 262144 < 64)%N) as Hd.
  { intros a b c. by apply (sextets (code a) (code b) (code c)); apply code_bound. }
  induction s as [|a|a b|a b c r IH] using string_ind3; [done|..]; cbn [StdEncode sall].
  - pose proof (Hd a (chr 0) (chr 0)) as Hl. change (code (chr 0)) with 0%N in Hl. rewrite !N.add_0_r in Hl.
    by rewrite !b64std_chr_line by auto.
  - pose proof (Hd a b (chr 0)) as Hl. change (code (chr 0)) with 0%N in Hl. rewrite !N.add_0_r in Hl.
    by rewrite !b64std_chr_line by auto.
  - by rewrite !b64std_chr_line, IH by auto.
Qed.

(** ** Properties *)

(** The value key: every 32-byte key is accepted from its base64 text (with
    or without a trailing newline), and only 32-byte keys are ever returned. *)
Theorem store_key_roundtrip key :
  (String.length key = StoreKeyBytes ->
     ParseStoreKey (StdEncode key) = Ok key /\ ParseStoreKey (StdEncode key +:+ String (chr 10) "") = Ok key) /\
  (forall text, ParseStoreKey text = Ok key -> String.length key = StoreKeyBytes).
Proof.
  assert (forall t, StdDecode t = Some key -> String.length key = StoreKeyBytes -> ParseStoreKey t = Ok key) as Hp.
  { intros t Ht Hl. unfold ParseStoreKey. by rewrite Ht, Hl. }
  assert (sfilter (fun c => negb ((code c =? 10) || (code c =? 13))%N) (StdEncode key) = StdEncode key) as Hf
    by apply sfilter_all, StdEncode_lines.
  split.
  - intros Hl. split; (apply Hp; [|done]); unfold StdDecode.
    + by rewrite Hf, std_decode_encode.
    + assert (forall s, sfilter (fun c => negb ((code c =? 10) || (code c =? 13))%N) (s +:+ String (chr 10) "")
              = sfilter (fun c => negb ((code c =? 10) || (code c =? 13))%N) s) as Hn.
      { induction s as [|c s IH]; [done|]. cbn [String.append sfilter]. by rewrite IH. }
      by rewrite Hn, Hf, std_decode_encode.
  - intros text. unfold ParseStoreKey. destruct (StdDecode text) as [k|]; [|done].
    destruct (String.length k =? StoreKeyBytes)%nat eqn:E; [|done]. cbn [negb].
    intros [= <-]. by apply Nat.eqb_eq.
Qed.

Section Properties.
Context `{ValkeyLib} `{!ValkeyLaws}.

(** C20: a record put in valkey is what [Get] returns for its access key ID, up
    to a millisecond before its expiry plus the retention, whenever the server
    answers and JSON can represent the record (valid UTF-8, an expiry in a
    four-digit year, a zone of whole minutes). *)
Theorem valkey_put_then_get v nonce now now' c s s' s'' o :
  encodable c -> uncached (valkeyPrefix +:+ cr_AccessKeyID c) s ->
  (forall n, nonce = Some n -> String.length n = NonceSize) ->
  vk_Put v nonce now c s = (s', None) ->
  (now <= now' <= cr_ExpiresAt c + retention v - 1000000)%Z ->
  (cr_ExpiresAt c + retention v - now <= max_int64)%Z ->
  vk_Get v now' (cr_AccessKeyID c) s' = (s'', Ok o) -> o = Some c.
Proof. apply vk_put_get. Qed.

(** C19: records are bound to their key: whatever an attacker with write access
    has put in valkey, a record is returned for an access key ID only from a
    value that is exactly the sealing, under the proxy's key, of a plaintext
    with that access key ID as associated data. *)
Theorem valkey_record_bound_to_key v now akid s s' c :
  vk_Get v now akid s = (s', Ok (Some c)) ->
  exists data nonce plain,
    valkey_GetCached now (valkeyPrefix +:+ akid) (cacheTTL v) s = (s', Ok (Some data)) /\
    String.length nonce = NonceSize /\ data = nonce +:+ aead_Seal (aead v) nonce plain akid /\
    json_Unmarshal plain = Some c.
Proof.
  unfold vk_Get. destruct (valkey_GetCached _ _ _ _) as [s1 [[data|]|e]] eqn:Eg; try done.
  destruct (open_ (aead v) data akid) as [plain|] eqn:Eo; [|done].
  destruct (json_Unmarshal plain) as [c'|] eqn:Ej; [|done]. intros [= <- <-].
  destruct (open_sealed_value _ _ _ _ Eo) as (nonce & Hn & ->). by exists (nonce +:+ aead_Seal (aead v) nonce plain akid), nonce, plain.
Qed.

(** [Count] ends when the SCAN does and is the number of keys the SCAN
    yields: it looks at no record, so records that have expired but are still
    retained are counted, unlike in the memory store. *)
Theorem valkey_count_counts_keys s pages fuel :
  scan_pages s 0 pages -> (length pages <= fuel)%nat ->
  vk_Count fuel s = Some (Ok (Z.of_nat (length (concat pages)))).
Proof. intros Hp Hf. unfold vk_Count. by rewrite (scan_loop_pages s 0 pages 0 fuel Hp Hf). Qed.

End Properties.

(** ** A concrete library *)

Module DemoValkey.

(** A map from keys to values with their expiry instants. *)
Definition client := gmap string (string * Time).

#[export] Instance lib : ValkeyLib := {|
  aead_Seal := fun key nonce plain aad => key +:+ nonce +:+ aad +:+ plain;
  aead_Open := fun key nonce ct aad => CutPrefix ct (key +:+ nonce +:+ aad);
  local_offset := fun _ => 7200%Z;
  Client := client;
  valkey_Set := fun now k v ms s => (<[k := (v, now + ms * 1000000)%Z]> s, None);
  valkey_GetCached := fun now k _ s =>
    (s, Ok (match s !! k with Some (v, e) => if (now <? e)%Z then Some v else None | None => None end));
  valkey_Del := fun _ k s => (delete k s, None);
  valkey_Scan := fun _ _ s => Ok (0%N, map fst (map_to_list s))
|}.

#[export] Instance laws : ValkeyLaws.
Proof.
  refine {| uncached := fun _ _ => True |}.
  - intros key nonce plain aad. cbn. rewrite <- !sapp_assoc, (sapp_assoc key nonce aad). apply CutPrefix_app.
  - intros key nonce ct aad plain E. cbn in *. apply CutPrefix_Some in E. by rewrite E, !sapp_assoc.
  - intros now now' k v ms ttl s s' s'' o _ Hs Ht Hg. cbn in *. injection Hs as <-. injection Hg as _ <-.
    assert ((<[k := (v, now + ms * 1000000)%Z]> (s : client)) !! k = Some (v, now + ms * 1000000)%Z) as E
      by apply (lookup_insert_eq (M := gmap string)).
    rewrite E. by rewrite (proj2 (Z.ltb_lt _ _)) by lia.
Defined.

Definition config : Valkey := mkValkey "0123456789abcdef0123456789abcdef" 10000000%Z (10 * Second)%Z.
Definition nonce : option string := Some "000000000000".
Definition vacant : Client := (∅ : client).
Definition stored : Client := (vk_Put config nonce 0%Z sample_record vacant).1.

End DemoValkey.

Section Witnesses.
Import DemoValkey.

Lemma valkey_put_then_get_witness :
  vk_Put config nonce 0%Z sample_record vacant = (stored, None) /\
  (vk_Get config 5%Z "OZPX1" stored).2 = Ok (Some sample_record).
Proof.
  assert (vk_Put config nonce 0%Z sample_record vacant = (stored, None)) as Hp by reflexivity.
  split; [exact Hp|].
  assert (exists o, (vk_Get config 5%Z "OZPX1" stored).2 = Ok o) as [o Ho]
    by (eexists; vm_compute; reflexivity).
  destruct (vk_Get config 5%Z "OZPX1" stored) as [s'' g] eqn:Eg. cbn [snd] in *. subst g. f_equal.
  apply (valkey_put_then_get config nonce 0%Z 5%Z sample_record vacant stored s'' o); try exact Eg; try exact Hp.
  - split; [repeat constructor|split; vm_compute; split; (reflexivity || discriminate)].
  - exact I.
  - intros n [= <-]. reflexivity.
  - vm_compute. split; discriminate.
  - vm_compute. discriminate.
Defined.

Lemma valkey_record_bound_to_key_witness :
  exists data nonce plain,
    valkey_GetCached 5%Z (valkeyPrefix +:+ "OZPX1") (cacheTTL config) stored = (stored, Ok (Some data)) /\
    data = nonce +:+ aead_Seal (aead config) nonce plain "OZPX1".
Proof.
  assert (vk_Get config 5%Z "OZPX1" stored = (stored, Ok (Some sample_record))) as Hg
    by (vm_compute; reflexivity).
  destruct (valkey_record_bound_to_key config 5%Z "OZPX1" stored stored sample_record Hg)
    as (data & n & plain & Hd & _ & He & _).
  exists data, n, plain. split; [exact Hd|exact He].
Defined.

(** The sample record expired at instant 100; at instant 105 it still counts
    here, and does not in the memory store. *)
Lemma valkey_count_counts_keys_witness :
  vk_Count 1 stored = Some (Ok 1%Z) /\ Expired sample_record 105%Z = true /\
  Memory.Count 105%Z (Memory.Put sample_record Memory.NewMemory) = 0%Z.
Proof.
  split; [|split; vm_compute; reflexivity].
  apply (valkey_count_counts_keys stored [["ozpx:cred:OZPX1"]] 1); [|vm_compute; constructor].
  apply scan_last. vm_compute. reflexivity.
Defined.

Lemma store_key_roundtrip_witness :
  String.length "0123456789abcdef0123456789abcdef" = StoreKeyBytes /\
  ParseStoreKey (StdEncode "0123456789abcdef0123456789abcdef") = Ok "0123456789abcdef0123456789abcdef".
Proof.
  split; [reflexivity|].
  apply (proj1 (store_key_roundtrip "0123456789abcdef0123456789abcdef")). reflexivity.
Defined.

End Witnesses.
