(* ===== verification/DeviceLogin.v ===== *)
(** * Package devicelogin

    Models internal/devicelogin/devicelogin.go: the device authorization grant
    with its polling loop, token refresh, and the token file.  The network, the
    clock and the texts of library errors are the class [Web]. *)

From Stdlib Require Import Ascii String ZArith NArith Bool Lia.
From stdpp Require Import base tactics list strings gmap sorting.
From S2P Require Import Prelude GoStrings GoTime GoHttp GoXml GoJson Forward.

Inductive dlerr :=
| ErrAccessDenied
| ErrExpired
| ErrSessionExpired
| OAuthError (errcode description : string)   (* *oauthError *)
| Canceled                                    (* ctx.Err() *)
| Wrap (prefix : string) (e : dlerr)           (* fmt.Errorf("prefix: %w", e) *)
| Other (msg : string).

(** [oauthError.Error] *)
Definition oauthError_Error (errcode description : string) : string :=
  if description =s "" then errcode else errcode +:+ ": " +:+ description.

(** The text of an error. *)
Fixpoint dlerr_Error (e : dlerr) : string :=
  match e with
  | ErrAccessDenied => "authorization request denied"
  | ErrExpired => "device code expired before approval"
  | ErrSessionExpired => "session expired, sign in again"
  | OAuthError errcode desc => oauthError_Error errcode desc
  | Canceled => "context canceled"
  | Wrap prefix e => prefix +:+ dlerr_Error e
  | Other msg => msg
  end.

Record Client := mkClient { Issuer : string; ClientID : string; Scope : string }.
Record Endpoints := mkEndpoints { DeviceAuthorization : string; TokenEndpoint : string }.

Record DeviceAuth := mkDeviceAuth {
  DeviceCode : string;
  UserCode : string;
  VerificationURI : string;
  VerificationURIComplete : string;
  da_ExpiresIn : Z;
  Interval : Z
}.

Record Token := mkToken { AccessToken : string; RefreshToken : string; ExpiresIn : Z }.

Definition no_token : Token := mkToken "" "" 0.

(** ** Decoding the endpoints' answers *)

Definition decode_Endpoints (text : string) : option Endpoints :=
  let names := ["device_authorization_endpoint"; "token_endpoint"] in
  l ← decode_first text ≫= struct_members;
  device ← string_field (field_values names "device_authorization_endpoint" l);
  token ← string_field (field_values names "token_endpoint" l);
  Some (mkEndpoints device token).

Definition decode_DeviceAuth (text : string) : option DeviceAuth :=
  let names := ["device_code"; "user_code"; "verification_uri"; "verification_uri_complete"; "expires_in"; "interval"] in
  l ← decode_text text ≫= struct_members;
  device_code ← string_field (field_values names "device_code" l);
  user_code ← string_field (field_values names "user_code" l);
  uri ← string_field (field_values names "verification_uri" l);
  complete ← string_field (field_values names "verification_uri_complete" l);
  expires_in ← int_field (field_values names "expires_in" l);
  interval ← int_field (field_values names "interval" l);
  Some (mkDeviceAuth device_code user_code uri complete expires_in interval).

Definition decode_Token (text : string) : option Token :=
  let names := ["access_token"; "refresh_token"; "expires_in"] in
  l ← decode_text text ≫= struct_members;
  access ← string_field (field_values names "access_token" l);
  refresh ← string_field (field_values names "refresh_token" l);
  expires_in ← int_field (field_values names "expires_in" l);
  Some (mkToken access refresh expires_in).

(** [oauthError]: its code and description. *)
Definition decode_oauthError (text : string) : option (string * string) :=
  let names := ["error"; "error_description"] in
  l ← decode_text text ≫= struct_members;
  errcode ← string_field (field_values names "error" l);
  desc ← string_field (field_values names "error_description" l);
  Some (errcode, desc).

(** The world outside: what a request gets back (status, and the body unless
    reading it fails), the clock, sleeping, the context, and the texts of the
    library's errors. *)
Class Web := {
  World : Type;
  http_Get : string -> World -> World * res string (Z * res string string);
  http_Post : string -> string -> World -> World * res string (Z * res string string);
  now : World -> Time;
  sleep : Duration -> World -> World;
  ctx_done : World -> bool;
  url_error : string -> string;
  json_error : string -> string
}.

(** [io.LimitReader(body, n)]: at most [n] bytes. *)
Fixpoint limit (n : N) (s : string) : string :=
  match s with
  | EmptyString => EmptyString
  | String c r => if (n =? 0)%N then EmptyString else String c (limit (n - 1) r)
  end.

Definition TrimSuffix_slash (s : string) : string :=
  match from_last "/" s with
  | Some "/" => stake (String.length s - 1) s
  | _ => s
  end.

Section DeviceFlow.
Context `{GoLib} `{Web}.

Definition Discover (c : Client) (w : World) : World * res dlerr Endpoints :=
  let u := TrimSuffix_slash (Issuer c) +:+ "/.well-known/openid-configuration" in
  match url_Parse u with
  | None => (w, Err (Other (url_error u)))
  | Some _ =>
      match http_Get u w with
      | (w, Err msg) => (w, Err (Wrap "OIDC discovery: " (Other msg)))
      | (w, Ok (st, body)) =>
          if negb (st =? 200)%Z then
            (w, Err (Other ("OIDC discovery: " +:+ u +:+ " returned " +:+ Itoa st)))
          else match body with
          | Err msg => (w, Err (Wrap "OIDC discovery: " (Other msg)))
          | Ok b =>
          match decode_Endpoints (limit 1048576 b) with
          | None => (w, Err (Wrap "OIDC discovery: " (Other (json_error (limit 1048576 b)))))
          | Some ep =>
              (w, if DeviceAuthorization ep =s "" then
                    Err (Other ("issuer " +:+ Issuer c +:+ " does not advertise device_authorization_endpoint"))
                  else if TokenEndpoint ep =s "" then
                    Err (Other ("issuer " +:+ Issuer c +:+ " does not advertise token_endpoint"))
                  else Ok ep)
          end
          end
      end
  end.

(** [postForm], decoding with [decode]. *)
Definition postForm {T} (decode : string -> option T) (endpoint : string) (form : Values) (w : World)
    : World * res dlerr T :=
  match url_Parse endpoint with
  | None => (w, Err (Other (url_error endpoint)))
  | Some _ =>
      match http_Post endpoint (VEncode form) w with
      | (w, Err msg) => (w, Err (Other msg))
      | (w, Ok (_, Err msg)) => (w, Err (Other msg))
      | (w, Ok (st, Ok b)) =>
          let body := limit 1048576 b in
          (w, if negb (Z.quot st 100 =? 2)%Z then
                match decode_oauthError body with
                | Some (errcode, desc) =>
                    if errcode <>s "" then Err (OAuthError errcode desc)
                    else Err (Other (endpoint +:+ " returned " +:+ Itoa st))
                | None => Err (Other (endpoint +:+ " returned " +:+ Itoa st))
                end
              else match decode body with
              | Some x => Ok x
              | None => Err (Other (json_error body))
              end)
      end
  end.

Definition Start (c : Client) (ep : Endpoints) (w : World) : World * res dlerr DeviceAuth :=
  let form := ("client_id", ClientID c) :: (if Scope c <>s "" then [("scope", Scope c)] else []) in
  match postForm decode_DeviceAuth (DeviceAuthorization ep) form w with
  | (w, Err e) => (w, Err (Wrap "device authorization: " e))
  | (w, Ok da) =>
      (w, if (DeviceCode da =s "") || (UserCode da =s "")
          then Err (Other "device authorization: response missing device_code/user_code") else Ok da)
  end.

Definition poll_form (c : Client) (da : DeviceAuth) : Values :=
  [("grant_type", "urn:ietf:params:oauth:grant-type:device_code"); ("device_code", DeviceCode da);
   ("client_id", ClientID c)].

(** The loop of [Poll]; [None] when [fuel] rounds were not enough. *)
Fixpoint poll_loop (fuel : nat) (c : Client) (ep : Endpoints) (da : DeviceAuth)
    (interval : Duration) (deadline : Time) (w : World) : option (World * res dlerr Token) :=
  match fuel with
  | 0 => None
  | S fuel' =>
      if ctx_done w then Some (w, Err Canceled)
      else if (0 <? da_ExpiresIn da)%Z && After (now w) deadline then Some (w, Err ErrExpired)
      else
        let w := sleep interval w in
        match postForm decode_Token (TokenEndpoint ep) (poll_form c da) w with
        | (w, Ok tok) =>
            Some (w, if AccessToken tok =s "" then Err (Other "token endpoint returned no access_token") else Ok tok)
        | (w, Err (OAuthError errcode desc)) =>
            if errcode =s "authorization_pending" then poll_loop fuel' c ep da interval deadline w
            else if errcode =s "slow_down" then
              poll_loop fuel' c ep da (wrap64 (interval + 5 * Second)) deadline w
            else if errcode =s "access_denied" then Some (w, Err ErrAccessDenied)
            else if errcode =s "expired_token" then Some (w, Err ErrExpired)
            else Some (w, Err (OAuthError errcode desc))
        | (w, Err e) => Some (w, Err e)
        end
  end.

Definition Poll (fuel : nat) (c : Client) (ep : Endpoints) (da : DeviceAuth) (w : World)
    : option (World * res dlerr Token) :=
  let interval := seconds (Z.max (Interval da) 1) in
  let deadline := Add (now w) (seconds (da_ExpiresIn da)) in
  poll_loop fuel c ep da interval deadline w.

Definition Refresh (c : Client) (ep : Endpoints) (refreshToken : string) (w : World) : World * res dlerr Token :=
  match postForm decode_Token (TokenEndpoint ep)
          [("grant_type", "refresh_token"); ("refresh_token", refreshToken); ("client_id", ClientID c)] w with
  | (w, Err (OAuthError errcode desc)) =>
      (w, Err (if errcode =s "invalid_grant" then ErrSessionExpired else Wrap "token refresh: " (OAuthError errcode desc)))
  | (w, Err e) => (w, Err (Wrap "token refresh: " e))
  | (w, Ok tok) =>
      (w, if AccessToken tok =s "" then Err (Other "token refresh: response missing access_token") else Ok tok)
  end.

End DeviceFlow.

(** ** The token file *)

Record file := mkFile { content : string; mode : N }.
Abbreviation FS := (gmap string file).

(** The results of the system calls of one [WriteTokenFile]: a failed call
    changes nothing, except that a failed write may leave a prefix behind. *)
Record syscalls := mkSyscalls {
  sys_MkdirAll : bool;
  sys_CreateTemp : option string;     (* the name chosen *)
  sys_Chmod : bool;
  sys_Write : nat * bool;             (* bytes written, success *)
  sys_Close : bool;
  sys_Rename : bool;
  sys_Remove : bool                   (* of the temporary file, after a failure *)
}.

(** [os.CreateTemp] makes the file with mode 0600. *)
Definition mode0600 : N := 384.

(** [WriteTokenFile]: the states the file system goes through, the last one
    after the deferred [os.Remove], and whether it succeeded. *)
Definition WriteTokenFile (sc : syscalls) (path token : string) (fs : FS) : list FS * bool :=
  if negb (sys_MkdirAll sc) then ([fs], false)
  else match sys_CreateTemp sc with
  | None => ([fs], false)
  | Some tmp =>
      let fs1 := <[tmp := mkFile "" mode0600]> fs in
      let fail (seen : list FS) (cur : FS) :=
        (seen ++ [cur; if sys_Remove sc then delete tmp cur else cur], false) in
      if negb (sys_Chmod sc) then fail [fs] fs1
      else
        let fs2 := <[tmp := mkFile "" mode0600]> fs1 in
        let '(n, written) := sys_Write sc in
        let fs3 := <[tmp := mkFile (if written then token else stake n token) mode0600]> fs2 in
        if negb written then fail [fs; fs1; fs2] fs3
        else if negb (sys_Close sc) then fail [fs; fs1; fs2] fs3
        else if negb (sys_Rename sc) then fail [fs; fs1; fs2] fs3
        else
          let fs4 := <[path := mkFile token mode0600]> (delete tmp fs3) in
          ([fs; fs1; fs2; fs3; fs4; delete tmp fs4], true)
  end.

(** ** What the flow relies on of its surroundings *)

Class WebLaws `{Web} := {
  sleep_advances : forall d w, (0 <= d)%Z -> (now w + d <= now (sleep d w))%Z;
  post_advances : forall u b w, (now w <= now (http_Post u b w).1)%Z
}.

Section PollLemmas.
Context `{GoLib} `{Web} `{!WebLaws}.

Lemma postForm_advances {T} (decode : string -> option T) u form w :
  (now w <= now (postForm decode u form w).1)%Z.
Proof.
  unfold postForm. destruct (url_Parse u); [|simpl; lia].
  pose proof (post_advances u (VEncode form) w) as Hp.
  destruct (http_Post u (VEncode form) w) as [w' [[st [b|]]|]]; exact Hp.
Qed.

(** The loop ends once the remaining lifetime is covered by the fuel at one
    second a round; the interval never drops below a second, except by an
    overflow that only happens after the deadline. *)
Lemma poll_loop_ends fuel c ep da interval deadline w :
  (0 < da_ExpiresIn da)%Z ->
  (deadline < now w)%Z \/ (Second <= interval <= max_int64)%Z ->
  (deadline - now w < max_int64 - 6 * Second)%Z ->
  (deadline - now w < (Z.of_nat fuel - 1) * Second)%Z -> (0 < fuel)%nat ->
  exists r, poll_loop fuel c ep da interval deadline w = Some r.
Proof.
  intros He. revert interval w. induction fuel as [|fuel IH]; intros interval w Hi Hd Hf Hpos; [lia|].
  cbn [poll_loop]. destruct (ctx_done w); [eauto|].
  rewrite (proj2 (Z.ltb_lt _ _) He). cbn [andb]. unfold After.
  destruct (Z.ltb_spec deadline (now w)) as [Hlate|Hearly]; [eauto|].
  destruct Hi as [Hi|Hi]; [lia|].
  pose proof (sleep_advances interval w ltac:(unfold Second in *; lia)) as Hs.
  pose proof (postForm_advances decode_Token (TokenEndpoint ep) (poll_form c da) (sleep interval w)) as Hp.
  destruct (postForm _ _ _ _) as [w' [tok|e]]; [eauto|]. cbn [fst] in Hp.
  assert (0 < fuel)%nat by (destruct fuel; [unfold Second in *; lia|lia]).
  destruct e as [| | |errcode desc| | |]; eauto.
  destruct (errcode =s "authorization_pending").
  { apply IH; [by right|unfold Second in *; lia|unfold Second in *; lia|done]. }
  destruct (errcode =s "slow_down").
  { apply IH; [|unfold Second in *; lia|unfold Second in *; lia|done].
    destruct (Z.le_gt_cases (interval + 5 * Second) max_int64).
    - right. rewrite wrap64_id; unfold Second, min_int64 in *; lia.
    - left. unfold Second, max_int64 in *. lia. }
  repeat case_match; eauto.
Qed.

Lemma poll_loop_token fuel c ep da interval deadline w w' tok :
  poll_loop fuel c ep da interval deadline w = Some (w', Ok tok) -> AccessToken tok <> "".
Proof.
  revert interval w. induction fuel as [|fuel IH]; intros interval w; [done|]. cbn [poll_loop].
  destruct (ctx_done w); [done|]. destruct (_ && _); [done|].
  destruct (postForm _ _ _ _) as [w1 [t|e]].
  - destruct (seqb_spec (AccessToken t) ""); [done|]. by intros [= _ <-].
  - destruct e; try done. repeat (case_match; try done); apply IH.
Qed.

End PollLemmas.

(** ** Properties *)

Section Properties.
Context `{GoLib} `{Web} `{!WebLaws}.

(** C32: polling ends: for a device code with a positive lifetime, whatever the
    token endpoint answers, [Poll] returns within one round per second of the
    lifetime, plus two; and a token it returns is never empty. *)
Theorem poll_terminates c ep da w :
  (0 < da_ExpiresIn da <= 9223372000)%Z -> (Interval da <= 9223372036)%Z ->
  exists w' r, Poll (Z.to_nat (da_ExpiresIn da) + 2) c ep da w = Some (w', r) /\
    (forall tok, r = Ok tok -> AccessToken tok <> "").
Proof.
  intros He Hi. unfold Poll.
  assert (forall n, (0 <= n <= 9223372036)%Z -> seconds n = (n * Second)%Z) as Hsec.
  { intros n Hn. unfold seconds, Second. apply wrap64_id. unfold min_int64, max_int64. lia. }
  rewrite !Hsec by lia. unfold Add.
  destruct (poll_loop_ends (Z.to_nat (da_ExpiresIn da) + 2) c ep da (Z.max (Interval da) 1 * Second)
              (now w + da_ExpiresIn da * Second) w) as [[w' r] Hr].
  - lia.
  - right. unfold Second, max_int64. lia.
  - unfold Second, max_int64. lia.
  - unfold Second. lia.
  - lia.
  - exists w', r. split; [exact Hr|]. intros tok ->. by eapply poll_loop_token.
Qed.

End Properties.

(** A state of the file system during [WriteTokenFile]: the one before, that
    one with a prefix of the token in the temporary file, or the one with the
    token in place. *)
Definition write_state (tmp path token : string) (fs st : FS) : Prop :=
  st = fs \/ (exists n, st = <[tmp := mkFile (stake n token) mode0600]> fs) \/
  st = <[path := mkFile token mode0600]> fs.

(** What [WriteTokenFile] leaves behind. *)
Definition write_end (sc : syscalls) (tmp path token : string) (fs : FS) (ok : bool) (st : FS) : Prop :=
  if ok then st = <[path := mkFile token mode0600]> fs
  else delete tmp st = fs /\ (sys_Remove sc = true -> st = fs).

(** A failure after the temporary file was created. *)
Lemma write_fails sc path token (fs : FS) tmp (ns : list nat) n :
  fs !! tmp = None ->
  let cur := <[tmp := mkFile (stake n token) mode0600]> fs in
  let states := (fs :: map (fun n => <[tmp := mkFile (stake n token) mode0600]> fs) ns)
                ++ [cur; if sys_Remove sc then delete tmp cur else cur] in
  Forall (write_state tmp path token fs) states /\
  exists st, last states = Some st /\ write_end sc tmp path token fs false st.
Proof.
  intros Hfresh cur. assert (delete tmp cur = fs) as Hdel by (by apply delete_insert_id). rewrite Hdel. cbv zeta. split.
  - rewrite Forall_app, Forall_cons, Forall_map. split_and!; [by left| |].
    + apply Forall_forall. intros m _. right. left. by exists m.
    + apply Forall_cons_2; [right; left; by exists n|]. apply Forall_cons_2; [|apply Forall_nil_2].
      destruct (sys_Remove sc); [by left|right; left; by exists n].
  - eexists. rewrite last_app_cons. split; [reflexivity|]. cbn [write_end].
    destruct (sys_Remove sc); split; [by apply delete_id|done|done|done].
Qed.

Lemma stake_all t : stake (String.length t) t = t.
Proof. rewrite <- (sapp_nil_r t) at 2. apply stake_app_length. Qed.

Lemma WriteTokenFile_states sc path token (fs : FS) tmp :
  (forall t, sys_CreateTemp sc = Some t -> t = tmp) -> tmp <> path -> fs !! tmp = None ->
  let '(states, ok) := WriteTokenFile sc path token fs in
  Forall (write_state tmp path token fs) states /\
  exists st, last states = Some st /\ write_end sc tmp path token fs ok st.
Proof.
  intros Ht Hne Hfresh. unfold WriteTokenFile.
  assert (Forall (write_state tmp path token fs) [fs] /\
    exists st, last [fs] = Some st /\ write_end sc tmp path token fs false st) as Hnone.
  { split; [apply Forall_cons_2; [by left|apply Forall_nil_2]|]. exists fs. split; [done|]. split; [by apply delete_id|done]. }
  destruct (sys_MkdirAll sc); cbn [negb]; [|exact Hnone].
  destruct (sys_CreateTemp sc) as [t|]; [|exact Hnone]. rewrite (Ht t eq_refl).
  pose proof (fun l n => write_fails sc path token fs tmp l n Hfresh) as Hfail. cbv zeta in Hfail.
  destruct (sys_Chmod sc); cbn [negb]; [|apply (Hfail [] O)].
  destruct (sys_Write sc) as [n [|]]; cbn [negb]; rewrite !insert_insert_eq; [|apply (Hfail [O; O] n)].
  pose proof (Hfail [O; O] (String.length token)) as Hwhole. rewrite stake_all in Hwhole.
  destruct (sys_Close sc), (sys_Rename sc); cbn [negb]; try exact Hwhole.
  rewrite delete_insert_id by done. rewrite delete_insert_ne, delete_id by done. split; [|by eexists].
  repeat (apply Forall_cons_2; [first [by left | by right; right | right; left; by exists O |
    right; left; exists (String.length token); by rewrite stake_all]|]).
  apply Forall_nil_2.
Qed.

(** The token file is replaced atomically: in every state the file system
    goes through, whichever call fails and however much of the token was
    written, the path holds either what it held before or the whole token with
    mode 0600.  A success leaves exactly the new file; a failure changes nothing
    but the temporary file, and nothing at all once that is removed. *)
Theorem token_file_atomic sc path token (fs : FS) tmp :
  sys_CreateTemp sc = Some tmp -> tmp <> path -> fs !! tmp = None ->
  let '(states, ok) := WriteTokenFile sc path token fs in
  Forall (fun st : FS => st !! path = fs !! path \/ st !! path = Some (mkFile token mode0600)) states /\
  exists st, last states = Some st /\
    if ok then st = <[path := mkFile token mode0600]> fs
    else delete tmp st = fs /\ (sys_Remove sc = true -> st = fs).
Proof.
  intros Ht Hne Hfresh.
  pose proof (WriteTokenFile_states sc path token fs tmp ltac:(congruence) Hne Hfresh) as Hw.
  destruct (WriteTokenFile sc path token fs) as [states ok]. destruct Hw as [Hst Hend]. split; [|exact Hend].
  eapply Forall_impl; [exact Hst|]. intros st [->|[[n ->]| ->]]; [by left|left; by apply lookup_insert_ne|].
  right. apply lookup_insert_eq.
Qed.

(** ** Concrete runs *)

(** A world that is its clock: the user approves after twelve seconds. *)
Module DemoWeb.

#[export] Instance web : Web := {|
  World := Z;
  http_Get := fun _ w => (w, Err "unreachable");
  http_Post := fun _ _ w => (w, Ok (if (w <? 12 * Second)%Z 
    then (400%Z, Ok (q "{'error':'authorization_pending'}"))
    else (200%Z, Ok (q "{'access_token':'eyJ','refresh_token':'r','expires_in':300}"))));
  now := fun w => w;
  sleep := fun d w => (w + d)%Z;
  ctx_done := fun _ => false;
  url_error := fun u => "parse " +:+ u;
  json_error := fun _ => "invalid JSON"
|}.

#[export] Instance web_laws : WebLaws.
Proof. split; cbn; intros; lia. Defined.

Definition at_ (t : Z) : @World web := t.
Definition client : Client := mkClient "https://kc.example" "ozone-s3" "openid".
Definition endpoints : Endpoints := mkEndpoints "https://kc.example/device" "https://kc.example/token".
Definition device (lifetime : Z) : DeviceAuth := mkDeviceAuth "dc" "uc" "https://kc.example/verify" "" lifetime 5.

End DemoWeb.

Section Witnesses.
#[local] Existing Instance ascii_lib.
Import DemoWeb.

Lemma poll_terminates_witness :
  exists w' r, Poll (Z.to_nat 60 + 2) client endpoints (device 60) (at_ 0) = Some (w', r) /\
    (forall tok, r = Ok tok -> AccessToken tok <> "").
Proof.
  apply (poll_terminates client endpoints (device 60) (at_ 0)); cbn; lia.
Defined.

(** Approved in time, and not in time. *)
Example poll_approved :
  Poll 62 client endpoints (device 60) (at_ 0) = Some (at_ (15 * Second), Ok (mkToken "eyJ" "r" 300)).
Proof. vm_compute. reflexivity. Qed.

Example poll_expired :
  Poll 12 client endpoints (device 7) (at_ 0) = Some (at_ (10 * Second), Err ErrExpired).
Proof. vm_compute. reflexivity. Qed.

(** A disk that fills up while the token is written. *)
Lemma token_file_atomic_witness :
  last (WriteTokenFile (mkSyscalls true (Some ".token-1") true (2, false) true true true) "token.jwt" "eyJ"
          {[ "token.jwt" := mkFile "old" mode0600 ]}).1 = Some {[ "token.jwt" := mkFile "old" mode0600 ]}.
Proof.
  pose proof (token_file_atomic (mkSyscalls true (Some ".token-1") true (2, false) true true true) "token.jwt" "eyJ"
    {[ "token.jwt" := mkFile "old" mode0600 ]} ".token-1" eq_refl ltac:(discriminate)
    ltac:(vm_compute; reflexivity)) as Ha.
  destruct (WriteTokenFile _ _ _ _) as [states ok] eqn:E.
  assert (ok = false) as -> by (apply (f_equal snd) in E; vm_compute in E; symmetry; exact E).
  destruct Ha as (_ & st & Hl & _ & Hst). cbn [fst]. rewrite Hl. f_equal. apply Hst. reflexivity.
Defined.

End Witnesses.
