(* ===== verification/Login.v ===== *)
(** * Command ozone-login

    Models cmd/ozone-login/main.go: the flags with their defaults and
    the command line parsed into them ([GoFlag]), the sign-in
    (discovery, device authorization, polling), the token file and the refresh
    loop, with what is printed and the exit code.  The timer, the interrupt and
    the results of system calls are the class [Desk].  The loop of [main] only
    ends on an interrupt or an error; [login_loop] runs a given number of its
    turns, and the theorems hold after any number of them. *)

From Stdlib Require Import Ascii String ZArith NArith Bool Lia.
From stdpp Require Import base tactics list strings gmap sorting.
From S2P Require Import Prelude GoStrings GoTime GoFloat GoFlag GoDuration GoHttp GoMux GoXml GoJson Forward DeviceLogin.

(** ** Flags *)

(** [filepath.Join]: the elements that are not empty, cleaned. *)
Definition clean_rel_elem (stack : list string) (e : string) : list string :=
  if (e =s "") || (e =s ".") then stack
  else if e =s ".." then
    match stack with
    | [] => [".."]
    | top :: rest => if top =s ".." then ".." :: stack else rest
    end
  else e :: stack.

Definition filepath_Clean (p : string) : string :=
  if HasPrefix p "/" then Clean_rooted p
  else
    let c := Join (rev (fold_left clean_rel_elem (Split "/" p) [])) "/" in
    if c =s "" then "." else c.

Definition filepath_Join (l : list string) : string :=
  match List.filter (fun e => e <>s "") l with
  | [] => ""
  | l => filepath_Clean (Join l "/")
  end.

(** [home] is what [os.UserHomeDir] returns. *)
Definition defaultTokenFile (getenv : string -> string) (home : option string) : string :=
  let v := getenv "AWS_WEB_IDENTITY_TOKEN_FILE" in
  if v <>s "" then v
  else match home with
  | None => "token.jwt"
  | Some h => filepath_Join [h; ".ozone"; "token.jwt"]
  end.

Definition envOr (getenv : string -> string) (key fallback : string) : string :=
  if getenv key <>s "" then getenv key else fallback.

Record flags := mkFlags {
  issuer : string;
  clientID : string;
  tokenFile : string;
  scope : string;
  once : bool;
  roleArn : string;
  endpoint : string;
  showVersion : bool
}.

(** The flags [main] declares, with their defaults. *)
Definition login_formal (getenv : string -> string) (home : option string) : flagset :=
  [("issuer", VString (getenv "OZONE_ISSUER"));
   ("client-id", VString (envOr getenv "OZONE_CLIENT_ID" "ozone-s3"));
   ("token-file", VString (defaultTokenFile getenv home));
   ("scope", VString "openid");
   ("once", VBool false);
   ("role-arn", VString "arn:ozone:iam::dev:role/oidc");
   ("endpoint", VString "http://localhost:9000");
   ("version", VBool false)].

Definition flags_of (fs : flagset) : flags :=
  mkFlags (string_flag fs "issuer") (string_flag fs "client-id") (string_flag fs "token-file") (string_flag fs "scope")
    (bool_flag fs "once") (string_flag fs "role-arn") (string_flag fs "endpoint") (bool_flag fs "version").

(** ** The run *)

(** Lines printed to standard output and standard error. *)
Inductive line := Out (s : string) | ErrOut (s : string).

Class Desk `{Web} := {
  (** The [select]: the timer's duration; whether the context was done. *)
  wait : Duration -> World -> World * bool;
  (** The results of the system calls of the next [WriteTokenFile]. *)
  disk : FS -> World -> World * syscalls;
  (** The text of the error when they failed. *)
  disk_error : World -> string;
  version : string
}.

(** The world, the file system with every state it went through, the tokens
    accepted so far (the latest last), and what was printed. *)
Record login `{Web} := mkLogin {
  l_world : World;
  l_fs : FS;
  l_seen : list FS;
  l_tokens : list Token;
  l_out : list line
}.

(** [refreshAfter]: [time.Duration(expiresIn) * time.Second * 2 / 3], each
    product in 64 bits. *)
Definition refreshAfter (expiresIn : Z) : Duration :=
  let d := Z.quot (wrap64 (seconds expiresIn * 2)) 3 in
  if (d <? 15 * Second)%Z then (15 * Second)%Z else d.

Record loop_state := mkLoop { refresh : string; expiresIn : Z }.

Inductive outcome :=
| Exited (code : Z)
| Running (st : loop_state).

Section Login.
Context `{GoLib} `{Web} `{!Desk}.

Definition set_world (w : World) (s : login) : login := mkLogin _ w (l_fs s) (l_seen s) (l_tokens s) (l_out s).
Definition print (l : list line) (s : login) : login :=
  mkLogin _ (l_world s) (l_fs s) (l_seen s) (l_tokens s) (l_out s ++ l).

(** [fail] *)
Definition fail (msg : string) (s : login) : login * outcome :=
  (print [ErrOut ("ozone-login: " +:+ msg)] s, Exited 1).

(** [WriteTokenFile] of an accepted token. *)
Definition write_token (path : string) (tok : Token) (s : login) : login * bool :=
  let '(w, sc) := disk (l_fs s) (l_world s) in
  let '(states, ok) := WriteTokenFile sc path (AccessToken tok) (l_fs s) in
  (mkLogin _ w (default (l_fs s) (last states)) (l_seen s ++ states) (l_tokens s ++ [tok]) (l_out s), ok).

Definition login_client (f : flags) : Client := mkClient (issuer f) (clientID f) (scope f).

(** One turn of the loop, from the [select] on. *)
Definition login_turn (f : flags) (ep : Endpoints) (st : loop_state) (s : login) : login * outcome :=
  let '(w, done) := wait (refreshAfter (expiresIn st)) (l_world s) in
  let s := set_world w s in
  if done then (print [Out ""; Out "ozone-login: stopped"] s, Exited 0)
  else
    match Refresh (login_client f) ep (refresh st) (l_world s) with
    | (w, Err ErrSessionExpired) =>
        (print [ErrOut "ozone-login: session expired; run ozone-login again"] (set_world w s), Exited 1)
    | (w, Err e) =>
        (print [ErrOut ("ozone-login: refresh failed (" +:+ dlerr_Error e +:+ "), retrying in 30s")] (set_world w s),
         Running (mkLoop (refresh st) 45))
    | (w, Ok tok) =>
        let st := mkLoop (if RefreshToken tok <>s "" then RefreshToken tok else refresh st) (ExpiresIn tok) in
        match write_token (tokenFile f) tok (set_world w s) with
        | (s, false) => fail (disk_error (l_world s)) s
        | (s, true) =>
            (print [Out ("Token refreshed (next in " +:+ Duration_String (Round (refreshAfter (expiresIn st)) Second) +:+ ").")] s,
             Running st)
        end
    end.

Fixpoint login_loop (turns : nat) (f : flags) (ep : Endpoints) (st : loop_state) (s : login) : login * outcome :=
  match turns with
  | O => (s, Running st)
  | S turns =>
      match login_turn f ep st s with
      | (s, Running st) => login_loop turns f ep st s
      | (s, Exited c) => (s, Exited c)
      end
  end.

Definition sign_in_prompt (da : DeviceAuth) : list line :=
  [Out "Open this URL in your browser to sign in:"; Out "";
   Out (if VerificationURIComplete da <>s "" then "    " +:+ VerificationURIComplete da
        else "    " +:+ VerificationURI da +:+ "   (code: " +:+ UserCode da +:+ ")");
   Out ""; Out "Waiting for approval..."].

Definition recipe (f : flags) (tok : Token) : list line :=
  [Out ("Signed in. Token written to " +:+ tokenFile f +:+ " (expires in "
        +:+ Duration_String (Round (seconds (ExpiresIn tok)) Second) +:+ ").");
   Out ""; Out "Point AWS tooling at the proxy:";
   Out ("  export AWS_ROLE_ARN=" +:+ roleArn f);
   Out ("  export AWS_WEB_IDENTITY_TOKEN_FILE=" +:+ tokenFile f);
   Out ("  export AWS_ENDPOINT_URL_STS=" +:+ endpoint f);
   Out ("  export AWS_ENDPOINT_URL_S3=" +:+ endpoint f); Out ""].

(** [main] with [rounds] of polling and [turns] of the loop; [None] when the
    rounds were not enough. *)
Definition login_main (rounds turns : nat) (f : flags) (s : login) : option (login * outcome) :=
  if showVersion f then Some (print [Out ("ozone-login " +:+ version)] s, Exited 0)
  else if issuer f =s "" then
    Some (print [ErrOut "ozone-login: -issuer (or OZONE_ISSUER) is required"] s, Exited 2)
  else
  let client := login_client f in
  match Discover client (l_world s) with
  | (w, Err e) => Some (fail (dlerr_Error e) (set_world w s))
  | (w, Ok ep) =>
  match Start client ep w with
  | (w, Err e) => Some (fail (dlerr_Error e) (set_world w s))
  | (w, Ok da) =>
  let s := print (sign_in_prompt da) (set_world w s) in
  match Poll rounds client ep da w with
  | None => None
  | Some (w, Err e) => Some (fail (dlerr_Error e) (set_world w s))
  | Some (w, Ok tok) =>
  match write_token (tokenFile f) tok (set_world w s) with
  | (s, false) => Some (fail (disk_error (l_world s)) s)
  | (s, true) =>
  let s := print (recipe f tok) s in
  if once f then Some (s, Exited 0)
  else
    Some (login_loop turns f ep (mkLoop (RefreshToken tok) (ExpiresIn tok))
            (print [Out "Refreshing the token in the background; leave this running (Ctrl-C to stop)."] s))
  end
  end
  end
  end.

(** The whole command, from its arguments; what package flag itself prints on
    an error or for [-help] is left out. *)
Definition login_command (rounds turns : nat) (getenv : string -> string) (home : option string) (args : list string) (s : login)
    : option (login * outcome) :=
  match Parse (login_formal getenv home) args with
  | Err e => Some (s, Exited (exit_status e))
  | Ok (fs, _) => login_main rounds turns (flags_of fs) s
  end.

End Login.

(** ** The command line *)

(** A setting the command accepts: a string flag with its value, a boolean one
    bare or with a boolean. *)
Definition login_setting (st : setting) : bool :=
  if existsb (String.eqb (st_name st)) ["issuer"; "client-id"; "token-file"; "scope"; "role-arn"; "endpoint"] then
    match st_spelling st with Bare => false | _ => true end
  else if existsb (String.eqb (st_name st)) ["once"; "version"] then
    match st_spelling st with
    | Equals => if ParseBool (st_text st) then true else false
    | Separate => false
    | Bare => st_text st =s "true"
    end
  else false.

(** The flags settings give: the last one of a name counts, the environment
    and the built-in defaults where there is none. *)
Definition given_flags (getenv : string -> string) (home : option string) (sts : list setting) : flags :=
  let text name fallback := default fallback (last_text sts name) in
  let switch name := default false (last_text sts name ≫= ParseBool) in
  mkFlags (text "issuer" (getenv "OZONE_ISSUER")) (text "client-id" (envOr getenv "OZONE_CLIENT_ID" "ozone-s3"))
    (text "token-file" (defaultTokenFile getenv home)) (text "scope" "openid") (switch "once")
    (text "role-arn" "arn:ozone:iam::dev:role/oidc") (text "endpoint" "http://localhost:9000") (switch "version").

Lemma flags_of_given getenv home sts fs :
  apply_settings (login_formal getenv home) sts = Some fs -> flags_of fs = given_flags getenv home sts.
Proof.
  intros Ha. unfold flags_of, given_flags.
  repeat (erewrite string_flag_given; [|exact Ha|reflexivity]). repeat (erewrite bool_flag_given; [|exact Ha|reflexivity]).
  f_equal; by destruct (last_text sts _).
Qed.

(** The declared flags accept exactly these settings. *)
Lemma login_accepts getenv home st : accepts (login_formal getenv home) st = login_setting st.
Proof.
  unfold accepts, login_setting, lookup_flag, login_formal, spelled_for.
  cbn [List.find fst snd existsb fmap option_fmap option_map]. rewrite !(String.eqb_sym (st_name st)).
  repeat match goal with |- context [?a =s st_name st] => destruct (seqb_spec a (st_name st)); [cbn [orb snd is_bool SetValue]|] end;
    destruct (st_spelling st); cbn; try done.
  all: try congruence. all: destruct (seqb_spec (st_text st) "true") as [->|]; [done|by destruct (ParseBool (st_text st))].
Qed.

Section CommandLine.
Context `{GoLib} `{Web} `{!Desk}.

(** C34: The command line of ozone-login.  The command runs with the flags its
    arguments give (the last setting of a name counting, whether spelled with
    one dash or two, with [=] or as two arguments, a boolean bare or with its
    value; the environment and the defaults for the others) exactly when the
    arguments are such settings, followed by nothing, an operand or [--]; on
    any other command line it exits 2, or 0 for [-help], with nothing done. *)
Theorem login_command_line rounds turns getenv home args s :
  (forall sts tail rest, args = concat (map render_setting sts) ++ tail -> ends tail rest -> forallb login_setting sts = true ->
     login_command rounds turns getenv home args s = login_main rounds turns (given_flags getenv home sts) s) /\
  ((forall sts tail rest, args = concat (map render_setting sts) ++ tail -> ends tail rest -> forallb login_setting sts = false) ->
     login_command rounds turns getenv home args s = Some (s, Exited 2) \/
     login_command rounds turns getenv home args s = Some (s, Exited 0)).
Proof.
  assert (forall sts, forallb login_setting sts = true <-> is_Some (apply_settings (login_formal getenv home) sts)) as Hok.
  { intros sts. rewrite <- apply_settings_accepts. f_equiv.
    induction sts as [|st sts IH]; [done|]. cbn [forallb]. by rewrite login_accepts, IH. }
  unfold login_command. split.
  - intros sts tail rest -> He [fs Ha]%Hok. rewrite (Parse_settings sts (login_formal getenv home) fs tail rest) by done.
    by rewrite (flags_of_given getenv home sts fs Ha).
  - intros Hno. destruct (Parse (login_formal getenv home) args) as [[fs rest]|e] eqn:Ep.
    + apply Parse_exact in Ep as (sts & tail & Hargs & Ha & He); [|done].
      assert (forallb login_setting sts = true) as Ht by (apply Hok; eauto). rewrite (Hno sts tail rest Hargs He) in Ht. done.
    + destruct e; [by right|by left..].
Qed.

End CommandLine.

(** ** What the command relies on of the file system *)

(** The name of a temporary file as [os.CreateTemp(dir, ".token-*")] makes it. *)
Definition is_temp (p : string) : bool := HasPrefix (default "" (last (Split "/" p))) ".token-".

Class DeskLaws `{Desk} := {
  disk_fresh : forall fs w tmp,
    sys_CreateTemp (disk fs w).2 = Some tmp -> fs !! tmp = None /\ is_temp tmp = true
}.

(** ** The token file over a whole run *)

(** The refresh token in use: the latest one that was not empty. *)
Definition latest_refresh (l : list Token) : string :=
  fold_left (fun acc t => if RefreshToken t <>s "" then RefreshToken t else acc) l "".

Section Invariant.
Context `{GoLib} `{Web} `{!Desk} `{!DeskLaws}.
Context (path : string) (fs0 : FS) (Hpath : is_temp path = false).

(** What a state of the file system may hold after the tokens [toks]. *)
Definition tidy (toks : list Token) (fs : FS) : Prop :=
  (forall p x, fs !! p = Some x -> fs0 !! p = Some x \/
     exists t n, t ∈ toks /\ x = mkFile (stake n (AccessToken t)) mode0600) /\
  (fs !! path = fs0 !! path \/ exists t, t ∈ toks /\ fs !! path = Some (mkFile (AccessToken t) mode0600)).

Record login_inv (s : login) : Prop := {
  inv_fs : tidy (l_tokens s) (l_fs s);
  inv_seen : Forall (tidy (l_tokens s)) (l_seen s);
  inv_tokens : Forall (fun t => AccessToken t <> "") (l_tokens s)
}.

(** While the loop runs: the file holds the latest token. *)
Record loop_inv (st : loop_state) (s : login) : Prop := {
  loop_login : login_inv s;
  loop_file : exists t, last (l_tokens s) = Some t /\ l_fs s !! path = Some (mkFile (AccessToken t) mode0600);
  loop_refresh : refresh st = latest_refresh (l_tokens s)
}.

Lemma tidy_mono toks t fs : tidy toks fs -> tidy (toks ++ [t]) fs.
Proof.
  intros [Hall Hp]. split.
  - intros p x Hx. destruct (Hall p x Hx) as [?|(t' & n & Ht & ->)]; [by left|right].
    exists t', n. split; [apply elem_of_app; by left|done].
  - destruct Hp as [Hp|(t' & Ht & Hp)]; [by left|right]. exists t'. split; [apply elem_of_app; by left|done].
Qed.

Lemma tidy_write toks t fs tmp st :
  tmp <> path -> write_state tmp path (AccessToken t) fs st -> tidy toks fs -> tidy (toks ++ [t]) st.
Proof.
  intros Hne Hst Hfs. apply (tidy_mono _ t) in Hfs. destruct Hst as [->|[[n ->]| ->]]; [done|..]; destruct Hfs as [Hall Hp].
  - split.
    + intros p x Hx. apply lookup_insert_Some in Hx as [[_ <-]|[_ Hx]]; [|by apply Hall].
      right. exists t, n. split; [apply elem_of_app; right; by apply list_elem_of_singleton|done].
    + by rewrite lookup_insert_ne.
  - split.
    + intros p x Hx. apply lookup_insert_Some in Hx as [[_ <-]|[_ Hx]]; [|by apply Hall].
      right. exists t, (String.length (AccessToken t)). rewrite stake_all.
      split; [apply elem_of_app; right; by apply list_elem_of_singleton|done].
    + right. exists t. rewrite lookup_insert_eq. split; [apply elem_of_app; right; by apply list_elem_of_singleton|done].
Qed.

Lemma write_token_inv tok s s' ok :
  login_inv s -> AccessToken tok <> "" -> write_token path tok s = (s', ok) ->
  login_inv s' /\ l_tokens s' = l_tokens s ++ [tok] /\
  (ok = true -> l_fs s' !! path = Some (mkFile (AccessToken tok) mode0600)).
Proof.
  intros [Hfs Hseen Htok] Ha. unfold write_token.
  pose proof (disk_fresh (l_fs s) (l_world s)) as Hfresh.
  destruct (disk (l_fs s) (l_world s)) as [w sc]. cbn [snd] in Hfresh.
  assert (exists tmp, (forall t, sys_CreateTemp sc = Some t -> t = tmp) /\ tmp <> path /\ l_fs s !! tmp = None)
    as (tmp & Ht & Hne & Hnone).
  { destruct (sys_CreateTemp sc) as [t|] eqn:Ec.
    - destruct (Hfresh t eq_refl) as [Hn Hi]. exists t. split_and!; [congruence|congruence|done].
    - exists (fresh (dom (l_fs s) ∪ {[path]})). pose proof (is_fresh (dom (l_fs s) ∪ {[path]})) as Hf.
      split_and!; [done|set_solver|apply not_elem_of_dom; set_solver]. }
  pose proof (WriteTokenFile_states sc path (AccessToken tok) (l_fs s) tmp Ht Hne Hnone) as Hw.
  destruct (WriteTokenFile _ _ _ _) as [states ok'].
  destruct Hw as (Hst & st & Hlast & Hend). intros [= <- <-]. cbn [l_fs l_seen l_tokens]. rewrite Hlast. cbn [default from_option id].
  assert (write_state tmp path (AccessToken tok) (l_fs s) st) as Hws.
  { apply last_Some_elem_of in Hlast. by eapply Forall_forall. }
  split_and!; [|done|].
  - split; cbn [l_fs l_seen l_tokens].
    + by eapply tidy_write.
    + apply Forall_app. split; [eapply Forall_impl; [exact Hseen|]; intros; by apply tidy_mono|].
      eapply Forall_impl; [exact Hst|]. intros st' Hst'. by eapply tidy_write.
    + apply Forall_app. by repeat constructor.
  - intros ->. cbn [write_end] in Hend. rewrite Hend. apply lookup_insert_eq.
Qed.

Lemma Refresh_token c ep r w w' tok : Refresh c ep r w = (w', Ok tok) -> AccessToken tok <> "".
Proof.
  unfold Refresh. destruct (postForm _ _ _ _) as [w1 [t|e]]; [|by destruct e].
  destruct (seqb_spec (AccessToken t) ""); [done|]. by intros [= _ <-].
Qed.

Lemma latest_refresh_snoc l t :
  latest_refresh (l ++ [t]) = if RefreshToken t <>s "" then RefreshToken t else latest_refresh l.
Proof. unfold latest_refresh. by rewrite fold_left_app. Qed.

(** Neither the world nor the output matters to the invariant. *)
Lemma login_inv_same s s' :
  l_fs s' = l_fs s -> l_seen s' = l_seen s -> l_tokens s' = l_tokens s -> login_inv s -> login_inv s'.
Proof. intros E1 E2 E3 [? ? ?]. split; by rewrite ?E1, ?E2, ?E3. Qed.

Ltac same_login :=
  match goal with H : login_inv ?s |- login_inv _ => by apply (login_inv_same s) end.

Lemma login_turn_inv f ep st s s' o :
  tokenFile f = path -> loop_inv st s -> login_turn f ep st s = (s', o) ->
  login_inv s' /\ (forall st', o = Running st' -> loop_inv st' s').
Proof.
  intros Hf [Hinv Hfile Href]. unfold login_turn.
  destruct (wait _ _) as [w [|]]; [intros [= <- <-]; split; [same_login|done]|].
  destruct (Refresh _ _ _ _) as [w1 [tok|e]] eqn:Er.
  - apply Refresh_token in Er. rewrite Hf. cbv zeta.
    destruct (write_token path tok _) as [s1 ok] eqn:Ew.
    apply write_token_inv in Ew as (Hinv1 & Htoks & Hok); [|same_login|done].
    destruct ok; intros [= <- <-]; (split; [same_login|]); [|done].
    intros st' [= <-]. cbn [l_tokens set_world] in Htoks.
    split; [same_login|exists tok|]; cbn [l_tokens l_fs print refresh]; rewrite Htoks.
    + rewrite last_snoc. auto.
    + by rewrite latest_refresh_snoc, <- Href.
  - assert (forall l, login_inv (print l (set_world w1 (set_world w s)))) as Hsame by (intros; same_login).
    destruct e; intros [= <- <-]; (split; [apply Hsame|]); try done; intros st' [= <-]; by split.
Qed.

Lemma login_loop_inv turns f ep : forall st s s' o,
  tokenFile f = path -> loop_inv st s -> login_loop turns f ep st s = (s', o) ->
  login_inv s' /\ (forall st', o = Running st' -> loop_inv st' s').
Proof.
  induction turns as [|turns IH]; intros st s s' o Hf Hinv; cbn [login_loop].
  { intros [= <- <-]. split; [apply Hinv|]. by intros st' [= <-]. }
  destruct (login_turn f ep st s) as [s1 o1] eqn:Et. apply login_turn_inv in Et as [Hexit Hrun]; [|done..].
  destruct o1 as [c|st1]; [intros [= <- <-]; by split|]. apply IH; [done|by apply Hrun].
Qed.

Lemma login_main_inv rounds turns f s s' o :
  tokenFile f = path -> login_inv s -> l_tokens s = [] -> login_main rounds turns f s = Some (s', o) ->
  login_inv s' /\ (forall st', o = Running st' -> loop_inv st' s').
Proof.
  intros Hf Hinv Hnil. unfold login_main, fail.
  assert (forall l w c, login_inv (print l (set_world w s)) /\ (forall st', Exited c = Running st' -> loop_inv st' (print l (set_world w s)))) as Hfail.
  { intros l w c. split; [same_login|done]. }
  destruct (showVersion f); [intros [= <- <-]; split; [same_login|done]|].
  destruct (issuer f =s ""); [intros [= <- <-]; split; [same_login|done]|].
  destruct (Discover _ _) as [w1 [ep|e]]; [|intros [= <- <-]; apply Hfail].
  destruct (Start _ _ _) as [w2 [da|e]]; [|intros [= <- <-]; apply Hfail]. cbv zeta.
  destruct (Poll _ _ _ _ _) as [[w3 [tok|e]]|] eqn:Ep; [| |done].
  2:{ intros [= <- <-]. split; [same_login|done]. }
  apply poll_loop_token in Ep. rewrite Hf.
  destruct (write_token path tok _) as [s1 ok] eqn:Ew.
  apply write_token_inv in Ew as (Hinv1 & Htoks & Hok); [|same_login|done].
  destruct ok; [|intros [= <- <-]; split; [same_login|done]].
  cbn [l_tokens set_world print] in Htoks. rewrite Hnil in Htoks. cbn [app] in Htoks.
  destruct (once f); [intros [= <- <-]; split; [same_login|done]|intros [= E]].
  eapply login_loop_inv; [exact Hf| |exact E]. split; [same_login|exists tok|];
    cbn [l_tokens l_fs print refresh]; rewrite Htoks; [by auto|].
  unfold latest_refresh. cbn [fold_left]. by destruct (seqb_spec (RefreshToken tok) "").
Qed.

End Invariant.

Section Claims.
Context `{GoLib} `{Web} `{!Desk} `{!DeskLaws}.

(** C18: The token file over a whole run of ozone-login, whatever the issuer,
    the disk and the clock do.  In every state the file system goes through, a
    file is one that was there before or holds (the beginning of) an access
    token the issuer granted, with mode 0600: a refresh token never reaches the
    disk.  The token file itself always holds what it held before the start or
    a whole access token, and while the refresh loop runs it holds the latest
    one, with the latest non-empty refresh token in memory. *)
Theorem login_token_file rounds turns f s s' o :
  is_temp (tokenFile f) = false -> l_seen s = [] -> l_tokens s = [] ->
  login_main rounds turns f s = Some (s', o) ->
  Forall (fun fs : FS =>
    (forall p x, fs !! p = Some x -> l_fs s !! p = Some x \/
       exists t n, t ∈ l_tokens s' /\ x = mkFile (stake n (AccessToken t)) mode0600) /\
    (fs !! tokenFile f = l_fs s !! tokenFile f \/
       exists t, t ∈ l_tokens s' /\ fs !! tokenFile f = Some (mkFile (AccessToken t) mode0600)))
    (l_fs s' :: l_seen s') /\
  Forall (fun t => AccessToken t <> "") (l_tokens s') /\
  (forall st, o = Running st ->
     refresh st = latest_refresh (l_tokens s') /\
     exists t, last (l_tokens s') = Some t /\ l_fs s' !! tokenFile f = Some (mkFile (AccessToken t) mode0600)).
Proof.
  intros Hpath Hseen Htoks Hm. eapply (login_main_inv (tokenFile f) (l_fs s)) in Hm; [|done|done| |done].
  - destruct Hm as [[Hfs Hs Ht] Hrun]. split_and!; [by apply Forall_cons_2|done|].
    intros st E. by destruct (Hrun st E) as [_ Hfile Href].
  - split; [split; [by left|by left]|by rewrite Hseen|by rewrite Htoks].
Qed.

(** The refresh is scheduled at two thirds of the token's life, never sooner
    than 15 seconds, hence before the token expires whenever it lives at least
    23 seconds; a refresh that fails for any reason but an expired session is
    tried again after 30 seconds with the same refresh token, and nothing is
    written. *)
Theorem refresh_schedule e :
  (15 * Second <= refreshAfter e)%Z /\
  ((0 <= e <= 4611686018)%Z -> refreshAfter e = Z.max (15 * Second) (e * Second * 2 / 3)) /\
  ((23 <= e <= 4611686018)%Z -> (refreshAfter e < e * Second)%Z) /\
  (forall f ep st s w w' err,
     wait (refreshAfter (expiresIn st)) (l_world s) = (w, false) ->
     Refresh (login_client f) ep (refresh st) w = (w', Err err) -> err <> ErrSessionExpired ->
     exists st' s', login_turn f ep st s = (s', Running st') /\ l_fs s' = l_fs s /\ refresh st' = refresh st /\
       refreshAfter (expiresIn st') = (30 * Second)%Z).
Proof.
  assert (forall e, (0 <= e <= 4611686018)%Z -> refreshAfter e = Z.max (15 * Second) (e * Second * 2 / 3)) as Hx.
  { intros x Hr. unfold refreshAfter, seconds.
    rewrite !wrap64_id by (unfold Second, min_int64, max_int64; rewrite ?wrap64_id; unfold min_int64, max_int64; lia).
    rewrite Z.quot_div_nonneg by (unfold Second; lia).
    destruct (Z.ltb_spec (x * Second * 2 / 3) (15 * Second)); lia. }
  split_and!.
  - unfold refreshAfter. match goal with |- context [(?a <? ?b)%Z] => destruct (Z.ltb_spec a b) end; lia.
  - apply Hx.
  - intros Hr. rewrite Hx by lia. unfold Second. Z.to_euclidean_division_equations. lia.
  - intros f ep st s w w' err Hw Hr Hne. unfold login_turn. rewrite Hw. cbn [set_world l_world]. rewrite Hr.
    exists (mkLoop (refresh st) 45). eexists. split; [by destruct err|]. split_and!; [done..|]. vm_compute. reflexivity.
Qed.

End Claims.

(** ** A run *)

(** An issuer that grants everything, a disk that never fails. *)
Module DemoLogin.

#[export] Instance web : Web := {|
  World := Z;
  http_Get := fun _ w =>
    (w, Ok (200%Z, Ok (q "{'device_authorization_endpoint':'https://kc.example/device','token_endpoint':'https://kc.example/token'}")));
  http_Post := fun u _ w =>
    (w, Ok (200%Z, Ok (if u =s "https://kc.example/device"
       then q "{'device_code':'dc','user_code':'uc','verification_uri':'https://kc.example/verify','expires_in':60,'interval':5}"
       else q "{'access_token':'eyJ','refresh_token':'r','expires_in':300}")));
  now := fun w => w;
  sleep := fun d w => (w + d)%Z;
  ctx_done := fun _ => false;
  url_error := fun u => "parse " +:+ u;
  json_error := fun _ => "invalid JSON"
|}.

#[export] Instance desk : Desk := {|
  wait := fun d w => (w + d, false)%Z;
  disk := fun fs w =>
    (w, mkSyscalls true (match (fs : FS) !! ".token-1" with None => Some ".token-1" | Some _ => None end) true (0, true) true true true);
  disk_error := fun _ => "disk error";
  version := "dev"
|}.

#[export] Instance desk_laws : DeskLaws.
Proof.
  split. intros fs w tmp. cbn. destruct (fs !! ".token-1") eqn:E; [done|]. intros [= <-]. split; [done|reflexivity].
Defined.

Definition start : login := mkLogin _ 0%Z ∅ [] [] [].
Definition demo_flags : flags :=
  flags_of (login_formal (fun k => if k =s "OZONE_ISSUER" then "https://kc.example" else "") (Some "/home/alice")).

End DemoLogin.

Section Witnesses.
#[local] Existing Instance ascii_lib.
Import DemoLogin.

Example demo_token_file : tokenFile demo_flags = "/home/alice/.ozone/token.jwt".
Proof. reflexivity. Qed.

Example demo_run :
  (fun r : login * outcome => (l_tokens r.1, r.2)) <$> login_main 62 2 demo_flags start =
  Some ([mkToken "eyJ" "r" 300; mkToken "eyJ" "r" 300; mkToken "eyJ" "r" 300], Running (mkLoop "r" 300)).
Proof. vm_compute. reflexivity. Qed.

(** After sign-in and two refreshes the file holds the granted token. *)
Lemma login_token_file_witness :
  exists s' st, login_main 62 2 demo_flags start = Some (s', Running st) /\ refresh st = "r" /\
    l_fs s' !! tokenFile demo_flags = Some (mkFile "eyJ" mode0600).
Proof.
  destruct (proj1 (fmap_Some _ _ _) demo_run) as ([s' o] & E & Ht). injection Ht as Ht Ho.
  pose proof (login_token_file 62 2 demo_flags start s' o eq_refl eq_refl eq_refl E) as (_ & _ & Hrun).
  destruct (Hrun (mkLoop "r" 300) (eq_sym Ho)) as (_ & t & Hlast & Hfile). cbn [fst] in Ht. rewrite <- Ht in Hlast.
  injection Hlast as <-. exists s', (mkLoop "r" 300). split; [|split; [reflexivity|exact Hfile]].
  rewrite E. cbn [snd] in Ho. rewrite <- Ho. reflexivity.
Defined.

Definition demo_settings : list setting :=
  [mkSetting "issuer" "https://kc.example" Separate false; mkSetting "once" "true" Bare true;
   mkSetting "token-file" "t.jwt" Equals false].

Lemma login_command_line_witness :
  login_command 62 2 (fun _ => "") None ["-issuer"; "https://kc.example"; "--once"; "-token-file=t.jwt"; "--"; "x"] start =
    login_main 62 2 (given_flags (fun _ => "") None demo_settings) start /\
  tokenFile (given_flags (fun _ => "") None demo_settings) = "t.jwt" /\
  login_command 62 2 (fun _ => "") None ["-once=maybe"] start = Some (start, Exited 2).
Proof.
  split; [|split; [reflexivity|vm_compute; reflexivity]].
  destruct (login_command_line 62 2 (fun _ => "") None
    ["-issuer"; "https://kc.example"; "--once"; "-token-file=t.jwt"; "--"; "x"] start) as [Hrun _].
  apply (Hrun demo_settings ["--"; "x"] ["x"]); [reflexivity|constructor|reflexivity].
Defined.

Lemma refresh_schedule_witness : (refreshAfter 300 = 200 * Second)%Z.
Proof.
  destruct (refresh_schedule 300) as (_ & He & _). rewrite He by lia. vm_compute. reflexivity.
Defined.

End Witnesses.
