(* ===== verification/StubIssuer.v ===== *)
(** * The stub issuer of the compose lab

    Models examples/compose/stub-issuer/main.go: the discovery and key
    documents, the token endpoint and [signJWT], behind the mux.  RSA is the
    class [RSA]; the values of a multipart body are an argument of the token
    endpoint. *)

From Stdlib Require Import Ascii String ZArith NArith Bool Lia.
From stdpp Require Import base tactics list strings gmap sorting.
From S2P Require Import Prelude GoStrings Sha256 GoTime GoHttp GoMux GoXml GoJson.
From S2P Require Import Sigv4 Store Server DeviceLogin.

Definition kid : string := "stub-2026".

(** A Go map of members: [json.Marshal] writes them by key. *)
Definition key_le (a b : string * json) : Prop := String.le a.1 b.1.

#[export] Instance key_le_dec : RelDecision key_le.
Proof. intros a b. unfold key_le. apply _. Defined.

Definition JMap (l : list (string * json)) : json := JObj (merge_sort key_le l).

Class RSA := {
  PrivateKey : Type;
  key_N : PrivateKey -> Z;
  key_E : PrivateKey -> Z;
  (** [rsa.SignPKCS1v15] of a SHA-256 digest. *)
  SignPKCS1v15 : PrivateKey -> string -> option string
}.

(** [big.Int.Bytes]: big-endian, no leading zero. *)
Fixpoint big_bytes_go (fuel : nat) (z : Z) (acc : string) : string :=
  match fuel with
  | O => acc
  | S fuel => if (z <=? 0)%Z then acc else big_bytes_go fuel (z / 256) (String (chr (Z.to_N (z mod 256))) acc)
  end.

Definition big_bytes (z : Z) : string := big_bytes_go (S (Z.to_nat (Z.log2 z))) z "".

Record stub := mkStub { stub_listen : string; stub_issuer : string; stub_audience : string }.

(** [env] *)
Definition stub_env (getenv : string -> string) (key fallback : string) : string :=
  if getenv key <>s "" then getenv key else fallback.

Definition stub_of_env (getenv : string -> string) : stub :=
  mkStub (stub_env getenv "STUB_LISTEN" ":8081") (stub_env getenv "STUB_ISSUER" "http://stub-issuer:8081")
         (stub_env getenv "STUB_AUDIENCE" "ozone-data").

Definition discovery (st : stub) : json :=
  JMap [("issuer", JStr (stub_issuer st)); ("jwks_uri", JStr (stub_issuer st +:+ "/jwks"));
        ("token_endpoint", JStr (stub_issuer st +:+ "/token"));
        ("response_types_supported", JArr [JStr "token"]);
        ("subject_types_supported", JArr [JStr "public"]);
        ("id_token_signing_alg_values_supported", JArr [JStr "RS256"])].

(** ** Minting *)

Definition stub_claims (st : stub) (username aud : string) (ttl : Z) (now : Time) : json :=
  JMap [("iss", JStr (stub_issuer st)); ("sub", JStr ("stub|" +:+ username)); ("uid", JStr username);
        ("aud", JArr (map JStr (Split "," aud))); ("iat", JInt (now / Second)); ("nbf", JInt (now / Second));
        ("exp", JInt (Add now (seconds ttl) / Second))].

Definition jwt_header : json := JMap [("alg", JStr "RS256"); ("typ", JStr "JWT"); ("kid", JStr kid)].

(** [r.PostForm] after [PostFormValue] parsed it, errors ignored: [multipart]
    gives the values of a multipart/form-data body. *)
Definition maxFormSize : Z := 10485760.

Definition PostForm `{GoLib} (multipart : Request -> Values) (r : Request) : Values :=
  let ct := HGet (RHeader r) "Content-Type" in
  let ct := if ct =s "" then "application/octet-stream" else ct in
  match ParseMediaType ct with
  | None => []
  | Some mediatype =>
      if mediatype =s "application/x-www-form-urlencoded" then
        match Body r with
        | None => []
        | Some b => if (maxFormSize <? Z.of_nat (String.length b))%Z then [] else fst (ParseQuery b)
        end
      else if mediatype =s "multipart/form-data" then multipart r
      else []
  end.

Section Stub.
Context `{GoLib} `{RSA}.

Definition jwks (key : PrivateKey) : json :=
  JMap [("keys", JArr [JMap [("kty", JStr "RSA"); ("use", JStr "sig"); ("alg", JStr "RS256"); ("kid", JStr kid);
                             ("n", JStr (RawURLEncode (big_bytes (key_N key))));
                             ("e", JStr (RawURLEncode (big_bytes (key_E key))))]])].

Definition signJWT (key : PrivateKey) (claims : json) : option string :=
  let signingInput := RawURLEncode (Marshal jwt_header) +:+ "." +:+ RawURLEncode (Marshal claims) in
  match SignPKCS1v15 key (Sum256 signingInput) with
  | None => None
  | Some sig => Some (signingInput +:+ "." +:+ RawURLEncode sig)
  end.

(** The lifetime asked for, 600 seconds unless it is a positive number. *)
Definition stub_ttl (form : Values) : Z :=
  match Atoi (VGet form "ttl") with
  | Some n => if (0 <? n)%Z then n else 600
  | None => 600
  end.

Definition stub_aud (st : stub) (form : Values) : string :=
  if VGet form "aud" <>s "" then VGet form "aud" else stub_audience st.

(** POST /token *)
Definition stub_token (st : stub) (key : PrivateKey) (multipart : Request -> Values) (now : Time) (r : Request) : Response :=
  let form := PostForm multipart r in
  let username := VGet form "username" in
  if username =s "" then
    http_Error (q "{'error':'invalid_request','error_description':'username required'}") 400
  else
    match signJWT key (stub_claims st username (stub_aud st form) (stub_ttl form) now) with
    | None => http_Error (q "{'error':'server_error'}") 500
    | Some token =>
        mkResponse 200 "application/json"
          (Marshal (JMap [("access_token", JStr token); ("token_type", JStr "Bearer"); ("expires_in", JInt (stub_ttl form))])
           +:+ newline)
    end.

Inductive stub_endpoint := StubDiscovery | StubJwks | StubToken | StubHealthz.

Definition stub_table : table (A := stub_endpoint) :=
  [(mkPattern "GET" [Lit ".well-known"; Lit "openid-configuration"], StubDiscovery);
   (mkPattern "GET" [Lit "jwks"], StubJwks); (mkPattern "POST" [Lit "token"], StubToken);
   (mkPattern "GET" [Lit "healthz"], StubHealthz)].

Definition stub_handler (st : stub) (key : PrivateKey) (multipart : Request -> Values) (now : Time) (r : Request) : answer :=
  match mux_route stub_table r with
  | Handle StubDiscovery _ => Replied (mkResponse 200 "application/json" (Marshal (discovery st)))
  | Handle StubJwks _ => Replied (mkResponse 200 "application/json" (Marshal (jwks key)))
  | Handle StubToken _ => Replied (stub_token st key multipart now r)
  | Handle StubHealthz _ => Replied (mkResponse 200 "" "")
  | Redirect to => Redirected to
  | MethodNotAllowed _ => Replied (http_Error "Method Not Allowed" 405)
  | NoRoute => Replied (http_Error "404 page not found" 404)
  | BadRequest => Replied (mkResponse 400 "" "")
  end.

End Stub.

(** ** base64url, read back *)

Fixpoint index_of (c : ascii) (s : string) (n : N) : option N :=
  match s with
  | EmptyString => None
  | String d r => if Ascii.eqb c d then Some n else index_of c r (n + 1)
  end.

Definition b64_val (c : ascii) : option N := index_of c base64url 0.

Fixpoint RawURLDecode (s : string) : option string :=
  match s with
  | EmptyString => Some ""
  | String a EmptyString => None
  | String a (String b EmptyString) =>
      x ← b64_val a; y ← b64_val b;
      let v := (x * 262144 + y * 4096)%N in Some (String (chr (v / 65536)) "")
  | String a (String b (String c EmptyString)) =>
      x ← b64_val a; y ← b64_val b; z ← b64_val c;
      let v := (x * 262144 + y * 4096 + z * 64)%N in
      Some (String (chr (v / 65536)) (String (chr (v / 256 mod 256)) ""))
  | String a (String b (String c (String d r))) =>
      x ← b64_val a; y ← b64_val b; z ← b64_val c; t ← b64_val d; rest ← RawURLDecode r;
      let v := (x * 262144 + y * 4096 + z * 64 + t)%N in
      Some (String (chr (v / 65536)) (String (chr (v / 256 mod 256)) (String (chr (v mod 256)) rest)))
  end.

Lemma b64_val_chr n : (n < 64)%N -> b64_val (b64_chr n) = Some n.
Proof.
  intros Hn.
  assert (forallb (fun k => bool_decide (b64_val (b64_chr (N.of_nat k)) = Some (N.of_nat k))) (seq 0 64) = true)
    as Hall by (vm_compute; reflexivity).
  rewrite forallb_forall in Hall. specialize (Hall (N.to_nat n)). rewrite N2Nat.id in Hall.
  apply bool_decide_eq_true in Hall; [done|]. apply in_seq. lia.
Qed.

(** The sextets of a 24-bit number. *)
Lemma sextets_of_24 v : (v < 16777216)%N ->
  (v / 262144 mod 64 * 262144 + v / 4096 mod 64 * 4096 + v / 64 mod 64 * 64 + v mod 64 = v)%N.
Proof. intros Hv. zify. Z.to_euclidean_division_equations. lia. Qed.

Lemma bytes_of_24 a b c :
  let v := (code a * 65536 + code b * 256 + code c)%N in
  (v < 16777216)%N /\ chr (v / 65536) = a /\ chr (v / 256 mod 256) = b /\ chr (v mod 256) = c.
Proof.
  intros v. pose proof (code_bound a). pose proof (code_bound b). pose proof (code_bound c).
  assert (v / 65536 = code a /\ v / 256 mod 256 = code b /\ v mod 256 = code c)%N as (-> & -> & ->).
  { subst v. zify. Z.to_euclidean_division_equations. lia. }
  rewrite !chr_code. split; [subst v; lia|done].
Qed.

Lemma RawURLDecode_Encode s : RawURLDecode (RawURLEncode s) = Some s.
Proof.
  induction s as [|a|a b|a b c r IH] using string_ind3; [done|..].
  - destruct (bytes_of_24 a "000" "000") as (Hv & Ha & _). change (code "000") with 0%N in *.
    cbn [RawURLEncode RawURLDecode]. replace (code a * 65536)%N with (code a * 65536 + 0 * 256 + 0)%N by lia.
    set (v := (code a * 65536 + 0 * 256 + 0)%N) in *.
    rewrite !b64_val_chr by (apply N.mod_lt; lia). cbn [mbind option_bind]. do 2 f_equal.
    transitivity (chr (v / 65536)); [|done]. f_equal.
    assert (v / 64 mod 64 = 0 /\ v mod 64 = 0)%N as [H1 H2] by (subst v; pose proof (code_bound a); zify; Z.to_euclidean_division_equations; lia).
    pose proof (sextets_of_24 v Hv) as Hs. rewrite H1, H2 in Hs. f_equal. lia.
  - destruct (bytes_of_24 a b "000") as (Hv & Ha & Hb & _). change (code "000") with 0%N in *.
    cbn [RawURLEncode RawURLDecode]. replace (code a * 65536 + code b * 256)%N with (code a * 65536 + code b * 256 + 0)%N by lia.
    set (v := (code a * 65536 + code b * 256 + 0)%N) in *.
    rewrite !b64_val_chr by (apply N.mod_lt; lia). cbn [mbind option_bind].
    assert (v mod 64 = 0)%N as H1 by (subst v; pose proof (code_bound a); pose proof (code_bound b); zify; Z.to_euclidean_division_equations; lia).
    pose proof (sextets_of_24 v Hv) as Hs. rewrite H1, N.add_0_r in Hs. rewrite Hs, Ha, Hb. done.
  - destruct (bytes_of_24 a b c) as (Hv & Ha & Hb & Hc).
    cbn [RawURLEncode RawURLDecode]. set (v := (code a * 65536 + code b * 256 + code c)%N) in *.
    rewrite !b64_val_chr by (apply N.mod_lt; lia). cbn [mbind option_bind].
    rewrite IH. cbn [mbind option_bind]. rewrite (sextets_of_24 v Hv), Ha, Hb, Hc. done.
Qed.

(** ** Tokens, read back *)

(** The header, the claims and the signature of a token, as a JWS library
    reads its compact serialisation. *)
Definition jwt_parts (tok : string) : option (json * json * string) :=
  match Split "." tok with
  | [h; p; s] =>
      h ← RawURLDecode h ≫= decode_text; p ← RawURLDecode p ≫= decode_text; s ← RawURLDecode s;
      Some (h, p, s)
  | _ => None
  end.

Lemma utf8_ascii_app a b : sall is_ascii7 a = true -> utf8_text (a +:+ b) = utf8_text b.
Proof.
  unfold utf8_text. induction a as [|c a IH]; [done|]. cbn [sall]. intros [Hc Ha]%andb_true_iff.
  cbn [String.append utf8_go]. unfold rune_width. unfold is_ascii7 in Hc. rewrite Hc. by apply IH.
Qed.

Lemma utf8_ascii a : sall is_ascii7 a = true -> utf8_text a = true.
Proof. intros Ha. rewrite <- (sapp_nil_r a). by rewrite utf8_ascii_app. Qed.

Lemma encoded_ascii s : sall is_ascii7 (RawURLEncode s) = true /\ sfree "." (RawURLEncode s) = true.
Proof.
  pose proof (RawURLEncode_class s) as Hc. split.
  - eapply sall_impl; [|exact Hc]. intros c Hb. assert (implb (is_base64url c) (is_ascii7 c) = true) as Hall by by_bytes c.
    by rewrite Hb in Hall.
  - by apply (sall_sfree is_base64url).
Qed.

Lemma decode_line j : json_ok j = true -> decode_text (Marshal j +:+ newline) = Some j.
Proof.
  intros Hok. unfold decode_text. pose proof (jsize_length j Hok). rewrite slength_app.
  rewrite (Marshal_reads_back j Hok) by (done || lia). done.
Qed.

Section Reading.
Context `{GoLib} `{RSA}.

Lemma signJWT_ascii key claims tok : signJWT key claims = Some tok -> sall is_ascii7 tok = true.
Proof.
  unfold signJWT. destruct (SignPKCS1v15 _ _) as [sig|]; [|done]. intros E. apply (inj Some) in E. subst tok.
  rewrite !sall_app, !(proj1 (encoded_ascii _)). done.
Qed.

Lemma signJWT_parts key claims tok :
  json_ok claims = true -> signJWT key claims = Some tok ->
  exists sig input, SignPKCS1v15 key (Sum256 input) = Some sig /\
    tok = input +:+ "." +:+ RawURLEncode sig /\ jwt_parts tok = Some (jwt_header, claims, sig).
Proof.
  intros Hok. unfold signJWT. set (input := RawURLEncode (Marshal jwt_header) +:+ "." +:+ RawURLEncode (Marshal claims)).
  destruct (SignPKCS1v15 key (Sum256 input)) as [sig|] eqn:Es; [|done]. intros E. apply (inj Some) in E. subst tok. exists sig, input.
  split; [done|]. split; [done|].
  unfold jwt_parts.
  assert (input +:+ "." +:+ RawURLEncode sig =
    Join [RawURLEncode (Marshal jwt_header); RawURLEncode (Marshal claims); RawURLEncode sig] ".") as ->.
  { unfold input, Join. by rewrite !concat_cons2, !sapp_assoc. }
  rewrite Split_Join; [|done|repeat constructor; apply encoded_ascii].
  rewrite !RawURLDecode_Encode. cbn [mbind option_bind].
  rewrite (proj1 (decode_Marshal jwt_header ltac:(vm_compute; reflexivity))), (proj1 (decode_Marshal claims Hok)). done.
Qed.

(** The claims in the order they are written. *)
Lemma stub_claims_sorted st u aud ttl now :
  stub_claims st u aud ttl now =
  JObj [("aud", JArr (map JStr (Split "," aud))); ("exp", JInt (Add now (seconds ttl) / Second)); ("iat", JInt (now / Second));
        ("iss", JStr (stub_issuer st)); ("nbf", JInt (now / Second)); ("sub", JStr ("stub|" +:+ u)); ("uid", JStr u)].
Proof.
  unfold stub_claims. generalize (JArr (map JStr (Split "," aud))) (JInt (Add now (seconds ttl) / Second)) (JInt (now / Second))
    (JStr (stub_issuer st)) (JStr ("stub|" +:+ u)) (JStr u). reflexivity.
Qed.

Lemma token_document tok ttl :
  JMap [("access_token", JStr tok); ("token_type", JStr "Bearer"); ("expires_in", JInt ttl)] =
  JObj [("access_token", JStr tok); ("expires_in", JInt ttl); ("token_type", JStr "Bearer")].
Proof. generalize (JStr tok) (JInt ttl). reflexivity. Qed.

Lemma stub_claims_ok st u aud ttl now :
  utf8_text (stub_issuer st) = true -> utf8_text u = true -> Forall (fun a => utf8_text a = true) (Split "," aud) ->
  (0 <= now <= max_int64)%Z -> json_ok (stub_claims st u aud ttl now) = true.
Proof.
  intros Hi Hu Ha Hn. rewrite stub_claims_sorted. unfold JInt. cbn [json_ok forallb fst snd].
  assert (forallb json_ok (map JStr (Split "," aud)) = true) as ->.
  { apply forallb_forall. intros j Hj. apply in_map_iff in Hj as (a & <- & Hin). cbn [json_ok].
    eapply Forall_forall in Ha; [exact Ha|]. by apply list_elem_of_In. }
  pose proof (wrap64_range (ttl * Second)) as Hw. fold (seconds ttl) in Hw. unfold min_int64, max_int64, Second in *.
  rewrite !Itoa_lit by (unfold Add; Z.to_euclidean_division_equations; lia).
  rewrite Hi, Hu, utf8_ascii_app, Hu by done. reflexivity.
Qed.

Lemma stub_ttl_range form : (0 < stub_ttl form)%Z /\ in_int64 (stub_ttl form) = true.
Proof.
  unfold stub_ttl. destruct (Atoi (VGet form "ttl")) as [n|] eqn:E; [|done].
  destruct (Z.ltb_spec 0 n); [|done]. split; [done|]. unfold Atoi in E. repeat case_match; congruence.
Qed.

Lemma token_document_decodes tok ttl :
  utf8_text tok = true -> in_int64 ttl = true ->
  decode_Token (Marshal (JObj [("access_token", JStr tok); ("expires_in", JInt ttl); ("token_type", JStr "Bearer")]) +:+ newline)
  = Some (mkToken tok "" ttl).
Proof.
  intros Ht Hr. unfold decode_Token. rewrite decode_line.
  - cbn [mbind option_bind struct_members].
    change (field_values _ "access_token" _) with [JStr tok]. change (field_values _ "refresh_token" _) with (@nil json).
    change (field_values _ "expires_in" _) with [JInt ttl]. cbn [string_field int_field fold_left JInt].
    by rewrite Atoi_Itoa.
  - unfold JInt. cbn [json_ok forallb fst snd]. rewrite Ht, Itoa_lit; [done|].
    unfold in_int64, min_int64, max_int64 in Hr. apply andb_true_iff in Hr as [Hlo Hhi].
    apply Z.leb_le in Hlo, Hhi. lia.
Qed.

(** What the token endpoint answers to a username. *)
Lemma stub_token_minted st key multipart now r :
  let form := PostForm multipart r in
  let u := VGet form "username" in
  let resp := stub_token st key multipart now r in
  (forall d, SignPKCS1v15 key d <> None) -> (0 <= now <= max_int64)%Z ->
  utf8_text (stub_issuer st) = true -> utf8_text u = true ->
  Forall (fun a => utf8_text a = true) (Split "," (stub_aud st form)) -> u <> "" ->
  exists token sig input,
    status resp = 200%Z /\ decode_Token (body resp) = Some (mkToken token "" (stub_ttl form)) /\ (0 < stub_ttl form)%Z /\
    SignPKCS1v15 key (Sum256 input) = Some sig /\ token = input +:+ "." +:+ RawURLEncode sig /\
    jwt_parts token = Some (jwt_header,
      JObj [("aud", JArr (map JStr (Split "," (stub_aud st form))));
            ("exp", JInt (Add now (seconds (stub_ttl form)) / Second)); ("iat", JInt (now / Second));
            ("iss", JStr (stub_issuer st)); ("nbf", JInt (now / Second));
            ("sub", JStr ("stub|" +:+ u)); ("uid", JStr u)], sig).
Proof.
  intros form u resp Hsign Hnow Hi Hu Ha Hne. unfold resp, stub_token. fold form. fold u.
  rewrite (proj2 (String.eqb_neq _ _) Hne).
  pose proof (stub_claims_ok st u (stub_aud st form) (stub_ttl form) now Hi Hu Ha Hnow) as Hok.
  destruct (signJWT key _) as [token|] eqn:Es.
  2:{ exfalso. unfold signJWT in Es. destruct (SignPKCS1v15 _ _) eqn:E; [done|]. by apply Hsign in E. }
  pose proof (signJWT_ascii _ _ _ Es) as Hascii. destruct (signJWT_parts _ _ _ Hok Es) as (sig & input & Hs & Hp & Hj).
  rewrite stub_claims_sorted in Hj. exists token, sig, input. destruct (stub_ttl_range form) as [Hpos Hr].
  rewrite token_document. cbn [status body].
  split_and!; [done|apply token_document_decodes; [by apply utf8_ascii|done]|done..].
Qed.

(** C29: The token endpoint mints what it says.  With a username (and text that
    is valid UTF-8) it answers 200 with a document that decodes to a bearer
    token of a positive lifetime; the token's three segments decode to the RS256
    header, to exactly the claims of that user, audience and lifetime, and to
    the signature of the first two: no username can add or change a claim.
    Without a username it answers 400.  And the subject it writes is one the
    proxy's default policy never admits, so the proxy cannot fall back to it. *)
Theorem stub_token_reads_back st key multipart now r :
  let form := PostForm multipart r in
  let u := VGet form "username" in
  let resp := stub_token st key multipart now r in
  (forall d, SignPKCS1v15 key d <> None) -> (0 <= now <= max_int64)%Z ->
  utf8_text (stub_issuer st) = true -> utf8_text u = true ->
  Forall (fun a => utf8_text a = true) (Split "," (stub_aud st form)) ->
  (u = "" -> status resp = 400%Z) /\
  (u <> "" -> exists token sig input,
     status resp = 200%Z /\ decode_Token (body resp) = Some (mkToken token "" (stub_ttl form)) /\ (0 < stub_ttl form)%Z /\
     SignPKCS1v15 key (Sum256 input) = Some sig /\ token = input +:+ "." +:+ RawURLEncode sig /\
     jwt_parts token = Some (jwt_header,
       JObj [("aud", JArr (map JStr (Split "," (stub_aud st form))));
             ("exp", JInt (Add now (seconds (stub_ttl form)) / Second)); ("iat", JInt (now / Second));
             ("iss", JStr (stub_issuer st)); ("nbf", JInt (now / Second));
             ("sub", JStr ("stub|" +:+ u)); ("uid", JStr u)], sig)) /\
  default_username_match ("stub|" +:+ u) = false.
Proof.
  intros form u resp Hsign Hnow Hi Hu Ha. split_and!.
  - intros Hu0. unfold resp, stub_token. fold form. fold u. by rewrite Hu0.
  - by apply stub_token_minted.
  - unfold default_username_match. apply andb_false_iff. right. reflexivity.
Qed.

End Reading.

(** ** A token *)

Module DemoStub.

(** A key whose signatures are the digests. *)
#[export] Instance rsa : RSA := {|
  PrivateKey := unit;
  key_N := fun _ => 3233%Z;
  key_E := fun _ => 65537%Z;
  SignPKCS1v15 := fun _ d => Some d
|}.

Definition demo_key : @PrivateKey rsa := tt.
Definition demo_stub : stub := stub_of_env (fun _ => "").

Definition ask : Request :=
  mkRequest "POST" (mkURL "" "" "/token" "" "") "/token" "stub-issuer:8081"
    (HSet ∅ "Content-Type" "application/x-www-form-urlencoded") 0 (Some "username=alice%22%7D&ttl=60") None false.

End DemoStub.

Section Witnesses.
#[local] Existing Instance ascii_lib.
Import DemoStub.

Example demo_exponent : RawURLEncode (big_bytes 65537) = "AQAB".
Proof. vm_compute. reflexivity. Qed.

Example demo_route : mux_route stub_table ask = Handle StubToken [].
Proof. vm_compute. reflexivity. Qed.

(** A username that tries to close its JSON string. *)
Lemma stub_token_reads_back_witness :
  exists token sig, decode_Token (body (stub_token demo_stub demo_key (fun _ => []) 0%Z ask)) = Some (mkToken token "" 60) /\
    exists claims, jwt_parts token = Some (jwt_header, JObj claims, sig) /\
      In ("uid", JStr (VGet (PostForm (fun _ => []) ask) "username")) claims.
Proof.
  destruct (stub_token_reads_back demo_stub demo_key (fun _ => []) 0%Z ask) as (_ & Hok & _).
  - cbn. discriminate.
  - unfold max_int64. lia.
  - reflexivity.
  - reflexivity.
  - repeat constructor.
  - destruct Hok as (token & sig & input & _ & Hd & _ & _ & _ & Hj); [vm_compute; discriminate|].
    exists token, sig. split; [exact Hd|]. eexists. split; [exact Hj|]. cbn [In]. tauto.
Defined.

End Witnesses.
