(* ===== verification/Lab.v ===== *)
(** * The compose lab: stub issuer and proxy together

    The proxy of examples/compose trusts two issuers; the second is the stub.
    Here the validator of internal/oidc discovers the stub's keys from the
    documents the stub serves, and validates the tokens it mints: the JSON the
    one writes is the JSON the other reads.  What lies between them is what
    the JOSE library documents of compact tokens and key sets (the class
    [JwtReads]) and a network that delivers requests to the stub. *)

From Stdlib Require Import Ascii String ZArith NArith Bool Lia.
From stdpp Require Import base tactics list strings gmap sorting.
From S2P Require Import Prelude GoStrings Sha256 GoTime GoHttp GoMux GoXml GoJson.
From S2P Require Import DeviceLogin StubIssuer.
From S2P Require Import S3err Sigv4 Presign Sign Store Forward Config Oidc Sts Metrics Server Lanes.

(** ** What the library reads *)

Section Library.
Context `{GoLib} `{Jwx} `{RSA}.

(** The registered claims have the types the library asks for. *)
Definition claim_typed (kv : string * json) : bool :=
  match kv.2 with
  | JStr _ => negb (existsb (String.eqb kv.1) ["aud"; "exp"; "nbf"; "iat"])
  | JArr l => negb (existsb (String.eqb kv.1) ["iss"; "sub"; "jti"; "exp"; "nbf"; "iat"])
              && (negb (kv.1 =s "aud") || forallb (fun j => match j with JStr _ => true | _ => false end) l)
  | JNum _ => negb (existsb (String.eqb kv.1) ["iss"; "sub"; "jti"; "aud"])
  | _ => false
  end.

(** The claims object of a token, as the accessors of the library give it. *)
Record carries (claims : list (string * json)) (tok : Token) : Prop := {
  carries_iss : forall s, ("iss", JStr s) ∈ claims -> tok_Issuer tok = s;
  carries_sub : forall s, ("sub", JStr s) ∈ claims -> tok_Subject tok = s;
  carries_aud : forall l, ("aud", JArr (map JStr l)) ∈ claims -> tok_Audience tok = l;
  carries_exp : forall n, in_int64 n = true -> ("exp", JInt n) ∈ claims -> tok_Expiration tok = (n * Second)%Z;
  carries_string : forall name s, (name, JStr s) ∈ claims -> claim tok name = Some (Some s)
}.

(** A token in force at [now]. *)
Record in_force (claims : list (string * json)) (now : Time) : Prop := {
  force_exp : exists n, in_int64 n = true /\ ("exp", JInt n) ∈ claims /\ (now < n * Second)%Z;
  force_nbf : exists n, in_int64 n = true /\ ("nbf", JInt n) ∈ claims /\ (n * Second <= now)%Z;
  force_iat : exists n, in_int64 n = true /\ ("iat", JInt n) ∈ claims /\ (n * Second <= now)%Z
}.

(** Documented behaviour on compact RS256 tokens, RSA key sets and the cache
    of key sets. *)
Class JwtReads := {
  (** An RSA public key, and RS256 verification of a digest. *)
  rsa_public : Z -> Z -> Key;
  rs256_verifies : Key -> string -> string -> Prop;
  sign_verifies : forall key digest sig,
    SignPKCS1v15 key digest = Some sig -> rs256_verifies (rsa_public (key_N key) (key_E key)) digest sig;
  (** [jwt.ParseInsecure], [jws.Parse], [jwt.Parse]. *)
  parse_insecure_reads : forall raw h claims sig,
    jwt_parts raw = Some (h, JObj claims, sig) -> NoDup claims.*1 -> forallb claim_typed claims = true ->
    exists tok, ParseInsecure raw = Some tok /\ carries claims tok;
  jws_reads : forall raw h c sig k,
    jwt_parts raw = Some (JObj h, c, sig) -> NoDup h.*1 -> ("alg", JStr "RS256") ∈ h -> ("kid", JStr k) ∈ h ->
    jws_Parse raw = Some [("RS256", k)];
  jwt_reads : forall raw h claims sig input key skew req now tok,
    jwt_parts raw = Some (JObj h, JObj claims, sig) -> raw = input +:+ "." +:+ RawURLEncode sig ->
    NoDup h.*1 -> NoDup claims.*1 -> ("alg", JStr "RS256") ∈ h -> rs256_verifies key (Sum256 input) sig ->
    ParseInsecure raw = Some tok -> in_force claims now -> (0 <= skew)%Z -> Forall (fun c => c ∈ claims.*1) req ->
    jwt_Parse raw "RS256" key skew req now = Ok tok;
  (** [jwk.Parse] of a set with one RSA key. *)
  jwk_set : string -> option KeySet;
  jwk_set_reads : forall text members k n e,
    decode_text text = Some (JObj [("keys", JArr [JObj members])]) -> NoDup members.*1 ->
    ("kty", JStr "RSA") ∈ members -> ("kid", JStr k) ∈ members -> (0 < n)%Z -> (0 < e)%Z ->
    ("n", JStr (RawURLEncode (big_bytes n))) ∈ members -> ("e", JStr (RawURLEncode (big_bytes e))) ∈ members ->
    exists set, jwk_set text = Some set /\ LookupKeyID set k = Some (rsa_public n e);
  (** A cache nothing was registered with, and the first use of a URL. *)
  cold : Ext -> Prop;
  http_cold : forall url x, cold x -> cold (http_Get url x).1;
  register_ok : forall url x, url_Parse url <> None -> (cache_Register url x).2 = true;
  first_get : forall url x text set,
    cold x -> (http_Get url (cache_Register url x).1).2 = Some (200%Z, text) -> jwk_set text = Some set ->
    (cache_Get url (cache_Register url x).1).2 = Some set
}.

End Library.

(** ** Valid UTF-8 is closed under concatenation *)

Lemma rune_width_app s t w : rune_width s = S w -> rune_width (s +:+ t) = S w /\ (S w <= String.length s)%nat.
Proof.
  destruct s as [|a [|b [|c [|d s]]]]; cbn [rune_width String.append String.length];
    intros E; repeat case_match; simplify_eq; split; done || lia.
Qed.

Lemma utf8_go_app a t : forall k, utf8_go a k = true -> (k <= String.length a)%nat -> utf8_go (a +:+ t) k = utf8_go t 0.
Proof.
  induction a as [|c a IH]; intros k Hk Hl; cbn [String.length] in Hl; [by replace k with 0 by lia|].
  cbn [String.append]. destruct k as [|k]; cbn [utf8_go] in *.
  - destruct (rune_width (String c a)) as [|w] eqn:Ew; [done|]. destruct (rune_width_app _ t _ Ew) as [Ew' Hw].
    cbn [String.append] in Ew'. rewrite Ew'. apply IH; [done|]. cbn [String.length] in Hw. lia.
  - apply IH; [done|lia].
Qed.

Lemma utf8_text_app a b : utf8_text a = true -> utf8_text b = true -> utf8_text (a +:+ b) = true.
Proof. intros Ha Hb. unfold utf8_text in *. rewrite utf8_go_app; done || lia. Qed.

(** ** The stub's documents, read by the validator *)

Section Lab.
Context `{GoLib} `{Jwx} `{RSA} `{!JwtReads}.
Context (st : stub) (key : PrivateKey) (multipart : Request -> Values).

(** A GET of a path, and what the stub answers on the wire. *)
Definition lab_get (host path : string) : Request :=
  mkRequest "GET" (mkURL "" "" path "" "") path host ∅ 0 (Some "") None false.

Definition on_wire (a : answer) : option (Z * string) :=
  match a with Replied r => Some (status r, body r) | Redirected _ => None end.

(** The network delivers the validator's requests to the stub. *)
Record lab_network : Prop := {
  net_discovery : url_Parse (stub_issuer st +:+ "/.well-known/openid-configuration") <> None;
  net_jwks : url_Parse (stub_issuer st +:+ "/jwks") <> None;
  net_delivers : forall path x, exists host now,
    (http_Get (stub_issuer st +:+ path) x).2 = on_wire (stub_handler st key multipart now (lab_get host path))
}.

Lemma discovery_sorted : discovery st =
  JObj [("id_token_signing_alg_values_supported", JArr [JStr "RS256"]); ("issuer", JStr (stub_issuer st));
        ("jwks_uri", JStr (stub_issuer st +:+ "/jwks")); ("response_types_supported", JArr [JStr "token"]);
        ("subject_types_supported", JArr [JStr "public"]); ("token_endpoint", JStr (stub_issuer st +:+ "/token"))].
Proof.
  unfold discovery. generalize (JStr (stub_issuer st)) (JStr (stub_issuer st +:+ "/jwks")) (JStr (stub_issuer st +:+ "/token")).
  reflexivity.
Qed.

Lemma serves_discovery host now :
  stub_handler st key multipart now (lab_get host "/.well-known/openid-configuration") =
  Replied (mkResponse 200 "application/json" (Marshal (discovery st))).
Proof. reflexivity. Qed.

Lemma serves_jwks host now :
  stub_handler st key multipart now (lab_get host "/jwks") = Replied (mkResponse 200 "application/json" (Marshal (jwks key))).
Proof. reflexivity. Qed.

Lemma jwks_sorted : jwks key =
  JObj [("keys", JArr [JObj [("alg", JStr "RS256"); ("e", JStr (RawURLEncode (big_bytes (key_E key)))); ("kid", JStr kid);
                             ("kty", JStr "RSA"); ("n", JStr (RawURLEncode (big_bytes (key_N key)))); ("use", JStr "sig")]])].
Proof.
  unfold jwks. generalize (JStr (RawURLEncode (big_bytes (key_E key)))) (JStr (RawURLEncode (big_bytes (key_N key)))). reflexivity.
Qed.

Context (Hissuer : utf8_text (stub_issuer st) = true).

Lemma discovery_decodes : decode_jwks_uri (Marshal (discovery st)) = Some (stub_issuer st +:+ "/jwks").
Proof using All.
  assert (json_ok (discovery st) = true) as Hok.
  { rewrite discovery_sorted. cbn [json_ok forallb fst snd]. by rewrite !Hissuer, !utf8_text_app by done. }
  unfold decode_jwks_uri. rewrite (proj2 (decode_Marshal _ Hok)), discovery_sorted. reflexivity.
Qed.

Context (Hn : (0 < key_N key)%Z) (He : (0 < key_E key)%Z).

Lemma jwks_decodes : exists set, jwk_set (Marshal (jwks key)) = Some set /\
  LookupKeyID set kid = Some (rsa_public (key_N key) (key_E key)).
Proof using All.
  assert (json_ok (jwks key) = true) as Hok.
  { rewrite jwks_sorted. cbn [json_ok forallb fst snd]. by rewrite !(utf8_ascii _ (proj1 (encoded_ascii _))). }
  pose proof (proj1 (decode_Marshal _ Hok)) as Hd. rewrite jwks_sorted in Hd at 2.
  eapply jwk_set_reads; [exact Hd|..]; [|set_solver..|done|done|set_solver|set_solver].
  apply (bool_decide_unpack _). reflexivity.
Qed.

Context (Hnet : lab_network).

(** The location of the stub's keys, from its discovery document. *)
Lemma lab_resolve c i x :
  IssuerURL i = stub_issuer st -> JWKSURI i = "" -> cold x ->
  exists x1 v, cold x1 /\ resolveJWKS (stub_issuer st) (issuerState_of i) (Oidc.New c x) = (v, Ok (stub_issuer st +:+ "/jwks")) /\
    ext v = (cache_Register (stub_issuer st +:+ "/jwks") x1).1 /\ v_policy v = cfg_UsernamePolicy c.
Proof using All.
  intros Hi Hj Hx. destruct Hnet as [Hd Hw Hg]. unfold resolveJWKS, discoverJWKS.
  cbn [jwksURL issuerState_of is_cfg]. rewrite Hj, Hi. cbn [String.eqb negb].
  destruct (url_Parse (_ +:+ "/.well-known/openid-configuration")); [|done].
  destruct (Hg "/.well-known/openid-configuration" x) as (host & t & Eg). rewrite serves_discovery in Eg.
  pose proof (http_cold (stub_issuer st +:+ "/.well-known/openid-configuration") x Hx) as Hc. cbn [ext Oidc.New].
  destruct (http_Get _ x) as [x1 a]. cbn [fst snd on_wire status body] in *. subst a. cbn [Z.eqb Pos.eqb negb].
  rewrite discovery_decodes. destruct (seqb_spec (stub_issuer st +:+ "/jwks") "") as [E|_]; [by destruct (stub_issuer st)|].
  pose proof (register_ok (stub_issuer st +:+ "/jwks") x1 Hw) as Hr. exists x1.
  destruct (cache_Register _ x1) as [x2 ok]. cbn [fst snd] in *. subst ok. eexists. split; [done|]. by split.
Qed.

(** The first lookup of the stub's key: discovery, registration, fetch. *)
Lemma lab_lookup c i x now :
  IssuerURL i = stub_issuer st -> JWKSURI i = "" -> cold x ->
  exists v, lookupKey now (stub_issuer st) (issuerState_of i) kid (Oidc.New c x)
              = (v, Ok (rsa_public (key_N key) (key_E key))) /\ v_policy v = cfg_UsernamePolicy c.
Proof using All.
  intros Hi Hj Hx. destruct (lab_resolve c i x Hi Hj Hx) as (x1 & v & Hc & Er & Ev & Ep). unfold lookupKey. rewrite Er, Ev.
  destruct jwks_decodes as (set & Hset & Hkey). destruct (net_delivers Hnet "/jwks" (cache_Register (stub_issuer st +:+ "/jwks") x1).1)
    as (host & t & Eg). rewrite serves_jwks in Eg. pose proof (first_get _ x1 _ set Hc Eg Hset) as Hf.
  destruct (cache_Get _ _) as [x3 g]. cbn [snd] in Hf. subst g. rewrite Hkey. eexists. by split.
Qed.

End Lab.

(** ** The registry of issuers *)

Lemma fold_other `{GoLib} `{Jwx} l (m : gmap string issuerState) k :
  k ∉ map IssuerURL l -> fold_left (fun m i => <[IssuerURL i := issuerState_of i]> m) l m !! k = m !! k.
Proof.
  revert m. induction l as [|i l IH]; intros m Hk; [done|]. cbn [fold_left map] in *. apply not_elem_of_cons in Hk as [Hne Hk].
  rewrite IH by done. by rewrite lookup_insert_ne.
Qed.

Lemma New_registers `{GoLib} `{Jwx} c x i :
  NoDup (map IssuerURL (cfg_Issuers c)) -> i ∈ cfg_Issuers c ->
  byIssuerURL (Oidc.New c x) !! IssuerURL i = Some (issuerState_of i).
Proof.
  cbn [Oidc.New byIssuerURL]. generalize (∅ : gmap string issuerState). induction (cfg_Issuers c) as [|j l IH]; intros m Hd Hi.
  { by apply not_elem_of_nil in Hi. }
  cbn [fold_left map] in *. apply NoDup_cons in Hd as [Hnj Hd]. apply elem_of_cons in Hi as [->|Hi]; [|by apply IH].
  rewrite fold_other by done. apply lookup_insert_eq.
Qed.

(** ** The stub's tokens, validated by the proxy *)

Section Tokens.
Context `{GoLib} `{Jwx} `{RSA} `{!JwtReads}.
Context (st : stub) (key : PrivateKey) (multipart : Request -> Values).

(** The stub's entry in a configuration, as in examples/compose/config. *)
Record lab_issuer (c : Config) (i : Issuer) : Prop := {
  li_valid : valid_config c;
  li_listed : i ∈ cfg_Issuers c;
  li_url : IssuerURL i = stub_issuer st;
  li_discovered : JWKSURI i = "";
  li_claim : UsernameClaim i = "uid";
  li_alg : "RS256" ∈ AllowedSigningAlgs (cfg_Security c)
}.

(** A working stub: its text is valid UTF-8, its key signs and is a proper
    public key, and the network reaches it. *)
Record lab_stub : Prop := {
  ls_text : utf8_text (stub_issuer st) = true;
  ls_signs : forall d, SignPKCS1v15 key d <> None;
  ls_modulus : (0 < key_N key)%Z;
  ls_exponent : (0 < key_E key)%Z;
  ls_network : lab_network st key multipart
}.

(** A request for a token: a username the policy admits and an audience the
    issuer's entry lists. *)
Record lab_ask (c : Config) (i : Issuer) (form : Values) : Prop := {
  la_user : VGet form "username" <> "";
  la_text : utf8_text (VGet form "username") = true;
  la_admitted : policy_Validate (cfg_UsernamePolicy c) (VGet form "username") = true;
  la_audiences : Forall (fun a => utf8_text a = true) (Split "," (stub_aud st form));
  la_audience : exists a, a ∈ Split "," (stub_aud st form) /\ a ∈ Audiences i
}.

(** When a token asked for at [t] ends, in whole seconds. *)
Definition lab_expiry (t : Time) (form : Values) : Z := (Add t (seconds (stub_ttl form)) / Second)%Z.

Lemma lab_expiry_range t form : (0 <= t <= max_int64)%Z -> in_int64 (lab_expiry t form) = true /\ in_int64 (t / Second) = true.
Proof.
  intros Ht. pose proof (wrap64_range (stub_ttl form * Second)) as Hw. fold (seconds (stub_ttl form)) in Hw.
  unfold lab_expiry, Add, in_int64, min_int64, max_int64, Second in *.
  split; apply andb_true_iff; split; apply Z.leb_le; Z.to_euclidean_division_equations; lia.
Qed.

(** The claims of a token of the stub. *)
Definition lab_claims (t : Time) (form : Values) : list (string * json) :=
  [("aud", JArr (map JStr (Split "," (stub_aud st form)))); ("exp", JInt (lab_expiry t form)); ("iat", JInt (t / Second));
   ("iss", JStr (stub_issuer st)); ("nbf", JInt (t / Second)); ("sub", JStr ("stub|" +:+ VGet form "username"));
   ("uid", JStr (VGet form "username"))].

Lemma lab_claims_typed t form : NoDup (lab_claims t form).*1 /\ forallb claim_typed (lab_claims t form) = true.
Proof.
  split; [apply (bool_decide_unpack _); reflexivity|]. cbn. rewrite !andb_true_r.
  apply forallb_forall. intros j Hj. by apply in_map_iff in Hj as (s & <- & _).
Qed.

Lemma lab_in_force t form now :
  (0 <= t <= max_int64)%Z -> (t <= now < lab_expiry t form * Second)%Z -> in_force (lab_claims t form) now.
Proof.
  intros Ht Hn. destruct (lab_expiry_range t form Ht) as [He Hi]. assert (t / Second * Second <= t)%Z as Hle
    by (unfold Second; Z.to_euclidean_division_equations; lia).
  split; [exists (lab_expiry t form)|exists (t / Second)%Z|exists (t / Second)%Z]; (split; [done|]); (split; [set_solver|lia]).
Qed.

(** The library reads a token of the stub, and verifies it under the stub's
    public key while it is in force. *)
Lemma lab_token_read t form token sig input :
  (0 <= t <= max_int64)%Z -> SignPKCS1v15 key (Sum256 input) = Some sig -> token = input +:+ "." +:+ RawURLEncode sig ->
  jwt_parts token = Some (jwt_header, JObj (lab_claims t form), sig) ->
  exists tok, ParseInsecure token = Some tok /\ carries (lab_claims t form) tok /\ jws_Parse token = Some [("RS256", kid)] /\
    forall now, (t <= now < lab_expiry t form * Second)%Z ->
      jwt_Parse token "RS256" (rsa_public (key_N key) (key_E key)) jwtSkew ["exp"] now = Ok tok.
Proof using All.
  intros Ht Hs Htok Hp. destruct (lab_claims_typed t form) as [Hd Hty].
  destruct (parse_insecure_reads token jwt_header _ sig Hp Hd Hty) as (tok & Hpi & Hc). exists tok. split_and!; [done|done| |].
  - eapply jws_reads; [exact Hp| |set_solver|set_solver]. apply (bool_decide_unpack _). reflexivity.
  - intros now Hnow. eapply jwt_reads; [exact Hp|exact Htok|apply (bool_decide_unpack _); reflexivity|done|set_solver
      |by apply sign_verifies|done|by apply lab_in_force|done|apply Forall_singleton; set_solver].
Qed.

Lemma lab_carried t form tok : (0 <= t <= max_int64)%Z -> carries (lab_claims t form) tok ->
  tok_Issuer tok = stub_issuer st /\ tok_Subject tok = "stub|" +:+ VGet form "username" /\
  tok_Audience tok = Split "," (stub_aud st form) /\ tok_Expiration tok = (lab_expiry t form * Second)%Z /\
  claim tok "uid" = Some (Some (VGet form "username")).
Proof.
  intros Ht [Ci Cs Ca Ce Cc]. split_and!; [apply Ci|apply Cs|apply Ca|apply Ce|apply Cc]; [set_solver..|exact (proj1 (lab_expiry_range t form Ht))| |];
    set_solver.
Qed.

(** A fresh validator accepts a token of the stub. *)
Lemma lab_validates c i x t ask now :
  let form := PostForm multipart ask in
  let u := VGet form "username" in
  lab_issuer c i -> lab_stub -> lab_ask c i form -> cold x -> (0 <= t <= max_int64)%Z ->
  (forall n, t <= now n < lab_expiry t form * Second)%Z ->
  exists token v,
    decode_Token (body (stub_token st key multipart t ask)) = Some (mkToken token "" (stub_ttl form)) /\
    Validate now token (Oidc.New c x) = (v, Ok (mkIdentity u ("stub|" +:+ u) (Name i) (stub_issuer st) (lab_expiry t form * Second)%Z)).
Proof using All.
  intros form u [Hval Hin Hurl Hdisc Hclaim Halg] [Htext Hsign Hn He Hnet] [Hu Hut Hpol Haud Hai] Hx Ht Hnow.
  destruct (stub_token_minted st key multipart t ask Hsign Ht Htext Hut Haud Hu) as (token & sig & input & _ & Hd & _ & Hs & Htok & Hp).
  destruct (lab_token_read t form token sig input Ht Hs Htok Hp) as (tok & Hpi & Hc & Hjws & Hjwt).
  destruct (lab_carried t form tok Ht Hc) as (Ci & Cs & Ca & Ce & Cc).
  destruct (lab_lookup st key multipart Htext Hn He Hnet c i x now Hurl Hdisc Hx) as (v & Hl & Hvp).
  exists token, v. split; [exact Hd|]. unfold Validate, oidc_validator, validator_Validate.
  assert (token <> "") as Hne by (rewrite Htok; by destruct input).
  rewrite (proj2 (String.eqb_neq _ _) Hne), Hpi, Ci, <- Hurl, (New_registers c x i (valid_urls _ Hval) Hin), Hjws, Hurl.
  cbn [allowedAlgs Oidc.New]. rewrite bool_decide_eq_true_2 by set_solver. cbn [negb].
  change (kid =s "") with false. rewrite Hl, (Hjwt (now 2) (Hnow 2)). f_equal. unfold identity_from, stringClaim.
  cbn [is_cfg issuerState_of]. rewrite Ca, (proj2 (intersects_true _ _) Hai), Hclaim, Cc, (proj2 (String.eqb_neq _ _) Hu), Hvp. cbn [negb].
  rewrite (proj2 (String.eqb_neq _ _) Hu), Hpol, Cs, Ce, Hurl. done.
Qed.

End Tokens.

Section Properties.
Context `{GoLib} `{Jwx} `{RSA} `{!JwtReads} {S : Type} `{!Store S}.
Context (st : stub) (key : PrivateKey) (multipart : Request -> Values).

(** C28: the path of the compose lab, from the stub's token endpoint to the
    gateway.  For a proxy whose configuration lists the stub with username
    claim uid, and a network that delivers the validator's requests to it: a
    token asked for with an admitted username and a listed audience is, while
    in force, accepted by a validator that has seen nothing yet (it discovers
    and fetches the stub's keys on the way) as exactly that username and the
    stub's subject and expiry; and a request that bears it is forwarded under
    that username, which is the identity the gateway reads (unless the client's
    Connection header names Authorization, in which case it reads none). *)
Theorem lab_token_is_attributed c i x t ask now (sto : S) w (s : @Server Validator S) :
  let form := PostForm multipart ask in
  let u := VGet form "username" in
  lab_issuer st c i -> lab_stub st key multipart -> lab_ask st c i form -> cold x -> (0 <= t <= max_int64)%Z ->
  (forall n, (t <= now n < lab_expiry t form * Second)%Z /\ four_digit_year (now n)) ->
  Server.New c (Oidc.New c x) sto w = Some s ->
  exists token,
    decode_Token (body (stub_token st key multipart t ask)) = Some (mkToken token "" (stub_ttl form)) /\
    (Validate now token (validator s)).2 =
      Ok (mkIdentity u ("stub|" +:+ u) (Name i) (stub_issuer st) (lab_expiry t form * Second)%Z) /\
    forall gateway rand r,
      BearerEnabled (cfg_DataPath c) = true -> header_safe u -> scope_part (SecRegion (cfg_Security c)) = true ->
      isSTSRequest r = false -> HGet (RHeader r) "Authorization" = "Bearer " +:+ token -> token_keys (RHeader r) ->
      exists out, handed (serve gateway now rand r s) = Some out /\ identity_of out = Some u /\ delivered (target s) r out u.
Proof.
  intros form u Hi Hst Ha Hx Ht Hnow Hs.
  destruct (lab_validates st key multipart c i x t ask now Hi Hst Ha Hx Ht (fun n => proj1 (Hnow n))) as (token & v & Hd & Hv).
  assert (cfg s = c /\ validator s = Oidc.New c x) as [Ec Ev].
  { unfold Server.New in Hs. destruct (url_Parse _); [|done]. by injection Hs as <-. }
  exists token. split; [exact Hd|]. split; [by rewrite Ev, Hv|]. intros gateway rand r Hb Hu Hr Hn Hauth Hk.
  destruct (lab_validates st key multipart c i x t ask (later 1 now) Hi Hst Ha Hx Ht (fun n => proj1 (Hnow _))) as (token' & v' & Hd' & Hv').
  assert (token' = token) as -> by (rewrite Hd in Hd'; by injection Hd').
  assert (authenticated s (later 1 now) r u None r) as Hau.
  { rewrite <- Ev in Hv'. rewrite <- Ec in Hb. by eapply (by_bearer s (later 1 now) r token v' _ Hauth Hb Hv'). }
  assert (injectable s (later 4 now) r u None) as Hinj.
  { split; try done; [unfold region; by rewrite Ec|split; apply Hnow]. }
  eexists. split; [by apply authenticated_handed|]. split; [by apply applyIdentity_identity|].
  apply applyIdentity_delivered; [by eapply authenticated_header|done].
Qed.

End Properties.

(** ** A lab *)

Module DemoLab.
#[export] Existing Instance ascii_lib.
Export DemoStub.

Definition member (l : list (string * json)) (k : string) : option json :=
  snd <$> List.find (fun kv => kv.1 =s k) l.

Lemma member_in l k j : NoDup l.*1 -> (k, j) ∈ l -> member l k = Some j.
Proof.
  unfold member. induction l as [|[k' j'] l IH]; intros Hd Hin; [by apply not_elem_of_nil in Hin|].
  cbn [fmap list_fmap fst] in Hd. apply NoDup_cons in Hd as [Hk Hd]. cbn [List.find fst].
  apply elem_of_cons in Hin as [[= -> ->]|Hin]; [by rewrite seqb_refl|].
  destruct (seqb_spec k' k) as [->|_]; [|by apply IH]. exfalso. apply Hk. by apply (list_elem_of_fmap_2 fst l (k, j)).
Qed.

Definition text (l : list (string * json)) (k : string) : string :=
  match member l k with Some (JStr s) => s | _ => "" end.

Definition instant (l : list (string * json)) (k : string) : option Time :=
  match member l k with Some (JNum n) => (fun z => (z * Second)%Z) <$> Atoi n | _ => None end.

Lemma instant_in l k n : NoDup l.*1 -> in_int64 n = true -> (k, JInt n) ∈ l -> instant l k = Some (n * Second)%Z.
Proof. intros Hd Hn Hin. unfold instant. rewrite (member_in l k _ Hd Hin). cbn [JInt]. by rewrite (Atoi_Itoa n Hn). Qed.

(** The signing input: the token less its last segment. *)
Definition signing_input (raw sig : string) : string :=
  stake (String.length raw - String.length ("." +:+ RawURLEncode sig)) raw.

Lemma signing_input_of input sig : signing_input (input +:+ "." +:+ RawURLEncode sig) sig = input.
Proof.
  unfold signing_input. rewrite !slength_app, <- slength_app.
  replace (_ - _)%nat with (String.length input) by (rewrite !slength_app; lia). apply stake_app_length.
Qed.

Definition in_time (claims : list (string * json)) (skew : Duration) (now : Time) : bool :=
  match instant claims "exp", instant claims "nbf", instant claims "iat" with
  | Some e, Some n, Some i => (now <? e + skew)%Z && (n <=? now + skew)%Z && (i <=? now + skew)%Z
  | _, _, _ => false
  end.

Definition fetch (url : string) : option (Z * string) :=
  match CutPrefix url (stub_issuer demo_stub) with
  | Some path => on_wire (stub_handler demo_stub demo_key (fun _ => []) 0%Z (lab_get "stub-issuer:8081" path))
  | None => None
  end.

Definition key_set (body : string) : option (list (string * (string * string))) :=
  match decode_text body with
  | Some (JObj [("keys", JArr [JObj m])]) => Some [(text m "kid", (text m "n", text m "e"))]
  | _ => None
  end.

(** The library over the demonstration key, whose signatures are digests. *)
#[export] Instance jwx : Jwx := {|
  Token := list (string * json); Key := string * string; KeySet := list (string * (string * string));
  tok_Issuer := fun t => text t "iss";
  tok_Subject := fun t => text t "sub";
  tok_Audience := fun t => match member t "aud" with
    | Some (JArr l) => omap (fun j => match j with JStr s => Some s | _ => None end) l | _ => [] end;
  tok_Expiration := fun t => default zero_time (instant t "exp");
  claim := fun t name => (fun j => match j with JStr s => Some s | _ => None end) <$> member t name;
  ParseInsecure := fun raw => match jwt_parts raw with Some (_, JObj claims, _) => Some claims | _ => None end;
  jws_Parse := fun raw => match jwt_parts raw with
    | Some (JObj h, _, _) => Some [(text h "alg", text h "kid")] | _ => None end;
  jwt_Parse := fun raw alg key skew req now => match jwt_parts raw with
    | Some (JObj h, JObj claims, sig) =>
        if (text h "alg" =s alg) && (sig =s Sum256 (signing_input raw sig)) &&
           forallb (fun c => bool_decide (c ∈ claims.*1)) req && in_time claims skew now
        then Ok claims else Err JwtOther
    | _ => Err JwtOther end;
  LookupKeyID := fun set k => snd <$> List.find (fun kv => kv.1 =s k) set;
  Ext := unit;
  cache_Register := fun url x => (x, match url_Parse url with Some _ => true | None => false end);
  cache_Get := fun url x => (x, match fetch url with Some (200%Z, body) => key_set body | _ => None end);
  cache_Refresh := fun url x => (x, match fetch url with Some (200%Z, body) => key_set body | _ => None end);
  http_Get := fun url x => (x, fetch url)
|}.

#[export] Instance reads : JwtReads.
Proof.
  refine {| rsa_public := fun n e => (RawURLEncode (big_bytes n), RawURLEncode (big_bytes e));
            rs256_verifies := fun _ digest sig => sig = digest; jwk_set := key_set; cold := fun _ => True |}.
  - by intros key digest sig [= ->].
  - intros raw h claims sig Hp Hd _. exists claims. cbn. rewrite Hp. split; [done|]. split; cbn; unfold text.
    1,2: by intros s Hs; rewrite (member_in _ _ _ Hd Hs).
    + intros l Hl. rewrite (member_in _ _ _ Hd Hl). clear. induction l as [|x l IH]; [done|]. cbn. by rewrite IH.
    + intros n Hn Hin. by rewrite (instant_in _ _ _ Hd Hn Hin).
    + intros name s Hs. by rewrite (member_in _ _ _ Hd Hs).
  - intros raw h c sig k Hp Hd Ha Hk. cbn. rewrite Hp. unfold text. by rewrite (member_in _ _ _ Hd Ha), (member_in _ _ _ Hd Hk).
  - intros raw h claims sig input key skew req now tok Hp Hraw Hdh Hd Ha -> Hpi [(e & ? & He & ?) (n & ? & Hn & ?) (i & ? & Hi & ?)] Hs Hreq.
    cbn [jwt_Parse ParseInsecure jwx] in *. rewrite Hp in *. injection Hpi as <-. unfold text. rewrite (member_in _ _ _ Hdh Ha), Hraw, signing_input_of, !seqb_refl.
    unfold in_time. rewrite (instant_in _ "exp" e), (instant_in _ "nbf" n), (instant_in _ "iat" i) by done.
    assert (forallb (fun c => bool_decide (c ∈ claims.*1)) req = true) as ->.
    { apply forallb_forall. intros c Hc. apply bool_decide_eq_true_2. rewrite Forall_forall in Hreq. apply Hreq. by apply list_elem_of_In. }
    rewrite (proj2 (Z.ltb_lt _ _)), !(proj2 (Z.leb_le _ _)) by lia. done.
  - intros t members k n e Ht Hd _ Hk _ _ Hn He. cbn. unfold key_set. rewrite Ht. eexists. split; [done|]. unfold text.
    cbn. by rewrite (member_in _ _ _ Hd Hk), (member_in _ _ _ Hd Hn), (member_in _ _ _ Hd He), seqb_refl.
  - done.
  - intros url x Hu. cbn. by destruct (url_Parse url).
  - intros url x t set _ Hg Hs. cbn in *. rewrite Hg. exact Hs.
Defined.

(** The second issuer of examples/compose/config. *)
Definition lab_entry : Issuer := mkIssuer "stub" "http://stub-issuer:8081" "" ["ozone-data"] "uid".

Definition lab_config : Config :=
  mkConfig "0.0.0.0:9000" "0.0.0.0:9090" (mkUpstream "http://s3g:9878" "rewrite") (mkDataPath None None) [lab_entry]
    (mkSTS 3600 []) (mkCredentialStore "memory" (mkValkeyStore "" "OZPX_STORE_KEY"))
    (mkSecurity (15 * Minute)%Z ["RS256"; "ES256"] "us-east-1")
    (mkUsernamePolicy default_username_pattern (Some default_username_match)).

Definition lab_post : Request :=
  mkRequest "POST" (mkURL "" "" "/token" "" "") "/token" "stub-issuer:8081"
    (HSet ∅ "Content-Type" "application/x-www-form-urlencoded") 0 (Some "username=alice&aud=ozone-data&ttl=60") None false.

(** Nothing fetched yet. *)
Definition lab_ext : @Ext jwx := tt.

Definition lab_now : Clock := fun _ => (1000 * Second)%Z.

Lemma lab_configured : lab_issuer demo_stub lab_config lab_entry.
Proof.
  assert (Config.Parse (fun _ => Some lab_config) (fun _ => "") "" = Ok lab_config) as Hp by (vm_compute; reflexivity).
  apply Parse_usable in Hp as [Hv _ _ _ _]. split; [exact Hv|by left|reflexivity..|by left].
Qed.

Lemma lab_running : lab_stub demo_stub demo_key (fun _ => []).
Proof.
  split; [reflexivity|done|done|done|]. split; [apply some_not_none; reflexivity..|].
  intros path x. exists "stub-issuer:8081", 0%Z. cbn [http_Get jwx snd]. unfold fetch. by rewrite CutPrefix_app.
Qed.

Lemma lab_asked : lab_ask demo_stub lab_config lab_entry (PostForm (fun _ => []) lab_post).
Proof.
  split; [vm_compute; discriminate|reflexivity|reflexivity|repeat constructor|].
  exists "ozone-data". split; [|by left]. apply (bool_decide_unpack _). vm_compute. exact I.
Qed.

Lemma lab_cold : cold lab_ext.
Proof. exact I. Qed.

Lemma lab_starts : exists s, Server.New lab_config (Oidc.New lab_config lab_ext) Memory.NewMemory (fun _ => 700000%Z) = Some s.
Proof. unfold Server.New. destruct (url_Parse _) eqn:E; [by eexists|]. vm_compute in E. discriminate E. Qed.

End DemoLab.

Section Witnesses.
Import DemoLab.

Definition lab_bearer (token : string) : Request :=
  mkRequest "GET" (mkURL "" "" "/bucket/key" "" "") "/bucket/key" "proxy:9000" {[ "Authorization" := ["Bearer " +:+ token] ]}
    0 (Some "") None false.

Lemma lab_token_is_attributed_witness :
  exists token s out,
    decode_Token (body (stub_token demo_stub demo_key (fun _ => []) (990 * Second)%Z lab_post)) = Some (mkToken token "" 60) /\
    Server.New lab_config (Oidc.New lab_config lab_ext) Memory.NewMemory (fun _ => 700000%Z) = Some s /\
    handed (serve (fun _ => Answered (mkResponse 200 "" "")) lab_now zero_entropy (lab_bearer token) s) = Some out /\
    identity_of out = Some "alice".
Proof.
  destruct lab_starts as [s Es].
  destruct (lab_token_is_attributed demo_stub demo_key (fun _ => []) lab_config lab_entry lab_ext (990 * Second)%Z lab_post lab_now
    Memory.NewMemory (fun _ => 700000%Z) s lab_configured lab_running lab_asked lab_cold) as (token & Hd & _ & Hf).
  - split; vm_compute; discriminate.
  - intros n. split; [split; [vm_compute; discriminate|vm_compute; reflexivity]|vm_compute; split; discriminate].
  - exact Es.
  - destruct (Hf (fun _ => Answered (mkResponse 200 "" "")) zero_entropy (lab_bearer token)) as (out & Hh & Hi & _).
    + reflexivity.
    + split; [vm_compute; discriminate|reflexivity].
    + reflexivity.
    + reflexivity.
    + reflexivity.
    + apply map_Forall_singleton. reflexivity.
    + exists token, s, out. split_and!; [exact Hd|exact Es|exact Hh|exact Hi].
Defined.

End Witnesses.
