(* ===== verification/LoadTest.v ===== *)
(** * The load generator of the compose lab

    Models examples/compose/loadtest/main.go: the signed requests, the worker
    pool as a step relation, the scrape of the verification histogram, the
    quantile bounds read off it, and the verdict with the exit code.  Go
    iterates over a map in any order: [quantileBound] is given the order of its
    iteration, and its result does not depend on it.  What the HTTP client
    returns is an argument. *)

From Stdlib Require Import Ascii String ZArith NArith Bool Lia SpecFloat.
From stdpp Require Import base tactics list strings gmap sorting.
From S2P Require Import Prelude GoStrings GoTime GoFloat GoFlag GoDuration GoHttp Sigv4 Sign.

(** ** Requests *)

Record lflags := mkLflags {
  f_endpoint : string;
  f_admin : string;
  f_bucket : string;
  f_akid : string;
  f_secret : string;
  f_token : string;
  f_region : string;
  f_n : Z;
  f_c : Z;
  f_limitMs : float64
}.

(** The flags [main] declares. *)
Definition load_formal : flagset :=
  [("endpoint", VString "http://proxy:9000"); ("admin", VString "http://proxy:9090"); ("bucket", VString "");
   ("akid", VString ""); ("secret", VString ""); ("token", VString ""); ("region", VString "us-east-1");
   ("n", VInt 5000%Z); ("c", VInt 20%Z); ("p99-limit-ms", VFloat (of_Z 1))].

Definition lflags_of (fs : flagset) : lflags :=
  mkLflags (string_flag fs "endpoint") (string_flag fs "admin") (string_flag fs "bucket") (string_flag fs "akid")
    (string_flag fs "secret") (string_flag fs "token") (string_flag fs "region") (int_flag fs "n") (int_flag fs "c")
    (float_flag fs "p99-limit-ms").

(** [removeEmptyPort] of net/http. *)
Definition removeEmptyPort (host : string) : string :=
  if HasSuffix host ":" then stake (String.length host - 1) host else host.

(** [http.NewRequest]; the body of the fixture, or none. *)
Definition NewRequest `{GoLib} (method rawURL : string) (body : option string) : option Request :=
  u ← url_Parse rawURL;
  let host := removeEmptyPort (UHost u) in
  let u := mkURL (Scheme u) host (Path u) (RawPath u) (RawQuery u) in
  Some (mkRequest method u "" host ∅ (Z.of_nat (String.length (default "" body))) (Some (default "" body)) None false).

(** The request [do] signs, and what it sends; [None] when it fails before. *)
Definition do_input `{GoLib} (f : lflags) (method key : string) (body : option string) (now : Time) : option SignInput :=
  r ← NewRequest method (f_endpoint f +:+ "/" +:+ f_bucket f +:+ "/" +:+ key) body;
  let r := req_set r "X-Amz-Security-Token" (f_token f) in
  let r := req_set r "X-Amz-Content-Sha256" "UNSIGNED-PAYLOAD" in
  Some (mkSignInput r (f_akid f) (f_secret f) (f_region f) "s3" "" now).

Definition do_request `{GoLib} (f : lflags) (method key : string) (body : option string) (now : Time) : option Request :=
  i ← do_input f method key body now;
  match Sign i with
  | (r, None) => Some r
  | (_, Some _) => None
  end.

(** [do]: whether it returned nil; [send] is [client.Do] with the body drained,
    giving the status. *)
Definition do_ok `{GoLib} (f : lflags) (method key : string) (body : option string) (now : Time)
    (send : Request -> option Z) : bool :=
  match do_request f method key body now with
  | None => false
  | Some r => match send r with Some st => (Z.quot st 100 =? 2)%Z | None => false end
  end.

(** ** The worker pool *)

Inductive worker := Idle | Busy (i : nat) | Gone.

#[export] Instance worker_eq_dec : EqDecision worker.
Proof. solve_decision. Defined.

(** The channel is unbuffered: main hands index [next] to a worker that is
    waiting, and closes the channel after the last. *)
Record pool := mkPool {
  next : nat;
  closed : bool;
  workers : list worker;
  errs : nat;
  latencies : list Duration;
  handled : list (nat * bool * Duration)   (* the requests done: index, success, latency *)
}.

Definition start_pool (n c : nat) : pool := mkPool 0 false (replicate c Idle) 0 (replicate n 0%Z) [].

Definition set_worker (w : nat) (x : worker) (p : pool) : list worker := <[w := x]> (workers p).

Inductive pool_step (n : nat) : pool -> pool -> Prop :=
| Hand p w :
    closed p = false -> next p < n -> workers p !! w = Some Idle ->
    pool_step n p (mkPool (S (next p)) (closed p) (set_worker w (Busy (next p)) p) (errs p) (latencies p) (handled p))
| Finish p w i (ok : bool) d :
    workers p !! w = Some (Busy i) ->
    pool_step n p (mkPool (next p) (closed p) (set_worker w Idle p) (if ok then errs p else S (errs p))
                     (<[i := d]> (latencies p)) (handled p ++ [(i, ok, d)]))
| Close p :
    closed p = false -> next p = n ->
    pool_step n p (mkPool (next p) true (workers p) (errs p) (latencies p) (handled p))
| Leave p w :
    closed p = true -> workers p !! w = Some Idle ->
    pool_step n p (mkPool (next p) (closed p) (set_worker w Gone p) (errs p) (latencies p) (handled p)).

(** What [wg.Wait] waits for. *)
Definition pool_done (p : pool) : Prop := closed p = true /\ Forall (eq Gone) (workers p).

(** ** The histogram *)

Record verifySample := mkSample { s_buckets : gmap string float64; s_sum : float64; s_count : float64 }.

Definition empty_sample : verifySample := mkSample ∅ (S754_zero false) (S754_zero false).

Inductive scrape_error := Unreachable (msg : string) | BadFloat (field : string) | ScanError | SlicePanic.

(** [strings.Index] *)
Fixpoint Index (s sub : string) : option nat :=
  if HasPrefix s sub then Some 0
  else match s with
  | EmptyString => None
  | String _ r => S <$> Index r sub
  end.

Definition Contains (s sub : string) : bool := match Index s sub with Some _ => true | None => false end.

Definition dquote : string := String (chr 34) "".

(** One line of the exposition. *)
Definition scrape_line (out : verifySample) (line : string) : res scrape_error verifySample :=
  if negb (HasPrefix line "verification_duration_seconds") || negb (Contains line ("lane=" +:+ dquote +:+ "sigv4" +:+ dquote))
  then Ok out
  else
    let field := default "" (last (Fields line)) in
    match ParseFloat field with
    | None => Err (BadFloat field)
    | Some v =>
        if HasPrefix line "verification_duration_seconds_bucket" then
          let le := sdrop (match Index line ("le=" +:+ dquote) with Some i => i + 4 | None => 3 end) line in
          match Index le dquote with
          | None => Err SlicePanic
          | Some j => Ok (mkSample (<[stake j le := v]> (s_buckets out)) (s_sum out) (s_count out))
          end
        else if HasPrefix line "verification_duration_seconds_sum" then Ok (mkSample (s_buckets out) v (s_count out))
        else if HasPrefix line "verification_duration_seconds_count" then Ok (mkSample (s_buckets out) (s_sum out) v)
        else Ok out
    end.

(** [bufio.ScanLines]: the lines without their ends. *)
Definition drop_cr (l : string) : string := if HasSuffix l (String (chr 13) "") then stake (String.length l - 1) l else l.

Definition MaxScanTokenSize : Z := 65536.

Fixpoint scrape_lines (out : verifySample) (ls : list string) : res scrape_error verifySample :=
  match ls with
  | [] => Ok out
  | l :: rest =>
      if (match rest with [] => l =s "" | _ => false end) then Ok out
      else if (MaxScanTokenSize <=? Z.of_nat (String.length l))%Z then Err ScanError
      else match scrape_line out (drop_cr l) with
      | Err e => Err e
      | Ok out => scrape_lines out rest
      end
  end.

(** [buckets], given what the GET of /metrics returned: the body, and whether
    it was read to its end. *)
Definition buckets (got : res string (string * bool)) : res scrape_error verifySample :=
  match got with
  | Err msg => Err (Unreachable msg)
  | Ok (text, whole) =>
      let? out := scrape_lines empty_sample (Split (chr 10) text) in
      if (whole : bool) then Ok out else Err ScanError
  end.

(** ** Quantiles *)

Definition edge := (float64 * float64)%type.   (* bound, cumulative delta *)

Definition bucket_delta (before : verifySample) (kv : string * float64) : float64 :=
  fsub kv.2 (default (S754_zero false) (s_buckets before !! kv.1)).

(** The finite edges and the total, along an iteration of [after.buckets]. *)
Definition edges_of (before : verifySample) (order : list (string * float64)) : list edge :=
  omap (fun kv => if kv.1 =s "+Inf" then None else (fun f => (f, bucket_delta before kv)) <$> ParseFloat kv.1) order.

Definition total_of (before : verifySample) (order : list (string * float64)) : Z :=
  fold_left (fun t kv => if fst kv =s "+Inf" then to_Z (bucket_delta before kv) else t) order 0%Z.

(** [sort.Slice] by bound. *)
Fixpoint insert_edge (e : edge) (l : list edge) : list edge :=
  match l with
  | [] => [e]
  | x :: r => if fltb e.1 x.1 then e :: l else x :: insert_edge e r
  end.

Definition sort_edges (l : list edge) : list edge := foldr insert_edge [] l.

(** The bound of the first edge that covers [need], or infinity. *)
Fixpoint first_cover (need : float64) (l : list edge) : float64 :=
  match l with
  | [] => inf
  | (le, cum) :: r => if fleb need cum then le else first_cover need r
  end.

Definition quantileBound (before : verifySample) (order : list (string * float64)) (q : float64) : float64 * Z * bool :=
  let total := total_of before order in
  if (total =? 0)%Z then (S754_zero false, 0%Z, false)
  else (first_cover (fmul q (of_Z total)) (sort_edges (edges_of before order)), total, true).

Definition meanMs (before after : verifySample) : float64 :=
  let n := fsub (s_count after) (s_count before) in
  if fleb n (S754_zero false) then S754_zero false
  else fmul (fdiv (fsub (s_sum after) (s_sum before)) n) (of_Z 1000).

Definition fmtBound (b : float64) : string :=
  match b with
  | S754_infinity false => "  over 10ms"
  | _ => "<= " +:+ pad_left 7 (fmt_fixed 3 (fmul b (of_Z 1000))) +:+ "ms"
  end.

(** ** The verdict *)

Inductive say := Stdout (s : string) | Stderr (s : string).

Inductive ended :=
| Exits (code : Z) (out : list say)
| Panics (out : list say).

Definition Microsecond : Duration := 1000%Z.
Definition Millisecond : Duration := 1000000%Z.

(** [elapsed.Seconds()] *)
Definition in_seconds (d : Duration) : float64 :=
  fadd (of_Z (Z.quot d Second)) (fdiv (of_Z (Z.rem d Second)) (of_Z 1000000000)).

(** [q(p)] of the sorted latencies; [None] is an index out of range. *)
Definition percentile (sorted : list Duration) (p : float64) : option Duration :=
  sorted !! Z.to_nat (to_Z (fmul p (of_Z (Z.of_nat (length sorted) - 1)%Z))).

Definition p50 : float64 := of_decimal 50 (-2).
Definition p95 : float64 := of_decimal 95 (-2).
Definition p99 : float64 := of_decimal 99 (-2).

Definition Int (n : nat) : string := Itoa (Z.of_nat n).

(** [main] after the flags were parsed, given the error of the fixture PUT if
    any, the two scrapes, the pool as the workers left it, the elapsed time and the orders
    in which the three calls of [quantileBound] iterate.  Output is a list of
    lines; the text of a scrape error after its prefix is left out. *)
Definition load_main (f : lflags) (put : option string) (before after : res scrape_error verifySample)
    (p : pool) (elapsed : Duration) (order : nat -> list (string * float64)) : ended :=
  if (f_bucket f =s "") || (f_akid f =s "") || (f_secret f =s "") || (f_token f =s "") then
    Exits 2 [Stderr "-bucket, -akid, -secret and -token are required"]
  else match put with
  | Some msg => Exits 1 [Stderr ("fixture PUT failed: " +:+ msg)]
  | None =>
  match before with
  | Err SlicePanic => Panics []
  | Err _ => Exits 1 [Stderr "scrape before: "]
  | Ok before =>
  if (f_n f <? 0)%Z then Panics []   (* makeslice *)
  else match after with
  | Err SlicePanic => Panics []
  | Err _ => Exits 1 [Stderr "scrape after: "]
  | Ok after =>
  let rate := fdiv (of_Z (f_n f)) (in_seconds elapsed) in
  let sorted := merge_sort Z.le (latencies p) in
  let first := Stdout ("requests=" +:+ Itoa (f_n f) +:+ " errors=" +:+ Int (errs p) +:+ " elapsed="
    +:+ Duration_String (Round elapsed Millisecond) +:+ " rate=" +:+ fmt_fixed 0 rate +:+ " req/s") in
  match percentile sorted p50, percentile sorted p95, percentile sorted p99 with
  | Some a, Some b, Some c =>
      let at_10us d := Duration_String (Round d (10 * Microsecond)%Z) in
      let second := Stdout ("client latency: p50=" +:+ at_10us a +:+ " p95=" +:+ at_10us b +:+ " p99=" +:+ at_10us c) in
      match quantileBound before (order 0) p99 with
      | (_, _, false) =>
          Exits 1 [first; second; Stderr "no verification_duration_seconds sigv4 samples recorded during the run"]
      | (bound, total, true) =>
          let '(half, _, _) := quantileBound before (order 1) p50 in
          let '(most, _, _) := quantileBound before (order 2) p95 in
          let mean := meanMs before after in
          let report := [first; second;
            Stdout ("proxy sigv4 verification (" +:+ Itoa total +:+ " samples, histogram bucket bounds)");
            Stdout ("  p50  " +:+ fmtBound half); Stdout ("  mean    " +:+ pad_left 7 (fmt_fixed 3 mean) +:+ "ms  (exact)");
            Stdout ("  p95  " +:+ fmtBound most); Stdout ("  p99  " +:+ fmtBound bound)] in
          if (0 <? errs p)%nat then Exits 1 (report ++ [Stderr "FAIL: request errors"])
          else if fltb (f_limitMs f) (fmul bound (of_Z 1000)) then
            let fail := Stderr ("FAIL: verification p99 bound " +:+ fmt_fixed 3 (fmul bound (of_Z 1000))
              +:+ "ms exceeds limit " +:+ fmt_fixed 3 (f_limitMs f) +:+ "ms") in
            let hint := if fleb (fmul half (of_Z 1000)) (f_limitMs f) && fleb mean (f_limitMs f)
              then [Stderr ""; Stderr "  The median and mean are inside the budget, so the verification";
                    Stderr "  path itself is not slow; only the tail is. That is usually the";
                    Stderr "  host rather than the proxy. Check load average, swap usage and";
                    Stderr "  the CPU frequency governor, then re-run against an otherwise";
                    Stderr ("  idle stack. This run achieved " +:+ fmt_fixed 0 rate +:+ " req/s; the conditions the");
                    Stderr "  recorded figures were taken under are in docs/verification.md."]
              else [] in
            Exits 1 (report ++ Stderr "" :: fail :: hint)
          else Exits 0 (report ++ [Stdout ("PASS: verification p99 < " +:+ fmt_fixed 1 (f_limitMs f) +:+ "ms")])
      end
  | _, _, _ => Panics [first]
  end
  end
  end
  end.

(** [main] from its arguments; what package flag prints is left out. *)
Definition load_command (args : list string) (put : lflags -> option string) (before after : res scrape_error verifySample)
    (p : pool) (elapsed : Duration) (order : nat -> list (string * float64)) : ended :=
  match Parse load_formal args with
  | Err e => Exits (exit_status e) []
  | Ok (fs, _) => load_main (lflags_of fs) (put (lflags_of fs)) before after p elapsed order
  end.

(** ** Quantile bounds are what they say *)

Definition edge_le (a b : edge) : Prop := fle a.1 b.1.

Definition no_nan (l : list edge) : Prop := Forall (fun e => is_nan e.1 = false) l.

Lemma insert_edge_perm e l : Permutation (insert_edge e l) (e :: l).
Proof.
  induction l as [|x l IH]; cbn [insert_edge]; [done|]. destruct (fltb e.1 x.1); [done|].
  rewrite IH. apply Permutation_swap.
Qed.

Lemma sort_edges_perm l : Permutation (sort_edges l) l.
Proof. induction l as [|e l IH]; cbn [sort_edges foldr]; [done|]. rewrite insert_edge_perm. by constructor. Qed.

Lemma insert_edge_sorted e l :
  is_nan e.1 = false -> no_nan l -> StronglySorted edge_le l -> StronglySorted edge_le (insert_edge e l).
Proof.
  intros He. induction l as [|x l IH]; intros Hn Hs; cbn [insert_edge]; [repeat constructor|].
  apply Forall_cons in Hn as [Hx Hn]. apply StronglySorted_inv in Hs as [Hs Hx'].
  destruct (fltb e.1 x.1) eqn:E.
  - assert (edge_le e x) as Hex.
    { destruct (fle_total e.1 x.1 He Hx) as [|Hle]; [done|]. unfold fle in Hle. congruence. }
    constructor; [by constructor|]. apply Forall_cons. split; [done|].
    apply Forall_forall. intros y Hy. eapply Forall_forall in Hx'; [|exact Hy].
    eapply Forall_forall in Hn; [|exact Hy]. by eapply (fle_trans _ x.1).
  - constructor; [by apply IH|]. rewrite insert_edge_perm. by apply Forall_cons.
Qed.

Lemma sort_edges_sorted l : no_nan l -> StronglySorted edge_le (sort_edges l).
Proof.
  induction l as [|e l IH]; intros Hn; cbn [sort_edges foldr]; [constructor|]. apply Forall_cons in Hn as [He Hn].
  apply insert_edge_sorted; [done| |by apply IH]. unfold no_nan. by rewrite sort_edges_perm.
Qed.

(** The smallest bound of an edge that covers [need]. *)
Definition smallest_cover (need : float64) (l : list edge) (b : float64) : Prop :=
  (exists cum, (b, cum) ∈ l /\ fleb need cum = true /\ forall e, e ∈ l -> fleb need e.2 = true -> fle b e.1) \/
  (b = inf /\ forall e, e ∈ l -> fleb need e.2 = false).

Lemma first_cover_smallest need l :
  no_nan l -> StronglySorted edge_le l -> smallest_cover need l (first_cover need l).
Proof.
  intros Hn Hs. induction Hs as [|[le cum] l Hs IH Hle]; [by right; split; [|intros e ?%not_elem_of_nil]|].
  apply Forall_cons in Hn as [He Hn]. cbn [first_cover]. destruct (fleb need cum) eqn:E.
  - left. exists cum. split_and!; [apply elem_of_cons; by left|done|].
    intros e [->|Hin]%elem_of_cons _.
    + destruct (fle_total le le He He); done.
    + eapply Forall_forall in Hle; [|exact Hin]. exact Hle.
  - destruct (IH Hn) as [(c & Hin & Hc & Hmin)|[-> Hnone]].
    + left. exists c. split_and!; [apply elem_of_cons; by right|done|].
      intros e [->|He']%elem_of_cons Hcov; [cbn [snd] in Hcov; congruence|by apply Hmin].
    + right. split; [done|]. intros e [->|He']%elem_of_cons; [done|by apply Hnone].
Qed.

Lemma smallest_cover_perm need l l' b : Permutation l l' -> smallest_cover need l b -> smallest_cover need l' b.
Proof.
  intros Hp [(c & Hin & Hc & Hmin)|[-> Hnone]].
  - left. exists c. split_and!; [by rewrite <- Hp|done|]. intros e He. apply Hmin. by rewrite Hp.
  - right. split; [done|]. intros e He. apply Hnone. by rewrite Hp.
Qed.

Lemma smallest_cover_unique need l b b' :
  no_nan l -> smallest_cover need l b -> smallest_cover need l b' -> fle b b' /\ fle b' b.
Proof.
  intros Hn [(c & Hin & Hc & Hmin)|[-> Hnone]] [(c' & Hin' & Hc' & Hmin')|[-> Hnone']].
  - split; [by apply (Hmin (b', c'))|by apply (Hmin' (b, c))].
  - apply Hnone' in Hin. cbn in Hin. congruence.
  - apply Hnone in Hin'. cbn in Hin'. congruence.
  - done.
Qed.

(** The total does not depend on the order when a key occurs once. *)
Lemma total_of_lookup before order v :
  NoDup (map fst order) -> ("+Inf", v) ∈ order -> total_of before order = to_Z (bucket_delta before ("+Inf", v)).
Proof.
  unfold total_of. generalize 0%Z. induction order as [|[k x] order IH]; intros t Hd Hin; [by apply not_elem_of_nil in Hin|].
  cbn [map fst] in Hd. apply NoDup_cons in Hd as [Hk Hd]. cbn [fold_left fst].
  assert (forall t, ("+Inf" ∉ map fst order) -> fold_left (fun t kv => if fst kv =s "+Inf" then to_Z (bucket_delta before kv) else t) order t = t) as Hrest.
  { clear. induction order as [|[k x] order IH]; intros t Hn; [done|]. cbn [fold_left fst map] in *.
    apply not_elem_of_cons in Hn as [Hne Hn]. rewrite (proj2 (String.eqb_neq _ _) (not_eq_sym Hne)). by apply IH. }
  apply elem_of_cons in Hin as [E|Hin].
  - injection E as <- <-. rewrite seqb_refl. by apply Hrest.
  - destruct (seqb_spec k "+Inf") as [->|Hne]; [|by apply IH].
    exfalso. apply Hk. apply list_elem_of_fmap. by exists ("+Inf", v).
Qed.

Lemma edges_of_perm before o o' : Permutation o o' -> Permutation (edges_of before o) (edges_of before o').
Proof. intros Hp. unfold edges_of. by rewrite Hp. Qed.

(** ** The worker pool *)

Definition busy_of (w : worker) : list nat := match w with Busy i => [i] | _ => [] end.
Definition busy (ws : list worker) : list nat := concat (map busy_of ws).

(** What a worker still has to do, and what the whole pool has. *)
Definition worker_work (w : worker) : nat := match w with Idle => 1 | Busy _ => 2 | Gone => 0 end.
Definition work (n : nat) (p : pool) : nat :=
  3 * (n - next p) + (if closed p then 0 else 1) + list_sum (map worker_work (workers p)).

(** Replacing one worker. *)
Lemma set_worker_split (ws : list worker) w y x :
  ws !! w = Some y -> exists l1 l2, ws = l1 ++ y :: l2 /\ <[w := x]> ws = l1 ++ x :: l2.
Proof.
  intros Hw. destruct (list_elem_of_split_length _ _ _ Hw) as (l1 & l2 & -> & ->). exists l1, l2. split; [done|].
  rewrite insert_app_r_alt, Nat.sub_diag by done. done.
Qed.

Lemma set_worker_busy ws w y x :
  ws !! w = Some y -> Permutation (busy_of y ++ busy (<[w := x]> ws)) (busy_of x ++ busy ws).
Proof.
  intros Hw. destruct (set_worker_split ws w y x Hw) as (l1 & l2 & -> & ->). unfold busy.
  rewrite !map_app, !concat_app. cbn [map concat]. solve_Permutation.
Qed.

Lemma set_worker_work ws w y x :
  ws !! w = Some y ->
  worker_work y + list_sum (map worker_work (<[w := x]> ws)) = worker_work x + list_sum (map worker_work ws).
Proof.
  intros Hw. destruct (set_worker_split ws w y x Hw) as (l1 & l2 & -> & ->).
  rewrite !map_app, !list_sum_app. unfold list_sum. cbn [map fold_right]. lia.
Qed.

(** Every step leaves less to do. *)
Lemma pool_step_works n p p' : pool_step n p p' -> work n p' < work n p.
Proof.
  unfold work. destruct 1 as [p w Hc Hn Hw|p w i ok d Hw|p Hc Hn|p w Hc Hw]; unfold set_worker; cbn [next closed workers].
  - pose proof (set_worker_work _ _ Idle (Busy (next p)) Hw : 1 + _ = 2 + _). lia.
  - pose proof (set_worker_work _ _ (Busy i) Idle Hw : 2 + _ = 1 + _). lia.
  - rewrite Hc. lia.
  - pose proof (set_worker_work _ _ Idle Gone Hw : 1 + _ = 0 + _). lia.
Qed.

Record pool_inv (n : nat) (p : pool) : Prop := {
  inv_next : next p <= n;
  inv_closed : closed p = true -> next p = n;
  inv_gone : Gone ∈ workers p -> closed p = true;
  inv_indices : Permutation (map (fun h => h.1.1) (handled p) ++ busy (workers p)) (seq 0 (next p));
  inv_errs : errs p = length (List.filter (fun h => negb h.1.2) (handled p));
  inv_length : length (latencies p) = n;
  inv_latencies : forall i ok d, (i, ok, d) ∈ handled p -> latencies p !! i = Some d
}.

Lemma start_pool_inv n c : pool_inv n (start_pool n c).
Proof.
  split; cbn [start_pool next closed workers handled errs latencies map app].
  - lia.
  - done.
  - intros Hin. apply elem_of_replicate in Hin as [[=] _].
  - cbn [seq]. induction c as [|c IH]; [done|exact IH].
  - done.
  - apply length_replicate.
  - intros i ok d Hin. by apply not_elem_of_nil in Hin.
Qed.

(** Indices in hand are below [next] and not yet done. *)
Lemma busy_index n p w i :
  pool_inv n p -> workers p !! w = Some (Busy i) ->
  i < n /\ ~ In i (map (fun h => h.1.1) (handled p)).
Proof.
  intros Hp Hw. pose proof (inv_indices n p Hp) as Hi.
  assert (i ∈ busy (workers p)) as Hin.
  { apply list_elem_of_In, in_concat. exists [i]. split; [|by left]. apply in_map_iff. exists (Busy i).
    split; [done|]. apply list_elem_of_In. by eapply list_elem_of_lookup_2. }
  split.
  - assert (i ∈ seq 0 (next p)) as Hs by (rewrite <- Hi; apply elem_of_app; by right).
    apply elem_of_seq in Hs. pose proof (inv_next n p Hp). lia.
  - intros Hh. assert (NoDup (map (fun h => h.1.1) (handled p) ++ busy (workers p))) as Hd by (rewrite Hi; apply NoDup_seq).
    apply NoDup_app in Hd as (_ & Hd & _). apply (Hd i); [by apply list_elem_of_In|done].
Qed.

Lemma gone_set (ws : list worker) w x : x <> Gone -> Gone ∈ <[w := x]> ws -> Gone ∈ ws.
Proof.
  intros Hx Hin. apply list_elem_of_lookup in Hin as [j Hj]. destruct (decide (j = w)) as [->|Hne].
  - apply list_lookup_insert_Some in Hj as [(_ & E & _)|[? _]]; congruence.
  - rewrite list_lookup_insert_ne in Hj by done. by eapply list_elem_of_lookup_2.
Qed.

Lemma pool_step_inv n p p' : pool_inv n p -> pool_step n p p' -> pool_inv n p'.
Proof.
  intros Hp Hs. pose proof Hp as [Hn Hc Hg Hi He Hl Hlat].
  destruct Hs as [p w Hopen Hlt Hw|p w i ok d Hw|p Hopen Heq|p w Hclosed Hw]; unfold set_worker;
    split; cbn [next closed workers handled errs latencies]; try done; try lia.
  - intros E. congruence.
  - intros Hin. apply Hg. eapply gone_set; [|exact Hin]. discriminate.
  - rewrite seq_S. cbn [Nat.add].
    pose proof (set_worker_busy _ _ Idle (Busy (next p)) Hw) as Hb. cbn [busy_of app] in Hb. rewrite Hb, <- Hi.
    solve_Permutation.
  - intros Hin. apply Hg. eapply gone_set; [|exact Hin]. discriminate.
  - rewrite map_app. cbn [map fst]. pose proof (set_worker_busy _ _ (Busy i) Idle Hw) as Hb. cbn [busy_of app] in Hb.
    rewrite <- Hi, <- Hb. solve_Permutation.
  - rewrite List.filter_app, length_app, <- He. cbn [List.filter fst snd]. destruct ok; cbn [negb length]; lia.
  - by rewrite length_insert.
  - intros j ok' d' Hin. destruct (busy_index n p w i Hp Hw) as [Hlt Hnew].
    apply elem_of_app in Hin as [Hin|Hin].
    + rewrite list_lookup_insert_ne; [by eapply Hlat|]. intros ->. apply Hnew, in_map_iff.
      exists (j, ok', d'). split; [done|by apply list_elem_of_In].
    + apply list_elem_of_singleton in Hin. injection Hin as -> -> ->. apply list_lookup_insert_eq. lia.
  - pose proof (set_worker_busy _ _ Idle Gone Hw) as Hb. cbn [busy_of app] in Hb. by rewrite Hb.
Qed.

Lemma pool_reachable_inv n c p : rtc (pool_step n) (start_pool n c) p -> pool_inv n p.
Proof.
  intros Hr. pose proof (start_pool_inv n c) as Hi. induction Hr as [|p p' p'' Hs _ IH]; [done|].
  apply IH. by eapply pool_step_inv.
Qed.

Lemma pool_workers n p p' : pool_step n p p' -> length (workers p') = length (workers p).
Proof. destruct 1; unfold set_worker; cbn [workers]; by rewrite ?length_insert. Qed.

(** A pool with workers that is not done can go on. *)
Lemma pool_progress n p : pool_inv n p -> workers p <> [] -> pool_done p \/ exists p', pool_step n p p'.
Proof.
  intros Hp Hne. pose proof Hp as [Hn Hc Hg _ _ _ _].
  destruct (decide (Forall (eq Gone) (workers p))) as [Hall|Hsome].
  { left. split; [|done]. destruct (workers p) as [|x ws]; [done|]. apply Hg. apply Forall_cons in Hall as [<- _].
    apply elem_of_cons. by left. }
  right. apply not_Forall_Exists, Exists_exists in Hsome as (x & Hin & Hx); [|apply _].
  apply list_elem_of_lookup in Hin as [w Hw]. destruct x as [|i|]; [|eexists; by eapply (Finish n p w i true 0%Z)|done].
  destruct (closed p) eqn:Ec; [eexists; by eapply (Leave n p w)|].
  destruct (decide (next p < n)); [eexists; by eapply (Hand n p w)|]. eexists. eapply (Close n p); [done|lia].
Qed.

Lemma pool_done_stuck n p p' : pool_done p -> ~ pool_step n p p'.
Proof.
  intros [Hc Hall] Hs. assert (forall w x, workers p !! w = Some x -> x = Gone) as Hgone.
  { intros w x Hw. eapply Forall_lookup_1 in Hall; [|exact Hw]. done. }
  destruct Hs as [p w Hopen _ Hw|p w i ok d Hw|p Hopen _|p w _ Hw]; try congruence; by apply Hgone in Hw.
Qed.

Lemma pool_steps_bound n k : forall p p', nsteps (pool_step n) k p p' -> k + work n p' <= work n p.
Proof.
  induction k as [|k IH]; intros p p' Hs; inversion Hs as [|? ? p1 ? H1 H2]; subst; [lia|].
  apply pool_step_works in H1. apply IH in H2. lia.
Qed.

(** C30: The worker pool.  However the workers interleave, a run takes at most
    three steps a request plus one per worker and one; it can go on exactly
    until every worker has left (no deadlock, given a worker); and then every
    request was made exactly once, the error count is the number of requests
    that failed, and every latency is recorded under its own index. *)
Theorem pool_handles_each_once n c k p :
  0 < c -> nsteps (pool_step n) k (start_pool n c) p ->
  k <= 3 * n + c + 1 /\
  (pool_done p <-> ~ exists p', pool_step n p p') /\
  (pool_done p ->
     Permutation (map (fun h => h.1.1) (handled p)) (seq 0 n) /\
     errs p = length (List.filter (fun h => negb h.1.2) (handled p)) /\
     length (latencies p) = n /\ forall i ok d, (i, ok, d) ∈ handled p -> latencies p !! i = Some d).
Proof.
  intros Hc Hs. assert (pool_inv n p) as Hp by (eapply pool_reachable_inv, rtc_nsteps; by eexists).
  assert (length (workers p) = c) as Hw.
  { assert (rtc (pool_step n) (start_pool n c) p) as Hr by (apply rtc_nsteps; by eexists). clear Hs Hp.
    assert (length (workers (start_pool n c)) = c) as H0 by apply length_replicate.
    induction Hr as [|p0 p1 p2 H1 _ IH]; [done|]. apply IH. apply pool_workers in H1. congruence. }
  split_and!.
  - apply pool_steps_bound in Hs. assert (work n (start_pool n c) = 3 * n + 1 + c) as Hwork; [|lia].
    unfold work. cbn [start_pool next closed workers].
    assert (list_sum (map worker_work (replicate c Idle)) = c) as ->; [|lia].
    clear. induction c as [|c IH]; [done|]. cbn [replicate map]. change (worker_work Idle) with 1. unfold list_sum in *. cbn [fold_right]. lia.
  - split; [intros Hd [p' H1]; by eapply pool_done_stuck|]. intros Hno.
    destruct (pool_progress n p Hp) as [|Hgo]; [|done|done]. intros E. rewrite E in Hw. cbn in Hw. lia.
  - intros [Hcl Hall]. destruct Hp as [_ Hcn _ Hi He Hl Hlat]. split_and!; [|done..].
    rewrite (Hcn Hcl) in Hi. rewrite <- Hi.
    assert (busy (workers p) = []) as ->; [|by rewrite app_nil_r].
    clear -Hall. induction Hall as [|x ws <- _ IH]; [done|]. exact IH.
Qed.

(** ** The report *)

(** C33: The quantile bounds.  Whatever order Go iterates over the scraped
    buckets in, [quantileBound] reports no samples exactly when the +Inf bucket
    did not grow; otherwise its bound is the smallest bucket boundary whose
    growth covers the wanted share of the samples (infinity when none does), and
    another order gives the same total and an equal bound. *)
Theorem quantile_bound_exact before after order v share :
  Permutation order (map_to_list (s_buckets after)) -> s_buckets after !! "+Inf" = Some v ->
  no_nan (edges_of before (map_to_list (s_buckets after))) ->
  let total := to_Z (bucket_delta before ("+Inf", v)) in
  (total = 0%Z -> quantileBound before order share = (S754_zero false, 0%Z, false)) /\
  (total <> 0%Z -> exists b, quantileBound before order share = (b, total, true) /\
     smallest_cover (fmul share (of_Z total)) (edges_of before (map_to_list (s_buckets after))) b /\
     forall order', Permutation order' (map_to_list (s_buckets after)) ->
       exists b', quantileBound before order' share = (b', total, true) /\ fle b b' /\ fle b' b).
Proof.
  intros Ho Hv Hn total.
  assert (forall o, Permutation o (map_to_list (s_buckets after)) -> total_of before o = total) as Htotal.
  { intros o Hp. apply total_of_lookup.
    - rewrite Hp. apply NoDup_fst_map_to_list.
    - rewrite Hp. by apply elem_of_map_to_list. }
  assert (forall o, Permutation o (map_to_list (s_buckets after)) ->
    smallest_cover (fmul share (of_Z total)) (edges_of before (map_to_list (s_buckets after)))
      (first_cover (fmul share (of_Z total)) (sort_edges (edges_of before o)))) as Hcover.
  { intros o Hp. eapply smallest_cover_perm; [|apply first_cover_smallest].
    - rewrite sort_edges_perm. by apply edges_of_perm.
    - unfold no_nan. rewrite sort_edges_perm, (edges_of_perm before _ _ Hp). exact Hn.
    - apply sort_edges_sorted. unfold no_nan. rewrite (edges_of_perm before _ _ Hp). exact Hn. }
  split.
  - intros E. unfold quantileBound. rewrite (Htotal order Ho), E. done.
  - intros Hne. apply Z.eqb_neq in Hne. eexists. unfold quantileBound. rewrite (Htotal order Ho), Hne.
    split_and!; [done|by apply Hcover|]. intros o' Ho'. eexists. rewrite (Htotal o' Ho'), Hne. split; [done|].
    eapply smallest_cover_unique; [exact Hn|by apply Hcover|by apply Hcover].
Qed.

(** The verdict.  The command exits 0 only if the fixture was written, both
    scrapes succeeded, no request failed, samples were recorded, and the p99
    bound read off the histogram is within the limit: with missing flags it
    exits 2, and on any of those failures with 1 or a panic. *)
Theorem pass_means_within_budget f put before after p elapsed order out :
  load_main f put before after p elapsed order = Exits 0 out ->
  put = None /\ errs p = 0 /\ f_bucket f <> "" /\ f_akid f <> "" /\ f_secret f <> "" /\ f_token f <> "" /\
  exists b a bound total, before = Ok b /\ after = Ok a /\
    quantileBound b (order 0) p99 = (bound, total, true) /\ fltb (f_limitMs f) (fmul bound (of_Z 1000)) = false.
Proof.
  unfold load_main. intros Hm.
  destruct (_ || _) eqn:Ef; [done|]. split_bools. destruct put; [done|].
  destruct before as [b|[]]; try done. destruct (f_n f <? 0)%Z; [done|]. destruct after as [a|[]]; try done. cbv zeta in Hm.
  destruct (percentile _ _) as [x|]; [|done]. destruct (percentile _ p95) as [y|]; [|done].
  destruct (percentile _ p99) as [z|]; [|done].
  destruct (quantileBound b (order 0) p99) as [[bound total] []] eqn:Eq; [|done].
  destruct (quantileBound b (order 1) p50) as [[half ?] ?]. destruct (quantileBound b (order 2) p95) as [[most ?] ?].
  destruct (Nat.ltb_spec 0 (errs p)); [done|].
  destruct (fltb (f_limitMs f) (fmul bound (of_Z 1000))) eqn:El; [done|].
  split_and!; [done|lia|done..|]. exists b, a, bound, total. split_and!; [reflexivity..|done|done].
Qed.

(** The requests the generator sends are ones the proxy's verification accepts
    from the holder of that secret, at any time within the skew. *)
Theorem load_requests_verify `{GoLib} f method key body now r :
  four_digit_year now -> f_akid f <> "" -> scope_part (f_akid f) = true -> scope_part (f_region f) = true ->
  do_request f method key body now = Some r ->
  exists a, ParseAuthorization (HGet (RHeader r) "Authorization") = Ok a /\ AccessKeyID a = f_akid f /\
    forall t skew, (wrap64 (- skew) <= Sub t (now / Second * Second) <= skew)%Z ->
      Verify (mkInput r a (f_secret f) (f_region f) "s3" t skew) = None.
Proof.
  intros Hy Ha Has Hr. unfold do_request, do_input, NewRequest.
  destruct (url_Parse _) as [u|]; [|done]. cbn [mbind option_bind].
  set (i := mkSignInput _ _ _ _ _ _ _). destruct (Sign i) as [r' [e|]] eqn:Es; [done|]. intros [= <-].
  assert (sign_ready i) as Hready.
  { split; cbn [i si_Request si_AccessKeyID si_Region si_Service si_Now RHeader req_set with_header]; try done.
    apply token_keys_set; [reflexivity|]. apply token_keys_set; [reflexivity|]. apply map_Forall_empty. }
  destruct (Sign_verifies i r' Hready Es) as (a & Hp & Hak & _ & Hv). by exists a.
Qed.

(** ** A run *)

Section Witnesses.
#[local] Existing Instance ascii_lib.

Definition num (s : string) : float64 := default S754_nan (ParseFloat s).

Definition demo_page (n : nat) : string :=
  let le s := "verification_duration_seconds_bucket{lane='sigv4',le='" +:+ s +:+ "'} " in
  let sq c := if Ascii.eqb c "'" then chr 34 else c in
  smap sq (Join ["# HELP verification_duration_seconds Wall time";
    le "0.0005" +:+ Int n; le "0.001" +:+ Int (2 * n); le "0.0025" +:+ Int (2 * n); le "+Inf" +:+ Int (2 * n);
    "verification_duration_seconds_sum{lane='sigv4'} 0.5"; "verification_duration_seconds_count{lane='sigv4'} " +:+ Int (2 * n); ""]
    (String (chr 10) "")).

Definition demo_scrape (n : nat) : verifySample :=
  match buckets (Ok (demo_page n, true)) with Ok s => s | Err _ => empty_sample end.

Example demo_scraped :
  s_buckets (demo_scrape 10) !! "0.0005" = Some (of_Z 10) /\ s_buckets (demo_scrape 10) !! "+Inf" = Some (of_Z 20) /\
  s_count (demo_scrape 10) = of_Z 20.
Proof. vm_compute. done. Qed.

(** Twenty new samples, half of them under half a millisecond. *)
Lemma quantile_bound_exact_witness :
  exists b, quantileBound (demo_scrape 10) (map_to_list (s_buckets (demo_scrape 20))) p99 = (b, 20%Z, true) /\
    smallest_cover (fmul p99 (of_Z 20)) (edges_of (demo_scrape 10) (map_to_list (s_buckets (demo_scrape 20)))) b.
Proof.
  destruct (quantile_bound_exact (demo_scrape 10) (demo_scrape 20) (map_to_list (s_buckets (demo_scrape 20))) (of_Z 40) p99)
    as [_ Hb].
  - done.
  - vm_compute. reflexivity.
  - unfold no_nan. vm_compute. repeat constructor.
  - destruct Hb as (b & Hq & Hs & _); [vm_compute; discriminate|]. exists b. split; [exact Hq|exact Hs].
Defined.

Definition demo_lflags : lflags :=
  mkLflags "http://proxy:9000" "http://proxy:9090" "b" "OZPX1" "s" "t" "us-east-1" 1 1 (num "1.0").

(** One request, one worker. *)
Definition demo_pool : pool := mkPool 1 true [Gone] 0 [700000%Z] [(0, true, 700000%Z)].

Lemma demo_pool_run : nsteps (pool_step 1) 4 (start_pool 1 1) demo_pool.
Proof.
  econstructor; [by apply (Hand 1 (start_pool 1 1) 0); [done|apply Nat.lt_0_1|done]|]. cbn.
  econstructor; [by eapply (Finish 1 _ 0 0 true 700000%Z)|]. cbn.
  econstructor; [by eapply (Close 1)|]. cbn.
  econstructor; [by eapply (Leave 1 _ 0)|]. cbn. constructor.
Qed.

Lemma pool_handles_each_once_witness : Permutation (map (fun h => h.1.1) (handled demo_pool)) (seq 0 1).
Proof.
  refine (proj1 (proj2 (proj2 (pool_handles_each_once 1 1 4 demo_pool _ demo_pool_run)) _)).
  - apply Nat.lt_0_1.
  - split; [reflexivity|repeat constructor].
Defined.

Lemma pass_means_within_budget_witness :
  exists bound total, quantileBound (demo_scrape 10) (map_to_list (s_buckets (demo_scrape 20))) p99 = (bound, total, true) /\
    fltb (f_limitMs demo_lflags) (fmul bound (of_Z 1000)) = false.
Proof.
  destruct (load_main demo_lflags None (Ok (demo_scrape 10)) (Ok (demo_scrape 20)) demo_pool 1000000000%Z
    (fun _ => map_to_list (s_buckets (demo_scrape 20)))) as [c out|out] eqn:E; [|vm_compute in E; discriminate E].
  assert (c = 0%Z) as -> by (apply (f_equal (fun e => match e with Exits c _ => c | Panics _ => 9%Z end)) in E;
    vm_compute in E; symmetry; exact E).
  destruct (pass_means_within_budget _ _ _ _ _ _ _ _ E) as (_ & _ & _ & _ & _ & _ & b & a & bound & total & Hb & Ha & Hq & Hl).
  exists bound, total. assert (b = demo_scrape 10) as -> by congruence. split; [exact Hq|exact Hl].
Defined.

(** No requests at all: the percentile of an empty slice is out of range. *)
Example no_requests_panics :
  exists out, load_main demo_lflags None (Ok (demo_scrape 10)) (Ok (demo_scrape 20)) (start_pool 0 1) 1000000000%Z
    (fun _ => map_to_list (s_buckets (demo_scrape 20))) = Panics out.
Proof. eexists. vm_compute. reflexivity. Qed.

(** A limit that is not a number admits any latency: the flag accepts [nan],
    and no bound exceeds it. *)
Example nan_limit_passes :
  let slow := mkSample (<["+Inf" := of_Z 40]> (s_buckets (demo_scrape 10))) (of_Z 9) (of_Z 40) in
  exists out, load_command ["-bucket=b"; "-akid=OZPX1"; "-secret=s"; "-token=t"; "-n=1"; "-p99-limit-ms"; "nan"] (fun _ => None)
    (Ok (demo_scrape 10)) (Ok slow) demo_pool 1000000000%Z (fun _ => map_to_list (s_buckets slow)) = Exits 0 out.
Proof. eexists. vm_compute. reflexivity. Qed.

End Witnesses.
