(* ===== verification/Histogram.v ===== *)
(** * The verification histogram, from the lanes to the load test's verdict

    The lanes observe durations ([Metrics]); a scrape shows cumulative bucket
    counts of them in the text exposition format; the load generator
    ([LoadTest]) reads two scrapes and derives a bound on the p99.  This file
    puts the three together.  How the client library prints a number is the
    class [Exposition]. *)

From Stdlib Require Import Ascii String ZArith NArith Bool Lia SpecFloat.
From stdpp Require Import base tactics list strings gmap sorting.
From S2P Require Import Prelude GoStrings GoTime GoFloat GoDuration GoHttp Sigv4 Presign Sign Forward Store Config.
From S2P Require Import Oidc Sts Metrics Server Lanes Admin LoadTest GoJson.

(** ** The page *)

(** How the client library writes a number. *)
Class Exposition := { float_text : float64 -> string }.

(** What its format promises: numbers are read back by [ParseFloat], are
    written without blanks and quotes in a few bytes, and infinity is [+Inf]. *)
Class ExpositionLaws `{Exposition} := {
  text_count : forall n, (0 <= n < 2 ^ 53)%Z -> ParseFloat (float_text (of_Z n)) = Some (of_Z n);
  text_bound : forall b, b ∈ verifyBuckets -> ParseFloat (float_text b) = Some b;
  text_inf : float_text inf = "+Inf";
  text_number : forall f, is_nan f = false -> is_Some (ParseFloat (float_text f));
  text_plain : forall f, sall is_graph (float_text f) = true /\ sfree (chr 34) (float_text f) = true /\
                 String.length (float_text f) <= 32
}.

(** The observations at or below a bound: the cumulative count of its bucket. *)
Definition count_le (b : float64) (ds : list Duration) : Z :=
  Z.of_nat (length (List.filter (fun d => fleb (in_seconds d) b) ds)).

Section Page.
Context `{Exposition}.

Definition lane_label : string := "lane=" +:+ dquote +:+ "sigv4" +:+ dquote.

Definition bucket_line (le : string) (n : Z) : string :=
  "verification_duration_seconds_bucket{" +:+ lane_label +:+ ",le=" +:+ dquote +:+ le +:+ dquote +:+ "} "
  +:+ float_text (of_Z n).

Definition plain_line (suffix : string) (v : float64) : string :=
  "verification_duration_seconds" +:+ suffix +:+ "{" +:+ lane_label +:+ "} " +:+ float_text v.

(** The cumulative counts a scrape shows for observations [ds]. *)
Definition shown_buckets (ds : list Duration) : list (string * Z) :=
  map (fun b => (float_text b, count_le b ds)) verifyBuckets ++ [(float_text inf, Z.of_nat (length ds))].

Definition series (ds : list Duration) (sum : float64) : list string :=
  map (fun kn => bucket_line kn.1 kn.2) (shown_buckets ds)
  ++ [plain_line "_sum" sum; plain_line "_count" (of_Z (Z.of_nat (length ds)))].

(** A line of another series, or of the same for another lane. *)
Definition other_line (l : string) : Prop :=
  (Z.of_nat (String.length l) < MaxScanTokenSize)%Z /\
  HasPrefix (drop_cr l) "verification_duration_seconds" && Contains (drop_cr l) lane_label = false.

(** A page of /metrics that shows [ds] for the sigv4 lane, somewhere among
    lines of other series. *)
Definition exposes (text : string) (ds : list Duration) : Prop :=
  exists sum pre post, is_nan sum = false /\ Forall other_line pre /\ Forall other_line post /\
    Split (chr 10) text = pre ++ series ds sum ++ post ++ [""].

End Page.

(** ** Reading the page back *)

Lemma fields_go_two p v cur :
  sall is_graph p = true -> sall is_graph v = true -> cur +:+ p <> "" -> v <> "" ->
  fields_go (p +:+ String " " v) 0 cur = [cur +:+ p; v].
Proof.
  intros Hp Hv. revert cur Hp. induction p as [|c p IH]; intros cur Hp Hne Hv'.
  - rewrite sapp_nil_r in *. change ("" +:+ String " " v) with (String " " v). cbn [fields_go].
    change (space_width (String " " v)) with 1. cbn iota. apply String.eqb_neq in Hne. rewrite Hne.
    cbn [app]. f_equal. by apply (Fields_graph v).
  - cbn [sall] in Hp. apply andb_true_iff in Hp as [Hc Hp]. change (String c p +:+ String " " v) with (String c (p +:+ String " " v)).
    cbn [fields_go]. rewrite space_width_graph by done. rewrite IH, sapp_assoc; [done|done| |done].
    rewrite sapp_assoc. intros E. by apply sempty_app in E as [_ E].
Qed.

Lemma Fields_two p v :
  sall is_graph p = true -> sall is_graph v = true -> p <> "" -> v <> "" -> Fields (p +:+ String " " v) = [p; v].
Proof. intros. by apply (fields_go_two p v ""). Qed.

Lemma drop_cr_free l : sfree (chr 13) l = true -> drop_cr l = l.
Proof.
  intros Hl. unfold drop_cr. destruct (HasSuffix l _) eqn:E; [|done]. exfalso.
  unfold HasSuffix in E. apply andb_true_iff in E as [_ E]. apply String.eqb_eq in E.
  rewrite <- (stake_sdrop (String.length l - String.length (String (chr 13) "")) l), E, sfree_app in Hl.
  apply andb_true_iff in Hl as [_ Hl]. discriminate Hl.
Qed.

Lemma Index_quote le rest : sfree (chr 34) le = true -> Index (le +:+ dquote +:+ rest) dquote = Some (String.length le).
Proof.
  induction le as [|c le IH]; [by destruct rest|]. cbn [sfree sall String.length]. intros [Hc Hl]%andb_true_iff.
  change (String c le +:+ dquote +:+ rest) with (String c (le +:+ dquote +:+ rest)). cbn [Index]. 
  assert (HasPrefix (String c (le +:+ dquote +:+ rest)) dquote = false) as ->.
  { apply not_true_iff_false. intros [t E]%HasPrefix_true. injection E as -> _. discriminate Hc. }
  by rewrite IH.
Qed.

Section Scrape.
Context `{ExpositionLaws}.

Lemma text_graph f : sall is_graph (float_text f) = true.
Proof. by destruct (text_plain f) as (? & _ & _). Qed.

Lemma text_number_ne f : is_nan f = false -> float_text f <> "".
Proof. intros Hn E. destruct (text_number f Hn) as [v Hv]. rewrite E in Hv. discriminate Hv. Qed.

Lemma of_Z_not_nan n : (0 <= n < 2 ^ 53)%Z -> is_nan (of_Z n) = false.
Proof.
  intros Hn. destruct (decide (n = 0%Z)) as [->|Hne]; [done|]. by destruct (of_Z_finite n ltac:(lia)) as (p & _ & ->).
Qed.

(** A line of a series: its last field is the number. *)
Lemma line_field p f :
  sall is_graph p = true -> p <> "" -> is_nan f = false ->
  default "" (last (Fields (p +:+ " " +:+ float_text f))) = float_text f.
Proof. intros Hp Hne Hf. change (" " +:+ float_text f) with (String " " (float_text f)). rewrite (Fields_two p (float_text f)); [done|done|apply text_graph|done|by apply text_number_ne]. Qed.

Lemma scrape_bucket_line out le n :
  sall is_graph le = true -> sfree (chr 34) le = true -> (0 <= n < 2 ^ 53)%Z ->
  scrape_line out (bucket_line le n) = Ok (mkSample (<[le := of_Z n]> (s_buckets out)) (s_sum out) (s_count out)).
Proof.
  intros Hle Hq Hn. unfold scrape_line.
  assert (bucket_line le n = ("verification_duration_seconds_bucket{" +:+ lane_label +:+ ",le=" +:+ dquote +:+ le +:+ dquote +:+ "}")
            +:+ " " +:+ float_text (of_Z n)) as El by (unfold bucket_line; by rewrite !sapp_assoc).
  assert (HasPrefix (bucket_line le n) "verification_duration_seconds_bucket" = true) as Hp by reflexivity.
  rewrite (HasPrefix_weaken _ "verification_duration_seconds" "_bucket" Hp).
  change (Contains (bucket_line le n) ("lane=" +:+ dquote +:+ "sigv4" +:+ dquote)) with true. cbn [negb orb].
  rewrite El at 1. rewrite line_field; [|by rewrite !sall_app, Hle|done|by apply of_Z_not_nan].
  rewrite text_count, Hp by done.
  change (Index (bucket_line le n) ("le=" +:+ dquote)) with (Some 50). cbn iota.
  change (sdrop (50 + 4) (bucket_line le n)) with (le +:+ dquote +:+ "} " +:+ float_text (of_Z n)).
  rewrite Index_quote by done. by rewrite stake_app_length.
Qed.

Lemma scrape_plain_line out suffix f :
  suffix = "_sum" \/ suffix = "_count" -> is_nan f = false ->
  exists out', scrape_line out (plain_line suffix f) = Ok out' /\ s_buckets out' = s_buckets out.
Proof.
  intros Hs Hf. unfold scrape_line.
  assert (plain_line suffix f = ("verification_duration_seconds" +:+ suffix +:+ "{" +:+ lane_label +:+ "}")
            +:+ " " +:+ float_text f) as El by (unfold plain_line; by rewrite !sapp_assoc).
  assert (default "" (last (Fields (plain_line suffix f))) = float_text f) as ->
    by (rewrite El; apply line_field; [by destruct Hs as [-> | ->]|done|done]).
  destruct (text_number f Hf) as [v ->].
  destruct Hs as [-> | ->]; eexists; split; reflexivity.
Qed.

(** The lines of the series, one after the other. *)
Definition store_shown (m : gmap string float64) (kn : string * Z) : gmap string float64 := <[kn.1 := of_Z kn.2]> m.

Lemma series_line_short f pre : sall (fun c => is_graph c || Ascii.eqb c " ") pre = true -> String.length pre <= 200 ->
  (Z.of_nat (String.length (pre +:+ float_text f)) < MaxScanTokenSize)%Z /\ drop_cr (pre +:+ float_text f) = pre +:+ float_text f.
Proof.
  intros Hp Hl. destruct (text_plain f) as (Hg & _ & Hn). split.
  - rewrite slength_app. unfold MaxScanTokenSize. lia.
  - apply drop_cr_free. rewrite sfree_app, !(sall_sfree (fun c => is_graph c || Ascii.eqb c " ")); try done.
    revert Hg. apply sall_impl. by intros c ->.
Qed.

Lemma scrape_step out l rest out' :
  (Z.of_nat (String.length l) < MaxScanTokenSize)%Z -> drop_cr l = l -> rest <> [] -> scrape_line out l = Ok out' ->
  scrape_lines out (l :: rest) = scrape_lines out' rest.
Proof.
  intros Hl Hd Hr Hs. cbn [scrape_lines]. destruct rest; [done|]. cbn iota.
  destruct (Z.leb_spec MaxScanTokenSize (Z.of_nat (String.length l))); [lia|]. by rewrite Hd, Hs.
Qed.

Lemma scrape_skip out ls rest :
  Forall other_line ls -> rest <> [] -> scrape_lines out (ls ++ rest) = scrape_lines out rest.
Proof.
  intros Hls Hr. induction Hls as [|l ls [Hl Ho] _ IH]; [done|]. cbn [app scrape_lines].
  assert (ls ++ rest <> []) as Hne by (intros [_ E]%app_nil; done). destruct (ls ++ rest) eqn:E; [done|].
  destruct (Z.leb_spec MaxScanTokenSize (Z.of_nat (String.length l))); [lia|].
  unfold scrape_line, lane_label in *. rewrite <- negb_andb, Ho. exact IH.
Qed.

Lemma count_le_bound b ds : (0 <= count_le b ds <= Z.of_nat (length ds))%Z.
Proof. unfold count_le. split; [lia|]. apply inj_le. apply List.filter_length_le. Qed.

(** Keys the format prints, with counts a double holds. *)
Definition shown_ok (kn : string * Z) : Prop := (exists f, kn.1 = float_text f) /\ (0 <= kn.2 < 2 ^ 53)%Z.

Lemma shown_buckets_ok ds : (Z.of_nat (length ds) < 2 ^ 53)%Z -> Forall shown_ok (shown_buckets ds).
Proof.
  intros Hn. apply Forall_app. split; [|apply Forall_singleton; split; [by eexists|cbn; lia]].
  apply Forall_map, Forall_forall. intros b _. split; [by eexists|]. cbn. pose proof (count_le_bound b ds). lia.
Qed.

Lemma scrape_shown kns : forall out rest, Forall shown_ok kns -> rest <> [] ->
  scrape_lines out (map (fun kn => bucket_line kn.1 kn.2) kns ++ rest) =
  scrape_lines (mkSample (foldl store_shown (s_buckets out) kns) (s_sum out) (s_count out)) rest.
Proof.
  induction kns as [|[le n] kns IH]; intros out rest Hk Hr; [by destruct out|].
  apply Forall_cons in Hk as [[[f Hf] Hn] Hk]. cbn [fst snd] in *. subst le. destruct (text_plain f) as (Hg & Hq & Hl).
  destruct (series_line_short (of_Z n) ("verification_duration_seconds_bucket{" +:+ lane_label +:+ ",le=" +:+ dquote +:+ float_text f +:+ dquote +:+ "} "))
    as [Hs Hd].
  { rewrite !sall_app. rewrite (sall_impl is_graph (fun c => is_graph c || Ascii.eqb c " ") (float_text f)); [done|by intros c ->|done]. }
  { rewrite !slength_app. cbn. lia. }
  rewrite !sapp_assoc in Hs, Hd. cbn [map app fst snd].
  erewrite (scrape_step out (bucket_line (float_text f) n)); [|exact Hs|exact Hd| |by apply scrape_bucket_line].
  - by rewrite IH.
  - intros [_ E]%app_nil. done.
Qed.

Lemma scrape_plain out suffix f rest :
  suffix = "_sum" \/ suffix = "_count" -> is_nan f = false -> rest <> [] ->
  exists out', scrape_lines out (plain_line suffix f :: rest) = scrape_lines out' rest /\ s_buckets out' = s_buckets out.
Proof.
  intros Hs Hf Hr. destruct (scrape_plain_line out suffix f Hs Hf) as (out' & Ho & Hb). exists out'. split; [|done].
  destruct (series_line_short f ("verification_duration_seconds" +:+ suffix +:+ "{" +:+ lane_label +:+ "} ")) as [Hl Hd];
    [by destruct Hs as [-> | ->]|destruct Hs as [-> | ->]; cbn; lia|].
  rewrite !sapp_assoc in Hl, Hd. by apply scrape_step.
Qed.

(** The scrape reads the cumulative counts of the observations. *)
Lemma buckets_exposed text ds :
  exposes text ds -> (Z.of_nat (length ds) < 2 ^ 53)%Z ->
  exists smp, buckets (Ok (text, true)) = Ok smp /\ s_buckets smp = foldl store_shown ∅ (shown_buckets ds).
Proof.
  intros (sum & pre & post & Hsum & Hpre & Hpost & E) Hn. unfold buckets. rewrite E.
  rewrite scrape_skip by (done || by destruct (shown_buckets ds)). unfold series. rewrite <- app_assoc.
  rewrite scrape_shown by (done || by apply shown_buckets_ok). cbn [app].
  match goal with |- context [scrape_lines ?o (plain_line "_sum" sum :: ?r)] =>
    destruct (scrape_plain o "_sum" sum r) as (o1 & -> & H1); [by left|done|done|] end.
  match goal with |- context [scrape_lines ?o (plain_line "_count" ?f :: ?r)] =>
    destruct (scrape_plain o "_count" f r) as (o2 & -> & H2); [by right|apply of_Z_not_nan; lia|by destruct post|] end.
  rewrite scrape_skip by done. cbn [scrape_lines res_bind]. exists o2. split; [done|]. by rewrite H2, H1.
Qed.

(** The keys of the page are distinct, so the map read is the list shown. *)
Definition shown_map (kns : list (string * Z)) : list (string * float64) := map (fun kn => (kn.1, of_Z kn.2)) kns.

Lemma bounds_NoDup : NoDup (verifyBuckets ++ [inf]).
Proof. vm_compute. repeat (constructor; [rewrite ?elem_of_cons, ?elem_of_nil; naive_solver discriminate|]). constructor. Qed.

Lemma bounds_parse b : b ∈ verifyBuckets ++ [inf] -> ParseFloat (float_text b) = Some b.
Proof.
  intros [Hb| ->%list_elem_of_singleton]%elem_of_app; [by apply text_bound|]. by rewrite text_inf.
Qed.

Lemma shown_keys ds : map fst (shown_map (shown_buckets ds)) = map float_text (verifyBuckets ++ [inf]).
Proof. unfold shown_map, shown_buckets. rewrite !map_app, !map_map. done. Qed.

Lemma shown_keys_NoDup ds : NoDup (map fst (shown_map (shown_buckets ds))).
Proof.
  rewrite shown_keys. apply NoDup_fmap_2_strong; [|apply bounds_NoDup].
  intros x y Hx Hy E. apply bounds_parse in Hx, Hy. congruence.
Qed.

Lemma store_shown_list kns : foldl store_shown ∅ kns = list_to_map (reverse (shown_map kns)).
Proof.
  induction kns as [|kn kns IH] using rev_ind; [done|]. unfold shown_map in *.
  by rewrite foldl_app, map_app, reverse_app, IH.
Qed.

Lemma read_buckets ds : Permutation (map_to_list (foldl store_shown ∅ (shown_buckets ds))) (shown_map (shown_buckets ds)).
Proof.
  rewrite store_shown_list, map_to_list_to_map; [apply reverse_Permutation|].
  rewrite fmap_reverse, reverse_Permutation. apply shown_keys_NoDup.
Qed.

Lemma read_bucket ds k n :
  (k, n) ∈ shown_buckets ds -> foldl store_shown ∅ (shown_buckets ds) !! k = Some (of_Z n).
Proof.
  intros Hin. apply elem_of_map_to_list. rewrite read_buckets. apply (list_elem_of_fmap_2 (fun kn => (kn.1, of_Z kn.2))) in Hin. exact Hin.
Qed.

(** The growth of a bucket between two scrapes counts the new observations. *)
Lemma count_le_app b new ds : count_le b (new ++ ds) = (count_le b new + count_le b ds)%Z.
Proof. unfold count_le. rewrite List.filter_app, length_app. lia. Qed.

Lemma bucket_growth before ds k n n' :
  s_buckets before = foldl store_shown ∅ (shown_buckets ds) -> (k, n) ∈ shown_buckets ds ->
  (0 <= n <= n')%Z -> (n' < 2 ^ 53)%Z -> bucket_delta before (k, of_Z n') = of_Z (n' - n).
Proof.
  intros Hb Hin Hn Hn'. rewrite <- fsub_of_Z by done. unfold bucket_delta. cbn [fst snd]. f_equal. rewrite Hb.
  exact (f_equal (default (S754_zero false)) (read_bucket ds k n Hin)).
Qed.

Lemma edges_new before ds new :
  s_buckets before = foldl store_shown ∅ (shown_buckets ds) -> (Z.of_nat (length (new ++ ds)) < 2 ^ 53)%Z ->
  edges_of before (shown_map (shown_buckets (new ++ ds))) = map (fun b => (b, of_Z (count_le b new))) verifyBuckets.
Proof.
  intros Hb Hn. unfold edges_of, shown_map, shown_buckets. rewrite map_app, omap_app. cbn [map omap list_omap fst].
  rewrite text_inf, seqb_refl, app_nil_r, map_map. cbn [fst snd].
  assert (forall l, (forall b, b ∈ l -> b ∈ verifyBuckets) ->
    omap (fun kv => if kv.1 =s "+Inf" then None else (fun f => (f, bucket_delta before kv)) <$> ParseFloat kv.1)
      (map (fun b => (float_text b, of_Z (count_le b (new ++ ds)))) l) = map (fun b => (b, of_Z (count_le b new))) l) as Hl; [|by apply Hl].
  induction l as [|b l IH]; intros Hin; [done|]. cbn [map]. rewrite omap_step.
  assert (b ∈ verifyBuckets) as Hb' by (apply Hin; set_solver). cbn [fst].
  assert (float_text b <> "+Inf") as Hne.
  { intros E. apply text_bound in Hb' as Hp. rewrite E in Hp. injection Hp as <-. pose proof bounds_NoDup as Hd.
    apply NoDup_app in Hd as (_ & Hd & _). by apply (Hd _ Hb'), list_elem_of_singleton. }
  apply String.eqb_neq in Hne. rewrite Hne, text_bound by done. cbn [fmap option_fmap option_map].
  rewrite IH by set_solver. f_equal. f_equal.
  pose proof (count_le_bound b (new ++ ds)). pose proof (count_le_bound b ds). pose proof (count_le_bound b new).
  rewrite (bucket_growth before ds _ (count_le b ds)); [| done| | |lia]; rewrite ?count_le_app; try lia.
  - f_equal. lia.
  - unfold shown_buckets. apply elem_of_app. left. by apply (list_elem_of_fmap_2 (fun b => (float_text b, count_le b ds))).
Qed.

End Scrape.

(** ** What traffic leaves in the histogram *)

Section Traffic.
Context `{GoLib} {V S : Type} `{TokenValidator V} `{!Store S}.
Abbreviation Server := (@Server V S).

(** One request on either listener. *)
Inductive traffic : Server -> Server -> Prop :=
| main_request gateway now rand r s : traffic s (after (serve gateway now rand r s))
| admin_request page now r s : traffic s (AdminHandler page now r s).1.

(** The verification times observed on the sigv4 lane, newest first. *)
Definition observed (s : Server) : list Duration := default [] (verifyDuration (srv_metrics s) !! "sigv4").

(** Observations are only added. *)
Definition grows (m m' : metrics) : Prop :=
  exists new, default [] (verifyDuration m' !! "sigv4") = new ++ default [] (verifyDuration m !! "sigv4").

#[local] Instance grows_preorder : PreOrder grows.
Proof.
  split; [by intros m; exists []|]. intros a b c [n1 E1] [n2 E2]. exists (n2 ++ n1). by rewrite E2, E1, app_assoc.
Qed.

Lemma grows_observe lane m : grows m (observeVerification lane m).
Proof.
  unfold grows, observeVerification, Observe. cbn [verifyDuration]. destruct (decide (lane = "sigv4")) as [->|Hne].
  - rewrite lookup_insert_eq. by eexists [_].
  - rewrite lookup_insert_ne by done. by exists [].
Qed.

(** The counters leave the histogram alone. *)
Lemma grows_same m m' : verifyDuration m' = verifyDuration m -> grows m m'.
Proof. intros E. exists []. by rewrite E. Qed.

Lemma proxy_grows gateway (s : Server) r : grows (srv_metrics s) (srv_metrics (after (proxy gateway s r))).
Proof. unfold proxy. destruct (proxy_ServeHTTP _ _ _) as [? []]; by apply grows_same. Qed.

Lemma timed_grows lane (s : Server) (p : reply (V := V) (S := S)) :
  grows (srv_metrics s) (srv_metrics (after p)) -> grows (srv_metrics s) (srv_metrics (after (timed lane p))).
Proof. intros Hg. etrans; [exact Hg|]. by apply grows_same. Qed.

Ltac grow := first [by apply grows_same | etrans; [apply grows_observe|]; by apply grows_same].

Lemma serve_grows gateway now rand r (s : Server) : grows (srv_metrics s) (srv_metrics (after (serve gateway now rand r s))).
Proof.
  unfold serve, serveSTS, serveBearer, serveSigV4, servePresigned, serveUnauthenticated.
  repeat case_match; apply timed_grows;
    repeat match goal with
    | E : lookup_credentials _ _ _ _ = _ |- _ => apply lookup_credentials_server in E as [? ->]
    end; try grow; try (etrans; [|apply proxy_grows]; grow); apply proxy_grows.
Qed.

Lemma traffic_grows (s s' : Server) : rtc traffic s s' -> exists new, observed s' = new ++ observed s.
Proof.
  change (rtc traffic s s' -> grows (srv_metrics s) (srv_metrics s')). induction 1 as [|a b c Hs _ IH]; [done|].
  etrans; [|exact IH]. destruct Hs as [|page now r s]; [apply serve_grows|].
  destruct (AdminHandler_cases page now r s) as [->|(akid & _ & ->)]; [done|].
  unfold handleRevoke. repeat case_match; by apply grows_same.
Qed.

End Traffic.

(** ** The verdict *)

Section Verdict.
Context `{GoLib} {V S : Type} `{TokenValidator V} `{!Store S} `{ExpositionLaws}.
Abbreviation Server := (@Server V S).

Lemma first_cover_bound need (before : verifySample) ds new order :
  s_buckets before = foldl store_shown ∅ (shown_buckets ds) -> (Z.of_nat (length (new ++ ds)) < 2 ^ 53)%Z ->
  Permutation order (shown_map (shown_buckets (new ++ ds))) ->
  let b := first_cover need (sort_edges (edges_of before order)) in
  b = inf \/ (b ∈ verifyBuckets /\ fleb need (of_Z (count_le b new)) = true).
Proof.
  intros Hb Hn Ho b.
  assert (Permutation (sort_edges (edges_of before order)) (map (fun b => (b, of_Z (count_le b new))) verifyBuckets)) as Hp.
  { rewrite sort_edges_perm, (edges_of_perm before _ _ Ho). by rewrite (edges_new before ds new Hb Hn). }
  assert (forall l, (exists cum, (first_cover need l, cum) ∈ l /\ fleb need cum = true) \/ first_cover need l = inf) as Hc.
  { induction l as [|[le cum] l IH]; [by right|]. cbn [first_cover]. destruct (fleb need cum) eqn:E.
    - left. exists cum. split; [set_solver|done].
    - destruct IH as [(c & Hin & Hc)|Hc]; [left; exists c; split; [set_solver|done]|by right]. }
  destruct (Hc (sort_edges (edges_of before order))) as [(cum & Hin & Hle)|Hi]; [|by left]. right.
  fold b in Hin. clearbody b. rewrite Hp in Hin. by apply list_elem_of_fmap in Hin as (b' & [= -> ->] & Hb').
Qed.

Lemma total_new (before : verifySample) ds new order :
  s_buckets before = foldl store_shown ∅ (shown_buckets ds) -> (Z.of_nat (length (new ++ ds)) < 2 ^ 53)%Z ->
  Permutation order (shown_map (shown_buckets (new ++ ds))) -> total_of before order = Z.of_nat (length new).
Proof.
  intros Hb Hn Ho. rewrite length_app in Hn. rewrite (total_of_lookup before order (of_Z (Z.of_nat (length (new ++ ds))))).
  - rewrite (bucket_growth before ds "+Inf" (Z.of_nat (length ds)) _ Hb); rewrite ?length_app; try lia.
    + rewrite to_Z_of_Z; lia.
    + unfold shown_buckets. rewrite text_inf. set_solver.
  - rewrite Ho. apply shown_keys_NoDup.
  - rewrite Ho. unfold shown_map, shown_buckets. rewrite map_app, text_inf. set_solver.
Qed.

(** C31: A passing load test is evidence.  Between two scrapes of a proxy, any
    traffic only adds observations to the sigv4 histogram; if the load
    generator read those two pages, in whatever order it iterates over its
    maps, and exited 0 under a finite limit, then there are new observations,
    and some bucket boundary within the limit is at or above at least 99
    percent of them.  Counts stay below 2^53, where float64 is exact. *)
Theorem pass_means_p99 (s1 s2 : Server) f put text1 text2 p elapsed order out :
  rtc traffic s1 s2 -> exposes text1 (observed s1) -> exposes text2 (observed s2) ->
  (Z.of_nat (length (observed s2)) < 2 ^ 53)%Z -> fltb (f_limitMs f) inf = true ->
  (forall smp, buckets (Ok (text2, true)) = Ok smp -> Permutation (order 0) (map_to_list (s_buckets smp))) ->
  load_main f put (buckets (Ok (text1, true))) (buckets (Ok (text2, true))) p elapsed order = Exits 0 out ->
  errs p = 0 /\
  exists new b, observed s2 = new ++ observed s1 /\ new <> [] /\ b ∈ verifyBuckets /\
    fltb (f_limitMs f) (fmul b (of_Z 1000)) = false /\
    fleb (fmul p99 (of_Z (Z.of_nat (length new)))) (of_Z (count_le b new)) = true.
Proof.
  intros Hrun Ht1 Ht2 Hn Hlim Ho Hpass.
  apply pass_means_within_budget in Hpass as (_ & He & _ & _ & _ & _ & b & a & bound & total & Eb & Ea & Hq & Hle).
  split; [done|]. destruct (traffic_grows _ _ Hrun) as [new Hnew]. rewrite Hnew in *.
  assert (Z.of_nat (length (observed s1)) < 2 ^ 53)%Z as Hn1 by (rewrite length_app in Hn; lia).
  destruct (buckets_exposed text1 _ Ht1 Hn1) as (b' & Eb' & Hb). assert (b' = b) as -> by congruence.
  destruct (buckets_exposed text2 _ Ht2 Hn) as (a' & Ea' & Ha).
  specialize (Ho a' Ea'). rewrite Ha, read_buckets in Ho.
  unfold quantileBound in Hq. rewrite (total_new b (observed s1) new (order 0) Hb Hn Ho) in Hq.
  destruct (Z.eqb_spec (Z.of_nat (length new)) 0) as [|Hne]; [done|].
  remember (fmul p99 (of_Z (Z.of_nat (length new)))) as need eqn:Hneed. injection Hq as Hbound <-.
  pose proof (first_cover_bound need b (observed s1) new (order 0) Hb Hn Ho) as Hc.
  cbv zeta in Hc. rewrite Hbound in Hc. exists new, bound. destruct Hc as [->|[Hin Hc]].
  - change (fmul inf (of_Z 1000)) with inf in Hle. congruence.
  - split; [done|]. split; [by intros ->|]. split; [exact Hin|]. split; [exact Hle|]. by rewrite <- Hneed.
Qed.

End Verdict.

(** ** A concrete exposition *)

Module DemoExposition.

#[export] Instance spec_float_eq_dec : EqDecision spec_float.
Proof. solve_decision. Defined.

Lemma digits_folded s w : sall is_digit s = true -> sall is_digit w = false -> smap lower_byte s <> w.
Proof.
  intros Hs Hw E. assert (smap lower_byte s = s) as Hid; [|congruence]. apply smap_id. revert Hs. apply sall_impl.
  intros c Hc. assert (implb (is_digit c) (Ascii.eqb (lower_byte c) c) = true) as Hb by by_bytes c. by rewrite Hc in Hb.
Qed.

Lemma take_digits_all s : sall is_digit s = true -> take_digits s = (s, "").
Proof. induction s as [|c s IH]; [done|]. cbn [sall take_digits]. intros [-> Hs]%andb_true_iff. by rewrite IH. Qed.

Lemma of_decimal_of_Z n : (0 <= n < 2 ^ 53)%Z -> of_decimal n 0 = of_Z n.
Proof. intros Hn. unfold of_decimal. destruct (Z.eqb_spec n 0) as [->|]; [done|]. by rewrite Z.mul_1_r. Qed.

Lemma ParseFloat_Itoa n : (0 <= n < 2 ^ 53)%Z -> ParseFloat (Itoa n) = Some (of_Z n).
Proof.
  intros Hn. unfold Itoa. destruct (Z.ltb_spec n 0); [lia|].
  destruct (natural_lit n ltac:(lia)) as (Hd & Hne & Hs & Hh). set (s := digits (ndigits 19 n) n) in *. clearbody s.
  assert (parse_unsigned s = Some (of_Z n)) as Hp.
  { unfold parse_unsigned. rewrite (proj2 (String.eqb_neq _ _) (digits_folded s "inf" Hs eq_refl)).
    rewrite (proj2 (String.eqb_neq _ _) (digits_folded s "infinity" Hs eq_refl)). cbn [orb].
    assert (HasPrefix (smap lower_byte s) "0x" = false) as ->.
    { apply not_true_iff_false. intros [t E]%HasPrefix_true. by apply (digits_folded s ("0x" +:+ t) Hs) in E. }
    rewrite take_digits_all, sapp_nil_r by done. rewrite (proj2 (String.eqb_neq _ _) Hne). cbn [parse_exponent].
    unfold digits_val. rewrite Hd. cbn [default from_option String.length Z.of_nat]. unfold id. rewrite of_decimal_of_Z by done.
    destruct (decide (n = 0%Z)) as [->|]; [done|]. by destruct (of_Z_finite n ltac:(lia)) as (p & _ & ->). }
  pose proof (proj2 (String.eqb_neq _ _) (digits_folded s "nan" Hs eq_refl)) as Hnan.
  unfold ParseFloat. rewrite (sall_sfree is_digit) by done.
  unfold read_float. destruct s as [|c r]; [done|]. destruct Hh as (Hm & Hpl & _).
  destruct c as [[] [] [] [] [] [] [] []]; first [discriminate Hm|discriminate Hpl|cbv iota; rewrite Hnan; exact Hp].
Qed.

Lemma ndigits_le fuel z : ndigits fuel z <= S fuel.
Proof.
  revert z. induction fuel as [|fuel IH]; intros z; cbn [ndigits]; [lia|]. destruct (z <? 10)%Z; [lia|].
  specialize (IH (z / 10)%Z). lia.
Qed.

(** The bounds as the library prints them. *)
Definition bound_texts : list (float64 * string) :=
  zip (verifyBuckets ++ [inf])
    ["5e-05"; "0.0001"; "0.00025"; "0.0005"; "0.001"; "0.0025"; "0.005"; "0.01"; "+Inf"].

(** Counts as integers, bounds by table; the sum of a histogram is not read. *)
Definition text (f : float64) : string :=
  if decide (f = of_Z (to_Z f) /\ (0 <= to_Z f < 2 ^ 53)%Z) then Itoa (to_Z f)
  else default "0" (snd <$> List.find (fun bt => bool_decide (bt.1 = f)) bound_texts).

#[export] Instance demo_exposition : Exposition := {| float_text := text |}.

(** What is printed is a count or one of ten texts. *)
Lemma text_cases f :
  (exists n, (0 <= n < 2 ^ 53)%Z /\ text f = Itoa n) \/ text f ∈ "0" :: map snd bound_texts.
Proof.
  unfold text. destruct (decide _) as [[_ Hn]|_]; [left; eauto|right].
  destruct (List.find _ bound_texts) as [bt|] eqn:E; [|by constructor].
  apply List.find_some in E as [Hin _]. apply list_elem_of_In in Hin. apply elem_of_cons. right.
  by apply (list_elem_of_fmap_2 snd).
Qed.

#[export] Instance demo_laws : ExpositionLaws.
Proof.
  split.
  - intros n Hn. cbn [float_text demo_exposition]. unfold text. rewrite to_Z_of_Z by done.
    rewrite decide_True by done. by apply ParseFloat_Itoa.
  - intros b Hb. assert (Forall (fun b => ParseFloat (text b) = Some b) verifyBuckets) as Ha.
    { repeat (apply Forall_cons; split; [vm_compute; reflexivity|]). constructor. }
    rewrite Forall_forall in Ha. by apply Ha.
  - vm_compute. reflexivity.
  - intros f _. cbn [float_text demo_exposition]. destruct (text_cases f) as [(n & Hn & ->)|Hin].
    + rewrite ParseFloat_Itoa by done. eauto.
    + assert (Forall (fun t => is_Some (ParseFloat t)) ("0" :: map snd bound_texts)) as Ha.
      { repeat (apply Forall_cons; split; [eexists; vm_compute; reflexivity|]). constructor. }
      rewrite Forall_forall in Ha. by apply Ha.
  - intros f. cbn [float_text demo_exposition]. destruct (text_cases f) as [(n & Hn & ->)|Hin].
    + unfold Itoa. destruct (Z.ltb_spec n 0); [lia|]. destruct (natural_lit n ltac:(lia)) as (_ & _ & Hs & _).
      split_and!; [revert Hs; apply sall_impl; intros c; by destruct c as [[] [] [] [] [] [] [] []]
                  |by apply (sall_sfree is_digit)|].
      rewrite slength_digits. pose proof (ndigits_le 19 n). lia.
    + assert (Forall (fun t => sall is_graph t = true /\ sfree (chr 34) t = true /\ String.length t <= 32) ("0" :: map snd bound_texts)) as Ha.
      { repeat (apply Forall_cons; split; [vm_compute; split_and!; try reflexivity; lia|]). constructor. }
      rewrite Forall_forall in Ha. by apply Ha.
Qed.

End DemoExposition.

Section Witnesses.
Import DemoServer DemoExposition.

(** The page of a server: a comment, then the series of the lane. *)
Definition demo_text (s : @Server Validator Memory.t) : string :=
  Join ("# TYPE verification_duration_seconds histogram" :: series (observed s) (S754_zero false) ++ [""]) newline.

Definition tested : @Server Validator Memory.t := after (serve gateway now zero_entropy signed server).

Definition iteration (r : res scrape_error verifySample) : list (string * float64) :=
  match r with Ok smp => map_to_list (s_buckets smp) | Err _ => [] end.

Definition demo_order (_ : nat) : list (string * float64) := iteration (buckets (Ok (demo_text tested, true))).

Lemma demo_exposes (s : @Server Validator Memory.t) : observed s = [] \/ observed s = [700000%Z] -> exposes (demo_text s) (observed s).
Proof.
  intros Ho. exists (S754_zero false), ["# TYPE verification_duration_seconds histogram"], []. unfold demo_text.
  split; [reflexivity|]. split; [|split; [constructor|]].
  - apply Forall_singleton. vm_compute. done.
  - destruct Ho as [-> | ->]; vm_compute; reflexivity.
Qed.

Lemma observed_before : observed server = [].
Proof. vm_compute. reflexivity. Qed.

Lemma observed_after : observed tested = [700000%Z].
Proof. vm_compute. reflexivity. Qed.

(** One request, verified in 0.7 milliseconds, against a limit of one. *)
Lemma demo_passes : exists out,
  load_main demo_lflags None (buckets (Ok (demo_text server, true))) (buckets (Ok (demo_text tested, true)))
    demo_pool 1000000000%Z demo_order = Exits 0 out.
Proof. unfold demo_text. rewrite observed_before, observed_after. eexists. vm_compute. reflexivity. Qed.

Lemma pass_means_p99_witness :
  observed server = [] /\ observed tested = [700000%Z] /\
  exists new b, observed tested = new ++ observed server /\ b ∈ verifyBuckets /\
    fleb (fmul p99 (of_Z (Z.of_nat (length new)))) (of_Z (count_le b new)) = true.
Proof.
  split; [exact observed_before|]. split; [exact observed_after|]. destruct demo_passes as [out E].
  destruct (pass_means_p99 server tested demo_lflags None (demo_text server) (demo_text tested) demo_pool 1000000000%Z demo_order out)
    as (_ & new & b & Hn & _ & Hb & _ & Hc).
  - apply rtc_once, main_request.
  - apply demo_exposes. left. exact observed_before.
  - apply demo_exposes. right. exact observed_after.
  - rewrite observed_after. vm_compute. reflexivity.
  - vm_compute. reflexivity.
  - intros smp Hs. unfold demo_order. rewrite Hs. reflexivity.
  - exact E.
  - exists new, b. split; [exact Hn|]. split; [exact Hb|exact Hc].
Defined.

End Witnesses.
