(* ===== verification/Portal.v ===== *)
(** * Command credential-portal

    Models cmd/credential-portal/main.go: the page handler that exchanges the
    browser user's token at the STS endpoint and decodes its answer.  The HTTP
    client is the class [PortalLib]; a page is the data given to the HTML
    template. *)

From Stdlib Require Import Ascii String ZArith NArith Bool Lia.
From stdpp Require Import base tactics list strings gmap sorting.
From S2P Require Import Prelude GoStrings GoTime GoHttp GoXml GoXmlDecode Sigv4 Forward Config Oidc Store Sts Server DeviceLogin.

Record portal := mkPortal { stsEndpoint : string; p_roleArn : string; publicEndpoint : string }.

Record stsCredentials := mkStsCredentials {
  AccessKeyID : string;
  SecretAccessKey : string;
  SessionToken : string;
  Expiration : string;
  Subject : string
}.

Definition no_credentials : stsCredentials := mkStsCredentials "" "" "" "" "".

Record stsError := mkStsError { Code : string; Message : string }.

Record pageData := mkPage {
  pd_Username : string;
  pd_Endpoint : string;
  pd_Creds : stsCredentials;
  pd_Expiration : string;
  pd_Error : string
}.

Definition error_page (msg : string) : pageData := mkPage "" "" no_credentials "" msg.

(** What the browser gets. *)
Inductive shown :=
| NotFound
| Page (st : Z) (d : pageData).

Class PortalLib := {
  Net : Type;
  (** [client.Do] of the POST: status, and the body unless reading it fails. *)
  post : string -> string -> Net -> Net * option (Z * option string)
}.

(** The paths of the struct tags. *)
Definition inCredentials (name : string) : xfield := (["AssumeRoleWithWebIdentityResult"; "Credentials"], name).
Definition inSubject : xfield := (["AssumeRoleWithWebIdentityResult"], "SubjectFromWebIdentityToken").
Definition inError (name : string) : xfield := (["Error"], name).

Definition stsCredentials_fields : list xfield :=
  [inCredentials "AccessKeyId"; inCredentials "SecretAccessKey"; inCredentials "SessionToken";
   inCredentials "Expiration"; inSubject].

Definition stsError_fields : list xfield := [inError "Code"; inError "Message"].

Definition credentials_of (log : list (xfield * string)) : stsCredentials :=
  mkStsCredentials (last_value log (inCredentials "AccessKeyId")) (last_value log (inCredentials "SecretAccessKey"))
    (last_value log (inCredentials "SessionToken")) (last_value log (inCredentials "Expiration"))
    (last_value log inSubject).

(** [xml.Unmarshal(body, &creds)] *)
Definition xml_Credentials `{XmlTables} (body : string) : option stsCredentials :=
  match xml_Unmarshal stsCredentials_fields body with
  | Some (log, true) => Some (credentials_of log)
  | _ => None
  end.

(** [_ = xml.Unmarshal(body, &e)]: what was read before an error counts. *)
Definition xml_Error `{XmlTables} (body : string) : stsError :=
  match xml_Unmarshal stsError_fields body with
  | Some (log, _) => mkStsError (last_value log (inError "Code")) (last_value log (inError "Message"))
  | None => mkStsError "" ""
  end.

Definition bearerToken (r : Request) : string :=
  let t := HGet (RHeader r) "X-Forwarded-Access-Token" in
  if t <>s "" then t
  else
    let h := HGet (RHeader r) "Authorization" in
    if HasPrefix h "Bearer " then TrimPrefix h "Bearer " else "".

Definition portal_byte (c : ascii) : bool := is_upper c || is_lower c || is_digit c || negb (sfree c "_=,.@-").

(** The loop of [sessionName]: [room] bytes of the builder's 64 are left. *)
Fixpoint session_loop (room : nat) (raw : string) : string :=
  match raw, room with
  | String c r, S room' => if portal_byte c then String c (session_loop room' r) else session_loop room r
  | _, _ => EmptyString
  end.

Definition portal_sessionName (r : Request) : string :=
  let preferred := HGet (RHeader r) "X-Forwarded-Preferred-Username" in
  let raw := if preferred =s "" then HGet (RHeader r) "X-Forwarded-User" else preferred in
  let b := session_loop 64 raw in
  if (String.length b <? 2)%nat then "portal" else b.

Definition portal_orUnknown (s : string) : string := if s =s "" then "unknown" else s.

Definition portal_form (p : portal) (username token : string) : Values :=
  [("Action", "AssumeRoleWithWebIdentity"); ("Version", "2011-06-15"); ("RoleArn", p_roleArn p);
   ("RoleSessionName", username); ("WebIdentityToken", token)].

Section Portal.
Context `{GoLib} `{PortalLib} `{XmlTables}.

(** [p.fail] *)
Definition portal_fail (msg : string) : shown := Page 502 (error_page msg).

Definition serveHome (p : portal) (r : Request) (n : Net) : Net * shown :=
  if Path (RURL r) <>s "/" then (n, NotFound)
  else
  let token := bearerToken r in
  if token =s "" then
    (n, Page 401 (error_page "No identity token on the request. This page must be reached through oauth2-proxy (browser sign-in)."))
  else
  let username := portal_sessionName r in
  let form := portal_form p username token in
  match url_Parse (stsEndpoint p +:+ "/") with
  | None => (n, portal_fail "building the STS request failed")
  | Some _ =>
  match post (stsEndpoint p +:+ "/") (VEncode form) n with
  | (n, None) => (n, portal_fail "the STS endpoint is unreachable")
  | (n, Some (_, None)) => (n, portal_fail "reading the STS response failed")
  | (n, Some (st, Some b)) =>
      let body := limit 1048576 b in
      if negb (st =? 200)%Z then
        let e := xml_Error body in
        (n, Page 502 (error_page ("The token exchange was rejected (" +:+ portal_orUnknown (Code e) +:+ "): " +:+ Message e)))
      else match xml_Credentials body with
      | None => (n, portal_fail "the STS response could not be parsed")
      | Some creds =>
          if AccessKeyID creds =s "" then (n, portal_fail "the STS response could not be parsed")
          else (n, Page 200 (mkPage username (publicEndpoint p) creds (Expiration creds) ""))
      end
  end
  end.

End Portal.

(** ** Form encoding is invertible *)

Definition query_escape_byte (c : ascii) : string :=
  if uri_unreserved c then String c "" else if Ascii.eqb c " " then "+" else percent_byte c.

Lemma QueryUnescape_Escape s : QueryUnescape (QueryEscape s) = Some s.
Proof.
  unfold QueryUnescape, QueryEscape. induction s as [|c s IH]; [done|]. cbn [sflat_map].
  destruct (uri_unreserved c) eqn:Eu.
  - assert (implb (uri_unreserved c) (negb (Ascii.eqb c "%") && negb (Ascii.eqb c "+")) = true) as Hb by by_bytes c.
    rewrite Eu in Hb. cbn [implb] in Hb. split_bools. cbn [String.append unescape].
    rewrite H, H0. cbn [andb]. by rewrite IH.
  - destruct (Ascii.eqb_spec c " ") as [->|_]; [cbn; by rewrite IH|].
    by rewrite percent_byte_unescape, IH.
Qed.

Lemma QueryEscape_free c s :
  uri_unreserved c = false -> (c <> "+" /\ c <> "%")%char -> is_digit c = false -> is_upper c = false ->
  sfree c (QueryEscape s) = true.
Proof.
  intros Hu [Hp Hq] Hd Hup. apply sall_sflat_map. intros d.
  destruct (uri_unreserved d) eqn:Ed.
  { cbn [sall]. destruct (Ascii.eqb_spec c d); [congruence|done]. }
  destruct (Ascii.eqb_spec d " ").
  { cbn [sall]. destruct (Ascii.eqb_spec c "+"); [congruence|done]. }
  unfold percent_byte. cbn [sall]. destruct (Ascii.eqb_spec c "%"); [congruence|].
  assert (forall n, (n < 16)%N -> Ascii.eqb c (upper_hex_digit n) = false) as Hx.
  { intros m Hm. destruct (Ascii.eqb_spec c (upper_hex_digit m)) as [->|]; [|done]. exfalso.
    unfold upper_hex_digit in *. destruct (N.ltb_spec m 10).
    - unfold is_digit, in_range in Hd. rewrite code_chr in Hd by lia. change (code "0") with 48%N in Hd.
      change (code "9") with 57%N in Hd. apply andb_false_iff in Hd as [Hd|Hd]; apply N.leb_gt in Hd; lia.
    - unfold is_upper, in_range in Hup. rewrite code_chr in Hup by lia. change (code "A") with 65%N in Hup.
      change (code "Z") with 90%N in Hup. apply andb_false_iff in Hup as [Hup|Hup]; apply N.leb_gt in Hup; lia. }
  pose proof (code_bound d).
  rewrite !Hx; [done|by apply N.mod_lt|apply N.Div0.div_lt_upper_bound; lia].
Qed.

Definition encode_part (kv : string * string) : string := QueryEscape kv.1 +:+ "=" +:+ QueryEscape kv.2.

Lemma encode_part_spec kv :
  sfree "&" (encode_part kv) = true /\ query_part (encode_part kv) = Some (Some kv).
Proof.
  destruct kv as [k v]. unfold encode_part. cbn [fst snd].
  assert (forall c s, (c = "&" \/ c = ";" \/ c = "=")%char -> sfree c (QueryEscape s) = true) as Hf.
  { intros c s [->|[->| ->]]; apply QueryEscape_free; done. }
  split; [rewrite !sfree_app, !Hf by auto; done|].
  unfold query_part. rewrite !sfree_app, !Hf by auto. cbn [andb negb sfree sall].
  destruct (seqb_spec (QueryEscape k +:+ "=" +:+ QueryEscape v) "") as [E|_].
  { apply sempty_app in E as [_ E]. discriminate E. }
  change ("=" +:+ QueryEscape v) with (String "=" (QueryEscape v)). rewrite Cut_app by auto.
  by rewrite !QueryUnescape_Escape.
Qed.

(** The pairs in the order [Encode] writes them. *)
Definition encode_order (q : Values) : Values :=
  concat (map (fun k => List.filter (fun kv => fst kv =s k) q) (merge_sort String.le (remove_dups (map fst q)))).

Lemma VEncode_order q : VEncode q = Join (map encode_part (encode_order q)) "&".
Proof.
  unfold VEncode, encode_order. f_equal. rewrite concat_map, map_map. f_equal. apply map_ext. intros k.
  apply map_ext_in. intros [k' v] [_ E]%List.filter_In. apply String.eqb_eq in E. simpl in E. by subst k'.
Qed.

Lemma ParseQuery_encoded l : l <> [] -> ParseQuery (Join (map encode_part l) "&") = (l, true).
Proof.
  intros Hl. unfold ParseQuery. rewrite Split_Join.
  - rewrite map_map. rewrite (map_ext _ (fun kv => Some (Some kv))) by (intros; apply encode_part_spec).
    f_equal; [|clear Hl; induction l as [|kv l IH]; cbn [map forallb]; [done|exact IH]].
    clear Hl. induction l as [|kv l IH]; [done|]. cbn [map]. rewrite omap_step. cbn [default from_option].
    by rewrite IH.
  - by destruct l.
  - apply Forall_map, Forall_forall. intros kv _. apply encode_part_spec.
Qed.

Lemma VGet_app l1 l2 k : VGet (l1 ++ l2) k = if VHas l1 k then VGet l1 k else VGet l2 k.
Proof.
  induction l1 as [|[a b] l1 IH]; [done|]. cbn [app VGet VHas existsb fst].
  destruct (a =s k); [done|]. exact IH.
Qed.

Lemma VGet_filter q k k' :
  VGet (List.filter (fun kv => fst kv =s k') q) k = (if k' =s k then VGet q k else "") /\
  VHas (List.filter (fun kv => fst kv =s k') q) k = (k' =s k) && VHas q k.
Proof.
  induction q as [|[a b] q [IH1 IH2]]; cbn [List.filter fst].
  - by destruct (k' =s k).
  - unfold VHas in *. cbn [VGet existsb fst].
    destruct (seqb_spec a k') as [<-|Hne]; cbn [VGet existsb fst].
    + destruct (a =s k); [done|]. by rewrite IH1, IH2.
    + rewrite IH1, IH2. destruct (seqb_spec k' k) as [<-|Hk]; [|done].
      by rewrite (proj2 (String.eqb_neq _ _) Hne).
Qed.

Lemma VGet_none q k : VHas q k = false -> VGet q k = "".
Proof.
  induction q as [|[a b] q IH]; [done|]. cbn [VGet VHas existsb fst]. by destruct (a =s k).
Qed.

Lemma VGet_groups q k keys :
  (VHas q k = true -> In k keys) ->
  VGet (concat (map (fun k' => List.filter (fun kv => fst kv =s k') q) keys)) k = VGet q k.
Proof.
  destruct (VHas q k) eqn:Eh.
  2:{ intros _. rewrite (VGet_none q k Eh). apply VGet_none. unfold VHas in *.
      induction keys as [|k' keys IH]; [done|]. cbn [map concat]. rewrite existsb_app, IH, orb_false_r.
      pose proof (proj2 (VGet_filter q k k')) as Hf. unfold VHas in Hf. rewrite Hf, Eh. by rewrite andb_false_r. }
  intros Hin. specialize (Hin eq_refl). induction keys as [|k' keys IH]; [done|]. cbn [map concat].
  rewrite VGet_app, (proj2 (VGet_filter q k k')), (proj1 (VGet_filter q k k')), Eh, andb_true_r.
  destruct (seqb_spec k' k) as [->|Hne]; [done|]. apply IH. by destruct Hin.
Qed.

Lemma VHas_In q k : VHas q k = true -> In k (map fst q).
Proof.
  unfold VHas. intros (kv & Hin & E)%existsb_exists. apply String.eqb_eq in E. subst k.
  by apply in_map.
Qed.

Lemma groups_nonempty q k keys :
  VHas q k = true -> In k keys ->
  concat (map (fun k' => List.filter (fun kv => fst kv =s k') q) keys) <> [].
Proof.
  intros Hk Hin E. apply in_split in Hin as (l1 & l2 & ->).
  rewrite map_app, concat_app in E. apply app_eq_nil in E as [_ E]. cbn [map concat] in E.
  apply app_eq_nil in E as [E _]. pose proof (proj2 (VGet_filter q k k)) as Hf.
  by rewrite E, seqb_refl, Hk in Hf.
Qed.

(** Reading back an encoded form gives every key the value it had. *)
Lemma form_roundtrip q k :
  q <> [] -> (ParseQuery (VEncode q)).2 = true /\ VGet (ParseQuery (VEncode q)).1 k = VGet q k.
Proof.
  intros Hq. rewrite VEncode_order.
  assert (forall x, VHas q x = true -> In x (merge_sort String.le (remove_dups (map fst q)))) as Hkeys.
  { intros x Hx. apply list_elem_of_In. rewrite merge_sort_Permutation. apply elem_of_remove_dups.
    by apply list_elem_of_In, VHas_In. }
  assert (encode_order q <> []) as Hne.
  { destruct q as [|[a b] q]; [done|].
    assert (VHas ((a, b) :: q) a = true) as Ha by (cbn; by rewrite seqb_refl).
    eapply groups_nonempty; eauto. }
  rewrite ParseQuery_encoded by done. split; [done|]. cbn [fst]. apply VGet_groups, Hkeys.
Qed.

(** ** The session name *)

Lemma session_loop_shape room raw :
  (String.length (session_loop room raw) <= room)%nat /\ sall session_byte (session_loop room raw) = true.
Proof.
  revert room. induction raw as [|c raw IH]; intros room; [split; [cbn; lia|done]|].
  destruct room as [|room]; [done|]. cbn [session_loop]. destruct (portal_byte c) eqn:Ec.
  - destruct (IH room) as [H1 H2]. cbn [String.length sall]. split; [lia|]. rewrite H2, andb_true_r.
    assert (implb (portal_byte c) (session_byte c) = true) as Hb by by_bytes c. by rewrite Ec in Hb.
  - destruct (IH (S room)). by split.
Qed.

Lemma portal_sessionName_accepted r : roleSessionNamePattern (portal_sessionName r) = true.
Proof.
  unfold portal_sessionName. cbv zeta.
  set (raw := if _ =s "" then _ else _). destruct (session_loop_shape 64 raw) as [H1 H2].
  destruct (Nat.ltb_spec (String.length (session_loop 64 raw)) 2); [done|].
  unfold roleSessionNamePattern. rewrite H2, (proj2 (Nat.leb_le _ _) H1), (proj2 (Nat.leb_le _ _) H). done.
Qed.

(** ** Portal and proxy together *)

Section Claims.
Context `{GoLib} `{PortalLib} `{XmlTables}.

(** A request as the proxy reads it from the portal's POST: no query, the form
    content type, [body] as its body. *)
Record posted (body : string) (q : Request) : Prop := {
  posted_method : Method q = "POST";
  posted_path : Path (RURL q) = "/";
  posted_query : RawQuery (RURL q) = "";
  posted_type : HGet (RHeader q) "Content-Type" = "application/x-www-form-urlencoded";
  posted_body : Body q = Some body
}.

Lemma form_media_type :
  ParseMediaType "application/x-www-form-urlencoded" = Some "application/x-www-form-urlencoded".
Proof. reflexivity. Qed.

(** The form of a posted request is the form the portal built, up to the order
    of its keys. *)
Lemma posted_form p username token q :
  posted (VEncode (portal_form p username token)) q ->
  exists form, ParseForm q = Some form /\
    forall k, VGet form k = VGet (portal_form p username token) k.
Proof.
  intros [_ _ Hq Ht Hb]. unfold ParseForm. rewrite Ht, Hq, Hb.
  change ("application/x-www-form-urlencoded" =s "") with false. cbn iota zeta.
  rewrite form_media_type. change (negb (ParseQuery "").2) with false.
  change ("application/x-www-form-urlencoded" =s "application/x-www-form-urlencoded") with true. cbn iota.
  pose proof (fun k => form_roundtrip (portal_form p username token) k ltac:(discriminate)) as Hr.
  destruct (ParseQuery (VEncode _)) as [form ok]. cbn [fst snd] in Hr.
  destruct (Hr "") as [-> _]. exists form. split; [done|]. intros k. apply Hr.
Qed.

(** The parameters the exchange handler reads from the portal's form. *)
Lemma posted_params p r q cfg :
  posted (VEncode (portal_form p (portal_sessionName r) (bearerToken r))) q ->
  bearerToken r <> "" -> p_roleArn p <> "" ->
  (RoleARNAllowlist cfg = [] \/ In (p_roleArn p) (RoleARNAllowlist cfg)) ->
  isSTSRequest q = true /\
  read_params cfg q = Ok (mkParams (bearerToken r) (p_roleArn p) (portal_sessionName r) 0).
Proof.
  intros Hq Ht Hr Hal. destruct (posted_form _ _ _ _ Hq) as (form & Hf & Hget).
  pose proof (portal_sessionName_accepted r) as Hs. destruct Hq as [Hm Hp _ Hc _]. split.
  { unfold isSTSRequest. by rewrite Hm, Hp, Hc, form_media_type. }
  unfold read_params. rewrite Hm, Hf. cbv zeta. rewrite !Hget.
  cbn [portal_form VGet fst snd String.eqb Ascii.eqb Bool.eqb].
  assert (roleSessionNamePattern "" = false) as Hpat by done.
  destruct (seqb_spec (portal_sessionName r) "") as [E|_]; [rewrite E in Hs; congruence|].
  destruct (seqb_spec (bearerToken r) "") as [E|_]; [done|].
  destruct (seqb_spec (p_roleArn p) "") as [E|_]; [done|].
  assert (negb (length (RoleARNAllowlist cfg) =? 0)%nat && negb (contains (RoleARNAllowlist cfg) (p_roleArn p)) = false) as Ha.
  { destruct Hal as [->|Hin]; [done|]. unfold contains.
    rewrite (proj2 (existsb_exists _ _)); [by rewrite andb_false_r|].
    exists (p_roleArn p). by rewrite seqb_refl. }
  cbn. rewrite Ha, Hs. done.
Qed.

(** Whatever user name oauth2-proxy forwards (any bytes, any length), the
    form the portal posts reaches the proxy's STS lane and passes every check
    of the exchange handler that comes before the token itself: the handler
    reads back exactly the token the browser carried, the configured role and
    the derived session name, with no requested duration, provided the role is
    one the proxy's allowlist admits. *)
Theorem portal_exchange_well_formed p r q cfg :
  posted (VEncode (portal_form p (portal_sessionName r) (bearerToken r))) q ->
  bearerToken r <> "" -> p_roleArn p <> "" ->
  (RoleARNAllowlist cfg = [] \/ In (p_roleArn p) (RoleARNAllowlist cfg)) ->
  isSTSRequest q = true /\
  read_params cfg q = Ok (mkParams (bearerToken r) (p_roleArn p) (portal_sessionName r) 0).
Proof. apply posted_params. Qed.

(** What a page with credentials took. *)
Record exchanged_page (p : portal) (r : Request) (n n' : Net) (d : pageData) (creds : stsCredentials) : Prop := {
  ep_token : bearerToken r <> "";
  ep_answer : exists b,
    post (stsEndpoint p +:+ "/") (VEncode (portal_form p (portal_sessionName r) (bearerToken r))) n
      = (n', Some (200%Z, Some b)) /\
    xml_Credentials (limit 1048576 b) = Some creds;
  ep_akid : AccessKeyID creds <> "";
  ep_page : d = mkPage (portal_sessionName r) (publicEndpoint p) creds (Expiration creds) ""
}.

(** A page without credentials: an error text and nothing else. *)
Definition only_error (d : pageData) : Prop := exists msg, msg <> "" /\ d = error_page msg.

(** Every page the home handler can answer. *)
Lemma serveHome_cases p r n n' st d :
  serveHome p r n = (n', Page st d) ->
  (st = 200%Z /\ Path (RURL r) = "/" /\ url_Parse (stsEndpoint p +:+ "/") <> None /\
     exists creds, exchanged_page p r n n' d creds) \/
  (st = 502%Z /\ bearerToken r <> "" /\ only_error d) \/
  (st = 401%Z /\ bearerToken r = "" /\ n' = n /\ only_error d).
Proof.
  unfold serveHome, portal_fail. destruct (seqb_spec (Path (RURL r)) "/") as [Hp|]; [|cbn [negb]; discriminate].
  assert (forall st0 n0 msg, bearerToken r <> "" -> msg <> "" -> (n0, Page 502 (error_page msg)) = (n', Page st0 d) ->
    st0 = 502%Z /\ bearerToken r <> "" /\ only_error d) as Hfail.
  { intros st0 n0 msg Hb Hm E. injection E as <- <- <-. split_and!; [done..|by exists msg]. }
  destruct (seqb_spec (bearerToken r) "") as [Ht|Ht]; cbn [negb]; intros E.
  { injection E as <- <- <-. right. right. split_and!; [done..|]. eexists. by split; [|reflexivity]. }
  cbv zeta in E. destruct (url_Parse _) as [u|] eqn:Eu; [|right; left; (eapply Hfail; [done| |exact E]; discriminate)].
  destruct (post _ _ n) as [n1 [[st1 [b|]]|]] eqn:Ep; [|right; left; (eapply Hfail; [done| |exact E]; discriminate)..].
  destruct (Z.eqb_spec st1 200) as [->|Hst]; cbn [negb] in E; [|right; left; (eapply Hfail; [done| |exact E]; discriminate)].
  destruct (xml_Credentials _) as [creds|] eqn:Ec; [|right; left; (eapply Hfail; [done| |exact E]; discriminate)].
  destruct (seqb_spec (AccessKeyID creds) "") as [Ha|Ha]; [right; left; (eapply Hfail; [done| |exact E]; discriminate)|].
  injection E as <- <- <-. left. split_and!; [done..|]. exists creds. split; eauto.
Qed.

Lemma serveHome_exchanged p r n n' d creds :
  Path (RURL r) = "/" -> url_Parse (stsEndpoint p +:+ "/") <> None -> exchanged_page p r n n' d creds ->
  serveHome p r n = (n', Page 200 d).
Proof.
  intros Hp Hu [Ht (b & Hb & Hc) Ha ->]. unfold serveHome. rewrite Hp. cbn [String.eqb negb].
  destruct (url_Parse _); [|done].
  destruct (seqb_spec (bearerToken r) "") as [|_]; [done|]. rewrite Hb. cbn [negb Z.eqb Pos.eqb].
  cbv zeta. rewrite Hc. by destruct (seqb_spec (AccessKeyID creds) "").
Qed.

(** The portal answers 200 exactly when it is asked for its home page with
    a token, the STS endpoint answers 200 and its document decodes to a
    non-empty access key; the page then shows those credentials and no error.
    Every other page is a 502, or a 401 when the browser brought no token (and
    then nothing is sent), with an error text and no credentials. *)
Theorem portal_shows_only_exchanged p r n n' :
  (forall d, serveHome p r n = (n', Page 200 d) <->
     Path (RURL r) = "/" /\ url_Parse (stsEndpoint p +:+ "/") <> None /\
     exists creds, exchanged_page p r n n' d creds) /\
  (forall st d, serveHome p r n = (n', Page st d) -> st <> 200%Z ->
     only_error d /\ (st = 502%Z /\ bearerToken r <> "" \/ st = 401%Z /\ bearerToken r = "" /\ n' = n)).
Proof.
  split.
  - intros d. split.
    + intros E. destruct (serveHome_cases _ _ _ _ _ _ E) as [(_ & ?)|[(? & _)|(? & _)]]; done.
    + intros (Hp & Hu & creds & He). by eapply serveHome_exchanged.
  - intros st d E Hst.
    destruct (serveHome_cases _ _ _ _ _ _ E) as [(? & _)|[(? & ? & ?)|(? & ? & ? & ?)]]; [done|tauto..].
Qed.

End Claims.

(** ** Examples *)

(** An endpoint that answers every POST with the same document. *)
Module DemoPortal.

#[export] Instance portal_lib : PortalLib := {|
  Net := nat;
  post := fun _ _ n =>
    (S n, Some (200%Z, Some (body (writeSuccess
      (mkSuccess "alice" "https://idp" "arn:ozone:iam::dev:role/oidc" "alice" sample_record "0"))))) |}.

Definition sample_portal : portal :=
  mkPortal "http://proxy:9000" "arn:ozone:iam::dev:role/oidc" "http://localhost:9000".

Definition home (user token : string) : Request :=
  mkRequest "GET" (mkURL "" "" "/" "" "") "/" "portal"
    (HSet (HSet ∅ "X-Forwarded-Preferred-Username" user) "X-Forwarded-Access-Token" token) 0 (Some "") None false.

Definition sts_post (body : string) : Request :=
  mkRequest "POST" (mkURL "" "" "/" "" "") "/" "proxy:9000"
    (HSet ∅ "Content-Type" "application/x-www-form-urlencoded") 0 (Some body) None false.

End DemoPortal.

Section Witnesses.
#[local] Existing Instance ascii_lib.
Import DemoPortal.

Definition sample_post : Request :=
  sts_post (VEncode (portal_form sample_portal (portal_sessionName (home "al!ce" "eyJ")) (bearerToken (home "al!ce" "eyJ")))).

Lemma portal_exchange_well_formed_witness :
  read_params (mkSTS 3600 ["arn:ozone:iam::dev:role/oidc"]) sample_post
  = Ok (mkParams "eyJ" "arn:ozone:iam::dev:role/oidc" "alce" 0).
Proof.
  refine (proj2 (portal_exchange_well_formed sample_portal (home "al!ce" "eyJ") sample_post _ _ _ _ _)).
  - split; reflexivity.
  - vm_compute. discriminate.
  - discriminate.
  - right. by left.
Defined.

Example portal_home : exists n d, serveHome sample_portal (home "alice" "eyJ") 0%nat = (n, Page 200 d).
Proof. do 2 eexists. vm_compute. reflexivity. Qed.

End Witnesses.
