(* ===== verification/PortalPage.v ===== *)
(** * Command credential-portal: the page

    Models the HTML template of cmd/credential-portal/main.go, [renderPage] and
    the portal's mux.  The template is its syntax tree; [html/template] escapes
    what an action shows by the context it stands in, which is element text
    for every action of this template.  A response writer keeps the headers
    apart from what has been sent, since [renderPage] sets headers on a writer
    whose status may already be out. *)

From Stdlib Require Import Ascii String ZArith NArith Bool Lia.
From stdpp Require Import base tactics list strings gmap.
From S2P Require Import Prelude GoStrings GoTime GoHttp GoMux GoXml GoXmlDecode Sigv4 Store Sts Server Portal.

(** ** package html/template *)

(** [htmlReplacementTable]: the bytes the text escaper replaces. *)
Definition html_entity (c : ascii) : option string :=
  match code c with
  | 0 => Some (String (chr 239) (String (chr 191) (String (chr 189) "")))
  | 34 => Some "&#34;"
  | 38 => Some "&amp;"
  | 39 => Some "&#39;"
  | 43 => Some "&#43;"
  | 60 => Some "&lt;"
  | 62 => Some "&gt;"
  | _ => None
  end%N.

Definition html_byte (c : ascii) : string := default (String c "") (html_entity c).

(** The escaper of element text.  Every replaced rune is a single byte and no
    byte of a longer rune is in the table, so it works bytewise. *)
Definition htmlEscaper (s : string) : string := sflat_map html_byte s.

(** ** The template *)

Inductive field := FError | FUsername | FExpiration | FAccessKeyID | FSecretAccessKey | FSessionToken | FEndpoint.

#[export] Instance field_eq_dec : EqDecision field.
Proof. solve_decision. Defined.

Definition field_value (f : field) (d : pageData) : string :=
  match f with
  | FError => pd_Error d
  | FUsername => pd_Username d
  | FExpiration => pd_Expiration d
  | FAccessKeyID => AccessKeyID (pd_Creds d)
  | FSecretAccessKey => SecretAccessKey (pd_Creds d)
  | FSessionToken => SessionToken (pd_Creds d)
  | FEndpoint => pd_Endpoint d
  end.

Inductive node :=
| Text (s : string)
| Show (f : field)                       (* {{.F}} *)
| If (f : field) (yes no : list node).   (* {{if .F}} yes {{else}} no {{end}} *)

Fixpoint exec_node (d : pageData) (t : node) : string :=
  match t with
  | Text s => s
  | Show f => htmlEscaper (field_value f d)
  | If f yes no =>
      if field_value f d <>s "" then String.concat "" (map (exec_node d) yes)
      else String.concat "" (map (exec_node d) no)
  end.

(** [Template.Execute] *)
Definition Execute (t : list node) (d : pageData) : string := String.concat "" (map (exec_node d) t).

(** Lines of HTML, in which a single quote stands for the double quote. *)
Definition lines (l : list string) : string :=
  smap (fun c => if Ascii.eqb c "'" then chr 34 else c) (Join l newline).

(** The head of the page, its two bodies and its end. *)
Definition page_head : node :=
  Text (lines ["<!doctype html>";
     "<html lang='en'>";
     "<head>";
     "<meta charset='utf-8'>";
     "<title>Ozone S3 credentials</title>";
     "<style>";
     "  body { font: 15px/1.5 system-ui, sans-serif; max-width: 62rem; margin: 3rem auto; padding: 0 1rem; color: #1a2333; }";
     "  h1 { font-size: 1.4rem; } h2 { font-size: 1.05rem; margin-top: 2rem; }";
     "  pre { background: #f4f6fa; border: 1px solid #d8dee9; border-radius: 6px; padding: .8rem 1rem; overflow-x: auto; }";
     "  table { border-collapse: collapse; } td { padding: .25rem .8rem .25rem 0; vertical-align: top; }";
     "  td:first-child { color: #5a6578; white-space: nowrap; }";
     "  code { word-break: break-all; }";
     "  .err { background: #fdf2f2; border: 1px solid #e8b4b4; border-radius: 6px; padding: 1rem; }";
     "  .note { color: #5a6578; font-size: .9rem; }";
     "  a.again { display: inline-block; margin-top: 1.5rem; }";
     "</style>";
     "</head>";
     "<body>";
     "<h1>Ozone S3 temporary credentials</h1>";
     ""]).

Definition page_error : list node :=
  [Text (lines ["";
     "<div class='err'>"]);
   Show FError;
   Text (lines ["</div>";
     "<a class='again' href='/'>Try again</a>";
     ""])].

Definition page_credentials : list node :=
  [Text (lines ["";
     "<p>Minted for <strong>"]);
   Show FUsername;
   Text (lines ["</strong>, valid until <strong>"]);
   Show FExpiration;
   Text (lines ["</strong>. Reload to mint a fresh set.</p>";
     "<table>";
     "  <tr><td>AccessKeyId</td><td><code>"]);
   Show FAccessKeyID;
   Text (lines ["</code></td></tr>";
     "  <tr><td>SecretAccessKey</td><td><code>"]);
   Show FSecretAccessKey;
   Text (lines ["</code></td></tr>";
     "  <tr><td>SessionToken</td><td><code>"]);
   Show FSessionToken;
   Text (lines ["</code></td></tr>";
     "</table>";
     "<h2>Shell</h2>";
     "<pre>export AWS_ACCESS_KEY_ID="]);
   Show FAccessKeyID;
   Text (lines ["";
     "export AWS_SECRET_ACCESS_KEY="]);
   Show FSecretAccessKey;
   Text (lines ["";
     "export AWS_SESSION_TOKEN="]);
   Show FSessionToken;
   Text (lines ["";
     "export AWS_ENDPOINT_URL_S3="]);
   Show FEndpoint;
   Text (lines ["</pre>";
     "<h2>~/.aws/credentials</h2>";
     "<pre>[ozone]";
     "aws_access_key_id     = "]);
   Show FAccessKeyID;
   Text (lines ["";
     "aws_secret_access_key = "]);
   Show FSecretAccessKey;
   Text (lines ["";
     "aws_session_token     = "]);
   Show FSessionToken;
   Text (lines ["</pre>";
     "<p class='note'>Then: <code>aws s3 ls --profile ozone --endpoint-url "]);
   Show FEndpoint;
   Text (lines ["</code></p>";
     "<p class='note'>Prefer long-lived automation? Use <code>ozone-login</code> (device flow) instead of copying credentials.</p>";
     ""])].

Definition page_end : node :=
  Text (lines ["";
     "</body>";
     "</html>";
     ""]).

Definition page : list node := [page_head; If FError page_error page_credentials; page_end].

(** ** Responses *)

(** [http.ResponseWriter]: headers set after the status is out are not sent. *)
Record writer := mkWriter { w_header : Header; w_sent : option (Z * Header); w_body : string }.

Definition fresh_writer : writer := mkWriter ∅ None "".

Definition set_header (k v : string) (w : writer) : writer := mkWriter (HSet (w_header w) k v) (w_sent w) (w_body w).

Definition WriteHeader (st : Z) (w : writer) : writer :=
  match w_sent w with
  | None => mkWriter (w_header w) (Some (st, w_header w)) (w_body w)
  | Some _ => w
  end.

Definition write_body (b : string) (w : writer) : writer :=
  let w := WriteHeader 200 w in mkWriter (w_header w) (w_sent w) (w_body w +:+ b).

Definition renderPage (w : writer) (d : pageData) : writer :=
  write_body (Execute page d)
    (set_header "Cache-Control" "no-store" (set_header "Content-Type" "text/html; charset=utf-8" w)).

(** [http.Error] on a writer without a Content-Length. *)
Definition write_error (msg : string) (st : Z) (w : writer) : writer :=
  write_body (msg +:+ newline)
    (WriteHeader st (set_header "X-Content-Type-Options" "nosniff" (set_header "Content-Type" "text/plain; charset=utf-8" w))).

(** The calls [serveHome] makes on the writer: the error paths write their
    status before the page. *)
Definition deliver (o : shown) : writer :=
  match o with
  | NotFound => write_error "404 page not found" 404 fresh_writer
  | Page st d => if (st =? 200)%Z then renderPage fresh_writer d else renderPage (WriteHeader st fresh_writer) d
  end.

Inductive portal_endpoint := PortalHealthz | PortalHome.

Definition portal_table : table (A := portal_endpoint) :=
  [(mkPattern "" [Lit "healthz"], PortalHealthz); (mkPattern "" [Subtree], PortalHome)].

Inductive portal_answer :=
| Written (w : writer)
| MovedTo (to : URL).

Section Handler.
Context `{GoLib} `{PortalLib} `{XmlTables}.

Definition portal_handler (p : portal) (r : Request) (n : Net) : Net * portal_answer :=
  match mux_route portal_table r with
  | Handle PortalHealthz _ => (n, Written (write_body ("ok" +:+ newline) (WriteHeader 200 fresh_writer)))
  | Handle PortalHome _ => let '(n', o) := serveHome p r n in (n', Written (deliver o))
  | Redirect to => (n, MovedTo to)
  | MethodNotAllowed _ => (n, Written (write_error "Method Not Allowed" 405 fresh_writer))
  | NoRoute => (n, Written (deliver NotFound))
  | BadRequest => (n, Written (WriteHeader 400 (set_header "Connection" "close" fresh_writer)))
  end.

End Handler.

(** ** Start-up *)

Definition portal_envOr (getenv : string -> string) (key fallback : string) : string :=
  if getenv key <>s "" then getenv key else fallback.

(** The portal and its address, from the environment. *)
Definition portal_of_env (getenv : string -> string) : portal * string :=
  (mkPortal (portal_envOr getenv "PORTAL_STS_ENDPOINT" "http://proxy:9000")
            (portal_envOr getenv "PORTAL_ROLE_ARN" "arn:ozone:iam::dev:role/oidc")
            (portal_envOr getenv "PORTAL_PUBLIC_ENDPOINT" "http://localhost:9000"),
   portal_envOr getenv "PORTAL_LISTEN" ":8090").

(** The exit code once [ListenAndServe] returned: its error if any, and whether
    that is [http.ErrServerClosed]. *)
Definition portal_main (returned : option (string * bool)) : Z :=
  match returned with
  | Some (_, false) => 1
  | _ => 0
  end.

(** ** Escaped text *)

Definition not_nul (c : ascii) : bool := negb (Ascii.eqb c "000").

Lemma html_byte_prefix c d :
  not_nul c = true -> not_nul d = true -> HasPrefix (html_byte c) (html_byte d) = true -> c = d.
Proof.
  assert (forallb (fun c => forallb (fun d =>
    implb (not_nul c && not_nul d && HasPrefix (html_byte c) (html_byte d)) (Ascii.eqb c d)) all_bytes) all_bytes = true)
    as Hall by (vm_compute; reflexivity).
  intros Hc Hd Hp. pose proof (byte_forall _ Hall c) as Hb. apply (byte_forall _) with (c := d) in Hb.
  rewrite Hc, Hd, Hp in Hb. by apply Ascii.eqb_eq.
Qed.

Lemma htmlEscaper_inj s t :
  sall not_nul s = true -> sall not_nul t = true -> htmlEscaper s = htmlEscaper t -> s = t.
Proof.
  apply sflat_map_inj; [exact html_byte_prefix|]. intros c E.
  assert ((html_byte c <>s "") = true) as Hb by by_bytes c. by rewrite E in Hb.
Qed.

Lemma htmlEscaper_inert s : sall (fun c => negb (is_markup c)) (htmlEscaper s) = true.
Proof. apply sall_sflat_map. intros c. by_bytes c. Qed.

(** ** Reading a page *)

Lemma concat_cons x l : String.concat "" (x :: l) = x +:+ String.concat "" l.
Proof. destruct l; [by rewrite sapp_nil_r|done]. Qed.

Lemma Execute_cons t l d : Execute (t :: l) d = exec_node d t +:+ Execute l d.
Proof. apply concat_cons. Qed.

Definition flat (t : node) : bool := match t with If _ _ _ => false | _ => true end.

(** The markup of a template without conditionals does not depend on the data. *)
Lemma Execute_markup l d d' :
  forallb flat l = true -> sfilter is_markup (Execute l d) = sfilter is_markup (Execute l d').
Proof.
  induction l as [|t l IH]; [done|]. intros [Ht Hl]%andb_true_iff. rewrite !Execute_cons, !sfilter_app, (IH Hl).
  f_equal. destruct t; [done| |discriminate Ht]. cbn [exec_node]. by rewrite !sfilter_none by apply htmlEscaper_inert.
Qed.

(** Whether the fields a template shows can be read off its output: at its
    first occurrence a field is followed by a tag. *)
Fixpoint readable (known : list field) (l : list node) : bool :=
  match l with
  | [] => true
  | Text _ :: l => readable known l
  | If _ _ _ :: _ => false
  | Show f :: l =>
      match l with
      | Text (String "<" _) :: _ => readable (f :: known) l
      | _ => bool_decide (f ∈ known) && readable known l
      end
  end.

Fixpoint shows (l : list node) : list field :=
  match l with
  | [] => []
  | Show f :: l => f :: shows l
  | _ :: l => shows l
  end.

Lemma escaped_cut s t x y :
  htmlEscaper s +:+ String "<" x = htmlEscaper t +:+ String "<" y -> htmlEscaper s = htmlEscaper t /\ x = y.
Proof.
  intros E. assert (forall u, sfree "<" (htmlEscaper u) = true) as Hf.
  { intros u. apply (sall_sfree (fun c => negb (is_markup c))); [done|apply htmlEscaper_inert]. }
  apply (f_equal (Cut "<")) in E. rewrite !Cut_app in E by apply Hf. by injection E as -> ->.
Qed.

Definition nul_free (d : pageData) : Prop := forall f, sall not_nul (field_value f d) = true.

Lemma readable_sound l : forall known d d' x x',
  readable known l = true -> nul_free d -> nul_free d' ->
  (forall f, f ∈ known -> field_value f d = field_value f d') ->
  Execute l d +:+ x = Execute l d' +:+ x' ->
  forall f, f ∈ shows l -> field_value f d = field_value f d'.
Proof.
  induction l as [|t l IH]; intros known d d' x x' Hr Hd Hd' Hk E f Hf; [by apply not_elem_of_nil in Hf|].
  rewrite !Execute_cons, !sapp_assoc in E.
  destruct t as [s|g|]; [| |discriminate Hr]; cbn [exec_node] in E.
  { apply sapp_cancel in E. by eapply (IH known). }
  assert (field_value g d = field_value g d' /\ exists known', readable known' l = true /\
    forall f, f ∈ known' -> field_value f d = field_value f d') as (Eg & known' & Hr' & Hk').
  { cbn [readable] in Hr.
    assert (bool_decide (g ∈ known) && readable known l = true ->
      field_value g d = field_value g d' /\ exists known', readable known' l = true /\
        forall f, f ∈ known' -> field_value f d = field_value f d') as Hold.
    { intros [Hg Hl]%andb_true_iff. apply bool_decide_eq_true in Hg. split; [by apply Hk|by exists known]. }
    destruct l as [|[[|c s]| |] l]; try (by apply Hold).
    destruct (Ascii.eqb_spec c "<") as [->|Hne]; [|apply Hold; clear - Hr Hne; by repeat case_match; subst].
    rewrite !Execute_cons in E. cbn [exec_node] in E. rewrite !sapp_assoc, !sapp_cons in E.
    apply escaped_cut in E as [Eg _]. apply htmlEscaper_inj in Eg; [|apply Hd|apply Hd'].
    split; [done|]. exists (g :: known). split; [done|]. intros f' [->|Hf']%elem_of_cons; auto. }
  cbn [shows] in Hf. apply elem_of_cons in Hf as [->|Hf]; [done|].
  rewrite Eg in E. apply sapp_cancel in E. by eapply (IH known').
Qed.

Lemma template_reads l d d' x x' :
  readable [] l = true -> nul_free d -> nul_free d' -> Execute l d +:+ x = Execute l d' +:+ x' ->
  Forall (fun f => field_value f d = field_value f d') (shows l).
Proof.
  intros Hr Hd Hd' E. apply Forall_forall. intros f Hf. eapply (readable_sound l []); [done..| |exact E|done].
  by intros ? ?%not_elem_of_nil.
Qed.

(** ** The page *)

Lemma page_readable : readable [] page_error = true /\ readable [] page_credentials = true.
Proof. split; vm_compute; reflexivity. Qed.

Lemma Execute_page d :
  Execute page d =
  exec_node d page_head +:+ Execute (if pd_Error d <>s "" then page_error else page_credentials) d +:+ exec_node d page_end.
Proof.
  unfold page. rewrite !Execute_cons. change (Execute [] d) with "". rewrite sapp_nil_r. do 2 f_equal.
  cbn [exec_node field_value]. by destruct (pd_Error d =s "").
Qed.

(** The page without any of its data: only whether there is an error is kept. *)
Definition blank (d : pageData) : pageData := error_page (if pd_Error d =s "" then "" else "e").

Lemma same_error d d' x y :
  Execute (if pd_Error d <>s "" then page_error else page_credentials) d +:+ x =
  Execute (if pd_Error d' <>s "" then page_error else page_credentials) d' +:+ y ->
  (pd_Error d =s "") = (pd_Error d' =s "").
Proof.
  by destruct (pd_Error d =s ""), (pd_Error d' =s "").
Qed.

(** C24: The portal's page shows its data inertly.  Whatever the user name, the
    endpoint, the credentials and the error text, the markup of the page (its
    angle brackets and quotes) is the template's own; an error page shows the
    error and nothing else; and what the page shows can be read back: two pages
    with the same text carry the same error, and without an error the same
    user, expiry, credentials and endpoint (of data without NUL bytes, which
    HTML cannot carry). *)
Theorem portal_page_inert d :
  sfilter is_markup (Execute page d) = sfilter is_markup (Execute page (blank d)) /\
  (pd_Error d <> "" -> Execute page d = Execute page (error_page (pd_Error d))) /\
  (forall d', nul_free d -> nul_free d' -> Execute page d = Execute page d' ->
     pd_Error d = pd_Error d' /\ (pd_Error d = "" -> forall f, field_value f d = field_value f d')).
Proof.
  split_and!.
  - rewrite !Execute_page, !sfilter_app. f_equal. f_equal. unfold blank. cbn [error_page pd_Error].
    destruct (pd_Error d =s ""); cbn [negb String.eqb]; by apply Execute_markup.
  - intros He. rewrite !Execute_page. cbn [error_page pd_Error].
    by rewrite (proj2 (String.eqb_neq _ _) He).
  - intros d' Hd Hd' E. rewrite !Execute_page in E. apply sapp_cancel in E.
    pose proof (same_error _ _ _ _ E) as Es. rewrite <- Es in E.
    destruct (seqb_spec (pd_Error d) "") as [He|He]; cbn [negb] in E.
    + symmetry in Es. apply String.eqb_eq in Es. split; [congruence|]. intros _ f.
      apply template_reads in E; [|apply page_readable|done..].
      cbn [shows page_credentials] in E. repeat (apply Forall_cons in E as [? E]).
      destruct f; [cbn [field_value]; congruence|done..].
    + split; [|done]. apply template_reads in E; [|apply page_readable|done..].
      cbn [shows page_error] in E. by apply Forall_cons in E as [E _].
Qed.

(** ** Answers of the portal *)

Section Answers.
Context `{GoLib} `{PortalLib} `{XmlTables}.

Lemma portal_method m : m <> "" -> method_node portal_table m = [].
Proof. by destruct m. Qed.

Lemma home_match m : match_route portal_table m "/" = Some ((mkPattern "" [Subtree], PortalHome), []).
Proof.
  unfold match_route. change (path_segments "/") with ["/"]. cbv zeta.
  destruct (seqb_spec m "HEAD") as [->|_]; [reflexivity|].
  destruct (seqb_spec m "") as [->|Hm]; [reflexivity|]. by rewrite (portal_method m Hm).
Qed.

Lemma home_route r :
  EscapedPath (RURL r) = "/" -> RequestURI r <> "*" -> mux_route portal_table r = Handle PortalHome [].
Proof.
  intros Hp Hs. unfold mux_route. rewrite Hp, (proj2 (String.eqb_neq _ _) Hs). change (cleanPath "/") with "/".
  assert (slash_redirect portal_table (Method r) "/" = false) as Hr.
  { unfold slash_redirect. change (HasSuffix "/" "/") with true. by rewrite andb_false_r. }
  destruct (Method r =s "CONNECT"); cbn iota zeta; by rewrite Hr, home_match.
Qed.

Lemma serveHome_silent p r n : (serveHome p r n).1 = n \/ (Path (RURL r) = "/" /\ bearerToken r <> "").
Proof.
  unfold serveHome. destruct (seqb_spec (Path (RURL r)) "/") as [Hp|]; [|by left].
  destruct (seqb_spec (bearerToken r) "") as [|Hb]; [by left|by right].
Qed.

(** The response a page is sent as. *)
Lemma deliver_page st d :
  exists h, w_sent (deliver (Page st d)) = Some (st, h) /\ w_body (deliver (Page st d)) = Execute page d /\
    (st = 200%Z -> HGet h "Cache-Control" = "no-store") /\ (st <> 200%Z -> h = ∅).
Proof.
  unfold deliver. destruct (Z.eqb_spec st 200) as [->|Hst].
  - eexists. split_and!; [reflexivity|reflexivity| |done]. intros _. reflexivity.
  - eexists. split_and!; [reflexivity|reflexivity|done|done].
Qed.

(** C26: What the portal answers.  A request for the home page is answered by
    the page [serveHome] chose, with its status; the STS endpoint is contacted
    for no other path and never without a token.  A page with credentials is
    sent with Cache-Control no-store; an error page is sent without it, since
    its status is written before the headers are set. *)
Theorem portal_answers p r n :
  (EscapedPath (RURL r) = "/" -> RequestURI r <> "*" ->
     portal_handler p r n = ((serveHome p r n).1, Written (deliver (serveHome p r n).2))) /\
  ((portal_handler p r n).1 = n \/ (Path (RURL r) = "/" /\ bearerToken r <> "")) /\
  (forall st d, (serveHome p r n).2 = Page st d ->
     let w := deliver (serveHome p r n).2 in
     exists h, w_sent w = Some (st, h) /\ w_body w = Execute page d /\
       (st = 200%Z -> HGet h "Cache-Control" = "no-store") /\
       (st <> 200%Z -> HGet h "Cache-Control" = "")).
Proof.
  split_and!.
  - intros Hp Hs. unfold portal_handler. rewrite home_route by done. by destruct (serveHome p r n).
  - unfold portal_handler. destruct (mux_route portal_table r) as [[] ?| | | |]; try by left.
    pose proof (serveHome_silent p r n) as Hs. by destruct (serveHome p r n).
  - intros st d ->. destruct (deliver_page st d) as (h & Hw1 & H2 & H3 & H4). exists h. split_and!; [done..|].
    intros Hst. by rewrite (H4 Hst).
Qed.

End Answers.

(** ** Examples *)

Section Examples.
#[local] Existing Instance ascii_lib.
Import DemoPortal.

Example escaped_sample : htmlEscaper "a<b>'+&" = "a&lt;b&gt;&#39;&#43;&amp;".
Proof. reflexivity. Qed.

(** A page of the demo endpoint, served through the mux. *)
Example portal_served :
  exists w, portal_handler sample_portal (home "alice" "eyJ") 0%nat = (1%nat, Written w) /\
    (fst <$> w_sent w) = Some 200%Z /\ HGet (default ∅ (snd <$> w_sent w)) "Cache-Control" = "no-store".
Proof. eexists. split; [vm_compute; reflexivity|]. split; reflexivity. Qed.

Example portal_signed_out :
  exists w, portal_handler sample_portal (home "alice" "") 0%nat = (0%nat, Written w) /\
    (fst <$> w_sent w) = Some 401%Z /\ HGet (default ∅ (snd <$> w_sent w)) "Cache-Control" = "".
Proof. eexists. split; [vm_compute; reflexivity|]. split; reflexivity. Qed.

End Examples.
