(* ===== verification/PortalProxy.v ===== *)
(** * The portal in front of the proxy

    The two programs composed: the portal's HTTP client is answered by the
    proxy's main handler, so what the browser's page shows is compared with
    what the exchange put in the credential store.  The transport between them
    is the function [arrive], from the body the portal posts to the request the
    proxy reads. *)

From Stdlib Require Import Ascii String ZArith NArith Bool Lia.
From stdpp Require Import base tactics list strings gmap.
From S2P Require Import Prelude GoStrings GoTime GoHttp GoXml GoXmlDecode Sigv4 Store Forward Config Oidc Sts Metrics Server Lanes System DeviceLogin Portal.

(** ** The documents, decoded *)

(** Printable ASCII is read as it is. *)
Definition printable (c : ascii) : bool := ((32 <=? code c) && (code c <? 127))%N.

Lemma clean_printable s : sall printable s = true -> clean s = s.
Proof.
  intros Hs. apply clean_id. unfold xml_text. induction s as [|c s IH]; [done|]. cbn [sall] in Hs.
  apply andb_true_iff in Hs as [Hc Hs]. cbn [xml_text_go].
  assert ((code c <? 128)%N = true /\ (code c <? 32)%N = false /\ (code c =? 239)%N = false) as (H1 & H2 & H3).
  { assert (implb (printable c) ((code c <? 128)%N && negb (code c <? 32)%N && negb (code c =? 239)%N) = true) as Hb by by_bytes c.
    rewrite Hc in Hb. by destruct (code c <? 128)%N, (code c <? 32)%N, (code c =? 239)%N. }
  assert (rune_width (String c s) = 1%nat) as -> by (unfold rune_width; by rewrite H1).
  assert (outside_xml_range (String c s) = false) as ->; [|by apply IH].
  unfold outside_xml_range. rewrite H2, H3. by destruct s as [|? [|? ?]].
Qed.

(** [io.LimitReader] leaves what is within the limit. *)
Lemma limit_all n s : (N.of_nat (String.length s) <= n)%N -> limit n s = s.
Proof.
  revert n. induction s as [|c s IH]; intros n Hn; [done|]. cbn [limit String.length] in *.
  destruct (N.eqb_spec n 0); [lia|]. rewrite IH by lia. done.
Qed.

Lemma rfc3339_printable t : sall printable (Format_rfc3339 t) = true.
Proof.
  assert (forall n z, sall printable (digits n z) = true) as Hd.
  { intros. eapply sall_impl; [|apply sall_digits]. intros c Hc.
    assert (implb (is_digit c) (printable c) = true) as Hb by by_bytes c. by rewrite Hc in Hb. }
  assert (forall x n, sall printable (append_int x n) = true) as Ha.
  { intros. unfold append_int. destruct (x <? 0)%Z; [cbn [sall]|]; by rewrite Hd. }
  unfold Format_rfc3339. by rewrite !sall_app, !Ha.
Qed.

Lemma minted_printable c u i t : minted c u i t ->
  clean (cr_AccessKeyID c) = cr_AccessKeyID c /\ clean (cr_SecretAccessKey c) = cr_SecretAccessKey c /\
  clean (cr_SessionToken c) = cr_SessionToken c.
Proof.
  intros [(k & -> & _ & Hk) [_ Hs] [_ Ht] _ _ _].
  assert (forall b, is_base64url b = true -> printable b = true) as Hb64.
  { intros b E. assert (implb (is_base64url b) (printable b) = true) as Hb by by_bytes b. by rewrite E in Hb. }
  assert (forall b, is_crockford b = true -> printable b = true) as Hcr.
  { intros b E. assert (implb (is_crockford b) (printable b) = true) as Hb by by_bytes b. by rewrite E in Hb. }
  split_and!; apply clean_printable; [rewrite sall_app; change (sall printable akidPrefix) with true; cbn [andb]|..];
    (eapply sall_impl; [|eassumption]; assumption).
Qed.

(** What the page gets of a record. *)
Definition shown_credentials (c : Credentials) (subject : string) : stsCredentials :=
  mkStsCredentials (cr_AccessKeyID c) (cr_SecretAccessKey c) (cr_SessionToken c) (Format_rfc3339 (cr_ExpiresAt c)) (clean subject).

Section Documents.
Context `{XmlTables}.

Lemma success_decodes d u i t : minted (sd_Creds d) u i t ->
  xml_Credentials (body (writeSuccess d)) = Some (shown_credentials (sd_Creds d) (sd_Subject d)).
Proof.
  intros Hm. unfold xml_Credentials, writeSuccess, writeXML, assumeRoleResponse. cbn [body].
  rewrite Unmarshal_written by reflexivity. destruct (minted_printable _ _ _ _ Hm) as (E1 & E2 & E3).
  transitivity (Some (mkStsCredentials (clean (cr_AccessKeyID (sd_Creds d))) (clean (cr_SecretAccessKey (sd_Creds d)))
    (clean (cr_SessionToken (sd_Creds d))) (clean (Format_rfc3339 (cr_ExpiresAt (sd_Creds d)))) (clean (sd_Subject d)))); [reflexivity|].
  by rewrite E1, E2, E3, (clean_printable _ (rfc3339_printable _)).
Qed.

Lemma error_decodes st errcode msg reqID : sall printable errcode = true -> sall printable msg = true ->
  xml_Error (body (writeError st errcode msg reqID)) = mkStsError errcode msg.
Proof.
  intros Hc Hm. unfold xml_Error, writeError, writeXML, errorResponse. cbn [body]. rewrite Unmarshal_written by reflexivity.
  transitivity (mkStsError (clean errcode) (clean msg)); [reflexivity|]. by rewrite !clean_printable.
Qed.

End Documents.

(** ** The exchange, once its parameters are read *)

Section Exchange.
Context `{GoLib} {V S : Type} `{TokenValidator V} `{!Store S}.

(** What a client is told of a token the validator refuses. *)
Definition token_refusal (e : oidcerr) : refusal :=
  match e with
  | ErrTokenExpired => Refuse 400 "ExpiredTokenException" "web identity token is expired"
  | ErrIssuerUnavailable => Refuse 400 "IDPCommunicationError" "could not reach the identity provider"
  | ErrUnknownIssuer => Refuse 400 "InvalidIdentityToken" "token issuer is not trusted"
  | ErrBadUsername => Refuse 400 "InvalidIdentityToken" "token username is not acceptable"
  | ErrTokenInvalid => Refuse 400 "InvalidIdentityToken" "web identity token could not be validated"
  end.

(** Why an exchange whose parameters were read is refused, what is answered,
    and the store it leaves: the one it found, or, of the record minted for the
    token's user, the one its failing [Put] left. *)
Inductive turned_away (cfg : STS) (now : Clock) (p : params) (v : V) (s : S) : refusal -> S -> Prop :=
  | away_token v' e : Validate now (token p) v = (v', Err e) -> turned_away cfg now p v s (token_refusal e) s
  | away_lifetime v' id :
      Validate now (token p) v = (v', Ok id) ->
      (effective_ttl (id_Expiry id) (now 3%nat) (MaxDuration cfg) (requested p) <= 0)%Z ->
      turned_away cfg now p v s (Refuse 400 "ExpiredTokenException" "web identity token is expired") s
  | away_entropy v' id :
      Validate now (token p) v = (v', Ok id) ->
      turned_away cfg now p v s (Refuse 500 "ServiceFailure" "credential minting failed") s
  | away_store v' id c err s' :
      Validate now (token p) v = (v', Ok id) -> minted c (id_Username id) (id_IssuerName id) (cr_ExpiresAt c) ->
      Put (now 4%nat) c s = (s', Some err) ->
      turned_away cfg now p v s (Refuse 500 "ServiceFailure" "credential store unavailable") s'.

(** Every refusal is told in printable text, with an error status. *)
Lemma away_printable cfg now p v s rf s' : turned_away cfg now p v s rf s' ->
  rf_status rf <> 200%Z /\ rf_code rf <> "" /\ sall printable (rf_code rf) = true /\ sall printable (rf_message rf) = true.
Proof. intros [v' e _| | |]; [destruct e|..]; done. Qed.

Lemma exchange_or_away cfg now rand r (v : V) (s : S) p :
  fills rand -> read_params cfg r = Ok p ->
  let o := ServeHTTP cfg now rand r v s in
  (exists id c, exchanged cfg now rand r v s o p id c) \/
  (exists rf, turned_away cfg now p v s rf (o_store o) /\
              o_response o = writeError (rf_status rf) (rf_code rf) (rf_message rf) (Sts.newRequestID (rand 0 16))).
Proof.
  intros Hf Hp. cbv zeta. pose proof (ServeHTTP_cases cfg now rand r v s) as Hc. cbv zeta in Hc.
  destruct Hc as [(p' & id & c & He)|(rf & Hd)].
  { left. pose proof (ex_params _ _ _ _ _ _ _ _ _ _ He) as Hp'. assert (p' = p) as -> by congruence. eauto. }
  right. unfold ServeHTTP in *. rewrite Hp in *.
  destruct (Validate now (token p) v) as [v' [id|e]] eqn:Ev.
  2:{ exists (token_refusal e). split; [by destruct e; eapply away_token|by destruct e]. }
  destruct (Z.leb_spec (effective_ttl (id_Expiry id) (now 3) (MaxDuration cfg) (requested p)) 0) as [Hl|Hl].
  { eexists. split; [by eapply away_lifetime|done]. }
  destruct (Mint rand 1 _ _ _) as [c|] eqn:Em; [|eexists; split; [by eapply away_entropy|done]].
  destruct (Put (now 4) c s) as [s' [err|]] eqn:Eput.
  { eexists. split; [|done]. eapply away_store; [done| |exact Eput]. apply (Mint_minted _ _ _ _ _ _ Hf) in Em.
    by rewrite (minted_expiry _ _ _ _ Em). }
  exfalso. destruct Hd as [Hst _ Hr _ _]. cbn [o_response] in Hr. apply (f_equal status) in Hr. cbn in Hr. rewrite <- Hr in Hst.
  repeat (apply elem_of_cons in Hst as [?|Hst]; [done|]). by apply not_elem_of_nil in Hst.
Qed.

End Exchange.

(** ** The composed system *)

Section Wire.
Context `{GoLib} `{XmlTables} {V S : Type} `{TokenValidator V} `{!Store S}.
Context (gateway : Request -> upstream_result) (now : Clock) (rand : Entropy) (arrive : string -> Request).

(** The portal's POST, answered by the proxy. *)
#[local] Instance wire : PortalLib := {|
  Net := @Server V S;
  post := fun _ form s =>
    let rp := serve gateway now rand (arrive form) s in (after rp, Some (status (resp rp), Some (body (resp rp))))
|}.

(** The portal is reached with a token, at its home page, and is configured
    with a role the proxy allows. *)
Record signed_in (p : portal) (r : Request) (s : @Server V S) : Prop := {
  si_home : Path (RURL r) = "/";
  si_endpoint : url_Parse (stsEndpoint p +:+ "/") <> None;
  si_token : bearerToken r <> "";
  si_role : p_roleArn p <> "";
  si_allowed : RoleARNAllowlist (cfg_STS (cfg s)) = [] \/ In (p_roleArn p) (RoleARNAllowlist (cfg_STS (cfg s)))
}.

Definition home_form (p : portal) (r : Request) : string := VEncode (portal_form p (portal_sessionName r) (bearerToken r)).

(** The page of the credentials [c]. *)
Definition delivered (p : portal) (r : Request) (c : Credentials) (subject : string) : shown :=
  Page 200 (mkPage (portal_sessionName r) (publicEndpoint p) (shown_credentials c subject) (Format_rfc3339 (cr_ExpiresAt c)) "").

Definition rejected (rf : refusal) : shown :=
  Page 502 (error_page ("The token exchange was rejected (" +:+ rf_code rf +:+ "): " +:+ rf_message rf)).

(** What the STS lane answers to the portal's form. *)
Lemma wire_exchange p r s :
  (forall form, posted form (arrive form)) -> signed_in p r s ->
  (N.of_nat (String.length (home_form p r)) <= maxSTSBodyBytes)%N ->
  let rp := serve gateway now rand (arrive (home_form p r)) s in
  exists o rq,
    store (after rp) = o_store o /\ validator (after rp) = o_validator o /\ resp rp = o_response o /\
    read_params (cfg_STS (cfg s)) rq = Ok (mkParams (bearerToken r) (p_roleArn p) (portal_sessionName r) 0) /\
    o = ServeHTTP (cfg_STS (cfg s)) (later 1 now) (later_rand 1 rand) rq (validator s) (store s).
Proof.
  intros Hpost [Hh He Ht Hr Ha] Hlen. cbv zeta.
  destruct (posted_params p r (arrive (home_form p r)) (cfg_STS (cfg s)) (Hpost _) Ht Hr Ha) as [Hs Hp].
  unfold serve, serveSTS. rewrite Hs. cbn [resp timed after].
  assert (with_body (arrive (home_form p r)) (MaxBytesReader maxSTSBodyBytes (Body (arrive (home_form p r)))) = arrive (home_form p r)) as ->.
  { rewrite (posted_body _ _ (Hpost (home_form p r))). unfold MaxBytesReader. rewrite (proj2 (N.leb_le _ _) Hlen).
    pose proof (posted_body _ _ (Hpost (home_form p r))) as Hb. destruct (arrive _). cbn in *. by rewrite Hb. }
  eexists _, (arrive (home_form p r)). split_and!; [..|exact Hp|reflexivity]; reflexivity.
Qed.

(** The page the portal makes of an answer. *)
Definition answer_page (p : portal) (r : Request) (a : Response) : shown :=
  if negb (status a =? 200)%Z then
    let e := xml_Error (body a) in
    Page 502 (error_page ("The token exchange was rejected (" +:+ portal_orUnknown (Code e) +:+ "): " +:+ Message e))
  else match xml_Credentials (body a) with
  | None => portal_fail "the STS response could not be parsed"
  | Some creds =>
      if AccessKeyID creds =s "" then portal_fail "the STS response could not be parsed"
      else Page 200 (mkPage (portal_sessionName r) (publicEndpoint p) creds (Expiration creds) "")
  end.

Lemma wire_page p r s :
  signed_in p r s ->
  let rp := serve gateway now rand (arrive (home_form p r)) s in
  (N.of_nat (String.length (body (resp rp))) <= 1048576)%N ->
  serveHome p r s = (after rp, answer_page p r (resp rp)).
Proof.
  intros [Hh He Ht _ _]. set (rp := serve _ _ _ _ s). cbv zeta. intros Hbody.
  unfold serveHome, answer_page. rewrite Hh. cbn [String.eqb negb].
  destruct (url_Parse _); [|done]. destruct (seqb_spec (bearerToken r) ""); [done|]. cbn [post wire Net]. cbv zeta.
  fold (home_form p r). fold rp. rewrite limit_all by done.
  destruct (negb (status (resp rp) =? 200)%Z); [done|]. destruct (xml_Credentials _) as [creds|]; [|done]. by destruct (AccessKeyID creds =s "").
Qed.

(** C35: The portal delivers what the proxy minted.  When a signed-in browser
    asks for its page, either the token was accepted, the exchange stored
    exactly one record for its user, and the page (200) shows that record's
    access key, secret, session token and expiry to the letter; or the exchange
    was refused for one of four reasons ([turned_away]: the token, its lifetime,
    the entropy, the store), the store is the one the portal found, unless it
    itself reported a failure to write the record minted for the user, and the
    page is a 502 with the code and the message of exactly that refusal, as the
    proxy answered it.  Form and answer are within their limits of 1 MiB. *)
Theorem portal_delivers_minted p r s :
  (forall form, posted form (arrive form)) -> fills rand -> signed_in p r s ->
  (N.of_nat (String.length (home_form p r)) <= maxSTSBodyBytes)%N ->
  let rp := serve gateway now rand (arrive (home_form p r)) s in
  (N.of_nat (String.length (body (resp rp))) <= 1048576)%N ->
  (exists id c,
     Validate (later 1 now) (bearerToken r) (validator s) = (validator (after rp), Ok id) /\
     Put (now 5%nat) c (store s) = (store (after rp), None) /\
     minted c (id_Username id) (id_IssuerName id) (cr_ExpiresAt c) /\
     (now 4%nat < cr_ExpiresAt c <= id_Expiry id)%Z /\
     serveHome p r s = (after rp, delivered p r c (id_Subject id))) \/
  (exists rf,
     turned_away (cfg_STS (cfg s)) (later 1 now) (mkParams (bearerToken r) (p_roleArn p) (portal_sessionName r) 0)
       (validator s) (store s) rf (store (after rp)) /\
     resp rp = writeError (rf_status rf) (rf_code rf) (rf_message rf) (Sts.newRequestID (rand 1%nat 16%nat)) /\
     serveHome p r s = (after rp, rejected rf)).
Proof.
  intros Hpost Hf Hin Hlen. cbv zeta. intros Hbody.
  destruct (wire_exchange p r s Hpost Hin Hlen) as (o & rq & Es & Ev & Er & Hp & Eo).
  assert (fills (later_rand 1 rand)) as Hf' by (intros i n b Hb; by apply (Hf (1 + i)%nat)).
  assert (serveHome p r s = (after (serve gateway now rand (arrive (home_form p r)) s), answer_page p r (o_response o))) as Hpage.
  { rewrite <- Er. by apply wire_page. }
  pose proof (exchange_or_away _ (later 1 now) (later_rand 1 rand) rq (validator s) (store s) _ Hf' Hp) as Hc. cbv zeta in Hc.
  rewrite <- Eo in Hc. rewrite Es, Ev. destruct Hc as [(id & c & Hx)|(rf & Haway & Hrf)].
  - left. exists id, c. destruct (exchanged_expiry _ _ _ _ _ _ _ _ _ _ Hx Hf') as (Hmint & Hexp & _).
    pose proof Hmint as Hmint'. apply minted_self in Hmint'.
    rewrite (minted_username _ _ _ _ Hmint), (minted_issuer _ _ _ _ Hmint) in Hmint'.
    destruct Hx as [_ Htok _ _ Hput Hresp _]. split_and!; try done; [apply Hexp..|]. rewrite Hpage. f_equal. unfold answer_page. rewrite Hresp.
    pose proof (success_decodes (mkSuccess (id_Subject id) (id_IssuerURL id) (p_roleArn p) (portal_sessionName r) c
      (Sts.newRequestID (later_rand 1 rand 0 16))) _ _ _ Hmint') as Hd.
    cbn [sd_Creds sd_Subject] in Hd. cbn [status writeSuccess writeXML roleArn sessionName] in *. cbn [Z.eqb Pos.eqb negb]. rewrite Hd.
    destruct (minted_akid _ _ _ _ Hmint') as (k & Hk & _). cbn [AccessKeyID Expiration shown_credentials].
    destruct (seqb_spec (cr_AccessKeyID c) "") as [E|_]; [by rewrite Hk in E|done].
  - right. exists rf. destruct (away_printable _ _ _ _ _ _ _ Haway) as (Hst & Hne & Hc & Hm).
    split_and!; [exact Haway|by rewrite Er|]. rewrite Hpage. f_equal. unfold answer_page. rewrite Hrf. cbn [status writeError writeXML].
    rewrite (error_decodes (rf_status rf)) by done. cbn [Code Message]. rewrite (proj2 (Z.eqb_neq _ _) Hst).
    unfold rejected, portal_orUnknown. by destruct (seqb_spec (rf_code rf) "").
Qed.

End Wire.

(** ** A browser session *)

Section Witnesses.
Import DemoServer DemoPortal.

Definition demo_subject : string := "0f9c".
Definition demo_portal : portal := mkPortal "http://proxy:9000" "arn:aws:iam::1:role/r" "http://localhost:9000".

Lemma arrives form : posted form (sts_post form).
Proof. by split. Qed.

Lemma demo_signed_in : signed_in demo_portal (home "alice" raw) demo_new.
Proof. split; try (vm_compute; discriminate); [reflexivity|by left]. Qed.

Lemma portal_delivers_minted_witness :
  exists s' c, (@serveHome _ (wire gateway now zero_entropy sts_post) _ demo_portal (home "alice" raw) demo_new) =
    (s', delivered demo_portal (home "alice" raw) c demo_subject) /\ Memory.Get (cr_AccessKeyID c) (store s') = Some c.
Proof.
  assert (N.of_nat (String.length (home_form demo_portal (home "alice" raw))) <= maxSTSBodyBytes)%N as Hlen
    by (vm_compute; discriminate).
  assert (N.of_nat (String.length (body (resp (serve gateway now zero_entropy (sts_post (home_form demo_portal (home "alice" raw))) demo_new)))) <= 1048576)%N as Hbody
    by (vm_compute; discriminate).
  destruct (portal_delivers_minted gateway now zero_entropy sts_post demo_portal (home "alice" raw) demo_new
    arrives zero_entropy_fills demo_signed_in Hlen Hbody)
    as [(id & c & Hv & Hput & _ & _ & Hpage)|(rf & _ & _ & Hpage)].
  - eexists _, c. split.
    + rewrite Hpage. do 2 f_equal.
      assert (match (Validate (later 1 now) (bearerToken (home "alice" raw)) (validator demo_new)).2 with Ok i => id_Subject i | Err _ => "" end = demo_subject) as Hid
        by (vm_compute; reflexivity).
      rewrite Hv in Hid. cbn [snd] in Hid. exact Hid.
    + pose proof (f_equal fst Hput) as Hst. cbn [fst] in Hst. rewrite <- Hst. apply lookup_insert_eq.
  - exfalso. apply (f_equal (fun o => match o.2 with Page st _ => st | NotFound => 0%Z end)) in Hpage. vm_compute in Hpage. discriminate.
Defined.

End Witnesses.
