(* ===== verification/Main.v ===== *)
(** * Command proxy

    Models cmd/proxy/main.go and [config.Load]: where the configuration comes
    from, which store it selects, and how validator and server are built from
    it.  The file system, the environment, the YAML decoder and the connection
    to valkey are arguments.  The store behind the interface is one of the two
    implementations; [backing_store] is the dynamic dispatch. *)

From Stdlib Require Import Ascii String ZArith NArith Bool Lia.
From stdpp Require Import base tactics list strings gmap.
From S2P Require Import Prelude GoStrings GoTime GoFlag GoHttp Config Oidc Store Metrics Server Valkey.

Definition envOr (getenv : string -> string) (key fallback : string) : string :=
  let v := getenv key in if v <>s "" then v else fallback.

(** The one flag [main] declares. *)
Definition proxy_formal (getenv : string -> string) : flagset :=
  [("config", VString (envOr getenv "OZPX_CONFIG" "/etc/ozone-oidc-proxy/config.yaml"))].

(** Why the command exits before it listens. *)
Inductive startup_error :=
| BadCommandLine (e : flag_error)
| ConfigRejected (e : cfgerr)
| StoreInitFailed (msg : string)
| ServerInitFailed.

Section Main.
Context `{GoLib} `{Jwx} `{ValkeyLib}.

(** The dynamic type of the [store.Store] value. *)
Inductive backing :=
| OnMemory (m : Memory.t)
| OnValkey (v : Valkey.Valkey) (c : Client).

Definition on_valkey {R} (v : Valkey.Valkey) (x : Client * R) : backing * R := (OnValkey v x.1, x.2).
Definition on_memory {R} (x : Memory.t * R) : backing * R := (OnMemory x.1, x.2).

Definition backing_store (nonce : option string) (fuel : nat) : Store backing := {|
  Put now c b := match b with
    | OnMemory m => on_memory (Put now c m)
    | OnValkey v s => on_valkey v (vk_Put v nonce now c s) end;
  Get now k b := match b with
    | OnMemory m => on_memory (Get now k m)
    | OnValkey v s => on_valkey v (vk_Get v now k s) end;
  Delete now k b := match b with
    | OnMemory m => on_memory (Delete now k m)
    | OnValkey v s => on_valkey v (vk_Delete now k s) end;
  Count now b := match b with
    | OnMemory m => Count now m
    | OnValkey v s => default (Err "scan did not end") (vk_Count fuel s) end
|}.

(** [Load] *)
Definition Load (readFile : string -> option string) (yaml : string -> option Config)
    (getenv : string -> string) (path : string) : res cfgerr Config :=
  match readFile path with
  | None => Err (Wraps "read config: ")
  | Some raw => Parse yaml getenv raw
  end.

(** [newStore]; [dial] is [valkey.NewClient]. *)
Definition newStore (getenv : string -> string) (dial : string -> option Client) (c : Config)
    : res string backing :=
  if Type_ (cfg_CredentialStore c) =s StoreValkey then
    let vk := Config.Valkey (cfg_CredentialStore c) in
    let raw := getenv (KeyEnv vk) in
    if raw =s "" then
      Err ("credential_store.type " +:+ quote StoreValkey +:+ " requires the " +:+ KeyEnv vk
           +:+ " environment variable (32-byte base64 key)")
    else match ParseStoreKey raw with
    | Err e => Err (KeyEnv vk +:+ ": " +:+ e)
    | Ok key => let? vc := NewValkey (Addr vk) key (dial (Addr vk)) [] in Ok (OnValkey vc.1 vc.2)
    end
  else Ok (OnMemory Memory.NewMemory).

(** [main] up to the listeners. *)
Definition main_start (readFile : string -> option string) (yaml : string -> option Config)
    (getenv : string -> string) (dial : string -> option Client) (e : Ext) (w : nat -> Duration) (args : list string)
    : res startup_error (Server (V := Validator) (S := backing)) :=
  match GoFlag.Parse (proxy_formal getenv) args with
  | Err err => Err (BadCommandLine err)
  | Ok (fs, _) =>
      let configPath := string_flag fs "config" in
      match Load readFile yaml getenv configPath with
      | Err err => Err (ConfigRejected err)
      | Ok cfg =>
          match newStore getenv dial cfg with
          | Err msg => Err (StoreInitFailed msg)
          | Ok st =>
              match Server.New cfg (Oidc.New cfg e) st w with
              | None => Err ServerInitFailed
              | Some s => Ok s
              end
          end
      end
  end.

(** ** The life of the process *)

(** The two listeners as [main] configures them. *)
Record httpServer := mkHttpServer { hs_Addr : string; hs_ReadHeaderTimeout : Duration; hs_IdleTimeout : Duration }.

Definition mainSrv (c : Config) : httpServer := mkHttpServer (Listen c) (15 * Second)%Z (2 * Minute)%Z.
Definition adminSrv (c : Config) : httpServer := mkHttpServer (AdminListen c) (5 * Second)%Z 0%Z.

(** What the [select] of [main] wakes up for: a signal, or the error a listener
    returned, with whether it is [http.ErrServerClosed]. *)
Inductive stop_event := SignalReceived | ListenerReturned (err : option string) (closed : bool).

Inductive log_line := LogInfo (msg : string) | LogError (msg err : string).

(** How the process ends: its exit code, what it logged, the servers it shut
    down in order, and whether the store was closed (an [os.Exit] skips the
    deferred call). *)
Record process_end := mkEnd {
  pe_code : Z;
  pe_log : list log_line;
  pe_shutdown : list httpServer;
  pe_store_closed : bool
}.

Definition stop_log (e : stop_event) : list log_line :=
  match e with
  | SignalReceived => [LogInfo "signal received, shutting down"]
  | ListenerReturned (Some err) false => [LogError "listener failed" err]
  | ListenerReturned _ _ => []
  end.

(** [main], given the event that ends it; [cfgerr_text] prints a configuration
    error. *)
Definition main_run (cfgerr_text : cfgerr -> string) (readFile : string -> option string) (yaml : string -> option Config)
    (getenv : string -> string) (dial : string -> option Client) (e : Ext) (w : nat -> Duration) (args : list string)
    (event : stop_event) : process_end :=
  match main_start readFile yaml getenv dial e w args with
  | Err (BadCommandLine err) => mkEnd (exit_status err) [] [] false
  | Err (ConfigRejected err) => mkEnd 1 [LogError "configuration rejected" (cfgerr_text err)] [] false
  | Err (StoreInitFailed msg) => mkEnd 1 [LogError "credential store init failed" msg] [] false
  | Err ServerInitFailed => mkEnd 1 [LogError "server init failed" ""] [] false
  | Ok s =>
      mkEnd 0 (LogInfo "ozone-oidc-proxy started" :: stop_log event) [mainSrv (cfg s); adminSrv (cfg s)] true
  end.

(** ** What starting up establishes *)

(** The store a configuration asks for: memory, or valkey with a key of 32
    bytes from the environment and an established connection. *)
Inductive configured_store (getenv : string -> string) (dial : string -> option Client) (c : Config) : backing -> Prop :=
| configured_memory :
    Type_ (cfg_CredentialStore c) = StoreMemory ->
    configured_store getenv dial c (OnMemory Memory.NewMemory)
| configured_valkey key client :
    Type_ (cfg_CredentialStore c) = StoreValkey ->
    StdDecode (getenv (KeyEnv (Config.Valkey (cfg_CredentialStore c)))) = Some key ->
    String.length key = StoreKeyBytes ->
    dial (Addr (Config.Valkey (cfg_CredentialStore c))) = Some client ->
    configured_store getenv dial c (OnValkey (mkValkey key Hour (10 * Second)%Z) client).

Lemma ParseStoreKey_Ok raw key :
  ParseStoreKey raw = Ok key <-> StdDecode raw = Some key /\ String.length key = StoreKeyBytes.
Proof.
  unfold ParseStoreKey. destruct (StdDecode raw) as [k|]; [|naive_solver].
  destruct (Nat.eqb_spec (String.length k) StoreKeyBytes); cbn [negb]; naive_solver.
Qed.

Lemma newStore_Ok getenv dial c st :
  valid_config c -> newStore getenv dial c = Ok st <-> configured_store getenv dial c st.
Proof.
  intros Hc. unfold newStore. pose proof (valid_store c Hc) as Ht. split.
  - destruct (seqb_spec (Type_ (cfg_CredentialStore c)) StoreValkey) as [Ev|Ev].
    + destruct (_ =s ""); [done|]. destruct (ParseStoreKey _) as [key|] eqn:Ek; [|done].
      apply ParseStoreKey_Ok in Ek as [Ek El]. unfold NewValkey, newAEAD. rewrite El. cbn.
      destruct (dial _) as [client|] eqn:Ed; [|done]. cbn. intros [= <-]. by econstructor.
    + intros [= <-]. apply configured_memory. by destruct Ht as [?|[? _]].
  - intros [Em|key client Ev Ek El Ed].
    + by rewrite Em.
    + rewrite Ev. change (StoreValkey =s StoreValkey) with true. cbn iota. cbv zeta.
      destruct (seqb_spec (getenv (KeyEnv (Config.Valkey (cfg_CredentialStore c)))) "") as [E|_].
      { rewrite E in Ek. vm_compute in Ek. injection Ek as <-. discriminate El. }
      rewrite (proj2 (ParseStoreKey_Ok _ _) (conj Ek El)). unfold NewValkey, newAEAD.
      by rewrite El, Ed.
Qed.

Lemma New_usable c (v : Validator) (st : backing) w :
  valid_config c -> exists t, url_Parse (S3Endpoint (cfg_Upstream c)) = Some t /\
    UHost t <> "" /\ Server.New c v st w = Some (mkServer c v st t (newMetrics w)).
Proof.
  intros Hc. destruct (valid_endpoint c Hc) as [_ (u & Hu & _ & Hh)]. exists u.
  unfold Server.New. by rewrite Hu.
Qed.

(** What the arguments are: settings of [-config], the last one counting. *)
Definition config_path (getenv : string -> string) (sts : list setting) : string :=
  default (envOr getenv "OZPX_CONFIG" "/etc/ozone-oidc-proxy/config.yaml") (last_text sts "config").

(** C22: The command starts exactly when its arguments are settings of the one
    flag it declares, the configuration at the path they give (or else the
    environment, or else the default) loads, and the store that configuration
    asks for can be built; in particular a configuration that passed
    validation never fails later, in the server's constructor.  The server
    then holds that configuration, a validator with its issuers and that
    store, forwards to a host named by the configuration, and starts with
    zeroed metrics. *)
Theorem startup_exact readFile yaml getenv dial e w args :
  main_start readFile yaml getenv dial e w args <> Err ServerInitFailed /\
  forall s, main_start readFile yaml getenv dial e w args = Ok s <->
    exists fs sts c st t, command_line (proxy_formal getenv) args fs sts /\
      Load readFile yaml getenv (config_path getenv sts) = Ok c /\ configured_store getenv dial c st /\
      url_Parse (S3Endpoint (cfg_Upstream c)) = Some t /\ UHost t <> "" /\
      s = mkServer c (Oidc.New c e) st t (newMetrics w).
Proof.
  unfold main_start. assert (forall fs sts, command_line (proxy_formal getenv) args fs sts -> string_flag fs "config" = config_path getenv sts) as Hpath.
  { intros fs sts Hc. destruct Hc as [sts tail rest fs _ Ha]. by apply (string_flag_given (proxy_formal getenv) fs sts "config"). }
  pose proof (Parse_command_line (proxy_formal getenv) args eq_refl) as Hcl.
  destruct (GoFlag.Parse (proxy_formal getenv) args) as [[fs rest]|err] eqn:Ep.
  2:{ split; [done|]. intros s. split; [done|]. intros (fs & sts & _ & _ & _ & Hc & _). by destruct (Hcl fs sts). }
  destruct Hcl as [sts Hcl]. rewrite (Hpath fs sts Hcl).
  assert (forall fs' sts', command_line (proxy_formal getenv) args fs' sts' -> config_path getenv sts' = config_path getenv sts) as Huniq.
  { intros fs' sts' Hc. pose proof Hc as Hc'. apply command_line_Parse in Hc as [rest' Hc]; [|done].
    rewrite Hc in Ep. injection Ep as -> _. by rewrite <- (Hpath fs sts'), (Hpath fs sts). }
  destruct (Load readFile yaml getenv (config_path getenv sts)) as [c|err] eqn:El.
  2:{ split; [done|]. intros s. split; [done|]. intros (fs' & sts' & c' & _ & _ & Hc & Hl & _). rewrite (Huniq _ _ Hc) in Hl. congruence. }
  assert (valid_config c) as Hc.
  { unfold Load in El. destruct (readFile _); [|done]. by apply Parse_usable in El as [Hv _ _ _ _]. }
  pose proof (newStore_Ok getenv dial c) as Hs.
  destruct (newStore getenv dial c) as [st|msg].
  - destruct (New_usable c (Oidc.New c e) st w Hc) as (t & Ht & Hh & ->). split; [done|]. intros s. split.
    + intros [= <-]. exists fs, sts, c, st, t. split_and!; try done. by apply Hs.
    + intros (fs' & sts' & c' & st' & t' & Hc' & Hl & Hst & Ht' & _ & ->). rewrite (Huniq _ _ Hc'), El in Hl. injection Hl as <-.
      apply (Hs _ Hc) in Hst. congruence.
  - split; [done|]. intros s. split; [done|]. intros (fs' & sts' & c' & st' & _ & Hc' & Hl & Hst & _).
    rewrite (Huniq _ _ Hc'), El in Hl. injection Hl as <-. by apply (Hs _ Hc) in Hst.
Qed.

(** A process that started shuts both listeners down and closes its store
    whatever ended it, and exits 0: also after a listener failed.  One that
    did not start exits 1, or as package flag decides on its command line. *)
Theorem process_life text readFile yaml getenv dial e w args event :
  let r := main_run text readFile yaml getenv dial e w args event in
  (forall err, main_start readFile yaml getenv dial e w args = Err err ->
     pe_code r = (match err with BadCommandLine fe => exit_status fe | _ => 1 end)%Z /\ pe_shutdown r = []) /\
  (forall s, main_start readFile yaml getenv dial e w args = Ok s ->
     pe_code r = 0%Z /\ pe_shutdown r = [mainSrv (cfg s); adminSrv (cfg s)] /\ pe_store_closed r = true).
Proof.
  cbv zeta. unfold main_run. destruct (main_start _ _ _ _ _ _ _) as [s|[]]; cbn [pe_code pe_shutdown pe_store_closed];
    (split; [intros err [= <-]|intros s' [= <-]]); done.
Qed.

End Main.

(** ** Examples *)

Section Examples.
#[local] Existing Instance ascii_lib.
Import DemoJwx DemoValkey.

(** [minimal_config] on a valkey store. *)
Definition shared_config : Config :=
  mkConfig (Listen minimal_config) (AdminListen minimal_config) (cfg_Upstream minimal_config)
    (cfg_DataPath minimal_config) (cfg_Issuers minimal_config) (cfg_STS minimal_config)
    (mkCredentialStore "valkey" (mkValkeyStore "valkey:6379" "")) (cfg_Security minimal_config)
    (cfg_UsernamePolicy minimal_config).

Definition boot (c : Config) (getenv : string -> string) : option startup_error :=
  match main_start (fun _ => Some "listen:") (fun _ => Some c) getenv (fun _ => Some vacant) (ext warm) (fun _ => 0%Z) ["--config"; "c.yaml"] with
  | Ok _ => None
  | Err e => Some e
  end.

Example boots_on_memory : boot minimal_config (fun _ => "") = None.
Proof. vm_compute. reflexivity. Qed.

Example valkey_needs_a_key : exists msg, boot shared_config (fun _ => "") = Some (StoreInitFailed msg).
Proof. eexists. vm_compute. reflexivity. Qed.

Example boots_on_valkey :
  boot shared_config (fun k => if k =s "OZPX_STORE_KEY" then StdEncode "0123456789abcdef0123456789abcdef" else "") = None.
Proof. vm_compute. reflexivity. Qed.

End Examples.
