(* ===== verification/Notice.v ===== *)
(** * Command gennotice

    Models hack/gennotice/main.go: the modules linked into the released
    binaries, the attribution file rendered from their NOTICE files, and the
    check that the committed file is current.  The [go] tool, the directories
    it names and [strings.ToUpper] are the record [toolchain]; the order in
    which a Go map is ranged over is an argument. *)

From Stdlib Require Import Ascii String ZArith NArith Bool Lia.
From stdpp Require Import base tactics list strings gmap sorting.
From S2P Require Import Prelude GoStrings GoFlag.

Definition rule : string :=
  "--------------------------------------------------------------------------------".

Definition nl : string := String (chr 10) "".

Fixpoint sconcat (l : list string) : string :=
  match l with
  | [] => ""
  | x :: l' => x +:+ sconcat l'
  end.

(** The text with the given lines, each ended by a newline. *)
Definition unlines (l : list string) : string := sconcat (map (fun x => x +:+ nl) l).

Definition platforms : list (string * string) :=
  [("linux", "amd64"); ("linux", "arm64"); ("darwin", "amd64"); ("darwin", "arm64")].

Definition header_lines : list string :=
  ["ozone-oidc-proxy"; "Copyright The ozone-oidc-proxy Authors"; "";
   "This product includes software developed by third parties, distributed under";
   "the Apache License, Version 2.0. The attribution notices of those components";
   "are reproduced below, as required by section 4(d) of that license."].

Definition header : string := unlines header_lines.

Record attribution := mkAttribution { module_ : string; name : string; text : string }.

#[export] Instance attribution_eq_dec : EqDecision attribution.
Proof. solve_decision. Defined.

Record toolchain := mkToolchain {
  go_list : string * string -> option string;              (* go list -deps for a platform *)
  go_module : option string;                               (* go list -m *)
  readDir : string -> option (list (string * bool));       (* names, and whether a directory *)
  readFile : string -> string -> option string;            (* a file of a directory *)
  toUpper : string -> string
}.

(** ** The operations *)

Definition selfPath (h : toolchain) : option string := TrimSpace <$> go_module h.

(** One line of [go list] into the map. *)
Definition add_module (self : string) (dirs : gmap string string) (line : string) : gmap string string :=
  let '(path, dir, ok) := Cut (chr 9) (TrimSpace line) in
  if negb ok || (path =s "") || (dir =s "") || (path =s self) then dirs else <[path := dir]> dirs.

Definition linkedModules (h : toolchain) : option (gmap string string) :=
  self ← selfPath h;
  foldl (fun acc p => dirs ← acc; out ← go_list h p;
           Some (fold_left (add_module self) (Split (chr 10) out) dirs)) (Some ∅) platforms.

(** The NOTICE files of one module. *)
Definition notices (h : toolchain) (module dir : string) : option (list attribution) :=
  entries ← readDir h dir;
  mapM (fun e => b ← readFile h dir (fst e); Some (mkAttribution module (fst e) (TrimRight (chr 10) b)))
    (List.filter (fun e => negb (snd e || negb (HasPrefix (toUpper h (fst e)) "NOTICE"))) entries).

(** The less-than of [sort.Slice], as its weak order. *)
Definition attr_le (a b : attribution) : Prop :=
  if decide (module_ a = module_ b) then String.le (name a) (name b) else String.le (module_ a) (module_ b).

#[export] Instance attr_le_dec : RelDecision attr_le.
Proof. unfold attr_le. intros a b. destruct (decide (module_ a = module_ b)); apply _. Defined.

(** [collect], ranging over the map in the order [mods]. *)
Definition collect (h : toolchain) (mods : list (string * string)) : option (list attribution) :=
  ls ← mapM (fun md => notices h (fst md) (snd md)) mods;
  Some (merge_sort attr_le (concat ls)).

Definition block (a : attribution) : string :=
  nl +:+ rule +:+ nl +:+ module_ a +:+ nl +:+ nl +:+ text a +:+ nl.

Definition render (attrs : list attribution) : string := header +:+ sconcat (map block attrs).

(** [headings]: the lines directly after a rule line. *)
Fixpoint headings_of (lines : list string) : list string :=
  match lines with
  | a :: ((b :: _) as rest) => if (a =s rule) && (b <>s "") then b :: headings_of rest else headings_of rest
  | _ => []
  end.

Definition headings (b : string) : gset string := list_to_set (headings_of (Split (chr 10) b)).

Definition describeDrift (got : string) (attrs : list attribution) : string :=
  let have := headings got in
  let want : gset string := list_to_set (map module_ attrs) in
  let added := merge_sort String.le (elements (want ∖ have)) in
  let dropped := merge_sort String.le (elements (have ∖ want)) in
  let lines := map (fun m => "  + " +:+ m +:+ " ships a NOTICE and is not attributed") added
    ++ map (fun m => "  - " +:+ m +:+ " is attributed but no longer linked, or no longer ships a NOTICE") dropped in
  match lines with
  | [] => "  the attributed modules match, so the upstream text itself changed"
  | _ => Join lines nl
  end.

(** How [run] ends. *)
Inductive verdict :=
| Regenerated
| Current
| Drifted (report : string)
| Failed.

(** [run]: [notice] is the file before; a write that fails leaves [torn]. *)
Definition run (h : toolchain) (range : gmap string string -> list (string * string))
    (torn : option (option string)) (check : bool) (notice : option string) : option string * verdict :=
  match linkedModules h with
  | None => (notice, Failed)
  | Some mods =>
    if (size mods <? 2)%nat then (notice, Failed)
    else match collect h (range mods) with
    | None => (notice, Failed)
    | Some [] => (notice, Failed)
    | Some attrs =>
      let want := render attrs in
      if negb check then
        match torn with
        | Some rest => (rest, Failed)
        | None => (Some want, Regenerated)
        end
      else match notice with
      | None => (notice, Failed)
      | Some got => if got =s want then (notice, Current) else (notice, Drifted (describeDrift got attrs))
      end
    end
  end.

(** [main]: the file afterwards, and the exit code. *)
Definition notice_main (h : toolchain) (range : gmap string string -> list (string * string))
    (torn : option (option string)) (check : bool) (notice : option string) : option string * Z :=
  let '(notice', v) := run h range torn check notice in
  (notice', match v with Regenerated | Current => 0 | Drifted _ | Failed => 1 end)%Z.

(** The flag [main] declares, and [main] from its arguments. *)
Definition notice_formal : flagset := [("check", VBool false)].

Definition notice_command (h : toolchain) (range : gmap string string -> list (string * string))
    (torn : option (option string)) (args : list string) (notice : option string) : option string * Z :=
  match GoFlag.Parse notice_formal args with
  | Err e => (notice, exit_status e)
  | Ok (fs, _) => notice_main h range torn (bool_flag fs "check") notice
  end.

(** ** The attributions do not depend on the order of the map *)

#[export] Instance attr_le_trans : Transitive attr_le.
Proof.
  intros a b c. unfold attr_le.
  destruct (decide (module_ a = module_ b)) as [Eab|Nab], (decide (module_ b = module_ c)) as [Ebc|Nbc];
    destruct (decide (module_ a = module_ c)) as [Eac|Nac]; try congruence; intros H1 H2.
  - by transitivity (name b).
  - destruct Nab. apply (anti_symm String.le); [done|]. by rewrite Eac.
  - by transitivity (module_ b).
Qed.

#[export] Instance attr_le_total : Total attr_le.
Proof.
  intros a b. unfold attr_le.
  destruct (decide (module_ a = module_ b)), (decide (module_ b = module_ a)); try congruence; apply (total String.le).
Qed.

Lemma attr_le_antisym a b : attr_le a b -> attr_le b a -> module_ a = module_ b /\ name a = name b.
Proof.
  unfold attr_le. destruct (decide (module_ a = module_ b)) as [E|N], (decide (module_ b = module_ a)); try congruence;
    intros H1 H2.
  - split; [done|]. by apply (anti_symm String.le).
  - destruct N. by apply (anti_symm String.le).
Qed.

Lemma mapM_all {A B} (f : A -> option B) d l k :
  mapM f l = Some k <-> Forall (fun x => is_Some (f x)) l /\ k = map (fun x => default d (f x)) l.
Proof.
  revert k. induction l as [|x l IH]; intros k.
  - cbn. split; [intros [= <-]; done|by intros [_ ->]].
  - cbn [mapM map]. rewrite Forall_cons. destruct (f x) as [y|] eqn:E; cbn.
    + destruct (mapM f l) as [k'|]; cbn.
      * destruct (proj1 (IH k') eq_refl) as [Hf ->]. split; [intros [= <-]; eauto|by intros [_ ->]].
      * split; [done|]. intros [[_ Hf] _]. discriminate (proj2 (IH _) (conj Hf eq_refl)).
    + split; [done|]. intros [[[y Hy] _] _]. done.
Qed.

Lemma mapM_permutation {A B} (f : A -> option B) l1 l2 k1 :
  l1 ≡ₚ l2 -> mapM f l1 = Some k1 -> exists k2, mapM f l2 = Some k2 /\ k1 ≡ₚ k2.
Proof.
  intros Hp Hk. destruct k1 as [|d k1].
  - destruct l1; [|by cbn in Hk; destruct (f a), (mapM f l1)]. apply Permutation_nil_l in Hp. subst l2. by exists [].
  - apply (mapM_all f d) in Hk as [Hf ->]. eexists. split.
    + apply (mapM_all f d). split; [by rewrite <- Hp|reflexivity].
    + by apply Permutation_map.
Qed.

(** An attribution is a NOTICE file of a linked module. *)
Lemma notices_text h m d l a :
  notices h m d = Some l -> a ∈ l ->
  module_ a = m /\ exists b, readFile h d (name a) = Some b /\ text a = TrimRight (chr 10) b.
Proof.
  unfold notices. destruct (readDir h d) as [es|]; [|done]. cbn. intros Hl Ha.
  apply mapM_Some_1 in Hl. apply list_elem_of_lookup in Ha as [i Hi].
  destruct (Forall2_lookup_r _ _ _ _ _ Hl Hi) as ([n b] & _ & He). cbn in He.
  destruct (readFile h d n) as [c|] eqn:Ec; [|done]. cbn in He. injection He as <-. cbn. eauto.
Qed.

Lemma collected_text h mods ls a :
  mapM (fun md => notices h (fst md) (snd md)) mods = Some ls -> a ∈ concat ls ->
  exists d b, (module_ a, d) ∈ mods /\ readFile h d (name a) = Some b /\ text a = TrimRight (chr 10) b.
Proof.
  intros Hl Ha. apply mapM_Some_1 in Hl. apply list_elem_of_In, in_concat in Ha as (l & Hin & Ha).
  apply list_elem_of_In, list_elem_of_lookup in Hin as [i Hi]. apply list_elem_of_In in Ha.
  destruct (Forall2_lookup_r _ _ _ _ _ Hl Hi) as ([m d] & Hm & Hn). cbn in Hn.
  destruct (notices_text _ _ _ _ _ Hn Ha) as (-> & b & Hb & Ht). exists d, b.
  split; [by eapply list_elem_of_lookup_2|done].
Qed.

Lemma collect_order h mods1 mods2 attrs :
  mods1 ≡ₚ mods2 -> (forall m d1 d2, (m, d1) ∈ mods1 -> (m, d2) ∈ mods1 -> d1 = d2) ->
  collect h mods1 = Some attrs -> collect h mods2 = Some attrs.
Proof.
  intros Hp Hnd. unfold collect. destruct (mapM _ mods1) as [ls1|] eqn:E1; [|done]. cbn. intros [= <-].
  destruct (mapM_permutation _ _ _ _ Hp E1) as (ls2 & E2 & Hls). rewrite E2. cbn. f_equal.
  assert (concat ls2 ≡ₚ concat ls1) as Hc by (by rewrite Hls).
  apply (Sorted_unique_strong attr_le).
  - intros x y Hx Hy Hxy Hyx. rewrite merge_sort_Permutation in Hx, Hy. rewrite Hc in Hx.
    destruct (attr_le_antisym _ _ Hxy Hyx) as [Em En].
    destruct (collected_text _ _ _ _ E1 Hx) as (d1 & b1 & Hd1 & Hb1 & Ht1).
    destruct (collected_text _ _ _ _ E1 Hy) as (d2 & b2 & Hd2 & Hb2 & Ht2).
    rewrite Em in Hd1. rewrite En in Hb1.
    assert (d1 = d2) as <- by eauto.
    destruct x, y. cbn in *. congruence.
  - apply Sorted_merge_sort, _.
  - apply Sorted_merge_sort, _.
  - by rewrite !merge_sort_Permutation.
Qed.

(** ** Reading the headings back *)

Lemma unlines_cons x l : unlines (x :: l) = x +:+ nl +:+ unlines l.
Proof. unfold unlines. cbn [map sconcat]. by rewrite sapp_assoc. Qed.

Lemma unlines_app l1 l2 : unlines (l1 ++ l2) = unlines l1 +:+ unlines l2.
Proof.
  induction l1 as [|x l1 IH]; [done|]. cbn [app]. by rewrite !unlines_cons, IH, !sapp_assoc.
Qed.

Lemma unlines_Join l : l <> [] -> unlines l = Join l nl +:+ nl.
Proof.
  unfold Join. induction l as [|x [|y l] IH]; [done|by rewrite unlines_cons|].
  intros _. rewrite unlines_cons, IH by done. cbn [String.concat]. by rewrite !sapp_assoc.
Qed.

Lemma Split_unlines l t :
  Forall (fun x => sfree (chr 10) x = true) l -> Split (chr 10) (unlines l +:+ t) = l ++ Split (chr 10) t.
Proof.
  induction 1 as [|x l Hx _ IH]; [done|]. rewrite unlines_cons, !sapp_assoc. unfold nl.
  rewrite sapp_cons, Split_app by done. cbn [app String.append]. by rewrite IH.
Qed.

(** The lines of one block. *)
Definition block_lines (a : attribution) : list string :=
  "" :: rule :: module_ a :: "" :: Split (chr 10) (text a).

Lemma Split_nonempty sep s : Split sep s <> [].
Proof.
  destruct s as [|c s]; [done|]. cbn [Split]. destruct (Ascii.eqb c sep); [done|]. by destruct (Split sep s).
Qed.

Lemma block_unlines a : block a = unlines (block_lines a).
Proof.
  unfold block, block_lines.
  change ("" :: rule :: module_ a :: "" :: Split (chr 10) (text a))
    with (["" ; rule; module_ a; ""] ++ Split (chr 10) (text a)).
  rewrite unlines_app, (unlines_Join (Split _ _)) by apply Split_nonempty.
  rewrite !unlines_cons, Join_Split. unfold unlines. cbn [map sconcat]. by rewrite !sapp_assoc.
Qed.

(** A module path is one non-empty line, and its text has no rule line. *)
Record well_formed (a : attribution) : Prop := {
  wf_module : module_ a <> "" /\ module_ a <> rule /\ sfree (chr 10) (module_ a) = true;
  wf_text : ~ In rule (Split (chr 10) (text a))
}.

Lemma headings_skip l1 l2 : ~ In rule l1 -> headings_of (l1 ++ l2) = headings_of l2.
Proof.
  induction l1 as [|x l1 IH]; [done|]. intros Hn. cbn [app].
  assert (x <> rule /\ ~ In rule l1) as [Hx Hl] by (cbn in Hn; tauto).
  assert (headings_of (x :: (l1 ++ l2)) = headings_of (l1 ++ l2)) as ->; [|by apply IH].
  cbn [headings_of]. destruct (l1 ++ l2); [done|]. by rewrite (proj2 (String.eqb_neq _ _) Hx).
Qed.

Lemma headings_block a rest : well_formed a -> headings_of (block_lines a ++ rest) = module_ a :: headings_of rest.
Proof.
  intros [(Hne & Hnr & _) Ht]. unfold block_lines.
  change (headings_of ((["" ] ++ (rule :: module_ a :: "" :: Split (chr 10) (text a))) ++ rest)
    = module_ a :: headings_of rest).
  rewrite <- app_assoc, headings_skip by (intros [E|[]]; discriminate E).
  cbn [app headings_of]. rewrite seqb_refl, (proj2 (String.eqb_neq _ _) Hne). cbn [andb negb]. f_equal.
  change (headings_of ((module_ a :: "" :: Split (chr 10) (text a)) ++ rest) = headings_of rest).
  apply headings_skip. intros [E|[E|E]]; [done|discriminate E|done].
Qed.

Lemma render_unlines attrs : render attrs = unlines (header_lines ++ concat (map block_lines attrs)).
Proof.
  unfold render. rewrite unlines_app. unfold header. f_equal.
  induction attrs as [|a attrs IH]; [done|]. cbn [map concat sconcat].
  rewrite unlines_app, <- block_unlines. f_equal. exact IH.
Qed.

Lemma headings_render_list attrs :
  Forall well_formed attrs -> headings_of (Split (chr 10) (render attrs)) = map module_ attrs.
Proof.
  intros Hw. rewrite render_unlines, <- (sapp_nil_r (unlines _)), Split_unlines.
  - rewrite <- app_assoc, headings_skip by (vm_compute; intuition discriminate).
    induction Hw as [|a attrs Ha _ IH]; [done|]. cbn [map concat]. rewrite <- app_assoc.
    by rewrite headings_block, IH.
  - apply Forall_app. split; [by repeat constructor|]. apply Forall_concat, Forall_map.
    eapply Forall_impl; [exact Hw|]. intros a [(_ & _ & Hm) _]. unfold block_lines.
    repeat (constructor; [done|]). apply Split_parts_free.
Qed.

Definition text_changed : string := "  the attributed modules match, so the upstream text itself changed".

Lemma drift_message_distinct x l :
  HasPrefix x "  + " = true \/ HasPrefix x "  - " = true -> Join (x :: l) nl <> text_changed.
Proof.
  assert (exists t, Join (x :: l) nl = x +:+ t) as [t Ht].
  { unfold Join. destruct l; cbn [String.concat]; [exists ""; by rewrite sapp_nil_r|eauto]. }
  rewrite Ht. intros [(u & ->)%HasPrefix_true|(u & ->)%HasPrefix_true] E; discriminate E.
Qed.

Lemma elements_sorted_nil (X : gset string) : merge_sort String.le (elements X) = [] <-> X ⊆ ∅.
Proof.
  split.
  - intros E x Hx. apply elem_of_elements in Hx. rewrite <- (merge_sort_Permutation String.le), E in Hx.
    by apply not_elem_of_nil in Hx.
  - intros HX. assert (X = ∅) as -> by (by apply set_eq_subseteq; split; [|apply empty_subseteq]).
    by rewrite elements_empty.
Qed.

Lemma drift_matches got attrs :
  describeDrift got attrs = text_changed <-> headings got = list_to_set (map module_ attrs).
Proof.
  unfold describeDrift. cbv zeta. set (have := headings got). set (want := list_to_set (map module_ attrs)).
  assert (have = want <-> merge_sort String.le (elements (want ∖ have)) = [] /\
                          merge_sort String.le (elements (have ∖ want)) = []) as Heq.
  { rewrite !elements_sorted_nil. split; [intros ->; set_solver|]. intros [H1 H2].
    apply set_eq. intros x. split; intros Hx.
    - destruct (decide (x ∈ want)); [done|]. exfalso. set_solver.
    - destruct (decide (x ∈ have)); [done|]. exfalso. set_solver. }
  rewrite Heq. destruct (merge_sort _ (elements (want ∖ have))) as [|a l]; cbn [map app].
  - destruct (merge_sort _ _) as [|b l']; cbn [map]; [done|].
    split; [|naive_solver]. intros E. exfalso. revert E. apply drift_message_distinct. by right.
  - split; [|naive_solver]. intros E. exfalso. revert E. apply drift_message_distinct. by left.
Qed.

(** The heading lines of a rendered file are exactly the modules it
    attributes, when every module path is a non-empty line and no upstream
    text contains a rule line; so the drift report says that only upstream
    text changed exactly when the committed file attributes the same modules
    as the current module graph. *)
Theorem headings_render attrs attrs' :
  Forall well_formed attrs ->
  headings (render attrs) = list_to_set (map module_ attrs) /\
  (describeDrift (render attrs) attrs' = text_changed <->
   (list_to_set (map module_ attrs) : gset string) = list_to_set (map module_ attrs')).
Proof.
  intros Hw. assert (headings (render attrs) = list_to_set (map module_ attrs)) as Hh.
  { unfold headings. by rewrite headings_render_list. }
  split; [done|]. by rewrite drift_matches, Hh.
Qed.

Lemma run_regenerated h range torn notice notice' :
  run h range torn false notice = (notice', Regenerated) ->
  forall range' torn', (forall m, range m ≡ₚ map_to_list m) -> (forall m, range' m ≡ₚ map_to_list m) ->
  run h range' torn' true notice' = (notice', Current).
Proof.
  intros Hrun range' torn' Hr Hr'. revert Hrun. unfold run. destruct (linkedModules h) as [mods|]; [|done].
  destruct (size mods <? 2)%nat; [done|].
  destruct (collect h (range mods)) as [attrs|] eqn:Ec; [|done].
  assert (collect h (range' mods) = Some attrs) as ->.
  { eapply collect_order; [|eauto|exact Ec].
    - by rewrite Hr, Hr'.
    - intros m d1 d2. rewrite Hr, !elem_of_map_to_list. congruence. }
  destruct attrs as [|a attrs]; [done|]. cbn [negb]. destruct torn; [done|]. intros [= <-].
  by rewrite seqb_refl.
Qed.

(** C40: Once [gennotice] exited 0, [gennotice -check] exits 0 on the file it
    left, whatever order the map of linked modules is ranged over in each of
    the two runs, and however the flag is spelled: the attributions, and with
    them the file, do not depend on that order. *)
Theorem regenerated_is_current h range range' torn torn' notice notice' args fs sts :
  (forall m, range m ≡ₚ map_to_list m) -> (forall m, range' m ≡ₚ map_to_list m) ->
  notice_command h range torn [] notice = (notice', 0%Z) ->
  command_line notice_formal args fs sts -> last_text sts "check" ≫= ParseBool = Some true ->
  run h range' torn' true notice' = (notice', Current) /\ notice_command h range' torn' args notice' = (notice', 0%Z).
Proof.
  intros Hr Hr' Hcmd Hc Ht.
  assert (run h range' torn' true notice' = (notice', Current)) as E.
  { unfold notice_command, notice_main in Hcmd. cbn in Hcmd. destruct (run h range torn false notice) as [n v] eqn:Er.
    apply (run_regenerated h range torn notice notice'); [|done|done]. rewrite Er.
    unfold run in Er. repeat case_match; simplify_eq; done. }
  split; [exact E|]. unfold notice_command.
  assert (bool_flag fs "check" = true) as Hb.
  { destruct Hc as [sts tail rest fs _ Ha]. rewrite (bool_flag_given notice_formal fs sts "check" false Ha eq_refl).
    destruct (last_text sts "check"); [|done]. cbn in Ht. by rewrite Ht. }
  destruct (command_line_Parse notice_formal args fs sts eq_refl Hc) as [rest ->]. unfold notice_main. by rewrite Hb, E.
Qed.

(** ** Examples *)

Module DemoNotice.

Definition prometheus : string := "github.com/prometheus/client_golang".

Definition host : toolchain := mkToolchain
  (fun _ => Some (prometheus +:+ String (chr 9) "/mod/prom" +:+ nl +:+ "gopkg.in/yaml.v3" +:+ String (chr 9) "/mod/yaml" +:+ nl))
  (Some ("ozone-oidc-proxy" +:+ nl))
  (fun d => Some (if d =s "/mod/prom" then [("LICENSE", false); ("NOTICE", false)] else [("NOTICE.md", true)]))
  (fun _ _ => Some ("Prometheus instrumentation library" +:+ nl))
  (fun s => s).

Definition attrs : list attribution :=
  [mkAttribution prometheus "NOTICE" "Prometheus instrumentation library"].

End DemoNotice.

Section Witnesses.
Import DemoNotice.

Lemma headings_render_witness : headings (render attrs) = {[ prometheus ]}.
Proof.
  rewrite (proj1 (headings_render attrs attrs ltac:(repeat constructor; vm_compute; intuition discriminate))).
  vm_compute. reflexivity.
Defined.

Lemma regenerated_is_current_witness :
  notice_command host map_to_list None [] None = (Some (render attrs), 0%Z) /\
  notice_command host (fun m => reverse (map_to_list m)) None ["--check"] (Some (render attrs)) = (Some (render attrs), 0%Z).
Proof.
  assert (notice_command host map_to_list None [] None = (Some (render attrs), 0%Z)) as Hrun by (vm_compute; reflexivity).
  split; [exact Hrun|].
  refine (proj2 (regenerated_is_current host map_to_list (fun m => reverse (map_to_list m)) None None None _ ["--check"]
    [("check", VBool true)] [mkSetting "check" "true" Bare true] _ _ Hrun _ _)).
  - intros m. reflexivity.
  - intros m. apply reverse_Permutation.
  - refine (command_settings notice_formal [mkSetting "check" "true" Bare true] [] [] _ _ _); [constructor|reflexivity].
  - reflexivity.
Defined.

End Witnesses.
